(* ===== verification/_CoqProject ===== *)
-Q . S2P
Prelude.v
PyStr.v
Base64.v
Json.v
JsonFacts.v
Template.v
PyFloat.v
Sha256.v
SparkModels.v
Settings.v
Helpers.v
CleanroomModels.v
AppBuilder.v
AppBuilderProps.v
Metrics.v
KubeClient.v
SparkBuilder.v
SparkBuilderProps.v
KubeWorld.v
Scheduler.v
Webhooks.v
SchedulerProps.v
WebhookProps.v
JobModels.v
JobRecordClient.v
JobRecordProps.v
Contracts.v
AiOptimizer.v
Frontend.v
StatusProps.v
FrontendWorld.v
FrontendProps.v
PyDate.v
Steps.v
Analytics.v
AnalyticsProps.v
AnalyticsOrder.v
AnalyticsAdapters.v
AnalyticsEntry.v
AnalyticsWorld.v
Launchers.v
LauncherProps.v
CodeLauncher.v
CodeLauncherProps.v
KServeModels.v
KServeBuilder.v
KServeClient.v
KServeFrontend.v
KServeProps.v
KServeDeploy.v
KServeWorld.v
Md5.v
SpecModels.v
ConfigModels.v
ConfigHelpers.v
Encryptor.v
EncryptorProps.v
ConfigProps.v
DeployTemplate.v
DeployTemplateProps.v
DeployWorld.v
InitContainer.v
Firewall.v
FirewallProps.v
SidecarConfig.v
JsonIndent.v
CliStores.v
CliData.v
CliConfig.v
CliGov.v
CliDeploy.v
CliCollab.v
CliCcf.v
CliCluster.v
AciToK8s.v
CliProps.v
CliGovProps.v
CliCollabProps.v
CliWorld.v
CliCcfProps.v
