(* ===== verification/Prelude.v ===== *)
(** * Azure clean room: a verification library of its Python services

    Azure clean rooms run queries over data of several parties inside
    confidential pods.  The Python heart of the system is the Spark front end
    ([src/src/workloads/analytics/cleanroom-spark-frontend]): an HTTP service
    that turns a query request into a Spark application with its sidecars and
    the policies the confidential hardware enforces, submits it to Kubernetes,
    places and labels its pods through admission webhooks, and keeps a history
    of the runs of each query.  Inside the pods, mount launchers bring the data
    in and the analytics application runs the query.  This library models the
    front end together with the packages it is built from: the clean room
    application builder ([src/src/internal/frontend-internal]), the data models
    of the SDK ([src/src/sdk/.../models/cleanroom.py]) and the event contracts
    ([src/src/workloads/analytics/contracts]); the analytics application
    ([src/src/workloads/analytics/analytics-app]); the mount launchers with
    the utilities they share ([src/src/blobfuse-launcher], [src/src/s3fs-launcher],
    [src/src/internal/cleanroom-internal]); the code launcher of clean rooms
    that run an application container ([src/src/code-launcher]); the KServe
    front end that deploys models for inferencing
    ([src/src/workloads/inferencing/kserve-inferencing-frontend]); the library
    with which the parties configure and deploy such a clean room
    ([src/src/tools/azure-cli-extension/.../azure_cleanroom_core]) and the
    commands above it ([azext_cleanroom]: secret and data stores, the
    configuration of a clean room, governance, deployment, collaborations, CCF
    networks and clusters); the converter of deployment templates to pods
    ([src/src/tools/aci-to-k8s]); and the containers that set up a deployed clean room's network: the init
    container ([src/src/init]), the configuration of its proxy ([src/src/proxy])
    and of its telemetry collector ([src/src/otel-collector]).

    ** How the model corresponds to the code

    One definition per function or method, under its Python name where Rocq
    allows it (a leading underscore is dropped).  Exceptions are the values of
    [exn]; code that can only fail returns [res]; code with effects is a
    computation [M S A] that threads a state and keeps the state reached when
    an exception is raised, as Python does.  What is not in the repository (the
    Kubernetes API server, the OCI registry, files, HTTP, the clock, tenacity,
    pydantic's validation of foreign input) is a parameter, a record of
    operations; theorems that need to know how such a parameter behaves state it
    as a class ([TenacityLaws], [JobRecordServer], [KubeObjects], [KubeReads],
    [StatusServer], [HookServer], [SparkLaws], [AdapterLaws], [FileLaws],
    [PodmanLaws], [KServeServer], [ConfigFiles], [CryptFiles], [GcmLaws],
    [JinjaLaws], [CliFiles], [JsonArguments], [OperationServer]), and a concrete instance
    ([JobRecordProps], [KubeWorld], [FrontendWorld], [AnalyticsWorld],
    [LauncherProps], [CodeLauncherProps], [KServeWorld], [EncryptorProps],
    [DeployWorld], [FirewallProps], [CliWorld], [CliCcfProps]) shows that each class can be met.
    Python strings are lists of code points below 256, dictionaries are
    association lists in insertion order, floats are IEEE binary64
    ([PyFloat], from the standard library's [SpecFloat]), JSON values are the
    type [json]; JSON floats are outside the model and raise [Unrepresentable].

    ** Files

    - [Prelude], [PyStr], [PyFloat], [Base64], [Json], [JsonFacts],
      [Template], [Sha256]: exceptions, the state monad and its lemmas and
      automation; the parts of the Python language and standard library the
      code uses (str, int, urlparse, float arithmetic, rounding and [str], base64,
      json, string.Template and the percent operator, SHA-256).
    - [SparkModels], [Settings], [CleanroomModels], [Helpers]: the pydantic
      models ([models/spark_application_models.py], [config/configuration.py],
      [models/input_models.py], [cleanroom.py]) and [utilities/helpers.py].
    - [AppBuilder], [AppBuilderProps]: [cleanroom_application_builder.py], the
      sidecars of a clean room application.
    - [SparkBuilder], [SparkBuilderProps]:
      [builders/spark_application_builder.py] with its confidential and virtual
      variants and [utilities/job_converters.py]; when the mount names of builder and
      application agree.
    - [Metrics], [KubeClient], [KubeWorld]: [telemetry/metrics.py],
      [clients/kubernetes_client.py] and an in-memory API server.
    - [Scheduler], [Webhooks], [SchedulerProps], [WebhookProps]: the package
      [webhooks].
    - [JobModels], [JobRecordClient], [JobRecordProps]:
      [models/job_record_models.py] and [clients/job_record_client.py].
    - [Contracts]: the events, audit records and statistics of
      [analytics_contracts], and str.format.
    - [AiOptimizer]: [clients/ai_optimizer_client.py].
    - [Frontend], [StatusProps], [FrontendWorld], [FrontendProps]: [main.py].
    - [PyDate], [Steps]: calendar dates; frames of computations and
      [asyncio.gather].
    - [Analytics], [AnalyticsAdapters]: [analytics_workload] ([run_query.py],
      [dataset_loader.py], the configuration and query models; the HTTP client,
      the reporting adapters and their factory).  [AnalyticsProps],
      [AnalyticsOrder], [AnalyticsEntry], [AnalyticsWorld]: its theorems, the
      composition with the front end, and an in-memory Spark.
    - [Launchers], [LauncherProps]: [mountpoint_utilities.py],
      [secret_utilities.py], service readiness, the blobfuse and s3fs launchers,
      [spark_launcher.py].
    - [CodeLauncher], [CodeLauncherProps]: [code_launcher] (the endpoints of
      [main.py], [httpconnectors.py], [podman_utilities.py], [utilities.py],
      [executors.py]), its theorems and an in-memory podman.
    - [KServeModels], [KServeBuilder], [KServeClient], [KServeFrontend]: the
      models, builders, Kubernetes client and metrics, and [main.py] of
      [kserve_inferencing_frontend].  [KServeProps], [KServeDeploy],
      [KServeWorld]: its theorems and an in-memory cluster.
    - [Md5]: name-based UUIDs.
    - [SpecModels], [ConfigModels], [ConfigHelpers], [ConfigProps]: the models of
      [azure_cleanroom_core] (specification, datasets, secret stores, data stores,
      collaborations, identities), its configuration files and
      [config_add_datastore], with their theorems.
    - [Encryptor], [EncryptorProps]: encryption and decryption of files in
      [datastore_helpers.py], with the chunk functions of [aes_encryptor.go].
    - [DeployTemplate], [DeployTemplateProps], [DeployWorld]: the deployment
      template and the validation of a specification
      ([azure_cleanroom_core/utilities/helpers.py]), the compositions with the
      configuration and the code launcher, files and a registry in memory.
    - [InitContainer], [Firewall], [FirewallProps]: [setup-iptables.py] and its
      template; the packet rules of the script, the policy they implement.
    - [SidecarConfig]: [render_config.py] and [otel-collector-launcher.py].
    - [JsonIndent]: JSON with an indentation, and reading it back.
    - [CliStores], [CliData], [CliConfig], [CliProps]: [_secretstore_helpers.py],
      [secretstore_cmd.py], [_datastore_helpers.py], [datastore_cmd.py],
      [config_cmd.py] and the configuration and key commands of [custom.py].
    - [CliGov], [CliDeploy], [CliGovProps]: the governance and deployment
      commands of [custom.py].
    - [CliCollab], [CliCollabProps]: [collaboration_cmd.py] with the helpers for
      contexts, query segments, Spark applications and dataset policies.
    - [CliCcf], [CliCcfProps]: [custom_ccf.py],
      [custom_ccf_recovery_service.py] and [custom_ccf_consortium_manager.py];
      their theorems, and a provider in memory.
    - [CliCluster]: [custom_cleanroom_cluster.py].
    - [AciToK8s]: [aci-to-k8s/app.py], with its theorem.
    - [CliWorld]: files and a governance service in memory, in which the commands
      run.

    ** How the parts interact

    A request to [submit_sql_job] may consult the optimizer, is converted by
    [to_spark_spec] (which runs the Spark builder, which runs the clean room
    builder) and submitted by [KubeClient.submit_job]: two config maps with the
    policies, the application that refers to them, and their ownership.  When
    its pods are created the API server calls the webhooks: [scheduler_mutate]
    chooses a node, [mutate] reads the policy back from the config map and
    injects it.  In the pod each mount launcher writes a marker file when its
    store is mounted; the Spark launcher waits for the markers of all datasets
    before it starts Spark, which runs [Analytics.main] on the environment made
    by [sql_env_vars].  The running application reports events and statistics through
    [record_operational_event] and [record_statistics]; [get_status] reads the
    application, and at the first poll after the end records the run through
    [add_run] and marks the application.  In a clean room with an application
    container the code launcher waits for the same markers, asks the governance
    sidecar for consent and runs the container under podman.  A model is
    deployed by [deploy_inferencing_model]: the converter runs the inference
    service builder (on the same clean room builder), governance signs the
    policy, and the inference service is stored with its HTTPS companion service,
    whose traffic the proxy sidecar of the pod terminates.  A party that brings
    its own application configures a clean room in files ([config_add_datastore]
    on the stores it has declared), from which [get_deployment_template] makes
    the container group: the code launcher with the application in its command,
    a mount launcher per access point, and the policies of all containers.
    Its init container is given the network settings as arguments
    ([ccr_init_cmd]), renders the firewall script from them and runs it before
    the other containers start.  On the command line, [datastore_add_cmd] makes
    a store's key, which [datastore_upload_cmd] encrypts with and
    [config_wrap_deks] wraps for release to a clean room; a contract accepted by
    governance becomes a deployment with [governance_deployment_generate_cmd],
    whose policy file [governance_deployment_policy_propose_cmd] sends back.
    An application published with [collaboration_spark_sql_application_publish_cmd]
    is the one the Spark front end is later asked to run.  Governance itself
    runs on a CCF network that [ccf_network_up] builds: it asks the provider's
    client for a network and tracks the operation ([track_operation]), joins as
    operator, prepares recovery and says which host data may join.

    ** What the theorems show

    - Policies: a pod is admitted with exactly the policy its role was
      submitted with; every container of a confidential pod is listed in it;
      the announced host data is its digest; text substitution in policy
      documents is structural exactly when values need no escaping (and a
      counterexample when they do).
    - Scheduling: the chosen node is schedulable, has room and has the fewest
      pods; a review is answered with a placement or a rejection, whatever
      fails.
    - Sidecars: one storage sidecar per data store, ports distinct, identities
      served; virtual clusters get pods that can run there.
    - Job records: [add_run] refines an atomic append in the presence of other
      writers; the record's invariant, its history and its summary; conflicts;
      the limits of the duplicate check.
    - Front end: metrics count each submission once; polling counts the end of
      a labelled job once and that of an unlabelled one at every poll; dry runs
      preview the submission; the optimizer's failure changes nothing;
      statistics reach the recorded run; the attestation report binds the
      service certificate; webhook registration is an upsert; error codes.
    - Analytics application: it runs exactly the requested job; views expose
      allowed fields only; at most one output is written, the filtered and
      restricted result of the one last segment; segments run in order; the days
      of a range are loaded once each; every run is reported once; schemas have
      the described types; reports are sent a bounded number of times and never
      disturb the run.
    - Mounts: the outcome of a mount reaches the waiting containers; a half
      written marker does not; when the names of launcher and application agree.
    - Code launcher: containers start and telemetry leaves only with consent;
      the container's mounts are the declared ones, sources read-only; how a
      start is refused.
    - Inferencing: a deployed model is the requested one with its signed
      policy, its serving container is pinned by digest, HTTPS traffic reaches
      it, mounts propagate; submission is an upsert; without a signature nothing
      is deployed; every deployment is counted.
    - Configuration and deployment: adding a data store is an upsert of one
      access point and of one file; the active collaboration always exists; every
      container of a deployment template is covered by its policies; the
      application reaches its launcher; a clean room with an S3 store is never
      deployed; decrypting an encrypted file gives it back.
    - Network: the packets of a clean room meet the policy its specification
      states, when at most one endpoint is allowed; with more the rules are lost;
      a clean room whose TCP access was disabled is never deployed.
    - Command line: the key made for a data store is the one its data is
      uploaded with; the policy proposed to governance admits exactly the
      generated deployment; a published application's query is decoded by the
      analytics application as declared and its approvers own the datasets.
    - Networks: a tracked operation ends with its outcome; host data is admitted
      only with the policy it is the digest of; a recovery by key identifier
      never starts.  A pod converted from a template has its containers and one
      registry volume per application.
    - Contracts and helpers: messages of every event; application names;
      the allow-all policy's digest.

    ** Fuel

    Only the JSON parser recurses on fuel, the length of its input plus one;
    [JsonFacts.loads_fed] shows that it never runs out.  The retry loop is
    bounded by the source's five attempts.  The loop over the days of a date
    range takes the number of days as fuel; [AnalyticsProps.date_loop_visits_range]
    shows that this is enough.  [encrypt_loop] and [decrypt_loop] read a file
    block by block; [EncryptorProps.encrypt_decrypt] shows that any fuel beyond
    the length of the file is enough.  [md5_process] takes the number of words
    of the padded message, [shortest] and [below_one] the digits and the decimal
    exponent a binary64 can need.  The argument parser of the init container
    takes the number of its arguments plus one, the walk through packet chains a
    depth of which three is enough ([FirewallProps.network_enforced]); the retries
    of a copy are structural.  [track_loop] and [wait_ready] stand for loops that
    wait for a service and have no bound in the source; [operation_tracked] shows
    that any fuel beyond the polls the provider needs is enough.  [remove_http]
    takes the length of its text.  All other recursion is structural.

    ** What is not modelled

    Tracing spans, log lines, measured durations, most argument parsing and the
    ASGI server; loading of the YAML configuration; the idle loops of the
    launchers after their work is done.  Of the CLI extension: the deployment and
    upgrade of the governance client and service (docker compose, oras and version
    manifests), the merging of specifications, certificates made with openssl and
    the declaration of the commands' parameters; the generated SDKs and the REST
    wrapper of the commands ([cleanroom-client]).  Services
    in C#, Go and JavaScript are out of scope. *)

From Stdlib Require Export ZArith.
From Stdlib Require Import Lia DecimalString DecimalZ Sorted.
From stdpp Require Export base gmap strings option.
From stdpp Require Export list.

(** ** Python exceptions

    One constructor per exception class the modelled code raises or
    distinguishes in an [except] clause.  Classes that the code only ever
    handles through a common base ([ValueError] for JSON and base64 errors)
    share the base's constructor.  [Unrepresentable] marks a value outside
    the modelled part of Python's data (a code point above 255, a JSON
    float): no theorem hides it.  A [CleanroomSpecificationError] carries its
    printed form beside its code and message. *)
Inductive exn :=
| ApiException (status : option Z) (text : string)
| ResourceNotFound (text : string)
| JobRecordError (text : string)
| JobRecordConflictError (text : string)
| HTTPException (status_code : Z) (detail : string)
| ValueError (text : string)
| KeyError (key : string)
| AttributeError (text : string)
| TypeError (text : string)
| IndexError (text : string)
| AssertionError (text : string)
| ValidationError (text : string)
| ConnectionError (text : string)
| Timeout (text : string)
| HTTPError (text : string)
| PodmanError (text : string)
| PodmanAPIError (status : option Z) (text : string)
| PodmanNotFound (text : string)
| ImageNotFound (text : string)
| ConsentCheckFailure (text : string)
| PodmanContainerNotFound (text : string)
| UnboundLocalError (text : string)
| RuntimeError (text : string)
| FileNotFoundError (text : string)
| YAMLError (text : string)
| JSONDecodeError (text : string)
| CleanroomSpecificationError (code message text : string)
| CLIError (text : string)
| OtherException (text : string)
| Unrepresentable (text : string).

#[export] Instance exn_eq_dec : EqDecision exn.
Proof. solve_decision. Defined.

(** [str(z)] for an integer. *)
Definition str_of_Z (z : Z) : string := NilZero.string_of_int (Z.to_int z).

(** [str(e)]. A [KeyError] prints the repr of its key. *)
Definition exn_str (e : exn) : string :=
  match e with
  | KeyError k => "'" +:+ k +:+ "'"
  | HTTPException c d => str_of_Z c +:+ ": " +:+ d
  | ApiException _ t | ResourceNotFound t | JobRecordError t
  | JobRecordConflictError t | ValueError t | AttributeError t | TypeError t
  | IndexError t | AssertionError t | ValidationError t | ConnectionError t | Timeout t
  | HTTPError t | PodmanError t | PodmanAPIError _ t | PodmanNotFound t | ImageNotFound t
  | ConsentCheckFailure t | PodmanContainerNotFound t | UnboundLocalError t | RuntimeError t
  | FileNotFoundError t | YAMLError t | JSONDecodeError t | CleanroomSpecificationError _ _ t | CLIError t
  | OtherException t | Unrepresentable t => t
  end.

(** ** Results and effectful computations *)

Inductive res (A : Type) :=
| Ok (a : A)
| Err (e : exn).
Arguments Ok {A} _.
Arguments Err {A} _.

#[export] Instance res_eq_dec `{EqDecision A} : EqDecision (res A).
Proof. solve_decision. Defined.

#[export] Instance res_ret : MRet res := @Ok.
#[export] Instance res_bind : MBind res := fun A B f m =>
  match m with Ok a => f a | Err e => Err e end.
#[export] Instance res_fmap : FMap res := fun A B f m =>
  match m with Ok a => Ok (f a) | Err e => Err e end.

Definition is_ok {A} (r : res A) : bool :=
  match r with Ok _ => true | Err _ => false end.

Definition of_option {A} (e : exn) (o : option A) : res A :=
  match o with Some a => Ok a | None => Err e end.

(** [assert c, msg] *)
Definition py_assert (c : bool) (msg : string) : res unit :=
  if c then Ok () else Err (AssertionError msg).

(** A computation that threads a state and may raise.  As in Python the state
    reached when an exception is raised is kept. *)
Definition M (S A : Type) : Type := S -> S * res A.

Section StateMonad.
Context {S : Type}.

#[export] Instance M_ret : MRet (M S) := fun A a s => (s, Ok a).
#[export] Instance M_bind : MBind (M S) := fun A B f m s =>
  let '(s', r) := m s in
  match r with Ok a => f a s' | Err e => (s', Err e) end.

Definition raise {A} (e : exn) : M S A := fun s => (s, Err e).
Definition lift {A} (r : res A) : M S A := fun s => (s, r).

(** [try: m except Exception as e: h e]; a handler that re-raises uses
    [raise]. *)
Definition try_except {A} (m : M S A) (h : exn -> M S A) : M S A := fun s =>
  let '(s', r) := m s in
  match r with Ok a => (s', Ok a) | Err e => h e s' end.

(** [try: m finally: f] for a [f] that does not raise. *)
Definition finally {A} (m : M S A) (f : S -> S) : M S A := fun s =>
  let '(s', r) := m s in (f s', r).

Definition get_state : M S S := fun s => (s, Ok s).
Definition modify (f : S -> S) : M S unit := fun s => (f s, Ok ()).
End StateMonad.

(** [for x in l: body x acc] *)
Fixpoint fold_M {S A B} (f : B -> A -> M S B) (b : B) (l : list A) : M S B :=
  match l with
  | [] => mret b
  | a :: l' => b' ← f b a; fold_M f b' l'
  end.

Fixpoint mapM_res {A B} (f : A -> res B) (l : list A) : res (list B) :=
  match l with
  | [] => Ok []
  | a :: l' => b ← f a; bs ← mapM_res f l'; Ok (b :: bs)
  end.

Fixpoint fold_res {A B} (f : B -> A -> res B) (b : B) (l : list A) : res B :=
  match l with
  | [] => Ok b
  | a :: l' => b' ← f b a; fold_res f b' l'
  end.

(** ** Reasoning about results and computations *)

Section ResLemmas.
Context {A B : Type}.
Implicit Types (m : res A) (k : A -> res B).

Lemma res_bind_ok m k b : (m ≫= k) = Ok b <-> exists a, m = Ok a /\ k a = Ok b.
Proof. destruct m; cbn; naive_solver. Qed.

Lemma res_bind_err m k e :
  (m ≫= k) = Err e <-> m = Err e \/ exists a, m = Ok a /\ k a = Err e.
Proof. destruct m; cbn; naive_solver. Qed.

Lemma of_option_ok (e : exn) (o : option A) a : of_option e o = Ok a <-> o = Some a.
Proof. destruct o; cbn; naive_solver. Qed.
End ResLemmas.

Section MLemmas.
Context {S A B : Type}.
Implicit Types (m : M S A) (k : A -> M S B) (s : S).

Lemma M_bind_run m k s :
  (m ≫= k) s = match m s with (s', Ok a) => k a s' | (s', Err e) => (s', Err e) end.
Proof. unfold mbind, M_bind. by destruct (m s) as [? []]. Qed.

Lemma M_bind_ok m k s s' b :
  (m ≫= k) s = (s', Ok b) <-> exists s1 a, m s = (s1, Ok a) /\ k a s1 = (s', Ok b).
Proof. rewrite M_bind_run. destruct (m s) as [? []]; naive_solver. Qed.

Lemma M_bind_inv m k s s' r :
  (m ≫= k) s = (s', r) ->
  (exists s1 a, m s = (s1, Ok a) /\ k a s1 = (s', r)) \/
  (exists e, m s = (s', Err e) /\ r = Err e).
Proof. rewrite M_bind_run. destruct (m s) as [? []]; naive_solver. Qed.

Lemma lift_ok (r : res A) s s' a : lift r s = (s', Ok a) -> s' = s /\ r = Ok a.
Proof. unfold lift. destruct r; naive_solver. Qed.

Lemma try_except_run m (h : exn -> M S A) s :
  try_except m h s = match m s with (s', Ok a) => (s', Ok a) | (s', Err e) => h e s' end.
Proof. unfold try_except. by destruct (m s) as [? []]. Qed.

Lemma finally_run m (f : S -> S) s :
  finally m f s = (f (m s).1, (m s).2).
Proof. unfold finally. by destruct (m s). Qed.
End MLemmas.

Lemma mapM_res_Forall2 {A B} (f : A -> res B) l bs :
  mapM_res f l = Ok bs <-> Forall2 (fun a b => f a = Ok b) l bs.
Proof.
  revert bs; induction l as [|a l IH]; intros bs; cbn.
  - split; [intros [= <-]; constructor | by inversion 1].
  - rewrite res_bind_ok. setoid_rewrite res_bind_ok. setoid_rewrite IH. split.
    + intros (b & Hb & bs' & Hbs & [= <-]). by constructor.
    + inversion 1; subst. eauto 10.
Qed.

Lemma mapM_res_map {A B C} (f : B -> res C) (g : A -> B) (h : A -> C) l :
  (forall a, f (g a) = Ok (h a)) -> mapM_res f (map g l) = Ok (map h l).
Proof. intros H. induction l as [|a l IH]; [done|]. cbn. by rewrite H, IH. Qed.

Lemma mapM_res_map_id {A B} (f : B -> res A) (g : A -> B) l :
  (forall a, f (g a) = Ok a) -> mapM_res f (map g l) = Ok l.
Proof. intros H. rewrite (mapM_res_map f g id) by done. by rewrite map_id. Qed.

Lemma mapM_res_length {A B} (f : A -> res B) l bs :
  mapM_res f l = Ok bs -> length bs = length l.
Proof. intros H%mapM_res_Forall2. symmetry. by eapply Forall2_length. Qed.

(** ** Automation

    [py_inv] decomposes hypotheses of the shape [x ← m; k = Ok v] and closes
    contradictory branches; [py_run] steps a state computation. *)
Create HintDb py discriminated.
#[export] Hint Constructors res : py.
#[export] Hint Resolve eq_refl : py.

Ltac py_inv :=
  repeat match goal with
  | H : mbind _ _ = Ok _ |- _ => apply res_bind_ok in H; destruct H as (? & ? & H)
  | H : of_option _ _ = Ok _ |- _ => apply of_option_ok in H
  | H : Ok _ = Ok _ |- _ => injection H as H; subst
  | H : Err _ = Ok _ |- _ => discriminate H
  | H : Ok _ = Err _ |- _ => discriminate H
  | H : (_, _) = (_, _) |- _ => injection H as ? ?; subst
  end.

Ltac py_run :=
  repeat (rewrite ?M_bind_run, ?try_except_run, ?finally_run in *; cbn in *).

(** ** Lists shared by the components *)

(** [l[-n:]] for [0 < n]: the last [n] elements. *)
Definition last_n {A} (n : nat) (l : list A) : list A := drop (length l - n) l.

Section LastN.
Context {A : Type}.
Implicit Types l : list A.

Lemma last_n_length n l : length (last_n n l) = Nat.min n (length l).
Proof. unfold last_n. rewrite length_drop. lia. Qed.

Lemma last_n_all n l : length l <= n -> last_n n l = l.
Proof. intros H. unfold last_n. by replace (length l - n) with 0 by lia. Qed.

Lemma last_n_suffix n l : last_n n l `suffix_of` l.
Proof. exists (take (length l - n) l). unfold last_n. by rewrite take_drop. Qed.

Lemma last_n_snoc n l x : 0 < n -> last_n n (l ++ [x]) = last_n (n - 1) l ++ [x].
Proof.
  intros Hn. unfold last_n. rewrite length_app. cbn.
  rewrite drop_app_le by lia. f_equal. f_equal. lia.
Qed.

Lemma last_n_cons n x l : n <= length l -> last_n n (x :: l) = last_n n l.
Proof.
  intros Hn. unfold last_n. cbn [length].
  by replace (S (length l) - n) with (S (length l - n)) by lia.
Qed.

Lemma last_n_sublist n l : last_n n l `sublist_of` l.
Proof. unfold last_n. apply sublist_drop. Qed.

Lemma last_n_NoDup n l : NoDup l -> NoDup (last_n n l).
Proof. intros H. eapply sublist_NoDup; [exact H | apply last_n_sublist]. Qed.

Lemma last_n_fmap {B} (f : A -> B) n l : f <$> last_n n l = last_n n (f <$> l).
Proof. unfold last_n. by rewrite fmap_drop, length_fmap. Qed.

Lemma last_n_last_n n m l : last_n n (last_n m l) = last_n (Nat.min n m) l.
Proof.
  unfold last_n. rewrite drop_drop, length_drop. f_equal. lia.
Qed.
End LastN.

Section Filtering.
Context {A : Type}.

Lemma filter_all (P : A -> Prop) `{!forall x, Decision (P x)} (l : list A) : (forall x, P x) -> filter P l = l.
Proof.
  intros HP. induction l as [|x l IH]; [done|].
  rewrite filter_cons, IH. case_decide; [done | naive_solver].
Qed.

Lemma StronglySorted_weaken (R R' : A -> A -> Prop) l :
  (forall x y, R x y -> R' x y) -> StronglySorted R l -> StronglySorted R' l.
Proof.
  intros HR. induction 1 as [|x l Hl IH Hx]; constructor; [done|].
  eapply Forall_impl; [exact Hx | intros y; apply HR].
Qed.

Lemma StronglySorted_head (R : A -> A -> Prop) `{!Reflexive R} x l y :
  StronglySorted R (x :: l) -> y ∈ x :: l -> R x y.
Proof.
  intros [_ Hx]%StronglySorted_inv [->|Hy]%elem_of_cons; [done|].
  rewrite Forall_forall in Hx. by apply Hx.
Qed.
End Filtering.
