(* ===== verification/PyStr.v ===== *)
(** * Python strings

    A Python [str] is modelled as the sequence of its code points, which are
    restricted to the range below 256 (one [ascii] each); [bytes] use the same
    carrier.  This file holds the string operations of the language the
    services use: case folding, character replacement, slicing, splitting,
    integer parsing, and the UTF-8 codec of [str.encode] / [bytes.decode]. *)

From S2P Require Import Prelude.
From Stdlib Require Import Lia Ascii DecimalString DecimalZ.

Definition code (c : ascii) : N := N_of_ascii c.

(** ** Character classes *)

Definition in_range (lo hi : N) (c : ascii) : bool :=
  ((lo <=? code c) && (code c <=? hi))%N.

Definition is_digit (c : ascii) : bool := in_range 48 57 c.
Definition is_lower (c : ascii) : bool := in_range 97 122 c.
Definition is_upper (c : ascii) : bool := in_range 65 90 c.

(** [str.isspace] on the code points below 256. *)
Definition is_space (c : ascii) : bool :=
  in_range 9 13 c || in_range 28 32 c || (code c =? 133)%N || (code c =? 160)%N.

(** ** Elementwise maps *)

Fixpoint str_map (f : ascii -> ascii) (s : string) : string :=
  match s with
  | "" => ""
  | String c s' => String (f c) (str_map f s')
  end.

Fixpoint str_forall (P : ascii -> bool) (s : string) : bool :=
  match s with
  | "" => true
  | String c s' => P c && str_forall P s'
  end.

(** [s.lower()]: ASCII capitals and the Latin-1 capitals (multiplication sign
    excluded) move down by 32. *)
Definition lower_char (c : ascii) : ascii :=
  if is_upper c || (in_range 192 222 c && negb (code c =? 215)%N)
  then ascii_of_N (code c + 32) else c.

Definition lower (s : string) : string := str_map lower_char s.

(** [s.replace(c, by)] for a one-character [c]. *)
Fixpoint replace_char (c : ascii) (by_ s : string) : string :=
  match s with
  | "" => ""
  | String d s' =>
      if decide (d = c) then by_ +:+ replace_char c by_ s'
      else String d (replace_char c by_ s')
  end.

(** [s[:n]] for [0 <= n]. *)
Fixpoint str_take (n : nat) (s : string) : string :=
  match n, s with
  | S n', String c s' => String c (str_take n' s')
  | _, _ => ""
  end.

(** ** Splitting, joining, trimming *)

(** [s.split(c)] for a one-character separator: always at least one piece. *)
Fixpoint split_on (c : ascii) (s : string) : list string :=
  match s with
  | "" => [""]
  | String d s' =>
      if decide (d = c) then "" :: split_on c s'
      else match split_on c s' with
           | p :: ps => String d p :: ps
           | [] => [String d ""]
           end
  end.

(** [sep.join(l)] *)
Fixpoint join (sep : string) (l : list string) : string :=
  match l with
  | [] => ""
  | [x] => x
  | x :: l' => x +:+ sep +:+ join sep l'
  end.

Fixpoint lstrip (s : string) : string :=
  match s with
  | String c s' => if is_space c then lstrip s' else s
  | "" => ""
  end.

Fixpoint rstrip (s : string) : string :=
  match s with
  | "" => ""
  | String c s' =>
      match rstrip s' with
      | "" => if is_space c then "" else String c ""
      | t => String c t
      end
  end.

Definition strip (s : string) : string := rstrip (lstrip s).

(** [needle in s] *)
Definition str_contains (needle s : string) : bool :=
  match String.index 0 needle s with Some _ => true | None => false end.

(** Truth value of a string and of an optional string. *)
Definition str_truthy (s : string) : bool := negb (bool_decide (s = "")).
Definition ostr_truthy (o : option string) : bool :=
  match o with Some s => str_truthy s | None => false end.

(** ** [int(s)]

    Surrounding white space is dropped, a sign is allowed, and single
    underscores may stand between digits. *)
Definition digit_val (c : ascii) : Z := Z.of_N (code c) - 48.

Fixpoint int_digits (s : string) (acc : Z) (after_digit : bool) : option Z :=
  match s with
  | "" => if after_digit then Some acc else None
  | String c s' =>
      if is_digit c then int_digits s' (10 * acc + digit_val c)%Z true
      else if decide (c = "_"%char) then
        if after_digit then int_digits s' acc false else None
      else None
  end.

Definition py_int (s : string) : res Z :=
  of_option (ValueError ("invalid literal for int() with base 10: '" +:+ s +:+ "'"))
    (match strip s with
     | String "-" s' => Z.opp <$> int_digits s' 0 false
     | String "+" s' => int_digits s' 0 false
     | s' => int_digits s' 0 false
     end).

(** ** UTF-8

    Encoding of the code points below 256 takes one or two bytes.  Decoding
    raises on malformed input; a well-formed sequence for a code point above
    255 is [Unrepresentable]. *)
Fixpoint utf8_encode (s : string) : string :=
  match s with
  | "" => ""
  | String c s' =>
      if (code c <? 128)%N then String c (utf8_encode s')
      else String (ascii_of_N (192 + code c / 64))
             (String (ascii_of_N (128 + code c mod 64)) (utf8_encode s'))
  end.

Definition is_cont (c : ascii) : bool := in_range 128 191 c.

Fixpoint utf8_decode (b : string) : res string :=
  match b with
  | "" => Ok ""
  | String c b' =>
      if (code c <? 128)%N then t ← utf8_decode b'; Ok (String c t)
      else if in_range 194 195 c then
        match b' with
        | String d b'' =>
            if is_cont d
            then t ← utf8_decode b'';
                 Ok (String (ascii_of_N ((code c - 192) * 64 + (code d - 128))) t)
            else Err (ValueError "'utf-8' codec can't decode byte: invalid continuation byte")
        | "" => Err (ValueError "'utf-8' codec can't decode byte: unexpected end of data")
        end
      else if in_range 196 244 c then Err (Unrepresentable "code point above 255")
      else Err (ValueError "'utf-8' codec can't decode byte: invalid start byte")
  end.

(** ** Lemmas *)

Create HintDb pystr discriminated.

Lemma string_app_nil_r (s : string) : s +:+ "" = s.
Proof. induction s as [|c s IH]; [done|]. change (String c (s +:+ "") = String c s). by rewrite IH. Qed.

Lemma string_app_assoc (s t u : string) : (s +:+ t) +:+ u = s +:+ (t +:+ u).
Proof.
  induction s as [|c s IH]; [done|].
  change (String c ((s +:+ t) +:+ u) = String c (s +:+ (t +:+ u))). by rewrite IH.
Qed.

Lemma string_app_cons c (s t : string) : String c s +:+ t = String c (s +:+ t).
Proof. done. Qed.

Lemma string_length_app (s t : string) :
  String.length (s +:+ t) = String.length s + String.length t.
Proof. induction s as [|c s IH]; [done|]. rewrite string_app_cons. cbn. by rewrite IH. Qed.

Lemma str_forall_app P s t : str_forall P (s +:+ t) = str_forall P s && str_forall P t.
Proof.
  induction s as [|c s IH]; [done|]. rewrite string_app_cons. cbn.
  by rewrite IH, andb_assoc.
Qed.

Lemma str_forall_impl (P Q : ascii -> bool) s :
  (forall c, P c = true -> Q c = true) -> str_forall P s = true -> str_forall Q s = true.
Proof.
  intros HPQ. induction s as [|c s IH]; [done|]; cbn.
  rewrite !andb_true_iff. intros [??]; auto.
Qed.

Lemma str_map_forall f P s :
  (forall c, P (f c) = true) -> str_forall P (str_map f s) = true.
Proof. intros Hf. induction s; cbn; [done|]. by rewrite Hf. Qed.

Lemma str_map_length f s : String.length (str_map f s) = String.length s.
Proof. induction s; cbn; congruence. Qed.

Lemma str_take_length n s : String.length (str_take n s) = Nat.min n (String.length s).
Proof. revert n; induction s; intros [|n]; cbn; [done..|]. by rewrite IHs. Qed.

Lemma str_take_forall P n s : str_forall P s = true -> str_forall P (str_take n s) = true.
Proof.
  revert n; induction s; intros [|n]; cbn; [done..|].
  rewrite !andb_true_iff. intros [? ?]; auto.
Qed.

Lemma str_take_app n s t :
  String.length s <= n -> str_take n (s +:+ t) = s +:+ str_take (n - String.length s) t.
Proof.
  revert n; induction s as [|c s IH]; intros n Hn; cbn in Hn.
  - by rewrite Nat.sub_0_r.
  - destruct n as [|n]; [lia|]. rewrite string_app_cons. cbn [str_take String.length].
    rewrite IH by lia. done.
Qed.

Lemma str_take_all n s : String.length s <= n -> str_take n s = s.
Proof.
  revert n; induction s as [|c s IH]; intros [|n] Hn; cbn in *; [done..|lia|].
  by rewrite IH by lia.
Qed.

Lemma split_on_nonempty c s : split_on c s <> [].
Proof. induction s as [|d s IH]; cbn; [done|]. by repeat case_match. Qed.

(** Joining the pieces of a split with the separator gives the string back. *)
Lemma join_split c s : join (String c "") (split_on c s) = s.
Proof.
  induction s as [|d s IH]; cbn [split_on]; [done|].
  pose proof (split_on_nonempty c s) as Hne.
  destruct (decide (d = c)) as [->|].
  - destruct (split_on c s) as [|p ps]; [done|]. cbn [join] in *. by rewrite IH.
  - destruct (split_on c s) as [|p ps]; [done|]. subst s. by destruct ps.
Qed.

(** Encoding in UTF-8 and decoding is the identity. *)
Lemma utf8_char c : (code c <? 128)%N = false ->
  in_range 194 195 (ascii_of_N (192 + code c / 64)) = true /\
  (code (ascii_of_N (192 + code c / 64)) <? 128)%N = false /\
  is_cont (ascii_of_N (128 + code c mod 64)) = true /\
  ascii_of_N ((code (ascii_of_N (192 + code c / 64)) - 192) * 64
              + (code (ascii_of_N (128 + code c mod 64)) - 128)) = c.
Proof. by destruct c as [[] [] [] [] [] [] [] []]. Qed.

Lemma utf8_decode_encode s : utf8_decode (utf8_encode s) = Ok s.
Proof.
  induction s as [|c s IH]; [done|]. cbn [utf8_encode].
  destruct (code c <? 128)%N eqn:Hc.
  - cbn [utf8_decode]. by rewrite Hc, IH.
  - destruct (utf8_char c Hc) as (H1 & H2 & H3 & H4).
    cbn [utf8_decode]. by rewrite H2, H1, H3, IH; cbn; rewrite H4.
Qed.

(** Pure ASCII text is its own encoding. *)
Definition is_ascii (c : ascii) : bool := (code c <? 128)%N.

Lemma utf8_encode_ascii s : str_forall is_ascii s = true -> utf8_encode s = s.
Proof.
  induction s as [|c s IH]; [done|]. cbn [str_forall utf8_encode]. unfold is_ascii.
  rewrite andb_true_iff. intros [-> ?]. by rewrite IH.
Qed.

Lemma utf8_decode_ascii s : str_forall is_ascii s = true -> utf8_decode s = Ok s.
Proof. intros H. rewrite <-(utf8_encode_ascii s H) at 1. apply utf8_decode_encode. Qed.

#[export] Hint Resolve str_take_forall str_map_forall utf8_decode_ascii : pystr.

(** * [urllib.parse.urlparse]

    The host name and the path of a URL, as the Python standard library
    computes them. *)
(** [s.partition(c)] and [s.rpartition(c)] when the separator occurs. *)
Fixpoint partition_char (c : ascii) (s : string) : option (string * string) :=
  match s with
  | "" => None
  | String d s' =>
      if decide (d = c) then Some ("", s')
      else match partition_char c s' with
           | Some (a, b) => Some (String d a, b)
           | None => None
           end
  end.

Fixpoint rpartition_char (c : ascii) (s : string) : option (string * string) :=
  match s with
  | "" => None
  | String d s' =>
      match rpartition_char c s' with
      | Some (a, b) => Some (String d a, b)
      | None => if decide (d = c) then Some ("", s') else None
      end
  end.

Definition before (c : ascii) (s : string) : string :=
  match partition_char c s with Some (a, _) => a | None => s end.

Fixpoint has_char (c : ascii) (s : string) : bool :=
  match s with "" => false | String d s' => bool_decide (d = c) || has_char c s' end.

Definition scheme_char (c : ascii) : bool :=
  is_lower c || is_upper c || is_digit c || bool_decide (c ∈ ["+"; "-"; "."]%char).

(** Control characters and spaces in front, and tabs and line ends anywhere,
    are dropped. *)
Fixpoint strip_control (s : string) : string :=
  match s with
  | "" => ""
  | String c s' => if (code c <=? 32)%N then strip_control s' else s
  end.

Fixpoint drop_newlines (s : string) : string :=
  match s with
  | "" => ""
  | String c s' =>
      if ((code c =? 9) || (code c =? 10) || (code c =? 13))%N then drop_newlines s'
      else String c (drop_newlines s')
  end.

Definition split_scheme (url : string) : string * string :=
  match url, partition_char ":" url with
  | String c _, Some (String _ _ as s, rest) =>
      if (is_lower c || is_upper c) && str_forall scheme_char s then (lower s, rest) else ("", url)
  | _, _ => ("", url)
  end.

(** The authority: everything up to the first of [/?#]. *)
Fixpoint split_netloc (s : string) : string * string :=
  match s with
  | "" => ("", "")
  | String c s' =>
      if bool_decide (c ∈ ["/"; "?"; "#"]%char) then ("", s)
      else let '(a, b) := split_netloc s' in (String c a, b)
  end.

Definition uses_params : list string :=
  [""; "ftp"; "hdl"; "prospero"; "http"; "https"; "shttp"; "rtsp"; "rtspu"; "rtsps"; "sip"; "sips";
   "mms"; "sftp"; "tel"].

(** Parameters of the last path segment are not part of the path. *)
Definition drop_params (scheme path : string) : string :=
  if bool_decide (scheme ∈ uses_params) then
    match rpartition_char "/" path with
    | Some (a, b) => a +:+ "/" +:+ before ";" b
    | None => before ";" path
    end
  else path.

Record url := { url_netloc : string; url_path : string }.

Definition urlparse (text : string) : res url :=
  let '(scheme, rest) := split_scheme (drop_newlines (strip_control text)) in
  let '(netloc, rest) :=
    match rest with
    | String "/" (String "/" rest') => split_netloc rest'
    | _ => ("", rest)
    end in
  if xorb (has_char "[" netloc) (has_char "]" netloc) then Err (ValueError "Invalid IPv6 URL")
  else Ok {| url_netloc := netloc; url_path := drop_params scheme (before "?" (before "#" rest)) |}.

(** [.hostname]: user information, port and brackets removed, in lower case. *)
Definition url_hostname (u : url) : option string :=
  let hostinfo := match rpartition_char "@" (url_netloc u) with Some (_, b) => b | None => url_netloc u end in
  let host := match partition_char "[" hostinfo with
              | Some (_, bracketed) => before "]" bracketed
              | None => before ":" hostinfo
              end in
  if str_truthy host then
    Some match partition_char "%" host with
         | Some (a, zone) => lower a +:+ "%" +:+ zone
         | None => lower host
         end
  else None.

Example urlparse_blob :
  (fun u => (url_hostname u, url_path u)) <$> urlparse "https://MyStore.blob.core.windows.net:443/c/d;x?q#f"
  = Ok (Some "mystore.blob.core.windows.net", "/c/d").
Proof. reflexivity. Qed.
