(* ===== verification/Base64.v ===== *)
(** * Base64

    [base64.b64encode] and [base64.b64decode] (without [validate]) of the
    Python standard library, on bytes.  A byte is its eight bits, a sextet its
    six: encoding regroups three bytes into four sextets, decoding is the state
    machine of [binascii.a2b_base64], which skips characters outside the
    alphabet and stops at the padding. *)

From S2P Require Import Prelude PyStr.
From Stdlib Require Import Lia Ascii.

(** ** The alphabet *)

Record sextet := Sextet { x5 : bool; x4 : bool; x3 : bool; x2 : bool; x1 : bool; x0 : bool }.

Definition sextet_val (x : sextet) : N :=
  (32 * N.b2n (x5 x) + 16 * N.b2n (x4 x) + 8 * N.b2n (x3 x)
   + 4 * N.b2n (x2 x) + 2 * N.b2n (x1 x) + N.b2n (x0 x))%N.

Definition sextet_of (n : N) : sextet :=
  Sextet (N.testbit n 5) (N.testbit n 4) (N.testbit n 3)
         (N.testbit n 2) (N.testbit n 1) (N.testbit n 0).

Definition b64_char (x : sextet) : ascii :=
  let v := sextet_val x in
  if (v <? 26)%N then ascii_of_N (65 + v)
  else if (v <? 52)%N then ascii_of_N (97 + (v - 26))
  else if (v <? 62)%N then ascii_of_N (48 + (v - 52))
  else if (v =? 62)%N then "+"%char else "/"%char.

Definition b64_index (c : ascii) : option sextet :=
  sextet_of <$>
    (if is_upper c then Some (code c - 65)
     else if is_lower c then Some (code c - 97 + 26)
     else if is_digit c then Some (code c - 48 + 52)
     else if decide (c = "+"%char) then Some 62
     else if decide (c = "/"%char) then Some 63
     else None)%N.

(** ** Encoding *)

Fixpoint b64encode (s : string) : string :=
  match s with
  | "" => ""
  | String (Ascii a0 a1 a2 a3 a4 a5 a6 a7) "" =>
      String (b64_char (Sextet a7 a6 a5 a4 a3 a2))
        (String (b64_char (Sextet a1 a0 false false false false)) "==")
  | String (Ascii a0 a1 a2 a3 a4 a5 a6 a7) (String (Ascii b0 b1 b2 b3 b4 b5 b6 b7) "") =>
      String (b64_char (Sextet a7 a6 a5 a4 a3 a2))
        (String (b64_char (Sextet a1 a0 b7 b6 b5 b4))
           (String (b64_char (Sextet b3 b2 b1 b0 false false)) "="))
  | String (Ascii a0 a1 a2 a3 a4 a5 a6 a7)
      (String (Ascii b0 b1 b2 b3 b4 b5 b6 b7)
         (String (Ascii c0 c1 c2 c3 c4 c5 c6 c7) s')) =>
      String (b64_char (Sextet a7 a6 a5 a4 a3 a2))
        (String (b64_char (Sextet a1 a0 b7 b6 b5 b4))
           (String (b64_char (Sextet b3 b2 b1 b0 c7 c6))
              (String (b64_char (Sextet c5 c4 c3 c2 c1 c0)) (b64encode s'))))
  end.

(** ** Decoding *)

(** Position in the current quad with the bits left over from it. *)
Inductive quad :=
| Q0
| Q1 (l : sextet)
| Q2 (l3 l2 l1 l0 : bool)
| Q3 (l1 l0 : bool).

Definition quad_pos (q : quad) : nat :=
  match q with Q0 => 0 | Q1 _ => 1 | Q2 _ _ _ _ => 2 | Q3 _ _ => 3 end.

Definition quad_push (q : quad) (x : sextet) : quad * string :=
  match q with
  | Q0 => (Q1 x, "")
  | Q1 l => (Q2 (x3 x) (x2 x) (x1 x) (x0 x),
             String (Ascii (x4 x) (x5 x) (x0 l) (x1 l) (x2 l) (x3 l) (x4 l) (x5 l)) "")
  | Q2 l3 l2 l1 l0 => (Q3 (x1 x) (x0 x),
             String (Ascii (x2 x) (x3 x) (x4 x) (x5 x) l0 l1 l2 l3) "")
  | Q3 l1 l0 => (Q0,
             String (Ascii (x0 x) (x1 x) (x2 x) (x3 x) (x4 x) (x5 x) l0 l1) "")
  end.

Definition b64_end (q : quad) : res string :=
  match q with
  | Q0 => Ok ""
  | Q1 _ => Err (ValueError "Invalid base64-encoded string: number of data characters cannot be 1 more than a multiple of 4")
  | _ => Err (ValueError "Incorrect padding")
  end.

Fixpoint b64_go (q : quad) (pads : nat) (s : string) : res string :=
  match s with
  | "" => b64_end q
  | String c s' =>
      if decide (c = "="%char) then
        if (2 <=? quad_pos q) then
          if (4 <=? quad_pos q + S pads) then Ok ""
          else b64_go q (S pads) s'
        else b64_go q pads s'
      else
        match b64_index c with
        | None => b64_go q pads s'
        | Some x =>
            let '(q', out) := quad_push q x in
            t ← b64_go q' 0 s'; Ok (out +:+ t)
        end
  end.

Definition b64decode (s : string) : res string := b64_go Q0 0 s.

(** ** Lemmas *)

Lemma b64_index_char x : b64_index (b64_char x) = Some x.
Proof. by destruct x as [[] [] [] [] [] []]. Qed.

Lemma b64_char_not_pad x : b64_char x <> "="%char.
Proof. by destruct x as [[] [] [] [] [] []]. Qed.

Lemma b64_go_char q pads x s :
  b64_go q pads (String (b64_char x) s)
  = (t ← b64_go (quad_push q x).1 0 s; Ok ((quad_push q x).2 +:+ t)).
Proof.
  cbn [b64_go]. rewrite decide_False by apply b64_char_not_pad.
  rewrite b64_index_char. by destruct (quad_push q x).
Qed.

(** Every second recursive call of [b64encode] consumes three bytes. *)
Lemma string_ind3 (P : string -> Prop) :
  P "" -> (forall a, P (String a "")) -> (forall a b, P (String a (String b ""))) ->
  (forall a b c s, P s -> P (String a (String b (String c s)))) ->
  forall s, P s.
Proof.
  intros H0 H1 H2 H3.
  assert (forall s, P s /\ (forall a, P (String a s)) /\ (forall a b, P (String a (String b s))))
    as H; [|intros s; apply H].
  induction s as [|c s (IH1 & IH2 & IH3)]; repeat split; auto.
Qed.

Lemma b64_roundtrip s : b64decode (b64encode s) = Ok s.
Proof.
  unfold b64decode. induction s as [|a|a b|a b c s IH] using string_ind3; [done|..].
  - destruct a. cbn [b64encode]. by rewrite !b64_go_char.
  - destruct a, b. cbn [b64encode]. by rewrite !b64_go_char.
  - destruct a, b, c. cbn [b64encode]. rewrite !b64_go_char. cbn [quad_push fst snd].
    by rewrite IH.
Qed.

Lemma b64_char_ascii x : is_ascii (b64_char x) = true.
Proof. by destruct x as [[] [] [] [] [] []]. Qed.

Lemma b64encode_ascii s : str_forall is_ascii (b64encode s) = true.
Proof.
  induction s as [|a|a b|a b c s IH] using string_ind3; [done|..];
    repeat match goal with a : ascii |- _ => destruct a end;
    cbn [b64encode str_forall]; by rewrite ?b64_char_ascii, ?IH.
Qed.

Lemma b64encode_inj s t : b64encode s = b64encode t -> s = t.
Proof.
  intros H. enough (Ok s = Ok t) by congruence. by rewrite <-!b64_roundtrip, H.
Qed.

Lemma b64encode_empty s : b64encode s = "" -> s = "".
Proof. by intros H%(b64encode_inj s ""). Qed.

#[export] Hint Resolve b64_roundtrip b64encode_ascii : pystr.
