(* ===== verification/Json.v ===== *)
(** * JSON values, [json.dumps] and [json.loads]

    JSON values as the services build and read them: objects are Python dicts,
    so their members keep insertion order and a repeated key keeps its first
    position and its last value.  Floats are outside the model: [loads] answers
    [Unrepresentable] on a float literal.  [dumps_with w] prints with the
    separators ["," ++ w] and [":" ++ w] and the default [ensure_ascii]; [loads]
    is the scanner of the standard library on a fuel that its input bounds
    ([loads_fed]). *)

From S2P Require Import Prelude PyStr.
From Stdlib Require Import Lia Ascii DecimalString DecimalZ DecimalPos.

Inductive json :=
| JNull
| JBool (b : bool)
| JInt (z : Z)
| JStr (s : string)
| JArr (l : list json)
| JObj (kvs : list (string * json)).

(** The induction principle that reaches the values inside arrays and
    objects. *)
Section JsonInd.
Variable P : json -> Prop.
Hypothesis Hnull : P JNull.
Hypothesis Hbool : forall b, P (JBool b).
Hypothesis Hint : forall z, P (JInt z).
Hypothesis Hstr : forall s, P (JStr s).
Hypothesis Harr : forall l, Forall P l -> P (JArr l).
Hypothesis Hobj : forall kvs, Forall (fun kv => P kv.2) kvs -> P (JObj kvs).

Fixpoint json_nested_ind (j : json) : P j :=
  match j with
  | JNull => Hnull
  | JBool b => Hbool b
  | JInt z => Hint z
  | JStr s => Hstr s
  | JArr l => Harr l ((fix go l : Forall P l := match l with
      | [] => Forall_nil_2 _
      | x :: l' => Forall_cons_2 _ _ _ (json_nested_ind x) (go l')
      end) l)
  | JObj kvs => Hobj kvs ((fix go kvs : Forall (fun kv => P kv.2) kvs := match kvs with
      | [] => Forall_nil_2 _
      | kv :: kvs' => Forall_cons_2 _ _ _ (json_nested_ind kv.2) (go kvs')
      end) kvs)
  end.
End JsonInd.

(** ** Dictionaries *)

Fixpoint dict_lookup {A} (k : string) (d : list (string * A)) : option A :=
  match d with
  | [] => None
  | (k', v) :: d' => if decide (k = k') then Some v else dict_lookup k d'
  end.

(** [d[k] = v] *)
Fixpoint dict_set {A} (k : string) (v : A) (d : list (string * A)) : list (string * A) :=
  match d with
  | [] => [(k, v)]
  | (k', v') :: d' => if decide (k = k') then (k', v) :: d' else (k', v') :: dict_set k v d'
  end.

Definition dict_of_pairs {A} (l : list (string * A)) : list (string * A) :=
  foldl (fun d kv => dict_set kv.1 kv.2 d) [] l.

(** [j.get(k, default)]: only dicts have [get]. *)
Definition py_type (j : json) : string :=
  match j with
  | JNull => "NoneType" | JBool _ => "bool" | JInt _ => "int"
  | JStr _ => "str" | JArr _ => "list" | JObj _ => "dict"
  end.

Definition json_get (j : json) (k : string) (dflt : json) : res json :=
  match j with
  | JObj d => Ok (default dflt (dict_lookup k d))
  | _ => Err (AttributeError ("'" +:+ py_type j +:+ "' object has no attribute 'get'"))
  end.

(** [j[k]] *)
Definition json_item (j : json) (k : string) : res json :=
  match j with
  | JObj d => of_option (KeyError k) (dict_lookup k d)
  | _ => Err (TypeError ("'" +:+ py_type j +:+ "' object is not subscriptable"))
  end.

(** The truth value of a JSON value. *)
Definition json_truthy (j : json) : bool :=
  match j with
  | JNull => false
  | JBool b => b
  | JInt z => negb (z =? 0)%Z
  | JStr s => str_truthy s
  | JArr l => negb (bool_decide (length l = 0))
  | JObj d => negb (bool_decide (length d = 0))
  end.

(** ** Printing *)

Definition dquote : ascii := ascii_of_N 34.
Definition backslash : ascii := ascii_of_N 92.

Definition hex_digit (n : N) : ascii :=
  if (n <? 10)%N then ascii_of_N (48 + n) else ascii_of_N (87 + n).

Definition escape_char (c : ascii) : string :=
  let n := code c in
  if (n =? 34)%N then String backslash (String dquote "")
  else if (n =? 92)%N then String backslash (String backslash "")
  else if (n =? 10)%N then String backslash "n"
  else if (n =? 13)%N then String backslash "r"
  else if (n =? 9)%N then String backslash "t"
  else if (n =? 12)%N then String backslash "f"
  else if (n =? 8)%N then String backslash "b"
  else if in_range 32 126 c then String c ""
  else String backslash (String "u" (String "0" (String "0"
         (String (hex_digit (n / 16)) (String (hex_digit (n mod 16)) ""))))).

Fixpoint escape (s : string) : string :=
  match s with
  | "" => ""
  | String c s' => escape_char c +:+ escape s'
  end.

Definition quote (s : string) : string := String dquote (escape s +:+ String dquote "").

Fixpoint dumps_with (w : string) (j : json) : string :=
  match j with
  | JNull => "null"
  | JBool true => "true"
  | JBool false => "false"
  | JInt z => str_of_Z z
  | JStr s => quote s
  | JArr l => "[" +:+ join ("," +:+ w) (map (dumps_with w) l) +:+ "]"
  | JObj kvs =>
      "{" +:+ join ("," +:+ w)
                (map (fun kv => quote kv.1 +:+ (":" +:+ w) +:+ dumps_with w kv.2) kvs)
          +:+ "}"
  end.

Definition dumps (j : json) : string := dumps_with " " j.

(** [repr] of a string: single quotes unless only those occur in it. *)
Definition repr_char (q c : ascii) : string :=
  let n := code c in
  if decide (c = q) then String backslash (String c "")
  else if (n =? 92)%N then String backslash (String backslash "")
  else if (n =? 10)%N then String backslash "n"
  else if (n =? 13)%N then String backslash "r"
  else if (n =? 9)%N then String backslash "t"
  else if in_range 32 126 c || (in_range 161 255 c && negb (n =? 173)%N) then String c ""
  else String backslash (String "x" (String (hex_digit (n / 16)) (String (hex_digit (n mod 16)) ""))).

Fixpoint repr_chars (q : ascii) (s : string) : string :=
  match s with
  | "" => ""
  | String c s' => repr_char q c +:+ repr_chars q s'
  end.

Definition repr_str (s : string) : string :=
  let q := if str_contains "'" s && negb (str_contains (String dquote "") s)
           then dquote else "'"%char in
  String q (repr_chars q s +:+ String q "").

Fixpoint py_repr (j : json) : string :=
  match j with
  | JNull => "None"
  | JBool true => "True"
  | JBool false => "False"
  | JInt z => str_of_Z z
  | JStr s => repr_str s
  | JArr l => "[" +:+ join ", " (map py_repr l) +:+ "]"
  | JObj kvs => "{" +:+ join ", " (map (fun kv => repr_str kv.1 +:+ ": " +:+ py_repr kv.2) kvs) +:+ "}"
  end.

(** [str(j)], also inside an f-string. *)
Definition py_str (j : json) : string :=
  match j with JStr s => s | _ => py_repr j end.

(** ** Parsing *)

Definition json_error {A} (msg : string) : res A := Err (ValueError msg).
Definition no_fuel {A} : res A := Err (OtherException "json scanner: fuel").

Definition is_ws (c : ascii) : bool :=
  (code c =? 32)%N || (code c =? 9)%N || (code c =? 10)%N || (code c =? 13)%N.

Fixpoint skip_ws (s : string) : string :=
  match s with
  | String c s' => if is_ws c then skip_ws s' else s
  | "" => ""
  end.

Definition hex_val (c : ascii) : option N :=
  if is_digit c then Some (code c - 48)%N
  else if in_range 97 102 c then Some (code c - 87)%N
  else if in_range 65 70 c then Some (code c - 55)%N
  else None.

Definition hex4 (a b c d : ascii) : option N :=
  a ← hex_val a; b ← hex_val b; c ← hex_val c; d ← hex_val d;
  Some (4096 * a + 256 * b + 16 * c + d)%N.

Definition unescape (c : ascii) : option ascii :=
  match c with
  | "n"%char => Some (ascii_of_N 10)
  | "r"%char => Some (ascii_of_N 13)
  | "t"%char => Some (ascii_of_N 9)
  | "f"%char => Some (ascii_of_N 12)
  | "b"%char => Some (ascii_of_N 8)
  | "/"%char => Some c
  | _ => if decide (c = dquote) then Some c
         else if decide (c = backslash) then Some c else None
  end.

(** [scanstring] after the opening quote. *)
Fixpoint scan_str (s : string) : res (string * string) :=
  match s with
  | "" => json_error "Unterminated string"
  | String c s1 =>
      if decide (c = dquote) then Ok ("", s1)
      else if decide (c = backslash) then
        match s1 with
        | String "u" (String h1 (String h2 (String h3 (String h4 s2)))) =>
            match hex4 h1 h2 h3 h4 with
            | Some n =>
                if (n <? 256)%N
                then tr ← scan_str s2; Ok (String (ascii_of_N n) tr.1, tr.2)
                else Err (Unrepresentable "code point above 255")
            | None => json_error "Invalid \uXXXX escape"
            end
        | String e s2 =>
            match unescape e with
            | Some c' => tr ← scan_str s2; Ok (String c' tr.1, tr.2)
            | None => json_error "Invalid \escape"
            end
        | "" => json_error "Unterminated string"
        end
      else if (code c <? 32)%N then json_error "Invalid control character"
      else tr ← scan_str s1; Ok (String c tr.1, tr.2)
  end.

(** The longest run of digits. *)
Fixpoint take_uint (s : string) : Decimal.uint * string :=
  match s with
  | String c s' =>
      let '(d, r) := take_uint s' in
      match c with
      | "0"%char => (Decimal.D0 d, r) | "1"%char => (Decimal.D1 d, r)
      | "2"%char => (Decimal.D2 d, r) | "3"%char => (Decimal.D3 d, r)
      | "4"%char => (Decimal.D4 d, r) | "5"%char => (Decimal.D5 d, r)
      | "6"%char => (Decimal.D6 d, r) | "7"%char => (Decimal.D7 d, r)
      | "8"%char => (Decimal.D8 d, r) | "9"%char => (Decimal.D9 d, r)
      | _ => (Decimal.Nil, s)
      end
  | "" => (Decimal.Nil, "")
  end.

(** A fraction or an exponent follows: the number is a float. *)
Definition float_tail (s : string) : bool :=
  match s with
  | String c (String d s') =>
      if decide (c = "."%char) then is_digit d
      else if bool_decide (c = "e"%char) || bool_decide (c = "E"%char) then
        if is_digit d then true
        else if bool_decide (d = "+"%char) || bool_decide (d = "-"%char) then
          match s' with String e _ => is_digit e | "" => false end
        else false
      else false
  | _ => false
  end.

(** The digits of an integer part: a leading zero stands alone. *)
Definition scan_int (neg : bool) (s : string) : res (json * string) :=
  match s with
  | "" => json_error "Expecting value"
  | String c s' =>
      if is_digit c then
        let '(d, r) := if decide (c = "0"%char) then (Decimal.D0 Decimal.Nil, s')
                       else take_uint s in
        if float_tail r then Err (Unrepresentable "JSON float")
        else Ok (JInt (Z.of_int (if neg then Decimal.Neg d else Decimal.Pos d)), r)
      else json_error "Expecting value"
  end.

Fixpoint strip_prefix (p s : string) : option string :=
  match p, s with
  | "", _ => Some s
  | String c p', String d s' => if decide (c = d) then strip_prefix p' s' else None
  | _, "" => None
  end.

Definition scan_atom (s : string) : res (json * string) :=
  match strip_prefix "null" s, strip_prefix "true" s, strip_prefix "false" s with
  | Some r, _, _ => Ok (JNull, r)
  | _, Some r, _ => Ok (JBool true, r)
  | _, _, Some r => Ok (JBool false, r)
  | _, _, _ =>
      match strip_prefix "NaN" s, strip_prefix "Infinity" s, strip_prefix "-Infinity" s with
      | None, None, None =>
          match s with
          | String c s' => if decide (c = "-"%char) then scan_int true s' else scan_int false s
          | "" => json_error "Expecting value"
          end
      | _, _, _ => Err (Unrepresentable "JSON float")
      end
  end.

Fixpoint parse_value (n : nat) (s : string) {struct n} : res (json * string) :=
  match n with
  | 0 => no_fuel
  | S n =>
      match s with
      | "" => json_error "Expecting value"
      | String c s' =>
          if decide (c = dquote) then tr ← scan_str s'; Ok (JStr tr.1, tr.2)
          else if decide (c = "["%char) then
            match skip_ws s' with
            | String "]" r => Ok (JArr [], r)
            | s1 => lr ← parse_elems n s1; Ok (JArr lr.1, lr.2)
            end
          else if decide (c = "{"%char) then
            match skip_ws s' with
            | String "}" r => Ok (JObj [], r)
            | s1 => lr ← parse_members n s1; Ok (JObj (dict_of_pairs lr.1), lr.2)
            end
          else scan_atom s
      end
  end
with parse_elems (n : nat) (s : string) {struct n} : res (list json * string) :=
  match n with
  | 0 => no_fuel
  | S n =>
      vr ← parse_value n s;
      match skip_ws vr.2 with
      | String "," r => lr ← parse_elems n (skip_ws r); Ok (vr.1 :: lr.1, lr.2)
      | String "]" r => Ok ([vr.1], r)
      | _ => json_error "Expecting ',' delimiter"
      end
  end
with parse_members (n : nat) (s : string) {struct n} : res (list (string * json) * string) :=
  match n with
  | 0 => no_fuel
  | S n =>
      match s with
      | String c s' =>
          if decide (c = dquote) then
            kr ← scan_str s';
            match skip_ws kr.2 with
            | String ":" r =>
                vr ← parse_value n (skip_ws r);
                match skip_ws vr.2 with
                | String "," r' =>
                    lr ← parse_members n (skip_ws r'); Ok ((kr.1, vr.1) :: lr.1, lr.2)
                | String "}" r' => Ok ([(kr.1, vr.1)], r')
                | _ => json_error "Expecting ',' delimiter"
                end
            | _ => json_error "Expecting ':' delimiter"
            end
          else json_error "Expecting property name enclosed in double quotes"
      | "" => json_error "Expecting property name enclosed in double quotes"
      end
  end.

Definition loads (s : string) : res json :=
  vr ← parse_value (2 * String.length s + 2) (skip_ws s);
  match skip_ws vr.2 with
  | "" => Ok vr.1
  | _ => json_error "Extra data"
  end.
