(* ===== verification/JsonFacts.v ===== *)
(** * Facts about JSON: dictionaries, and the round trip of [dumps] and [loads] *)

From Stdlib Require Import Lia Ascii DecimalString DecimalZ DecimalPos DecimalFacts.
From S2P Require Import Prelude PyStr Json.

(** ** Dictionaries *)

Section DictFacts.
Context {A : Type}.
Implicit Types (d : list (string * A)) (k : string) (v : A).

Lemma dict_lookup_set_eq k v d : dict_lookup k (dict_set k v d) = Some v.
Proof. induction d as [|[k' v'] d IH]; cbn; repeat (case_decide; cbn); naive_solver. Qed.

Lemma dict_lookup_set_ne k k' v d :
  k <> k' -> dict_lookup k' (dict_set k v d) = dict_lookup k' d.
Proof. intros. induction d as [|[??] d IH]; cbn; repeat (case_decide; cbn); naive_solver. Qed.

Lemma dict_lookup_None k d : dict_lookup k d = None <-> k ∉ d.*1.
Proof.
  induction d as [|[k' v'] d IH]; cbn; [set_solver|].
  case_decide; subst; [set_solver|]. rewrite IH. set_solver.
Qed.

Lemma dict_lookup_elem k v d : dict_lookup k d = Some v -> (k, v) ∈ d.
Proof.
  induction d as [|[k' v'] d IH]; cbn; [done|]. case_decide; subst.
  - intros [= ->]. set_solver.
  - intros ?%IH. set_solver.
Qed.

Lemma dict_set_fresh k v d : k ∉ d.*1 -> dict_set k v d = d ++ [(k, v)].
Proof.
  induction d as [|[k' v'] d IH]; cbn; [done|].
  intros Hk. rewrite decide_False by set_solver. by rewrite IH by set_solver.
Qed.

Lemma dict_set_keys k v d : (dict_set k v d).*1 = if decide (k ∈ d.*1) then d.*1 else d.*1 ++ [k].
Proof.
  induction d as [|[k' v'] d IH]; cbn.
  - by rewrite decide_False by set_solver.
  - destruct (decide (k = k')) as [->|]; cbn.
    + by rewrite decide_True by set_solver.
    + rewrite IH. repeat case_decide; set_solver.
Qed.

Lemma dict_set_NoDup k v d : NoDup d.*1 -> NoDup (dict_set k v d).*1.
Proof.
  rewrite dict_set_keys. case_decide; [done|].
  intros. apply NoDup_app. split_and!; [done|set_solver|apply NoDup_singleton].
Qed.

Lemma dict_of_pairs_id d : NoDup d.*1 -> dict_of_pairs d = d.
Proof.
  unfold dict_of_pairs. intros Hd.
  enough (forall acc, NoDup (acc ++ d).*1 ->
    foldl (fun d kv => dict_set kv.1 kv.2 d) acc d = acc ++ d) as H by by apply (H []).
  clear Hd. induction d as [|[k v] d IH]; intros acc Hacc; cbn; [by rewrite app_nil_r|].
  rewrite fmap_app in Hacc. cbn in Hacc. apply NoDup_app in Hacc as (H1 & H2 & H3).
  apply NoDup_cons in H3 as [H3 H4].
  rewrite dict_set_fresh by (intros Hin; apply (H2 k Hin); set_solver).
  rewrite IH; [by rewrite <-app_assoc|].
  rewrite !fmap_app. cbn. rewrite <-app_assoc. cbn. apply NoDup_app. split_and!.
  - done.
  - intros x Hx. apply (H2 x Hx).
  - by constructor.
Qed.
End DictFacts.

(** ** Well-formed values: the keys of every object are distinct, as in a dict *)

Fixpoint json_wf (j : json) : bool :=
  match j with
  | JArr l => forallb json_wf l
  | JObj kvs => bool_decide (NoDup kvs.*1) && forallb (fun kv => json_wf kv.2) kvs
  | _ => true
  end.

(** ** Strings *)

Lemma scan_str_escape_char c t :
  scan_str (escape_char c +:+ t) = (tr ← scan_str t; Ok (String c tr.1, tr.2)).
Proof. by destruct c as [[] [] [] [] [] [] [] []]. Qed.

Lemma scan_str_escape s r : scan_str (escape s +:+ String dquote r) = Ok (s, r).
Proof.
  induction s as [|c s IH]; [done|]. cbn [escape].
  by rewrite string_app_assoc, scan_str_escape_char, IH.
Qed.

(** ** Numbers *)

(** What may follow a number in printed JSON. *)
Definition num_end (s : string) : bool :=
  match s with
  | String c _ => negb (is_digit c || bool_decide (c = "."%char)
                        || bool_decide (c = "e"%char) || bool_decide (c = "E"%char))
  | "" => true
  end.

Lemma num_end_float s : num_end s = true -> float_tail s = false.
Proof.
  destruct s as [|c [|d s]]; [done..|]. cbn. intros H.
  repeat case_decide; repeat case_bool_decide; subst; cbn in *;
    try done; by rewrite ?orb_true_r in H.
Qed.

Lemma take_uint_end s : num_end s = true -> take_uint s = (Decimal.Nil, s).
Proof.
  destruct s as [|[[] [] [] [] [] [] [] []] s]; [done|..];
    cbn [take_uint]; destruct (take_uint s); done.
Qed.

Lemma take_uint_string d r :
  num_end r = true -> take_uint (NilEmpty.string_of_uint d +:+ r) = (d, r).
Proof.
  intros Hr. induction d; cbn [NilEmpty.string_of_uint]; [by apply take_uint_end|..];
    rewrite string_app_cons; cbn [take_uint]; by rewrite IHd.
Qed.

(** A printed positive number has no leading zero. *)
Definition lead_digit (d : Decimal.uint) : Prop :=
  match d with Decimal.Nil | Decimal.D0 _ => False | _ => True end.

Lemma to_uint_lead p : lead_digit (Pos.to_uint p).
Proof.
  pose proof (DecimalPos.Unsigned.to_uint_nonnil p) as Hnil.
  pose proof (DecimalPos.Unsigned.to_uint_nonzero p) as Hnz.
  pose proof (DecimalPos.Unsigned.to_of (Pos.to_uint p)) as Hn.
  rewrite DecimalPos.Unsigned.of_to in Hn. cbn [N.to_uint] in Hn.
  destruct (Pos.to_uint p) as [|d| | | | | | | | |] eqn:E; cbn; try done.
  assert (Decimal.nzhead (Decimal.D0 d) = Decimal.Nil \/
          Decimal.nzhead (Decimal.D0 d) <> Decimal.Nil) as [H0|H0].
  { destruct (Decimal.nzhead (Decimal.D0 d)); naive_solver. }
  - apply unorm_0 in H0. congruence.
  - rewrite (unorm_nzhead _ H0) in Hn. symmetry in Hn. by apply nzhead_nonzero in Hn.
Qed.

Lemma scan_int_uint neg d r :
  lead_digit d -> num_end r = true ->
  scan_int neg (NilEmpty.string_of_uint d +:+ r)
  = Ok (JInt (Z.of_int (if neg then Decimal.Neg d else Decimal.Pos d)), r).
Proof.
  intros Hd Hr. pose proof (take_uint_string d r Hr) as Ht.
  destruct d; try done; cbn [NilEmpty.string_of_uint] in *;
    rewrite string_app_cons in *; cbn [scan_int];
    match goal with |- context [is_digit ?c] => change (is_digit c) with true end;
    cbv iota; rewrite decide_False by done; rewrite Ht; by rewrite num_end_float.
Qed.

(** The head of a value that is neither a string, an array nor an object. *)
Definition atom_head (s : string) : Prop :=
  match s with
  | String c _ => c <> dquote /\ c <> "["%char /\ c <> "{"%char
  | "" => False
  end.

Lemma parse_value_atom n s : atom_head s -> parse_value (S n) s = scan_atom s.
Proof.
  destruct s as [|c s]; [done|]. intros (? & ? & ?). cbn [parse_value].
  by rewrite !decide_False.
Qed.

Lemma nonzero_digit c : in_range 49 57 c = true -> is_digit c = true.
Proof. unfold is_digit, in_range. rewrite !andb_true_iff, !N.leb_le. lia. Qed.

Lemma string_of_uint_head d r : lead_digit d ->
  exists c s, NilEmpty.string_of_uint d +:+ r = String c s /\ in_range 49 57 c = true.
Proof. destruct d; try done; intros _; cbn; do 2 eexists; (split; [reflexivity|done]). Qed.

Lemma scan_atom_digit c s : is_digit c = true ->
  scan_atom (String c s) = scan_int false (String c s) /\
  scan_atom (String "-" (String c s)) = scan_int true (String c s) /\
  atom_head (String c s).
Proof. destruct c as [[] [] [] [] [] [] [] []]; done. Qed.

Lemma string_of_uint_lead d : lead_digit d ->
  NilZero.string_of_uint d = NilEmpty.string_of_uint d.
Proof. by destruct d. Qed.

Lemma parse_value_int n z r :
  num_end r = true -> parse_value (S n) (str_of_Z z +:+ r) = Ok (JInt z, r).
Proof.
  intros Hr. unfold str_of_Z. pose proof (DecimalZ.of_to z) as Hz.
  destruct z as [|p|p]; cbn [Z.to_int NilZero.string_of_int] in *.
  - destruct (scan_atom_digit "0" r eq_refl) as (H1 & _ & H3).
    change (NilZero.string_of_uint Decimal.zero +:+ r) with (String "0" r).
    rewrite (parse_value_atom n _ H3), H1. cbn [scan_int].
    change (is_digit "0") with true. cbv iota. rewrite decide_True by done.
    by rewrite num_end_float.
  - pose proof (to_uint_lead p) as Hl. rewrite (string_of_uint_lead _ Hl).
    destruct (string_of_uint_head _ r Hl) as (c & s & Hs & Hc).
    assert (is_digit c = true) as Hd by (by apply nonzero_digit).
    destruct (scan_atom_digit c s Hd) as (H1 & _ & H3).
    rewrite <-Hs in H1, H3. rewrite (parse_value_atom n _ H3), H1.
    rewrite scan_int_uint by done. cbv iota. by rewrite Hz.
  - pose proof (to_uint_lead p) as Hl. rewrite (string_of_uint_lead _ Hl).
    destruct (string_of_uint_head _ r Hl) as (c & s & Hs & Hc).
    assert (is_digit c = true) as Hd by (by apply nonzero_digit).
    destruct (scan_atom_digit c s Hd) as (_ & H2 & _).
    rewrite string_app_cons. rewrite parse_value_atom by done.
    rewrite Hs, H2, <-Hs. rewrite scan_int_uint by done. cbv iota. by rewrite Hz.
Qed.

(** ** The round trip *)

Section RoundTrip.
Variable w : string.
Hypothesis w_ws : str_forall is_ws w = true.

Lemma skip_ws_app v s : str_forall is_ws v = true -> skip_ws (v +:+ s) = skip_ws s.
Proof.
  induction v as [|c v IH]; [done|]. cbn [str_forall]. rewrite andb_true_iff.
  intros [Hc Hv]. rewrite string_app_cons. cbn [skip_ws]. rewrite Hc. auto.
Qed.

(** The first character of a printed value. *)
Definition value_head (s : string) : Prop :=
  match s with
  | String c _ => is_ws c = false /\ c <> "]"%char /\ c <> "}"%char
  | "" => False
  end.

Lemma value_head_skip s r : value_head s -> skip_ws (s +:+ r) = s +:+ r.
Proof.
  destruct s as [|c s]; [done|]. intros (Hc & _). rewrite string_app_cons.
  cbn [skip_ws]. by rewrite Hc.
Qed.

Lemma digit_head c s : is_digit c = true -> value_head (String c s).
Proof. by destruct c as [[] [] [] [] [] [] [] []]. Qed.

Lemma str_of_Z_head z : value_head (str_of_Z z).
Proof.
  unfold str_of_Z. destruct z as [|p|p]; [done| |]; cbn [Z.to_int NilZero.string_of_int].
  - pose proof (to_uint_lead p) as Hl. rewrite (string_of_uint_lead _ Hl).
    destruct (string_of_uint_head _ "" Hl) as (c & s & Hs & Hc).
    rewrite string_app_nil_r in Hs. rewrite Hs. by apply digit_head, nonzero_digit.
  - done.
Qed.

Lemma dumps_head j : value_head (dumps_with w j).
Proof. destruct j as [|[]| | | |]; try done. apply str_of_Z_head. Qed.

Lemma quote_app k s : quote k +:+ s = String dquote (escape k +:+ String dquote s).
Proof. unfold quote. by rewrite string_app_cons, string_app_assoc. Qed.

Lemma join_cons sep x y l : join sep (x :: y :: l) = x +:+ sep +:+ join sep (y :: l).
Proof. done. Qed.

Definition parses (j : json) : Prop := forall n r,
  2 * String.length (dumps_with w j) <= n -> num_end r = true ->
  parse_value n (dumps_with w j +:+ r) = Ok (j, r).

Lemma comma_app s : "," +:+ (w +:+ s) = String "," (w +:+ s).
Proof. done. Qed.

Lemma colon_app s : ":" +:+ (w +:+ s) = String ":" (w +:+ s).
Proof. done. Qed.

Lemma skip_comma s : skip_ws (String "," s) = String "," s.
Proof. done. Qed.

Lemma skip_colon s : skip_ws (String ":" s) = String ":" s.
Proof. done. Qed.

Lemma join_head sep x l : value_head x -> value_head (join sep (x :: l)).
Proof. destruct l; [done|]. rewrite join_cons. by destruct x. Qed.

Lemma parse_elems_print l : l <> [] -> Forall parses l -> forall n r,
  2 * String.length (join ("," +:+ w) (map (dumps_with w) l)) < n ->
  parse_elems n (join ("," +:+ w) (map (dumps_with w) l) +:+ String "]" r) = Ok (l, r).
Proof.
  intros Hne Hl. induction Hl as [|j l Hj Hl IH]; [done|]. intros n r Hn.
  destruct n as [|n]; [lia|]. cbn [parse_elems map] in *.
  destruct l as [|j' l]; cbn [map] in *.
  - cbn [join] in *. rewrite Hj by (done || lia). done.
  - rewrite join_cons in *. rewrite !string_length_app in Hn. cbn [String.length] in Hn.
    rewrite !string_app_assoc, comma_app. rewrite Hj by (done || lia).
    cbn [mbind res_bind snd fst]. rewrite skip_comma. cbv iota beta.
    rewrite skip_ws_app, value_head_skip by (done || apply join_head, dumps_head).
    rewrite IH; [done..|]. lia.
Qed.

Definition member (kv : string * json) : string :=
  quote kv.1 +:+ (":" +:+ w) +:+ dumps_with w kv.2.

Lemma parse_member n k j t :
  parses j -> num_end t = true -> 2 * String.length (dumps_with w j) <= n ->
  parse_members (S n) (member (k, j) +:+ t)
  = match skip_ws t with
    | String "," r' => lr ← parse_members n (skip_ws r'); Ok ((k, j) :: lr.1, lr.2)
    | String "}" r' => Ok ([(k, j)], r')
    | _ => json_error "Expecting ',' delimiter"
    end.
Proof.
  intros Hj Ht Hlen. unfold member. cbn [fst snd].
  rewrite string_app_assoc, quote_app. cbn [parse_members].
  rewrite decide_True by done. rewrite scan_str_escape. cbn [mbind res_bind snd fst].
  rewrite !string_app_assoc, colon_app, skip_colon. cbv iota beta.
  rewrite skip_ws_app, value_head_skip by (done || apply dumps_head).
  rewrite Hj by done. done.
Qed.

Lemma parse_members_print kvs :
  kvs <> [] -> Forall (fun kv => parses kv.2) kvs -> forall n r,
  2 * String.length (join ("," +:+ w) (map member kvs)) < n ->
  parse_members n (join ("," +:+ w) (map member kvs) +:+ String "}" r) = Ok (kvs, r).
Proof.
  intros Hne Hl. induction Hl as [|[k j] kvs Hj Hl IH]; [done|]. intros n r Hn.
  cbn [snd] in Hj. destruct n as [|n]; [lia|].
  assert (String.length (dumps_with w j) <= String.length (member (k, j))) as Hm.
  { unfold member. rewrite !string_length_app. cbn [snd]. lia. }
  destruct kvs as [|kv kvs]; cbn [map] in *.
  - cbn [join] in *. rewrite parse_member by (done || lia). done.
  - rewrite join_cons in *. rewrite !string_length_app in Hn. cbn [String.length] in Hn.
    rewrite !string_app_assoc, comma_app.
    rewrite parse_member by (done || lia). rewrite skip_comma. cbv iota beta.
    rewrite skip_ws_app, value_head_skip by (done || by apply join_head).
    rewrite IH; [done..|]. lia.
Qed.

Lemma join_length_pos sep x l : 1 <= String.length x -> 1 <= String.length (join sep (x :: l)).
Proof. destruct l; [done|]. rewrite join_cons, string_length_app. lia. Qed.

Lemma parse_arr_open n x s :
  value_head x ->
  parse_value (S n) (String "[" (x +:+ s)) = (lr ← parse_elems n (x +:+ s); Ok (JArr lr.1, lr.2)).
Proof.
  intros Hx. cbn [parse_value]. rewrite decide_False, decide_True by done.
  rewrite value_head_skip by done. destruct x as [|c x]; [done|].
  rewrite string_app_cons. destruct Hx as (_ & Hc & _).
  destruct c as [[] [] [] [] [] [] [] []]; done.
Qed.

Lemma parse_obj_open n x s :
  value_head x ->
  parse_value (S n) (String "{" (x +:+ s))
  = (lr ← parse_members n (x +:+ s); Ok (JObj (dict_of_pairs lr.1), lr.2)).
Proof.
  intros Hx. cbn [parse_value]. rewrite !decide_False, decide_True by done.
  rewrite value_head_skip by done. destruct x as [|c x]; [done|].
  rewrite string_app_cons. destruct Hx as (_ & _ & Hc).
  destruct c as [[] [] [] [] [] [] [] []]; done.
Qed.

Lemma dumps_pos j : 1 <= String.length (dumps_with w j).
Proof. pose proof (dumps_head j). destruct (dumps_with w j); cbn in *; [done|lia]. Qed.

Lemma dumps_parses j : json_wf j = true -> parses j.
Proof.
  induction j as [|b|z|s|l IH|kvs IH] using json_nested_ind; intros Hwf n r Hn Hr;
    (destruct n as [|n]; [match type of Hn with context [dumps_with w ?j] => pose proof (dumps_pos j); lia end|]).
  - done.
  - by destruct b.
  - by apply parse_value_int.
  - cbn [dumps_with]. rewrite quote_app. cbn [parse_value].
    rewrite decide_True by done. by rewrite scan_str_escape.
  - assert (Forall parses l) as Hl.
    { cbn in Hwf. apply forallb_True, Forall_forall in Hwf || rewrite forallb_forall in Hwf.
      apply Forall_forall. intros x Hx. rewrite Forall_forall in IH. apply IH; [done|].
      apply Hwf. by apply list_elem_of_In. }
    destruct l as [|j l]; [done|].
    cbn [dumps_with] in *. rewrite !string_length_app in Hn. cbn [String.length] in Hn.
    rewrite !string_app_assoc. change ("]" +:+ r) with (String "]" r).
    rewrite (string_app_cons "[" ""). change ("" +:+ ?s) with s.
    cbn [map] in *. rewrite parse_arr_open by apply join_head, dumps_head.
    change (dumps_with w j :: map (dumps_with w) l) with (map (dumps_with w) (j :: l)) in *.
    rewrite parse_elems_print by (done || lia). done.
  - cbn in Hwf. rewrite andb_true_iff in Hwf. destruct Hwf as [Hnd Hwf].
    apply bool_decide_eq_true in Hnd.
    assert (Forall (fun kv => parses kv.2) kvs) as Hl.
    { rewrite forallb_forall in Hwf. apply Forall_forall. intros x Hx.
      rewrite Forall_forall in IH. apply IH; [done|]. apply Hwf. by apply list_elem_of_In. }
    destruct kvs as [|kv kvs]; [done|].
    cbn [dumps_with] in *.
    change (map (fun kv => quote kv.1 +:+ (":" +:+ w) +:+ dumps_with w kv.2)) with (map member) in *.
    rewrite !string_length_app in Hn. cbn [String.length] in Hn.
    rewrite !string_app_assoc. change ("}" +:+ r) with (String "}" r).
    rewrite (string_app_cons "{" ""). change ("" +:+ ?s) with s.
    cbn [map] in *. rewrite parse_obj_open by by apply join_head.
    change (member kv :: map member kvs) with (map member (kv :: kvs)) in *.
    rewrite parse_members_print by (done || lia). cbn [mbind res_bind fst snd].
    by rewrite dict_of_pairs_id.
Qed.

Lemma loads_dumps_with j : json_wf j = true -> loads (dumps_with w j) = Ok j.
Proof.
  intros Hwf. unfold loads.
  pose proof (dumps_parses j Hwf (2 * String.length (dumps_with w j) + 2) "") as H.
  rewrite string_app_nil_r in H.
  pose proof (value_head_skip (dumps_with w j) "" (dumps_head j)) as Hs.
  rewrite string_app_nil_r in Hs. rewrite Hs, H by (done || lia). done.
Qed.
End RoundTrip.

Lemma loads_dumps j : json_wf j = true -> loads (dumps j) = Ok j.
Proof. by apply loads_dumps_with. Qed.

(** Printed JSON is pure ASCII. *)
Lemma escape_char_ascii c : str_forall is_ascii (escape_char c) = true.
Proof. by destruct c as [[] [] [] [] [] [] [] []]. Qed.

Lemma escape_ascii s : str_forall is_ascii (escape s) = true.
Proof. induction s as [|c s IH]; [done|]. cbn. by rewrite str_forall_app, escape_char_ascii, IH. Qed.

Lemma quote_ascii s : str_forall is_ascii (quote s) = true.
Proof. unfold quote. cbn. by rewrite str_forall_app, escape_ascii. Qed.

Lemma join_forall P sep l :
  str_forall P sep = true -> Forall (fun s => str_forall P s = true) l ->
  str_forall P (join sep l) = true.
Proof.
  intros Hs Hl. induction Hl as [|x l Hx Hl IH]; [done|]. destruct l as [|y l]; [done|].
  rewrite join_cons. by rewrite !str_forall_app, Hx, Hs, IH.
Qed.

Lemma uint_ascii d : str_forall is_ascii (NilEmpty.string_of_uint d) = true.
Proof. induction d; cbn [NilEmpty.string_of_uint str_forall]; by rewrite ?IHd. Qed.

Lemma str_of_Z_ascii z : str_forall is_ascii (str_of_Z z) = true.
Proof.
  unfold str_of_Z, NilZero.string_of_int.
  assert (forall d, str_forall is_ascii (NilZero.string_of_uint d) = true) as H.
  { intros []; [done|apply uint_ascii..]. }
  destruct (Z.to_int z) as [d|d]; [apply H|]. cbn [str_forall]. by rewrite H.
Qed.

Lemma dumps_with_ascii w j :
  str_forall is_ascii w = true -> str_forall is_ascii (dumps_with w j) = true.
Proof.
  intros Hw. induction j as [|b|z|s|l IH|kvs IH] using json_nested_ind; [done|..].
  - by destruct b.
  - apply str_of_Z_ascii.
  - apply quote_ascii.
  - cbn [dumps_with]. rewrite !str_forall_app; apply andb_true_intro; split; [done|];
      apply andb_true_intro; split; [|done].
    apply join_forall; [by rewrite str_forall_app|]. by apply Forall_map.
  - cbn [dumps_with]. rewrite !str_forall_app; apply andb_true_intro; split; [done|];
      apply andb_true_intro; split; [|done].
    apply join_forall; [by rewrite str_forall_app|]. apply Forall_map.
    eapply Forall_impl; [exact IH|]. intros kv Hkv. cbn in *.
    by rewrite !str_forall_app, quote_ascii, Hw, Hkv.
Qed.

Lemma dumps_ascii j : str_forall is_ascii (dumps j) = true.
Proof. by apply dumps_with_ascii. Qed.

#[export] Hint Resolve loads_dumps dumps_ascii dict_lookup_set_eq : pystr.

(** ** The fuel of [loads] suffices *)

Lemma skip_ws_length s : String.length (skip_ws s) <= String.length s.
Proof. induction s as [|c s IH]; cbn; [lia|]. destruct (is_ws c); cbn; lia. Qed.

(** [eats f]: a scanner that succeeds consumes at least one character. *)
Definition eats {A} (f : string -> res (A * string)) : Prop :=
  forall s v r, f s = Ok (v, r) -> String.length r < String.length s.

Lemma strip_prefix_length p s r :
  strip_prefix p s = Some r -> String.length s = String.length p + String.length r.
Proof.
  revert s; induction p as [|c p IH]; intros s; cbn.
  - by intros [= ->].
  - destruct s as [|d s]; [done|]. case_decide; [|done]. intros ?%IH. cbn. lia.
Qed.

Lemma take_uint_length s : String.length (take_uint s).2 <= String.length s.
Proof.
  induction s as [|c s IH]; [done|]. cbn [take_uint].
  destruct (take_uint s) as [d r]; cbn [snd] in *.
  destruct c as [[] [] [] [] [] [] [] []]; cbn; lia.
Qed.

Lemma take_uint_eats c s : is_digit c = true ->
  String.length (take_uint (String c s)).2 < S (String.length s).
Proof.
  pose proof (take_uint_length s) as Hl. cbn [take_uint].
  destruct (take_uint s) as [d r]; cbn [snd] in *.
  destruct c as [[] [] [] [] [] [] [] []]; intros; try done; cbn; lia.
Qed.

Lemma scan_int_eats neg : eats (scan_int neg).
Proof.
  intros [|c s] v r; cbn [scan_int]; [done|].
  destruct (is_digit c) eqn:Hc; [|done].
  pose proof (take_uint_eats c s Hc) as Ht.
  case_decide; [|destruct (take_uint (String c s)) as [d r']]; destruct (float_tail _);
    try done; intros [= <- <-]; cbn in *; lia.
Qed.

Lemma scan_atom_eats : eats scan_atom.
Proof.
  intros s v r. unfold scan_atom.
  destruct (strip_prefix "null" s) eqn:H1; [apply strip_prefix_length in H1; intros [= <- <-]; cbn in *; lia|].
  destruct (strip_prefix "true" s) eqn:H2; [apply strip_prefix_length in H2; intros [= <- <-]; cbn in *; lia|].
  destruct (strip_prefix "false" s) eqn:H3; [apply strip_prefix_length in H3; intros [= <- <-]; cbn in *; lia|].
  repeat case_match; try done; intros H'%scan_int_eats; cbn in *; lia.
Qed.

Lemma scan_str_eats : eats scan_str.
Proof.
  intros s. induction s as [s IH] using (induction_ltof1 _ String.length).
  unfold ltof in IH. intros v r.
  assert (forall c s' v r, String.length s' < String.length s ->
    (tr ← scan_str s'; Ok (String c tr.1, tr.2)) = Ok (v, r) ->
    String.length r < String.length s) as Hrec.
  { intros c s' v' r' Hs' H. py_inv. destruct x as [t' u']. cbn in *.
    pose proof (IH s' Hs' _ _ H0). lia. }
  destruct s as [|c s]; [done|]. cbn [scan_str].
  case_decide; [intros [= <- <-]; cbn; lia|].
  case_decide; [|destruct (code c <? 32)%N; [done|apply Hrec; cbn; lia]].
  destruct s as [|e s]; [done|].
  assert (match unescape e with
      | Some c' => tr ← scan_str s; Ok (String c' tr.1, tr.2)
      | None => json_error "Invalid \escape" end = Ok (v, r) ->
      String.length r < String.length (String c (String e s))) as Hesc.
  { destruct (unescape e); [apply Hrec; cbn; lia|done]. }
  destruct e as [[] [] [] [] [] [] [] []]; try exact Hesc.
  destruct s as [|h1 [|h2 [|h3 [|h4 s]]]]; [exact Hesc..|].
  destruct (hex4 h1 h2 h3 h4) as [n|]; [|done].
  destruct (n <? 256)%N; [|done]. apply Hrec. cbn; lia.
Qed.

Lemma bind_pair_ok {A B} (m : res (A * string)) (f : A -> B) v r :
  (x ← m; Ok (f x.1, x.2)) = Ok (v, r) -> exists a, m = Ok (a, r) /\ v = f a.
Proof. destruct m as [[a t]|]; cbn; [|done]. intros [= <- <-]. eauto. Qed.

Lemma parsers_eat n :
  eats (parse_value n) /\ eats (parse_elems n) /\ eats (parse_members n).
Proof.
  induction n as [|n (IHv & IHe & IHm)]; [done|]. split_and!; intros s v r.
  - destruct s as [|c s]; [done|]. cbn [parse_value].
    case_decide.
    { intros (t & Ht%scan_str_eats & _)%(bind_pair_ok _ JStr). cbn. lia. }
    pose proof (skip_ws_length s) as Hw.
    assert (forall t, String.length t = String.length (skip_ws s) ->
      (lr ← parse_elems n t; Ok (JArr lr.1, lr.2)) = Ok (v, r) ->
      String.length r < S (String.length s)) as He.
    { intros t Ht (l & Hl%IHe & _)%(bind_pair_ok _ JArr). lia. }
    assert (forall t, String.length t = String.length (skip_ws s) ->
      (lr ← parse_members n t; Ok (JObj (dict_of_pairs lr.1), lr.2)) = Ok (v, r) ->
      String.length r < S (String.length s)) as Hm.
    { intros t Ht (l & Hl%IHm & _)%(bind_pair_ok _ (fun l => JObj (dict_of_pairs l))). lia. }
    case_decide; [|case_decide; [|intros ?%scan_atom_eats; done]].
    + destruct (skip_ws s) as [|d t]; [by apply He|].
      destruct d as [[] [] [] [] [] [] [] []]; try (by apply He).
      intros [= <- <-]. cbn in *. lia.
    + destruct (skip_ws s) as [|d t]; [by apply Hm|].
      destruct d as [[] [] [] [] [] [] [] []]; try (by apply Hm).
      intros [= <- <-]. cbn in *. lia.
  - cbn [parse_elems]. intros ([v' r'] & Hv%IHv & H)%res_bind_ok. cbn [fst snd] in *.
    pose proof (skip_ws_length r') as Hw.
    destruct (skip_ws r') as [|d t]; [done|]. pose proof (skip_ws_length t) as Ht.
    cbn [String.length] in Hw.
    destruct d as [[] [] [] [] [] [] [] []]; try done; [injection H as <- <-; lia|].
    apply (bind_pair_ok _ (cons v')) in H as (l & Hl%IHe & _). lia.
  - cbn [parse_members]. destruct s as [|c s]; [done|]. case_decide; [|done].
    intros ([k r1] & Hk%scan_str_eats & H1)%res_bind_ok. cbn [fst snd String.length] in *.
    pose proof (skip_ws_length r1) as Hw1. destruct (skip_ws r1) as [|d t]; [done|].
    cbn [String.length] in Hw1.
    destruct d as [[] [] [] [] [] [] [] []]; try done.
    apply res_bind_ok in H1 as ([j r2] & Hj%IHv & H1). cbn [fst snd] in *.
    pose proof (skip_ws_length t) as Ht. pose proof (skip_ws_length r2) as Hw2.
    destruct (skip_ws r2) as [|d t']; [done|]. pose proof (skip_ws_length t') as Ht'.
    cbn [String.length] in Hw2.
    destruct d as [[] [] [] [] [] [] [] []]; try done; [injection H1 as <- <-; lia|].
    apply (bind_pair_ok _ (cons (k, j))) in H1 as (l & Hl%IHm & _). lia.
Qed.

(** [fuelled f b]: below the bound the scanner does not run out of fuel. *)
Definition starved {A} (r : res A) : Prop := r = no_fuel.

Lemma starved_bind {A B} (m : res A) (k : A -> res B) :
  ~ starved m -> (forall a, m = Ok a -> ~ starved (k a)) -> ~ starved (m ≫= k).
Proof. unfold starved, no_fuel. destruct m as [a|e]; cbn; [auto|congruence]. Qed.

Lemma scan_str_fed s : ~ starved (scan_str s).
Proof.
  induction s as [s IH] using (induction_ltof1 _ String.length). unfold ltof in IH.
  assert (forall c s', String.length s' < String.length s ->
    ~ starved (tr ← scan_str s'; Ok (String c tr.1, tr.2))) as Hrec.
  { intros c s' Hs'. apply starved_bind; [by apply IH|done]. }
  destruct s as [|c s]; [done|]. cbn [scan_str].
  case_decide; [done|].
  case_decide; [|destruct (code c <? 32)%N; [done|apply Hrec; cbn; lia]].
  destruct s as [|e s]; [done|].
  assert (~ starved match unescape e with
      | Some c' => tr ← scan_str s; Ok (String c' tr.1, tr.2)
      | None => json_error "Invalid \escape" end) as Hesc.
  { destruct (unescape e); [apply Hrec; cbn; lia|done]. }
  destruct e as [[] [] [] [] [] [] [] []]; try exact Hesc.
  destruct s as [|h1 [|h2 [|h3 [|h4 s]]]]; [exact Hesc..|].
  destruct (hex4 h1 h2 h3 h4) as [n|]; [|done].
  destruct (n <? 256)%N; [|done]. apply Hrec. cbn; lia.
Qed.

Lemma scan_atom_fed s : ~ starved (scan_atom s).
Proof. unfold scan_atom, scan_int. repeat case_match; try done. Qed.

Lemma parsers_fed n : forall s,
  (2 * String.length s < n -> ~ starved (parse_value n s)) /\
  (2 * String.length s + 1 < n -> ~ starved (parse_elems n s)) /\
  (2 * String.length s + 1 < n -> ~ starved (parse_members n s)).
Proof.
  induction n as [|n IH]; [intros; lia|].
  assert (forall s, 2 * String.length s < n -> ~ starved (parse_value n s)) as IHv by apply IH.
  assert (forall s, 2 * String.length s + 1 < n -> ~ starved (parse_elems n s)) as IHe by apply IH.
  assert (forall s, 2 * String.length s + 1 < n -> ~ starved (parse_members n s)) as IHm by apply IH.
  destruct (parsers_eat n) as (Ev & Ee & Em).
  intros s. split_and!; intros Hn.
  - destruct s as [|c s]; [done|]. cbn [parse_value String.length] in *.
    case_decide; [apply starved_bind; [apply scan_str_fed|done]|].
    pose proof (skip_ws_length s) as Hw.
    case_decide; [|case_decide; [|apply scan_atom_fed]].
    + destruct (skip_ws s) as [|d t]; [apply starved_bind; [apply IHe; cbn; lia|done]|].
      destruct d as [[] [] [] [] [] [] [] []];
        try (apply starved_bind; [apply IHe; cbn in *; lia|done]). done.
    + destruct (skip_ws s) as [|d t]; [apply starved_bind; [apply IHm; cbn; lia|done]|].
      destruct d as [[] [] [] [] [] [] [] []];
        try (apply starved_bind; [apply IHm; cbn in *; lia|done]). done.
  - cbn [parse_elems]. apply starved_bind; [apply IHv; lia|].
    intros [v r] Hv%Ev. cbn [fst snd]. pose proof (skip_ws_length r) as Hw.
    destruct (skip_ws r) as [|d t]; [done|]. pose proof (skip_ws_length t).
    destruct d as [[] [] [] [] [] [] [] []]; try done.
    apply starved_bind; [apply IHe; cbn in *; lia|done].
  - cbn [parse_members]. destruct s as [|c s]; [done|]. case_decide; [|done].
    cbn [String.length] in *. apply starved_bind; [apply scan_str_fed|].
    intros [k r1] Hk%scan_str_eats. cbn [fst snd]. pose proof (skip_ws_length r1) as Hw1.
    destruct (skip_ws r1) as [|d t]; [done|]. pose proof (skip_ws_length t).
    destruct d as [[] [] [] [] [] [] [] []]; try done.
    apply starved_bind; [apply IHv; cbn in *; lia|].
    intros [j r2] Hj%Ev. cbn [fst snd]. pose proof (skip_ws_length r2) as Hw2.
    destruct (skip_ws r2) as [|d t']; [done|]. pose proof (skip_ws_length t').
    destruct d as [[] [] [] [] [] [] [] []]; try done.
    apply starved_bind; [apply IHm; cbn in *; lia|done].
Qed.

(** [loads] never stops for lack of fuel: its errors are the scanner's. *)
Lemma loads_fed s : ~ starved (loads s).
Proof.
  unfold loads. apply starved_bind.
  - apply parsers_fed. pose proof (skip_ws_length s). lia.
  - intros vr _. by destruct (skip_ws vr.2).
Qed.
