(* ===== verification/Template.v ===== *)
(** * Template substitution

    [string.Template.substitute] of the Python standard library and the
    [replace_vars] helper of [cleanroom_application_builder.py], which prints a
    policy document as JSON, substitutes variables in the text and parses the
    result; also the [%] operator with one string argument.

    The theorem of this file is that substituting in the text is substituting
    in the document's strings, as long as the values need no JSON escaping. *)

From S2P Require Import Prelude PyStr Json JsonFacts.
From Stdlib Require Import Lia Ascii DecimalString DecimalZ.

(** ** [Template(s).substitute(vars)]

    A scanner over the text: [$$] is a dollar sign, [$name] and [${name}] are
    looked up, any other dollar sign is an error (whose position in the text is
    left out of the message). *)

Definition is_ident_start (c : ascii) : bool := is_lower c || is_upper c || bool_decide (c = "_"%char).
Definition is_ident (c : ascii) : bool := is_ident_start c || is_digit c.

Inductive tmode :=
| Plain
| Dollar
| Named (name : string)
| Braced (name : string).

Definition invalid_placeholder {A} : res A := Err (ValueError "Invalid placeholder in string").

Section Substitute.
Context (vars : list (string * json)).

Definition var_value (k : string) : res string :=
  of_option (KeyError k) (py_str <$> dict_lookup k vars).

Definition snoc (s : string) (c : ascii) : string := s +:+ String c "".

Fixpoint tgo (m : tmode) (s : string) : res string :=
  match s with
  | "" =>
      match m with
      | Plain => Ok ""
      | Dollar | Braced _ => invalid_placeholder
      | Named name => var_value name
      end
  | String c s' =>
      match m with
      | Plain => if decide (c = "$"%char) then tgo Dollar s' else String c <$> tgo Plain s'
      | Dollar =>
          if decide (c = "$"%char) then String c <$> tgo Plain s'
          else if decide (c = "{"%char) then tgo (Braced "") s'
          else if is_ident_start c then tgo (Named (String c "")) s'
          else invalid_placeholder
      | Named name =>
          if is_ident c then tgo (Named (snoc name c)) s'
          else
            v ← var_value name;
            rest ← (if decide (c = "$"%char) then tgo Dollar s' else String c <$> tgo Plain s');
            Ok (v +:+ rest)
      | Braced name =>
          if is_ident c && (str_truthy name || is_ident_start c) then tgo (Braced (snoc name c)) s'
          else if decide (c = "}"%char) then
            if str_truthy name then v ← var_value name; rest ← tgo Plain s'; Ok (v +:+ rest)
            else invalid_placeholder
          else invalid_placeholder
      end
  end.

Definition substitute (s : string) : res string := tgo Plain s.

(** [replace_vars(content, vars)] *)
Definition replace_vars (content : string) : res json :=
  spec ← substitute content; loads spec.

(** Substitution in the strings and keys of a document. *)
Fixpoint subst_json (j : json) : res json :=
  match j with
  | JStr s => JStr <$> substitute s
  | JArr l =>
      JArr <$> (fix go (l : list json) : res (list json) :=
                  match l with
                  | [] => Ok []
                  | x :: l' => x' ← subst_json x; l'' ← go l'; Ok (x' :: l'')
                  end) l
  | JObj kvs =>
      JObj <$> (fix go (kvs : list (string * json)) : res (list (string * json)) :=
                  match kvs with
                  | [] => Ok []
                  | (k, x) :: kvs' =>
                      k' ← substitute k; x' ← subst_json x; kvs'' ← go kvs'; Ok ((k', x') :: kvs'')
                  end) kvs
  | _ => Ok j
  end.

Definition subst_member (kv : string * json) : res (string * json) :=
  k' ← substitute kv.1; x' ← subst_json kv.2; Ok (k', x').

Lemma subst_json_arr l : subst_json (JArr l) = JArr <$> mapM_res subst_json l.
Proof.
  cbn [subst_json]. f_equal. induction l as [|x l IH]; [reflexivity|]. cbn [mapM_res]. by rewrite IH.
Qed.

Lemma subst_json_obj kvs : subst_json (JObj kvs) = JObj <$> mapM_res subst_member kvs.
Proof.
  cbn [subst_json]. f_equal. induction kvs as [|[k x] kvs IH]; [reflexivity|]. cbn [mapM_res].
  rewrite IH. unfold subst_member. cbn [fst snd].
  destruct (substitute k); cbn; [|done]. by destruct (subst_json x).
Qed.

(** ** Scanning in pieces *)

Definition no_dollar (c : ascii) : bool := negb (bool_decide (c = "$"%char)).

Lemma tgo_plain_cons c t : c <> "$"%char -> tgo Plain (String c t) = String c <$> tgo Plain t.
Proof. intros Hc. cbn. by rewrite decide_False. Qed.

Lemma res_fmap_compose {A B C} (f : A -> B) (g : B -> C) (m : res A) :
  g <$> (f <$> m) = (fun x => g (f x)) <$> m.
Proof. by destruct m. Qed.

Lemma res_fmap_ext {A B} (f g : A -> B) (m : res A) : (forall x, f x = g x) -> f <$> m = g <$> m.
Proof. intros H. destruct m; cbn; by rewrite ?H. Qed.

Lemma tgo_plain_prefix p t : str_forall no_dollar p = true ->
  tgo Plain (p +:+ t) = (fun r => p +:+ r) <$> tgo Plain t.
Proof.
  induction p as [|c p IH]; intros Hp.
  - change ("" +:+ t) with t. by destruct (tgo Plain t).
  - cbn in Hp. apply andb_true_iff in Hp as [Hc Hp]. rewrite string_app_cons.
    unfold no_dollar in Hc. rewrite negb_true_iff, bool_decide_eq_false in Hc.
    rewrite tgo_plain_cons, IH, res_fmap_compose by done.
    apply res_fmap_ext. intros r. by rewrite string_app_cons.
Qed.

(** A closing quote ends whatever was being scanned. *)
Lemma tgo_quote m u t :
  tgo m (u +:+ String dquote t) = (a ← tgo m u; b ← tgo Plain t; Ok (a +:+ String dquote b)).
Proof.
  revert m. induction u as [|c u IH]; intros m.
  - change ("" +:+ String dquote t) with (String dquote t).
    destruct m as [| |name|name]; cbn; by destruct (tgo Plain t).
  - rewrite string_app_cons.
    assert (forall d : ascii, String d <$> tgo Plain (u +:+ String dquote t) =
      (a ← String d <$> tgo Plain u; b ← tgo Plain t; Ok (a +:+ String dquote b))) as Hd.
    { intros d. rewrite IH. destruct (tgo Plain u); cbn; [|done].
      destruct (tgo Plain t); cbn; [|done]. by rewrite string_app_cons. }
    assert (forall name (r1 r2 : res string), r1 = (a ← r2; b ← tgo Plain t; Ok (a +:+ String dquote b)) ->
      (v ← var_value name; rest ← r1; Ok (v +:+ rest)) =
      (a ← (v ← var_value name; rest ← r2; Ok (v +:+ rest)); b ← tgo Plain t; Ok (a +:+ String dquote b))) as Hv.
    { intros name r1 r2 ->. destruct (var_value name); cbn; [|done]. destruct r2; cbn; [|done].
      destruct (tgo Plain t); cbn; [|done]. by rewrite string_app_assoc. }
    destruct m as [| |name|name]; cbn [tgo].
    + destruct (decide (c = "$"%char)); [apply IH | apply Hd].
    + destruct (decide (c = "$"%char)); [apply Hd|].
      destruct (decide (c = "{"%char)); [apply IH|]. destruct (is_ident_start c); [apply IH | done].
    + destruct (is_ident c); [apply IH|]. apply Hv. destruct (decide (c = "$"%char)); [apply IH | apply Hd].
    + destruct (is_ident c && (str_truthy name || is_ident_start c)); [apply IH|].
      destruct (decide (c = "}"%char)); [|done]. destruct (str_truthy name); [|done]. apply Hv, IH.
Qed.
(** ** Substituting in the text of a string literal *)

(** The values print without JSON escapes. *)
Definition json_safe : Prop := forall k v, var_value k = Ok v -> escape v = v.

Lemma escape_app s t : escape (s +:+ t) = escape s +:+ escape t.
Proof. induction s as [|c s IH]; [done|]. rewrite string_app_cons. cbn. by rewrite IH, string_app_assoc. Qed.

(** A character is printed as itself, or as an escape sequence that no
    placeholder can contain. *)
Lemma escape_char_cases c :
  escape_char c = String c "" \/
  (exists p, escape_char c = String backslash p /\ str_forall no_dollar p = true /\
     is_ident c = false /\ is_ident_start c = false /\
     c <> "$"%char /\ c <> "{"%char /\ c <> "}"%char).
Proof. destruct c as [[] [] [] [] [] [] [] []]; first [left; reflexivity | right; eexists; repeat split; done]. Qed.

Lemma tgo_escape (Hsafe : json_safe) s : forall m,
  tgo m (escape s) = escape <$> tgo m s.
Proof.
  induction s as [|c s IH]; intros m.
  - destruct m as [| |name|]; try done. cbn. destruct (var_value name) eqn:Hv; cbn; [|done].
    by rewrite (Hsafe _ _ Hv).
  - assert (forall name (r1 r2 : res string), r1 = escape <$> r2 ->
      (v ← var_value name; rest ← r1; Ok (v +:+ rest)) =
      escape <$> (v ← var_value name; rest ← r2; Ok (v +:+ rest))) as Hv.
    { intros name r1 r2 ->. destruct (var_value name) eqn:Hn; cbn; [|done]. destruct r2; cbn; [|done].
      by rewrite escape_app, (Hsafe _ _ Hn). }
    change (escape (String c s)) with (escape_char c +:+ escape s).
    destruct (escape_char_cases c) as [Hc|(p & Hc & Hp & Hi & His & Hd & Ho & Hcl)]; rewrite Hc.
    + assert (forall d, escape_char d = String d "" ->
        String d <$> tgo Plain (escape s) = escape <$> (String d <$> tgo Plain s)) as Hplain.
      { intros d Hd. rewrite IH. destruct (tgo Plain s); cbn; [|done].
        by rewrite Hd, string_app_cons. }
      rewrite string_app_cons. change ("" +:+ escape s) with (escape s).
      destruct m as [| |name|name]; cbn [tgo].
      * destruct (decide (c = "$"%char)); [apply IH | by apply Hplain].
      * destruct (decide (c = "$"%char)); [by apply Hplain|]. destruct (decide (c = "{"%char)); [apply IH|].
        destruct (is_ident_start c); [apply IH | done].
      * destruct (is_ident c); [apply IH|]. apply Hv. destruct (decide (c = "$"%char)); [apply IH | by apply Hplain].
      * destruct (is_ident c && (str_truthy name || is_ident_start c)); [apply IH|].
        destruct (decide (c = "}"%char)); [|done]. destruct (str_truthy name); [|done]. apply Hv, IH.
    + assert (tgo Plain (String backslash p +:+ escape s) = escape <$> (String c <$> tgo Plain s)) as Hplain.
      { rewrite tgo_plain_prefix by (cbn; by rewrite Hp). rewrite IH, !res_fmap_compose.
        apply res_fmap_ext. intros r. cbn. by rewrite Hc. }
      rewrite string_app_cons in *. rewrite tgo_plain_cons in Hplain by done.
      destruct m as [| |name|name]; cbn [tgo];
        rewrite ?Hi, ?His, ?(decide_False _ _ Hd), ?(decide_False _ _ Ho), ?(decide_False _ _ Hcl); try done.
      by apply Hv.
Qed.

Lemma tgo_literal (Hsafe : json_safe) s t :
  tgo Plain (quote s +:+ t) = (a ← substitute s; b ← tgo Plain t; Ok (quote a +:+ b)).
Proof.
  rewrite quote_app, tgo_plain_cons by done. rewrite tgo_quote, (tgo_escape Hsafe).
  unfold substitute. destruct (tgo Plain s) as [a|e]; cbn; [|done].
  destruct (tgo Plain t) as [b|e]; cbn; [|done]. by rewrite quote_app.
Qed.

(** ** Substituting in a printed document *)

Context (w : string).
Hypothesis w_plain : str_forall no_dollar w = true.

Definition scans (j : json) : Prop := forall t,
  tgo Plain (dumps_with w j +:+ t) = (a ← subst_json j; b ← tgo Plain t; Ok (dumps_with w a +:+ b)).

Lemma comma_plain : str_forall no_dollar ("," +:+ w) = true.
Proof. by rewrite str_forall_app, w_plain. Qed.
Lemma colon_plain : str_forall no_dollar (":" +:+ w) = true.
Proof. by rewrite str_forall_app, w_plain. Qed.

Lemma scan_items {A} (sep : string) (print : A -> string) (f : A -> res A) l :
  str_forall no_dollar sep = true ->
  Forall (fun x => forall t, tgo Plain (print x +:+ t) = (a ← f x; b ← tgo Plain t; Ok (print a +:+ b))) l ->
  forall t, tgo Plain (join sep (map print l) +:+ t) =
    (as_ ← mapM_res f l; b ← tgo Plain t; Ok (join sep (map print as_) +:+ b)).
Proof.
  intros Hsep. induction 1 as [|x l Hx Hl IH]; intros t.
  - cbn [map join mapM_res mbind res_bind]. change ("" +:+ t) with t. by destruct (tgo Plain t).
  - destruct l as [|y l].
    + cbn [map join mapM_res]. rewrite Hx. destruct (f x); cbn; [|done]. by destruct (tgo Plain t).
    + cbn [map]. rewrite join_cons, !string_app_assoc, Hx.
      change (print y :: map print l) with (map print (y :: l)).
      rewrite tgo_plain_prefix, IH by done. cbn [mapM_res].
      destruct (f x) as [a|e]; cbn [mbind res_bind]; [|done].
      destruct (f y) as [a'|e]; cbn [mbind res_bind fmap res_fmap]; [|done].
      destruct (mapM_res f l) as [as_|e]; cbn [mbind res_bind fmap res_fmap]; [|done].
      destruct (tgo Plain t) as [b|e]; cbn [mbind res_bind fmap res_fmap]; [|done].
      cbn [map]. by rewrite join_cons, !string_app_assoc.
Qed.

Lemma uint_plain d : str_forall no_dollar (NilEmpty.string_of_uint d) = true.
Proof. induction d; cbn; auto. Qed.

Lemma str_of_Z_plain z : str_forall no_dollar (str_of_Z z) = true.
Proof.
  unfold str_of_Z, NilZero.string_of_int, NilZero.string_of_uint.
  destruct (Z.to_int z) as [d|d]; destruct d; try done; cbn; apply uint_plain.
Qed.

Lemma scans_plain j : subst_json j = Ok j -> str_forall no_dollar (dumps_with w j) = true -> scans j.
Proof.
  intros Hj Hp t. rewrite tgo_plain_prefix, Hj by done. cbn. by destruct (tgo Plain t).
Qed.

Lemma all_scan (Hsafe : json_safe) j : scans j.
Proof.
  induction j as [|b|z|s|l IH|kvs IH] using json_nested_ind.
  - by apply scans_plain.
  - apply scans_plain; by destruct b.
  - apply scans_plain; [done|]. apply str_of_Z_plain.
  - intros t. cbn [dumps_with subst_json]. rewrite (tgo_literal Hsafe). by destruct (substitute s).
  - intros t. rewrite subst_json_arr. cbn [dumps_with].
    rewrite !string_app_assoc, tgo_plain_prefix, (scan_items _ _ _ _ comma_plain IH) by done.
    destruct (mapM_res subst_json l) as [l'|e]; cbn [mbind res_bind fmap res_fmap]; [|done].
    rewrite tgo_plain_prefix by done. destruct (tgo Plain t); cbn [mbind res_bind fmap res_fmap]; [|done].
    cbn [dumps_with]. by rewrite !string_app_assoc.
  - intros t. rewrite subst_json_obj. cbn [dumps_with].
    rewrite !string_app_assoc, tgo_plain_prefix by done.
    rewrite (scan_items _ (fun kv => quote kv.1 +:+ (":" +:+ w) +:+ dumps_with w kv.2) subst_member _ comma_plain).
    2:{ eapply Forall_impl; [exact IH|]. intros [k x] Hx u. cbn [fst snd] in *.
        rewrite !string_app_assoc, (tgo_literal Hsafe). unfold subst_member. cbn [fst snd].
        destruct (substitute k) as [k'|e]; cbn [mbind res_bind]; [|done].
        rewrite <- (string_app_assoc ":" w), tgo_plain_prefix, Hx by apply colon_plain.
        destruct (subst_json x) as [x'|e]; cbn [mbind res_bind fmap res_fmap]; [|done].
        destruct (tgo Plain u); cbn [mbind res_bind fmap res_fmap]; [|done].
        cbn [fst snd]. by rewrite !string_app_assoc. }
    destruct (mapM_res subst_member kvs) as [l'|e]; cbn [mbind res_bind fmap res_fmap]; [|done].
    rewrite tgo_plain_prefix by done. destruct (tgo Plain t); cbn [mbind res_bind fmap res_fmap]; [|done].
    cbn [dumps_with]. by rewrite !string_app_assoc.
Qed.
End Substitute.

Lemma substitute_dumps vars j : json_safe vars ->
  substitute vars (dumps j) = dumps <$> subst_json vars j.
Proof.
  intros Hsafe. unfold substitute, dumps.
  pose proof (all_scan vars " " eq_refl Hsafe j "") as H. rewrite string_app_nil_r in H. rewrite H.
  destruct (subst_json vars j); cbn; [|done]. by rewrite string_app_nil_r.
Qed.

(** C33. Substituting variables in the JSON text of a document and parsing the
    result is the same as substituting them in the document's strings: no
    variable can change the document's structure, and a missing variable or a
    stray dollar sign fails in the same way, provided the values need no JSON
    escaping and the substituted document has no clashing keys. *)
Theorem replace_vars_structural vars j : json_safe vars ->
  (forall j', subst_json vars j = Ok j' -> json_wf j' = true) ->
  replace_vars vars (dumps j) = subst_json vars j.
Proof.
  intros Hsafe Hwf. unfold replace_vars. rewrite substitute_dumps by done.
  destruct (subst_json vars j) as [j'|e]; cbn; [|done]. apply loads_dumps. by apply Hwf.
Qed.

Definition demo_document : json :=
  JObj [("image", JStr "${containerRegistryUrl}/skr@$digest");
        ("command", JArr [JStr "--port"; JInt 6300; JStr "$$HOME"])].

Definition demo_vars : list (string * json) :=
  [("containerRegistryUrl", JStr "mcr.microsoft.com"); ("digest", JStr "sha256:00")].

Lemma replace_vars_structural_witness :
  replace_vars demo_vars (dumps demo_document) =
    Ok (JObj [("image", JStr "mcr.microsoft.com/skr@sha256:00");
              ("command", JArr [JStr "--port"; JInt 6300; JStr "$HOME"])]).
Proof.
  rewrite (replace_vars_structural demo_vars demo_document).
  - reflexivity.
  - intros k v. unfold var_value, demo_vars. cbn [dict_lookup].
    repeat case_decide; cbn; intros Hv; inversion Hv; reflexivity.
  - intros j' Hj. injection Hj as <-. reflexivity.
Defined.

(** A value with a quote in it. *)
Definition quoted_value : string :=
  "x" +:+ String dquote "," +:+ String dquote "allow_elevated" +:+ String dquote ":true," +:+ String dquote
    "y" +:+ String dquote ":" +:+ String dquote "z".

(** Without that proviso the text substitution is not the structural one:
    a value that contains quotes becomes part of the document's syntax and adds
    fields of its own to it. *)
Theorem replace_vars_can_inject :
  subst_json [("contractId", JStr quoted_value)] (JObj [("id", JStr "$contractId")])
    = Ok (JObj [("id", JStr quoted_value)]) /\
  replace_vars [("contractId", JStr quoted_value)] (dumps (JObj [("id", JStr "$contractId")]))
    = Ok (JObj [("id", JStr "x"); ("allow_elevated", JBool true); ("y", JStr "z")]).
Proof. split; vm_compute; reflexivity. Qed.

(** ** [fmt % arg] with one string argument

    Only [%s] and [%%] occur in the repository's formats; another conversion is
    [Unrepresentable]. *)
Fixpoint percent_go (arg : string) (used : bool) (s : string) : res string :=
  match s with
  | "" => if used then Ok ""
          else Err (TypeError "not all arguments converted during string formatting")
  | String "%" s' =>
      match s' with
      | String "%" s'' => String "%" <$> percent_go arg used s''
      | String "s" s'' =>
          if used then Err (TypeError "not enough arguments for format string")
          else (fun r => arg +:+ r) <$> percent_go arg true s''
      | "" => Err (ValueError "incomplete format")
      | _ => Err (Unrepresentable "format conversion")
      end
  | String c s' => String c <$> percent_go arg used s'
  end.

Definition percent_format (fmt arg : string) : res string := percent_go arg false fmt.

Definition no_percent (c : ascii) : bool := negb (bool_decide (c = "%"%char)).

Lemma percent_go_plain arg used p s : str_forall no_percent p = true ->
  percent_go arg used (p +:+ s) = (fun r => p +:+ r) <$> percent_go arg used s.
Proof.
  induction p as [|c p IH]; intros Hp.
  - change ("" +:+ s) with s. by destruct (percent_go arg used s).
  - cbn [str_forall] in Hp. apply andb_true_iff in Hp as [Hc Hp]. rewrite string_app_cons.
    transitivity (String c <$> percent_go arg used (p +:+ s)).
    + destruct c as [[] [] [] [] [] [] [] []]; first [done | reflexivity].
    + rewrite IH, res_fmap_compose by done. apply res_fmap_ext. intros r. by rewrite string_app_cons.
Qed.

Lemma percent_format_one pre post arg :
  str_forall no_percent pre = true -> str_forall no_percent post = true ->
  percent_format (pre +:+ "%s" +:+ post) arg = Ok (pre +:+ arg +:+ post).
Proof.
  intros Hpre Hpost. unfold percent_format. rewrite percent_go_plain by done.
  change ("%s" +:+ post) with (String "%" (String "s" post)). cbn [percent_go].
  pose proof (percent_go_plain arg true post "" Hpost) as H. rewrite string_app_nil_r in H. rewrite H.
  cbn. by rewrite string_app_nil_r.
Qed.
