(* ===== verification/PyFloat.v ===== *)
(** * Python floats

    A [float] is an IEEE 754 binary64 number, in the axiom-free
    [SpecFloat] representation of the standard library.  The operations are the
    ones the services apply: addition, division, true division of integers
    (correctly rounded, as [int.__truediv__]), [round(x, 2)] (the exact value
    rounded to two decimals, ties to even, then the nearest float) and
    [math.ceil]. *)

From S2P Require Import Prelude PyStr.
From Stdlib Require Import Lia SpecFloat.

Definition float := spec_float.

#[export] Instance float_eq_dec : EqDecision float.
Proof. solve_decision. Defined.

Definition prec : Z := 53.
Definition emax : Z := 1024.

Definition fadd (x y : float) : float := SFadd prec emax x y.
Definition fdiv (x y : float) : float := SFdiv prec emax x y.

(** [float(z)] *)
Definition of_int (z : Z) : float := binary_normalize prec emax z 0 false.

(** An integer as an exact, possibly unbounded, mantissa. *)
Definition exact (z : Z) : float :=
  match z with
  | Z0 => S754_zero false
  | Zpos p => S754_finite false p 0
  | Zneg p => S754_finite true p 0
  end.

(** [a / b] for integers. *)
Definition int_truediv (a b : Z) : float := SFdiv prec emax (exact a) (exact b).

(** [n / d] to the nearest integer, ties to even, for [0 < d]. *)
Definition div_half_even (n d : Z) : Z :=
  let q := (n / d)%Z in
  let r := (n mod d)%Z in
  if (2 * r <? d)%Z then q
  else if (d <? 2 * r)%Z then (q + 1)%Z
  else if Z.even q then q else (q + 1)%Z.

(** [round(x, 2)] *)
Definition round2 (x : float) : float :=
  match x with
  | S754_finite s m e =>
      let n := if (0 <=? e)%Z then (Zpos m * 2 ^ e * 100)%Z
               else div_half_even (Zpos m * 100) (2 ^ (- e)) in
      match n with
      | Zpos p => SFdiv prec emax (S754_finite s p 0) (S754_finite false 100 0)
      | _ => S754_zero s
      end
  | _ => x
  end.

(** [math.ceil(x)] *)
Definition ceil (x : float) : res Z :=
  match x with
  | S754_zero _ => Ok 0%Z
  | S754_infinity _ => Err (OtherException "cannot convert float infinity to integer")
  | S754_nan => Err (ValueError "cannot convert float NaN to integer")
  | S754_finite s m e =>
      let v := if s then Zneg m else Zpos m in
      Ok (if (0 <=? e)%Z then (v * 2 ^ e)%Z else (- ((- v) / 2 ^ (- e)))%Z)
  end.

Definition float_zero : float := S754_zero false.

(** ** Lemmas *)

(** Halving a tie: the quotient is within half a unit of the exact value. *)
Lemma div_half_even_close n d :
  (0 < d)%Z -> (Z.abs (2 * n - 2 * d * div_half_even n d) <= d)%Z.
Proof.
  intros Hd. unfold div_half_even.
  pose proof (Z.div_mod n d ltac:(lia)) as Hdm.
  pose proof (Z.mod_pos_bound n d Hd) as Hr.
  destruct (Z.ltb_spec (2 * (n mod d)) d); [lia|].
  destruct (Z.ltb_spec d (2 * (n mod d))); [lia|].
  destruct (Z.even (n / d)); lia.
Qed.

Lemma ceil_finite s m e z : ceil (S754_finite s m e) = Ok z -> (e < 0)%Z ->
  let v := if s then Zneg m else Zpos m in
  ((z - 1) * 2 ^ (- e) < v <= z * 2 ^ (- e))%Z.
Proof.
  cbn. intros [= <-] He. rewrite (proj2 (Z.leb_gt 0 e)) by lia.
  set (v := if s then Zneg m else Zpos m).
  assert (0 < 2 ^ (- e))%Z as Hp by (apply Z.pow_pos_nonneg; lia).
  pose proof (Z.div_mod (- v) (2 ^ (- e)) ltac:(lia)) as Hdm.
  pose proof (Z.mod_pos_bound (- v) _ Hp) as Hr. nia.
Qed.

Lemma ceil_int z : ceil (exact z) = Ok z.
Proof. destruct z; cbn; by rewrite ?Z.mul_1_r, ?Pos.mul_1_r. Qed.

(** * [str] of a float

    The shortest decimal that reads back as the same float, the nearest one to
    the float's value among these, in Python's notation: fixed for decimal
    points from -3 to 16, scientific otherwise. *)
Local Open Scope Z_scope.

(** [d * 10 ^ k] as the nearest float. *)
Definition of_decimal (d k : Z) : float :=
  if 0 <=? k then of_int (d * 10 ^ k) else int_truediv d (10 ^ (- k)).

(** The number of decimal digits of a positive integer. *)
Definition num_digits (n : Z) : Z := Z.of_nat (String.length (str_of_Z n)).

(** The position of the decimal point of [n / d]: the power of ten just above it. *)
Fixpoint below_one (fuel : nat) (n d j : Z) : Z :=
  match fuel with
  | O => 1 - j
  | S fuel' => if d <=? n * 10 then 1 - j else below_one fuel' (n * 10) d (j + 1)
  end.

(** The smallest positive float is above [10 ^ -324]. *)
Definition decimal_point (n d : Z) : Z :=
  if d <=? n then num_digits (n / d) else below_one 330 n d 1.

(** The two integers around [n / d * 10 ^ k], the nearer one first. *)
Definition candidates (n d k : Z) : list Z :=
  let '(n, d) := if 0 <=? k then (n * 10 ^ k, d) else (n, d * 10 ^ (- k)) in
  let q := n / d in
  if div_half_even n d =? q then [q; q + 1] else [q + 1; q].

(** The shortest digits with the exponent of the last one. *)
Fixpoint shortest (fuel : nat) (x : float) (n d point len : Z) : option (Z * Z) :=
  match fuel with
  | O => None
  | S fuel' =>
      let k := len - point in
      match find (fun c => bool_decide (of_decimal c (- k) = x)) (candidates n d k) with
      | Some c => Some (c, - k)
      | None => shortest fuel' x n d point (len + 1)
      end
  end.

Definition zeros (n : Z) : string := join "" (repeat "0"%string (Z.to_nat n)).

Definition two_digits (n : Z) : string :=
  if n <? 10 then "0" +:+ str_of_Z n else str_of_Z n.

(** [ds] are the digits, [point] the position of the decimal point before or
    after them. *)
Definition place (ds : string) (point : Z) : string :=
  let len := Z.of_nat (String.length ds) in
  if (-4 <? point) && (point <=? 16) then
    if point <=? 0 then "0." +:+ zeros (- point) +:+ ds
    else if len <=? point then ds +:+ zeros (point - len) +:+ ".0"
    else str_take (Z.to_nat point) ds +:+ "." +:+ String.substring (Z.to_nat point) (String.length ds) ds
  else
    let e := point - 1 in
    str_take 1 ds +:+ (if len =? 1 then "" else "." +:+ String.substring 1 (String.length ds) ds)
      +:+ "e" +:+ (if e <? 0 then "-" else "+") +:+ two_digits (Z.abs e).

(** [str(x)] *)
Definition float_str (x : float) : string :=
  match x with
  | S754_zero s => if s then "-0.0" else "0.0"
  | S754_infinity s => if s then "-inf" else "inf"
  | S754_nan => "nan"
  | S754_finite s m e =>
      let n := (if 0 <=? e then Zpos m * 2 ^ e else Zpos m)%Z in
      let d := (if 0 <=? e then 1 else 2 ^ (- e))%Z in
      let ax := S754_finite false m e in
      (if s then "-" else "") +:+
      match shortest 17 ax n d (decimal_point n d) 1%Z with
      | Some (c, k) => place (str_of_Z c) (num_digits c + k)%Z
      | None => ""
      end
  end%string.

Example float_str_samples :
  map float_str [int_truediv 1 2; of_int 1; int_truediv 1 10; of_int (10 ^ 16); of_int (10 ^ 22);
                 of_decimal 12345678901234568 1; of_decimal 1 (-4); of_decimal 1 (-5); of_decimal 2675 (-3);
                 of_decimal 5 (-324); of_decimal 17976931348623157 292; of_int 100;
                 fadd (int_truediv 1 10) (int_truediv 2 10); int_truediv (-5) 2; int_truediv 1 (2 ^ 44)]
  = ["0.5"; "1.0"; "0.1"; "1e+16"; "1e+22"; "1.2345678901234568e+17"; "0.0001"; "1e-05"; "2.675"; "5e-324";
     "1.7976931348623157e+308"; "100.0"; "0.30000000000000004"; "-2.5"; "5.684341886080802e-14"]%string.
Proof. vm_compute. reflexivity. Qed.
