(* ===== verification/Sha256.v ===== *)
(** * SHA-256

    [hashlib.sha256(b).hexdigest()] of the Python standard library, which the
    front end uses for query identifiers and for the host data of a security
    policy.  Words are 32-bit values in [N], with the wrap-around written out. *)

From S2P Require Import Prelude PyStr Base64 Json.
From Stdlib Require Import Lia Ascii.

Local Open Scope N_scope.

Definition word_mod : N := 2 ^ 32.
Definition add32 (x y : N) : N := (x + y) mod word_mod.
Definition rotr (n x : N) : N :=
  N.lor (N.shiftr x n) (N.shiftl x (32 - n) mod word_mod).
Definition not32 (x : N) : N := N.lxor x (word_mod - 1).

(** ** Constants

    The first 32 bits of the fractional parts of the cube roots (for the
    rounds) and square roots (for the initial value) of the first primes. *)

Definition is_prime (n : N) : bool :=
  forallb (fun d => negb (n mod N.of_nat d =? 0)) (seq 2 (N.to_nat n - 2)).

Definition primes : list N :=
  filter (fun n => Is_true (is_prime n)) (map N.of_nat (seq 2 310)).

(** The largest [r] below [2 ^ (bits + 1)] with [r ^ 3 <= n]. *)
Fixpoint icbrt (bits : nat) (r n : N) : N :=
  let r' := N.lor r (N.shiftl 1 (N.of_nat bits)) in
  let r'' := if r' * r' * r' <=? n then r' else r in
  match bits with O => r'' | S bits' => icbrt bits' r'' n end.

Definition round_constants : list N :=
  Eval vm_compute in map (fun p => icbrt 36 0 (N.shiftl p 96) mod word_mod) (take 64 primes).

Definition initial_hash : list N :=
  Eval vm_compute in map (fun p => N.sqrt (N.shiftl p 64) mod word_mod) (take 8 primes).

(** ** Padding and words *)

Fixpoint bytes_of (s : string) : list N :=
  match s with
  | ""%string => []
  | String c s' => code c :: bytes_of s'
  end.

(** The eight bytes of a 64-bit length, most significant first. *)
Definition be64 (n : N) : list N :=
  map (fun i => N.land (N.shiftr n (8 * i)) 255) [7; 6; 5; 4; 3; 2; 1; 0].

Definition pad (bs : list N) : list N :=
  let len := N.of_nat (length bs) in
  let zeros := (119 - len mod 64) mod 64 in
  bs ++ [128] ++ repeat 0 (N.to_nat zeros) ++ be64 (8 * len).

Fixpoint words_of (bs : list N) : list N :=
  match bs with
  | a :: b :: c :: d :: bs' =>
      N.lor (N.shiftl a 24) (N.lor (N.shiftl b 16) (N.lor (N.shiftl c 8) d)) :: words_of bs'
  | _ => []
  end.

(** ** The message schedule

    The schedule is kept newest word first, so that the words [i-2], [i-7],
    [i-15] and [i-16] are at fixed positions. *)
Definition sigma0 (x : N) : N := N.lxor (rotr 7 x) (N.lxor (rotr 18 x) (N.shiftr x 3)).
Definition sigma1 (x : N) : N := N.lxor (rotr 17 x) (N.lxor (rotr 19 x) (N.shiftr x 10)).

Fixpoint extend (n : nat) (w : list N) : list N :=
  match n with
  | O => w
  | S n' =>
      let nth i := nth i w 0 in
      extend n' (add32 (add32 (sigma1 (nth 1%nat)) (nth 6%nat))
                       (add32 (sigma0 (nth 14%nat)) (nth 15%nat)) :: w)
  end.

Definition schedule (block : list N) : list N := rev (extend 48 (rev block)).

(** ** Compression *)

Definition big_sigma0 (x : N) : N := N.lxor (rotr 2 x) (N.lxor (rotr 13 x) (rotr 22 x)).
Definition big_sigma1 (x : N) : N := N.lxor (rotr 6 x) (N.lxor (rotr 11 x) (rotr 25 x)).
Definition ch (x y z : N) : N := N.lxor (N.land x y) (N.land (not32 x) z).
Definition maj (x y z : N) : N := N.lxor (N.land x y) (N.lxor (N.land x z) (N.land y z)).

Definition sha_round (v : list N) (kw : N * N) : list N :=
  match v with
  | [a; b; c; d; e; f; g; h] =>
      let t1 := add32 (add32 h (big_sigma1 e)) (add32 (ch e f g) (add32 kw.1 kw.2)) in
      let t2 := add32 (big_sigma0 a) (maj a b c) in
      [add32 t1 t2; a; b; c; add32 d t1; e; f; g]
  | _ => v
  end.

Definition compress (h : list N) (block : list N) : list N :=
  zip_with add32 h (foldl sha_round h (zip round_constants (schedule block))).

Fixpoint process (fuel : nat) (h : list N) (ws : list N) : list N :=
  match fuel, ws with
  | S fuel', _ :: _ => process fuel' (compress h (take 16 ws)) (drop 16 ws)
  | _, _ => h
  end.

(** One block per round: the number of words bounds the number of blocks. *)
Definition sha256_words (bs : list N) : list N :=
  let ws := words_of (pad bs) in
  process (length ws) initial_hash ws.

(** ** Hexadecimal digest *)

Definition hex_byte (b : N) : string := String (hex_digit (b / 16)) (String (hex_digit (b mod 16)) "").

Definition hex_word (w : N) : string :=
  hex_byte (N.shiftr w 24) +:+ hex_byte (N.land (N.shiftr w 16) 255)
    +:+ hex_byte (N.land (N.shiftr w 8) 255) +:+ hex_byte (N.land w 255).

Definition sha256_hex (s : string) : string :=
  join "" (map hex_word (sha256_words (bytes_of s))).

(** ** Facts *)

Lemma add32_bound x y : add32 x y < word_mod.
Proof. apply N.mod_lt. discriminate. Qed.

Lemma sha_round_length v kw : length v = 8%nat -> length (sha_round v kw) = 8%nat.
Proof. do 9 (destruct v as [|? v]; try done). Qed.

Lemma sha_rounds_length l v : length v = 8%nat -> length (foldl sha_round v l) = 8%nat.
Proof. revert v. induction l as [|kw l IH]; intros v Hv; [done|]. apply IH, sha_round_length, Hv. Qed.

Lemma compress_length h b : length h = 8%nat -> length (compress h b) = 8%nat.
Proof. intros H. unfold compress. rewrite length_zip_with, sha_rounds_length, H by done. done. Qed.

Lemma process_length n ws h : length h = 8%nat -> length (process n h ws) = 8%nat.
Proof.
  revert ws h. induction n as [|n IH]; intros [|w ws] h Hh; try done.
  apply IH, compress_length, Hh.
Qed.

Lemma hex_word_length w : String.length (hex_word w) = 8%nat.
Proof. reflexivity. Qed.

(** A digest has 64 hexadecimal digits. *)
Lemma sha256_hex_length s : String.length (sha256_hex s) = 64%nat.
Proof.
  unfold sha256_hex. set (ws := sha256_words (bytes_of s)).
  assert (length ws = 8%nat) as Hl by (apply process_length; reflexivity).
  do 8 (destruct ws as [|? ws]; [done|]). destruct ws; [|done].
  cbn [map join]. rewrite !string_length_app, !hex_word_length. reflexivity.
Qed.

Example sha256_abc :
  sha256_hex "abc" = "ba7816bf8f01cfea414140de5dae2223b00361a396177a9cb410ff61f20015ad"%string.
Proof. vm_compute. reflexivity. Qed.

Example sha256_empty :
  sha256_hex "" = "e3b0c44298fc1c149afbf4c8996fb92427ae41e4649b934ca495991b7852b855"%string.
Proof. vm_compute. reflexivity. Qed.

(** [hashlib.sha256(s).digest()]: the 32 bytes of the digest. *)
Definition word_bytes (w : N) : string :=
  String (ascii_of_N (N.shiftr w 24)) (String (ascii_of_N (N.land (N.shiftr w 16) 255))
    (String (ascii_of_N (N.land (N.shiftr w 8) 255)) (String (ascii_of_N (N.land w 255)) ""))).
Definition sha256_digest (s : string) : string := join "" (map word_bytes (sha256_words (bytes_of s))).
