(* ===== verification/SparkModels.v ===== *)
(** * Spark application resource models

    [models/spark_application_models.py] of the Spark front end: the pod and
    application specifications the builders fill in, and the status the Spark
    operator reports.  Fields whose values come unvalidated from policy
    documents keep their JSON value. *)

From S2P Require Import Prelude PyStr Json PyFloat.

(** ** Kubernetes objects the specifications embed *)

Record V1EnvVar := { env_name : json; env_value : json }.

Record V1VolumeMount := {
  vm_name : json;
  vm_mount_path : json;
  vm_read_only : json;
  vm_mount_propagation : json
}.

Record V1ContainerPort := { port_name : json; container_port : Z; port_protocol : json }.

(** The two probe actions the sidecars use; [None] when a probe has neither. *)
Inductive probe_action :=
| HttpGet (path : json) (port : Z)
| TcpSocket (port : Z).

Record V1Probe := {
  probe_action_ : option probe_action;
  initial_delay_seconds : json;
  period_seconds : json;
  failure_threshold : json
}.

Record V1Container := {
  c_name : json;
  c_image : json;
  c_command : json;
  c_env : list V1EnvVar;
  c_requests : json;
  c_volume_mounts : list V1VolumeMount;
  c_privileged : json;
  c_ports : option (list V1ContainerPort);
  c_startup_probe : option V1Probe;
  c_restart_policy : string
}.

Record V1Toleration := { tol_effect : string; tol_key : string; tol_operator : string }.

(** ** Pod and application specifications *)

Record NamePath := { np_name : string; np_path : string }.

(** [privileged] stands for the one-field [securityContext]. *)
Record SparkPodSpec := {
  cores : Z;
  core_limit : option string;
  memory : string;
  configMaps : option (list NamePath);
  labels : option (list (string * string));
  annotations : option (list (string * string));
  env : option (list V1EnvVar);
  volumeMounts : option (list V1VolumeMount);
  sidecars : option (list V1Container);
  initContainers : option (list V1Container);
  tolerations : option (list V1Toleration);
  nodeSelector : option (list (string * string));
  privileged : option bool
}.

Record Driver := {
  driver_pod : SparkPodSpec;
  serviceAccount : option string;
  serviceLabels : option (list (string * string));
  kubernetesMaster : option string;
  driver_javaOptions : option string
}.

Record Executor := {
  executor_pod : SparkPodSpec;
  instances : option Z;
  deleteOnTermination : option bool;
  executor_javaOptions : option string
}.

Inductive DeployMode := cluster | client.

Record DynamicAllocationProfile := {
  dap_enabled : option bool;
  minExecutors : option Z;
  maxExecutors : option Z
}.

Record SparkApplicationSpec := {
  spec_type : string;
  spec_name : string;
  sparkVersion : string;
  mode : DeployMode;
  image : string;
  mainApplicationFile : string;
  arguments : list string;
  sparkConf : list (string * string);
  volumes : list string;
  driver : Driver;
  executor : Executor;
  dynamicAllocation : DynamicAllocationProfile;
  exposeDriverMetrics : bool;
  exposeExecutorMetrics : bool
}.

(** ** Field updates *)

Definition set_labels (p : SparkPodSpec) (v : option (list (string * string))) : SparkPodSpec :=
  {| cores := cores p; core_limit := core_limit p; memory := memory p;
     configMaps := configMaps p; labels := v; annotations := annotations p; env := env p;
     volumeMounts := volumeMounts p; sidecars := sidecars p;
     initContainers := initContainers p; tolerations := tolerations p;
     nodeSelector := nodeSelector p; privileged := privileged p |}.
Definition set_annotations (p : SparkPodSpec) (v : option (list (string * string))) : SparkPodSpec :=
  {| cores := cores p; core_limit := core_limit p; memory := memory p;
     configMaps := configMaps p; labels := labels p; annotations := v; env := env p;
     volumeMounts := volumeMounts p; sidecars := sidecars p;
     initContainers := initContainers p; tolerations := tolerations p;
     nodeSelector := nodeSelector p; privileged := privileged p |}.
Definition set_env (p : SparkPodSpec) (v : option (list V1EnvVar)) : SparkPodSpec :=
  {| cores := cores p; core_limit := core_limit p; memory := memory p;
     configMaps := configMaps p; labels := labels p; annotations := annotations p;
     env := v; volumeMounts := volumeMounts p; sidecars := sidecars p;
     initContainers := initContainers p; tolerations := tolerations p;
     nodeSelector := nodeSelector p; privileged := privileged p |}.
Definition set_volumeMounts (p : SparkPodSpec) (v : option (list V1VolumeMount)) : SparkPodSpec :=
  {| cores := cores p; core_limit := core_limit p; memory := memory p;
     configMaps := configMaps p; labels := labels p; annotations := annotations p;
     env := env p; volumeMounts := v; sidecars := sidecars p;
     initContainers := initContainers p; tolerations := tolerations p;
     nodeSelector := nodeSelector p; privileged := privileged p |}.
Definition set_initContainers (p : SparkPodSpec) (v : option (list V1Container)) : SparkPodSpec :=
  {| cores := cores p; core_limit := core_limit p; memory := memory p;
     configMaps := configMaps p; labels := labels p; annotations := annotations p;
     env := env p; volumeMounts := volumeMounts p; sidecars := sidecars p;
     initContainers := v; tolerations := tolerations p; nodeSelector := nodeSelector p;
     privileged := privileged p |}.
Definition set_tolerations (p : SparkPodSpec) (v : option (list V1Toleration)) : SparkPodSpec :=
  {| cores := cores p; core_limit := core_limit p; memory := memory p;
     configMaps := configMaps p; labels := labels p; annotations := annotations p;
     env := env p; volumeMounts := volumeMounts p; sidecars := sidecars p;
     initContainers := initContainers p; tolerations := v; nodeSelector := nodeSelector p;
     privileged := privileged p |}.
Definition set_nodeSelector (p : SparkPodSpec) (v : option (list (string * string))) : SparkPodSpec :=
  {| cores := cores p; core_limit := core_limit p; memory := memory p;
     configMaps := configMaps p; labels := labels p; annotations := annotations p;
     env := env p; volumeMounts := volumeMounts p; sidecars := sidecars p;
     initContainers := initContainers p; tolerations := tolerations p; nodeSelector := v;
     privileged := privileged p |}.

Definition driver_with_pod (d : Driver) (p : SparkPodSpec) : Driver :=
  {| driver_pod := p; serviceAccount := serviceAccount d; serviceLabels := serviceLabels d;
     kubernetesMaster := kubernetesMaster d; driver_javaOptions := driver_javaOptions d |}.
Definition executor_with_pod (e : Executor) (p : SparkPodSpec) : Executor :=
  {| executor_pod := p; instances := instances e;
     deleteOnTermination := deleteOnTermination e; executor_javaOptions := executor_javaOptions e |}.

Definition spec_with_pods (s : SparkApplicationSpec) (d : Driver) (e : Executor) : SparkApplicationSpec :=
  {| spec_type := spec_type s; spec_name := spec_name s; sparkVersion := sparkVersion s;
     mode := mode s; image := image s; mainApplicationFile := mainApplicationFile s;
     arguments := arguments s; sparkConf := sparkConf s; volumes := volumes s;
     driver := d; executor := e; dynamicAllocation := dynamicAllocation s;
     exposeDriverMetrics := exposeDriverMetrics s;
     exposeExecutorMetrics := exposeExecutorMetrics s |}.

(** ** Application state reported by the Spark operator *)

Inductive ApplicationStateEnum :=
| New | Submitted | Running | Completed | Failed | SubmissionFailed | PendingRerun
| Invalidating | Succeeding | Failing | Suspending | Suspended | Resuming | Unknown.

#[export] Instance ApplicationStateEnum_eq_dec : EqDecision ApplicationStateEnum.
Proof. solve_decision. Defined.

Definition state_value (s : ApplicationStateEnum) : string :=
  match s with
  | New => "" | Submitted => "SUBMITTED" | Running => "RUNNING"
  | Completed => "COMPLETED" | Failed => "FAILED"
  | SubmissionFailed => "SUBMISSION_FAILED" | PendingRerun => "PENDING_RERUN"
  | Invalidating => "INVALIDATING" | Succeeding => "SUCCEEDING" | Failing => "FAILING"
  | Suspending => "SUSPENDING" | Suspended => "SUSPENDED" | Resuming => "RESUMING"
  | Unknown => "UNKNOWN"
  end.

Inductive SparkErrorCode := JOB_FAILED | SUBMISSION_FAILED.

Definition error_code_value (c : SparkErrorCode) : string :=
  match c with
  | JOB_FAILED => "SPARK_JOB_FAILED"
  | SUBMISSION_FAILED => "SPARK_SUBMISSION_FAILED"
  end.

Definition error_code_map : list (string * SparkErrorCode) :=
  [("FAILED", JOB_FAILED); ("SUBMISSION_FAILED", SUBMISSION_FAILED)].

Definition SparkErrorCode_from_state (s : ApplicationStateEnum) : SparkErrorCode :=
  default JOB_FAILED (dict_lookup (state_value s) error_code_map).

(** Time stamps are aware datetimes, as microseconds since the epoch. *)
Definition datetime := Z.

Record SparkApplicationState := {
  state : ApplicationStateEnum;
  errorMessage : option string
}.

Record SparkDriverInfo := {
  podName : string;
  webUIAddress : option string;
  webUIPort : option Z;
  webUIServiceName : option string
}.

Record SparkApplicationStatus := {
  applicationState : SparkApplicationState;
  driverInfo : SparkDriverInfo;
  executionAttempts : option Z;
  executorState : option (list (string * string));
  submissionAttempts : option Z;
  lastSubmissionAttemptTime : option datetime;
  terminationTime : option datetime
}.

(** The fields of [V1ObjectMeta] the Kubernetes client fills in, each the JSON
    value the API server returned ([JNull] when absent). *)
Record ObjectMeta := {
  meta_name : json;
  meta_namespace : json;
  meta_creation_timestamp : json;
  meta_labels : json;
  meta_annotations : json;
  meta_uid : json;
  meta_resource_version : json;
  meta_generation : json
}.

Record SparkApplication := {
  app_metadata : ObjectMeta;
  app_status : option SparkApplicationStatus
}.

(** [(b - a).total_seconds()] *)
Definition total_seconds (a b : datetime) : float := int_truediv (b - a) 1000000.
