(* ===== verification/Settings.v ===== *)
(** * Configuration of the Spark front end

    [config/configuration.py] and the settings of
    [frontend_internal/models/input_models.py] as records, with the defaults
    the classes declare.  Defaults read from the process environment take it as
    the argument [environ]; the release version read from a file next to the
    package is the argument [mcr_version].  Reading the YAML file and pydantic's
    coercions are not modelled. *)

From S2P Require Import Prelude PyStr Json PyFloat SparkModels.

(** ** Settings shared by the front ends *)

Definition DEFAULT_MCR_URL : string := "mcr.microsoft.com/azurecleanroom".

(** [os.environ.get(k) or d] *)
Definition env_or (environ : string -> option string) (k d : string) : string :=
  match environ k with
  | Some v => if str_truthy v then v else d
  | None => d
  end.

(** [os.environ.get(k, d)] *)
Definition env_default (environ : string -> option string) (k d : string) : string :=
  default d (environ k).

Record CleanroomSettings := {
  registry_url : string;
  sidecars_policy_document_registry_url : string;
  versions_document : string;
  use_http : bool
}.

Definition default_CleanroomSettings (environ : string -> option string) (mcr_version : string) : CleanroomSettings :=
  {| registry_url := env_or environ "CLEANROOM_CONTAINER_REGISTRY_URL" DEFAULT_MCR_URL;
     sidecars_policy_document_registry_url :=
       env_or environ "CLEANROOM_SIDECARS_POLICY_DOCUMENT_REGISTRY_URL"
         (env_or environ "CLEANROOM_CONTAINER_REGISTRY_URL" DEFAULT_MCR_URL);
     versions_document :=
       env_or environ "CLEANROOM_SIDECARS_VERSIONS_DOCUMENT_URL"
         (DEFAULT_MCR_URL +:+ "/sidecar-digests:" +:+ mcr_version);
     use_http :=
       bool_decide (lower (env_or environ "CLEANROOM_CONTAINER_REGISTRY_USE_HTTP" "false") = "true") |}.

Inductive AttestationType := SKR | CVM.

#[export] Instance AttestationType_eq_dec : EqDecision AttestationType.
Proof. solve_decision. Defined.

Record CcfServiceCertDiscoveryModel := {
  certificate_discovery_endpoint : string;
  host_data : list string;
  skip_digest_check : bool;
  constitution_digest : option string;
  js_app_bundle_digest : option string
}.

Record GovernanceSettings := {
  service_url : string;
  cert_base64 : option string;
  service_cert_discovery : option CcfServiceCertDiscoveryModel
}.

Record TelemetrySettings := {
  telemetry_collection_enabled : bool;
  prometheus_endpoint : option string;
  loki_endpoint : option string;
  tempo_endpoint : option string
}.

Definition default_TelemetrySettings : TelemetrySettings :=
  {| telemetry_collection_enabled := false; prometheus_endpoint := Some "";
     loki_endpoint := Some ""; tempo_endpoint := Some "" |}.

(** ** Settings of the Spark front end *)

Inductive SparkComputeProvider := ConfidentialVirtualNode | Virtual.

#[export] Instance SparkComputeProvider_eq_dec : EqDecision SparkComputeProvider.
Proof. solve_decision. Defined.

Record DriverSettings := {
  ds_cores : float;
  ds_memory : string;
  service_account : string
}.

Record ExecutorInstanceSettings := { inst_min : Z; inst_max : Z }.

Definition default_ExecutorInstanceSettings : ExecutorInstanceSettings :=
  {| inst_min := 1; inst_max := 1 |}.

Record ExecutorSettings := {
  es_cores : float;
  es_instances : ExecutorInstanceSettings;
  es_memory : string;
  delete_on_termination : bool
}.

Record SkuSettings := { sku_driver : DriverSettings; sku_executor : ExecutorSettings }.

Record AnalyticsSettings := {
  an_namespace : string;
  an_image : string;
  an_policy_file : string;
  an_debug_mode : bool;
  an_allow_all : bool;
  an_application_file : string;
  an_sql : SkuSettings
}.

Record ExamplesSettings := {
  ex_namespace : string;
  ex_image : string;
  ex_allow_all : bool;
  ex_application_file : string;
  ex_pi : SkuSettings
}.

Definition default_pi_sku : SkuSettings :=
  {| sku_driver := {| ds_cores := of_int 1; ds_memory := "512m"; service_account := "spark-operator-spark" |};
     sku_executor := {| es_cores := of_int 1; es_instances := {| inst_min := 1; inst_max := 1 |};
                        es_memory := "512m"; delete_on_termination := true |} |}.

Definition default_ExamplesSettings : ExamplesSettings :=
  {| ex_namespace := "analytics"; ex_image := "spark:4.0.0"; ex_allow_all := true;
     ex_application_file := "local:///opt/spark/examples/src/main/python/pi.py";
     ex_pi := default_pi_sku |}.

Record ApplicationSettings := { analytics : AnalyticsSettings; examples : ExamplesSettings }.

Record SparkResourceSettings := {
  res_group : string;
  res_version : string;
  res_kind : string;
  res_plural : string
}.

Definition default_SparkResourceSettings : SparkResourceSettings :=
  {| res_group := "sparkoperator.k8s.io"; res_version := "v1beta2";
     res_kind := "sparkapplication"; res_plural := "sparkapplications" |}.

Record OptimizerSettings := {
  opt_enabled : bool;
  opt_endpoint : string;
  opt_timeout : Z
}.

Record SchedulerSettings := {
  node_selector : list (string * string);
  constraints : list (string * string)
}.

Definition default_SchedulerSettings : SchedulerSettings :=
  {| node_selector := [("microsoft.containerinstance.virtualnode", "true")];
     constraints := [("POD_COUNT", "25")] |}.

Record ServiceSettings := {
  svc_name : string;
  svc_namespace : string;
  svc_url : string;
  svc_telemetry : TelemetrySettings;
  svc_optimizer : OptimizerSettings;
  svc_scheduler : SchedulerSettings
}.

Record SparkSettings := {
  compute_provider : SparkComputeProvider;
  resource : SparkResourceSettings
}.

Record Configuration := {
  cfg_cleanroom : CleanroomSettings;
  cfg_spark : SparkSettings;
  cfg_applications : ApplicationSettings;
  cfg_service : ServiceSettings
}.
