(* ===== verification/Helpers.v ===== *)
(** * Helpers of the Spark front end

    [utilities/helpers.py] and the policy constants of [utilities/constants.py]. *)

From S2P Require Import Prelude PyStr Base64 Json JsonFacts Sha256 PyFloat SparkModels.
From Stdlib Require Import Lia Ascii.

(** ** Names and identifiers *)

Definition app_name_char (c : ascii) : bool := is_lower c || is_digit c || bool_decide (c = "-"%char).

(** [re.sub(r"[^a-z0-9-]", "-", name.lower())] *)
Definition dash_others (s : string) : string :=
  str_map (fun c => if app_name_char c then c else "-"%char) s.

Definition to_spark_app_name (name : string) : string :=
  str_take 63 ("cl-spark-" +:+ dash_others (lower name)).

Definition generate_query_id (query : string) : string := str_take 32 (sha256_hex (utf8_encode query)).

(** [utc_now]: the clock with the microseconds cut off. *)
Definition truncate_microseconds (t : datetime) : datetime := (t - t mod 1000000)%Z.

(** ** The allow-all policy *)

Definition ALLOW_ALL_POLICY_BASE64 : string :=
  "cGFja2FnZSBwb2xpY3kKCmFwaV9zdm4gOj0gIjAuMTAuMCIKCm1vdW50X2RldmljZSA"
  +:+ "6PSB7ImFsbG93ZWQiOiB0cnVlfQptb3VudF9vdmVybGF5IDo9IHsiYWxsb3dlZCI6I"
  +:+ "HRydWV9CmNyZWF0ZV9jb250YWluZXIgOj0geyJhbGxvd2VkIjogdHJ1ZSwgImVudl9"
  +:+ "saXN0IjogbnVsbCwgImFsbG93X3N0ZGlvX2FjY2VzcyI6IHRydWV9CnVubW91bnRfZGV"
  +:+ "2aWNlIDo9IHsiYWxsb3dlZCI6IHRydWV9IAp1bm1vdW50X292ZXJsYXkgOj0geyJhbGx"
  +:+ "vd2VkIjogdHJ1ZX0KZXhlY19pbl9jb250YWluZXIgOj0geyJhbGxvd2VkIjogdHJ1ZSw"
  +:+ "gImVudl9saXN0IjogbnVsbH0KZXhlY19leHRlcm5hbCA6PSB7ImFsbG93ZWQiOiB0cnV"
  +:+ "lLCAiZW52X2xpc3QiOiBudWxsLCAiYWxsb3dfc3RkaW9fYWNjZXNzIjogdHJ1ZX0Kc2h"
  +:+ "1dGRvd25fY29udGFpbmVyIDo9IHsiYWxsb3dlZCI6IHRydWV9CnNpZ25hbF9jb250YWl"
  +:+ "uZXJfcHJvY2VzcyA6PSB7ImFsbG93ZWQiOiB0cnVlfQpwbGFuOV9tb3VudCA6PSB7ImF"
  +:+ "sbG93ZWQiOiB0cnVlfQpwbGFuOV91bm1vdW50IDo9IHsiYWxsb3dlZCI6IHRydWV9Cmd"
  +:+ "ldF9wcm9wZXJ0aWVzIDo9IHsiYWxsb3dlZCI6IHRydWV9CmR1bXBfc3RhY2tzIDo9IHs"
  +:+ "iYWxsb3dlZCI6IHRydWV9CnJ1bnRpbWVfbG9nZ2luZyA6PSB7ImFsbG93ZWQiOiB0cnV"
  +:+ "lfQpsb2FkX2ZyYWdtZW50IDo9IHsiYWxsb3dlZCI6IHRydWV9CnNjcmF0Y2hfbW91bnQ"
  +:+ "gOj0geyJhbGxvd2VkIjogdHJ1ZX0Kc2NyYXRjaF91bm1vdW50IDo9IHsiYWxsb3dlZCI6IHRydWV9Cg==".

Definition ALLOW_ALL_POLICY_HASH : string :=
  "73973b78d70cc68353426de188db5dfc57e5b766e399935fb73a61127ea26d20".

(** ** Properties *)

Lemma str_take_str_take n m s : n <= m -> str_take n (str_take m s) = str_take n s.
Proof.
  revert m s. induction n as [|n IH]; intros [|m] [|c s] H; try done; [lia|]. cbn. f_equal. apply IH. lia.
Qed.

Lemma app_name_char_fixed c : app_name_char c = true ->
  (if app_name_char (lower_char c) then lower_char c else "-"%char) = c.
Proof. destruct c as [[] [] [] [] [] [] [] []]; first [done | reflexivity]. Qed.

Lemma dash_others_fixed s : str_forall app_name_char s = true -> dash_others (lower s) = s.
Proof.
  induction s as [|c s IH]; [done|]. cbn [str_forall]. intros [Hc Hs]%andb_true_iff.
  unfold dash_others, lower in *. cbn [str_map]. by rewrite app_name_char_fixed, IH.
Qed.

(** A Spark application name has at most 63 characters, all of them lower
    case letters, digits or hyphens, and starts with the fixed prefix; a job
    identifier that fits this alphabet and the 54 characters left is kept as it
    is, so distinct such jobs get distinct applications. *)
Theorem spark_app_name_valid (name : string) :
  String.length (to_spark_app_name name) <= 63 /\
  str_forall app_name_char (to_spark_app_name name) = true /\
  str_take 9 (to_spark_app_name name) = "cl-spark-" /\
  (str_forall app_name_char name = true -> String.length name <= 54 ->
     to_spark_app_name name = "cl-spark-" +:+ name).
Proof.
  unfold to_spark_app_name. split_and!.
  - rewrite str_take_length. lia.
  - apply str_take_forall. rewrite str_forall_app. apply andb_true_iff. split; [reflexivity|].
    unfold dash_others. apply str_map_forall. intros c. by destruct (app_name_char c) eqn:E.
  - rewrite str_take_str_take by lia. rewrite str_take_app by (cbn; lia). reflexivity.
  - intros Hc Hl. rewrite dash_others_fixed by done. apply str_take_all.
    rewrite string_length_app. cbn. lia.
Qed.

(** Names are not unique: two jobs whose identifiers differ only in case, in
    replaced characters or after the 54th character get the same name. *)
Example spark_app_name_collision : to_spark_app_name "Job_1" = to_spark_app_name "job-1".
Proof. reflexivity. Qed.

Lemma generate_query_id_length q : String.length (generate_query_id q) = 32.
Proof. unfold generate_query_id. by rewrite str_take_length, sha256_hex_length. Qed.

(** The host data the front end announces for the allow-all policy is the
    SHA-256 digest of the policy it encodes, so a pod measured with it is
    accepted exactly when it runs that policy. *)
Theorem allow_all_policy_hash :
  sha256_hex <$> b64decode ALLOW_ALL_POLICY_BASE64 = Ok ALLOW_ALL_POLICY_HASH /\
  b64encode <$> b64decode ALLOW_ALL_POLICY_BASE64 = Ok ALLOW_ALL_POLICY_BASE64.
Proof. split; vm_compute; reflexivity. Qed.
