(* ===== verification/CleanroomModels.v ===== *)
(** * The clean room specification's data model

    The classes of [cleanroom_sdk/models/cleanroom.py] that a dataset is made
    of, and the job inputs of [cleanroom_spark_frontend/models/input_models.py]. *)

From S2P Require Import Prelude PyStr Json PyFloat SparkModels Settings.

(** ** Enumerations *)

Inductive ResourceType :=
| RT_Azure_BlobStorage | RT_Azure_BlobStorage_DataLakeGen2 | RT_Azure_OneLake | RT_Aws_S3
| RT_AzureKeyVault | RT_Cgs | RT_AzureContainerRegistry.

Inductive AccessPointType := Volume_ReadWrite | Volume_ReadOnly.

Inductive ProxyType :=
| SecureVolume__ReadOnly__Azure__OneLake
| SecureVolume__ReadOnly__Azure__BlobStorage
| SecureVolume__ReadOnly__Azure__BlobStorage__DataLakeGen2
| SecureVolume__ReadOnly__Aws__S3
| SecureVolume__ReadWrite__Azure__OneLake
| SecureVolume__ReadWrite__Azure__BlobStorage
| SecureVolume__ReadWrite__Azure__BlobStorage__DataLakeGen2
| SecureVolume__ReadWrite__Aws__S3
| PT_API
| PT_SecureAPI.

Inductive ProxyMode := PM_Secure | PM_Open.

Inductive SecretType := ST_Secret | ST_Certificate | ST_Key.

Inductive DatasetFormat := fmt_csv | fmt_json | fmt_parquet.

Inductive ProtocolType :=
| AzureAD_Federated | AzureAD_ManagedIdentity | AzureAD_Secret | Attested_OIDC
| AzureKeyVault_Secret | AzureKeyVault_SecureKey | AzureKeyVault_Key | AzureKeyVault_Certificate
| Cgs_Secret | Azure_BlobStorage | Azure_BlobStorage_DataLakeGen2 | Azure_OneLake | Aws_S3
| AzureContainerRegistry.

#[export] Instance ResourceType_eq_dec : EqDecision ResourceType.
Proof. solve_decision. Defined.
#[export] Instance AccessPointType_eq_dec : EqDecision AccessPointType.
Proof. solve_decision. Defined.
#[export] Instance ProtocolType_eq_dec : EqDecision ProtocolType.
Proof. solve_decision. Defined.
#[export] Instance DatasetFormat_eq_dec : EqDecision DatasetFormat.
Proof. solve_decision. Defined.

(** [str(t)] of a member of a plain [Enum]. *)
Definition ResourceType_str (t : ResourceType) : string :=
  "ResourceType." +:+
  match t with
  | RT_Azure_BlobStorage => "Azure_BlobStorage"
  | RT_Azure_BlobStorage_DataLakeGen2 => "Azure_BlobStorage_DataLakeGen2"
  | RT_Azure_OneLake => "Azure_OneLake"
  | RT_Aws_S3 => "Aws_S3"
  | RT_AzureKeyVault => "AzureKeyVault"
  | RT_Cgs => "Cgs"
  | RT_AzureContainerRegistry => "AzureContainerRegistry"
  end.

Definition DatasetFormat_value (f : DatasetFormat) : string :=
  match f with fmt_csv => "csv" | fmt_json => "json" | fmt_parquet => "parquet" end.

(** ** Resources, secrets and identities *)

Record ServiceEndpoint := {
  protocol : ProtocolType;
  endpoint_url : string;
  endpoint_configuration : option string
}.

Record Resource := {
  resource_name : string;
  resource_type : ResourceType;
  resource_id : string;
  provider : ServiceEndpoint
}.

Record CleanroomSecret := { secretType : SecretType; backingResource : Resource }.

Record EncryptionSecret := { es_name : string; es_secret : CleanroomSecret }.

Record EncryptionSecrets := { dek : EncryptionSecret; kek : option EncryptionSecret }.

(** An identity and the issuer of its tokens, told apart by [issuerType]. *)
Inductive Identity :=
| MkIdentity (identity_name clientId tenantId : string) (tokenIssuer : TokenIssuer)
with TokenIssuer :=
| AttestationBasedTokenIssuer (issuer : ServiceEndpoint)
| SecretBasedTokenIssuer (issuer : ServiceEndpoint) (secret : CleanroomSecret) (secretAccessIdentity : Identity)
| FederatedIdentityBasedTokenIssuer (issuer : ServiceEndpoint) (federatedIdentity : Identity).

Definition clientId (i : Identity) : string := match i with MkIdentity _ c _ _ => c end.
Definition tenantId (i : Identity) : string := match i with MkIdentity _ _ t _ => t end.
Definition tokenIssuer (i : Identity) : TokenIssuer := match i with MkIdentity _ _ _ t => t end.

(** ** Access points *)

Record Document := {
  documentType : string;
  authenticityReceipt : string;
  doc_identity : option Identity;
  doc_backingResource : Resource
}.

Inductive PrivacyPolicy :=
| InlinePolicy (policyDocument : option string)
| ExternalPolicy (document : Document).

Record PrivacyProxySettings := {
  proxyType : ProxyType;
  proxyMode : ProxyMode;
  privacyPolicy : option (option PrivacyPolicy);
  configuration : option string;
  encryptionSecrets : option EncryptionSecrets;
  encryptionSecretAccessIdentity : option Identity
}.

Record AccessPoint := {
  ap_name : string;
  ap_type : AccessPointType;
  ap_path : string;
  store : Resource;
  identity : option Identity;
  protection : PrivacyProxySettings;
  subdirectory : option string
}.

Record DatasetInfo := {
  ds_name : string;
  viewName : string;
  schema_ : option (list (string * list (string * string)));
  format : DatasetFormat;
  ownerId : string;
  accessPoint : AccessPoint;
  allowedFields : list string
}.

(** ** Job inputs *)

(** [SQLJobInput] extends [JobInput]; a plain job has no [sql] part. Dates are
    given by the text [strftime] prints. *)
Record SQLPart := {
  query : string;
  start_date : option string;
  end_date : option string;
  use_optimizer : bool
}.

Record JobInput := {
  contract_id : string;
  datasets : list DatasetInfo;
  datasink : option DatasetInfo;
  governance : option GovernanceSettings;
  sql_part : option SQLPart
}.

Record EnvData := { env_key : string; env_val : string; isMeasured : bool }.
