(* ===== verification/AppBuilder.v ===== *)
(** * The clean room application builder

    [frontend_internal/cleanroom_application_builder.py]: the sidecar
    containers of a clean room pod and the policy of each.  The builder's
    attributes are the record [Builder]; the file system, the container
    registry client ([oras]) and the YAML loader are the parameter [BuildEnv].
    Numbers in the YAML documents are integers or strings here. *)

From S2P Require Import Prelude PyStr Base64 Json JsonFacts Template PyFloat SparkModels Settings CleanroomModels.
From Stdlib Require Import Ascii.

Definition VOLUMESTATUS_MOUNT_PATH : string := "/mnt/volumestatus".
Definition TELEMETRY_MOUNT_PATH : string := "/mnt/telemetry".
Definition BLOBFUSE_READINESS_PORT_START : Z := 6300.

(** ** Dynamically typed accesses *)

(** [j[0]] for a list. *)
Definition json_first (j : json) : res json :=
  match j with
  | JArr (x :: _) => Ok x
  | JArr [] => Err (IndexError "list index out of range")
  | _ => Err (TypeError ("'" +:+ py_type j +:+ "' object is not subscriptable"))
  end.

Fixpoint str_chars (s : string) : list json :=
  match s with "" => [] | String c s' => JStr (String c "") :: str_chars s' end.

(** [for x in j] *)
Definition json_items (j : json) : res (list json) :=
  match j with
  | JArr l => Ok l
  | JObj kvs => Ok (map (fun kv => JStr kv.1) kvs)
  | JStr s => Ok (str_chars s)
  | _ => Err (TypeError ("'" +:+ py_type j +:+ "' object is not iterable"))
  end.

(** [k in j] *)
Definition json_has (k : string) (j : json) : res bool :=
  match j with
  | JObj kvs => Ok (bool_decide (is_Some (dict_lookup k kvs)))
  | JArr l => Ok (existsb (fun x => match x with JStr s => bool_decide (s = k) | _ => false end) l)
  | JStr s => Ok (str_contains k s)
  | _ => Err (TypeError ("argument of type '" +:+ py_type j +:+ "' is not iterable"))
  end.

(** [int(j)] *)
Definition json_int (j : json) : res Z :=
  match j with
  | JInt z => Ok z
  | JBool b => Ok (if b then 1 else 0)%Z
  | JStr s => py_int s
  | _ => Err (TypeError ("int() argument must be a string, a bytes-like object or a real number, not '"
                         +:+ py_type j +:+ "'"))
  end.

(** A string operand of [+]. *)
Definition json_text (j : json) : res string :=
  match j with JStr s => Ok s | _ => Err (TypeError "can only concatenate str to str") end.

Definition json_eqs (j : json) (s : string) : bool :=
  match j with JStr t => bool_decide (t = s) | _ => false end.

(** [j.append(x)] / [j.extend(xs)] *)
Definition json_extend (j : json) (xs : list json) : res json :=
  match j with
  | JArr l => Ok (JArr (l ++ xs))
  | _ => Err (AttributeError ("'" +:+ py_type j +:+ "' object has no attribute 'extend'"))
  end.

(** [d[k] = v] on a dict. *)
Definition json_set (j : json) (k : string) (v : json) : res json :=
  match j with
  | JObj kvs => Ok (JObj (dict_set k v kvs))
  | _ => Err (TypeError ("'" +:+ py_type j +:+ "' object does not support item assignment"))
  end.

Fixpoint ends_with (c : ascii) (s : string) : bool :=
  match s with
  | "" => false
  | String d "" => bool_decide (d = c)
  | String _ s' => ends_with c s'
  end.

(** [os.path.join(a, b)] *)
Definition path_join (a b : string) : string :=
  match b with
  | String "/" _ => b
  | _ => if bool_decide (a = "") || ends_with "/" a then a +:+ b else a +:+ "/" +:+ b
  end.

(** ** The outside world *)

Record BuildEnv (W : Type) := {
  temp_dir : string;
  file_exists : string -> M W bool;
  make_dirs : string -> M W unit;
  oras_pull : string -> string -> bool -> M W unit;
  yaml_load : string -> M W json;
  read_text : string -> M W string
}.
Arguments temp_dir {W}.
Arguments file_exists {W}.
Arguments make_dirs {W}.
Arguments oras_pull {W}.
Arguments yaml_load {W}.
Arguments read_text {W}.

(** ** The builder's state *)

Record Sidecar := { container : V1Container; virtual_node_policy : json }.

Record Builder := {
  b_app_name : option string;
  b_contract_id : option string;
  b_settings : CleanroomSettings;
  b_governance : option GovernanceSettings;
  b_governance_required : bool;
  b_attestation_type : AttestationType;
  b_telemetry : TelemetrySettings;
  b_trace_context : list (string * string);
  b_telemetry_extra_vars : list (string * json);
  b_storage_items : list (AccessPoint * string);
  b_ccr_proxy_https_http : option (Z * Z * string);
  b_debug_mode : bool
}.

Definition new_builder (settings : CleanroomSettings) : Builder :=
  {| b_app_name := None; b_contract_id := None; b_settings := settings; b_governance := None;
     b_governance_required := false; b_attestation_type := SKR; b_telemetry := default_TelemetrySettings;
     b_trace_context := []; b_telemetry_extra_vars := []; b_storage_items := [];
     b_ccr_proxy_https_http := None; b_debug_mode := false |}.

Definition WithName (b : Builder) (name : string) : res Builder :=
  if str_truthy name then
    Ok {| b_app_name := Some (replace_char " " "-" (lower name)); b_contract_id := b_contract_id b;
          b_settings := b_settings b; b_governance := b_governance b;
          b_governance_required := b_governance_required b; b_attestation_type := b_attestation_type b;
          b_telemetry := b_telemetry b; b_trace_context := b_trace_context b;
          b_telemetry_extra_vars := b_telemetry_extra_vars b; b_storage_items := b_storage_items b;
          b_ccr_proxy_https_http := b_ccr_proxy_https_http b; b_debug_mode := b_debug_mode b |}
  else Err (ValueError "Application name cannot be empty").

Definition WithContractId (b : Builder) (contract_id : string) : Builder :=
  {| b_app_name := b_app_name b; b_contract_id := Some contract_id; b_settings := b_settings b;
     b_governance := b_governance b; b_governance_required := b_governance_required b;
     b_attestation_type := b_attestation_type b; b_telemetry := b_telemetry b;
     b_trace_context := b_trace_context b; b_telemetry_extra_vars := b_telemetry_extra_vars b;
     b_storage_items := b_storage_items b; b_ccr_proxy_https_http := b_ccr_proxy_https_http b;
     b_debug_mode := b_debug_mode b |}.

Definition WithTelemetry (b : Builder) (telemetry : TelemetrySettings)
    (trace_context : list (string * string)) (extra_vars : list (string * json)) : Builder :=
  {| b_app_name := b_app_name b; b_contract_id := b_contract_id b; b_settings := b_settings b;
     b_governance := b_governance b; b_governance_required := b_governance_required b;
     b_attestation_type := b_attestation_type b; b_telemetry := telemetry;
     b_trace_context := trace_context; b_telemetry_extra_vars := extra_vars;
     b_storage_items := b_storage_items b; b_ccr_proxy_https_http := b_ccr_proxy_https_http b;
     b_debug_mode := b_debug_mode b |}.

Definition WithGovernance (b : Builder) (governance : GovernanceSettings)
    (attestation_type : AttestationType) : res Builder :=
  match cert_base64 governance, service_cert_discovery governance with
  | None, None =>
      Err (ValueError "Either cert_base64 or service_cert_discovery must be provided in governance settings.")
  | _, _ =>
      Ok {| b_app_name := b_app_name b; b_contract_id := b_contract_id b; b_settings := b_settings b;
            b_governance := Some governance; b_governance_required := true;
            b_attestation_type := attestation_type; b_telemetry := b_telemetry b;
            b_trace_context := b_trace_context b; b_telemetry_extra_vars := b_telemetry_extra_vars b;
            b_storage_items := b_storage_items b; b_ccr_proxy_https_http := b_ccr_proxy_https_http b;
            b_debug_mode := b_debug_mode b |}
  end.

Definition AddStorage (b : Builder) (access_point : AccessPoint) (subject : string) : Builder :=
  {| b_app_name := b_app_name b; b_contract_id := b_contract_id b; b_settings := b_settings b;
     b_governance := b_governance b; b_governance_required := b_governance_required b;
     b_attestation_type := b_attestation_type b; b_telemetry := b_telemetry b;
     b_trace_context := b_trace_context b; b_telemetry_extra_vars := b_telemetry_extra_vars b;
     b_storage_items := b_storage_items b ++ [(access_point, subject)];
     b_ccr_proxy_https_http := b_ccr_proxy_https_http b; b_debug_mode := b_debug_mode b |}.

Definition WithCcrProxyHttpsHttp (b : Builder) (listener_port destination_port : Z) (fqdn : string) : Builder :=
  {| b_app_name := b_app_name b; b_contract_id := b_contract_id b; b_settings := b_settings b;
     b_governance := b_governance b; b_governance_required := b_governance_required b;
     b_attestation_type := b_attestation_type b; b_telemetry := b_telemetry b;
     b_trace_context := b_trace_context b; b_telemetry_extra_vars := b_telemetry_extra_vars b;
     b_storage_items := b_storage_items b;
     b_ccr_proxy_https_http := Some (listener_port, destination_port, fqdn);
     b_debug_mode := b_debug_mode b |}.

(** ** Sidecar documents *)

(** [[x for x in versions if x["image"] == name][0]] *)
Definition find_sidecar (versions : json) (name : string) : res json :=
  xs ← json_items versions;
  tagged ← mapM_res (fun x : json => i ← json_item x "image"; Ok (json_eqs i name, x)) xs;
  match filter (fun bx : bool * json => Is_true bx.1) tagged with
  | bx :: _ => Ok bx.2
  | [] => Err (IndexError "list index out of range")
  end.

Definition build_startup_probe (probe_obj : json) : res V1Probe :=
  has_http ← json_has "httpGet" probe_obj;
  action ← (if (has_http : bool) then
              g ← json_item probe_obj "httpGet";
              path ← json_item g "path";
              p ← json_item g "port"; port ← json_int p;
              Ok (Some (HttpGet path port))
            else
              has_tcp ← json_has "tcpSocket" probe_obj;
              if (has_tcp : bool) then
                g ← json_item probe_obj "tcpSocket";
                p ← json_item g "port"; port ← json_int p;
                Ok (Some (TcpSocket port))
              else Ok None);
  delay ← json_get probe_obj "initialDelaySeconds" JNull;
  period ← json_get probe_obj "periodSeconds" JNull;
  threshold ← json_get probe_obj "failureThreshold" JNull;
  Ok {| probe_action_ := action; initial_delay_seconds := delay; period_seconds := period;
        failure_threshold := threshold |}.

Definition container_env (e : json) : res V1EnvVar :=
  n ← json_item e "name"; v ← json_item e "value"; Ok {| env_name := n; env_value := v |}.

Definition container_mount (vm : json) : res V1VolumeMount :=
  n ← json_item vm "name"; p ← json_item vm "mountPath";
  ro ← json_get vm "readOnly" (JBool false); mp ← json_get vm "mountPropagation" (JStr "None");
  Ok {| vm_name := n; vm_mount_path := p; vm_read_only := ro; vm_mount_propagation := mp |}.

Definition container_port_of (p : json) : res V1ContainerPort :=
  n ← json_get p "name" JNull; c ← json_item p "containerPort"; port ← json_int c;
  proto ← json_get p "protocol" JNull;
  Ok {| port_name := n; container_port := port; port_protocol := proto |}.

(** The [V1Container] built from a substituted pod specification. *)
Definition sidecar_container (obj : json) : res V1Container :=
  image ← json_item obj "image";
  name ← json_item obj "name";
  command ← json_item obj "command";
  envs ← json_get obj "env" (JArr []); envs ← json_items envs; envs ← mapM_res container_env envs;
  resources ← json_get obj "resources" (JObj []); requests ← json_get resources "requests" (JObj []);
  mounts ← json_get obj "volumeMounts" (JArr []); mounts ← json_items mounts;
  mounts ← mapM_res container_mount mounts;
  sec ← json_get obj "securityContext" (JObj []); priv ← json_get sec "privileged" (JBool false);
  has_ports ← json_has "ports" obj;
  ports ← (if (has_ports : bool) then
             ps ← json_item obj "ports"; ps ← json_items ps; ps ← mapM_res container_port_of ps; Ok (Some ps)
           else Ok None);
  has_probe ← json_has "startupProbe" obj;
  probe ← (if (has_probe : bool) then
             p ← json_item obj "startupProbe"; p ← build_startup_probe p; Ok (Some p)
           else Ok None);
  Ok {| c_name := name; c_image := image; c_command := command; c_env := envs; c_requests := requests;
        c_volume_mounts := mounts; c_privileged := priv; c_ports := ports; c_startup_probe := probe;
        c_restart_policy := "Always" |}.

(** The sidecar from its policy document, once the variables are known. *)
Definition sidecar_of_document (debug_mode : bool) (doc : json) (vars : list (string * json)) : res Sidecar :=
  spec_doc ← json_item doc "podSpecYaml";
  sidecar_yaml ← replace_vars vars (dumps spec_doc);
  policies ← json_item doc "policy";
  policy_doc ← json_item policies (if debug_mode then "virtual_node_rego_debug" else "virtual_node_rego");
  policy ← replace_vars vars (dumps policy_doc);
  spec ← json_item sidecar_yaml "spec";
  containers ← json_item spec "containers";
  obj ← json_first containers;
  c ← sidecar_container obj;
  Ok {| container := c; virtual_node_policy := policy |}.

Section Build.
Context {W : Type} (be : BuildEnv W) (b : Builder).

(** [_get_sidecars_version]: the lock is local to the call, so the check that
    is repeated under it sees the same file system as any other request. *)
Definition get_sidecars_version : M W json :=
  let file := path_join (temp_dir be) "sidecar-digests.yaml" in
  found ← file_exists be file;
  _ ← (if (found : bool) then mret () else
         found ← file_exists be file;
         if (found : bool) then mret ()
         else oras_pull be (versions_document (b_settings b)) (temp_dir be) (use_http (b_settings b)));
  yaml_load be file.

Definition get_sidecar_policy_document (imageName : string) : M W json :=
  versions ← get_sidecars_version;
  sidecar ← lift (find_sidecar versions imageName);
  policy_document ← lift (json_item sidecar "policyDocument");
  policy_name ← lift (json_text policy_document);
  let file := path_join (temp_dir be) (policy_name +:+ ".yaml") in
  found ← file_exists be file;
  _ ← (if (found : bool) then mret () else
         found ← file_exists be file;
         if (found : bool) then mret ()
         else
           _ ← make_dirs be (temp_dir be);
           digest ← lift (json_item sidecar "policyDocumentDigest");
           oras_pull be
             (sidecars_policy_document_registry_url (b_settings b) +:+ "/policies/"
                +:+ policy_name +:+ "@" +:+ py_str digest)
             (temp_dir be) (use_http (b_settings b)));
  yaml_load be file.

Definition get_sidecar (sidecar_name : string) (vars : list (string * json)) : M W Sidecar :=
  versions ← get_sidecars_version;
  sidecar ← lift (find_sidecar versions sidecar_name);
  digest ← lift (json_item sidecar "digest");
  let vars := dict_set "digest" digest
                (dict_set "containerRegistryUrl" (JStr (registry_url (b_settings b))) vars) in
  doc ← get_sidecar_policy_document sidecar_name;
  lift (sidecar_of_document (b_debug_mode b) doc vars).

(** ** The individual sidecars *)

Definition get_skr_sidecar (telemetry_mount_path : string) : M W Sidecar :=
  get_sidecar "skr" [("telemetryMountPath", JStr telemetry_mount_path)].

Definition get_cvm_attestation_agent_sidecar (telemetry_mount_path : string) : M W Sidecar :=
  get_sidecar "cvm-attestation-agent" [("telemetryMountPath", JStr telemetry_mount_path)].

(** [f"{x}"] of an optional string. *)
Definition opt_text (o : option string) : string := default "None" o.

Definition governance_vars (contract_id : string) (g : GovernanceSettings) (telemetry_mount_path : string)
  : res (list (string * json)) :=
  let base :=
    [("cgsEndpoint", JStr (service_url g)); ("contractId", JStr contract_id);
     ("telemetryMountPath", JStr telemetry_mount_path);
     ("serviceCertBase64",
       JStr (match cert_base64 g with Some c => if str_truthy c then c else "" | None => "" end))] in
  match service_cert_discovery g with
  | Some d =>
      match host_data d with
      | [] => Err (IndexError "list index out of range")
      | h :: _ =>
          Ok (base ++
            [("serviceCertDiscoveryEndpoint", JStr (certificate_discovery_endpoint d));
             ("serviceCertDiscoverySnpHostData", JStr h);
             ("serviceCertDiscoverySkipDigestCheck", JStr (if skip_digest_check d then "true" else "false"));
             ("serviceCertDiscoveryConstitutionDigest", JStr (opt_text (constitution_digest d)));
             ("serviceCertDiscoveryJsappBundleDigest", JStr (opt_text (js_app_bundle_digest d)))])
      end
  | None =>
      Ok (base ++
        [("serviceCertDiscoveryEndpoint", JStr ""); ("serviceCertDiscoverySnpHostData", JStr "");
         ("serviceCertDiscoverySkipDigestCheck", JStr ""); ("serviceCertDiscoveryConstitutionDigest", JStr "");
         ("serviceCertDiscoveryJsappBundleDigest", JStr "")])
  end.

Definition get_ccr_governance_sidecar (contract_id : string) (g : GovernanceSettings)
    (telemetry_mount_path : string) : M W Sidecar :=
  vars ← lift (governance_vars contract_id g telemetry_mount_path);
  get_sidecar "ccr-governance" vars.

Definition get_ccr_proxy_sidecar (listener_port destination_port : Z) (fqdn : string) : M W Sidecar :=
  get_sidecar "ccr-proxy-https-http"
    [("caType", JStr "cgs"); ("listenerPort", JStr (str_of_Z listener_port));
     ("destinationPort", JStr (str_of_Z destination_port)); ("ccrFqdn", JStr fqdn)].

Definition otel_vars (telemetry_mount_path : string) (extra_vars : list (string * json)) : list (string * json) :=
  let opt o := match o with Some s => JStr s | None => JNull end in
  [("telemetryCollectionEnabled", JBool (telemetry_collection_enabled (b_telemetry b)));
   ("telemetryPath", JStr ""); ("telemetryMountPath", JStr telemetry_mount_path);
   ("prometheusEndpoint", opt (prometheus_endpoint (b_telemetry b)));
   ("lokiEndpoint", opt (loki_endpoint (b_telemetry b)));
   ("tempoEndpoint", opt (tempo_endpoint (b_telemetry b)));
   ("sparkMetricsEndpoint", default (JStr "") (dict_lookup "sparkMetricsEndpoint" extra_vars));
   ("resourceAttributes", default (JStr "") (dict_lookup "resourceAttributes" extra_vars))].

Definition get_otel_sidecar (telemetry_mount_path : string) (extra_vars : list (string * json)) : M W Sidecar :=
  get_sidecar "otel-collector" (otel_vars telemetry_mount_path extra_vars).

(** ** The identity sidecar *)

Record IdentityArgs := {
  ManagedIdentities : list string;
  ApplicationIdentities : list (string * string * string)
}.

(** One step of the loop: a client already listed is skipped. An application
    identity is its client, its subject and the issuer's address. *)
Definition add_identity (args : IdentityArgs) (i : Identity) (subject : string) : IdentityArgs :=
  match tokenIssuer i with
  | AttestationBasedTokenIssuer issuer =>
      if bool_decide (protocol issuer = AzureAD_ManagedIdentity) &&
         negb (bool_decide (clientId i ∈ ManagedIdentities args)) then
        {| ManagedIdentities := ManagedIdentities args ++ [clientId i];
           ApplicationIdentities := ApplicationIdentities args |}
      else args
  | FederatedIdentityBasedTokenIssuer issuer _ =>
      if bool_decide (clientId i ∈ (fun a => a.1.1) <$> ApplicationIdentities args) then args
      else {| ManagedIdentities := ManagedIdentities args;
              ApplicationIdentities := ApplicationIdentities args ++ [(clientId i, subject, endpoint_url issuer)] |}
  | SecretBasedTokenIssuer _ _ _ => args
  end.

(** [identity] may be [None]: its [tokenIssuer] is then an [AttributeError]. *)
Definition identity_args (identities : list (option Identity * string)) : res IdentityArgs :=
  fold_res (fun args is_ =>
      match is_.1 with
      | Some i => Ok (add_identity args i is_.2)
      | None => Err (AttributeError "'NoneType' object has no attribute 'tokenIssuer'")
      end)
    {| ManagedIdentities := []; ApplicationIdentities := [] |} identities.

Definition identity_args_json (audience : string) (a : IdentityArgs) : json :=
  JObj [("Identities",
    JObj [("ManagedIdentities", JArr (map (fun c => JObj [("ClientId", JStr c)]) (ManagedIdentities a)));
          ("ApplicationIdentities",
            JArr (map (fun '(c, subject, issuer) =>
              JObj [("ClientId", JStr c);
                    ("Credential",
                      JObj [("CredentialType", JStr "FederatedCredential");
                            ("FederationConfiguration",
                              JObj [("IdTokenEndpoint", JStr "http://localhost:8300");
                                    ("Subject", JStr subject); ("Audience", JStr audience);
                                    ("Issuer", JStr issuer)])])])
              (ApplicationIdentities a)))])].

Definition get_identity_sidecar (identities : list (option Identity * string)) (audience telemetry_mount_path : string)
  : M W Sidecar :=
  args ← lift (identity_args identities);
  get_sidecar "identity"
    [("IdentitySidecarArgsBase64", JStr (b64encode (utf8_encode (dumps (identity_args_json audience args)))));
     ("OtelMetricExportInterval", JStr "5000"); ("telemetryMountPath", JStr telemetry_mount_path)].

(** ** Storage sidecars *)

(** [name.lower().replace(" ", "").replace("_", "-")] *)
Definition sanitize_access_name (name : string) : string :=
  replace_char "_" "-" (replace_char " " "" (lower name)).

(** [json.loads(base64.b64decode(c).decode())] of an optional string. *)
Definition decode_configuration (c : option string) : res json :=
  match c with
  | None => Err (TypeError "argument should be a bytes-like object or ASCII string, not 'NoneType'")
  | Some c =>
      if str_forall is_ascii c then raw ← b64decode c; text ← utf8_decode raw; loads text
      else Err (ValueError "string argument should contain only ASCII characters")
  end.

Definition trace_context_base64 : string :=
  match b_trace_context b with
  | [] => ""
  | tc => b64encode (utf8_encode (dumps (JObj (map (fun kv => (kv.1, JStr kv.2)) tc))))
  end.

Definition read_only_flag (ap : AccessPoint) : string :=
  if decide (ap_type ap = Volume_ReadOnly) then "--read-only" else "--no-read-only".

(** The DEK's CGS secret, when the access point is encrypted with a customer
    key. *)
Definition cgs_dek_secret_id (ap : AccessPoint) (access_name : string) (mode : json) : res string :=
  if json_eqs mode "CPK" then
    match encryptionSecrets (protection ap) with
    | None => Err (AssertionError ("Encryption secrets is null for " +:+ access_name +:+ "."))
    | Some secrets =>
        let r := backingResource (es_secret (dek secrets)) in
        if decide (resource_type r = RT_Cgs) then Ok (resource_name r)
        else Err (AssertionError ("Expecting DEK secret backing resource type as '"
               +:+ ResourceType_str RT_Cgs +:+ "' but value is '" +:+ ResourceType_str (resource_type r) +:+ "'."))
    end
  else Ok "".

(** Account, endpoint, container and subdirectory of the store. *)
Definition store_location (ap : AccessPoint) : res (string * json * string * string) :=
  u ← urlparse (endpoint_url (provider (store ap)));
  host ← of_option (AttributeError "'NoneType' object has no attribute 'split'") (url_hostname u);
  let account := hd "" (split_on "." host) in
  let subdir := default "" (subdirectory ap) in
  if decide (protocol (provider (store ap)) = Azure_OneLake) then
    let segments := split_on "/" (url_path u) in
    container_name ← of_option (IndexError "list index out of range") (segments !! 1);
    Ok ("onelake", JStr host, container_name,
        if str_truthy subdir then subdir else join "/" (drop 2 segments))
  else Ok (account, JStr (endpoint_url (provider (store ap))), resource_name (store ap), subdir).

Definition uses_adls (ap : AccessPoint) : bool :=
  bool_decide (protocol (provider (store ap)) ∈ [Azure_OneLake; Azure_BlobStorage_DataLakeGen2]).

Definition blobfuse_vars (ap : AccessPoint) (mount_path access_name telemetry_mount_path
    volume_status_mount_path : string) (readiness_port : Z) : res (list (string * json) * string) :=
  encryption_config ← decode_configuration (configuration (protection ap));
  encryption_mode ← json_item encryption_config "EncryptionMode";
  _ ← py_assert (negb (json_eqs encryption_mode "CSE"))
        ("Encryption mode " +:+ py_str encryption_mode +:+ " is not supported for " +:+ access_name +:+ ".");
  dek_id ← cgs_dek_secret_id ap access_name encryption_mode;
  loc ← store_location ap;
  i ← of_option (AttributeError "'NoneType' object has no attribute 'clientId'") (identity ap);
  let '(account, endpoint, container_name, subdir) := (loc : string * json * string * string) in
  Ok ([("datasetName", JStr access_name); ("storageContainerName", JStr container_name);
       ("mountPath", JStr mount_path); ("maaUrl", JStr ""); ("storageAccountName", JStr account);
       ("storageBlobEndpoint", endpoint); ("readOnly", JStr (read_only_flag ap));
       ("kekVaultUrl", JStr ""); ("kekKid", JStr ""); ("dekVaultUrl", JStr ""); ("dekSecretName", JStr "");
       ("cgsDekSecretId", JStr dek_id); ("clientId", JStr (clientId i)); ("tenantId", JStr (tenantId i));
       ("encryptionMode", encryption_mode);
       ("useAdls", JStr (if uses_adls ap then "--use-adls" else "--no-use-adls"));
       ("telemetryMountPath", JStr telemetry_mount_path);
       ("volumeStatusMountPath", JStr volume_status_mount_path);
       ("traceContextJsonBase64", JStr trace_context_base64); ("readinessPort", JInt readiness_port)], subdir).

Definition set_probe_port (c : V1Container) (port : Z) : res V1Container :=
  match c_startup_probe c with
  | None => Ok c
  | Some p =>
      match probe_action_ p with
      | Some (HttpGet path _) =>
          Ok {| c_name := c_name c; c_image := c_image c; c_command := c_command c; c_env := c_env c;
                c_requests := c_requests c; c_volume_mounts := c_volume_mounts c;
                c_privileged := c_privileged c; c_ports := c_ports c;
                c_startup_probe := Some {| probe_action_ := Some (HttpGet path port);
                                           initial_delay_seconds := initial_delay_seconds p;
                                           period_seconds := period_seconds p;
                                           failure_threshold := failure_threshold p |};
                c_restart_policy := c_restart_policy c |}
      | _ => Err (AttributeError "'NoneType' object has no attribute 'port'")
      end
  end.

Definition set_command (c : V1Container) (command : json) : V1Container :=
  {| c_name := c_name c; c_image := c_image c; c_command := command; c_env := c_env c;
     c_requests := c_requests c; c_volume_mounts := c_volume_mounts c; c_privileged := c_privileged c;
     c_ports := c_ports c; c_startup_probe := c_startup_probe c; c_restart_policy := c_restart_policy c |}.

(** The sub-directory arguments, in the command and in the policy. *)
Definition add_subdirectory (s : Sidecar) (subdir : string) : res Sidecar :=
  if str_truthy subdir then
    let args := [JStr "--sub-directory"; JStr subdir] in
    command ← json_extend (c_command (container s)) args;
    policy ← match virtual_node_policy s with JStr t => loads t | p => Ok p end;
    has_command ← json_has "command" policy;
    policy' ← (if (has_command : bool) then
                 pc ← json_item policy "command"; pc' ← json_extend pc args; json_set policy "command" pc'
               else Ok policy);
    Ok {| container := set_command (container s) command; virtual_node_policy := policy' |}
  else Ok s.

Definition get_blobfuse_sidecar (ap : AccessPoint) (mount_path access_name telemetry_mount_path
    volume_status_mount_path : string) (readiness_port : Z) : M W Sidecar :=
  vars ← lift (blobfuse_vars ap mount_path (sanitize_access_name access_name) telemetry_mount_path
                 volume_status_mount_path readiness_port);
  sidecar ← get_sidecar "blobfuse-launcher" vars.1;
  c ← lift (set_probe_port (container sidecar) readiness_port);
  lift (add_subdirectory {| container := c; virtual_node_policy := virtual_node_policy sidecar |} vars.2).

Definition s3fs_vars (ap : AccessPoint) (mount_path access_name telemetry_mount_path
    volume_status_mount_path : string) : res (list (string * json)) :=
  _ ← py_assert (ostr_truthy (endpoint_configuration (provider (store ap))))
        ("Store provider configuration is null for " +:+ access_name +:+ ".");
  aws_config ← decode_configuration (endpoint_configuration (provider (store ap)));
  secret_id ← json_item aws_config "secretId";
  _ ← py_assert (match secret_id with JNull => false | _ => true end)
        ("AWS config secret Id value is not set for " +:+ access_name +:+ ".");
  Ok [("datasetName", JStr access_name); ("awsBucketName", JStr (resource_name (store ap)));
      ("readOnly", JStr (read_only_flag ap)); ("mountPath", JStr mount_path);
      ("cgsAwsS3ConfigSecret", secret_id); ("awsUrl", JStr (endpoint_url (provider (store ap))));
      ("telemetryMountPath", JStr telemetry_mount_path);
      ("volumeStatusMountPath", JStr volume_status_mount_path);
      ("traceContextJsonBase64", JStr trace_context_base64)].

Definition get_s3fs_sidecar (ap : AccessPoint) (mount_path access_name telemetry_mount_path
    volume_status_mount_path : string) : M W Sidecar :=
  vars ← lift (s3fs_vars ap mount_path (sanitize_access_name access_name) telemetry_mount_path
                 volume_status_mount_path);
  get_sidecar "s3fs-launcher" vars.

(** ** [Build] *)

(** The local variables of the storage loop. *)
Record StorageState := {
  ss_identities : list (option Identity * string);
  ss_blobfuse : list Sidecar;
  ss_s3fs : list Sidecar;
  ss_port : Z
}.

Definition is_blob_store (ap : AccessPoint) : bool :=
  bool_decide (resource_type (store ap) ∈ [RT_Azure_BlobStorage; RT_Azure_BlobStorage_DataLakeGen2]).

Definition storage_step (contract_id : string) (st : StorageState) (item : AccessPoint * string)
  : M W StorageState :=
  let '(ap, expected_subject) := item in
  if is_blob_store ap then
    sidecar ← get_blobfuse_sidecar ap "/mnt/remote" (ap_name ap) TELEMETRY_MOUNT_PATH
                VOLUMESTATUS_MOUNT_PATH (ss_port st);
    mret {| ss_identities := ss_identities st ++ [(identity ap, contract_id +:+ "-" +:+ expected_subject)];
            ss_blobfuse := ss_blobfuse st ++ [sidecar]; ss_s3fs := ss_s3fs st;
            ss_port := (ss_port st + 1)%Z |}
  else if decide (resource_type (store ap) = RT_Aws_S3) then
    sidecar ← get_s3fs_sidecar ap "/mnt/remote" (ap_name ap) TELEMETRY_MOUNT_PATH VOLUMESTATUS_MOUNT_PATH;
    mret {| ss_identities := ss_identities st; ss_blobfuse := ss_blobfuse st;
            ss_s3fs := ss_s3fs st ++ [sidecar]; ss_port := ss_port st |}
  else raise (ValueError ("Unsupported store type " +:+ ResourceType_str (resource_type (store ap))
                          +:+ " for " +:+ ap_name ap +:+ ".")).

Definition storage_start : StorageState :=
  {| ss_identities := []; ss_blobfuse := []; ss_s3fs := []; ss_port := BLOBFUSE_READINESS_PORT_START |}.

Definition telemetry_sidecars : M W (list Sidecar) :=
  if telemetry_collection_enabled (b_telemetry b) then
    s ← get_otel_sidecar TELEMETRY_MOUNT_PATH (b_telemetry_extra_vars b); mret [s]
  else mret [].

Definition governance_sidecars : M W (list Sidecar) :=
  if b_governance_required b then
    g ← lift (of_option (AssertionError "Governance settings are required.") (b_governance b));
    cid ← lift (of_option (AssertionError "Contract ID is required.") (b_contract_id b));
    att ← (if decide (b_attestation_type b = CVM) then get_cvm_attestation_agent_sidecar TELEMETRY_MOUNT_PATH
           else get_skr_sidecar TELEMETRY_MOUNT_PATH);
    gov ← get_ccr_governance_sidecar cid g TELEMETRY_MOUNT_PATH;
    mret [att; gov]
  else mret [].

Definition proxy_sidecars : M W (list Sidecar) :=
  match b_ccr_proxy_https_http b with
  | Some (listener_port, destination_port, fqdn) =>
      s ← get_ccr_proxy_sidecar listener_port destination_port fqdn; mret [s]
  | None => mret []
  end.

Definition storage_sidecars : M W StorageState :=
  match b_storage_items b with
  | [] => mret storage_start
  | items =>
      cid ← lift (of_option (AssertionError "Contract ID is required.") (b_contract_id b));
      fold_M (storage_step cid) storage_start items
  end.

Definition identity_sidecars (identities : list (option Identity * string)) : M W (list Sidecar) :=
  match identities with
  | [] => mret []
  | _ => s ← get_identity_sidecar identities "api://AzureADTokenExchange" TELEMETRY_MOUNT_PATH; mret [s]
  end.

Definition Build : M W (list Sidecar) :=
  telemetry ← telemetry_sidecars;
  governance ← governance_sidecars;
  proxy ← proxy_sidecars;
  st ← storage_sidecars;
  ids ← identity_sidecars (ss_identities st);
  mret (telemetry ++ governance ++ proxy ++ ids ++ ss_blobfuse st ++ ss_s3fs st).
End Build.
