(* ===== verification/AppBuilderProps.v ===== *)
(** * Correctness of the clean room application builder

    The order, number and readiness ports of the sidecars [Build] returns, and
    what the identity sidecar is told. *)

From S2P Require Import Prelude PyStr Base64 Json JsonFacts Template PyFloat SparkModels Settings CleanroomModels AppBuilder.
From Stdlib Require Import Lia.

(** ** Storage sidecars *)

(** The startup probe, if there is one, asks this port. *)
Definition listens_on (port : Z) (s : Sidecar) : Prop :=
  forall p, c_startup_probe (container s) = Some p -> exists path, probe_action_ p = Some (HttpGet path port).

Lemma set_probe_port_listens c port c' policy :
  set_probe_port c port = Ok c' -> listens_on port {| container := c'; virtual_node_policy := policy |}.
Proof.
  unfold set_probe_port, listens_on. cbn. destruct (c_startup_probe c) as [p|] eqn:Hp.
  - destruct (probe_action_ p) as [[path ?|?]|]; try done. intros [= <-] p'. cbn.
    intros [= <-]. cbn. by eexists.
  - intros [= <-] p'. by rewrite Hp.
Qed.

Lemma add_subdirectory_listens s subdir s' port :
  add_subdirectory s subdir = Ok s' -> listens_on port s -> listens_on port s'.
Proof.
  unfold add_subdirectory. destruct (str_truthy subdir); [|by intros [= <-]].
  intros H. py_inv. done.
Qed.

Section Storage.
Context {W : Type} (be : BuildEnv W) (b : Builder).

Lemma get_blobfuse_listens ap mp an tp vp port w w' sc :
  get_blobfuse_sidecar be b ap mp an tp vp port w = (w', Ok sc) -> listens_on port sc.
Proof.
  unfold get_blobfuse_sidecar. intros H.
  apply M_bind_ok in H as (w1 & [vars subdir] & _ & H). apply M_bind_ok in H as (w2 & sc0 & _ & H).
  apply M_bind_ok in H as (w3 & c & Hc & H). unfold lift in *. injection Hc as <- Hc.
  injection H as <- H. eapply add_subdirectory_listens; [exact H|]. by eapply set_probe_port_listens.
Qed.

Definition is_s3_store (ap : AccessPoint) : bool := bool_decide (resource_type (store ap) = RT_Aws_S3).

Definition blob_items (items : list (AccessPoint * string)) : list (AccessPoint * string) :=
  filter (fun i => Is_true (is_blob_store i.1)) items.
Definition s3_items (items : list (AccessPoint * string)) : list (AccessPoint * string) :=
  filter (fun i => Is_true (is_s3_store i.1)) items.

(** The state of the storage loop after a prefix of the items. *)
Record storage_inv (cid : string) (items : list (AccessPoint * string)) (st : StorageState) : Prop := {
  si_supported : Forall (fun i => is_blob_store i.1 || is_s3_store i.1 = true) items;
  si_blobfuse : length (ss_blobfuse st) = length (blob_items items);
  si_s3fs : length (ss_s3fs st) = length (s3_items items);
  si_port : ss_port st = (BLOBFUSE_READINESS_PORT_START + Z.of_nat (length (ss_blobfuse st)))%Z;
  si_ports : forall k sc, ss_blobfuse st !! k = Some sc ->
    listens_on (BLOBFUSE_READINESS_PORT_START + Z.of_nat k) sc;
  si_identities : ss_identities st =
    map (fun i => (identity i.1, cid +:+ "-" +:+ i.2)) (blob_items items)
}.

Lemma blob_not_s3 ap : is_blob_store ap = true -> is_s3_store ap = false.
Proof.
  unfold is_blob_store, is_s3_store. rewrite bool_decide_eq_true, bool_decide_eq_false.
  intros H E. rewrite E in H. set_solver.
Qed.

Lemma filter_bool_snoc (P : AccessPoint * string -> bool) items i :
  filter (fun i => Is_true (P i)) (items ++ [i]) =
  filter (fun i => Is_true (P i)) items ++ (if P i then [i] else []).
Proof.
  rewrite filter_app. f_equal. rewrite filter_cons, filter_nil.
  destruct (P i) eqn:E; [by rewrite decide_True by done | by rewrite decide_False by (by intros [])].
Qed.

Lemma storage_step_inv cid items st item w w' st' :
  storage_inv cid items st -> storage_step be b cid st item w = (w', Ok st') ->
  storage_inv cid (items ++ [item]) st'.
Proof.
  intros [Hs Hb H3 Hp Hps Hi]. destruct item as [ap subject]. unfold storage_step.
  unfold blob_items, s3_items in *.
  destruct (is_blob_store ap) eqn:Hblob.
  - intros H. apply M_bind_ok in H as (w1 & sc & Hsc & H). injection H as <- <-.
    pose proof (blob_not_s3 ap Hblob) as Hs3. apply get_blobfuse_listens in Hsc.
    split; unfold blob_items, s3_items; rewrite ?filter_bool_snoc; cbn [fst snd ss_blobfuse ss_s3fs ss_port ss_identities];
      rewrite ?Hblob, ?Hs3, ?app_nil_r, ?length_app; cbn [length]; try done.
    + apply Forall_app. split; [done|]. constructor; [cbn; by rewrite Hblob | constructor].
    + lia.
    + lia.
    + intros k sc' Hk. apply lookup_app_Some in Hk as [Hk|[Hge Hk]]; [by apply Hps|].
      destruct (k - length (ss_blobfuse st)) eqn:E; [|done]. cbn in Hk. injection Hk as <-.
      replace k with (length (ss_blobfuse st)) by lia. by rewrite Hp in Hsc.
    + by rewrite map_app, Hi.
  - destruct (decide (resource_type (store ap) = RT_Aws_S3)) as [Hs3|]; [|done].
    intros H. apply M_bind_ok in H as (w1 & sc & Hsc & H). injection H as <- <-.
    assert (is_s3_store ap = true) as Hs3' by (unfold is_s3_store; by rewrite bool_decide_true).
    split; unfold blob_items, s3_items; rewrite ?filter_bool_snoc; cbn [fst snd ss_blobfuse ss_s3fs ss_port ss_identities];
      rewrite ?Hblob, ?Hs3', ?app_nil_r, ?length_app; cbn [length]; try done.
    + apply Forall_app. split; [done|]. constructor; [cbn; by rewrite Hs3', orb_true_r | constructor].
    + lia.
Qed.

Lemma storage_loop_inv cid items : forall done_ st w w' st',
  storage_inv cid done_ st -> fold_M (storage_step be b cid) st items w = (w', Ok st') ->
  storage_inv cid (done_ ++ items) st'.
Proof.
  induction items as [|i items IH]; intros done_ st w w' st' Hinv H; cbn [fold_M] in H.
  - injection H as <- <-. by rewrite app_nil_r.
  - apply M_bind_ok in H as (w1 & st1 & H1 & H). apply (storage_step_inv cid done_) in H1; [|done].
    rewrite cons_middle, app_assoc. by eapply IH.
Qed.

Lemma storage_sidecars_inv w w' st :
  storage_sidecars be b w = (w', Ok st) ->
  exists cid, storage_inv cid (b_storage_items b) st /\
    (b_storage_items b <> [] -> b_contract_id b = Some cid).
Proof.
  assert (forall cid, storage_inv cid [] storage_start) as H0 by (intros; split; cbn; try done; constructor).
  unfold storage_sidecars. destruct (b_storage_items b) as [|i items].
  - intros H. injection H as <- <-. exists "". split; [apply H0 | done].
  - intros H. apply M_bind_ok in H as (w1 & cid & Hc & H). exists cid. split.
    + by eapply (storage_loop_inv cid (i :: items) []).
    + intros _. unfold lift in Hc. injection Hc as <- Hc. by apply of_option_ok in Hc.
Qed.

(** The sidecars of a successful [Build] end with one blobfuse sidecar per
    blob store followed by one s3fs sidecar per S3 store, every other store
    type having been refused; the blobfuse sidecars are preceded by the
    identity sidecar that serves exactly their identities, and the [k]-th one
    is probed on port [6300 + k], so no two wait on the same port. *)
Theorem build_storage w w' scs :
  Build be b w = (w', Ok scs) ->
  exists pre ids blob s3fs cid,
    scs = pre ++ ids ++ blob ++ s3fs /\
    Forall (fun i => is_blob_store i.1 || is_s3_store i.1 = true) (b_storage_items b) /\
    length blob = length (blob_items (b_storage_items b)) /\
    length s3fs = length (s3_items (b_storage_items b)) /\
    (forall k sc, blob !! k = Some sc -> listens_on (6300 + Z.of_nat k) sc) /\
    (blob = [] -> ids = []) /\
    (blob <> [] -> exists w1 w2 sc, ids = [sc] /\
       get_identity_sidecar be b (map (fun i => (identity i.1, cid +:+ "-" +:+ i.2)) (blob_items (b_storage_items b)))
         "api://AzureADTokenExchange" TELEMETRY_MOUNT_PATH w1 = (w2, Ok sc) /\ b_contract_id b = Some cid).
Proof.
  unfold Build. intros H.
  apply M_bind_ok in H as (w1 & tel & _ & H). apply M_bind_ok in H as (w2 & gov & _ & H).
  apply M_bind_ok in H as (w3 & prx & _ & H). apply M_bind_ok in H as (w4 & st & Hst & H).
  apply M_bind_ok in H as (w5 & ids & Hids & H). injection H as <- <-.
  apply storage_sidecars_inv in Hst as (cid & [Hs Hb H3 Hp Hps Hi] & Hcid).
  exists (tel ++ gov ++ prx), ids, (ss_blobfuse st), (ss_s3fs st), cid.
  split_and!; try done; [by rewrite <- !app_assoc | |]; rewrite Hi in Hids; unfold identity_sidecars in Hids;
    destruct (blob_items (b_storage_items b)) as [|i items] eqn:E.
  - intros _. by injection Hids.
  - cbn in Hb. by destruct (ss_blobfuse st).
  - cbn in Hb. by destruct (ss_blobfuse st).
  - intros _. cbn [map] in Hids. apply M_bind_ok in Hids as (w6 & sc & Hsc & Hret).
    injection Hret as <- <-. exists w4, w6, sc. split_and!; [done | exact Hsc |].
    apply Hcid. intros Hnil. by rewrite Hnil in E.
Qed.
End Storage.

(** ** The identity sidecar's configuration *)

(** The application identity an access point's identity stands for. *)
Definition federated_entry (is_ : option Identity * string) : option (string * string * string) :=
  match is_.1 with
  | Some i => match tokenIssuer i with
              | FederatedIdentityBasedTokenIssuer issuer _ => Some (clientId i, is_.2, endpoint_url issuer)
              | _ => None
              end
  | None => None
  end.

Definition managed_client (is_ : option Identity * string) : option string :=
  match is_.1 with
  | Some i => match tokenIssuer i with
              | AttestationBasedTokenIssuer issuer =>
                  if decide (protocol issuer = AzureAD_ManagedIdentity) then Some (clientId i) else None
              | _ => None
              end
  | None => None
  end.

Definition app_clients (a : IdentityArgs) : list string := (fun e => e.1.1) <$> ApplicationIdentities a.

Record identity_inv (ids : list (option Identity * string)) (a : IdentityArgs) : Prop := {
  ii_app_nodup : NoDup (app_clients a);
  ii_managed_nodup : NoDup (ManagedIdentities a);
  ii_app_sub : ApplicationIdentities a `sublist_of` omap federated_entry ids;
  ii_app_all : forall e, e ∈ omap federated_entry ids -> e.1.1 ∈ app_clients a;
  ii_managed_all : forall c, c ∈ ManagedIdentities a <-> c ∈ omap managed_client ids;
  ii_first : forall pre e post, omap federated_entry ids = pre ++ e :: post ->
    e.1.1 ∉ (fun e => e.1.1) <$> pre -> e ∈ ApplicationIdentities a
}.

Lemma app_cons_snoc {A} (l pre post : list A) e x :
  l ++ [x] = pre ++ e :: post -> (post = [] /\ pre = l /\ e = x) \/ exists post', post = post' ++ [x] /\ l = pre ++ e :: post'.
Proof.
  destruct post as [|y post _] using rev_ind; intros H.
  - apply app_inj_tail in H as [-> ->]. by left.
  - right. rewrite app_comm_cons, app_assoc in H. apply app_inj_tail in H as [-> ->]. by exists post.
Qed.

Lemma add_identity_inv ids a i subject :
  identity_inv ids a -> identity_inv (ids ++ [(Some i, subject)]) (add_identity a i subject).
Proof.
  intros [H1 H2 H3 H4 H5 H6]. unfold add_identity, app_clients in *.
  destruct (tokenIssuer i) as [issuer|issuer secret acc|issuer fed] eqn:Ht.
  - assert (omap federated_entry (ids ++ [(Some i, subject)]) = omap federated_entry ids) as Hf.
    { rewrite omap_app. cbn. unfold federated_entry at 2. cbn. rewrite Ht. by rewrite app_nil_r. }
    assert (omap managed_client (ids ++ [(Some i, subject)]) = omap managed_client ids ++
      (if decide (protocol issuer = AzureAD_ManagedIdentity) then [clientId i] else [])) as Hm.
    { rewrite omap_app. cbn. unfold managed_client at 2. cbn. rewrite Ht. by case_decide. }
    destruct (bool_decide_reflect (protocol issuer = AzureAD_ManagedIdentity)) as [Hp|Hp]; cbn [andb].
    + destruct (bool_decide_reflect (clientId i ∈ ManagedIdentities a)) as [Hin|Hin]; cbn [negb];
        split; cbn; rewrite ?Hf, ?Hm, ?(decide_True _ _ Hp); try done.
      * intros c. rewrite elem_of_app, <- H5, list_elem_of_singleton. naive_solver.
      * apply NoDup_app. split_and!; [done | intros x Hx ->%list_elem_of_singleton; done | apply NoDup_singleton].
      * intros c. by rewrite !elem_of_app, <- H5.
    + split; cbn; rewrite ?Hf, ?Hm, ?(decide_False _ _ Hp), ?app_nil_r; done.
  - assert (forall {B} (f : option Identity * string -> option B), f (Some i, subject) = None ->
      omap f (ids ++ [(Some i, subject)]) = omap f ids) as Hsame.
    { intros B f Hf. rewrite omap_app. cbn. rewrite Hf. by rewrite app_nil_r. }
    rewrite <- (Hsame _ federated_entry) in H3, H4, H6 by (unfold federated_entry; cbn; by rewrite Ht).
    rewrite <- (Hsame _ managed_client) in H5 by (unfold managed_client; cbn; by rewrite Ht).
    by split.
  - assert (omap federated_entry (ids ++ [(Some i, subject)]) =
      omap federated_entry ids ++ [(clientId i, subject, endpoint_url issuer)]) as Hf.
    { rewrite omap_app. cbn. unfold federated_entry at 2. cbn. by rewrite Ht. }
    assert (omap managed_client (ids ++ [(Some i, subject)]) = omap managed_client ids) as Hm.
    { rewrite omap_app. cbn. unfold managed_client at 2. cbn. rewrite Ht. by rewrite app_nil_r. }
    destruct (bool_decide_reflect (clientId i ∈ (fun e => e.1.1) <$> ApplicationIdentities a)) as [Hin|Hin];
      split; cbn; unfold app_clients; cbn; rewrite ?Hf, ?Hm; try done.
    + by apply sublist_inserts_r.
    + intros e [He| ->%list_elem_of_singleton]%elem_of_app; [by apply H4 | done].
    + intros pre e post [(-> & -> & ->)|(post' & -> & Heq)]%app_cons_snoc Hfresh; [|by eapply H6].
      exfalso. apply Hfresh. apply list_elem_of_fmap in Hin as (e' & He1 & He2).
      apply list_elem_of_fmap. exists e'. split; [done|]. by eapply elem_of_sublist.
    + rewrite fmap_app. apply NoDup_app. split_and!; [done | | apply NoDup_singleton].
      intros x Hx ->%list_elem_of_singleton. done.
    + by apply sublist_app.
    + intros e [He| ->%list_elem_of_singleton]%elem_of_app; rewrite fmap_app, elem_of_app.
      * left. by apply H4.
      * right. by left.
    + intros pre e post [(-> & -> & ->)|(post' & -> & Heq)]%app_cons_snoc Hfresh; apply elem_of_app;
        [right; by left | left; by eapply H6].
Qed.

Lemma identity_args_inv ids : forall done_ a a',
  identity_inv done_ a ->
  fold_res (fun args is_ =>
      match is_.1 with
      | Some i => Ok (add_identity args i is_.2)
      | None => Err (AttributeError "'NoneType' object has no attribute 'tokenIssuer'")
      end) a ids = Ok a' ->
  identity_inv (done_ ++ ids) a'.
Proof.
  induction ids as [|[[i|] subject] ids IH]; intros done_ a a' Hinv H; cbn in H.
  - injection H as <-. by rewrite app_nil_r.
  - rewrite cons_middle, app_assoc. eapply IH; [|exact H]. by apply add_identity_inv.
  - done.
Qed.

(** The identity sidecar is given each client once: every federated
    identity's client and every managed identity's client is listed, nothing
    else is, and of several datasets that share a client only the first one's
    subject is configured. *)
Theorem identity_args_spec ids a :
  identity_args ids = Ok a ->
  NoDup (app_clients a) /\ NoDup (ManagedIdentities a) /\
  (forall c, c ∈ ManagedIdentities a <-> c ∈ omap managed_client ids) /\
  (forall c, c ∈ app_clients a <-> c ∈ (fun e => e.1.1) <$> omap federated_entry ids) /\
  ApplicationIdentities a `sublist_of` omap federated_entry ids /\
  (forall pre e post, omap federated_entry ids = pre ++ e :: post ->
     e.1.1 ∉ (fun e => e.1.1) <$> pre -> e ∈ ApplicationIdentities a).
Proof.
  intros H. unfold identity_args in H.
  apply (identity_args_inv ids []) in H as [H1 H2 H3 H4 H5 H6].
  2:{ split; cbn; [constructor | constructor | done | set_solver | done | by intros [] ]. }
  rewrite app_nil_l in *. split_and!; try done.
  intros c. split.
  - unfold app_clients. intros (e & -> & He)%list_elem_of_fmap. apply list_elem_of_fmap. exists e.
    split; [done|]. by eapply elem_of_sublist.
  - intros (e & -> & He)%list_elem_of_fmap. by apply H4.
Qed.

(** ** A registry with two sidecars *)

Definition demo_versions : json :=
  JArr [JObj [("image", JStr "blobfuse-launcher"); ("digest", JStr "sha256:b1");
              ("policyDocument", JStr "blobfuse-policy"); ("policyDocumentDigest", JStr "sha256:b2")];
        JObj [("image", JStr "identity"); ("digest", JStr "sha256:i1");
              ("policyDocument", JStr "identity-policy"); ("policyDocumentDigest", JStr "sha256:i2")]].

Definition demo_sidecar_doc (name : string) (args : list json) (probe : list (string * json)) : json :=
  JObj [("podSpecYaml", JObj [("spec", JObj [("containers",
          JArr [JObj ([("name", JStr name); ("image", JStr ("$containerRegistryUrl/" +:+ name +:+ "@$digest"));
                       ("command", JArr args)] ++ probe)])])]);
        ("policy", JObj [("virtual_node_rego", JObj [("command", JArr args)])])].

Definition demo_env : BuildEnv unit := {|
  temp_dir := "/tmp";
  file_exists _ := fun w => (w, Ok true);
  make_dirs _ := fun w => (w, Ok ());
  oras_pull _ _ _ := fun w => (w, Ok ());
  yaml_load f := fun w => (w,
    if decide (f = "/tmp/sidecar-digests.yaml") then Ok demo_versions
    else if decide (f = "/tmp/blobfuse-policy.yaml") then
      Ok (demo_sidecar_doc "blobfuse" [JStr "$readOnly"; JStr "$datasetName"]
            [("startupProbe", JObj [("httpGet", JObj [("path", JStr "/ready"); ("port", JStr "$readinessPort")])])])
    else if decide (f = "/tmp/identity-policy.yaml") then
      Ok (demo_sidecar_doc "identity" [JStr "$IdentitySidecarArgsBase64"] [])
    else Err (OtherException "No such file or directory"));
  read_text _ := fun w => (w, Ok "containers := [%s]") |}.

Definition demo_endpoint (p : ProtocolType) : ServiceEndpoint :=
  {| protocol := p; endpoint_url := "https://acct.blob.core.windows.net"; endpoint_configuration := None |}.

Definition demo_identity (client : string) : Identity :=
  MkIdentity "id" client "tenant"
    (FederatedIdentityBasedTokenIssuer (demo_endpoint AzureAD_Federated)
       (MkIdentity "cleanroom" "" "" (AttestationBasedTokenIssuer (demo_endpoint Attested_OIDC)))).

Definition demo_access_point (name client : string) : AccessPoint :=
  {| ap_name := name; ap_type := Volume_ReadOnly; ap_path := "";
     store := {| resource_name := "c-" +:+ name; resource_type := RT_Azure_BlobStorage; resource_id := "";
                 provider := demo_endpoint Azure_BlobStorage |};
     identity := Some (demo_identity client);
     protection := {| proxyType := SecureVolume__ReadOnly__Azure__BlobStorage; proxyMode := PM_Secure;
                      privacyPolicy := None;
                      configuration := Some (b64encode (dumps (JObj [("EncryptionMode", JStr "SSE")])));
                      encryptionSecrets := None; encryptionSecretAccessIdentity := None |};
     subdirectory := Some "" |}.

Definition demo_settings : CleanroomSettings :=
  {| registry_url := "mcr"; sidecars_policy_document_registry_url := "mcr";
     versions_document := "mcr/sidecar-digests:1"; use_http := false |}.

Definition demo_builder : Builder :=
  AddStorage (AddStorage (WithContractId (new_builder demo_settings) "contract")
    (demo_access_point "orders" "client-1") "alice")
    (demo_access_point "users" "client-1") "bob".

Lemma build_storage_witness :
  exists w' scs, Build demo_env demo_builder () = (w', Ok scs) /\ length scs = 3 /\
    exists pre ids blob s3fs, scs = pre ++ ids ++ blob ++ s3fs /\ length blob = 2 /\
      (forall k sc, blob !! k = Some sc -> listens_on (6300 + Z.of_nat k) sc).
Proof.
  destruct (Build demo_env demo_builder ()) as [w' [scs|e]] eqn:E.
  2:{ vm_compute in E. discriminate. }
  exists w', scs. split; [reflexivity|].
  destruct (build_storage demo_env demo_builder () w' scs E)
    as (pre & ids & blob & s3fs & cid & Hs & _ & Hb & _ & Hp & _).
  vm_compute in E. injection E as _ <-. split; [reflexivity|].
  exists pre, ids, blob, s3fs. split; [exact Hs|]. split; [exact Hb | exact Hp].
Defined.

Lemma identity_args_spec_witness :
  exists a, identity_args [(Some (demo_identity "client-1"), "contract-alice");
                           (Some (demo_identity "client-1"), "contract-bob")] = Ok a /\
    app_clients a = ["client-1"] /\
    ("client-1", "contract-alice", "https://acct.blob.core.windows.net") ∈ ApplicationIdentities a.
Proof.
  destruct (identity_args [(Some (demo_identity "client-1"), "contract-alice");
                           (Some (demo_identity "client-1"), "contract-bob")]) as [a|e] eqn:E.
  2:{ vm_compute in E. discriminate. }
  exists a. split; [reflexivity|].
  destruct (identity_args_spec _ a E) as (_ & _ & _ & _ & _ & Hfirst).
  split; [vm_compute in E; injection E as <-; reflexivity|].
  apply (Hfirst [] ("client-1", "contract-alice", "https://acct.blob.core.windows.net")
           [("client-1", "contract-bob", "https://acct.blob.core.windows.net")]); [reflexivity|].
  cbn. intros Hin. inversion Hin.
Defined.
