(* ===== verification/Metrics.v ===== *)
(** * Metrics of the Spark front end

    [telemetry/metrics.py]: each [record_*] method as the sequence of
    instrument updates it makes.  The front end's state [FE] pairs the outside
    world [W] (Kubernetes, files, clock) with the updates made so far; measured
    durations, which depend on the clock alone, are left out of them. *)

From S2P Require Import Prelude PyStr Json JsonFacts.
From Stdlib Require Import Lia.

Inductive metric_event :=
| CounterAdd (instrument : string) (amount : Z) (attributes : list (string * json))
| HistogramRecord (instrument : string) (attributes : list (string * json)).

Record FE (W : Type) := MkFE { world : W; meters : list metric_event }.
Arguments MkFE {W}.
Arguments world {W}.
Arguments meters {W}.

(** [str(b).lower()] *)
Definition bool_text (b : bool) : string := if b then "true" else "false".

Section Record.
Context {W : Type}.

(** Run a request against the outside world. *)
Definition in_world {A} (m : M W A) : M (FE W) A := fun s =>
  let '(w, r) := m (world s) in (MkFE w (meters s), r).

Definition emit (es : list metric_event) : FE W -> FE W := fun s =>
  MkFE (world s) (meters s ++ es).
End Record.

Definition job_submission_events (job_type : string) (success : bool)
    (labels : list (string * json)) : list metric_event :=
  let attrs := [("job_type", JStr job_type); ("success", JStr (bool_text success))] ++ labels in
  CounterAdd "spark_job_submissions_total" 1 attrs
    :: (if success then CounterAdd "spark_active_jobs_total" 1 attrs
        else CounterAdd "spark_job_submissions_failed_total" 1 attrs)
    :: [HistogramRecord "spark_job_submission_duration_seconds" attrs].

Definition job_completion_events (job_type : json) (success : bool) : list metric_event :=
  let attrs := [("job_type", job_type); ("success", JStr (bool_text success))] in
  [CounterAdd "spark_active_jobs_total" (-1) attrs]
    ++ (if success then [] else [CounterAdd "spark_job_failed_total" 1 attrs])
    ++ [HistogramRecord "spark_job_duration_seconds" attrs].

Definition http_request_events (method path : string) (status_code : Z) : list metric_event :=
  let attrs := [("method", JStr method); ("path", JStr path); ("status_code", JStr (str_of_Z status_code))] in
  [CounterAdd "http_requests_total" 1 attrs; HistogramRecord "http_request_duration_seconds" attrs]
    ++ (if (400 <=? status_code)%Z then [CounterAdd "http_requests_failed_total" 1 attrs] else []).

Definition k8s_operation_events (operation resource_kind : string) (success : bool)
    (labels : list (string * json)) : list metric_event :=
  let attrs := [("operation", JStr operation); ("resource_kind", JStr resource_kind);
                ("success", JStr (bool_text success))] ++ labels in
  [CounterAdd "k8s_operations_total" 1 attrs]
    ++ (if success then [] else [CounterAdd "k8s_operations_failed_total" 1 attrs])
    ++ [HistogramRecord "k8s_operation_duration_seconds" attrs].

Definition query_statistics_events (job_id : string) (rows_read rows_written : Z) : list metric_event :=
  let attrs := [("job_id", JStr job_id)] in
  [CounterAdd "query_rows_read_total" rows_read attrs;
   CounterAdd "query_rows_written_total" rows_written attrs;
   HistogramRecord "query_duration_seconds" attrs].

Definition webhook_request_events (webhook_name operation : string) (success : bool)
    (labels : list (string * json)) : list metric_event :=
  let attrs := [("webhook_name", JStr webhook_name); ("operation", JStr operation);
                ("success", JStr (bool_text success))] ++ labels in
  [CounterAdd "webhook_requests_total" 1 attrs]
    ++ (if success then [] else [CounterAdd "webhook_requests_failed_total" 1 attrs])
    ++ [HistogramRecord "webhook_request_duration_seconds" attrs].

(** The sum of the updates of one instrument over a sequence. *)
Fixpoint instrument_total (name : string) (es : list metric_event) : Z :=
  match es with
  | [] => 0
  | CounterAdd n z _ :: es' =>
      if decide (n = name) then (z + instrument_total name es')%Z else instrument_total name es'
  | HistogramRecord _ _ :: es' => instrument_total name es'
  end.

Lemma instrument_total_app name es1 es2 :
  instrument_total name (es1 ++ es2) = (instrument_total name es1 + instrument_total name es2)%Z.
Proof.
  induction es1 as [|[n z a|n a] es1 IH]; cbn; [done| |done].
  destruct (decide (n = name)); lia.
Qed.

Section RunLemmas.
Context {W A : Type}.

Lemma in_world_run (m : M W A) s :
  in_world m s = (MkFE (m (world s)).1 (meters s), (m (world s)).2).
Proof. unfold in_world. by destruct (m (world s)). Qed.
End RunLemmas.
