(* ===== verification/KubeClient.v ===== *)
(** * The Kubernetes client of the Spark front end

    [clients/kubernetes_client.py].  The Kubernetes API server, the clock and
    the file system are the parameter [KubeApi]: one operation per call of the
    [kubernetes] package the client makes.  pydantic's validation of a Spark
    application status is the parameter [validate_status].  Requests go
    through [call], which records the operation's metrics as
    [KubernetesOperationTracer] does. *)

From S2P Require Import Prelude PyStr Base64 Json JsonFacts PyFloat SparkModels Settings Metrics.

(** ** Constants *)

Definition CCE_POLICY_INJECTOR_LABEL : string := "inject-cce-policy".
Definition CCE_POLICY_ANNOTATION_NAME_LABEL : string := "cce-policy-annotation-name".
Definition CCE_POLICY_CONFIG_MAP_ANNOTATION : string := "microsoft.cleanroom.spark/cce-policy-map".
Definition CCE_POLICY_CONFIG_MAP_POLICY_KEY : string := "policy_base64".
Definition CCE_POLICY_INJECTOR_WEBHOOK_NAME : string := "cce-policy-injector".
Definition SPARK_POD_SCHEDULER_LABEL : string := "schedule-spark-pod".
Definition SPARK_POD_SCHEDULER_WEBHOOK_NAME : string := "cleanroom-spark-pod-scheduler".
Definition JOB_RECORD_RECORDED_ANNOTATION : string := "cleanroom.azure.com/job-record-recorded".

(** ** Kubernetes objects *)

Record Policy := { rego : string; rego_base64 : string; policy_host_data : string }.

Record CleanRoomSparkApplication := {
  cr_spec : SparkApplicationSpec;
  driver_policy : Policy;
  executor_policy : Policy
}.

Record V1ConfigMap := {
  cm_name : string;
  cm_namespace : string;
  cm_labels : option (list (string * string));
  cm_data : option (list (string * string))
}.

(** The body of the custom resource [submit_job] creates; [sb_spec] stands for
    [spec.dict(exclude_unset=True)]. *)
Record SparkBody := {
  sb_api_version : string;
  sb_kind : string;
  sb_name : string;
  sb_namespace : string;
  sb_labels : list (string * string);
  sb_spec : SparkApplicationSpec
}.

Record CoreV1Event := {
  ev_name : option string;
  ev_namespace : string;
  ev_object_kind : string;
  ev_object_name : json;
  ev_object_namespace : json;
  ev_object_uid : json;
  ev_reason : option string;
  ev_message : option string;
  ev_type : string;
  ev_first_timestamp : option datetime;
  ev_last_timestamp : option datetime;
  ev_count : Z;
  ev_component : string
}.

Record V1Taint := { taint_effect : string }.
Record V1NodeCondition := { cond_type : string; cond_status : string }.
Record V1NodeSpec := { unschedulable : option bool; taints : option (list V1Taint) }.

Record V1Node := {
  node_metadata_name : option (option string);
  node_spec : option V1NodeSpec;
  node_conditions : option (option (list V1NodeCondition))
}.

(** [pod_phase] is [None] when the pod has no status. *)
Record V1Pod := { pod_name : string; pod_phase : option (option string) }.

Record WebhookClientConfig := {
  wcc_service_name : string;
  wcc_service_namespace : string;
  wcc_path : string;
  wcc_ca_bundle : string
}.

Record V1MutatingWebhook := {
  wh_name : string;
  wh_client_config : WebhookClientConfig;
  wh_operations : list string;
  wh_api_groups : list string;
  wh_api_versions : list string;
  wh_resources : list string;
  wh_admission_review_versions : list string;
  wh_side_effects : string;
  wh_timeout_seconds : Z;
  wh_failure_policy : string;
  wh_match_labels : list (string * string)
}.

Record V1MutatingWebhookConfiguration := {
  whc_name : string;
  whc_webhooks : list V1MutatingWebhook
}.

(** ** The outside world *)

Record KubeApi (W : Type) := {
  create_namespaced_custom_object : string -> string -> string -> string -> SparkBody -> M W unit;
  get_namespaced_custom_object : string -> string -> string -> string -> string -> M W json;
  patch_namespaced_custom_object : string -> string -> string -> string -> string -> json -> M W unit;
  create_namespaced_config_map : string -> V1ConfigMap -> M W unit;
  patch_namespaced_config_map : string -> string -> json -> M W unit;
  read_namespaced_config_map : json -> json -> M W (option V1ConfigMap);
  create_namespaced_event : string -> CoreV1Event -> M W unit;
  list_namespaced_event : string -> string -> M W (option (list CoreV1Event));
  list_node : string -> M W (option (list V1Node));
  list_pod_for_all_namespaces : string -> M W (option (list V1Pod));
  read_mutating_webhook_configuration : string -> M W V1MutatingWebhookConfiguration;
  replace_mutating_webhook_configuration : string -> V1MutatingWebhookConfiguration -> M W unit;
  create_mutating_webhook_configuration_ : V1MutatingWebhookConfiguration -> M W unit;
  datetime_now : M W datetime;
  path_exists : string -> M W bool;
  read_bytes : string -> M W string
}.
Arguments create_namespaced_custom_object {W}.
Arguments get_namespaced_custom_object {W}.
Arguments patch_namespaced_custom_object {W}.
Arguments create_namespaced_config_map {W}.
Arguments patch_namespaced_config_map {W}.
Arguments read_namespaced_config_map {W}.
Arguments create_namespaced_event {W}.
Arguments list_namespaced_event {W}.
Arguments list_node {W}.
Arguments list_pod_for_all_namespaces {W}.
Arguments read_mutating_webhook_configuration {W}.
Arguments replace_mutating_webhook_configuration {W}.
Arguments create_mutating_webhook_configuration_ {W}.
Arguments datetime_now {W}.
Arguments path_exists {W}.
Arguments read_bytes {W}.

(** [e.status == 404] of an [except ApiException as e] clause *)
Definition api_404 (e : exn) : bool :=
  match e with ApiException (Some 404%Z) _ => true | _ => false end.

Section Client.
Context {W : Type} (api : KubeApi W) (settings : SparkResourceSettings).
Context (validate_status : json -> res SparkApplicationStatus).

(** [KubernetesAPICaller.call]: the operation's outcome and labels are recorded
    on the way out, and an exception passes through. *)
Definition truthy_label (k : string) (v : json) : list (string * json) :=
  if json_truthy v then [(k, v)] else [].

Definition call {A} (operation resource_type : string) (name ns : json) (m : M W A)
  : M (FE W) A := fun s =>
  let '(s', r) := in_world m s in
  (emit (k8s_operation_events operation resource_type (is_ok r)
           (truthy_label "namespace" ns ++ truthy_label "resource_name" name)) s', r).

Definition api_version_of : string := res_group settings +:+ "/" +:+ res_version settings.
Definition kind_lower : string := lower (res_kind settings).

(** ** Config maps and events *)

Definition create_config_map (name ns : string) (data : list (string * string))
    (lbls : option (list (string * string))) : M (FE W) unit :=
  call "create" "configmap" (JStr name) (JStr ns)
    (create_namespaced_config_map api ns
       {| cm_name := name; cm_namespace := ns; cm_labels := lbls; cm_data := Some data |}).

Definition get_config_map (name ns : json) : M (FE W) (option V1ConfigMap) :=
  call "get" "configmap" name ns (read_namespaced_config_map api name ns).

(** The value of a key; [None] for a missing map, missing data or an empty
    value. *)
Definition config_map_value (config_map : option V1ConfigMap) (key : string) : option string :=
  match config_map with
  | Some {| cm_data := Some data |} =>
      match dict_lookup key data with
      | Some value => if str_truthy value then Some value else None
      | None => None
      end
  | _ => None
  end.

Definition get_key_from_config_map (name ns : json) (key : string) : M (FE W) (option string) :=
  config_map ← get_config_map name ns;
  mret (config_map_value config_map key).

Definition create_event (name ns message : string) (reason : string)
    (object_name : json) (object_kind : string) (object_namespace object_uid : json)
    (event_type : string) : M (FE W) unit :=
  timestamp ← in_world (datetime_now api);
  call "create" "event" (JStr name) (JStr ns)
    (create_namespaced_event api ns
       {| ev_name := Some name; ev_namespace := ns; ev_object_kind := object_kind;
          ev_object_name := object_name; ev_object_namespace := object_namespace;
          ev_object_uid := object_uid; ev_reason := Some reason; ev_message := Some message;
          ev_type := event_type; ev_first_timestamp := Some timestamp;
          ev_last_timestamp := Some timestamp; ev_count := 1;
          ev_component := "cleanroom-spark-frontend" |}).

(** ** Spark applications *)

Definition object_meta (metadata_dict : json) : res ObjectMeta :=
  name ← json_get metadata_dict "name" JNull;
  ns ← json_get metadata_dict "namespace" JNull;
  created ← json_get metadata_dict "creationTimestamp" JNull;
  lbls ← json_get metadata_dict "labels" JNull;
  anns ← json_get metadata_dict "annotations" JNull;
  uid ← json_get metadata_dict "uid" JNull;
  rv ← json_get metadata_dict "resourceVersion" JNull;
  gen ← json_get metadata_dict "generation" JNull;
  Ok {| meta_name := name; meta_namespace := ns; meta_creation_timestamp := created;
        meta_labels := lbls; meta_annotations := anns; meta_uid := uid;
        meta_resource_version := rv; meta_generation := gen |}.

(** The part of [get_spark_app] after the request. *)
Definition spark_app_of (ret_val : json) : res SparkApplication :=
  metadata_dict ← json_get ret_val "metadata" (JObj []);
  metadata_obj ← object_meta metadata_dict;
  status_dict ← json_get ret_val "status" (JObj []);
  status ← (if json_truthy status_dict then
              st ← validate_status status_dict; Ok (Some st)
            else Ok None);
  Ok {| app_metadata := metadata_obj; app_status := status |}.

Definition get_spark_app (name ns : string) : M (FE W) SparkApplication :=
  try_except
    (ret_val ← call "get" kind_lower (JStr name) (JStr ns)
       (get_namespaced_custom_object api (res_group settings) (res_version settings) ns
          (res_plural settings) name);
     lift (spark_app_of ret_val))
    (fun e => if api_404 e then raise (ResourceNotFound ("Spark Application " +:+ name +:+ " not found"))
              else raise e).

Definition patch_spark_app_annotation (name ns annotation_key annotation_value : string)
  : M (FE W) unit :=
  try_except
    (call "patch" kind_lower (JStr name) (JStr ns)
       (patch_namespaced_custom_object api (res_group settings) (res_version settings) ns
          (res_plural settings) name
          (JObj [("metadata", JObj [("annotations", JObj [(annotation_key, JStr annotation_value)])])])))
    (fun e => if api_404 e then raise (ResourceNotFound ("Spark Application " +:+ name +:+ " not found"))
              else raise e).

Definition owner_reference (spark_app_name : string) (uid : json) : json :=
  JObj [("metadata",
    JObj [("ownerReferences",
      JArr [JObj [("apiVersion", JStr api_version_of); ("kind", JStr (res_kind settings));
                  ("name", JStr spark_app_name); ("uid", uid);
                  ("controller", JBool true); ("blockOwnerDeletion", JBool false)]])])].

Definition set_config_map_owner (name ns spark_app_name : string) : M (FE W) unit :=
  spark_app ← get_spark_app spark_app_name ns;
  call "patch" "configmap" (JStr name) (JStr ns)
    (patch_namespaced_config_map api name ns
       (owner_reference spark_app_name (meta_uid (app_metadata spark_app)))).

(** ** Submission *)

Definition driver_config_map_name (app : CleanRoomSparkApplication) : string :=
  spec_name (cr_spec app) +:+ "-driver-policy".
Definition executor_config_map_name (app : CleanRoomSparkApplication) : string :=
  spec_name (cr_spec app) +:+ "-executor-policy".

(** The annotation that points the webhook at a config map. *)
Definition config_map_reference (name ns : string) : string :=
  b64encode (utf8_encode (dumps (JObj [("name", JStr name); ("namespace", JStr ns)]))).

Definition annotate (p : SparkPodSpec) (reference : string) : SparkPodSpec :=
  set_annotations p
    (Some (dict_set CCE_POLICY_CONFIG_MAP_ANNOTATION reference (default [] (annotations p)))).

(** The specification after [submit_job] has set both annotations. *)
Definition annotated_spec (app : CleanRoomSparkApplication) (ns : string) : SparkApplicationSpec :=
  let s := cr_spec app in
  spec_with_pods s
    (driver_with_pod (driver s)
       (annotate (driver_pod (driver s)) (config_map_reference (driver_config_map_name app) ns)))
    (executor_with_pod (executor s)
       (annotate (executor_pod (executor s)) (config_map_reference (executor_config_map_name app) ns))).

Definition spark_body (name ns : string) (app : CleanRoomSparkApplication)
    (tags : option (list (string * string))) : SparkBody :=
  {| sb_api_version := api_version_of; sb_kind := res_kind settings; sb_name := name;
     sb_namespace := ns; sb_labels := default [] tags; sb_spec := annotated_spec app ns |}.

Definition submit_job (name ns : string) (app : CleanRoomSparkApplication)
    (tags : option (list (string * string))) : M (FE W) unit :=
  _ ← create_config_map (driver_config_map_name app) ns
        [(CCE_POLICY_CONFIG_MAP_POLICY_KEY, rego_base64 (driver_policy app))] tags;
  _ ← create_config_map (executor_config_map_name app) ns
        [(CCE_POLICY_CONFIG_MAP_POLICY_KEY, rego_base64 (executor_policy app))] tags;
  _ ← call "create" kind_lower (JStr name) (JStr ns)
        (create_namespaced_custom_object api (res_group settings) (res_version settings) ns
           (res_plural settings) (spark_body name ns app tags));
  _ ← set_config_map_owner (driver_config_map_name app) ns (spec_name (cr_spec app));
  set_config_map_owner (executor_config_map_name app) ns (spec_name (cr_spec app)).

(** ** Nodes, pods and events *)

(** [",".join([f"{k}={v}" for k, v in label_selector.items()])] *)
Definition label_selector_text (label_selector : list (string * string)) : string :=
  join "," (map (fun kv => kv.1 +:+ "=" +:+ kv.2) label_selector).

Definition list_nodes (label_selector : list (string * string)) : M (FE W) (list V1Node) :=
  node_list ← call "list" "node" JNull JNull
    (list_node api (label_selector_text label_selector));
  mret (default [] node_list).

Definition pod_active (p : V1Pod) : bool :=
  match pod_phase p with
  | Some (Some phase) => bool_decide (phase = "Pending" \/ phase = "Running")
  | _ => false
  end.

(** An absent name prints as [None]. *)
Definition node_field_selector (node_name : option string) : string :=
  "spec.nodeName=" +:+ default "None" node_name.

Definition list_pods_on_node (node_name : option string) (active_only : bool) : M (FE W) (list V1Pod) :=
  pod_list ← call "list" "pod" JNull JNull
    (list_pod_for_all_namespaces api (node_field_selector node_name));
  let pods := default [] pod_list in
  mret (if active_only then filter (fun p => Is_true (pod_active p)) pods else pods).

Definition list_events_for_spark_app (spark_app_name : string) (spark_app_uid : json) (ns : string)
  : M (FE W) (list CoreV1Event) :=
  event_list ← call "list" "event" JNull (JStr ns)
    (list_namespaced_event api ns
       ("involvedObject.name=" +:+ spark_app_name +:+ ",involvedObject.uid=" +:+ py_str spark_app_uid));
  mret (default [] event_list).

(** ** Webhook registration *)

Definition mutating_webhook (name path : string) (pod_labels : list (string * string))
    (svc : ServiceSettings) (ca_cert : string) : V1MutatingWebhook :=
  {| wh_name := name +:+ "." +:+ svc_namespace svc +:+ ".svc";
     wh_client_config := {| wcc_service_name := svc_name svc; wcc_service_namespace := svc_namespace svc;
                            wcc_path := path; wcc_ca_bundle := ca_cert |};
     wh_operations := ["CREATE"]; wh_api_groups := [""]; wh_api_versions := ["v1"];
     wh_resources := ["pods"]; wh_admission_review_versions := ["v1"];
     wh_side_effects := "None"; wh_timeout_seconds := 10; wh_failure_policy := "Fail";
     wh_match_labels := pod_labels |}.

Definition set_client_config (wh : V1MutatingWebhook) (c : WebhookClientConfig) : V1MutatingWebhook :=
  {| wh_name := wh_name wh; wh_client_config := c; wh_operations := wh_operations wh;
     wh_api_groups := wh_api_groups wh; wh_api_versions := wh_api_versions wh;
     wh_resources := wh_resources wh;
     wh_admission_review_versions := wh_admission_review_versions wh;
     wh_side_effects := wh_side_effects wh; wh_timeout_seconds := wh_timeout_seconds wh;
     wh_failure_policy := wh_failure_policy wh; wh_match_labels := wh_match_labels wh |}.

(** [existing_webhook.webhooks[0].client_config = c] *)
Definition update_first_webhook (cfg : V1MutatingWebhookConfiguration) (c : WebhookClientConfig)
  : res V1MutatingWebhookConfiguration :=
  match whc_webhooks cfg with
  | [] => Err (IndexError "list index out of range")
  | wh :: whs => Ok {| whc_name := whc_name cfg; whc_webhooks := set_client_config wh c :: whs |}
  end.

Definition create_mutating_webhook_configuration (name path : string)
    (pod_labels : list (string * string)) (svc : ServiceSettings) (cert_path : string)
  : M (FE W) unit :=
  found ← in_world (path_exists api cert_path);
  if negb found then raise (OtherException ("Service cert file not found at " +:+ cert_path)) else
  cert ← in_world (read_bytes api cert_path);
  let webhook := mutating_webhook name path pod_labels svc (b64encode cert) in
  try_except
    (existing ← call "get" "mutatingwebhookconfiguration" (JStr (wh_name webhook)) JNull
       (read_mutating_webhook_configuration api (wh_name webhook));
     updated ← lift (update_first_webhook existing (wh_client_config webhook));
     call "patch" "mutatingwebhookconfiguration" (JStr (wh_name webhook)) JNull
       (replace_mutating_webhook_configuration api (wh_name webhook) updated))
    (fun e =>
       if api_404 e then
         call "create" "mutatingwebhookconfiguration" (JStr (wh_name webhook)) JNull
           (create_mutating_webhook_configuration_ api
              {| whc_name := wh_name webhook; whc_webhooks := [webhook] |})
       else raise e).
End Client.
