(* ===== verification/SparkBuilder.v ===== *)
(** * The Spark application builders

    [builders/spark_application_builder.py] with its two subclasses
    ([conf_vn2_...] and [virtual_...]) and the factory.  A subclass is the
    builder's [SparkComputeProvider]; its overrides are the matches on it.  The
    OpenTelemetry carrier and baggage of the current request and the process
    environment are fields of [SparkEnv].  The driver and the executor share
    their sidecar objects in the source; every update made to them afterwards
    is the same for both, so they are values here. *)

From S2P Require Import Prelude PyStr Base64 Json JsonFacts Template Sha256 PyFloat SparkModels Settings Helpers CleanroomModels AppBuilder Metrics KubeClient.
From Stdlib Require Import Ascii.

Definition OTEL_TRACE_CONTEXT_ENV_KEY : string := "OTEL_TRACE_CONTEXT_BASE64".
Definition SPARK_OTEL_TRACEPARENT_KEY : string := "spark.otel.traceparent".
Definition SPARK_JAVAAGENT_PATH : string := "/plugins/opentelemetry-javaagent.jar".
Definition SPARK_MONITORING_PLUGIN_JAR_PATH : string := "/plugins/cleanroom-monitoring-plugin.jar".
Definition SPARK_OPENTELEMETRY_JARS : list string :=
  ["/plugins/opentelemetry-api-1.34.0.jar"; "/plugins/opentelemetry-context-1.34.0.jar"].
Definition SPARK_MONITORING_AGENT_CLASS_NAME : string := "com.microsoft.azure_cleanroom.MonitoringPlugin".
Definition SPARK_PLUGINS_KEY : string := "spark.plugins".
Definition SPARK_EXTRA_CLASSPATH_KEY_DRIVER : string := "spark.driver.extraClassPath".
Definition SPARK_EXTRA_CLASSPATH_KEY_EXECUTOR : string := "spark.executor.extraClassPath".
Definition CCE_POLICY_ANNOTATION_VALUE : string := "microsoft.containerinstance.virtualnode.ccepolicy".

(** ** [json.dumps(j, separators=(",", ":"), sort_keys=True)] *)

Fixpoint insert_key (kv : string * json) (l : list (string * json)) : list (string * json) :=
  match l with
  | [] => [kv]
  | kv' :: l' => if String.leb kv.1 kv'.1 then kv :: l else kv' :: insert_key kv l'
  end.

Fixpoint sort_keys (j : json) : json :=
  match j with
  | JArr l => JArr (map sort_keys l)
  | JObj kvs => JObj (foldr insert_key [] (map (fun kv => (kv.1, sort_keys kv.2)) kvs))
  | _ => j
  end.

Definition dumps_policy (j : json) : string := dumps_with "" (sort_keys j).

(** ** State *)

Record SparkEnv (W : Type) := {
  build_env : BuildEnv W;
  current_carrier : list (string * string);
  current_baggage : list (string * string);
  environ : string -> option string;
  package_dir : string
}.
Arguments build_env {W}.
Arguments current_carrier {W}.
Arguments current_baggage {W}.
Arguments environ {W}.
Arguments package_dir {W}.

Record SparkBuilder := {
  sp_provider : SparkComputeProvider;
  sp_image : string;
  sp_app_name : string;
  sp_main_application_file : string;
  sp_policy_file : string;
  sp_contract_id : string;
  sp_debug_mode : bool;
  sp_allow_all : bool;
  sp_arguments : list string;
  sp_env_vars : list EnvData;
  sp_driver : option (Driver * json);
  sp_executor : option (Executor * DynamicAllocationProfile * json);
  sp_datasets : list DatasetInfo;
  sp_datasinks : list DatasetInfo;
  sp_settings : CleanroomSettings;
  sp_telemetry : TelemetrySettings;
  sp_governance : option GovernanceSettings;
  sp_trace_context : list (string * string)
}.

(** The attributes set by the [With*] methods, before the pods are added. *)
Definition new_spark_builder (provider : SparkComputeProvider) (settings : CleanroomSettings)
    (telemetry : TelemetrySettings) (governance : option GovernanceSettings)
    (trace_context : list (string * string)) (contract_id app_name image policy_file main_file : string)
    (debug_mode allow_all : bool) (env_vars : list EnvData) (arguments : list string) : SparkBuilder :=
  {| sp_provider := provider; sp_image := image; sp_app_name := app_name;
     sp_main_application_file := main_file; sp_policy_file := policy_file; sp_contract_id := contract_id;
     sp_debug_mode := debug_mode;
     (* the virtual builder's WithPolicy turns the flag on *)
     sp_allow_all := match provider with Virtual => true | ConfidentialVirtualNode => allow_all end;
     sp_arguments := arguments; sp_env_vars := env_vars; sp_driver := None; sp_executor := None;
     sp_datasets := []; sp_datasinks := []; sp_settings := settings; sp_telemetry := telemetry;
     sp_governance := governance; sp_trace_context := trace_context |}.

Definition AddDataset (b : SparkBuilder) (d : DatasetInfo) : SparkBuilder :=
  {| sp_provider := sp_provider b; sp_image := sp_image b; sp_app_name := sp_app_name b;
     sp_main_application_file := sp_main_application_file b; sp_policy_file := sp_policy_file b;
     sp_contract_id := sp_contract_id b; sp_debug_mode := sp_debug_mode b; sp_allow_all := sp_allow_all b;
     sp_arguments := sp_arguments b; sp_env_vars := sp_env_vars b; sp_driver := sp_driver b;
     sp_executor := sp_executor b; sp_datasets := sp_datasets b ++ [d]; sp_datasinks := sp_datasinks b;
     sp_settings := sp_settings b; sp_telemetry := sp_telemetry b; sp_governance := sp_governance b;
     sp_trace_context := sp_trace_context b |}.

Definition AddDatasink (b : SparkBuilder) (d : DatasetInfo) : SparkBuilder :=
  {| sp_provider := sp_provider b; sp_image := sp_image b; sp_app_name := sp_app_name b;
     sp_main_application_file := sp_main_application_file b; sp_policy_file := sp_policy_file b;
     sp_contract_id := sp_contract_id b; sp_debug_mode := sp_debug_mode b; sp_allow_all := sp_allow_all b;
     sp_arguments := sp_arguments b; sp_env_vars := sp_env_vars b; sp_driver := sp_driver b;
     sp_executor := sp_executor b; sp_datasets := sp_datasets b; sp_datasinks := sp_datasinks b ++ [d];
     sp_settings := sp_settings b; sp_telemetry := sp_telemetry b; sp_governance := sp_governance b;
     sp_trace_context := sp_trace_context b |}.

Definition set_driver (b : SparkBuilder) (d : Driver * json) : SparkBuilder :=
  {| sp_provider := sp_provider b; sp_image := sp_image b; sp_app_name := sp_app_name b;
     sp_main_application_file := sp_main_application_file b; sp_policy_file := sp_policy_file b;
     sp_contract_id := sp_contract_id b; sp_debug_mode := sp_debug_mode b; sp_allow_all := sp_allow_all b;
     sp_arguments := sp_arguments b; sp_env_vars := sp_env_vars b; sp_driver := Some d;
     sp_executor := sp_executor b; sp_datasets := sp_datasets b; sp_datasinks := sp_datasinks b;
     sp_settings := sp_settings b; sp_telemetry := sp_telemetry b; sp_governance := sp_governance b;
     sp_trace_context := sp_trace_context b |}.

Definition set_executor (b : SparkBuilder) (e : Executor * DynamicAllocationProfile * json) : SparkBuilder :=
  {| sp_provider := sp_provider b; sp_image := sp_image b; sp_app_name := sp_app_name b;
     sp_main_application_file := sp_main_application_file b; sp_policy_file := sp_policy_file b;
     sp_contract_id := sp_contract_id b; sp_debug_mode := sp_debug_mode b; sp_allow_all := sp_allow_all b;
     sp_arguments := sp_arguments b; sp_env_vars := sp_env_vars b; sp_driver := sp_driver b;
     sp_executor := Some e; sp_datasets := sp_datasets b; sp_datasinks := sp_datasinks b;
     sp_settings := sp_settings b; sp_telemetry := sp_telemetry b; sp_governance := sp_governance b;
     sp_trace_context := sp_trace_context b |}.

(** ** Pods and their policies *)

Definition str_env (name value : string) : V1EnvVar := {| env_name := JStr name; env_value := JStr value |}.

Definition trace_env (b : SparkBuilder) : V1EnvVar :=
  str_env OTEL_TRACE_CONTEXT_ENV_KEY
    (b64encode (utf8_encode (dumps (JObj (map (fun kv => (kv.1, JStr kv.2)) (sp_trace_context b)))))).

Definition pod_env (b : SparkBuilder) : list V1EnvVar :=
  map (fun e => str_env (env_key e) (env_val e)) (sp_env_vars b) ++ [trace_env b].

Definition base_pod (b : SparkBuilder) (cores : Z) (memory : string) : SparkPodSpec :=
  {| cores := cores; core_limit := None; memory := memory; configMaps := Some []; labels := Some [];
     annotations := Some []; env := Some (pod_env b); volumeMounts := Some []; sidecars := Some [];
     initContainers := Some []; tolerations := None; nodeSelector := Some []; privileged := Some true |}.

(** The rule of the policy for one environment variable: a measured variable
    is fixed to its value, another may have any. *)
Definition env_rule (e : EnvData) : json :=
  if isMeasured e then
    JObj [("pattern", JStr (env_key e +:+ "=" +:+ env_val e)); ("required", JBool false);
          ("strategy", JStr "string")]
  else
    JObj [("pattern", JStr (env_key e +:+ "=.*")); ("required", JBool false); ("strategy", JStr "re2")].

Definition trace_rule : json :=
  JObj [("pattern", JStr (OTEL_TRACE_CONTEXT_ENV_KEY +:+ "=.+")); ("required", JBool false);
        ("strategy", JStr "re2")].

(** [policy[k].extend(xs)] *)
Definition extend_at (policy : json) (k : string) (xs : list json) : res json :=
  l ← json_item policy k; l' ← json_extend l xs; json_set policy k l'.

(** A role's policy out of the policy document. *)
Definition role_policy_rego (b : SparkBuilder) (doc : json) (role : string) (vars : list (string * json)) : res json :=
  r ← json_item doc role;
  p ← json_item r (if sp_debug_mode b then "policyDebug" else "policy");
  p ← replace_vars vars (dumps p);
  extend_at p "env_rules" (map env_rule (sp_env_vars b) ++ [trace_rule]).

Definition driver_policy_rego (b : SparkBuilder) (doc : json) : res json :=
  p ← role_policy_rego b doc "driver"
        [("containerRegistryUrl", JStr (sp_image b)); ("jobId", JStr (sp_app_name b))];
  match sp_governance b with
  | Some _ => extend_at p "command" [JStr "--governance-port"; JStr "8300"]
  | None => Ok p
  end.

Definition executor_policy_rego (b : SparkBuilder) (doc : json) : res json :=
  role_policy_rego b doc "executor" [("imageUrl", JStr (sp_image b)); ("jobId", JStr (sp_app_name b))].

Definition vn2_toleration : V1Toleration :=
  {| tol_effect := "NoSchedule"; tol_key := "virtual-kubelet.io/provider"; tol_operator := "Exists" |}.

(** What the confidential builder adds to either pod. *)
Definition vn2_pod (p : SparkPodSpec) : SparkPodSpec :=
  let p := set_annotations p (Some
    (dict_set "kubernetes.azure.com/set-kube-service-host-fqdn" "true"
      (dict_set "microsoft.containerinstance.virtualnode.injectdns" "false" (default [] (annotations p))))) in
  let p := set_labels p (Some
    (dict_set CCE_POLICY_ANNOTATION_NAME_LABEL CCE_POLICY_ANNOTATION_VALUE
      (dict_set SPARK_POD_SCHEDULER_LABEL "true"
        (dict_set CCE_POLICY_INJECTOR_LABEL "true" (default [] (labels p)))))) in
  let p := set_nodeSelector p (Some (dict_set "virtualization" "virtualnode2" (default [] (nodeSelector p)))) in
  set_tolerations p (Some [vn2_toleration]).

(** ** The policy *)

(** [placeholder % ",".join(...)] *)
Definition rego_policy (placeholder : string) (containers : list json) : res string :=
  percent_format placeholder (join "," (map dumps_policy containers)).

Definition policy_of_rego (rego_text : string) : Policy :=
  {| rego := rego_text; rego_base64 := b64encode (utf8_encode rego_text);
     policy_host_data := sha256_hex (utf8_encode rego_text) |}.

Definition allow_all_policy : res Policy :=
  raw ← b64decode ALLOW_ALL_POLICY_BASE64; text ← utf8_decode raw;
  Ok {| rego := text; rego_base64 := ALLOW_ALL_POLICY_BASE64; policy_host_data := ALLOW_ALL_POLICY_HASH |}.

Section SparkBuild.
Context {W : Type} (se : SparkEnv W).

(** [None] when there is no policy file; the file name in the cache does not
    depend on its address. *)
Definition get_spark_app_policy_document (b : SparkBuilder) : M W json :=
  if str_truthy (sp_policy_file b) then
    let be := build_env se in
    let file := path_join (temp_dir be) "cleanroom-spark-analytics-app-security-policy.yaml" in
    found ← file_exists be file;
    _ ← (if (found : bool) then mret () else
           found ← file_exists be file;
           if (found : bool) then mret ()
           else _ ← make_dirs be (temp_dir be);
                oras_pull be (sp_policy_file b) (temp_dir be) (use_http (sp_settings b)));
    yaml_load be file
  else mret JNull.

Definition get_driver (b : SparkBuilder) (s : DriverSettings) : M W (Driver * json) :=
  n ← lift (ceil (ds_cores s));
  let pod := base_pod b n (ds_memory s) in
  policy ← (if sp_allow_all b then mret (JObj []) else
              doc ← get_spark_app_policy_document b;
              if json_truthy doc then lift (driver_policy_rego b doc) else mret (JObj []));
  let confidential := bool_decide (sp_provider b = ConfidentialVirtualNode) in
  mret ({| driver_pod := if confidential then vn2_pod pod else pod;
           serviceAccount := Some (service_account s);
           serviceLabels := if confidential then Some [("service", "external-dns")] else None;
           kubernetesMaster :=
             if confidential then Some ("https://" +:+ opt_text (environ se "KUBERNETES_SERVICE_HOST")) else None;
           driver_javaOptions := None |}, policy).

Definition get_executor (b : SparkBuilder) (s : ExecutorSettings)
  : M W (Executor * DynamicAllocationProfile * json) :=
  n ← lift (ceil (es_cores s));
  let pod := base_pod b n (es_memory s) in
  policy ← (if sp_allow_all b then mret (JObj []) else
              doc ← get_spark_app_policy_document b;
              if json_truthy doc then lift (executor_policy_rego b doc) else mret (JObj []));
  mret ({| executor_pod := if decide (sp_provider b = ConfidentialVirtualNode) then vn2_pod pod else pod;
           instances := Some (inst_min (es_instances s));
           deleteOnTermination := Some (delete_on_termination s);
           executor_javaOptions := None |},
        {| dap_enabled := Some true; minExecutors := Some (inst_min (es_instances s));
           maxExecutors := Some (inst_max (es_instances s)) |}, policy).

Definition AddDriver (b : SparkBuilder) (s : DriverSettings) : M W SparkBuilder :=
  d ← get_driver b s; mret (set_driver b d).

Definition AddExecutor (b : SparkBuilder) (s : ExecutorSettings) : M W SparkBuilder :=
  e ← get_executor b s; mret (set_executor b e).

(** [_get_spark_pod_policy]: the application container first, then the
    sidecars. *)
Definition get_spark_pod_policy (b : SparkBuilder) (driver_rego executor_rego : json)
    (sidecars : list Sidecar) : M W (Policy * Policy) :=
  if sp_allow_all b then p ← lift allow_all_policy; mret (p, p)
  else
    let file := package_dir se +:+ "/policy.rego" in
    placeholder ← read_text (build_env se) file;
    d ← lift (rego_policy placeholder (driver_rego :: map virtual_node_policy sidecars));
    placeholder ← read_text (build_env se) file;
    e ← lift (rego_policy placeholder (executor_rego :: map virtual_node_policy sidecars));
    mret (policy_of_rego d, policy_of_rego e).

(** ** [Build] *)

Definition telemetry_on (b : SparkBuilder) : bool := telemetry_collection_enabled (sp_telemetry b).

(** The clean room application that supplies the sidecars. *)
Definition cleanroom_builder (b : SparkBuilder) : res Builder :=
  let attributes := dict_set "spark.role" "driver"
                      (dict_set "service.name" (sp_app_name b +:+ "-driver") (current_baggage se)) in
  cb ← WithName (new_builder (sp_settings b)) (sp_app_name b);
  let cb := WithContractId cb (sp_contract_id b) in
  let cb :=
    if telemetry_on b then
      WithTelemetry cb (sp_telemetry b) (sp_trace_context b)
        [("resourceAttributes",
           JStr (b64encode (utf8_encode (dumps (JObj (map (fun kv => (kv.1, JStr kv.2)) attributes))))));
         ("sparkMetricsEndpoint", JStr "http://localhost:4040")]
    else cb in
  cb ← match sp_governance b with Some g => WithGovernance cb g SKR | None => Ok cb end;
  Ok (foldl (fun cb d => AddStorage cb (accessPoint d) (ownerId d)) cb (sp_datasets b ++ sp_datasinks b)).

Definition spark_volumes : list string :=
  ["spark-local-dir-1"; "remotemounts"; "telemetrymounts"; "volumestatusmounts"].

Definition mount (name path : string) (read_only : bool) : V1VolumeMount :=
  {| vm_name := JStr name; vm_mount_path := JStr path; vm_read_only := JBool read_only;
     vm_mount_propagation := JNull |}.

Definition spark_volume_mounts : list V1VolumeMount :=
  [mount "remotemounts" "/mnt/remote" true; mount "telemetrymounts" "/mnt/telemetry" false;
   mount "volumestatusmounts" "/mnt/volumestatus" false;
   mount "spark-local-dir-1" "/var/data/spark-local-dir" false].

Definition add_volume_mounts (p : SparkPodSpec) : SparkPodSpec :=
  set_volumeMounts p (Some (default [] (volumeMounts p) ++ spark_volume_mounts)).

(** [_configure_spark_monitoring_plugin]: configuration and environment. *)
Definition monitoring_conf : list (string * string) :=
  let jars := join ":" (SPARK_MONITORING_PLUGIN_JAR_PATH :: SPARK_OPENTELEMETRY_JARS) in
  [(SPARK_PLUGINS_KEY, SPARK_MONITORING_AGENT_CLASS_NAME); (SPARK_EXTRA_CLASSPATH_KEY_DRIVER, jars);
   (SPARK_EXTRA_CLASSPATH_KEY_EXECUTOR, jars)].

Definition java_options : string := "-javaagent:" +:+ SPARK_JAVAAGENT_PATH.

Definition monitoring_env (b : SparkBuilder) (role : string) : list V1EnvVar :=
  let baggage := join "," (map (fun kv => kv.1 +:+ "=" +:+ kv.2) (current_baggage se)) in
  [str_env "OTEL_EXPORTER_OTLP_ENDPOINT" "http://localhost:4317";
   str_env "OTEL_EXPORTER_OTLP_PROTOCOL" "grpc";
   str_env "OTEL_SERVICE_NAME" (sp_app_name b +:+ "-" +:+ role);
   str_env "OTEL_RESOURCE_ATTRIBUTES" ("spark.role=" +:+ role +:+ "," +:+ baggage)].

Definition extend_env (p : SparkPodSpec) (es : list V1EnvVar) : SparkPodSpec :=
  set_env p (Some (default [] (env p) ++ es)).

Definition spark_conf (b : SparkBuilder) : list (string * string) :=
  if telemetry_on b then
    match dict_lookup "traceparent" (sp_trace_context b) with
    | Some t => if str_truthy t then dict_set SPARK_OTEL_TRACEPARENT_KEY t monitoring_conf else monitoring_conf
    | None => monitoring_conf
    end
  else [].

Definition finish_pod (b : SparkBuilder) (role : string) (sidecars : list Sidecar) (p : SparkPodSpec)
  : res SparkPodSpec :=
  let p := add_volume_mounts p in
  let p := if telemetry_on b then extend_env p (monitoring_env b role) else p in
  match initContainers p with
  | Some cs => Ok (set_initContainers p (Some (cs ++ map container sidecars)))
  | None => Err (AttributeError "'NoneType' object has no attribute 'extend'")
  end.

Definition build_base (b : SparkBuilder) : M W CleanRoomSparkApplication :=
  if str_truthy (sp_app_name b) && str_truthy (sp_image b) && str_truthy (sp_main_application_file b) then
    cb ← lift (cleanroom_builder b);
    sidecars ← Build (build_env se) cb;
    d ← lift (of_option (AttributeError "'NoneType' object has no attribute 'volumeMounts'") (sp_driver b));
    e ← lift (of_option (AttributeError "'NoneType' object has no attribute 'volumeMounts'") (sp_executor b));
    let '(drv, driver_rego) := (d : Driver * json) in
    let '(exe, profile, executor_rego) := (e : Executor * DynamicAllocationProfile * json) in
    policies ← get_spark_pod_policy b driver_rego executor_rego sidecars;
    dp ← lift (finish_pod b "driver" sidecars (driver_pod drv));
    ep ← lift (finish_pod b "executor" sidecars (executor_pod exe));
    let opts := if telemetry_on b then Some java_options else None in
    mret
      {| cr_spec :=
           {| spec_type := "Python"; spec_name := sp_app_name b; sparkVersion := "4.0.0"; mode := cluster;
              image := sp_image b; mainApplicationFile := sp_main_application_file b;
              arguments := sp_arguments b
                ++ match sp_governance b with Some _ => ["--governance-port"; "8300"] | None => [] end;
              sparkConf := spark_conf b; volumes := spark_volumes;
              driver := {| driver_pod := dp; serviceAccount := serviceAccount drv;
                           serviceLabels := serviceLabels drv; kubernetesMaster := kubernetesMaster drv;
                           driver_javaOptions := match opts with Some o => Some o | None => driver_javaOptions drv end |};
              executor := {| executor_pod := ep; instances := instances exe;
                             deleteOnTermination := deleteOnTermination exe;
                             executor_javaOptions := match opts with Some o => Some o | None => executor_javaOptions exe end |};
              dynamicAllocation := profile; exposeDriverMetrics := true; exposeExecutorMetrics := true |};
         driver_policy := policies.1; executor_policy := policies.2 |}
  else raise (ValueError "Missing required fields to build SparkApplication").

(** ** The virtual builder's [Build] *)

Definition set_image (c : V1Container) (img : json) : V1Container :=
  {| c_name := c_name c; c_image := img; c_command := c_command c; c_env := c_env c;
     c_requests := c_requests c; c_volume_mounts := c_volume_mounts c; c_privileged := c_privileged c;
     c_ports := c_ports c; c_startup_probe := c_startup_probe c; c_restart_policy := c_restart_policy c |}.

Definition set_container_mounts (c : V1Container) (vms : list V1VolumeMount) : V1Container :=
  {| c_name := c_name c; c_image := c_image c; c_command := c_command c; c_env := c_env c;
     c_requests := c_requests c; c_volume_mounts := vms; c_privileged := c_privileged c;
     c_ports := c_ports c; c_startup_probe := c_startup_probe c; c_restart_policy := c_restart_policy c |}.

(** The loop that stops at the first governance container. *)
Fixpoint override_governance (img : string) (cs : list V1Container) : list V1Container :=
  match cs with
  | [] => []
  | c :: cs' =>
      if json_eqs (c_name c) "ccr-governance" then set_image c (JStr img) :: cs'
      else c :: override_governance img cs'
  end.

Definition propagate (vm : V1VolumeMount) : V1VolumeMount :=
  if json_eqs (vm_name vm) "remotemounts" then
    {| vm_name := vm_name vm; vm_mount_path := vm_mount_path vm; vm_read_only := vm_read_only vm;
       vm_mount_propagation := JStr "Bidirectional" |}
  else vm.

Definition virtual_image (settings : CleanroomSettings) : string :=
  registry_url settings +:+ "/ccr-governance-virtual:"
    +:+ default "" (last (split_on ":" (versions_document settings))).

Definition virtual_containers (img : string) (cs : list V1Container) : list V1Container :=
  map (fun c => set_container_mounts c (map propagate (c_volume_mounts c)))
    (filter (fun c => Is_true (negb (json_eqs (c_name c) "skr"))) (override_governance img cs)).

Definition virtual_pod (img : string) (p : SparkPodSpec) : SparkPodSpec :=
  let p := set_initContainers p (virtual_containers img <$> initContainers p) in
  set_volumeMounts p (map propagate <$> volumeMounts p).

Definition build_spark (b : SparkBuilder) : M W CleanRoomSparkApplication :=
  app ← build_base b;
  mret match sp_provider b with
       | ConfidentialVirtualNode => app
       | Virtual =>
           let img := virtual_image (sp_settings b) in
           let s := cr_spec app in
           {| cr_spec := spec_with_pods s
                (driver_with_pod (driver s) (virtual_pod img (driver_pod (driver s))))
                (executor_with_pod (executor s) (virtual_pod img (executor_pod (executor s))));
              driver_policy := driver_policy app; executor_policy := executor_policy app |}
       end.
End SparkBuild.

(** * Job converters

    [utilities/job_converters.py]: from a job request to a Spark application,
    for the SQL workload and the Pi example. *)
Inductive SparkJobProviderType := SQL | PI.

Definition provider_value (p : SparkJobProviderType) : string :=
  match p with SQL => "sql" | PI => "pi" end.

(** ** The application's input *)

Definition schema_json (s : option (list (string * list (string * string)))) : json :=
  match s with
  | Some fields => JObj (map (fun kv => (kv.1, JObj (map (fun fv => (fv.1, JStr fv.2)) kv.2))) fields)
  | None => JNull
  end.

Definition dataset_json (d : DatasetInfo) (path : string) : json :=
  JObj [("name", JStr (ds_name d)); ("viewName", JStr (viewName d)); ("path", JStr path);
        ("format", JStr (DatasetFormat_value (format d))); ("schema", schema_json (schema_ d));
        ("allowedFields", JArr (map JStr (allowedFields d)))].

Definition app_input (job : JobInput) (q : SQLPart) (sink : DatasetInfo) : json :=
  JObj [("query", JStr (query q));
        ("datasets", JArr (map (fun d => dataset_json d ("/mnt/remote/" +:+ ds_name d)) (datasets job)));
        ("datasink", dataset_json sink ("/mnt/remote/" +:+ ds_name sink +:+ "/" +:+ contract_id job))].

Definition to_app_input (job : JobInput) (q : SQLPart) : res string :=
  sink ← of_option (AssertionError "Datasink must be provided for SQL jobs") (datasink job);
  Ok (b64encode (utf8_encode (dumps (app_input job q sink)))).

Definition app_config (service_url app_name : string) : json :=
  JObj [("eventRecorderConfiguration",
    JObj [("providerType", JStr "http");
          ("statisticsRecorderEndpoint", JStr (service_url +:+ "/analytics/" +:+ app_name +:+ "/record_statistics"));
          ("eventEmitterEndpoint", JStr (service_url +:+ "/analytics/" +:+ app_name +:+ "/record_operational_event"));
          ("auditRecordLoggerEndpoint", JStr "http://localhost:8300/events")])].

Definition sql_env_vars (config : Configuration) (job_id : string) (job : JobInput) (q : SQLPart)
  : res (list EnvData) :=
  job_config ← to_app_input job q;
  Ok [{| env_key := "JOB_CONFIG"; env_val := job_config; isMeasured := true |};
      {| env_key := "JOB_ID"; env_val := job_id; isMeasured := false |};
      {| env_key := "APPLICATION_CONFIGURATION";
         env_val := dumps (app_config (svc_url (cfg_service config)) (to_spark_app_name job_id));
         isMeasured := false |};
      {| env_key := "START_DATE"; env_val := default "" (start_date q); isMeasured := false |};
      {| env_key := "END_DATE"; env_val := default "" (end_date q); isMeasured := false |}].

Section Convert.
Context {W : Type} (se : SparkEnv W) (config : Configuration).

(** [_convert_to_spark_spec], with the builder the factory picks. *)
Definition convert_to_spark_spec (app_name : string) (job : JobInput)
    (application_image application_file policy_file : string) (sku : SkuSettings)
    (debug_mode allow_all : bool) (env_vars : list EnvData) (telemetry : option TelemetrySettings)
  : M W CleanRoomSparkApplication :=
  let b := new_spark_builder (compute_provider (cfg_spark config)) (cfg_cleanroom config)
             (default default_TelemetrySettings telemetry) (governance job) (current_carrier se)
             (contract_id job) app_name application_image policy_file application_file
             debug_mode allow_all env_vars [] in
  b ← AddDriver se b (sku_driver sku);
  b ← AddExecutor se b (sku_executor sku);
  let b := foldl AddDataset b (datasets job) in
  let b := match datasink job with Some d => AddDatasink b d | None => b end in
  build_spark se b.

Definition sql_to_spark_spec (job_id : string) (job : JobInput) (telemetry : option TelemetrySettings)
    (override_sku_settings : option SkuSettings) : M W CleanRoomSparkApplication :=
  q ← lift (of_option (ValueError "Job is not of type SQLJobInput") (sql_part job));
  env_vars ← lift (sql_env_vars config job_id job q);
  let an := analytics (cfg_applications config) in
  convert_to_spark_spec (to_spark_app_name job_id) job (an_image an) (an_application_file an)
    (an_policy_file an) (default (an_sql an) override_sku_settings) (an_debug_mode an) (an_allow_all an)
    env_vars telemetry.

Definition pi_to_spark_spec (job_id : string) (job : JobInput) (telemetry : option TelemetrySettings)
  : M W CleanRoomSparkApplication :=
  let ex := examples (cfg_applications config) in
  convert_to_spark_spec job_id job (ex_image ex) (ex_application_file ex) "" (ex_pi ex) true true [] telemetry.

(** [job_converters.get(provider_type, config).to_spark_spec(...)] *)
Definition to_spark_spec (provider_type : SparkJobProviderType) (job_id : string) (job : JobInput)
    (telemetry : option TelemetrySettings) (override_sku_settings : option SkuSettings)
  : M W CleanRoomSparkApplication :=
  match provider_type with
  | SQL => sql_to_spark_spec job_id job telemetry override_sku_settings
  | PI => pi_to_spark_spec job_id job telemetry
  end.
End Convert.
