(* ===== verification/SparkBuilderProps.v ===== *)
(** * Correctness of the Spark application builders

    What a confidential application's policy covers, what the virtual builder
    changes, and that the job description the application reads is the measured
    one. *)

From S2P Require Import Prelude PyStr Base64 Json JsonFacts Template Sha256 PyFloat SparkModels Settings Helpers CleanroomModels AppBuilder AppBuilderProps Metrics KubeClient SparkBuilder.
From Stdlib Require Import Lia Ascii.
(** ** Policies of the pods *)

(** The policy has a rule for the environment variable. *)
Definition pins (policy : json) (e : EnvData) : Prop :=
  exists rules, json_item policy "env_rules" = Ok (JArr rules) /\ env_rule e ∈ rules.

Lemma extend_at_same p k xs p' :
  extend_at p k xs = Ok p' -> exists l, json_item p k = Ok (JArr l) /\ json_item p' k = Ok (JArr (l ++ xs)).
Proof.
  unfold extend_at. intros H. py_inv. destruct x as [| | | |l|]; try done.
  exists l. split; [done|]. cbn in *. py_inv. destruct p as [| | | | |kvs]; try done.
  cbn in H. injection H as <-. cbn. by rewrite dict_lookup_set_eq.
Qed.

Lemma extend_at_other p k k' xs p' :
  extend_at p k xs = Ok p' -> k <> k' -> json_item p' k' = json_item p k'.
Proof.
  unfold extend_at. intros H Hk. py_inv. destruct p as [| | | | |kvs]; try done.
  cbn in H. injection H as <-. cbn. by rewrite dict_lookup_set_ne.
Qed.

Lemma role_policy_pins b doc role vars p e :
  role_policy_rego b doc role vars = Ok p -> e ∈ sp_env_vars b -> pins p e.
Proof.
  unfold role_policy_rego. intros H He. py_inv. apply extend_at_same in H as (l & _ & Hl).
  exists (l ++ (map env_rule (sp_env_vars b) ++ [trace_rule])). split; [done|].
  apply elem_of_app. right. apply elem_of_app. left. apply list_elem_of_In, in_map. by apply list_elem_of_In.
Qed.

Lemma driver_policy_pins b doc p e : driver_policy_rego b doc = Ok p -> e ∈ sp_env_vars b -> pins p e.
Proof.
  unfold driver_policy_rego. intros H He. py_inv.
  pose proof (role_policy_pins _ _ _ _ _ _ H0 He) as Hp. destruct (sp_governance b); [|by py_inv].
  unfold pins in *. by rewrite (extend_at_other _ _ _ _ _ H).
Qed.

(** The labels and annotations that make both webhooks act on a pod. *)
Definition webhook_labels (p : SparkPodSpec) : Prop := exists ls, labels p = Some ls /\
  dict_lookup CCE_POLICY_INJECTOR_LABEL ls = Some "true" /\
  dict_lookup SPARK_POD_SCHEDULER_LABEL ls = Some "true" /\
  dict_lookup CCE_POLICY_ANNOTATION_NAME_LABEL ls = Some CCE_POLICY_ANNOTATION_VALUE.

Lemma vn2_pod_labels b n m : webhook_labels (vn2_pod (base_pod b n m)).
Proof. eexists. split; [reflexivity|]. repeat split. Qed.

(** A pod as [_get_driver] and [_get_executor] leave it. *)
Record fresh_pod (b : SparkBuilder) (p : SparkPodSpec) : Prop := {
  fp_env : env p = Some (pod_env b);
  fp_init : initContainers p = Some [];
  fp_mounts : volumeMounts p = Some [];
  fp_labels : sp_provider b = ConfidentialVirtualNode -> webhook_labels p
}.

(** A role's policy covers the environment unless there is no document. *)
Definition covers_env (b : SparkBuilder) (policy : json) : Prop :=
  sp_allow_all b = false -> policy = JObj [] \/ forall e, e ∈ sp_env_vars b -> pins policy e.

Section Pods.
Context {W : Type} (se : SparkEnv W) (b : SparkBuilder).

Lemma get_driver_spec s w w' drv p : get_driver se b s w = (w', Ok (drv, p)) ->
  fresh_pod b (driver_pod drv) /\ covers_env b p.
Proof.
  unfold get_driver. intros H. apply M_bind_ok in H as (w1 & n & _ & H).
  apply M_bind_ok in H as (w2 & p' & Hp & H). injection H as <- <- <-. split.
  - case_bool_decide as Hc; split; try done. intros _. apply vn2_pod_labels.
  - intros Ha. rewrite Ha in Hp. apply M_bind_ok in Hp as (w3 & doc & _ & Hp).
    destruct (json_truthy doc); injection Hp as <- Hp; [right | by left].
    intros e. by eapply driver_policy_pins.
Qed.

Lemma get_executor_spec s w w' exe prof p : get_executor se b s w = (w', Ok (exe, prof, p)) ->
  fresh_pod b (executor_pod exe) /\ covers_env b p.
Proof.
  unfold get_executor. intros H. apply M_bind_ok in H as (w1 & n & _ & H).
  apply M_bind_ok in H as (w2 & p' & Hp & H). injection H as <- <- <- <-. split.
  - case_decide as Hc; split; try done. intros _. apply vn2_pod_labels.
  - intros Ha. rewrite Ha in Hp. apply M_bind_ok in Hp as (w3 & doc & _ & Hp).
    destruct (json_truthy doc); injection Hp as <- Hp; [right | by left].
    intros e. by eapply role_policy_pins.
Qed.

(** ** The assembled application *)

(** What [finish_pod] keeps and adds. *)
Lemma finish_pod_spec role scs p p' : fresh_pod b p -> finish_pod se b role scs p = Ok p' ->
  initContainers p' = Some (map container scs) /\
  (forall e, e ∈ pod_env b -> exists es, env p' = Some es /\ e ∈ es) /\
  labels p' = labels p.
Proof.
  intros [Henv Hinit Hm Hl]. unfold finish_pod.
  set (q := if telemetry_on b then _ else _).
  assert (initContainers q = Some [] /\ labels q = labels p /\
          exists es, env q = Some (pod_env b ++ es)) as (Hq1 & Hq2 & es & Hq3).
  { unfold q. destruct (telemetry_on b); cbn; rewrite Hinit, ?Henv; cbn; eauto.
    split_and!; try done. exists []. by rewrite app_nil_r. }
  rewrite Hq1. intros [= <-]. cbn. split_and!; [done | | done].
  intros e He. rewrite Hq3. eexists. split; [done|]. apply elem_of_app. by left.
Qed.

(** A policy made from container policies, and bound to its text. *)
Definition policy_covers (containers : list json) (p : Policy) : Prop :=
  exists placeholder text, rego_policy placeholder containers = Ok text /\ p = policy_of_rego text.

Lemma pod_policy_spec dr er scs w w' pd pe : sp_allow_all b = false ->
  get_spark_pod_policy se b dr er scs w = (w', Ok (pd, pe)) ->
  policy_covers (dr :: map virtual_node_policy scs) pd /\
  policy_covers (er :: map virtual_node_policy scs) pe.
Proof.
  intros Ha. unfold get_spark_pod_policy. rewrite Ha. intros H.
  apply M_bind_ok in H as (w1 & t1 & _ & H). apply M_bind_ok in H as (w2 & d & Hd & H).
  apply M_bind_ok in H as (w3 & t2 & _ & H). apply M_bind_ok in H as (w4 & e & He & H).
  unfold lift in Hd, He. injection Hd as <- Hd. injection He as <- He. injection H as <- <- <-.
  split; eexists _, _; split; done.
Qed.

Lemma build_base_spec drv dr exe prof er w w' app :
  sp_driver b = Some (drv, dr) -> sp_executor b = Some (exe, prof, er) ->
  fresh_pod b (driver_pod drv) -> fresh_pod b (executor_pod exe) ->
  build_base se b w = (w', Ok app) ->
  exists scs,
    initContainers (driver_pod (driver (cr_spec app))) = Some (map container scs) /\
    initContainers (executor_pod (executor (cr_spec app))) = Some (map container scs) /\
    (forall e, e ∈ pod_env b ->
       (exists es, env (driver_pod (driver (cr_spec app))) = Some es /\ e ∈ es) /\
       (exists es, env (executor_pod (executor (cr_spec app))) = Some es /\ e ∈ es)) /\
    labels (driver_pod (driver (cr_spec app))) = labels (driver_pod drv) /\
    labels (executor_pod (executor (cr_spec app))) = labels (executor_pod exe) /\
    exists w1 w2, get_spark_pod_policy se b dr er scs w1 = (w2, Ok (driver_policy app, executor_policy app)).
Proof.
  intros Hd He Hfd Hfe. unfold build_base.
  destruct (str_truthy (sp_app_name b) && str_truthy (sp_image b) && str_truthy (sp_main_application_file b)); [|done].
  intros H. apply M_bind_ok in H as (w1 & cb & _ & H). apply M_bind_ok in H as (w2 & scs & _ & H).
  rewrite Hd, He in H. apply M_bind_ok in H as (w3 & d & Hd' & H). apply M_bind_ok in H as (w4 & e & He' & H).
  injection Hd' as <- <-. injection He' as <- <-.
  apply M_bind_ok in H as (w5 & pols & Hpol & H). apply M_bind_ok in H as (w6 & dp & Hdp & H).
  apply M_bind_ok in H as (w7 & ep & Hep & H). unfold lift in Hdp, Hep.
  injection Hdp as <- Hdp. injection Hep as <- Hep. injection H as <- <-. cbn.
  apply finish_pod_spec in Hdp as (D1 & D2 & D3); [|done]. apply finish_pod_spec in Hep as (E1 & E2 & E3); [|done].
  exists scs. split_and!; try done; [intros v Hv; split; auto|].
  exists w2, w5. by destruct pols.
Qed.
End Pods.

(** ** SQL jobs *)

Definition job_config_env (job_config : string) : EnvData :=
  {| env_key := "JOB_CONFIG"; env_val := job_config; isMeasured := true |}.

(** One pod of a confidential application against its role's policy. *)
Definition pod_covered (job_config : string) (scs : list Sidecar) (p : SparkPodSpec) (pol : Policy) : Prop :=
  initContainers p = Some (map container scs) /\ webhook_labels p /\
  (exists es, env p = Some es /\ str_env "JOB_CONFIG" job_config ∈ es) /\
  exists app_policy, policy_covers (app_policy :: map virtual_node_policy scs) pol /\
    (app_policy = JObj [] \/ pins app_policy (job_config_env job_config)).

(** Builders that differ at most in their datasets and datasinks. *)
Record same_but_data (b b' : SparkBuilder) : Prop := {
  sd_driver : sp_driver b' = sp_driver b;
  sd_executor : sp_executor b' = sp_executor b;
  sd_env : sp_env_vars b' = sp_env_vars b;
  sd_provider : sp_provider b' = sp_provider b;
  sd_allow : sp_allow_all b' = sp_allow_all b;
  sd_settings : sp_settings b' = sp_settings b;
  sd_trace : sp_trace_context b' = sp_trace_context b
}.

#[export] Instance same_but_data_refl : Reflexive same_but_data.
Proof. by split. Qed.
#[export] Instance same_but_data_trans : Transitive same_but_data.
Proof. intros b1 b2 b3 [] []. split; congruence. Qed.

Lemma add_datasets_same ds b : same_but_data b (foldl AddDataset b ds).
Proof. revert b. induction ds as [|d ds IH]; intros b; [done|]. etransitivity; [|apply IH]. by split. Qed.

Lemma fresh_pod_same b b' p : same_but_data b b' -> fresh_pod b p -> fresh_pod b' p.
Proof.
  intros [H1 H2 H3 H4 H5 H6 H7] [F1 F2 F3 F4]. split; try done; [|by rewrite H4].
  unfold pod_env, trace_env in *. by rewrite H3, H7.
Qed.

Lemma covers_env_same b b' p : same_but_data b b' -> covers_env b p -> covers_env b' p.
Proof. intros [H1 H2 H3 H4 H5 H6 H7]. unfold covers_env. by rewrite H3, H5. Qed.

Section Sql.
Context {W : Type} (se : SparkEnv W) (config : Configuration).

Lemma convert_spec app_name job img file pol sku debug allow env_vars tel w w' app :
  convert_to_spark_spec se config app_name job img file pol sku debug allow env_vars tel w = (w', Ok app) ->
  exists b drv dr exe prof er w1,
    sp_driver b = Some (drv, dr) /\ sp_executor b = Some (exe, prof, er) /\
    sp_env_vars b = env_vars /\ sp_provider b = compute_provider (cfg_spark config) /\
    sp_allow_all b = match compute_provider (cfg_spark config) with Virtual => true | _ => allow end /\
    sp_settings b = cfg_cleanroom config /\
    fresh_pod b (driver_pod drv) /\ fresh_pod b (executor_pod exe) /\ covers_env b dr /\ covers_env b er /\
    build_spark se b w1 = (w', Ok app).
Proof.
  unfold convert_to_spark_spec. intros H.
  apply M_bind_ok in H as (w1 & b1 & H1 & H). apply M_bind_ok in H as (w2 & b2 & H2 & H).
  apply M_bind_ok in H1 as (w3 & [drv dr] & Hd & Hb1). injection Hb1 as <- <-.
  apply M_bind_ok in H2 as (w4 & [[exe prof] er] & He & Hb2). injection Hb2 as <- <-.
  apply get_driver_spec in Hd as [[D1 D2 D3 D4] Dc]. apply get_executor_spec in He as [[E1 E2 E3 E4] Ec].
  set (b0 := new_spark_builder _ _ _ _ _ _ _ _ _ _ _ _ _ _) in *.
  set (b1 := set_executor _ _) in H.
  set (b2 := match datasink job with Some d => _ | None => _ end) in H.
  assert (same_but_data b1 b2) as Hb2.
  { unfold b2. destruct (datasink job); [etransitivity; [apply add_datasets_same|]; by split | apply add_datasets_same]. }
  exists b2, drv, dr, exe, prof, er, w4. pose proof Hb2 as [G1 G2 G3 G4 G5 G6 G7].
  rewrite G1, G2, G3, G4, G5, G6. split_and!; try done;
    first [eapply fresh_pod_same | eapply covers_env_same]; try exact Hb2; done.
Qed.

Lemma sql_env_config job_id job q env_vars : sql_env_vars config job_id job q = Ok env_vars ->
  exists job_config, to_app_input job q = Ok job_config /\ job_config_env job_config ∈ env_vars.
Proof. unfold sql_env_vars. intros H. py_inv. exists x. split; [done|]. by left. Qed.


(** The job description survives its encoding: what [JOB_CONFIG] decodes to
    is the query, the datasets and the datasink of the request. *)
Theorem job_config_roundtrip job q sink job_config :
  datasink job = Some sink -> to_app_input job q = Ok job_config ->
  json_wf (app_input job q sink) = true ->
  (raw ← b64decode job_config; text ← utf8_decode raw; loads text) = Ok (app_input job q sink).
Proof.
  unfold to_app_input. intros Hs H Hwf. rewrite Hs in H. cbn [of_option mbind res_bind] in H.
  assert (job_config = b64encode (utf8_encode (dumps (app_input job q sink)))) as -> by congruence.
  rewrite b64_roundtrip. cbn [mbind res_bind].
  rewrite utf8_decode_encode. cbn [mbind res_bind]. by apply loads_dumps.
Qed.
End Sql.

(** ** Policies and their measurement *)

(** The base64 text carries the policy's bytes, and the host data is their
    digest. *)
Definition policy_bound (p : Policy) : Prop :=
  exists raw, b64decode (rego_base64 p) = Ok raw /\ utf8_decode raw = Ok (rego p) /\
    policy_host_data p = sha256_hex raw.

Lemma policy_of_rego_bound text : policy_bound (policy_of_rego text).
Proof. exists (utf8_encode text). split_and!; [apply b64_roundtrip | apply utf8_decode_encode | done]. Qed.

Lemma allow_all_base64 p : allow_all_policy = Ok p -> rego_base64 p = ALLOW_ALL_POLICY_BASE64.
Proof.
  unfold allow_all_policy. intros H. apply res_bind_ok in H as (raw & _ & H).
  apply res_bind_ok in H as (text & _ & H). injection H as <-. reflexivity.
Qed.

Lemma allow_all_bound p : allow_all_policy = Ok p -> policy_bound p.
Proof.
  unfold allow_all_policy. intros H. py_inv. exists x. split; [assumption|]. split; [assumption|].
  assert (sha256_hex <$> b64decode ALLOW_ALL_POLICY_BASE64 = Ok ALLOW_ALL_POLICY_HASH) as Hh
    by (vm_compute; reflexivity).
  rewrite H0 in Hh. injection Hh as Hh. symmetry. exact Hh.
Qed.

(** Its value is a long string that no later proof looks into. *)
#[local] Opaque allow_all_policy ALLOW_ALL_POLICY_BASE64.

Section Bound.
Context {W : Type} (se : SparkEnv W) (b : SparkBuilder).

Lemma pod_policy_bound dr er scs w w' pd pe :
  get_spark_pod_policy se b dr er scs w = (w', Ok (pd, pe)) -> policy_bound pd /\ policy_bound pe.
Proof.
  unfold get_spark_pod_policy. destruct (sp_allow_all b) eqn:Ha; intros H.
  - apply M_bind_ok in H as (w1 & p & Hp & H). injection H as <- <- <-.
    assert (policy_bound p); [|by split]. apply allow_all_bound. by apply lift_ok in Hp as [_ Hp].
  - assert (get_spark_pod_policy se b dr er scs w = (w', Ok (pd, pe))) as H'
      by (unfold get_spark_pod_policy; by rewrite Ha).
    apply pod_policy_spec in H' as [(? & t1 & _ & ->) (? & t2 & _ & ->)]; [|done].
    split; apply policy_of_rego_bound.
Qed.

Lemma build_base_policies w w' app : build_base se b w = (w', Ok app) ->
  exists dr er scs w1 w2, get_spark_pod_policy se b dr er scs w1 = (w2, Ok (driver_policy app, executor_policy app)).
Proof.
  unfold build_base.
  destruct (str_truthy (sp_app_name b) && str_truthy (sp_image b) && str_truthy (sp_main_application_file b)); [|done].
  intros H. apply M_bind_ok in H as (w1 & cb & _ & H). apply M_bind_ok in H as (w2 & scs & _ & H).
  apply M_bind_ok in H as (w3 & [drv dr] & _ & H). apply M_bind_ok in H as (w4 & [[exe prof] er] & _ & H).
  apply M_bind_ok in H as (w5 & [pd pe] & Hpol & H). apply M_bind_ok in H as (w6 & dp & _ & H).
  apply M_bind_ok in H as (w7 & ep & _ & H). injection H as <- <-. eauto 10.
Qed.

(** C21. Whatever the compute provider and the mode, the two policies of a
    built application are bound to what is enforced: the base64 text that is
    injected into the pods decodes to the policy's rego text, and the host data
    reported for attestation is the SHA-256 digest of those same bytes. *)
Theorem built_policies_bound w w' app : build_spark se b w = (w', Ok app) ->
  policy_bound (driver_policy app) /\ policy_bound (executor_policy app).
Proof.
  unfold build_spark. intros H. apply M_bind_ok in H as (w1 & app0 & H & Hret).
  apply build_base_policies in H as (dr & er & scs & w2 & w3 & Hpol).
  apply pod_policy_bound in Hpol. injection Hret as <- <-. by destruct (sp_provider b).
Qed.
End Bound.

(** ** The virtual builder *)

Lemma json_eqs_set_image c img s : json_eqs (c_name (set_image c img)) s = json_eqs (c_name c) s.
Proof. done. Qed.

(** A pod fit for a cluster without confidential computing. *)
Definition virtual_ready (img : string) (p : SparkPodSpec) : Prop :=
  exists cs vms, initContainers p = Some cs /\ volumeMounts p = Some vms /\
    Forall (fun c => json_eqs (c_name c) "skr" = false) cs /\
    Forall (fun vm => json_eqs (vm_name vm) "remotemounts" = true ->
                      vm_mount_propagation vm = JStr "Bidirectional") vms /\
    Forall (fun c => Forall (fun vm => json_eqs (vm_name vm) "remotemounts" = true ->
                      vm_mount_propagation vm = JStr "Bidirectional") (c_volume_mounts c)) cs /\
    (forall c, List.find (fun c => json_eqs (c_name c) "ccr-governance") cs = Some c -> c_image c = JStr img).

Lemma propagate_all vms :
  Forall (fun vm => json_eqs (vm_name vm) "remotemounts" = true ->
                    vm_mount_propagation vm = JStr "Bidirectional") (map propagate vms).
Proof.
  induction vms as [|vm vms IH]; cbn; constructor; [|done].
  unfold propagate. destruct (json_eqs (vm_name vm) "remotemounts") eqn:E; cbn; [done|]. by rewrite E.
Qed.

Definition named (n : string) (c : V1Container) : bool := json_eqs (c_name c) n.

Lemma named_unique c m n : named m c = true -> m <> n -> named n c = false.
Proof.
  unfold named. destruct (c_name c); try done. cbn. intros ->%bool_decide_eq_true Hmn.
  by apply bool_decide_eq_false.
Qed.

Lemma virtual_containers_cons img c cs :
  virtual_containers img (c :: cs) =
    (if named "ccr-governance" c then
       (if named "skr" c then [] else [set_container_mounts (set_image c (JStr img)) (map propagate (c_volume_mounts c))])
         ++ map (fun c => set_container_mounts c (map propagate (c_volume_mounts c)))
              (filter (fun c => Is_true (negb (json_eqs (c_name c) "skr"))) cs)
     else
       (if named "skr" c then [] else [set_container_mounts c (map propagate (c_volume_mounts c))])
         ++ virtual_containers img cs).
Proof.
  unfold virtual_containers. cbn [override_governance]. fold (named "ccr-governance" c).
  destruct (named "ccr-governance" c); rewrite filter_cons, ?json_eqs_set_image; fold (named "skr" c);
    destruct (named "skr" c); done.
Qed.

Lemma override_first img cs c :
  List.find (named "ccr-governance") (virtual_containers img cs) = Some c -> c_image c = JStr img.
Proof.
  induction cs as [|c0 cs IH]; [done|]. rewrite virtual_containers_cons.
  destruct (named "ccr-governance" c0) eqn:Hg.
  - rewrite (named_unique c0 _ "skr" Hg) by done. cbn.
    change (named "ccr-governance" (set_container_mounts (set_image c0 (JStr img)) (map propagate (c_volume_mounts c0))))
      with (named "ccr-governance" c0). rewrite Hg. by intros [= <-].
  - destruct (named "skr" c0); [apply IH|]. cbn.
    change (named "ccr-governance" (set_container_mounts c0 (map propagate (c_volume_mounts c0))))
      with (named "ccr-governance" c0). rewrite Hg. apply IH.
Qed.

Lemma virtual_pod_ready img p cs vms :
  initContainers p = Some cs -> volumeMounts p = Some vms -> virtual_ready img (virtual_pod img p).
Proof.
  intros Hc Hv. exists (virtual_containers img cs), (map propagate vms).
  unfold virtual_pod. cbn. rewrite Hc, Hv. split; [done|]. split; [done|]. split; [|split; [|split]].
  - unfold virtual_containers. apply Forall_map. apply Forall_forall. intros c Hin.
    apply list_elem_of_filter in Hin as [Hn _]. cbn. by destruct (json_eqs (c_name c) "skr").
  - apply propagate_all.
  - unfold virtual_containers. apply Forall_map. apply Forall_forall. intros c _. apply propagate_all.
  - intros c. apply override_first.
Qed.

Section VirtualBuild.
Context {W : Type} (se : SparkEnv W) (config : Configuration).

Lemma build_base_mounts b drv dr exe prof er w w' app :
  sp_driver b = Some (drv, dr) -> sp_executor b = Some (exe, prof, er) ->
  fresh_pod b (driver_pod drv) -> fresh_pod b (executor_pod exe) ->
  build_base se b w = (w', Ok app) ->
  volumeMounts (driver_pod (driver (cr_spec app))) = Some spark_volume_mounts /\
  volumeMounts (executor_pod (executor (cr_spec app))) = Some spark_volume_mounts.
Proof.
  intros Hd He Hfd Hfe. unfold build_base.
  destruct (str_truthy (sp_app_name b) && str_truthy (sp_image b) && str_truthy (sp_main_application_file b)); [|done].
  intros H. apply M_bind_ok in H as (w1 & cb & _ & H). apply M_bind_ok in H as (w2 & scs & _ & H).
  rewrite Hd, He in H. apply M_bind_ok in H as (w3 & d & Hd' & H). apply M_bind_ok in H as (w4 & e & He' & H).
  injection Hd' as <- <-. injection He' as <- <-.
  apply M_bind_ok in H as (w5 & pols & Hpol & H). apply M_bind_ok in H as (w6 & dp & Hdp & H).
  apply M_bind_ok in H as (w7 & ep & Hep & H). unfold lift in Hdp, Hep.
  injection Hdp as <- Hdp. injection Hep as <- Hep. injection H as <- <-. cbn.
  assert (forall role p p', fresh_pod b p -> finish_pod se b role scs p = Ok p' ->
    volumeMounts p' = Some spark_volume_mounts) as Hm.
  { intros role p p' [_ Hi Hv _]. unfold finish_pod.
    destruct (telemetry_on b); cbn; rewrite Hi; intros [= <-]; cbn; by rewrite Hv. }
  split; [by apply (Hm _ _ _ Hfd Hdp) | by apply (Hm _ _ _ Hfe Hep)].
Qed.

(** On a cluster without confidential computing every pod is built to run
    there: no attestation sidecar is left in it, the governance sidecar runs the
    virtual image, the remote mounts of the pod and of its sidecars propagate in
    both directions, and its policy is the allow-all policy. *)
Theorem virtual_job_ready app_name job img file pol sku debug allow env_vars tel w w' app :
  compute_provider (cfg_spark config) = Virtual ->
  convert_to_spark_spec se config app_name job img file pol sku debug allow env_vars tel w = (w', Ok app) ->
  virtual_ready (virtual_image (cfg_cleanroom config)) (driver_pod (driver (cr_spec app))) /\
  virtual_ready (virtual_image (cfg_cleanroom config)) (executor_pod (executor (cr_spec app))) /\
  rego_base64 (driver_policy app) = ALLOW_ALL_POLICY_BASE64 /\
  rego_base64 (executor_policy app) = ALLOW_ALL_POLICY_BASE64.
Proof.
  intros Hv H.
  apply convert_spec in H as (b & drv & dr & exe & prof & er & w3 & Hd & He & _ & Hp & Ha & Hset & Fd & Fe & _ & _ & H).
  rewrite Hv in Hp, Ha. unfold build_spark in H. apply M_bind_ok in H as (w4 & app0 & H & Hret).
  rewrite Hp, Hset in Hret. injection Hret as <- <-. cbn.
  pose proof (build_base_mounts _ _ _ _ _ _ _ _ _ Hd He Fd Fe H) as [Md Me].
  apply (build_base_spec _ _ _ _ _ _ _ _ _ _ Hd He Fd Fe) in H
    as (scs & Id & Ie & _ & _ & _ & w5 & w6 & Hpol).
  unfold get_spark_pod_policy in Hpol. rewrite Ha in Hpol.
  apply M_bind_ok in Hpol as (w7 & p & Hp' & Hpol). injection Hpol as <- Hp1 Hp2. rewrite <- Hp1, <- Hp2.
  assert (rego_base64 p = ALLOW_ALL_POLICY_BASE64) as Hb.
  { apply lift_ok in Hp' as [_ Hp']. by apply allow_all_base64. }
  split; [by eapply virtual_pod_ready|]. split; [by eapply virtual_pod_ready|]. by split.
Qed.
End VirtualBuild.

(** ** A job on a small registry *)

Definition demo_app_policy (role : string) : json :=
  JObj [("policy", JObj [("command", JArr [JStr "run"]); ("id", JStr "$jobId"); ("env_rules", JArr [])])].

Definition demo_spark_env : SparkEnv unit := {|
  build_env := {|
    temp_dir := temp_dir demo_env; file_exists := file_exists demo_env; make_dirs := make_dirs demo_env;
    oras_pull := oras_pull demo_env;
    yaml_load f :=
      if decide (f = "/tmp/cleanroom-spark-analytics-app-security-policy.yaml") then
        fun w => (w, Ok (JObj [("driver", demo_app_policy "driver"); ("executor", demo_app_policy "executor")]))
      else yaml_load demo_env f;
    read_text := read_text demo_env |};
  current_carrier := []; current_baggage := []; environ := fun _ => None; package_dir := "/app" |}.

Definition demo_sku : SkuSettings := default_pi_sku.

Definition demo_config (p : SparkComputeProvider) : Configuration := {|
  cfg_cleanroom := demo_settings;
  cfg_spark := {| compute_provider := p; resource := default_SparkResourceSettings |};
  cfg_applications :=
    {| analytics := {| an_namespace := "analytics"; an_image := "app"; an_policy_file := "mcr/policy:1";
                       an_debug_mode := false; an_allow_all := false;
                       an_application_file := "local:///app/src/main.py"; an_sql := demo_sku |};
       examples := default_ExamplesSettings |};
  cfg_service :=
    {| svc_name := "fe"; svc_namespace := "fe"; svc_url := "http://fe:8000";
       svc_telemetry := default_TelemetrySettings;
       svc_optimizer := {| opt_enabled := false; opt_endpoint := ""; opt_timeout := 30 |};
       svc_scheduler := default_SchedulerSettings |} |}.

Definition demo_dataset (name : string) : DatasetInfo :=
  {| ds_name := name; viewName := name; schema_ := Some [("id", [("type", "string")])]; format := fmt_csv;
     ownerId := "alice"; accessPoint := demo_access_point name "client-1"; allowedFields := ["id"] |}.

Definition demo_query : SQLPart :=
  {| query := "select id from orders"; start_date := None; end_date := None; use_optimizer := false |}.

Definition demo_job : JobInput :=
  {| contract_id := "contract"; datasets := [demo_dataset "orders"]; datasink := Some (demo_dataset "results");
     governance := None; sql_part := Some demo_query |}.

Lemma demo_sql_ok :
  is_ok (sql_to_spark_spec demo_spark_env (demo_config ConfidentialVirtualNode) "job-1" demo_job None None ()).2 = true.
Proof. vm_compute. reflexivity. Qed.


Lemma job_config_roundtrip_witness :
  exists job_config, to_app_input demo_job demo_query = Ok job_config /\
    (raw ← b64decode job_config; text ← utf8_decode raw; loads text) =
      Ok (app_input demo_job demo_query (demo_dataset "results")).
Proof.
  eexists. split; [reflexivity|].
  apply (job_config_roundtrip demo_job demo_query (demo_dataset "results")); reflexivity.
Defined.

Definition demo_spark_builder : SparkBuilder :=
  set_executor (set_driver
    (new_spark_builder ConfidentialVirtualNode demo_settings default_TelemetrySettings None [] "contract" "cl-spark-1"
       "app" "" "main.py" false false [] [])
    ({| driver_pod := base_pod (new_spark_builder ConfidentialVirtualNode demo_settings default_TelemetrySettings None []
                        "contract" "cl-spark-1" "app" "" "main.py" false false [] []) 1 "1g";
        serviceAccount := None; serviceLabels := None; kubernetesMaster := None; driver_javaOptions := None |}, JObj []))
    ({| executor_pod := base_pod (new_spark_builder ConfidentialVirtualNode demo_settings default_TelemetrySettings None []
                        "contract" "cl-spark-1" "app" "" "main.py" false false [] []) 1 "1g";
        instances := None; deleteOnTermination := None; executor_javaOptions := None |},
     {| dap_enabled := None; minExecutors := None; maxExecutors := None |}, JObj []).

Lemma built_policies_bound_witness :
  exists app, (build_spark demo_spark_env demo_spark_builder ()).2 = Ok app /\ policy_bound (driver_policy app).
Proof.
  destruct (build_spark demo_spark_env demo_spark_builder ()) as [w' [app|e]] eqn:E.
  2:{ vm_compute in E. discriminate. }
  exists app. split; [reflexivity|].
  apply (built_policies_bound demo_spark_env demo_spark_builder () w' app E).
Defined.

Lemma virtual_job_ready_witness :
  exists app, (convert_to_spark_spec demo_spark_env (demo_config Virtual) "cl-spark-1" demo_job "app" "main.py" ""
                 demo_sku false false [] None ()).2 = Ok app /\
    virtual_ready "mcr/ccr-governance-virtual:1" (driver_pod (driver (cr_spec app))).
Proof.
  destruct (convert_to_spark_spec demo_spark_env (demo_config Virtual) "cl-spark-1" demo_job "app" "main.py" ""
              demo_sku false false [] None ()) as [w' [app|e]] eqn:E.
  2:{ vm_compute in E. discriminate. }
  exists app. split; [reflexivity|].
  apply (virtual_job_ready demo_spark_env (demo_config Virtual) _ _ _ _ _ _ _ _ _ _ _ _ app eq_refl E).
Defined.

(** * Names of mount points across components

    The application builder gives the mount launcher a canonical form of the
    access point's name, which becomes the marker's name and the mount's folder;
    the analytics application waits for and reads from the name of the dataset.
    This file says when the two meet. *)
(** Characters that the canonical form keeps. *)
Definition canonical_char (c : ascii) : bool :=
  bool_decide (lower_char c = c) && negb (bool_decide (c = " "%char)) && negb (bool_decide (c = "_"%char)).

Definition canonical (name : string) : bool := str_forall canonical_char name.

Lemma lower_char_idem c : bool_decide (lower_char (lower_char c) = lower_char c) = true.
Proof. destruct c as [[] [] [] [] [] [] [] []]; vm_compute; reflexivity. Qed.

Lemma replace_char_forall (P Q : ascii -> bool) c by_ s :
  str_forall Q by_ = true -> (forall d, d <> c -> P d = true -> Q d = true) ->
  str_forall P s = true -> str_forall Q (replace_char c by_ s) = true.
Proof.
  intros Hb HPQ. induction s as [|d s IH]; [done|]. cbn. intros [Hd Hs]%andb_true_iff.
  destruct (decide (d = c)); [by rewrite str_forall_app, Hb, IH|]. cbn. by rewrite HPQ, IH.
Qed.

Lemma replace_char_id c by_ s : str_forall (fun d => negb (bool_decide (d = c))) s = true -> replace_char c by_ s = s.
Proof.
  induction s as [|d s IH]; [done|]. cbn. intros [Hd Hs]%andb_true_iff.
  rewrite decide_False by (by apply negb_true_iff, bool_decide_eq_false in Hd). by rewrite IH.
Qed.

Lemma str_map_id f s : str_forall (fun c => bool_decide (f c = c)) s = true -> str_map f s = s.
Proof.
  induction s as [|c s IH]; [done|]. cbn. intros [Hc%bool_decide_eq_true Hs]%andb_true_iff. by rewrite Hc, IH.
Qed.

Lemma sanitize_canonical name : canonical (sanitize_access_name name) = true.
Proof.
  unfold sanitize_access_name, canonical.
  apply (replace_char_forall (fun c => bool_decide (lower_char c = c) && negb (bool_decide (c = " "%char))));
    [reflexivity| |].
  - intros d Hd H. unfold canonical_char. rewrite H. by rewrite bool_decide_false.
  - apply (replace_char_forall (fun c => bool_decide (lower_char c = c))); [reflexivity| |].
    + intros d Hd H. rewrite H. by rewrite bool_decide_false.
    + unfold lower. induction name as [|c s IH]; [done|]. cbn. by rewrite lower_char_idem.
Qed.

(** Canonical names are the fixed points of the builder's conversion. *)
Lemma sanitize_fixed name : sanitize_access_name name = name <-> canonical name = true.
Proof.
  split; [intros <-; apply sanitize_canonical|]. unfold canonical, sanitize_access_name. intros H.
  assert (lower name = name) as ->.
  { apply str_map_id. eapply str_forall_impl; [|exact H]. intros c. unfold canonical_char.
    by intros [[? _]%andb_true_iff _]%andb_true_iff. }
  rewrite (replace_char_id " "), (replace_char_id "_"); [done|..]; (eapply str_forall_impl; [|exact H]);
    intros c; unfold canonical_char; intros [[_ ?]%andb_true_iff ?]%andb_true_iff; done.
Qed.

Section Names.
Context (b : Builder).

(** The dataset's folder and marker are the ones its launcher creates exactly
    when the name of its access point, with capitals lowered, spaces dropped and
    underscores turned into dashes, is the name of the dataset; for a dataset
    named like its access point, exactly when the name is canonical. *)
Theorem mount_names_agree d mount telemetry volumes port vars sub :
  blobfuse_vars b (accessPoint d) mount (sanitize_access_name (ap_name (accessPoint d))) telemetry volumes port
    = Ok (vars, sub) ->
  (dict_lookup "datasetName" vars = Some (JStr (ds_name d)) <->
     sanitize_access_name (ap_name (accessPoint d)) = ds_name d) /\
  (ap_name (accessPoint d) = ds_name d ->
     (dict_lookup "datasetName" vars = Some (JStr (ds_name d)) <-> canonical (ds_name d) = true)).
Proof.
  intros H. unfold blobfuse_vars in H.
  apply res_bind_ok in H as (cfg & _ & H). apply res_bind_ok in H as (mode & _ & H).
  apply res_bind_ok in H as ([] & _ & H). apply res_bind_ok in H as (dek & _ & H).
  apply res_bind_ok in H as ([[[acc ep] cont] sd] & _ & H). apply res_bind_ok in H as (i & _ & H).
  injection H as <- <-. cbn [dict_lookup]. rewrite decide_True by done. split.
  - split; [by intros [= H] | by intros ->].
  - intros Hn. rewrite <- sanitize_fixed, Hn. split; [by intros [= H] | by intros ->].
Qed.
End Names.

(** A dataset named [Orders_2024], like its access point, is never found. *)
Definition orders_2024 : DatasetInfo := demo_dataset "Orders_2024".

Definition orders_vars : res (list (string * json) * string) :=
  blobfuse_vars demo_builder (accessPoint orders_2024) "/mnt/remote"
    (sanitize_access_name (ap_name (accessPoint orders_2024))) "/mnt/telemetry" "/mnt/volumestatus" 6300.

Lemma orders_vars_ok : is_ok orders_vars = true.
Proof. vm_compute. reflexivity. Qed.

Lemma mount_names_agree_witness :
  exists vars sub, orders_vars = Ok (vars, sub) /\
    (dict_lookup "datasetName" vars = Some (JStr "Orders_2024") <-> canonical "Orders_2024" = true) /\
    canonical "Orders_2024" = false.
Proof.
  destruct orders_vars as [[vars sub]|e] eqn:Ho.
  - exists vars, sub. split; [reflexivity|]. split; [|reflexivity].
    destruct (mount_names_agree demo_builder orders_2024 "/mnt/remote" "/mnt/telemetry" "/mnt/volumestatus" 6300
      vars sub Ho) as [_ H]. apply H. reflexivity.
  - exfalso. pose proof orders_vars_ok as H. rewrite Ho in H. discriminate H.
Defined.
