(* ===== verification/KubeWorld.v ===== *)
(** * An in-memory Kubernetes server

    The contracts the front end relies on ([KubeObjects] for config maps and
    Spark applications) and a concrete server that keeps them, on which the
    theorems' hypotheses are shown to hold together.  The server is not part of
    the repository; nothing is proved of the front end from its definition. *)

From S2P Require Import Prelude PyStr Base64 Json JsonFacts PyFloat SparkModels Settings Metrics KubeClient.

(** ** Contracts *)

Class KubeObjects {W} (api : KubeApi W) := {
  config_map_at : W -> string -> string -> option V1ConfigMap;
  app_at : W -> string -> string -> option SparkBody;
  create_config_map_ok ns cm w w' :
    create_namespaced_config_map api ns cm w = (w', Ok ()) ->
    config_map_at w' ns (cm_name cm) = Some cm /\
    (forall ns' n, (ns', n) <> (ns, cm_name cm) -> config_map_at w' ns' n = config_map_at w ns' n) /\
    (forall ns' n, app_at w' ns' n = app_at w ns' n);
  create_custom_object_ok g v ns plural body w w' :
    create_namespaced_custom_object api g v ns plural body w = (w', Ok ()) ->
    app_at w' ns (sb_name body) = Some body /\
    (forall ns' n, config_map_at w' ns' n = config_map_at w ns' n);
  get_custom_object_frame g v ns plural name w ns' n :
    config_map_at (get_namespaced_custom_object api g v ns plural name w).1 ns' n = config_map_at w ns' n /\
    app_at (get_namespaced_custom_object api g v ns plural name w).1 ns' n = app_at w ns' n;
  (** a metadata patch leaves the data of every config map alone *)
  patch_config_map_frame name ns body w ns' n :
    (cm_data <$> config_map_at (patch_namespaced_config_map api name ns body w).1 ns' n) =
      (cm_data <$> config_map_at w ns' n) /\
    app_at (patch_namespaced_config_map api name ns body w).1 ns' n = app_at w ns' n;
  (** a read that the server answers returns the stored map *)
  read_config_map_ok name ns w w' o :
    read_namespaced_config_map api (JStr name) (JStr ns) w = (w', Ok o) ->
    config_map_at w ns name = o
}.

(** ** The server *)

(** Objects are stored under their namespace and name. *)
Record KW := {
  kw_maps : gmap (string * string) V1ConfigMap;
  kw_apps : gmap (string * string) SparkBody;
  kw_status : gmap (string * string) json;
  kw_annotations : gmap (string * string) (list (string * json));
  kw_events : list CoreV1Event;
  kw_nodes : list V1Node;
  kw_pods : list (string * list V1Pod);
  kw_hooks : gmap string V1MutatingWebhookConfiguration;
  kw_now : datetime;
  kw_files : list (string * string)
}.

Definition kw_set_maps (w : KW) m :=
  {| kw_maps := m; kw_apps := kw_apps w; kw_status := kw_status w; kw_annotations := kw_annotations w;
     kw_events := kw_events w; kw_nodes := kw_nodes w; kw_pods := kw_pods w; kw_hooks := kw_hooks w;
     kw_now := kw_now w; kw_files := kw_files w |}.
Definition kw_set_apps (w : KW) m :=
  {| kw_maps := kw_maps w; kw_apps := m; kw_status := kw_status w; kw_annotations := kw_annotations w;
     kw_events := kw_events w; kw_nodes := kw_nodes w; kw_pods := kw_pods w; kw_hooks := kw_hooks w;
     kw_now := kw_now w; kw_files := kw_files w |}.
Definition kw_set_annotations (w : KW) m :=
  {| kw_maps := kw_maps w; kw_apps := kw_apps w; kw_status := kw_status w; kw_annotations := m;
     kw_events := kw_events w; kw_nodes := kw_nodes w; kw_pods := kw_pods w; kw_hooks := kw_hooks w;
     kw_now := kw_now w; kw_files := kw_files w |}.
Definition kw_set_events (w : KW) m :=
  {| kw_maps := kw_maps w; kw_apps := kw_apps w; kw_status := kw_status w; kw_annotations := kw_annotations w;
     kw_events := m; kw_nodes := kw_nodes w; kw_pods := kw_pods w; kw_hooks := kw_hooks w;
     kw_now := kw_now w; kw_files := kw_files w |}.
Definition kw_set_hooks (w : KW) m :=
  {| kw_maps := kw_maps w; kw_apps := kw_apps w; kw_status := kw_status w; kw_annotations := kw_annotations w;
     kw_events := kw_events w; kw_nodes := kw_nodes w; kw_pods := kw_pods w; kw_hooks := m;
     kw_now := kw_now w; kw_files := kw_files w |}.

Definition not_found {A} : res A := Err (ApiException (Some 404%Z) "(404) Reason: Not Found").
Definition conflict {A} : res A := Err (ApiException (Some 409%Z) "(409) Reason: Conflict").

Definition kw_create `{Countable K} {V} (get : KW -> gmap K V) (set : KW -> gmap K V -> KW)
    (key : K) (v : V) : M KW unit := fun w =>
  match get w !! key with
  | Some _ => (w, conflict)
  | None => (set w (<[key := v]> (get w)), Ok ())
  end.

(** The JSON of a stored application. *)
Definition kw_app_json (w : KW) (key : string * string) (b : SparkBody) : json :=
  JObj ([("metadata",
     JObj [("name", JStr (sb_name b)); ("namespace", JStr (sb_namespace b)); ("uid", JStr ("uid-" +:+ sb_name b));
           ("labels", JObj (map (fun kv => (kv.1, JStr kv.2)) (sb_labels b)));
           ("annotations", JObj (default [] (kw_annotations w !! key)))])]
    ++ match kw_status w !! key with Some st => [("status", st)] | None => [] end).

(** The annotations of a merge patch on [metadata.annotations]. *)
Definition patched_annotations (body : json) : list (string * json) :=
  match body with
  | JObj [("metadata", JObj [("annotations", JObj kvs)])] => kvs
  | _ => []
  end.

Definition kw_text (j : json) : string := py_str j.

Definition kw_api : KubeApi KW := {|
  create_namespaced_custom_object _ _ ns _ body :=
    kw_create kw_apps kw_set_apps (ns, sb_name body) body;
  get_namespaced_custom_object _ _ ns _ name := fun w =>
    (w, match kw_apps w !! (ns, name) with
        | Some b => Ok (kw_app_json w (ns, name) b)
        | None => not_found
        end);
  patch_namespaced_custom_object _ _ ns _ name body := fun w =>
    match kw_apps w !! (ns, name) with
    | Some _ =>
        let old := default [] (kw_annotations w !! (ns, name)) in
        (kw_set_annotations w
           (<[(ns, name) := foldl (fun d kv => dict_set kv.1 kv.2 d) old (patched_annotations body)]>
              (kw_annotations w)), Ok ())
    | None => (w, not_found)
    end;
  create_namespaced_config_map ns cm := kw_create kw_maps kw_set_maps (ns, cm_name cm) cm;
  patch_namespaced_config_map name ns _ := fun w =>
    (w, match kw_maps w !! (ns, name) with Some _ => Ok () | None => not_found end);
  read_namespaced_config_map name ns := fun w =>
    (w, match kw_maps w !! (kw_text ns, kw_text name) with
        | Some cm => Ok (Some cm)
        | None => not_found
        end);
  create_namespaced_event ns ev := fun w => (kw_set_events w (kw_events w ++ [ev]), Ok ());
  list_namespaced_event ns sel := fun w => (w, Ok (Some (kw_events w)));
  list_node sel := fun w => (w, Ok (Some (kw_nodes w)));
  list_pod_for_all_namespaces sel := fun w => (w, Ok (dict_lookup sel (kw_pods w)));
  read_mutating_webhook_configuration name := fun w =>
    (w, match kw_hooks w !! name with Some h => Ok h | None => not_found end);
  replace_mutating_webhook_configuration name cfg := fun w =>
    (kw_set_hooks w (<[name := cfg]> (kw_hooks w)), Ok ());
  create_mutating_webhook_configuration_ cfg := kw_create kw_hooks kw_set_hooks (whc_name cfg) cfg;
  datetime_now := fun w => (w, Ok (kw_now w));
  path_exists p := fun w => (w, Ok (bool_decide (is_Some (dict_lookup p (kw_files w)))));
  read_bytes p := fun w =>
    (w, of_option (OtherException "No such file or directory") (dict_lookup p (kw_files w)))
|}.

Definition empty_world : KW :=
  {| kw_maps := ∅; kw_apps := ∅; kw_status := ∅; kw_annotations := ∅; kw_events := [];
     kw_nodes := []; kw_pods := []; kw_hooks := ∅; kw_now := 0%Z; kw_files := [] |}.

Lemma kw_create_ok `{Countable K} {V} (get : KW -> gmap K V) set key v w w' :
  kw_create get set key v w = (w', Ok ()) -> w' = set w (<[key := v]> (get w)).
Proof. unfold kw_create. destruct (get w !! key); [done|]. by intros [= <-]. Qed.

#[export] Program Instance kw_objects : KubeObjects kw_api :=
  {| config_map_at w ns n := kw_maps w !! (ns, n); app_at w ns n := kw_apps w !! (ns, n) |}.
Next Obligation.
  intros ns cm w w' ->%kw_create_ok. cbn. split_and!; [|intros ns' n Hne|done].
  - apply lookup_insert_eq.
  - by rewrite lookup_insert_ne by congruence.
Qed.
Next Obligation. intros g v ns pl b w w' ->%kw_create_ok. cbn. split; [apply lookup_insert_eq|done]. Qed.
Next Obligation. done. Qed.
Next Obligation. done. Qed.
Next Obligation.
  intros name ns w w' o. cbn. destruct (kw_maps w !! (ns, name)) eqn:E; [|done]. by intros [= <- <-].
Qed.
