(* ===== verification/Scheduler.v ===== *)
(** * The pod scheduler

    [webhooks/scheduler]: the constraint enforcer interface, its factory, the
    pod count constraint and the scheduler that runs the schedulable nodes
    through the enforcers and picks the first one left.

    [ConstraintEnforcer] is the abstract class of [constraint_enforcer.py] and
    [EnforcerLaws] what its documentation promises; [PodCountConstraint] is the
    instance the repository has. *)

From S2P Require Import Prelude PyStr Json PyFloat SparkModels Settings Metrics KubeClient.
From Stdlib Require Import Lia Sorted.

(** ** [list.sort(key=...)]: a stable sort *)

Section SortBy.
Context {A : Type} (key : A -> nat).

Fixpoint insert_by (x : A) (l : list A) : list A :=
  match l with
  | [] => [x]
  | y :: l' => if key x <=? key y then x :: l else y :: insert_by x l'
  end.

Fixpoint sort_by (l : list A) : list A :=
  match l with [] => [] | x :: l' => insert_by x (sort_by l') end.

Definition key_le (x y : A) : Prop := key x <= key y.

Lemma insert_by_perm x l : insert_by x l ≡ₚ x :: l.
Proof.
  induction l as [|y l IH]; cbn; [done|].
  destruct (key x <=? key y); [done|]. rewrite IH. apply Permutation_swap.
Qed.

Lemma sort_by_perm l : sort_by l ≡ₚ l.
Proof. induction l as [|x l IH]; cbn; [done|]. by rewrite insert_by_perm, IH. Qed.

Lemma insert_by_sorted x l : StronglySorted key_le l -> StronglySorted key_le (insert_by x l).
Proof.
  induction 1 as [|y l Hl IH Hy]; cbn; [repeat constructor|].
  destruct (Nat.leb_spec (key x) (key y)) as [Hxy|Hxy].
  - repeat constructor; try done.
    eapply Forall_impl; [exact Hy|]. unfold key_le. intros z Hz. lia.
  - constructor; [done|]. rewrite insert_by_perm. constructor; [unfold key_le; lia | done].
Qed.

Lemma sort_by_sorted l : StronglySorted key_le (sort_by l).
Proof. induction l; cbn; [constructor | by apply insert_by_sorted]. Qed.

(** Stability: elements with the same key keep their order. *)
Lemma insert_by_stable k x l :
  filter (fun y => key y = k) (insert_by x l) =
  if decide (key x = k) then x :: filter (fun y => key y = k) l
  else filter (fun y => key y = k) l.
Proof.
  induction l as [|y l IH]; cbn [insert_by].
  - rewrite filter_cons, filter_nil. done.
  - destruct (Nat.leb_spec (key x) (key y)).
    + by rewrite filter_cons.
    + rewrite !filter_cons, IH. repeat case_decide; first [done | lia].
Qed.

Lemma sort_by_stable k l :
  filter (fun y => key y = k) (sort_by l) = filter (fun y => key y = k) l.
Proof.
  induction l as [|x l IH]; cbn [sort_by]; [done|].
  rewrite insert_by_stable, IH, filter_cons. done.
Qed.
End SortBy.

(** ** The enforcer interface *)

Class ConstraintEnforcer (W E : Type) := {
  enforcer_name : E -> string;
  rank_nodes : E -> list V1Node -> M (FE W) (list V1Node)
}.

(** ** The pod count constraint *)

(** [node.metadata.name if node.metadata else "unknown"] *)
Definition node_name (n : V1Node) : option string :=
  match node_metadata_name n with Some name => name | None => Some "unknown" end.

Record PodCountConstraint := { max_pods : Z }.

Section PodCount.
Context {W : Type} (api : KubeApi W).

Definition check_node (c : PodCountConstraint) (node_pod_counts : list (V1Node * nat)) (node : V1Node)
  : M (FE W) (list (V1Node * nat)) :=
  try_except
    (pods ← list_pods_on_node api (node_name node) true;
     let pod_count := length pods in
     mret (if (Z.of_nat pod_count <? max_pods c)%Z then node_pod_counts ++ [(node, pod_count)]
           else node_pod_counts))
    (fun _ => mret node_pod_counts).

Definition pod_count_rank_nodes (c : PodCountConstraint) (nodes : list V1Node)
  : M (FE W) (list V1Node) :=
  node_pod_counts ← fold_M (check_node c) [] nodes;
  mret (sort_by snd node_pod_counts).*1.

#[export] Instance PodCountConstraint_enforcer : ConstraintEnforcer W PodCountConstraint :=
  {| enforcer_name _ := "PodCountConstraint"; rank_nodes := pod_count_rank_nodes |}.
End PodCount.

(** ** The factory *)

Definition create_enforcer (constraint_type constraint_value : string) : res PodCountConstraint :=
  if decide (constraint_type = "POD_COUNT") then
    let invalid := Err (ValueError ("Invalid POD_COUNT value '" +:+ constraint_value
                                    +:+ "': must be a positive integer")) in
    match py_int constraint_value with
    | Ok n => if (n <=? 0)%Z then invalid else Ok {| max_pods := n |}
    | Err (ValueError _) => invalid
    | Err e => Err e
    end
  else Err (ValueError ("Unknown constraint type: " +:+ constraint_type)).

Fixpoint create_enforcers (constraints : list (string * string)) : res (list PodCountConstraint) :=
  match constraints with
  | [] => Ok []
  | (constraint_type, constraint_value) :: rest =>
      match create_enforcer constraint_type constraint_value with
      | Ok enforcer => es ← create_enforcers rest; Ok (enforcer :: es)
      | Err (ValueError _) => create_enforcers rest
      | Err e => Err e
      end
  end.

(** ** The scheduler *)

Definition node_ready (n : V1Node) : bool :=
  match node_conditions n with
  | Some (Some cs) =>
      forallb (fun c => negb (bool_decide (cond_type c = "Ready") && bool_decide (cond_status c <> "True"))) cs
  | _ => true
  end.

Definition node_tolerable (s : V1NodeSpec) : bool :=
  match taints s with
  | Some ts => forallb (fun t => negb (bool_decide (taint_effect t ∈ ["NoExecute"]))) ts
  | None => true
  end.

Definition is_node_schedulable (n : V1Node) : bool :=
  match node_spec n with
  | Some s => negb (default false (unschedulable s)) && node_tolerable s && node_ready n
  | None => node_ready n
  end.

Section PodScheduler.
Context {W E : Type} (api : KubeApi W) `{!ConstraintEnforcer W E}.

Record PodScheduler := { config : SchedulerSettings; enforcers : list E }.

Definition get_all_nodes (p : PodScheduler) : M (FE W) (list V1Node) :=
  list_nodes api (node_selector (config p)).

Definition get_pods_on_node (name : string) : M (FE W) (list V1Pod) :=
  list_pods_on_node api (Some name) true.

(** The enforcer pipeline; [None] as soon as one leaves no node. *)
Fixpoint apply_enforcers (es : list E) (ranked_nodes : list V1Node) : M (FE W) (option (list V1Node)) :=
  match es with
  | [] => mret (Some ranked_nodes)
  | e :: es' =>
      ranked ← rank_nodes e ranked_nodes;
      match ranked with
      | [] => mret None
      | _ => apply_enforcers es' ranked
      end
  end.

Definition select_node (p : PodScheduler) : M (FE W) (option string) :=
  nodes ← get_all_nodes p;
  match filter (fun n => Is_true (is_node_schedulable n)) nodes with
  | [] => mret None
  | schedulable =>
      ranked ← apply_enforcers (enforcers p) schedulable;
      mret match ranked with
           | Some (selected :: _) => node_name selected
           | _ => None
           end
  end.
End PodScheduler.
Arguments PodScheduler : clear implicits.

(** [PodScheduler(k8s_client, config)] *)
Definition new_pod_scheduler (c : SchedulerSettings) : res (PodScheduler PodCountConstraint) :=
  es ← create_enforcers (constraints c);
  Ok {| config := c; enforcers := es |}.
