(* ===== verification/Webhooks.v ===== *)
(** * Admission webhooks

    [webhooks/base_webhook_handler.py] and the two handlers built on it: the
    CCE policy injector ([webhooks/cce_policy_injector]) and the pod scheduler's
    handler ([webhooks/scheduler/webhook_handler.py]).  A handler is a function
    from the pod to its verdict, [handle_request] the part shared by both. *)

From S2P Require Import Prelude PyStr Base64 Json JsonFacts PyFloat SparkModels Settings Metrics KubeClient.

(** [(allowed, message, patch)] *)
Record verdict := Verdict { allowed : bool; message : string; patch : option string }.

(** ** The base handler *)

Definition create_admission_response (uid : json) (v : verdict) : json :=
  let base := [("uid", uid); ("allowed", JBool (allowed v))] in
  let extra :=
    if negb (allowed v) then
      [("status", JObj [("code", JInt 400); ("message", JStr (message v))])]
    else match patch v with
         | Some p =>
             if str_truthy p then
               [("patchType", JStr "JSONPatch"); ("patch", JStr (b64encode (utf8_encode p)))]
             else []
         | None => []
         end in
  JObj [("apiVersion", JStr "admission.k8s.io/v1"); ("kind", JStr "AdmissionReview");
        ("response", JObj (base ++ extra))].

Section Base.
Context {W : Type} (webhook_name : string).

Definition record_metrics (success : bool) (error : option string) : FE W -> FE W :=
  emit (webhook_request_events webhook_name "handle_request" success
          match error with
          | Some e => if str_truthy e then [("error", JStr e)] else []
          | None => []
          end).

Definition handle_request (handle : json -> json -> json -> M (FE W) verdict)
    (admission_request : json) : M (FE W) json :=
  req ← lift (json_get admission_request "request" (JObj []));
  uid ← lift (json_get req "uid" (JStr "unknown"));
  pod ← lift (json_get req "object" (JObj []));
  if negb (json_truthy pod) then
    mret (create_admission_response uid
            (Verdict false "Pod object is missing in the admission request." None))
  else
    pod_metadata ← lift (json_get pod "metadata" (JObj []));
    pod_name ← lift (json_get pod_metadata "name" (JStr "unknown"));
    ns ← lift (json_get pod_metadata "namespace" (JStr "default"));
    try_except
      (v ← handle pod_name ns pod;
       _ ← modify (record_metrics (allowed v) None);
       mret (create_admission_response uid v))
      (fun e =>
         _ ← modify (record_metrics false (Some (exn_str e)));
         mret (create_admission_response uid
                 (Verdict false ("Internal error: " +:+ exn_str e) None))).
End Base.

(** ** The policy injector *)

(** [base64.b64decode(s)] of a value that should be an ASCII string. *)
Definition py_b64decode (j : json) : res string :=
  match j with
  | JStr s => if str_forall is_ascii s then b64decode s
              else Err (ValueError "string argument should contain only ASCII characters")
  | _ => Err (TypeError ("argument should be a bytes-like object or ASCII string, not '"
                         +:+ py_type j +:+ "'"))
  end.

(** A one-operation JSON patch. *)
Definition add_patch (path value : string) : json :=
  JArr [JObj [("op", JStr "add"); ("path", JStr path); ("value", JStr value)]].

Section Injector.
Context {W : Type} (api : KubeApi W).
Context (config_map_annotation policy_key annotation_name_label : string).

Definition get_policy_from_config_map (name ns : json) : M (FE W) (option string) :=
  get_key_from_config_map api name ns policy_key.

(** The body of the [try] block. *)
Definition inject (pod_name pod_labels cce_policy_map_base64 : json) : M (FE W) verdict :=
  raw ← lift (py_b64decode cce_policy_map_base64);
  text ← lift (utf8_decode raw);
  cce_policy_map ← lift (loads text);
  name ← lift (json_get cce_policy_map "name" JNull);
  ns ← lift (json_get cce_policy_map "namespace" JNull);
  if negb (json_truthy name) || negb (json_truthy ns) then
    mret (Verdict false ("ConfigMap information is incomplete: " +:+ dumps cce_policy_map +:+ ".") None)
  else
    policy ← get_policy_from_config_map name ns;
    match policy with
    | Some policy =>
        annotation_name ← lift (json_get pod_labels annotation_name_label JNull);
        if json_truthy annotation_name then
          mret (Verdict true ("Policy injected into pod " +:+ py_str pod_name)
                  (Some (dumps (add_patch ("/metadata/annotations/" +:+ py_str annotation_name) policy))))
        else
          mret (Verdict false ("Pod does not have '" +:+ annotation_name_label +:+ "' label.") None)
    | None =>
        mret (Verdict false ("ConfigMap " +:+ py_str name +:+ " in namespace " +:+ py_str ns
                             +:+ " does not contain '" +:+ policy_key +:+ "' key.") None)
    end.

Definition injector_handle_request (pod_name ns pod : json) : M (FE W) verdict :=
  pod_metadata ← lift (json_get pod "metadata" (JObj []));
  pod_labels ← lift (json_get pod_metadata "labels" (JObj []));
  pod_annotations ← lift (json_get pod_metadata "annotations" (JObj []));
  cce_policy_map_base64 ← lift (json_get pod_annotations config_map_annotation JNull);
  if negb (json_truthy cce_policy_map_base64) then
    mret (Verdict false ("Pod does not have '" +:+ config_map_annotation +:+ "' annotation.") None)
  else
    try_except (inject pod_name pod_labels cce_policy_map_base64)
      (fun e => match e with
                | ApiException _ _ =>
                    mret (Verdict false ("Failed to mutate resource. Error: " +:+ exn_str e) None)
                | _ =>
                    mret (Verdict false ("Internal error during mutation: " +:+ exn_str e) None)
                end).
End Injector.

(** ** The scheduler's handler *)

Section SchedulerHandler.
Context {W : Type} (select_node : M (FE W) (option string)).

Definition scheduler_handle_request (pod_name ns pod : json) : M (FE W) verdict :=
  pod_spec ← lift (json_get pod "spec" (JObj []));
  node_name ← lift (json_get pod_spec "nodeName" JNull);
  if json_truthy node_name then mret (Verdict true "Pod already has nodeName assigned" None)
  else
    try_except
      (selected_node ← select_node;
       mret match selected_node with
            | Some n =>
                if str_truthy n then
                  Verdict true ("Pod assigned to node " +:+ n) (Some (dumps (add_patch "/spec/nodeName" n)))
                else Verdict false "No nodes available with capacity." None
            | None => Verdict false "No nodes available with capacity." None
            end)
      (fun e => mret (Verdict false ("Internal error while selecting node: " +:+ exn_str e) None)).
End SchedulerHandler.
