(* ===== verification/SchedulerProps.v ===== *)
(** * Correctness of the pod scheduler

    [KubeReads] states that listing nodes and pods reads the cluster without
    changing it; [EnforcerLaws] is the promise an enforcer makes to the
    scheduler (it keeps exactly the nodes it admits, best first).  The pipeline
    is proved against [EnforcerLaws], which the pod count constraint
    discharges. *)

From S2P Require Import Prelude PyStr Base64 Json JsonFacts PyFloat SparkModels Settings Metrics KubeClient KubeWorld Scheduler Webhooks.
From Stdlib Require Import Lia Sorted.

(** ** What the cluster shows *)

Class KubeReads {W} (api : KubeApi W) := {
  nodes_at : W -> string -> res (option (list V1Node));
  pods_at : W -> string -> res (option (list V1Pod));
  list_node_reads sel w : (list_node api sel w).2 = nodes_at w sel;
  list_pod_reads sel w : (list_pod_for_all_namespaces api sel w).2 = pods_at w sel;
  list_node_frame sel w sel' :
    nodes_at (list_node api sel w).1 sel' = nodes_at w sel' /\
    pods_at (list_node api sel w).1 sel' = pods_at w sel';
  list_pod_frame sel w sel' :
    nodes_at (list_pod_for_all_namespaces api sel w).1 sel' = nodes_at w sel' /\
    pods_at (list_pod_for_all_namespaces api sel w).1 sel' = pods_at w sel'
}.

Section Cluster.
Context {W : Type} (api : KubeApi W) `{!KubeReads api}.

(** Two worlds show the same nodes and pods. *)
Definition same_cluster (w w' : W) : Prop := forall sel,
  nodes_at w sel = nodes_at w' sel /\ pods_at w sel = pods_at w' sel.

#[export] Instance same_cluster_equiv : Equivalence same_cluster.
Proof.
  split.
  - by intros w sel.
  - intros w w' H sel. destruct (H sel). by split.
  - intros w w' w'' H H' sel. destruct (H sel) as [-> ->]. apply H'.
Qed.

Lemma list_nodes_spec (sel : list (string * string)) s : exists s',
  list_nodes api sel s = (s', default [] <$> nodes_at (world s) (label_selector_text sel)) /\
  same_cluster (world s) (world s').
Proof.
  unfold list_nodes, call. rewrite M_bind_run, in_world_run, list_node_reads.
  destruct (nodes_at (world s) (label_selector_text sel)) as [o|e]; cbn; eexists; (split; [done|]);
    intros sel'; cbn; destruct (list_node_frame (label_selector_text sel) (world s) sel') as [-> ->]; done.
Qed.

Lemma list_pods_spec name s :
  exists s', list_pods_on_node api name true s =
    (s', (fun o => filter (fun p => Is_true (pod_active p)) (default [] o))
           <$> pods_at (world s) (node_field_selector name)) /\
    same_cluster (world s) (world s').
Proof.
  unfold list_pods_on_node, call. rewrite M_bind_run, in_world_run, list_pod_reads.
  destruct (pods_at (world s) (node_field_selector name)) as [o|e]; cbn; eexists; (split; [done|]);
    intros sel'; cbn; destruct (list_pod_frame (node_field_selector name) (world s) sel') as [-> ->]; done.
Qed.

(** The number of pending and running pods of a node; [None] when they cannot
    be listed. *)
Definition active_count (w : W) (n : V1Node) : option nat :=
  match pods_at w (node_field_selector (node_name n)) with
  | Ok o => Some (length (filter (fun p => Is_true (pod_active p)) (default [] o)))
  | Err _ => None
  end.

#[export] Instance active_count_proper : Proper (same_cluster ==> eq ==> eq) active_count.
Proof.
  intros w w' H n ? <-. unfold active_count.
  by destruct (H (node_field_selector (node_name n))) as [_ ->].
Qed.
End Cluster.
Arguments same_cluster {W} api {_}.
Arguments active_count {W} api {_}.

(** ** What an enforcer promises *)

Class EnforcerLaws {W E} (api : KubeApi W) `{!KubeReads api} `{!ConstraintEnforcer W E} := {
  admits : W -> E -> V1Node -> bool;
  cost : W -> E -> V1Node -> nat;
  admits_proper :: Proper (same_cluster api ==> eq ==> eq ==> eq) admits;
  cost_proper :: Proper (same_cluster api ==> eq ==> eq ==> eq) cost;
  rank_nodes_spec e nodes s : exists s' ranked,
    rank_nodes e nodes s = (s', Ok ranked) /\
    same_cluster api (world s) (world s') /\
    ranked ≡ₚ filter (fun n => Is_true (admits (world s) e n)) nodes /\
    StronglySorted (key_le (cost (world s) e)) ranked
}.

(** The pod count constraint keeps the promise. *)
Section PodCountLaws.
Context {W : Type} (api : KubeApi W) `{!KubeReads api}.

Definition pod_count_admits (w : W) (c : PodCountConstraint) (n : V1Node) : bool :=
  match active_count api w n with
  | Some k => (Z.of_nat k <? max_pods c)%Z
  | None => false
  end.

Definition pod_count_cost (w : W) (c : PodCountConstraint) (n : V1Node) : nat :=
  default 0 (active_count api w n).

Definition counted (w : W) (n : V1Node) : V1Node * nat := (n, default 0 (active_count api w n)).

Lemma check_node_spec c acc n s : exists s',
  check_node api c acc n s =
    (s', Ok (if pod_count_admits (world s) c n then acc ++ [counted (world s) n] else acc)) /\
  same_cluster api (world s) (world s').
Proof.
  unfold check_node, pod_count_admits, counted, active_count.
  rewrite try_except_run, M_bind_run.
  destruct (list_pods_spec api (node_name n) s) as (s' & -> & Hs).
  exists s'. destruct (pods_at (world s) (node_field_selector (node_name n))); done.
Qed.

Lemma check_nodes_spec c nodes : forall acc s, exists s',
  fold_M (check_node api c) acc nodes s =
    (s', Ok (acc ++ (counted (world s) <$> filter (fun n => Is_true (pod_count_admits (world s) c n)) nodes))) /\
  same_cluster api (world s) (world s').
Proof.
  induction nodes as [|n nodes IH]; intros acc s; cbn [fold_M].
  - exists s. rewrite filter_nil. cbn. rewrite app_nil_r. by split.
  - rewrite M_bind_run. destruct (check_node_spec c acc n s) as (s1 & -> & Hs1).
    destruct (IH (if pod_count_admits (world s) c n then acc ++ [counted (world s) n] else acc) s1)
      as (s' & -> & Hs'). exists s'. split; [|by etransitivity].
    do 2 f_equal. rewrite filter_cons.
    rewrite (list_filter_iff _ (fun m => Is_true (pod_count_admits (world s) c m))).
    2:{ intros m. unfold pod_count_admits. by rewrite Hs1. }
    rewrite (list_fmap_ext (counted (world s1)) (counted (world s))).
    2:{ intros i m _. unfold counted. by rewrite Hs1. }
    destruct (pod_count_admits (world s) c n); cbn; [by rewrite <- app_assoc | done].
Qed.

Lemma sorted_fst w (l : list (V1Node * nat)) c :
  Forall (fun nk => nk.2 = pod_count_cost w c nk.1) l ->
  StronglySorted (key_le snd) l -> StronglySorted (key_le (pod_count_cost w c)) l.*1.
Proof.
  intros Hl Hs. induction Hs as [|[n k] l Hs IH Hn]; cbn; [constructor|].
  inversion Hl as [|? ? Hk Hl']; subst. cbn in Hk. constructor; [by apply IH|].
  rewrite Forall_fmap. apply Forall_forall. intros [m j] Hm. cbn.
  rewrite Forall_forall in Hn, Hl'. specialize (Hn _ Hm). specialize (Hl' _ Hm).
  unfold key_le in *. cbn in *. by rewrite <- Hk, <- Hl'.
Qed.

Lemma pod_count_rank_spec c nodes s : exists s' ranked,
  pod_count_rank_nodes api c nodes s = (s', Ok ranked) /\
  same_cluster api (world s) (world s') /\
  ranked ≡ₚ filter (fun n => Is_true (pod_count_admits (world s) c n)) nodes /\
  StronglySorted (key_le (pod_count_cost (world s) c)) ranked.
Proof.
  unfold pod_count_rank_nodes. rewrite M_bind_run.
  destruct (check_nodes_spec c nodes [] s) as (s' & -> & Hs). rewrite app_nil_l.
  eexists s', _. split; [done|]. split; [done|]. split.
  - rewrite sort_by_perm, <- list_fmap_compose. by rewrite (list_fmap_ext _ id), list_fmap_id.
  - apply sorted_fst; [|apply sort_by_sorted]. rewrite sort_by_perm, Forall_fmap.
    by apply Forall_forall.
Qed.

#[export] Program Instance PodCountLaws :
  @EnforcerLaws W PodCountConstraint api _ (PodCountConstraint_enforcer api) :=
  {| admits := pod_count_admits; cost := pod_count_cost; rank_nodes_spec := pod_count_rank_spec |}.
Next Obligation. intros w w' H c ? <- n ? <-. unfold pod_count_admits. by rewrite H. Qed.
Next Obligation. intros w w' H c ? <- n ? <-. unfold pod_count_cost. by rewrite H. Qed.
End PodCountLaws.

(** ** The pipeline, against the interface *)

Section Pipeline.
Context {W E : Type} (api : KubeApi W) `{!KubeReads api} `{!ConstraintEnforcer W E}.
Context `{!EnforcerLaws api}.

Definition admitted (w : W) (es : list E) (n : V1Node) : bool :=
  forallb (fun e => admits w e n) es.

Lemma admitted_proper w w' es n : same_cluster api w w' -> admitted w es n = admitted w' es n.
Proof. intros H. induction es as [|e es IH]; [done|]. unfold admitted in *. cbn. by rewrite IH, H. Qed.

(** [l] is in the order the last of [es] ranks, or as given when there is
    none. *)
Definition ranked_by (w : W) (es : list E) (l0 l : list V1Node) : Prop :=
  match last es with
  | Some e => StronglySorted (key_le (cost w e)) l
  | None => l = l0
  end.

Lemma apply_enforcers_spec es : forall nodes s, nodes <> [] -> exists s' r,
  apply_enforcers es nodes s = (s', Ok r) /\ same_cluster api (world s) (world s') /\
  match r with
  | None => filter (fun n => Is_true (admitted (world s) es n)) nodes = []
  | Some l => l <> [] /\ l ≡ₚ filter (fun n => Is_true (admitted (world s) es n)) nodes /\
              ranked_by (world s) es nodes l
  end.
Proof.
  induction es as [|e es IH]; intros nodes s Hne; cbn [apply_enforcers].
  - exists s, (Some nodes). split_and!; try done. by rewrite filter_all.
  - rewrite M_bind_run.
    destruct (rank_nodes_spec e nodes s) as (s1 & ranked & -> & Hs1 & Hperm & Hsort).
    assert (forall l, l ≡ₚ filter (fun n => Is_true (admitted (world s1) es n)) ranked ->
                      l ≡ₚ filter (fun n => Is_true (admitted (world s) (e :: es) n)) nodes) as Hstep.
    { intros l ->. rewrite Hperm, list_filter_filter.
      rewrite (list_filter_iff _ (fun n => Is_true (admitted (world s) (e :: es) n))); [done|].
      intros n. rewrite <- (admitted_proper _ _ es n Hs1).
      change (admitted (world s) (e :: es) n) with (admits (world s) e n && admitted (world s) es n).
      rewrite andb_True. tauto. }
    destruct ranked as [|n0 ranked].
    + exists s1, None. split_and!; [done..|]. specialize (Hstep [] ltac:(by rewrite filter_nil)).
      by apply Permutation_nil in Hstep.
    + destruct (IH (n0 :: ranked) s1 ltac:(done)) as (s' & r & -> & Hs' & Hr).
      exists s', r. split; [done|]. split; [by etransitivity|]. destruct r as [l|].
      * destruct Hr as (Hl & Hp & Hrank). split; [done|]. split; [by apply Hstep|].
        unfold ranked_by in *. rewrite last_cons. destruct (last es) as [e'|] eqn:He.
        -- eapply StronglySorted_weaken; [|exact Hrank]. intros a b. unfold key_le. by rewrite Hs1.
        -- by subst l.
      * specialize (Hstep [] ltac:(by rewrite Hr)). by apply Permutation_nil in Hstep.
Qed.

(** A node the scheduler may choose. *)
Definition eligible (w : W) (es : list E) (n : V1Node) : bool :=
  is_node_schedulable n && admitted w es n.

Lemma eligible_filter w es (nodes : list V1Node) :
  filter (fun n => Is_true (admitted w es n)) (filter (fun n => Is_true (is_node_schedulable n)) nodes) =
  filter (fun n => Is_true (eligible w es n)) nodes.
Proof.
  rewrite list_filter_filter. apply list_filter_iff. intros n.
  unfold eligible. rewrite andb_True. tauto.
Qed.

Lemma select_node_spec (p : PodScheduler E) s nodes :
  nodes_at (world s) (label_selector_text (node_selector (config p))) = Ok nodes ->
  let good := filter (fun n => Is_true (eligible (world s) (enforcers p) n)) (default [] nodes) in
  exists s' r, select_node api p s = (s', Ok r) /\ same_cluster api (world s) (world s') /\
    ((good = [] /\ r = None) \/
     (exists n, n ∈ good /\ r = node_name n /\
        forall e m, last (enforcers p) = Some e -> m ∈ good -> cost (world s) e n <= cost (world s) e m)).
Proof.
  intros Hn good. unfold select_node, get_all_nodes. rewrite M_bind_run.
  destruct (list_nodes_spec api (node_selector (config p)) s) as (s1 & -> & Hs1).
  rewrite Hn. cbn [fmap res_fmap].
  assert (good = filter (fun n => Is_true (admitted (world s1) (enforcers p) n))
                   (filter (fun n => Is_true (is_node_schedulable n)) (default [] nodes))) as Hgood.
  { unfold good. rewrite <- eligible_filter. apply list_filter_iff. intros n.
    by rewrite (admitted_proper _ _ _ _ Hs1). }
  destruct (filter (fun n => Is_true (is_node_schedulable n)) (default [] nodes)) as [|n0 sched] eqn:Hsched.
  - exists s1, None. split_and!; [done..|]. left. by rewrite Hgood.
  - rewrite M_bind_run.
    destruct (apply_enforcers_spec (enforcers p) (n0 :: sched) s1 ltac:(done)) as (s' & r & -> & Hs' & Hr).
    rewrite <- Hgood in Hr.
    exists s'. eexists. split; [done|]. split; [by etransitivity|].
    destruct r as [[|n l]|]; [naive_solver| |by left].
    destruct Hr as (_ & Hp & Hrank). right. exists n.
    split_and!; [rewrite <- Hp; left | done |].
    intros e m He Hm. unfold ranked_by in Hrank. rewrite He in Hrank.
    rewrite <- Hp in Hm. rewrite Hs1. change (key_le (cost (world s1) e) n m).
    eapply StronglySorted_head; [intros x; unfold key_le; lia | exact Hrank | exact Hm].
Qed.
End Pipeline.

(** ** Schedulable nodes

    A node may take pods when it is not cordoned, has no taint that evicts
    pods, and reports no [Ready] condition other than true. *)

Definition schedulable (n : V1Node) : Prop :=
  (forall s, node_spec n = Some s ->
     unschedulable s <> Some true /\
     forall ts t, taints s = Some ts -> t ∈ ts -> taint_effect t <> "NoExecute") /\
  (forall cs c, node_conditions n = Some (Some cs) -> c ∈ cs -> cond_type c = "Ready" -> cond_status c = "True").

Lemma node_ready_spec n : node_ready n = true <->
  forall cs c, node_conditions n = Some (Some cs) -> c ∈ cs -> cond_type c = "Ready" -> cond_status c = "True".
Proof.
  unfold node_ready. destruct (node_conditions n) as [[cs|]|]; [|naive_solver..].
  rewrite forallb_forall. split.
  - intros H cs' c [= <-] Hc Ht. apply list_elem_of_In, H in Hc.
    apply negb_true_iff, andb_false_iff in Hc as [Hc|Hc]; apply bool_decide_eq_false in Hc; [done|].
    by apply dec_stable.
  - intros H c Hc%list_elem_of_In. apply negb_true_iff, andb_false_iff.
    destruct (decide (cond_type c = "Ready")) as [Ht|Ht]; [right|left]; apply bool_decide_eq_false; [|done].
    intros Hs. apply Hs. by eapply H.
Qed.

Lemma node_tolerable_spec s : node_tolerable s = true <->
  forall ts t, taints s = Some ts -> t ∈ ts -> taint_effect t <> "NoExecute".
Proof.
  unfold node_tolerable. destruct (taints s) as [ts|]; [|naive_solver].
  rewrite forallb_forall. split.
  - intros H ts' t [= <-] Ht He. apply list_elem_of_In, H in Ht.
    apply negb_true_iff, bool_decide_eq_false in Ht. apply Ht. rewrite He. by apply list_elem_of_singleton.
  - intros H t Ht%list_elem_of_In. apply negb_true_iff, bool_decide_eq_false.
    rewrite list_elem_of_singleton. by eapply H.
Qed.

Lemma is_node_schedulable_spec n : is_node_schedulable n = true <-> schedulable n.
Proof.
  unfold is_node_schedulable, schedulable. destruct (node_spec n) as [s|].
  - rewrite !andb_true_iff, node_ready_spec, node_tolerable_spec, negb_true_iff.
    assert (Hu : default false (unschedulable s) = false <-> unschedulable s <> Some true)
      by (destruct (unschedulable s) as [[]|]; naive_solver).
    rewrite Hu. split; [intros [[] ?]; split; [intros s' [= <-]; done | done]|].
    intros [H1 H2]. destruct (H1 s eq_refl). done.
  - rewrite node_ready_spec. naive_solver.
Qed.

(** ** The scheduler the front end builds *)

Section Deployed.
Context {W : Type} (api : KubeApi W) `{!KubeReads api}.
#[local] Instance deployed_enforcer : ConstraintEnforcer W PodCountConstraint :=
  PodCountConstraint_enforcer api.
#[local] Instance deployed_laws : EnforcerLaws api := PodCountLaws api.

(** A node that passes the basic checks and has room under every limit. *)
Definition has_room (w : W) (p : PodScheduler PodCountConstraint) (n : V1Node) : Prop :=
  schedulable n /\
  Forall (fun c => exists k, active_count api w n = Some k /\ (Z.of_nat k < max_pods c)%Z) (enforcers p).

Lemma pod_count_room w c n :
  admits w c n = true <-> exists k, active_count api w n = Some k /\ (Z.of_nat k < max_pods c)%Z.
Proof.
  cbn. unfold pod_count_admits. destruct (active_count api w n) as [k|]; [|naive_solver].
  rewrite Z.ltb_lt. naive_solver.
Qed.

Lemma eligible_has_room w p n : Is_true (eligible api w (enforcers p) n) <-> has_room w p n.
Proof.
  unfold eligible, has_room. rewrite andb_True, !Is_true_true, is_node_schedulable_spec. apply and_iff_compat_l.
  induction (enforcers p) as [|c es IH]; [done|].
  change (admitted api w (c :: es) n) with (admits w c n && admitted api w es n).
  by rewrite andb_true_iff, Forall_cons, IH, pod_count_room.
Qed.

Lemma select_node_room (p : PodScheduler PodCountConstraint) s nodes :
  nodes_at (world s) (label_selector_text (node_selector (config p))) = Ok nodes ->
  exists s' r, select_node api p s = (s', Ok r) /\
    (((forall n, n ∈ default [] nodes -> ~ has_room (world s) p n) /\ r = None) \/
     (exists n, n ∈ default [] nodes /\ has_room (world s) p n /\ r = node_name n)).
Proof.
  intros Hn. destruct (select_node_spec api p s nodes Hn) as (s' & r & Hsel & _ & Hr).
  exists s', r. split; [done|]. destruct Hr as [[Hnil ->]|(n & Hin & -> & _)].
  - left. split; [|done]. intros n Hin Hroom.
    eapply (filter_nil_not_elem_of _ _ n); [exact Hnil | by apply eligible_has_room | done].
  - right. exists n. apply list_elem_of_filter in Hin as [Hel Hin].
    split; [done|]. split; [by apply eligible_has_room|done].
Qed.

(** Whenever the nodes can be listed, [select_node] returns without error
    and without changing the cluster. It answers [None] when no listed node is
    schedulable with room under every pod limit; otherwise it answers the name
    of such a node, and no other such node has fewer active pods (when a limit
    is configured). Nodes whose pods cannot be listed are never chosen then. *)
Theorem select_node_best (p : PodScheduler PodCountConstraint) s nodes :
  nodes_at (world s) (label_selector_text (node_selector (config p))) = Ok nodes ->
  exists s' r, select_node api p s = (s', Ok r) /\ same_cluster api (world s) (world s') /\
    (((forall n, n ∈ default [] nodes -> ~ has_room (world s) p n) /\ r = None) \/
     (exists n, n ∈ default [] nodes /\ has_room (world s) p n /\ r = node_name n /\
        (enforcers p <> [] -> forall m, m ∈ default [] nodes -> has_room (world s) p m ->
           default 0 (active_count api (world s) n) <= default 0 (active_count api (world s) m)))).
Proof.
  intros Hn. destruct (select_node_spec api p s nodes Hn) as (s' & r & Hsel & Hs & Hr).
  exists s', r. split; [done|]. split; [done|]. destruct Hr as [[Hnil ->]|(n & Hin & -> & Hmin)].
  - left. split; [|done]. intros n Hin Hroom.
    eapply (filter_nil_not_elem_of _ _ n); [exact Hnil | by apply eligible_has_room | done].
  - right. exists n. apply list_elem_of_filter in Hin as [Hel Hin]. split; [done|].
    split; [by apply eligible_has_room|]. split; [done|]. intros Hne m Hm Hroom.
    destruct (last (enforcers p)) as [c|] eqn:Hlast; [|by apply last_None in Hlast].
    apply (Hmin c m eq_refl). apply list_elem_of_filter. split; [by apply eligible_has_room|done].
Qed.
End Deployed.

(** ** Configured limits *)

(** Building the enforcers never fails: exactly the valid entries of the
    configured constraints are kept, in order, and every kept limit is a
    positive pod count. *)
Theorem create_enforcers_valid (cs : list (string * string)) :
  create_enforcers cs =
    Ok (omap (fun kv => match create_enforcer kv.1 kv.2 with Ok c => Some c | Err _ => None end) cs) /\
  (forall es, create_enforcers cs = Ok es -> Forall (fun c => (0 < max_pods c)%Z) es) /\
  (forall v n, create_enforcer "POD_COUNT" v = Ok {| max_pods := n |} <-> py_int v = Ok n /\ (0 < n)%Z).
Proof.
  assert (forall t v, (exists c, create_enforcer t v = Ok c /\ (0 < max_pods c)%Z) \/
                      (exists msg, create_enforcer t v = Err (ValueError msg))) as Hcase.
  { intros t v. unfold create_enforcer. case_decide; [|eauto].
    unfold py_int. set (o := match strip v with "" => _ | _ => _ end).
    destruct o as [n|]; cbn; [|eauto]. destruct (Z.leb_spec n 0); [eauto|left; eexists; split; [done|done]]. }
  assert (create_enforcers cs =
    Ok (omap (fun kv => match create_enforcer kv.1 kv.2 with Ok c => Some c | Err _ => None end) cs)) as Heq.
  { induction cs as [|[t v] cs IH]; [done|]. cbn.
    destruct (Hcase t v) as [(c & -> & _)|(msg & ->)]; by rewrite IH. }
  split; [exact Heq|]. split.
  - intros es. rewrite Heq. intros [= <-]. apply Forall_forall. intros c Hin. apply list_elem_of_omap in Hin as ([t v] & _ & Hkv). cbn in Hkv.
    destruct (Hcase t v) as [(c' & Hc & Hpos)|(msg & Hc)]; rewrite Hc in Hkv; [|done].
    by injection Hkv as <-.
  - intros v n. unfold create_enforcer. rewrite decide_True by done.
    destruct (py_int v) as [k|[]]; try (split; [done | naive_solver]).
    destruct (Z.leb_spec k 0); naive_solver lia.
Qed.

(** ** On the in-memory server *)

#[export] Program Instance kw_reads : KubeReads kw_api :=
  {| nodes_at w sel := Ok (Some (kw_nodes w)); pods_at w sel := Ok (dict_lookup sel (kw_pods w)) |}.
Solve Obligations with done.

(** Three nodes: one cordoned and empty, one with two active pods and a
    finished one, one with a single active pod. *)
Definition demo_node (name : string) (cordoned : bool) : V1Node :=
  {| node_metadata_name := Some (Some name);
     node_spec := Some {| unschedulable := Some cordoned; taints := Some [{| taint_effect := "NoSchedule" |}] |};
     node_conditions := Some (Some [{| cond_type := "Ready"; cond_status := "True" |}]) |}.

Definition demo_pod (phase : string) : V1Pod := {| pod_name := "p"; pod_phase := Some (Some phase) |}.

Definition demo_cluster : KW :=
  {| kw_maps := ∅; kw_apps := ∅; kw_status := ∅; kw_annotations := ∅; kw_events := [];
     kw_nodes := [demo_node "vn-0" true; demo_node "vn-1" false; demo_node "vn-2" false];
     kw_pods := [("spec.nodeName=vn-1", [demo_pod "Running"; demo_pod "Pending"; demo_pod "Succeeded"]);
                 ("spec.nodeName=vn-2", [demo_pod "Running"])];
     kw_hooks := ∅; kw_now := 0%Z; kw_files := [] |}.

Definition demo_scheduler : PodScheduler PodCountConstraint :=
  {| config := default_SchedulerSettings; enforcers := [{| max_pods := 25 |}] |}.

Example demo_scheduler_configured : new_pod_scheduler default_SchedulerSettings = Ok demo_scheduler.
Proof. reflexivity. Qed.

Definition demo_fe : FE KW := MkFE demo_cluster [].

Lemma select_node_best_witness :
  (select_node (ConstraintEnforcer0 := deployed_enforcer kw_api) kw_api demo_scheduler demo_fe).2 = Ok (Some "vn-2") /\
  exists s' r, select_node (ConstraintEnforcer0 := deployed_enforcer kw_api) kw_api demo_scheduler demo_fe = (s', Ok r) /\
    same_cluster kw_api demo_cluster (world s') /\ r = Some "vn-2".
Proof.
  split; [vm_compute; reflexivity|].
  destruct (select_node_best kw_api (KubeReads0 := kw_reads) demo_scheduler demo_fe (Some (kw_nodes demo_cluster)) eq_refl)
    as (s' & r & H1 & H2 & _).
  exists s', r. split; [exact H1|]. split; [exact H2|].
  pose proof (f_equal snd H1) as H3. vm_compute in H3. injection H3 as H3. by symmetry.
Defined.
