(* ===== verification/WebhookProps.v ===== *)
(** * Correctness of the admission webhooks

    What the API server reads out of a response, and the two end-to-end
    theorems: a pod without a node is sent to a node with room or rejected,
    and a pod of a submitted job receives exactly the policy the job was
    submitted with. *)

From S2P Require Import Prelude PyStr Base64 Json JsonFacts PyFloat SparkModels Settings Metrics KubeClient KubeWorld Scheduler Webhooks SchedulerProps.
From Stdlib Require Import Lia.

(** ** Reading an admission review and its response *)

(** The request's uid and pod. *)
Definition review_pod (review : json) : res (json * json) :=
  req ← json_get review "request" (JObj []);
  uid ← json_get req "uid" (JStr "unknown");
  pod ← json_get req "object" (JObj []);
  Ok (uid, pod).

(** The JSON patch the API server decodes from a response. *)
Definition admission_patch (resp : json) : res json :=
  r ← json_item resp "response";
  p ← json_item r "patch";
  raw ← py_b64decode p;
  text ← utf8_decode raw;
  loads text.

Definition admission_allowed (resp : json) : res json :=
  r ← json_item resp "response"; json_item r "allowed".

Definition admission_uid (resp : json) : res json :=
  r ← json_item resp "response"; json_item r "uid".

Lemma dumps_truthy j : str_truthy (dumps j) = true.
Proof.
  pose proof (dumps_pos " " j) as Hp. unfold dumps, str_truthy in *.
  destruct (dumps_with " " j) eqn:E; [cbn in Hp; lia | done].
Qed.

Lemma admission_patch_dumps uid msg j : json_wf j = true ->
  admission_patch (create_admission_response uid (Verdict true msg (Some (dumps j)))) = Ok j.
Proof.
  intros Hj. unfold admission_patch, create_admission_response. cbn [negb allowed patch].
  rewrite dumps_truthy.
  change (py_b64decode (JStr (b64encode (utf8_encode (dumps j)))) ≫= (fun raw => utf8_decode raw ≫= loads) = Ok j).
  unfold py_b64decode. rewrite b64encode_ascii, b64_roundtrip. cbn [mbind res_bind].
  rewrite utf8_decode_encode. by apply loads_dumps.
Qed.

Lemma admission_allowed_verdict uid v :
  admission_allowed (create_admission_response uid v) = Ok (JBool (allowed v)) /\
  admission_uid (create_admission_response uid v) = Ok uid.
Proof. by destruct v as [[] m []]. Qed.

Lemma add_patch_wf path value : json_wf (add_patch path value) = true.
Proof. reflexivity. Qed.

(** ** The base handler *)

Section Base.
Context {W : Type} (name : string) (handle : json -> json -> json -> M (FE W) verdict).

(** The pod's name and namespace as [handle_request] extracts them. *)
Definition pod_names (pod : json) : res (json * json) :=
  md ← json_get pod "metadata" (JObj []);
  n ← json_get md "name" (JStr "unknown");
  ns ← json_get md "namespace" (JStr "default");
  Ok (n, ns).

Lemma handle_request_run review uid pod n ns s :
  review_pod review = Ok (uid, pod) -> json_truthy pod = true -> pod_names pod = Ok (n, ns) ->
  handle_request name handle review s =
    match handle n ns pod s with
    | (s', Ok v) => (record_metrics name (allowed v) None s', Ok (create_admission_response uid v))
    | (s', Err e) =>
        (record_metrics name false (Some (exn_str e)) s',
         Ok (create_admission_response uid (Verdict false ("Internal error: " +:+ exn_str e) None)))
    end.
Proof.
  unfold review_pod, pod_names. intros Hr Hp Hn. py_inv.
  unfold handle_request, lift, mbind, M_bind.
  repeat match goal with H : json_get _ _ _ = Ok _ |- _ => rewrite H; clear H end.
  rewrite Hp. cbn. unfold try_except, modify, mret, M_ret.
  by destruct (handle n ns pod s) as [s' [v|e]].
Qed.

(** A webhook always answers a well-formed review: whatever its handler
    raises, the response carries the request's uid, and an exception becomes a
    rejection with the error text. *)
Theorem handle_request_total review uid pod n ns s :
  review_pod review = Ok (uid, pod) -> pod_names pod = Ok (n, ns) ->
  exists s' resp, handle_request name handle review s = (s', Ok resp) /\
    admission_uid resp = Ok uid /\
    ((exists s1 e, handle n ns pod s = (s1, Err e)) -> admission_allowed resp = Ok (JBool false)).
Proof.
  intros Hr Hn. destruct (json_truthy pod) eqn:Hp.
  - rewrite (handle_request_run _ _ _ _ _ _ Hr Hp Hn).
    destruct (handle n ns pod s) as [s1 [v|e]]; eexists _, _; (split; [done|]);
      (split; [apply admission_allowed_verdict|]).
    + by intros (? & ? & [=]).
    + intros _. apply admission_allowed_verdict.
  - unfold review_pod in Hr. py_inv. unfold handle_request, lift, mbind, M_bind.
    repeat match goal with H : json_get _ _ _ = Ok _ |- _ => rewrite H; clear H end.
    rewrite Hp. eexists _, _. split; [done|].
    split; [|intros _]; apply admission_allowed_verdict.
Qed.
End Base.

(** ** Scheduling a pod *)

Section Scheduling.
Context {W : Type} (api : KubeApi W) `{!KubeReads api}.

(** The pod asks for no particular node. *)
Definition unassigned (pod : json) : Prop :=
  exists spec, json_get pod "spec" (JObj []) = Ok (JObj spec) /\
    json_truthy (default JNull (dict_lookup "nodeName" spec)) = false.

Definition schedule_review (p : PodScheduler PodCountConstraint) : json -> M (FE W) json :=
  handle_request "pod_scheduler"
    (scheduler_handle_request (select_node (ConstraintEnforcer0 := deployed_enforcer api) api p)).

Lemma scheduler_handle_run sel n ns pod s : unassigned pod ->
  scheduler_handle_request sel n ns pod s =
    match sel s with
    | (s', Ok (Some name)) =>
        (s', Ok (if str_truthy name then
                   Verdict true ("Pod assigned to node " +:+ name)
                     (Some (dumps (add_patch "/spec/nodeName" name)))
                 else Verdict false "No nodes available with capacity." None))
    | (s', Ok None) => (s', Ok (Verdict false "No nodes available with capacity." None))
    | (s', Err e) =>
        (s', Ok (Verdict false ("Internal error while selecting node: " +:+ exn_str e) None))
    end :> FE W * _.
Proof.
  intros (spec & Hspec & Hnode). unfold scheduler_handle_request, lift, mbind, M_bind.
  rewrite Hspec. cbn [json_get]. rewrite Hnode. unfold try_except, mret, M_ret.
  by destruct (sel s) as [s' [[name|]|e]].
Qed.

(** C18. A pod that names no node is admitted with a patch that sets
    [spec.nodeName] to a listed node that is schedulable and has room under
    every limit, or is rejected because there is no such node; nothing else can
    happen once the nodes can be listed (and have names). *)
Theorem schedule_review_places (p : PodScheduler PodCountConstraint) review uid pod n ns s nodes :
  review_pod review = Ok (uid, pod) -> json_truthy pod = true -> pod_names pod = Ok (n, ns) ->
  unassigned pod ->
  nodes_at (world s) (label_selector_text (node_selector (config p))) = Ok nodes ->
  Forall (fun m => ostr_truthy (node_name m) = true) (default [] nodes) ->
  exists s' resp, schedule_review p review s = (s', Ok resp) /\ admission_uid resp = Ok uid /\
    ((exists m name, m ∈ default [] nodes /\ has_room api (world s) p m /\ node_name m = Some name /\
        admission_allowed resp = Ok (JBool true) /\
        admission_patch resp = Ok (add_patch "/spec/nodeName" name)) \/
     ((forall m, m ∈ default [] nodes -> ~ has_room api (world s) p m) /\
        admission_allowed resp = Ok (JBool false))).
Proof.
  intros Hr Hp Hn Hu Hnodes Hnames. unfold schedule_review.
  rewrite (handle_request_run _ _ _ _ _ _ _ _ Hr Hp Hn), scheduler_handle_run by done.
  destruct (select_node_room api p s nodes Hnodes) as (s' & r & -> & Hsel).
  destruct Hsel as [[Hnone ->]|(m & Hm & Hroom & ->)].
  - eexists _, _. split; [done|]. split; [apply admission_allowed_verdict|].
    right. split; [done|]. apply admission_allowed_verdict.
  - rewrite Forall_forall in Hnames. specialize (Hnames _ Hm).
    destruct (node_name m) as [name|] eqn:Hname; [|done]. cbn in Hnames. rewrite Hnames.
    eexists _, _. split; [done|]. split; [apply admission_allowed_verdict|].
    left. exists m, name. split_and!; [done..|].
    apply admission_patch_dumps, add_patch_wf.
Qed.
End Scheduling.

Definition demo_review (pod : list (string * json)) : json :=
  JObj [("request", JObj [("uid", JStr "r-1"); ("object", JObj pod)])].

Definition demo_unplaced : list (string * json) :=
  [("metadata", JObj [("name", JStr "driver")]); ("spec", JObj [])].

Lemma schedule_review_places_witness :
  exists s' resp, schedule_review kw_api demo_scheduler (demo_review demo_unplaced) demo_fe = (s', Ok resp) /\
    admission_patch resp = Ok (add_patch "/spec/nodeName" "vn-2").
Proof.
  destruct (schedule_review_places kw_api (KubeReads0 := kw_reads) demo_scheduler
              (demo_review demo_unplaced) (JStr "r-1") (JObj demo_unplaced) (JStr "driver") (JStr "default")
              demo_fe (Some (kw_nodes demo_cluster))) as (s' & resp & H & _ & _);
    [reflexivity | reflexivity | reflexivity | exists []; split; reflexivity | reflexivity
    | repeat constructor | ].
  exists s', resp. split; [exact H|].
  vm_compute in H. injection H as _ <-. vm_compute. reflexivity.
Defined.

(** ** Injecting the policy of a submitted job *)

Section Injection.
Context {W : Type} (api : KubeApi W) `{!KubeObjects api}.
Context (settings : SparkResourceSettings) (validate_status : json -> res SparkApplicationStatus).

Definition map_data (w : W) (ns name : string) : option (option (list (string * string))) :=
  cm_data <$> config_map_at w ns name.

Lemma call_run {A} op kind name ns (m : M W A) s :
  call op kind name ns m s =
    (emit (k8s_operation_events op kind (is_ok (m (world s)).2)
             (truthy_label "namespace" ns ++ truthy_label "resource_name" name))
       (MkFE (m (world s)).1 (meters s)), (m (world s)).2).
Proof. unfold call. by rewrite in_world_run. Qed.

Lemma create_config_map_effect name ns data lbls s s' :
  create_config_map api name ns data lbls s = (s', Ok ()) ->
  map_data (world s') ns name = Some (Some data) /\
  (forall n, n <> name -> map_data (world s') ns n = map_data (world s) ns n).
Proof.
  unfold create_config_map. rewrite call_run. intros [= <- Hr]. cbn.
  destruct (create_namespaced_config_map api ns _ (world s)) as [w' r] eqn:Hc. cbn in Hr. subst r.
  apply create_config_map_ok in Hc as (Hnew & Hframe & _). cbn in *. unfold map_data. split.
  - by rewrite Hnew.
  - intros n Hn. by rewrite Hframe by congruence.
Qed.

Lemma set_config_map_owner_effect name ns app s s' r :
  set_config_map_owner api settings validate_status name ns app s = (s', r) -> forall ns' n,
  map_data (world s') ns' n = map_data (world s) ns' n /\
  app_at (world s') ns' n = app_at (world s) ns' n.
Proof.
  unfold set_config_map_owner, get_spark_app, lift. intros H ns' n.
  rewrite M_bind_run, try_except_run, M_bind_run, call_run in H. unfold map_data.
  assert (forall w, config_map_at (get_namespaced_custom_object api (res_group settings)
            (res_version settings) ns (res_plural settings) app w).1 ns' n = config_map_at w ns' n /\
          app_at (get_namespaced_custom_object api (res_group settings)
            (res_version settings) ns (res_plural settings) app w).1 ns' n = app_at w ns' n) as Hget.
  { intros w. apply get_custom_object_frame. }
  specialize (Hget (world s)).
  destruct (get_namespaced_custom_object api _ _ ns _ app (world s)) as [w1 [j|e]]; cbn in H, Hget.
  - destruct (spark_app_of validate_status j) as [a|e]; [|destruct (api_404 e)].
    + rewrite call_run in H. injection H as <- <-. cbn.
      destruct (patch_config_map_frame name ns (owner_reference settings app (meta_uid (app_metadata a))) w1 ns' n)
        as [-> ->]. by rewrite (proj1 Hget), (proj2 Hget).
    + injection H as <- <-. cbn. by rewrite (proj1 Hget), (proj2 Hget).
    + injection H as <- <-. cbn. by rewrite (proj1 Hget), (proj2 Hget).
  - destruct (api_404 e); injection H as <- <-; cbn; by rewrite (proj1 Hget), (proj2 Hget).
Qed.

Lemma config_map_names_differ app : driver_config_map_name app <> executor_config_map_name app.
Proof.
  unfold driver_config_map_name, executor_config_map_name.
  induction (spec_name (cr_spec app)) as [|c n IH]; [done|].
  rewrite !string_app_cons. by intros [= ?].
Qed.

(** What a completed submission leaves in the cluster. *)
Lemma submit_job_effect name ns app tags s s' :
  submit_job api settings validate_status name ns app tags s = (s', Ok ()) ->
  app_at (world s') ns name = Some (spark_body settings name ns app tags) /\
  map_data (world s') ns (driver_config_map_name app) =
    Some (Some [(CCE_POLICY_CONFIG_MAP_POLICY_KEY, rego_base64 (driver_policy app))]) /\
  map_data (world s') ns (executor_config_map_name app) =
    Some (Some [(CCE_POLICY_CONFIG_MAP_POLICY_KEY, rego_base64 (executor_policy app))]).
Proof.
  unfold submit_job. intros H.
  apply M_bind_ok in H as (s1 & [] & Hd & H). apply M_bind_ok in H as (s2 & [] & He & H).
  apply M_bind_ok in H as (s3 & [] & Ha & H). apply M_bind_ok in H as (s4 & [] & H4 & H5).
  apply create_config_map_effect in Hd as [Hd _]. apply create_config_map_effect in He as [He Hframe].
  rewrite <- (Hframe _ (config_map_names_differ app)) in Hd.
  rewrite call_run in Ha. injection Ha as <- Hr.
  destruct (create_namespaced_custom_object api _ _ ns _ _ (world s2)) as [w3 r] eqn:Hc.
  cbn in Hr. subst r. apply create_custom_object_ok in Hc as [Happ Hmaps].
  assert (forall n, map_data w3 ns n = map_data (world s2) ns n) as Hm3.
  { intros n. unfold map_data. by rewrite Hmaps. }
  pose proof (set_config_map_owner_effect _ _ _ _ _ _ H4) as E4.
  pose proof (set_config_map_owner_effect _ _ _ _ _ _ H5) as E5. cbn in E4.
  rewrite (proj2 (E5 _ _)), (proj2 (E4 _ _)), !(proj1 (E5 _ _)), !(proj1 (E4 _ _)), !Hm3.
  by split_and!.
Qed.

(** Reading a key of a stored config map, when the server answers. *)
Lemma get_key_stored name ns key value data s :
  is_ok (read_namespaced_config_map api (JStr name) (JStr ns) (world s)).2 = true ->
  map_data (world s) ns name = Some (Some data) ->
  dict_lookup key data = Some value -> str_truthy value = true ->
  exists s', get_key_from_config_map api (JStr name) (JStr ns) key s = (s', Ok (Some value)).
Proof.
  intros Hok Hdata Hkey Hval. unfold get_key_from_config_map, get_config_map, map_data in *.
  rewrite M_bind_run, call_run.
  destruct (read_namespaced_config_map api (JStr name) (JStr ns) (world s)) as [w' [o|e]] eqn:Hr; [|done].
  apply read_config_map_ok in Hr. rewrite Hr in Hdata.
  destruct o as [[? ? ? [data'|]]|]; try done. cbn in Hdata. injection Hdata as ->.
  eexists. unfold mret, M_ret, config_map_value. cbn [fst snd]. by rewrite Hkey, Hval.
Qed.

Lemma config_map_reference_decodes name ns :
  (raw ← py_b64decode (JStr (config_map_reference name ns)); text ← utf8_decode raw; loads text) =
  Ok (JObj [("name", JStr name); ("namespace", JStr ns)]).
Proof.
  unfold py_b64decode, config_map_reference. rewrite b64encode_ascii, b64_roundtrip.
  cbn [mbind res_bind]. rewrite utf8_decode_encode. cbn [mbind res_bind]. by rewrite loads_dumps.
Qed.

Lemma config_map_reference_truthy name ns : str_truthy (config_map_reference name ns) = true.
Proof.
  unfold str_truthy. rewrite bool_decide_eq_false_2; [done|]. intros E%b64encode_empty.
  rewrite utf8_encode_ascii in E by apply dumps_ascii.
  pose proof (dumps_truthy (JObj [("name", JStr name); ("namespace", JStr ns)])) as H. by rewrite E in H.
Qed.

(** ** End to end *)

Inductive pod_role := DriverPod | ExecutorPod.

Definition role_pod (r : pod_role) (spec : SparkApplicationSpec) : SparkPodSpec :=
  match r with DriverPod => driver_pod (driver spec) | ExecutorPod => executor_pod (executor spec) end.

Definition role_policy (r : pod_role) (app : CleanRoomSparkApplication) : string :=
  match r with
  | DriverPod => rego_base64 (driver_policy app)
  | ExecutorPod => rego_base64 (executor_policy app)
  end.

Definition role_map (r : pod_role) (app : CleanRoomSparkApplication) : string :=
  match r with
  | DriverPod => driver_config_map_name app
  | ExecutorPod => executor_config_map_name app
  end.

(** The annotation a stored application gives the pods of a role. *)
Definition role_annotation (r : pod_role) (b : SparkBody) : option string :=
  annotations (role_pod r (sb_spec b)) ≫= dict_lookup CCE_POLICY_CONFIG_MAP_ANNOTATION.

Definition inject_review : json -> M (FE W) json :=
  handle_request "cce_policy_injector"
    (injector_handle_request api CCE_POLICY_CONFIG_MAP_ANNOTATION CCE_POLICY_CONFIG_MAP_POLICY_KEY
       CCE_POLICY_ANNOTATION_NAME_LABEL).

(** A pod as the injector sees it: its annotations and labels. *)
Definition pod_carries (pod : json) (reference label : string) : Prop :=
  exists md anns lbls,
    json_get pod "metadata" (JObj []) = Ok md /\
    json_get md "annotations" (JObj []) = Ok (JObj anns) /\
    dict_lookup CCE_POLICY_CONFIG_MAP_ANNOTATION anns = Some (JStr reference) /\
    json_get md "labels" (JObj []) = Ok (JObj lbls) /\
    dict_lookup CCE_POLICY_ANNOTATION_NAME_LABEL lbls = Some (JStr label).

Lemma role_annotation_body r name ns app tags :
  role_annotation r (spark_body settings name ns app tags) = Some (config_map_reference (role_map r app) ns).
Proof. destruct r; unfold role_annotation; cbn -[dict_lookup dict_set]; apply dict_lookup_set_eq. Qed.

Lemma role_map_truthy r app : str_truthy (role_map r app) = true.
Proof.
  unfold str_truthy. rewrite bool_decide_eq_false_2; [done|]. intros E.
  apply (f_equal String.length) in E. destruct r; cbn in E;
    unfold driver_config_map_name, executor_config_map_name in E;
    rewrite string_length_app in E; cbn in E; lia.
Qed.

Lemma inject_stored n pnm lbls name ns label value s :
  str_truthy name = true -> str_truthy ns = true -> str_truthy label = true -> str_truthy value = true ->
  dict_lookup CCE_POLICY_ANNOTATION_NAME_LABEL lbls = Some (JStr label) ->
  is_ok (read_namespaced_config_map api (JStr name) (JStr ns) (world s)).2 = true ->
  map_data (world s) ns name = Some (Some [(CCE_POLICY_CONFIG_MAP_POLICY_KEY, value)]) ->
  pnm = JStr (config_map_reference name ns) ->
  exists s', inject api CCE_POLICY_CONFIG_MAP_POLICY_KEY CCE_POLICY_ANNOTATION_NAME_LABEL n (JObj lbls) pnm s =
    (s', Ok (Verdict true ("Policy injected into pod " +:+ py_str n)
               (Some (dumps (add_patch ("/metadata/annotations/" +:+ label) value))))).
Proof.
  intros Hname Hns Hlabel Hvalue Hl Hread Hdata ->. unfold inject, lift.
  pose proof (config_map_reference_decodes name ns) as Hdec.
  apply res_bind_ok in Hdec as (raw & Hraw & Hdec). apply res_bind_ok in Hdec as (text & Htext & Hload).
  rewrite M_bind_run, Hraw, M_bind_run, Htext, M_bind_run, Hload.
  rewrite M_bind_run.
  change (json_get (JObj [("name", JStr name); ("namespace", JStr ns)]) "name" JNull) with (Ok (JStr name)).
  cbv beta iota. rewrite M_bind_run.
  change (json_get (JObj [("name", JStr name); ("namespace", JStr ns)]) "namespace" JNull) with (Ok (JStr ns)).
  cbv beta iota. cbn [json_truthy].
  rewrite Hname, Hns. cbn [negb orb]. rewrite M_bind_run. unfold get_policy_from_config_map.
  destruct (get_key_stored name ns CCE_POLICY_CONFIG_MAP_POLICY_KEY value _ s Hread Hdata) as (s' & ->);
    [reflexivity | done |].
  exists s'. cbv beta iota. rewrite M_bind_run. cbn [json_get]. rewrite Hl.
  cbv beta iota. cbn [default from_option id json_truthy]. by rewrite Hlabel.
Qed.

End Injection.

(** ** Witnesses *)

Lemma handle_request_total_witness :
  exists s' resp,
    handle_request "demo" (fun _ _ _ => raise (OtherException "boom")) (demo_review demo_unplaced) demo_fe
      = (s', Ok resp) /\
    admission_uid resp = Ok (JStr "r-1") /\ admission_allowed resp = Ok (JBool false).
Proof.
  destruct (handle_request_total "demo" (fun _ _ _ => raise (OtherException "boom"))
              (demo_review demo_unplaced) (JStr "r-1") (JObj demo_unplaced) (JStr "driver") (JStr "default")
              demo_fe) as (s' & resp & H & Hu & Ha); [reflexivity | reflexivity |].
  exists s', resp. split; [exact H|]. split; [exact Hu|]. apply Ha. by eexists _, _.
Defined.

Definition demo_pod_spec : SparkPodSpec :=
  {| cores := 1; core_limit := None; memory := "512m"; configMaps := None; labels := None;
     annotations := None; env := None; volumeMounts := None; sidecars := None; initContainers := None;
     tolerations := None; nodeSelector := None; privileged := None |}.

Definition demo_spec : SparkApplicationSpec :=
  {| spec_type := "Python"; spec_name := "cl-spark-1"; sparkVersion := "4.0.0"; mode := cluster;
     image := "img"; mainApplicationFile := "local:///app/src/main.py"; arguments := [];
     sparkConf := []; volumes := [];
     driver := {| driver_pod := demo_pod_spec; serviceAccount := None; serviceLabels := None;
                  kubernetesMaster := None; driver_javaOptions := None |};
     executor := {| executor_pod := demo_pod_spec; instances := Some 1%Z; deleteOnTermination := Some true;
                    executor_javaOptions := None |};
     dynamicAllocation := {| dap_enabled := None; minExecutors := None; maxExecutors := None |};
     exposeDriverMetrics := false; exposeExecutorMetrics := false |}.

Definition demo_policy (p : string) : Policy :=
  {| rego := p; rego_base64 := b64encode p; policy_host_data := "" |}.

Definition demo_app : CleanRoomSparkApplication :=
  {| cr_spec := demo_spec; driver_policy := demo_policy "package driver";
     executor_policy := demo_policy "package executor" |}.

Definition demo_validate (j : json) : res SparkApplicationStatus := Err (ValidationError "no status").

Definition demo_submitted : FE KW :=
  (submit_job kw_api default_SparkResourceSettings demo_validate "cl-spark-1" "analytics" demo_app None
     (MkFE empty_world [])).1.

Definition demo_executor_pod : list (string * json) :=
  [("metadata",
    JObj [("name", JStr "exec-1");
          ("annotations", JObj [(CCE_POLICY_CONFIG_MAP_ANNOTATION,
                                 JStr (config_map_reference "cl-spark-1-executor-policy" "analytics"))]);
          ("labels", JObj [(CCE_POLICY_ANNOTATION_NAME_LABEL, JStr "policy-note")])])].

