(* ===== verification/JobModels.v ===== *)
(** * Job record models

    [models/job_record_models.py]: the runs of a query, the summary that is
    accumulated over them and the [JobRecord] custom resource.  A pydantic
    constructor that can fail its validators is a function to [res]. *)

From S2P Require Import Prelude PyStr Json PyFloat SparkModels.
From Stdlib Require Import Lia.

Record JobRunError := { err_code : string; err_message : string }.

(** [JobRunError.from_state]: an absent or empty message is replaced. *)
Definition JobRunError_from_state (st : ApplicationStateEnum) (error_message : option string)
  : JobRunError :=
  {| err_code := error_code_value (SparkErrorCode_from_state st);
     err_message := match error_message with
                    | Some m => if str_truthy m then m
                                else "Spark job terminated with state: " +:+ state_value st
                    | None => "Spark job terminated with state: " +:+ state_value st
                    end |}.

Record JobRunStats := { rows_read : Z; rows_written : Z }.

Record JobRun := {
  run_id : string;
  start_time : option datetime;
  end_time : option datetime;
  is_successful : bool;
  run_error : option JobRunError;
  run_stats : option JobRunStats
}.

#[export] Instance JobRunError_eq_dec : EqDecision JobRunError.
Proof. solve_decision. Defined.
#[export] Instance JobRunStats_eq_dec : EqDecision JobRunStats.
Proof. solve_decision. Defined.
#[export] Instance JobRun_eq_dec : EqDecision JobRun.
Proof. solve_decision. Defined.

(** [JobRun.validate_times]: raises unless the run ends after it starts. *)
Definition times_valid (r : JobRun) : bool :=
  match start_time r, end_time r with
  | Some s, Some e => negb (e <? s)%Z
  | _, _ => true
  end.

Definition validate_times (r : JobRun) : res JobRun :=
  if times_valid r then Ok r else Err (ValidationError "end_time must be after start_time").

Definition duration_seconds (r : JobRun) : float :=
  match start_time r, end_time r with
  | Some s, Some e => total_seconds s e
  | _, _ => float_zero
  end.

Record JobRecordSummary := {
  total_runs : Z;
  successful_runs : Z;
  failed_runs : Z;
  total_runtime_seconds : float;
  avg_duration_seconds : float;
  total_rows_read : Z;
  total_rows_written : Z
}.

(** [JobRecordSummary()] *)
Definition empty_summary : JobRecordSummary :=
  {| total_runs := 0; successful_runs := 0; failed_runs := 0;
     total_runtime_seconds := float_zero; avg_duration_seconds := float_zero;
     total_rows_read := 0; total_rows_written := 0 |}.

Definition accumulate (s : JobRecordSummary) (run : JobRun) : JobRecordSummary :=
  let total := (total_runs s + 1)%Z in
  let total_runtime := fadd (total_runtime_seconds s) (duration_seconds run) in
  {| total_runs := total;
     successful_runs := (successful_runs s + Z.b2z (is_successful run))%Z;
     failed_runs := (failed_runs s + Z.b2z (negb (is_successful run)))%Z;
     total_runtime_seconds := round2 total_runtime;
     avg_duration_seconds := round2 (fdiv total_runtime (of_int total));
     total_rows_read := (total_rows_read s
        + match run_stats run with Some st => rows_read st | None => 0 end)%Z;
     total_rows_written := (total_rows_written s
        + match run_stats run with Some st => rows_written st | None => 0 end)%Z |}.

Record JobRecordStatus := {
  latest_run : option JobRun;
  runs : list JobRun;
  summary : option JobRecordSummary
}.

(** [metadata] is the raw dict of the API server; only its [resourceVersion]
    is read. *)
Record JobRecord := {
  api_version : string;
  kind : string;
  metadata : option (list (string * json));
  spec_query_id : string;
  status : option JobRecordStatus
}.

(** [JobRecord.model_validate]: every run inside the record is validated. *)
Definition status_runs (st : option JobRecordStatus) : list JobRun :=
  match st with
  | Some st => match latest_run st with Some r => r :: runs st | None => runs st end
  | None => []
  end.

Definition model_validate (d : JobRecord) : res JobRecord :=
  if forallb times_valid (status_runs (status d)) then Ok d
  else Err (ValidationError "end_time must be after start_time").

Record JobRecordResponse := {
  resp_query_id : string;
  resp_latest_run : option JobRun;
  resp_runs : list JobRun;
  resp_summary : option JobRecordSummary
}.

(** [JobRecordStatus()] *)
Definition empty_status : JobRecordStatus :=
  {| latest_run := None; runs := []; summary := None |}.

Definition from_job_record (r : JobRecord) : JobRecordResponse :=
  let st := default empty_status (status r) in
  {| resp_query_id := spec_query_id r;
     resp_latest_run := latest_run st;
     resp_runs := runs st;
     resp_summary := summary st |}.

(** ** What a summary means *)

Definition summary_of (rs : list JobRun) : JobRecordSummary := foldl accumulate empty_summary rs.

Definition sumZ (f : JobRun -> Z) (rs : list JobRun) : Z := foldr (fun r a => (f r + a)%Z) 0%Z rs.

Definition reads (r : JobRun) : Z := match run_stats r with Some s => rows_read s | None => 0%Z end.
Definition writes (r : JobRun) : Z := match run_stats r with Some s => rows_written s | None => 0%Z end.

Lemma sumZ_app f a b : sumZ f (a ++ b) = (sumZ f a + sumZ f b)%Z.
Proof. induction a as [|r a IH]; cbn; [done|]. unfold sumZ in *. lia. Qed.

Lemma summary_snoc rs r : summary_of (rs ++ [r]) = accumulate (summary_of rs) r.
Proof. unfold summary_of. by rewrite foldl_snoc || by rewrite foldl_app. Qed.

(** The integer counters of an accumulated summary are the counts and sums
    over the runs it accumulated. *)
Lemma summary_counts rs :
  total_runs (summary_of rs) = Z.of_nat (length rs) /\
  successful_runs (summary_of rs) = Z.of_nat (length (filter is_successful rs)) /\
  failed_runs (summary_of rs) = Z.of_nat (length (filter (fun r => negb (is_successful r)) rs)) /\
  total_rows_read (summary_of rs) = sumZ reads rs /\
  total_rows_written (summary_of rs) = sumZ writes rs.
Proof.
  induction rs as [|r rs (H1 & H2 & H3 & H4 & H5)] using rev_ind; [done|].
  rewrite summary_snoc, !sumZ_app, !filter_app, !length_app, !filter_cons, !filter_nil.
  cbn [total_runs successful_runs failed_runs total_rows_read total_rows_written accumulate].
  rewrite H1, H2, H3, H4, H5. unfold sumZ, reads, writes. cbn [foldr length].
  destruct (is_successful r); cbn; repeat case_decide; cbn; split_and!; naive_solver lia.
Qed.

(** Every completed run is counted once as a success or a failure. *)
Definition summary_ok (s : JobRecordSummary) : Prop :=
  (0 <= successful_runs s /\ 0 <= failed_runs s /\
   total_runs s = successful_runs s + failed_runs s)%Z.

Lemma summary_ok_empty : summary_ok empty_summary.
Proof. unfold summary_ok; cbn; lia. Qed.

Lemma summary_ok_accumulate s r : summary_ok s -> summary_ok (accumulate s r).
Proof. unfold summary_ok; cbn. destruct (is_successful r); cbn; lia. Qed.

Create HintDb jobs discriminated.
#[export] Hint Resolve summary_ok_empty summary_ok_accumulate : jobs.
