(* ===== verification/JobRecordClient.v ===== *)
(** * The job record client

    [clients/job_record_client.py]: reading, creating and updating the
    [JobRecord] custom resource of a query with optimistic locking.

    The Kubernetes API server and the [tenacity] retry loop are not part of the
    repository: they are the parameters [JobRecordApi] and [Tenacity].  Their
    documented behaviour is stated by the classes [TenacityLaws] and
    [JobRecordServer]; the latter lets other writers act before each request
    (the relation [env]), which is how concurrent front ends appear here. *)

From S2P Require Import Prelude PyStr Json JsonFacts PyFloat SparkModels JobModels.
From Stdlib Require Import Lia.

(** ** Constants *)

Definition GROUP : string := "cleanroom.azure.com".
Definition VERSION : string := "v1alpha1".
Definition KIND : string := "JobRecord".
Definition HISTORY_LIMIT : nat := 20.
Definition MAX_RETRY_ATTEMPTS : nat := 5.

Definition is_conflict_error (e : exn) : bool :=
  match e with ApiException (Some 409%Z) _ => true | _ => false end.

Definition is_not_found (e : exn) : bool :=
  match e with ApiException (Some 404%Z) _ => true | _ => false end.

Definition apply_history_limit (rs : list JobRun) : list JobRun := last_n HISTORY_LIMIT rs.

(** The body of a status patch. *)
Record StatusPatch := {
  patch_name : string;
  patch_resource_version : json;
  patch_status : JobRecordStatus
}.

(** ** Parameters *)

Record JobRecordApi (W : Type) := {
  api_get : string -> string -> M W JobRecord;
  api_create : string -> JobRecord -> M W JobRecord;
  api_patch_status : string -> string -> StatusPatch -> M W JobRecord
}.
Arguments api_get {W}.
Arguments api_create {W}.
Arguments api_patch_status {W}.

Record Tenacity (W : Type) := {
  retry : forall A, nat -> (exn -> bool) -> M W A -> M W A
}.
Arguments retry {W}.

(** ** The client *)

Section Client.
Context {W : Type} (api : JobRecordApi W) (ten : Tenacity W).

Definition parse_job_record (d : JobRecord) : M W JobRecord := lift (model_validate d).

(** [get_job_record]: [None] when the server answers 404. *)
Definition get_job_record (query_id ns : string) : M W (option JobRecord) :=
  try_except
    (result ← api_get api ns query_id; r ← parse_job_record result; mret (Some r))
    (fun e => if is_not_found e then mret None else raise e).

Definition new_job_record (query_id ns : string) : JobRecord :=
  {| api_version := GROUP +:+ "/" +:+ VERSION;
     kind := KIND;
     metadata := Some
       [("name", JStr query_id); ("namespace", JStr ns);
        ("labels", JObj [("app.kubernetes.io/name", JStr "jobrecord")]);
        ("annotations", JObj [("cleanroom.azure.com/created-by", JStr "cleanroom-spark-frontend")])];
     spec_query_id := query_id;
     status := None |}.

Definition create_job_record (query_id ns : string) : M W JobRecord :=
  result ← api_create api ns (new_job_record query_id ns); parse_job_record result.

(** [_get_or_create_job_record]: a create that loses the race to another
    client falls back to a second read. *)
Definition get_or_create_job_record (query_id ns : string) : M W JobRecord :=
  job_record ← get_job_record query_id ns;
  match job_record with
  | Some r => mret r
  | None =>
      try_except (create_job_record query_id ns)
        (fun e =>
           if is_conflict_error e then
             job_record ← get_job_record query_id ns;
             match job_record with
             | Some r => mret r
             | None => raise (JobRecordError ("Failed to get JobRecord " +:+ query_id +:+ " after conflict"))
             end
           else raise e)
  end.

(** [job_record.metadata["resourceVersion"]] *)
Definition resource_version (r : JobRecord) : res json :=
  match metadata r with
  | None => Err (TypeError "'NoneType' object is not subscriptable")
  | Some d => of_option (KeyError "resourceVersion") (dict_lookup "resourceVersion" d)
  end.

Definition status_history (st : option JobRecordStatus) : list JobRun :=
  match st with Some st => runs st | None => [] end.

Definition status_summary (st : option JobRecordStatus) : JobRecordSummary :=
  match st with
  | Some st => default empty_summary (summary st)
  | None => empty_summary
  end.

Definition existing_runs (r : JobRecord) : list JobRun := status_history (status r).
Definition existing_summary (r : JobRecord) : JobRecordSummary := status_summary (status r).

Definition get_job_record_context (query_id ns : string)
  : M W (JobRecord * json * list JobRun * JobRecordSummary) :=
  job_record ← get_or_create_job_record query_id ns;
  rv ← lift (resource_version job_record);
  mret (job_record, rv, existing_runs job_record, existing_summary job_record).

Definition patch_job_record_status (query_id ns : string) (rv : json) (run : JobRun)
  (rs : list JobRun) (old : JobRecordSummary) : M W JobRecord :=
  result ← api_patch_status api ns query_id
    {| patch_name := query_id; patch_resource_version := rv;
       patch_status := {| latest_run := Some run; runs := rs;
                          summary := Some (accumulate old run) |} |};
  parse_job_record result.

(** The body that the [@_conflict_retry()] decorator repeats. *)
Definition add_run_attempt (query_id ns : string) (run : JobRun) : M W JobRecord :=
  ctx ← get_job_record_context query_id ns;
  let '(job_record, rv, existing, summary) := ctx in
  if decide (run_id run ∈ map run_id existing) then mret job_record
  else patch_job_record_status query_id ns rv run
         (apply_history_limit (existing ++ [run])) summary.

Definition add_run_with_retry (query_id ns : string) (run : JobRun) : M W JobRecord :=
  retry ten _ MAX_RETRY_ATTEMPTS is_conflict_error (add_run_attempt query_id ns run).

Definition add_run (query_id ns : string) (run : JobRun) : M W JobRecord :=
  try_except (add_run_with_retry query_id ns run)
    (fun e => if is_conflict_error e
              then raise (JobRecordConflictError ("Failed to add run to JobRecord " +:+ query_id
                     +:+ " after " +:+ str_of_Z (Z.of_nat MAX_RETRY_ATTEMPTS) +:+ " retries"))
              else raise e).
End Client.

(** ** Documented behaviour of the parameters *)

(** [retry(retry=retry_if_exception(p), stop=stop_after_attempt(n),
    reraise=True)]: the call is repeated while it raises an exception that
    satisfies [p] and attempts are left; the last exception is re-raised. *)
Class TenacityLaws {W} (ten : Tenacity W) : Prop := {
  retry_step : forall A n p (m : M W A) w,
    retry ten A (S n) p m w =
    match m w with
    | (w', Ok a) => (w', Ok a)
    | (w', Err e) => if p e && negb (Nat.eqb n 0) then retry ten A n p m w' else (w', Err e)
    end
}.

(** [metadata.name] of a request body. *)
Definition object_name (r : JobRecord) : string :=
  match metadata r ≫= dict_lookup "name" with Some (JStr n) => n | _ => "" end.

(** The API server: [cur] is the stored object; before it serves a request
    other writers may act ([env]).  A stored object's [resourceVersion]
    identifies its content, a patch that carries another version than the
    stored one fails with a conflict and changes nothing. *)
Class JobRecordServer {W} (api : JobRecordApi W) := {
  srv_ok : W -> Prop;
  cur : W -> string -> string -> option JobRecord;
  env : W -> W -> Prop;
  env_refl : forall w, env w w;
  env_trans : forall w1 w2 w3, env w1 w2 -> env w2 w3 -> env w1 w3;
  env_version : forall w w' ns n o o',
    srv_ok w -> env w w' -> cur w ns n = Some o -> cur w' ns n = Some o' ->
    resource_version o = resource_version o' -> o = o';
  get_spec : forall ns n w w' r, srv_ok w -> api_get api ns n w = (w', r) ->
    srv_ok w' /\ env w w' /\
    match r with
    | Ok o => cur w' ns n = Some o
    | Err e => is_not_found e = true -> cur w' ns n = None
    end;
  create_spec : forall ns body w w' r, srv_ok w -> api_create api ns body w = (w', r) ->
    srv_ok w' /\
    match r with
    | Ok o => exists w1, env w w1 /\ cur w1 ns (object_name body) = None /\
        status o = status body /\ spec_query_id o = spec_query_id body /\
        forall ns' n', cur w' ns' n' =
          if decide (ns' = ns /\ n' = object_name body) then Some o else cur w1 ns' n'
    | Err _ => env w w'
    end;
  patch_spec : forall ns n p w w' r, srv_ok w -> api_patch_status api ns n p w = (w', r) ->
    srv_ok w' /\
    match r with
    | Ok o => exists w1 old, env w w1 /\ cur w1 ns n = Some old /\
        resource_version old = Ok (patch_resource_version p) /\
        status o = Some (patch_status p) /\ spec_query_id o = spec_query_id old /\
        forall ns' n', cur w' ns' n' =
          if decide (ns' = ns /\ n' = n) then Some o else cur w1 ns' n'
    | Err _ => env w w'
    end
}.

(** ** The abstract contract of [add_run] *)

(** The status after a run is added: the last [HISTORY_LIMIT] runs, the
    latest run, and the summary over all runs ever added. *)
Definition commit_run (st : option JobRecordStatus) (run : JobRun) : JobRecordStatus :=
  {| latest_run := Some run;
     runs := apply_history_limit (status_history st ++ [run]);
     summary := Some (accumulate (status_summary st) run) |}.

Definition spec_add_run (st : option JobRecordStatus) (run : JobRun) : option JobRecordStatus :=
  if decide (run_id run ∈ map run_id (status_history st)) then st
  else Some (commit_run st run).

(** The invariant of a stored record. *)
Record status_inv (st : JobRecordStatus) : Prop := {
  inv_nodup : NoDup (map run_id (runs st));
  inv_bound : length (runs st) <= HISTORY_LIMIT;
  inv_latest : latest_run st = last (runs st);
  inv_nonempty : runs st <> [];
  inv_times : Forall (fun r => times_valid r = true) (runs st);
  inv_summary : exists s, summary st = Some s /\ summary_ok s /\
                  (Z.of_nat (length (runs st)) <= total_runs s)%Z
}.

Definition record_inv (r : JobRecord) : Prop :=
  match status r with Some st => status_inv st | None => True end.

Lemma history_last rs run : last (apply_history_limit (rs ++ [run])) = Some run.
Proof.
  unfold apply_history_limit, HISTORY_LIMIT. rewrite last_n_snoc by lia. apply last_snoc.
Qed.

Lemma commit_run_inv st run :
  (match st with Some st => status_inv st | None => True end) ->
  times_valid run = true ->
  run_id run ∉ map run_id (status_history st) ->
  status_inv (commit_run st run).
Proof.
  intros Hst Ht Hid.
  assert (NoDup (map run_id (status_history st)) /\
    Forall (fun r => times_valid r = true) (status_history st) /\
    summary_ok (status_summary st) /\
    (Z.of_nat (length (status_history st)) <= total_runs (status_summary st))%Z)
    as (Hnd & Hts & Hok & Hlen).
  { destruct st as [st|]; cbn.
    - destruct Hst as [? ? ? ? ? (s & -> & ? & ?)]. done.
    - split_and!; [constructor|constructor|apply summary_ok_empty|done]. }
  constructor; cbn [commit_run runs latest_run summary].
  - change (map run_id) with (fmap (M:=list) run_id) in *. unfold apply_history_limit.
    rewrite last_n_fmap. apply last_n_NoDup. rewrite fmap_app. apply NoDup_app.
    split_and!; [done| |apply NoDup_singleton]. set_solver.
  - unfold apply_history_limit. rewrite last_n_length. lia.
  - by rewrite history_last.
  - intros Hnil. pose proof (history_last (status_history st) run) as Hl. by rewrite Hnil in Hl.
  - unfold apply_history_limit, last_n. apply Forall_drop, Forall_app. auto.
  - eexists; split_and!; [done|by apply summary_ok_accumulate|].
    unfold apply_history_limit. rewrite last_n_length, length_app.
    cbn [total_runs accumulate length]. lia.
Qed.

Lemma spec_add_run_inv st run :
  (match st with Some st => status_inv st | None => True end) ->
  times_valid run = true ->
  match spec_add_run st run with Some st => status_inv st | None => True end.
Proof.
  intros Hst Ht. unfold spec_add_run. case_decide; [done|]. by apply commit_run_inv.
Qed.

(** ** Refinement: the client implements the contract under interference *)

Section Refinement.
Context {W : Type} {api : JobRecordApi W} {ten : Tenacity W}.
Context {tlaws : TenacityLaws ten} {srv : JobRecordServer api}.

(** The stored object of one key is replaced. *)
Definition stored (ns n : string) (o : JobRecord) (w w' : W) : Prop :=
  forall ns' n', cur w' ns' n' = if decide (ns' = ns /\ n' = n) then Some o else cur w ns' n'.

(** Creation of the record of query [q], still without status. *)
Definition creates (ns q : string) (w w' : W) : Prop :=
  exists o, cur w ns q = None /\ status o = None /\ stored ns q o w w'.

(** Everything but the commit: other writers, and the creation of the empty
    record. *)
Definition quiet (ns q : string) : W -> W -> Prop :=
  rtc (fun w w' => (env w w') \/ (creates ns q w w')).

(** The commit of a run: an atomic update of the record as it is stored at
    that moment. *)
Definition commits (ns q : string) (run : JobRun) (o : JobRecord) (w w' : W) : Prop :=
  exists old, cur w ns q = Some old /\
    (run_id run ∉ map run_id (existing_runs old)) /\
    status o = Some (commit_run (status old) run) /\
    stored ns q o w w'.

Implicit Types (w : W) (ns q : string) (run : JobRun).

Lemma quiet_env ns q w w' : env w w' -> quiet ns q w w'.
Proof. intros. apply rtc_once. by left. Qed.

Lemma quiet_trans ns q w1 w2 w3 : quiet ns q w1 w2 -> quiet ns q w2 w3 -> quiet ns q w1 w3.
Proof. unfold quiet. intros. by etrans. Qed.

(** What a read returns is what was stored when it was served. *)
Lemma get_job_record_spec q ns w w' r :
  srv_ok w -> get_job_record api q ns w = (w', r) ->
  srv_ok w' /\ env w w' /\
  match r with
  | Ok (Some o) => cur w' ns q = Some o
  | Ok None => cur w' ns q = None
  | Err _ => True
  end.
Proof.
  intros Hw. unfold get_job_record. rewrite try_except_run, M_bind_run.
  destruct (api_get api ns q w) as [w1 [o|e]] eqn:Hg;
    destruct (get_spec _ _ _ _ _ Hw Hg) as (Hok & He & Hr).
  - rewrite M_bind_run. unfold parse_job_record, lift, model_validate.
    destruct (forallb _ _); cbn; intros [= <- <-]; auto.
  - destruct (is_not_found e) eqn:Hn; intros [= <- <-]; auto.
Qed.

Lemma get_or_create_spec q ns w w' r :
  srv_ok w -> get_or_create_job_record api q ns w = (w', r) ->
  srv_ok w' /\ quiet ns q w w' /\
  match r with
  | Ok o => cur w' ns q = Some o
  | Err _ => True
  end.
Proof.
  intros Hw. unfold get_or_create_job_record. rewrite M_bind_run.
  destruct (get_job_record api q ns w) as [w1 r1] eqn:Hg.
  destruct (get_job_record_spec _ _ _ _ _ Hw Hg) as (Hw1 & He1 & Hr1).
  destruct r1 as [[o|]|e]; [intros [= <- <-]; eauto using quiet_env| |
    intros [= <- <-]; eauto using quiet_env].
  rewrite try_except_run. unfold create_job_record. rewrite M_bind_run.
  destruct (api_create api ns (new_job_record q ns) w1) as [w2 [o|e]] eqn:Hc;
    destruct (create_spec _ _ _ _ _ Hw1 Hc) as (Hw2 & Hr2).
  - destruct Hr2 as (wm & Hem & Hnone & Hst & Hq & Hupd).
    assert (quiet ns q w w2) as Hquiet.
    { eapply quiet_trans; [apply quiet_env; exact He1|].
      eapply quiet_trans; [apply quiet_env; exact Hem|].
      apply rtc_once. right. exists o. split_and!; [exact Hnone|done|exact Hupd]. }
    assert (cur w2 ns q = Some o) as Hcur.
    { rewrite Hupd. by rewrite decide_True. }
    unfold parse_job_record, lift, model_validate. rewrite Hst. cbn.
    intros [= <- <-]. auto.
  - assert (quiet ns q w w2) as Hq2
      by (eapply quiet_trans; apply quiet_env; eauto).
    destruct (is_conflict_error e); [|intros [= <- <-]; auto].
    rewrite M_bind_run. destruct (get_job_record api q ns w2) as [w3 r3] eqn:Hg3.
    destruct (get_job_record_spec _ _ _ _ _ Hw2 Hg3) as (Hw3 & He3 & Hr3).
    assert (quiet ns q w w3) by eauto using quiet_trans, quiet_env.
    destruct r3 as [[o|]|e3]; intros [= <- <-]; auto.
Qed.

(** The three outcomes of an attempt. *)
Definition outcome ns q run (w w' : W) (r : res JobRecord) : Prop :=
  (quiet ns q w w' /\ forall o, r = Ok o ->
     cur w' ns q = Some o /\ run_id run ∈ map run_id (existing_runs o)) \/
  (exists w1 o, quiet ns q w w1 /\ commits ns q run o w1 w' /\
     (r = Ok o \/ exists e, r = Err (ValidationError e))).

Lemma add_run_attempt_spec q ns run w w' r :
  srv_ok w -> add_run_attempt api q ns run w = (w', r) ->
  srv_ok w' /\ outcome ns q run w w' r.
Proof.
  intros Hw. unfold add_run_attempt, get_job_record_context. rewrite !M_bind_run.
  destruct (get_or_create_job_record api q ns w) as [w1 r1] eqn:Hg.
  destruct (get_or_create_spec _ _ _ _ _ Hw Hg) as (Hw1 & Hq1 & Hr1).
  destruct r1 as [o|e]; [|intros [= <- <-]; split; [done|left; split; [done|congruence]]].
  rewrite M_bind_run. unfold lift at 1.
  destruct (resource_version o) as [rv|e] eqn:Hrv;
    [|intros [= <- <-]; split; [done|left; split; [done|congruence]]].
  cbn [mret M_ret]. case_decide as Hin.
  { intros [= <- <-]. split; [done|left]. split; [done|]. intros o' [= <-]. auto. }
  unfold patch_job_record_status. rewrite M_bind_run.
  destruct (api_patch_status api ns q _ w1) as [w2 [o2|e]] eqn:Hp;
    destruct (patch_spec _ _ _ _ _ _ Hw1 Hp) as (Hw2 & Hr2); cbn [patch_resource_version patch_status] in *.
  - destruct Hr2 as (wm & old & Hem & Hcur & Hrvo & Hst & Hsq & Hupd).
    assert (o = old) as <- by (eapply (env_version w1 wm ns q); [done..|]; by rewrite Hrv, Hrvo).
    intros Hr. unfold parse_job_record, lift, model_validate in Hr.
    split; [by destruct (forallb _ _); injection Hr as <- _|]. right.
    exists wm, o2. split_and!.
    + eauto using quiet_trans, quiet_env.
    + destruct (forallb _ _); injection Hr as <- _; exists o; split_and!; done.
    + destruct (forallb _ _); injection Hr as _ <-; eauto.
  - intros [= <- <-]. split; [done|]. left. split; [|congruence].
    eauto using quiet_trans, quiet_env.
Qed.

Lemma retry_spec q ns run n : forall w w' r,
  srv_ok w -> retry ten _ (S n) is_conflict_error (add_run_attempt api q ns run) w = (w', r) ->
  srv_ok w' /\ outcome ns q run w w' r.
Proof.
  induction n as [|n IH]; intros w w' r Hw; rewrite retry_step;
    destruct (add_run_attempt api q ns run w) as [w1 r1] eqn:Ha;
    destruct (add_run_attempt_spec _ _ _ _ _ _ Hw Ha) as (Hw1 & Ho).
  - destruct r1 as [o|e]; [by intros [= <- <-]|].
    rewrite andb_false_r. by intros [= <- <-].
  - destruct r1 as [o|e]; [by intros [= <- <-]|].
    destruct (is_conflict_error e) eqn:He; cbn [andb negb Nat.eqb]; [|by intros [= <- <-]].
    intros Hr. destruct (IH _ _ _ Hw1 Hr) as (Hw' & Ho').
    assert (quiet ns q w w1) as Hq.
    { destruct Ho as [[Hq _]|(? & ? & _ & _ & [?|[? [= ->]]])]; [done|done|done]. }
    split; [done|]. destruct Ho' as [[Hq' Hd]|(wm & o & Hqm & Hrest)].
    + left. eauto using quiet_trans.
    + right. exists wm, o. eauto using quiet_trans.
Qed.

Lemma add_run_refines q ns run w w' r :
  srv_ok w -> add_run api ten q ns run w = (w', r) ->
  srv_ok w' /\ outcome ns q run w w' r.
Proof.
  intros Hw. unfold add_run, add_run_with_retry. rewrite try_except_run.
  destruct (retry ten _ _ _ _ w) as [w1 r1] eqn:Hr.
  destruct (retry_spec q ns run 4 _ _ _ Hw Hr) as (Hw1 & Ho).
  destruct r1 as [o|e]; [by intros [= <- <-]|].
  destruct (is_conflict_error e) eqn:He; intros [= <- <-]; [|done].
  split; [done|]. destruct Ho as [[Hq _]|(? & ? & _ & _ & [?|[? [= ->]]])]; [|done|done].
  left. split; [done|congruence].
Qed.
End Refinement.
