(* ===== verification/JobRecordProps.v ===== *)
(** * Job records: a concrete server and the properties of the client

    [World] is an API server with a store and a schedule of other writers'
    commits, one batch of which runs before each request.  It instantiates the
    laws of [JobRecordServer], so the theorems about the client are about
    something.  The properties of [add_run] follow. *)

From S2P Require Import Prelude PyStr Json JsonFacts PyFloat SparkModels JobModels JobRecordClient.
From Stdlib Require Import Lia.

(** ** A server *)

Record World := {
  w_store : gmap (string * string) JobRecord;
  w_next : Z;
  w_sched : list (list (string * string * JobRun))
}.

Definition with_version (v : Z) (r : JobRecord) (st : option JobRecordStatus) : JobRecord :=
  {| api_version := api_version r; kind := kind r;
     metadata := Some (dict_set "resourceVersion" (JStr (str_of_Z v)) (default [] (metadata r)));
     spec_query_id := spec_query_id r; status := st |}.

Definition put (k : string * string) (r : JobRecord) (st : option JobRecordStatus) (w : World)
  : World * JobRecord :=
  let o := with_version (w_next w) r st in
  ({| w_store := <[k := o]> (w_store w); w_next := w_next w + 1; w_sched := w_sched w |}, o).

(** Another front end commits a run. *)
Definition other_commit (w : World) (c : string * string * JobRun) : World :=
  let '(ns, n, run) := c in
  match w_store w !! (ns, n) with
  | Some r => if times_valid run then (put (ns, n) r (spec_add_run (status r) run) w).1 else w
  | None => w
  end.

Definition tick (w : World) : World :=
  match w_sched w with
  | [] => w
  | batch :: rest =>
      foldl other_commit
        {| w_store := w_store w; w_next := w_next w; w_sched := rest |} batch
  end.

Definition world_api : JobRecordApi World := {|
  api_get ns n w :=
    let w := tick w in
    match w_store w !! (ns, n) with
    | Some o => (w, Ok o)
    | None => (w, Err (ApiException (Some 404%Z) "Not Found"))
    end;
  api_create ns body w :=
    let w := tick w in
    match w_store w !! (ns, object_name body) with
    | Some _ => (w, Err (ApiException (Some 409%Z) "Conflict"))
    | None => let '(w', o) := put (ns, object_name body) body (status body) w in (w', Ok o)
    end;
  api_patch_status ns n p w :=
    let w := tick w in
    match w_store w !! (ns, n) with
    | None => (w, Err (ApiException (Some 404%Z) "Not Found"))
    | Some old =>
        match resource_version old with
        | Ok (JStr v) =>
            match patch_resource_version p with
            | JStr v' => if decide (v = v')
                         then let '(w', o) := put (ns, n) old (Some (patch_status p)) w in (w', Ok o)
                         else (w, Err (ApiException (Some 409%Z) "Conflict"))
            | _ => (w, Err (ApiException (Some 409%Z) "Conflict"))
            end
        | _ => (w, Err (ApiException (Some 409%Z) "Conflict"))
        end
    end
|}.

Fixpoint retry_loop {W A} (n : nat) (p : exn -> bool) (m : M W A) : M W A := fun w =>
  match n with
  | 0 => (w, Err (OtherException "RetryError"))
  | S n => match m w with
           | (w', Ok a) => (w', Ok a)
           | (w', Err e) => if p e && negb (Nat.eqb n 0) then retry_loop n p m w' else (w', Err e)
           end
  end.

Definition loop_tenacity {W} : Tenacity W := {| retry := fun A n p m => retry_loop n p m |}.

#[export] Instance loop_tenacity_laws {W} : TenacityLaws (@loop_tenacity W).
Proof. constructor. done. Qed.

(** ** The server satisfies the laws *)

Lemma str_of_Z_inj a b : str_of_Z a = str_of_Z b -> a = b.
Proof.
  intros H. pose proof (parse_value_int 0 a "" eq_refl) as Ha.
  pose proof (parse_value_int 0 b "" eq_refl) as Hb. rewrite H in Ha. congruence.
Qed.

Definition versioned (v : Z) (o : JobRecord) : Prop :=
  resource_version o = Ok (JStr (str_of_Z v)).

Definition world_ok (w : World) : Prop :=
  forall k o, w_store w !! k = Some o -> exists v, versioned v o /\ (v < w_next w)%Z.

(** Interference: every object is the one before or newer, and newer objects
    satisfy the record invariant. *)
Definition world_env (w w' : World) : Prop :=
  (w_next w <= w_next w')%Z /\
  forall k o, w_store w' !! k = Some o ->
    w_store w !! k = Some o \/
    exists v, versioned v o /\ (w_next w <= v)%Z /\
      ((forall k o, w_store w !! k = Some o -> record_inv o) -> record_inv o).

Lemma versioned_put v r st : versioned v (with_version v r st).
Proof. unfold versioned, resource_version. cbn. by rewrite dict_lookup_set_eq. Qed.

Lemma world_env_refl w : world_env w w.
Proof. split; [lia|auto]. Qed.

Lemma world_env_trans w1 w2 w3 : world_env w1 w2 -> world_env w2 w3 -> world_env w1 w3.
Proof.
  intros [H1 H1'] [H2 H2']. split; [lia|]. intros k o Ho.
  destruct (H2' k o Ho) as [Ho2|(v & Hv & Hle & Hi)]; [by apply H1'|].
  right. exists v. split_and!; [done|lia|]. intros Hinv. apply Hi. intros k2 o2 Ho2.
  destruct (H1' k2 o2 Ho2) as [?|(v2 & _ & _ & Hi2)]; eauto.
Qed.

Lemma put_ok k r st w : world_ok w -> world_ok (put k r st w).1.
Proof.
  intros Hw k' o. cbn. rewrite lookup_insert. case_decide.
  - intros [= <-]. exists (w_next w). split; [apply versioned_put|lia].
  - intros Ho. destruct (Hw _ _ Ho) as (v & ? & ?). exists v. split; [done|lia].
Qed.

Lemma other_commit_ok w c : world_ok w -> world_ok (other_commit w c) /\ world_env w (other_commit w c).
Proof.
  intros Hw. destruct c as [[ns n] run]. unfold other_commit.
  destruct (w_store w !! (ns, n)) as [r|] eqn:Hr; [|auto using world_env_refl].
  destruct (times_valid run) eqn:Ht; [|auto using world_env_refl].
  split; [by apply put_ok|]. split; [cbn; lia|]. intros k o. cbn. rewrite lookup_insert.
  case_decide; [|auto]. intros [= <-]. right. exists (w_next w).
  split_and!; [apply versioned_put|lia|]. intros Hinv.
  unfold record_inv. cbn. apply spec_add_run_inv; [|done]. apply (Hinv _ _ Hr).
Qed.

Lemma tick_ok w : world_ok w -> world_ok (tick w) /\ world_env w (tick w).
Proof.
  intros Hw. unfold tick. destruct (w_sched w) as [|batch rest]; [auto using world_env_refl|].
  set (w0 := {| w_store := w_store w; w_next := w_next w; w_sched := rest |}).
  assert (world_ok w0 /\ world_env w w0) as H0 by (split; [exact Hw|split; [cbn; lia|auto]]).
  clearbody w0. revert w0 H0. induction batch as [|c batch IH]; intros w0 [H0 He]; [done|].
  cbn. apply IH. destruct (other_commit_ok w0 c H0). split; [done|]. by eapply world_env_trans.
Qed.

#[export] Instance world_server : JobRecordServer world_api.
Proof.
  refine {| srv_ok := world_ok; cur := fun w ns n => w_store w !! (ns, n); env := world_env;
            env_refl := world_env_refl; env_trans := world_env_trans |}.
  - intros w w' ns n o o' Hw [Hle He] Ho Ho' Hrv.
    destruct (He _ _ Ho') as [?|(v & Hv & Hlt & _)]; [congruence|].
    destruct (Hw _ _ Ho) as (v0 & Hv0 & ?). unfold versioned in *.
    assert (v = v0) by (apply str_of_Z_inj; congruence). lia.
  - intros ns n w w' r Hw. cbn. destruct (tick_ok w Hw) as [Ht He].
    destruct (w_store (tick w) !! (ns, n)) as [o|] eqn:Ho; intros [= <- <-]; auto.
  - intros ns body w w' r Hw. cbn. destruct (tick_ok w Hw) as [Ht He].
    destruct (w_store (tick w) !! (ns, object_name body)) as [o|] eqn:Ho; intros [= <- <-]; [auto|].
    split; [by apply put_ok|]. exists (tick w). split_and!; [done..|]. intros ns' n'. cbn.
    rewrite lookup_insert. repeat case_decide; naive_solver.
  - intros ns n p w w' r Hw. cbn. destruct (tick_ok w Hw) as [Ht He].
    destruct (w_store (tick w) !! (ns, n)) as [old|] eqn:Ho; [|intros [= <- <-]; auto].
    destruct (resource_version old) as [[]|] eqn:Hrv; try (intros [= <- <-]; by auto).
    destruct (patch_resource_version p) eqn:Hp; try (intros [= <- <-]; by auto).
    case_decide; [|intros [= <- <-]; by auto]. intros [= <- <-]. subst.
    split; [by apply put_ok|]. exists (tick w), old. split_and!; [done..|]. intros ns' n'. cbn.
    rewrite lookup_insert. repeat case_decide; naive_solver.
Defined.

(** ** Properties of the client *)

(** C1. [add_run] refines the atomic contract, whatever other writers do
    between its requests: either it changes nothing but the possible creation
    of the empty record, and when it then answers a record that record already
    holds the run; or it performs exactly one commit, which applies
    [commit_run] to the record as stored at the moment of the commit (no
    concurrent update is lost), and answers the committed record. *)
Theorem add_run_atomic {W} (api : JobRecordApi W) (ten : Tenacity W)
  {tlaws : TenacityLaws ten} {srv : JobRecordServer api} ns q run w w' r :
  srv_ok w -> add_run api ten q ns run w = (w', r) ->
  srv_ok w' /\
  ((quiet ns q w w' /\ forall o, r = Ok o ->
      cur w' ns q = Some o /\ run_id run ∈ map run_id (existing_runs o)) \/
   (exists w1 o, quiet ns q w w1 /\ commits ns q run o w1 w' /\
      (r = Ok o \/ exists e, r = Err (ValidationError e)))).
Proof. apply add_run_refines. Qed.

(** C19. The record invariant (distinct run ids, at most twenty runs, the
    latest run last, a consistent summary) holds in every stored record after
    [add_run] if it held before, as long as other writers keep it; this covers
    every outcome, errors included. *)
Theorem add_run_invariant {W} (api : JobRecordApi W) (ten : Tenacity W)
  {tlaws : TenacityLaws ten} {srv : JobRecordServer api} ns q run w w' r :
  (forall w w', env w w' -> (forall ns n o, cur w ns n = Some o -> record_inv o) ->
     forall ns n o, cur w' ns n = Some o -> record_inv o) ->
  srv_ok w -> times_valid run = true ->
  (forall ns n o, cur w ns n = Some o -> record_inv o) ->
  add_run api ten q ns run w = (w', r) ->
  forall ns' n o, cur w' ns' n = Some o -> record_inv o.
Proof.
  intros Hrely Hw Ht Hinv Hr. apply add_run_refines in Hr as [_ Ho]; [|done].
  assert (forall w1, quiet ns q w w1 -> forall ns n o, cur w1 ns n = Some o -> record_inv o) as Hq.
  { intros w1 Hq. revert Hinv. clear -Hrely Hq. induction Hq as [|a b c [He|Hc] _ IH]; [done|eauto|].
    intros Hinv. apply IH. destruct Hc as (o & _ & Hs & Hu). intros ns' n' o'.
    rewrite Hu. case_decide; [|eauto]. intros [= <-]. unfold record_inv. by rewrite Hs. }
  destruct Ho as [[Hq' _]|(w1 & o & Hq1 & (old & Hold & Hid & Hst & Hu) & _)]; [eauto|].
  intros ns' n' o'. rewrite Hu. case_decide; [|eauto]. intros [= <-].
  unfold record_inv. rewrite Hst. apply commit_run_inv; [|done|done].
  apply (Hq w1 Hq1 _ _ _ Hold).
Qed.

(** A conflict never escapes [add_run] as an [ApiException], and when it
    gives up with [JobRecordConflictError] the run has not been committed. *)
Theorem add_run_conflict {W} (api : JobRecordApi W) (ten : Tenacity W)
  {tlaws : TenacityLaws ten} {srv : JobRecordServer api} ns q run w w' e :
  srv_ok w -> add_run api ten q ns run w = (w', Err e) ->
  is_conflict_error e = false /\
  (forall msg, e = JobRecordConflictError msg -> quiet ns q w w').
Proof.
  intros Hw Hr. split.
  - revert Hr. unfold add_run. rewrite try_except_run.
    destruct (add_run_with_retry api ten q ns run w) as [? [|e']]; [done|].
    destruct (is_conflict_error e') eqn:He; intros [= _ <-]; done.
  - intros msg ->. apply add_run_refines in Hr as [_ Ho]; [|done].
    by destruct Ho as [[? _]|(? & ? & _ & _ & [?|[? ?]])].
Qed.

Lemma spec_history rs : NoDup (map run_id rs) -> rs <> [] ->
  foldl (fun st r => spec_add_run st r) None rs =
  Some {| latest_run := last rs; runs := last_n HISTORY_LIMIT rs;
          summary := Some (summary_of rs) |}.
Proof.
  change (map run_id) with (fmap (M:=list) run_id).
  induction rs as [|r rs IH] using rev_ind; [done|]. intros Hnd _.
  rewrite foldl_snoc || rewrite foldl_app. rewrite fmap_app in Hnd.
  apply NoDup_app in Hnd as (Hnd & Hin & _).
  rewrite last_snoc, summary_snoc. cbn [foldl].
  destruct (decide (rs = [])) as [->|Hne].
  { unfold spec_add_run. cbn. by rewrite decide_False by set_solver. }
  rewrite IH by done. unfold spec_add_run. rewrite decide_False.
  - unfold commit_run, apply_history_limit. cbn [status_history status_summary runs summary default].
    unfold id. do 2 f_equal. cbn. unfold HISTORY_LIMIT.
    rewrite !last_n_snoc by lia. by rewrite last_n_last_n.
  - cbn [status_history runs]. change (map run_id) with (fmap (M:=list) run_id).
    intros Hr. apply (Hin (run_id r)); [|set_solver].
    rewrite last_n_fmap in Hr. eapply elem_of_sublist; [exact Hr|apply last_n_sublist].
Qed.


(** The duplicate check only looks at the twenty runs that are kept: a run
    that has been evicted is added, and counted, a second time. *)
Theorem evicted_run_recounted rs r0 : NoDup (map run_id (r0 :: rs)) -> HISTORY_LIMIT <= length rs ->
  exists st s, foldl (fun st r => spec_add_run st r) None ((r0 :: rs) ++ [r0]) = Some st /\
    summary st = Some s /\ total_runs s = (Z.of_nat (length (r0 :: rs)) + 1)%Z /\
    latest_run st = Some r0.
Proof.
  intros Hnd Hlen. rewrite foldl_app, spec_history by done. cbn [foldl]. unfold spec_add_run.
  rewrite decide_False.
  - do 2 eexists. split_and!; [done..| |done].
    change (total_runs (summary_of (r0 :: rs)) + 1 = Z.of_nat (length (r0 :: rs)) + 1)%Z.
    by pose proof (summary_counts (r0 :: rs)) as [-> _].
  - cbn [status_history runs]. change (map run_id) with (fmap (M:=list) run_id) in *.
    rewrite last_n_fmap, fmap_cons in *. apply NoDup_cons in Hnd as [Hnot _].
    rewrite last_n_cons by (by rewrite length_fmap). intros Hin. apply Hnot.
    eapply elem_of_sublist; [exact Hin|apply last_n_sublist].
Qed.

(** ** Witnesses *)

Definition sample_run (i : string) (ok : bool) : JobRun :=
  {| run_id := i; start_time := Some 0%Z; end_time := Some 2500000%Z; is_successful := ok;
     run_error := None; run_stats := Some {| rows_read := 10; rows_written := 3 |} |}.

(** A stored record, and a schedule in which another writer commits between
    the first read and the first patch. *)
Definition race_world : World :=
  let w0 := {| w_store := ∅; w_next := 1; w_sched := [[]; [("ns", "q", sample_run "other" true)]] |} in
  (put ("ns", "q") (new_job_record "q" "ns") None w0).1.

Lemma race_world_ok : srv_ok race_world.
Proof. apply put_ok. intros k o. cbn. by rewrite lookup_empty. Qed.

Lemma race_world_inv ns n o : cur race_world ns n = Some o -> record_inv o.
Proof.
  cbn. rewrite lookup_insert, lookup_empty. case_decide; [|done]. by intros [= <-].
Qed.

Definition race := add_run world_api loop_tenacity "q" "ns" (sample_run "mine" false) race_world.

(** The run is committed behind the other writer's: nothing is lost. *)
Example race_result :
  (fun r => map run_id (existing_runs r)) <$> race.2 = Ok ["other"; "mine"].
Proof. vm_compute. reflexivity. Qed.

Lemma add_run_atomic_witness :
  is_ok race.2 = true /\
  srv_ok race.1 /\ outcome "ns" "q" (sample_run "mine" false) race_world race.1 race.2.
Proof.
  split; [vm_compute; reflexivity|].
  apply (add_run_atomic world_api loop_tenacity "ns" "q" (sample_run "mine" false) race_world);
    [apply race_world_ok|apply surjective_pairing].
Defined.

Definition race_record : option JobRecord := cur race.1 "ns" "q".

Lemma race_record_stored : is_Some race_record.
Proof. by vm_compute; eexists. Qed.

Lemma add_run_invariant_witness : exists o, cur race.1 "ns" "q" = Some o /\ record_inv o.
Proof.
  destruct race_record_stored as [o Ho]. exists o. split; [exact Ho|].
  apply (add_run_invariant world_api loop_tenacity "ns" "q" (sample_run "mine" false)
           race_world race.1 race.2) with (ns' := "ns") (n := "q").
  - intros w w' [_ He] Hi ns n o1 Ho1. cbn in *.
    destruct (He _ _ Ho1) as [?|(v & _ & _ & Hi')]; [eauto|].
    apply Hi'. intros [? ?]. apply Hi.
  - apply race_world_ok.
  - reflexivity.
  - apply race_world_inv.
  - apply surjective_pairing.
  - exact Ho.
Defined.

(** Other writers win all five attempts. *)
Definition busy_world : World :=
  let c i := [("ns", "q", sample_run i true)] in
  let w0 := {| w_store := ∅; w_next := 1;
               w_sched := [[]; c "a"; []; c "b"; []; c "c"; []; c "d"; []; c "e"] |} in
  (put ("ns", "q") (new_job_record "q" "ns") None w0).1.

Definition busy := add_run world_api loop_tenacity "q" "ns" (sample_run "mine" false) busy_world.

Lemma add_run_conflict_witness :
  busy.2 = Err (JobRecordConflictError "Failed to add run to JobRecord q after 5 retries") /\
  quiet "ns" "q" busy_world busy.1.
Proof.
  assert (busy.2 = Err (JobRecordConflictError
            "Failed to add run to JobRecord q after 5 retries")) as He by (vm_compute; reflexivity).
  split; [exact He|].
  refine (proj2 (add_run_conflict world_api loop_tenacity "ns" "q" (sample_run "mine" false)
    busy_world busy.1 _ _ _) _ eq_refl).
  - apply put_ok. intros k o. cbn. by rewrite lookup_empty.
  - rewrite <-He. apply surjective_pairing.
Defined.

Definition three_runs : list JobRun := [sample_run "a" true; sample_run "b" false; sample_run "c" true].


Definition many_runs : list JobRun :=
  map (fun i => sample_run (str_of_Z (Z.of_nat i)) true) (seq 0 20).

Lemma evicted_run_recounted_witness :
  exists st s, foldl (fun st r => spec_add_run st r) None
                 ((sample_run "first" true :: many_runs) ++ [sample_run "first" true]) = Some st /\
    summary st = Some s /\ total_runs s = 22%Z.
Proof.
  destruct (evicted_run_recounted many_runs (sample_run "first" true)) as (st & s & H1 & H2 & H3 & _).
  - apply (bool_decide_eq_true _). vm_compute. reflexivity.
  - apply (bool_decide_eq_true _). vm_compute. reflexivity.
  - exists st, s. split; [exact H1|]. split; [exact H2|exact H3].
Defined.
