(* ===== verification/Contracts.v ===== *)
(** * Analytics contracts

    [workloads/analytics/contracts]: operational events and audit records,
    their factories and the message each one prints, and the statistics event.
    [py_format] is [str.format] called with keyword arguments of type string;
    a replacement field with a conversion, a format specification, an
    attribute or an index is outside the model ([Unrepresentable]). *)

From S2P Require Import Prelude PyStr Base64 Json JsonFacts PyFloat.
From Stdlib Require Import Ascii Lia.

(** ** [str.format] *)

Definition special_in_field (c : ascii) : bool :=
  bool_decide (c = "{"%char \/ c = "!"%char \/ c = ":"%char \/ c = "."%char \/ c = "["%char).

(** The value of a replacement field: an empty or numeric name is a
    positional argument, of which there are none. *)
Definition field_value (params : list (string * string)) (name : string) : res string :=
  if str_forall is_digit name then
    let i := match py_int name with Ok z => z | Err _ => 0%Z end in
    if (i <=? 9223372036854775807)%Z then
      Err (IndexError ("Replacement index " +:+ str_of_Z i +:+ " out of range for positional args tuple"))
    else Err (ValueError "Too many decimal digits in format string")
  else of_option (KeyError name) (dict_lookup name params).

(** The scanner; [field] holds the name read so far inside a replacement
    field. *)
Fixpoint format_go (params : list (string * string)) (field : option string) (s : string)
  {struct s} : res string :=
  match field, s with
  | None, "" => Ok ""
  | Some _, "" => Err (ValueError "expected '}' before end of string")
  | None, String c t =>
      if bool_decide (c = "{"%char) then
        match t with
        | "" => Err (ValueError "Single '{' encountered in format string")
        | String d t' =>
            if bool_decide (d = "{"%char) then r ← format_go params None t'; Ok (String c r)
            else format_go params (Some "") t
        end
      else if bool_decide (c = "}"%char) then
        match t with
        | "" => Err (ValueError "Single '}' encountered in format string")
        | String d t' =>
            if bool_decide (d = "}"%char) then r ← format_go params None t'; Ok (String c r)
            else Err (ValueError "Single '}' encountered in format string")
        end
      else r ← format_go params None t; Ok (String c r)
  | Some name, String c t =>
      if bool_decide (c = "}"%char) then
        v ← field_value params name; r ← format_go params None t; Ok (v +:+ r)
      else if special_in_field c then Err (Unrepresentable "replacement field")
      else format_go params (Some (name +:+ String c "")) t
  end.

Definition py_format (template : string) (params : list (string * string)) : res string :=
  format_go params None template.

(** ** Events and records *)

Record OperationalEvent := {
  op_id : Z;
  op_name : string;
  op_message : string;
  op_parameters : list (string * string)
}.

Definition op_get_message (e : OperationalEvent) : res string :=
  formatted_message ← py_format (op_message e) (op_parameters e);
  Ok ("Event_" +:+ str_of_Z (op_id e) +:+ " | " +:+ formatted_message).

Record AuditRecord := {
  au_id : Z;
  au_source : string;
  au_name : string;
  au_message : string;
  au_parameters : list (string * string)
}.

Definition au_get_message (e : AuditRecord) : res string :=
  formatted_message ← py_format (au_message e) (au_parameters e);
  Ok ("Event_" +:+ au_name e +:+ "_" +:+ str_of_Z (au_id e) +:+ " | " +:+ formatted_message).

(** ** Event names ([OperationalEventType], [AuditRecordType]) *)

Definition DATASET_LOAD_COMPLETED : string := "DATASET_LOAD_COMPLETED".
Definition DATASET_LOAD_FAILED : string := "DATASET_LOAD_FAILED".
Definition DATASET_LOAD_STARTED : string := "DATASET_LOAD_STARTED".
Definition DATASET_WRITE_COMPLETED : string := "DATASET_WRITE_COMPLETED".
Definition DATASET_WRITE_FAILED : string := "DATASET_WRITE_FAILED".
Definition DATASET_WRITE_STARTED : string := "DATASET_WRITE_STARTED".
Definition QUERY_COMPLETED : string := "QUERY_COMPLETED".
Definition QUERY_EXECUTION_COMPLETED : string := "QUERY_EXECUTION_COMPLETED".
Definition QUERY_EXECUTION_FAILED : string := "QUERY_EXECUTION_FAILED".
Definition QUERY_EXECUTION_STARTED : string := "QUERY_EXECUTION_STARTED".
Definition QUERY_FAILED : string := "QUERY_FAILED".
Definition QUERY_SEGMENT_EXECUTION_COMPLETED : string := "QUERY_SEGMENT_EXECUTION_COMPLETED".
Definition QUERY_SEGMENT_EXECUTION_FAILED : string := "QUERY_SEGMENT_EXECUTION_FAILED".
Definition QUERY_SEGMENT_EXECUTION_STARTED : string := "QUERY_SEGMENT_EXECUTION_STARTED".

(** ** [OperationalEventFactory] *)

Definition event_DatasetLoadCompleted (dataset_name dataset_path row_count : string) : OperationalEvent :=
  {| op_id := 1002; op_name := DATASET_LOAD_COMPLETED;
     op_message := "Dataset {dataset_name} loaded successfully from {dataset_path} with {row_count} rows";
     op_parameters := [("dataset_name", dataset_name); ("dataset_path", dataset_path); ("row_count", row_count)] |}.

Definition event_DatasetLoadFailed (dataset_name dataset_path error : string) : OperationalEvent :=
  {| op_id := 1003; op_name := DATASET_LOAD_FAILED;
     op_message := "Failed to load dataset {dataset_name} from {dataset_path}: {error}";
     op_parameters := [("dataset_name", dataset_name); ("dataset_path", dataset_path); ("error", error)] |}.

Definition event_DatasetLoadStarted (dataset_name dataset_path end_date start_date : string) : OperationalEvent :=
  {| op_id := 1001; op_name := DATASET_LOAD_STARTED;
     op_message := "Started loading dataset {dataset_name} from {dataset_path} for start_date: {start_date}, end_date: {end_date}";
     op_parameters := [("dataset_name", dataset_name); ("dataset_path", dataset_path); ("end_date", end_date); ("start_date", start_date)] |}.

Definition event_DatasetWriteCompleted (dataset_name output_path row_count : string) : OperationalEvent :=
  {| op_id := 1005; op_name := DATASET_WRITE_COMPLETED;
     op_message := "Output to datasink {dataset_name} written successfully at {output_path} with {row_count} rows";
     op_parameters := [("dataset_name", dataset_name); ("output_path", output_path); ("row_count", row_count)] |}.

Definition event_DatasetWriteFailed (dataset_name error output_path : string) : OperationalEvent :=
  {| op_id := 1006; op_name := DATASET_WRITE_FAILED;
     op_message := "Failed to write dataset {dataset_name} to {output_path}: {error}";
     op_parameters := [("dataset_name", dataset_name); ("error", error); ("output_path", output_path)] |}.

Definition event_DatasetWriteStarted (dataset_name output_path : string) : OperationalEvent :=
  {| op_id := 1004; op_name := DATASET_WRITE_STARTED;
     op_message := "Started writing dataset {dataset_name} to {output_path}";
     op_parameters := [("dataset_name", dataset_name); ("output_path", output_path)] |}.

Definition event_QueryExecutionCompleted (duration_sec : string) : OperationalEvent :=
  {| op_id := 1011; op_name := QUERY_EXECUTION_COMPLETED;
     op_message := "Query execution completed successfully in {duration_sec} seconds";
     op_parameters := [("duration_sec", duration_sec)] |}.

Definition event_QueryExecutionFailed (error : string) : OperationalEvent :=
  {| op_id := 1012; op_name := QUERY_EXECUTION_FAILED;
     op_message := "Query execution failed: {error}";
     op_parameters := [("error", error)] |}.

Definition event_QueryExecutionStarted : OperationalEvent :=
  {| op_id := 1010; op_name := QUERY_EXECUTION_STARTED;
     op_message := "Query execution started";
     op_parameters := [] |}.

Definition event_QuerySegmentExecutionCompleted (row_count step_number : string) : OperationalEvent :=
  {| op_id := 1008; op_name := QUERY_SEGMENT_EXECUTION_COMPLETED;
     op_message := "Query segment in step {step_number} completed with {row_count} rows";
     op_parameters := [("row_count", row_count); ("step_number", step_number)] |}.

Definition event_QuerySegmentExecutionFailed (error step_number : string) : OperationalEvent :=
  {| op_id := 1009; op_name := QUERY_SEGMENT_EXECUTION_FAILED;
     op_message := "Query segment in step {step_number} failed with error: {error}";
     op_parameters := [("error", error); ("step_number", step_number)] |}.

Definition event_QuerySegmentExecutionStarted (step_number : string) : OperationalEvent :=
  {| op_id := 1007; op_name := QUERY_SEGMENT_EXECUTION_STARTED;
     op_message := "Started executing query segment in step {step_number}";
     op_parameters := [("step_number", step_number)] |}.

(** ** [AuditRecordFactory] *)

Definition audit_DatasetLoadCompleted (source dataset_name job_id : string) : AuditRecord :=
  {| au_id := 3001; au_source := source; au_name := DATASET_LOAD_COMPLETED;
     au_message := "Dataset: {dataset_name} load completed successfully | job id: {job_id}";
     au_parameters := [("dataset_name", dataset_name); ("job_id", job_id)] |}.

Definition audit_DatasetLoadFailed (source dataset_name job_id : string) : AuditRecord :=
  {| au_id := 3002; au_source := source; au_name := DATASET_LOAD_FAILED;
     au_message := "Dataset: {dataset_name} load failed | job id: {job_id}";
     au_parameters := [("dataset_name", dataset_name); ("job_id", job_id)] |}.

Definition audit_DatasetWriteCompleted (source dataset_name destination job_id row_count : string) : AuditRecord :=
  {| au_id := 3005; au_source := source; au_name := DATASET_WRITE_COMPLETED;
     au_message := "Dataset write completed successfully to {destination} | dataset: {dataset_name} | rows: {row_count} | job id: {job_id}";
     au_parameters := [("dataset_name", dataset_name); ("destination", destination); ("job_id", job_id); ("row_count", row_count)] |}.

Definition audit_DatasetWriteFailed (source dataset_name destination job_id reason : string) : AuditRecord :=
  {| au_id := 3006; au_source := source; au_name := DATASET_WRITE_FAILED;
     au_message := "Dataset write failed to {destination} | dataset: {dataset_name} | job id: {job_id} | reason: {reason}";
     au_parameters := [("dataset_name", dataset_name); ("destination", destination); ("job_id", job_id); ("reason", reason)] |}.

Definition audit_QueryCompleted (source job_id : string) : AuditRecord :=
  {| au_id := 3003; au_source := source; au_name := QUERY_COMPLETED;
     au_message := "Query execution completed successfully | job id: {job_id}";
     au_parameters := [("job_id", job_id)] |}.

Definition audit_QueryFailed (source job_id reason : string) : AuditRecord :=
  {| au_id := 3004; au_source := source; au_name := QUERY_FAILED;
     au_message := "Query failed | job id: {job_id} | reason: {reason}";
     au_parameters := [("job_id", job_id); ("reason", reason)] |}.

(** ** Statistics *)

Definition QUERY_STATISTICS : string := "QUERY_STATISTICS".

Record StatisticsEvent := { se_type : string; se_data_base64 : string }.

Record QueryStatisticsData := {
  duration_sec : float;
  num_rows_read : Z;
  num_rows_written : Z
}.

(** [StatisticsEventFactory.QueryStatistics]: [json.dumps] of the three fields in
    order; [float_repr] prints the duration. *)
Definition statistics_text (float_repr : float -> string) (d : QueryStatisticsData) : string :=
  "{" +:+ quote "duration_sec" +:+ ": " +:+ float_repr (duration_sec d)
  +:+ ", " +:+ quote "num_rows_read" +:+ ": " +:+ str_of_Z (num_rows_read d)
  +:+ ", " +:+ quote "num_rows_written" +:+ ": " +:+ str_of_Z (num_rows_written d) +:+ "}".

Definition event_QueryStatistics (float_repr : float -> string) (duration : float)
    (rows_read rows_written : Z) : StatisticsEvent :=
  let data := {| duration_sec := duration; num_rows_read := rows_read; num_rows_written := rows_written |} in
  {| se_type := QUERY_STATISTICS;
     se_data_base64 := b64encode (utf8_encode (statistics_text float_repr data)) |}.

(** ** Templates

    A template is the text of a list of pieces; formatting it inserts each
    parameter verbatim. *)

Inductive piece := Lit (s : string) | Field (name : string).

Fixpoint escape_braces (s : string) : string :=
  match s with
  | "" => ""
  | String c t =>
      if bool_decide (c = "{"%char \/ c = "}"%char) then String c (String c (escape_braces t))
      else String c (escape_braces t)
  end.

Definition piece_text (p : piece) : string :=
  match p with Lit s => escape_braces s | Field n => "{" +:+ n +:+ "}" end.

Definition template (ps : list piece) : string := foldr (fun p s => piece_text p +:+ s) "" ps.

(** What the template means. *)
Fixpoint render (params : list (string * string)) (ps : list piece) : res string :=
  match ps with
  | [] => Ok ""
  | Lit s :: ps' => r ← render params ps'; Ok (s +:+ r)
  | Field n :: ps' =>
      v ← of_option (KeyError n) (dict_lookup n params);
      r ← render params ps'; Ok (v +:+ r)
  end.

(** A keyword name: not a position, and free of the characters that end a
    name. *)
Definition plain_char (c : ascii) : bool :=
  negb (bool_decide (c = "}"%char)) && negb (special_in_field c).

Definition field_name_ok (n : string) : bool :=
  negb (str_forall is_digit n) && str_forall plain_char n.

Definition piece_ok (p : piece) : bool := match p with Lit _ => true | Field n => field_name_ok n end.

Lemma format_lit params s t :
  format_go params None (escape_braces s +:+ t) =
  (r ← format_go params None t; Ok (s +:+ r)).
Proof.
  induction s as [|c s IH]; cbn [escape_braces].
  - change ("" +:+ t) with t. destruct (format_go params None t); reflexivity.
  - case_bool_decide as Hc; rewrite !string_app_cons.
    + transitivity (r ← format_go params None (escape_braces s +:+ t); Ok (String c r)).
      * by destruct Hc as [-> | ->].
      * rewrite IH. by destruct (format_go params None t).
    + cbn [format_go]. rewrite !bool_decide_false by naive_solver.
      rewrite IH. by destruct (format_go params None t).
Qed.

Lemma format_name params n acc t : str_forall plain_char n = true ->
  format_go params (Some acc) (n +:+ String "}" t) =
  (v ← field_value params (acc +:+ n); r ← format_go params None t; Ok (v +:+ r)).
Proof.
  revert acc. induction n as [|c n IH]; intros acc; cbn [str_forall].
  - intros _. cbn. by rewrite string_app_nil_r.
  - intros [Hc Hn]%andb_true_iff. unfold plain_char in Hc. apply andb_true_iff in Hc as [H1 H2].
    rewrite string_app_cons. cbn [format_go].
    apply negb_true_iff in H1, H2. rewrite H1, H2, IH by done.
    by rewrite string_app_assoc.
Qed.

Lemma format_field params n t : field_name_ok n = true ->
  format_go params None ("{" +:+ n +:+ "}" +:+ t) =
  (v ← of_option (KeyError n) (dict_lookup n params); r ← format_go params None t; Ok (v +:+ r)).
Proof.
  unfold field_name_ok. intros [Hd Hn]%andb_true_iff. apply negb_true_iff in Hd.
  transitivity (format_go params (Some "") (n +:+ String "}" t)).
  - destruct n as [|c n]; [done|]. cbn [str_forall] in Hn.
    apply andb_true_iff in Hn as [Hc _]. unfold plain_char, special_in_field in Hc.
    apply andb_true_iff in Hc as [_ Hc]. apply negb_true_iff, bool_decide_eq_false in Hc.
    change ("{" +:+ String c n +:+ "}" +:+ t) with (String "{" (String c (n +:+ String "}" t))).
    cbn [format_go]. rewrite bool_decide_true by done.
    rewrite (bool_decide_false (c = "{"%char)) by naive_solver. done.
  - rewrite format_name by done. unfold field_value. cbn [String.append].
    change (EmptyString +:+ n) with n. by rewrite Hd.
Qed.

(** [str.format] on a template: literal text with doubled braces comes out
    as written, each named field becomes its parameter's value verbatim
    (braces inside a value are not read again), and the first missing
    parameter raises [KeyError]. *)
Theorem format_template params ps : forallb piece_ok ps = true ->
  py_format (template ps) params = render params ps.
Proof.
  unfold py_format. induction ps as [|[s|n] ps IH]; cbn [forallb piece_ok template foldr piece_text render];
    [done|..].
  - intros H. change (foldr _ "" ps) with (template ps). by rewrite format_lit, IH.
  - intros [Hn H]%andb_true_iff. change (foldr _ "" ps) with (template ps).
    rewrite !string_app_assoc, format_field by done. by rewrite IH.
Qed.

Lemma format_template_witness :
  py_format (template [Lit "rows {x}: "; Field "row_count"]) [("row_count", "{error}")]
  = Ok "rows {x}: {error}".
Proof. rewrite format_template; [reflexivity | vm_compute; reflexivity]. Defined.

(** ** Every factory event prints its documented message *)

(** The message of each operational event the factory makes is the text
    its documentation gives, with the arguments in place; printing never
    raises, whatever the arguments contain. *)
Theorem operational_messages (a b c d : string) :
  op_get_message (event_DatasetLoadStarted a b d c)
    = Ok ("Event_1001 | Started loading dataset " +:+ a +:+ " from " +:+ b +:+ " for start_date: " +:+ c
          +:+ ", end_date: " +:+ d +:+ "") /\
  op_get_message (event_DatasetLoadCompleted a b c)
    = Ok ("Event_1002 | Dataset " +:+ a +:+ " loaded successfully from " +:+ b +:+ " with " +:+ c +:+ " rows") /\
  op_get_message (event_DatasetLoadFailed a b c)
    = Ok ("Event_1003 | Failed to load dataset " +:+ a +:+ " from " +:+ b +:+ ": " +:+ c +:+ "") /\
  op_get_message (event_DatasetWriteStarted a b)
    = Ok ("Event_1004 | Started writing dataset " +:+ a +:+ " to " +:+ b +:+ "") /\
  op_get_message (event_DatasetWriteCompleted a b c)
    = Ok ("Event_1005 | Output to datasink " +:+ a +:+ " written successfully at " +:+ b +:+ " with " +:+ c +:+ " rows") /\
  op_get_message (event_DatasetWriteFailed a c b)
    = Ok ("Event_1006 | Failed to write dataset " +:+ a +:+ " to " +:+ b +:+ ": " +:+ c +:+ "") /\
  op_get_message (event_QuerySegmentExecutionStarted a)
    = Ok ("Event_1007 | Started executing query segment in step " +:+ a +:+ "") /\
  op_get_message (event_QuerySegmentExecutionCompleted b a)
    = Ok ("Event_1008 | Query segment in step " +:+ a +:+ " completed with " +:+ b +:+ " rows") /\
  op_get_message (event_QuerySegmentExecutionFailed b a)
    = Ok ("Event_1009 | Query segment in step " +:+ a +:+ " failed with error: " +:+ b +:+ "") /\
  op_get_message event_QueryExecutionStarted = Ok "Event_1010 | Query execution started" /\
  op_get_message (event_QueryExecutionCompleted a)
    = Ok ("Event_1011 | Query execution completed successfully in " +:+ a +:+ " seconds") /\
  op_get_message (event_QueryExecutionFailed a) = Ok ("Event_1012 | Query execution failed: " +:+ a +:+ "").
Proof. repeat split; reflexivity. Qed.

(** Audit records print the same way, with the record's name before its id. *)
Lemma audit_messages (source a b c d : string) :
  au_get_message (audit_DatasetLoadCompleted source a b)
    = Ok ("Event_DATASET_LOAD_COMPLETED_3001 | Dataset: " +:+ a +:+ " load completed successfully | job id: " +:+ b +:+ "") /\
  au_get_message (audit_DatasetLoadFailed source a b)
    = Ok ("Event_DATASET_LOAD_FAILED_3002 | Dataset: " +:+ a +:+ " load failed | job id: " +:+ b +:+ "") /\
  au_get_message (audit_QueryCompleted source a)
    = Ok ("Event_QUERY_COMPLETED_3003 | Query execution completed successfully | job id: " +:+ a +:+ "") /\
  au_get_message (audit_QueryFailed source a b)
    = Ok ("Event_QUERY_FAILED_3004 | Query failed | job id: " +:+ a +:+ " | reason: " +:+ b +:+ "") /\
  au_get_message (audit_DatasetWriteCompleted source a b c d)
    = Ok ("Event_DATASET_WRITE_COMPLETED_3005 | Dataset write completed successfully to " +:+ b +:+ " | dataset: "
          +:+ a +:+ " | rows: " +:+ d +:+ " | job id: " +:+ c +:+ "") /\
  au_get_message (audit_DatasetWriteFailed source a b c d)
    = Ok ("Event_DATASET_WRITE_FAILED_3006 | Dataset write failed to " +:+ b +:+ " | dataset: " +:+ a
          +:+ " | job id: " +:+ c +:+ " | reason: " +:+ d +:+ "").
Proof. repeat split; reflexivity. Qed.
