(* ===== verification/AiOptimizer.v ===== *)
(** * The AI optimizer client

    [clients/ai_optimizer_client.py]: the prompt, the request to the model and
    the extraction of a resource configuration from its reply.  The HTTP
    client ([requests]) is the parameter [http_post]: it answers a status code
    and what [response.json()] gives.  [json.loads] followed by pydantic's
    construction of [OptimizedResourceConfig] is the parameter [load_config],
    because the numbers of a configuration are floats. *)

From S2P Require Import Prelude PyStr Json JsonFacts PyFloat Settings CleanroomModels.
From Stdlib Require Import Ascii Lia.

Record OptimizedResourceConfig := {
  driver_cores : float;
  driver_memory : string;
  executor_cores : float;
  executor_memory : string;
  executor_instances_min : Z;
  executor_instances_max : Z;
  reasoning : option string
}.

(** ** Searching and slicing *)

(** [s.find(needle, start)] *)
Definition py_find (needle s : string) (start : nat) : Z :=
  match String.index start needle s with Some i => Z.of_nat i | None => (-1)%Z end.

(** [s.rfind(c)] *)
Fixpoint rfind_char (c : ascii) (s : string) : Z :=
  match s with
  | "" => (-1)%Z
  | String d t =>
      let r := rfind_char c t in
      if (0 <=? r)%Z then (r + 1)%Z else if bool_decide (c = d) then 0%Z else (-1)%Z
  end.

(** A slice bound, counted from the end when negative. *)
Definition slice_bound (len : nat) (i : Z) : nat :=
  Nat.min len (Z.to_nat (if (i <? 0)%Z then i + Z.of_nat len else i)).

(** [s[i:j]] *)
Definition py_slice (s : string) (i j : Z) : string :=
  let len := String.length s in
  String.substring (slice_bound len i) (slice_bound len j - slice_bound len i) s.

(** ** The prompt *)

(** Double quotes are written as single ones, of which the text has none. *)
Definition prompt_text (s : string) : string := replace_char "'" (String dquote "") s.

Definition build_prompt (query dataset_info : string) : string :=
  "You are an Apache Spark resource optimization expert. Given a SQL query and dataset information, recommend optimal Spark driver and executor configurations.

SQL Query:
" +:+ query +:+ "

Dataset Info:
" +:+ dataset_info +:+ prompt_text "

Provide recommendations for:
1. Driver cores (float, e.g., 1.0, 2.0)
2. Driver memory (string with unit, e.g., '1g', '2g', '4g')
3. Executor cores (float, e.g., 1.0, 2.0, 4.0)
4. Executor memory (string with unit, e.g., '1g', '2g', '4g')
5. Minimum executor instances (integer)
6. Maximum executor instances (integer)

Respond ONLY with a valid JSON object in this exact format:
{
    'driverCores': <float>,
    'driverMemory': '<memory>',
    'executorCores': <float>,
    'executorMemory': '<memory>',
    'executorInstancesMin': <int>,
    'executorInstancesMax': <int>,
    'reasoning': '<brief explanation>'
}

Example: {'driverCores': 2.0, 'driverMemory': '2g', 'executorCores': 2.0, 'executorMemory': '2g', 'executorInstancesMin': 2, 'executorInstancesMax': 4, 'reasoning': 'Medium query complexity with aggregations'}".

(** ** The reply *)

(** [k in j] for a string key. *)
Definition json_contains (k : string) (j : json) : res bool :=
  match j with
  | JObj kvs => Ok (bool_decide (is_Some (dict_lookup k kvs)))
  | JArr l => Ok (existsb (fun x => match x with JStr s => bool_decide (s = k) | _ => false end) l)
  | JStr s => Ok (str_contains k s)
  | _ => Err (TypeError ("argument of type '" +:+ py_type j +:+ "' is not iterable"))
  end.

(** [len(j)] *)
Definition json_len (j : json) : res nat :=
  match j with
  | JObj kvs => Ok (length kvs)
  | JArr l => Ok (length l)
  | JStr s => Ok (String.length s)
  | _ => Err (TypeError ("object of type '" +:+ py_type j +:+ "' has no len()"))
  end.

(** [j[0]] *)
Definition json_at0 (j : json) : res json :=
  match j with
  | JArr (x :: _) => Ok x
  | JArr [] => Err (IndexError "list index out of range")
  | JStr (String c _) => Ok (JStr (String c ""))
  | JStr "" => Err (IndexError "string index out of range")
  | JObj _ => Err (KeyError "0")
  | _ => Err (TypeError ("'" +:+ py_type j +:+ "' object is not subscriptable"))
  end.

(** The assistant's message, [None] when the reply has another shape; the
    conditions are evaluated from left to right. *)
Definition reply_content (result : json) : res (option json) :=
  has_choices ← json_contains "choices" result;
  if negb has_choices then Ok None else
  choices ← json_item result "choices";
  n ← json_len choices;
  if Nat.eqb n 0 then Ok None else
  first ← json_at0 choices;
  has_message ← json_contains "message" first;
  if negb has_message then Ok None else
  message ← json_item first "message";
  content ← json_get message "content" (JStr "");
  Ok (Some content).

Definition fence : string := "```".
Definition json_fence : string := "```json".

(** The text between the fences of a markdown code block, if there is one. *)
Definition strip_fence (response : string) : string :=
  if str_contains json_fence response then
    let start := (py_find json_fence response 0 + 7)%Z in
    let end_ := py_find fence response (Z.to_nat start) in
    strip (py_slice response start end_)
  else if str_contains fence response then
    let start := (py_find fence response 0 + 3)%Z in
    let end_ := py_find fence response (Z.to_nat start) in
    strip (py_slice response start end_)
  else response.

(** The text from the first opening brace to the last closing one. *)
Definition json_object_text (response : string) : option string :=
  let start_idx := py_find "{" response 0 in
  let end_idx := (rfind_char "}" response + 1)%Z in
  if (0 <=? start_idx)%Z && (start_idx <? end_idx)%Z
  then Some (py_slice response start_idx end_idx) else None.

Section Client.
Context {W : Type}.
Context (http_post : string -> json -> M W (Z * res json)).
Context (load_config : string -> res OptimizedResourceConfig).

(** Every exception of the body ends in [None]; a reply that is not a string
    fails at [find]. *)
Definition parse_response (response : json) : option OptimizedResourceConfig :=
  match response with
  | JStr r =>
      match json_object_text (strip_fence r) with
      | Some json_str =>
          match load_config json_str with Ok config => Some config | Err _ => None end
      | None => None
      end
  | _ => None
  end.

Definition model_payload (prompt : string) : json :=
  JObj [("model", JStr "llama-3.1-8b-instruct");
        ("messages", JArr [JObj [("role", JStr "user"); ("content", JStr prompt)]])].

Definition call_ai_model (endpoint prompt : string) : M W (option json) :=
  try_except
    (response ← http_post (endpoint +:+ "/v1/chat/completions") (model_payload prompt);
     if (response.1 =? 200)%Z then
       result ← lift response.2; lift (reply_content result)
     else mret None)
    (fun _ => mret None).

Definition get_optimized_config (endpoint query dataset_info : string)
  : M W (option OptimizedResourceConfig) :=
  try_except
    (response ← call_ai_model endpoint (build_prompt query dataset_info);
     mret (match response with
           | Some r => if json_truthy r then parse_response r else None
           | None => None
           end))
    (fun _ => mret None).
End Client.

(** ** Searching in a text *)

Definition lacks (c : ascii) (s : string) : bool := str_forall (fun d => negb (bool_decide (d = c))) s.

Lemma index_skip c n a s : lacks c a = true ->
  String.index 0 (String c n) (a +:+ s)
  = (fun i => String.length a + i) <$> String.index 0 (String c n) s.
Proof.
  induction a as [|d a IH]; intros Ha.
  - change ("" +:+ s) with s. by destruct (String.index 0 (String c n) s).
  - unfold lacks in Ha. cbn [str_forall] in Ha. apply andb_true_iff in Ha as [Hd Ha].
    apply negb_true_iff, bool_decide_eq_false in Hd.
    rewrite string_app_cons. cbn [String.index String.prefix].
    destruct (ascii_dec c d) as [->|_]; [done|]. rewrite IH by done.
    by destruct (String.index 0 (String c n) s).
Qed.

Lemma index_app n a s : n <> "" ->
  String.index (String.length a) n (a +:+ s) = (fun i => String.length a + i) <$> String.index 0 n s.
Proof.
  intros Hn. induction a as [|d a IH].
  - change ("" +:+ s) with s. cbn [String.length]. by destruct (String.index 0 n s).
  - rewrite string_app_cons. cbn [String.length String.index]. rewrite IH.
    by destruct (String.index 0 n s).
Qed.

Lemma prefix_app n s : String.prefix n (n +:+ s) = true.
Proof.
  induction n as [|c n IH]; [by destruct s|]. rewrite string_app_cons. cbn.
  by destruct (ascii_dec c c).
Qed.

Lemma index_prefix c n s : String.index 0 (String c n) (String c n +:+ s) = Some 0.
Proof. pose proof (prefix_app (String c n) s) as H. rewrite string_app_cons in *. cbn [String.index]. by rewrite H. Qed.

(** The first occurrence of [n] after a part that lacks its first character. *)
Lemma index_first c n a s : lacks c a = true ->
  String.index 0 (String c n) (a +:+ String c n +:+ s) = Some (String.length a).
Proof. intros H. rewrite index_skip, index_prefix by done. cbn. by rewrite Nat.add_0_r. Qed.

Lemma rfind_lacks c s : lacks c s = true -> rfind_char c s = (-1)%Z.
Proof.
  induction s as [|d s IH]; [done|]. unfold lacks. cbn [str_forall].
  intros [Hd Hs]%andb_true_iff. apply negb_true_iff, bool_decide_eq_false in Hd.
  cbn [rfind_char]. rewrite IH by done. cbn. by rewrite bool_decide_false by congruence.
Qed.

Lemma rfind_app c a s : (0 <= rfind_char c s)%Z ->
  rfind_char c (a +:+ s) = (Z.of_nat (String.length a) + rfind_char c s)%Z.
Proof.
  intros Hs. induction a as [|d a IH]; [change ("" +:+ s) with s; cbn; lia|].
  rewrite string_app_cons. cbn [rfind_char String.length]. rewrite IH.
  destruct (Z.leb_spec 0 (Z.of_nat (String.length a) + rfind_char c s)); lia.
Qed.

Lemma rfind_last c a s : lacks c s = true ->
  rfind_char c (a +:+ String c s) = Z.of_nat (String.length a).
Proof.
  intros Hs.
  assert (H0 : rfind_char c (String c s) = 0%Z).
  { cbn [rfind_char]. rewrite rfind_lacks by done. cbn. by rewrite bool_decide_true. }
  rewrite rfind_app; rewrite H0; lia.
Qed.

Lemma substring_app a m s : String.substring (String.length a) (String.length m) (a +:+ m +:+ s) = m.
Proof.
  induction a as [|d a IH].
  - change ("" +:+ m +:+ s) with (m +:+ s). induction m as [|e m IH]; [by destruct s|].
    rewrite string_app_cons. cbn in *. by rewrite IH.
  - rewrite string_app_cons. by cbn [String.length String.substring].
Qed.

Lemma py_slice_app a m s :
  py_slice (a +:+ m +:+ s) (Z.of_nat (String.length a)) (Z.of_nat (String.length a + String.length m)) = m.
Proof.
  unfold py_slice, slice_bound. rewrite !string_length_app.
  rewrite !(proj2 (Z.ltb_ge _ 0)) by lia. rewrite !Nat2Z.id.
  rewrite !Nat.min_r by lia.
  replace (String.length a + String.length m - String.length a) with (String.length m) by lia.
  apply substring_app.
Qed.

(** ** Extraction of the configuration *)

(** The text of a JSON object. *)
Definition braced (inner : string) : string := String "{" (inner +:+ "}").

Lemma object_text_found a inner b : lacks "{" a = true -> lacks "}" b = true ->
  json_object_text (a +:+ braced inner +:+ b) = Some (braced inner).
Proof.
  intros Ha Hb. unfold json_object_text.
  assert (Hf : py_find "{" (a +:+ braced inner +:+ b) 0 = Z.of_nat (String.length a)).
  { unfold py_find, braced. rewrite string_app_cons.
    change (String "{" ((inner +:+ "}") +:+ b)) with ("{" +:+ ((inner +:+ "}") +:+ b)).
    by rewrite index_first. }
  assert (Hl : (rfind_char "}" (a +:+ braced inner +:+ b) + 1)%Z
               = Z.of_nat (String.length a + String.length (braced inner))).
  { unfold braced. rewrite string_app_cons, string_app_assoc.
    change ("}" +:+ b) with (String "}" b).
    change (String "{" (inner +:+ String "}" b)) with (String "{" inner +:+ String "}" b).
    rewrite <- string_app_assoc, rfind_last by done.
    rewrite string_length_app. cbn [String.length]. rewrite string_length_app. cbn [String.length]. lia. }
  rewrite Hf, Hl. unfold braced at 1.
  rewrite (proj2 (Z.leb_le 0 _)) by lia. rewrite (proj2 (Z.ltb_lt _ _)) by (cbn [String.length]; lia).
  cbn [andb]. by rewrite py_slice_app.
Qed.

Lemma lstrip_app a c s : is_space c = false ->
  exists a', lstrip (a +:+ String c s) = a' +:+ String c s /\ forall P, str_forall P a = true -> str_forall P a' = true.
Proof.
  intros Hc. induction a as [|d a (a' & IH & HP)].
  - exists "". split; [|done]. change ("" +:+ String c s) with (String c s). cbn. by rewrite Hc.
  - rewrite string_app_cons. cbn [lstrip]. destruct (is_space d).
    + exists a'. split; [done|]. intros P. cbn. intros [_ H]%andb_true_iff. by apply HP.
    + by exists (String d a).
Qed.

Lemma rstrip_last s c b : is_space c = false ->
  exists b', rstrip (s +:+ String c b) = s +:+ String c b' /\ forall P, str_forall P b = true -> str_forall P b' = true.
Proof.
  intros Hc. induction s as [|d s (b' & IH & HP)].
  - change ("" +:+ String c b) with (String c b). cbn [rstrip].
    assert (Hb : forall P, str_forall P b = true -> str_forall P (rstrip b) = true).
    { intros P. clear Hc. induction b as [|e b IH]; [done|]. cbn [str_forall rstrip].
      intros [He Hb]%andb_true_iff. specialize (IH Hb).
      destruct (rstrip b) as [|f t]; [|cbn in *; by rewrite He].
      destruct (is_space e); [done|]. cbn. by rewrite He. }
    exists (rstrip b). split; [|done]. destruct (rstrip b); [by rewrite Hc|done].
  - exists b'. split; [|done]. rewrite !string_app_cons. cbn [rstrip]. rewrite IH.
    destruct s; [done|]. by rewrite string_app_cons.
Qed.

Lemma strip_keeps_object a inner b : lacks "{" a = true -> lacks "}" b = true ->
  exists a' b', strip (a +:+ braced inner +:+ b) = a' +:+ braced inner +:+ b' /\
    lacks "{" a' = true /\ lacks "}" b' = true.
Proof.
  intros Ha Hb. unfold strip, braced. rewrite string_app_cons.
  destruct (lstrip_app a "{"%char ((inner +:+ "}") +:+ b) eq_refl) as (a' & -> & Ha').
  rewrite string_app_assoc. change ("}" +:+ b) with (String "}" b).
  change (String "{" (inner +:+ String "}" b)) with (String "{" inner +:+ String "}" b).
  rewrite <- string_app_assoc.
  destruct (rstrip_last (a' +:+ String "{" inner) "}"%char b eq_refl) as (b' & -> & Hb').
  exists a', b'. split_and!; [|by apply Ha'|by apply Hb'].
  rewrite !string_app_assoc, !string_app_cons, !string_app_assoc. reflexivity.
Qed.

Lemma lacks_app c a b : lacks c (a +:+ b) = lacks c a && lacks c b.
Proof. apply str_forall_app. Qed.

Lemma strip_fence_plain r : lacks "`" r = true -> strip_fence r = r.
Proof.
  intros Hr.
  assert (forall n, String.index 0 (String "`" n) r = None) as Hn.
  { intros n. rewrite <- (string_app_nil_r r), index_skip by done. by destruct n. }
  unfold strip_fence, str_contains, json_fence, fence. by rewrite !Hn.
Qed.

Lemma strip_fence_json pre body post : lacks "`" pre = true -> lacks "`" body = true ->
  strip_fence (pre +:+ json_fence +:+ body +:+ fence +:+ post) = strip body.
Proof.
  intros Hp Hb. unfold strip_fence, str_contains, py_find.
  assert (H0 : String.index 0 json_fence (pre +:+ json_fence +:+ body +:+ fence +:+ post)
               = Some (String.length pre)) by (by apply index_first).
  rewrite H0.
  set (start := pre +:+ json_fence).
  assert (Hs : (Z.of_nat (String.length pre) + 7)%Z = Z.of_nat (String.length start))
    by (unfold start; rewrite string_length_app; cbn [String.length json_fence]; lia).
  rewrite Hs, Nat2Z.id.
  assert (Ht : pre +:+ json_fence +:+ body +:+ fence +:+ post = start +:+ body +:+ fence +:+ post)
    by (unfold start; by rewrite string_app_assoc).
  rewrite Ht, index_app by done.
  assert (H1 : String.index 0 fence (body +:+ fence +:+ post) = Some (String.length body))
    by (by apply index_first).
  rewrite H1. cbn [fmap option_fmap option_map]. by rewrite py_slice_app.
Qed.

(** The reply of a model: prose around a JSON object, either bare or inside a
    json code block. *)
Inductive reply_layout (before obj after : string) : string -> Prop :=
| Bare : lacks "`" (before +:+ obj +:+ after) = true ->
    reply_layout before obj after (before +:+ obj +:+ after)
| Fenced pre post : lacks "`" pre = true -> lacks "`" (before +:+ obj +:+ after) = true ->
    reply_layout before obj after (pre +:+ json_fence +:+ (before +:+ obj +:+ after) +:+ fence +:+ post).

(** From a reply that holds one JSON object, bare in the prose or inside a
    json code block, the optimizer client loads exactly that object's text. *)
Theorem parse_response_extracts load_config before inner after reply :
  reply_layout before (braced inner) after reply ->
  lacks "{" before = true -> lacks "}" after = true ->
  parse_response load_config (JStr reply)
  = match load_config (braced inner) with Ok c => Some c | Err _ => None end.
Proof.
  intros [Hbt | pre post Hp Hbt] Hb Ha; cbn [parse_response].
  - by rewrite strip_fence_plain, object_text_found.
  - rewrite strip_fence_json by done.
    destruct (strip_keeps_object before inner after Hb Ha) as (b' & a' & -> & Hb' & Ha').
    by rewrite object_text_found.
Qed.

Definition demo_optimized : OptimizedResourceConfig :=
  {| driver_cores := of_int 2; driver_memory := "2g"; executor_cores := of_int 4; executor_memory := "8g";
     executor_instances_min := 2; executor_instances_max := 6; reasoning := Some "joins" |}.

Definition demo_load (s : string) : res OptimizedResourceConfig :=
  if decide (s = "{cfg}") then Ok demo_optimized else Err (ValueError "Expecting value").

Lemma parse_response_extracts_witness :
  parse_response demo_load (JStr "Here: ```json {cfg} ``` done") = Some demo_optimized.
Proof.
  change "Here: ```json {cfg} ``` done"
    with ("Here: " +:+ json_fence +:+ (" " +:+ braced "cfg" +:+ " ") +:+ fence +:+ " done").
  rewrite (parse_response_extracts demo_load " " "cfg" " ");
    [reflexivity | constructor; reflexivity | reflexivity | reflexivity].
Defined.

(** A code block that is never closed loses its last character, and with it
    the object's closing brace. *)
Lemma open_fence_loses_brace load_config :
  parse_response load_config (JStr (json_fence +:+ braced "cfg")) = None.
Proof. reflexivity. Qed.

(** The optimizer client never raises. *)
Lemma get_optimized_config_total {W} http_post load_config endpoint query info (w : W) :
  exists w' o, get_optimized_config http_post load_config endpoint query info w = (w', Ok o).
Proof.
  unfold get_optimized_config, call_ai_model. rewrite try_except_run, M_bind_run, try_except_run, M_bind_run.
  destruct (http_post _ _ w) as [w1 [[code result]|e]]; [|eexists _, _; done].
  cbn [fst snd]. destruct (code =? 200)%Z; [|eexists _, _; done].
  rewrite M_bind_run. unfold lift. destruct result as [j|e]; [|eexists _, _; done].
  destruct (reply_content j); eexists _, _; done.
Qed.
