(* ===== verification/Frontend.v ===== *)
(** * The Spark front end's HTTP service

    [main.py]: the handlers that submit jobs, report their status and record
    their runs, events and statistics; the middleware, the error handler and
    the start-up sequence.  The outside world is the parameter [FrontendEnv]:
    the Kubernetes API, the API of the job records with its retry loop, the
    environment of the application builder, the HTTP client, the clock, uuids,
    and pydantic's parsing of statistics.  The response dictionaries that hold
    floats or pydantic objects are records here. *)

From S2P Require Import Prelude PyStr Base64 Json JsonFacts Template PyFloat SparkModels Settings Helpers CleanroomModels AppBuilder Metrics KubeClient SparkBuilder Scheduler Webhooks JobModels JobRecordClient Contracts AiOptimizer.

(** ** The outside world *)

Record FrontendEnv (W : Type) := {
  fe_kube : KubeApi W;
  fe_validate_status : json -> res SparkApplicationStatus;
  fe_records : JobRecordApi W;
  fe_tenacity : Tenacity W;
  fe_spark : SparkEnv W;
  fe_http_post : string -> json -> M W (Z * res json);
  fe_load_config : string -> res OptimizedResourceConfig;
  fe_validate_stats : string -> res QueryStatisticsData;
  fe_time : M W Z;
  fe_uuid4 : M W string
}.
Arguments fe_kube {W}.
Arguments fe_validate_status {W}.
Arguments fe_records {W}.
Arguments fe_tenacity {W}.
Arguments fe_spark {W}.
Arguments fe_http_post {W}.
Arguments fe_load_config {W}.
Arguments fe_validate_stats {W}.
Arguments fe_time {W}.
Arguments fe_uuid4 {W}.

(** ** Responses *)

Inductive SubmitResponse :=
| JobSubmitted (id : string)
| DryRun (jobId : string) (optimizationUsed : bool) (optimizer_reasoning : option string)
    (skuSettings : SkuSettings).

Record SecurityPolicyResponse := { resp_driver : Policy; resp_executor : Policy }.

Record EventInfo := {
  ei_name : option string;
  ei_reason : option string;
  ei_message : option string;
  ei_type : string;
  ei_firstTimestamp : option datetime;
  ei_lastTimestamp : option datetime;
  ei_count : Z
}.

(** [sr_status] is [None] for the placeholder with the state UNKNOWN. *)
Record StatusResponse := {
  sr_id : string;
  sr_status : option SparkApplicationStatus;
  sr_events : list EventInfo
}.

Record JSONResponse := { status_code : Z; content : json }.

(** [except HTTPException: raise; except Exception as e: raise HTTPException(500, ...)] and
    its variants. *)
Definition http_500 {W A} (what : string) (e : exn) : M (FE W) A :=
  raise (HTTPException 500 (what +:+ ": " +:+ exn_str e)).

Definition sql_job (job : JobInput) (q : SQLPart) : JobInput :=
  {| contract_id := contract_id job; datasets := datasets job; datasink := datasink job;
     governance := governance job; sql_part := Some q |}.

(** ** The dataset summary given to the optimizer *)

(** [len(ds.schema_.get("fields", []))]: the schema is a dict of columns. *)
Definition schema_fields (s : list (string * list (string * string))) : nat :=
  match dict_lookup "fields" s with Some column => length column | None => 0 end.

(** An [Enum] member prints with its class name. *)
Definition dataset_line (ds : DatasetInfo) : string :=
  "- " +:+ ds_name ds +:+ ": format=DatasetFormat." +:+ DatasetFormat_value (format ds) +:+ ", "
  +:+ match schema_ ds with
      | Some (c :: cs) => "fields=" +:+ str_of_Z (Z.of_nat (schema_fields (c :: cs)))
      | _ => ""
      end
  +:+ "
".

Definition dataset_info (ds : list DatasetInfo) : string :=
  "Datasets: " +:+ str_of_Z (Z.of_nat (length ds)) +:+ "
" +:+ foldr (fun d s => dataset_line d +:+ s) "" ds.

Definition terminal_states : list ApplicationStateEnum := [Completed; Failed; SubmissionFailed].

Definition event_info (e : CoreV1Event) : EventInfo :=
  {| ei_name := ev_name e; ei_reason := ev_reason e; ei_message := ev_message e; ei_type := ev_type e;
     ei_firstTimestamp := ev_first_timestamp e; ei_lastTimestamp := ev_last_timestamp e;
     ei_count := ev_count e |}.

Section Service.
Context {W : Type} (fe : FrontendEnv W) (config : Configuration).

Definition settings : SparkResourceSettings := resource (cfg_spark config).
Definition ns : string := an_namespace (analytics (cfg_applications config)).
Definition telemetry_of (enable : bool) : option TelemetrySettings :=
  if enable then Some (svc_telemetry (cfg_service config)) else None.

(** ** Submission *)

Definition main_submit_job (provider_type : SparkJobProviderType) (job_id : string) (job : JobInput)
    (namespace : string) (enable_telemetry_collection : bool) (tags : option (list (string * string)))
    (override_sku_settings : option SkuSettings) : M (FE W) SubmitResponse := fun s =>
  let '(s', r) :=
    (spark_spec ← in_world (to_spark_spec (fe_spark fe) config provider_type job_id job
                              (telemetry_of enable_telemetry_collection) override_sku_settings);
     let job_name := spec_name (cr_spec spark_spec) in
     _ ← KubeClient.submit_job (fe_kube fe) settings (fe_validate_status fe) job_name namespace spark_spec tags;
     mret (JobSubmitted job_name)) s in
  (emit (job_submission_events (provider_value provider_type) (is_ok r) [("namespace", JStr namespace)]) s', r).

(** The SKU the optimizer recommends; the service account and the deletion
    policy come from the configuration. *)
Definition override_of (c : OptimizedResourceConfig) : SkuSettings :=
  let sql := an_sql (analytics (cfg_applications config)) in
  {| sku_driver := {| ds_cores := driver_cores c; ds_memory := driver_memory c;
                      service_account := service_account (sku_driver sql) |};
     sku_executor := {| es_cores := executor_cores c;
                        es_instances := {| inst_min := executor_instances_min c;
                                           inst_max := executor_instances_max c |};
                        es_memory := executor_memory c;
                        delete_on_termination := delete_on_termination (sku_executor sql) |} |}.

(** The optimizer block: the override and the reasoning, both [None] without a
    recommendation. *)
Definition consult_optimizer (job : JobInput) (q : SQLPart)
  : M (FE W) (option SkuSettings * option string) :=
  let opt := svc_optimizer (cfg_service config) in
  if opt_enabled opt && use_optimizer q then
    try_except
      (optimized_config ← in_world (get_optimized_config (fe_http_post fe) (fe_load_config fe)
                            (opt_endpoint opt) (query q) (dataset_info (datasets job)));
       mret match optimized_config with
            | Some c => (Some (override_of c), reasoning c)
            | None => (None, None)
            end)
      (fun _ => mret (None, None))
  else mret (None, None).

(** [job_id or ...]: an empty id is replaced. *)
Definition or_time (job_id : string) (prefix : string) : M (FE W) string :=
  if str_truthy job_id then mret job_id
  else t ← in_world (fe_time fe); mret (prefix +:+ str_of_Z t).

Definition submit_sql_job (job : JobInput) (q : SQLPart) (job_id query_id : string)
    (enable_telemetry_collection dry_run : bool) : M (FE W) SubmitResponse :=
  job_id ← or_time job_id "";
  let query_id := if str_truthy query_id then query_id else generate_query_id (query q) in
  let tags := [("job_type", "sql"); ("query_id", query_id)] in
  try_except
    (advice ← consult_optimizer job q;
     let '(override_sku_settings, why) := (advice : option SkuSettings * option string) in
     if dry_run then
       mret (DryRun job_id (bool_decide (is_Some override_sku_settings)) why
               (default (an_sql (analytics (cfg_applications config))) override_sku_settings))
     else
       main_submit_job SQL job_id (sql_job job q) ns enable_telemetry_collection (Some tags) override_sku_settings)
    (http_500 "Failed to submit SQL job").

Definition get_sql_job_policy (job : JobInput) (q : SQLPart) (enable_telemetry_collection : bool)
  : M (FE W) SecurityPolicyResponse :=
  job_id ← or_time "" "";
  try_except
    (spark_spec ← in_world (to_spark_spec (fe_spark fe) config SQL job_id (sql_job job q)
                              (telemetry_of enable_telemetry_collection) None);
     mret {| resp_driver := driver_policy spark_spec; resp_executor := executor_policy spark_spec |})
    (http_500 "Failed to get spark pod policy").

Definition submit_pi_job : M (FE W) SubmitResponse :=
  job_id ← or_time "" "spark-pi-python-";
  try_except
    (main_submit_job PI job_id
       {| contract_id := job_id; datasets := []; datasink := None; governance := None; sql_part := None |}
       ns false (Some [("job_type", "pi")]) None)
    (http_500 "Failed to submit PI job").

(** ** Status and job records *)

Fixpoint parse_query_stats_from_events (events : list CoreV1Event) : Z * Z :=
  match events with
  | [] => (0%Z, 0%Z)
  | event :: events' =>
      match ev_reason event, ev_message event with
      | Some reason, Some message =>
          if bool_decide (reason = QUERY_STATISTICS) && str_truthy message then
            match fe_validate_stats fe message with
            | Ok stats => (num_rows_read stats, num_rows_written stats)
            | Err _ => parse_query_stats_from_events events'
            end
          else parse_query_stats_from_events events'
      | _, _ => parse_query_stats_from_events events'
      end
  end.

(** [utc_now()] *)
Definition utc_now : M (FE W) datetime :=
  t ← in_world (datetime_now (fe_kube fe)); mret (truncate_microseconds t).

(** The run of a finished job. *)
Definition job_run (job_id : string) (job_status : SparkApplicationStatus)
    (events : list CoreV1Event) (end_ : datetime) : JobRun :=
  let st := applicationState job_status in
  let ok := bool_decide (state st = Completed) in
  let '(rr, rw) := parse_query_stats_from_events events in
  {| run_id := job_id;
     start_time := lastSubmissionAttemptTime job_status;
     end_time := Some end_;
     is_successful := ok;
     run_error := if ok then None else Some (JobRunError_from_state (state st) (errorMessage st));
     run_stats := Some {| rows_read := rr; rows_written := rw |} |}.

(** A label value used as the name of a record. *)
Definition record_name (query_id : json) : res string :=
  match query_id with
  | JStr q => Ok q
  | _ => Err (Unrepresentable "a label that is not a string")
  end.

(** [spark_app.metadata.labels.get("query_id")]; [None] without labels. *)
Definition query_id_label (spark_app : SparkApplication) : res json :=
  let lbls := meta_labels (app_metadata spark_app) in
  if json_truthy lbls then json_get lbls "query_id" JNull else Ok JNull.

(** The [try] block of [_record_job_run]. *)
Definition add_and_mark (query_id : json) (job_id : string) (job_status : SparkApplicationStatus)
    (events : list CoreV1Event) : M (FE W) unit :=
  end_ ← match terminationTime job_status with Some t => mret t | None => utc_now end;
  run ← lift (validate_times (job_run job_id job_status events end_));
  name ← lift (record_name query_id);
  _ ← in_world (add_run (fe_records fe) (fe_tenacity fe) name ns run);
  try_except
    (patch_spark_app_annotation (fe_kube fe) settings job_id ns JOB_RECORD_RECORDED_ANNOTATION "true")
    (fun _ => mret ()).

Definition record_job_run (spark_app : SparkApplication) (job_id : string)
    (job_status : SparkApplicationStatus) (events : list CoreV1Event) : M (FE W) unit :=
  query_id ← lift (query_id_label spark_app);
  if negb (json_truthy query_id) then mret ()
  else try_except (add_and_mark query_id job_id job_status events) (fun _ => mret ()).

Definition is_recorded (spark_app : SparkApplication) : res bool :=
  let anns := meta_annotations (app_metadata spark_app) in
  if json_truthy anns then
    v ← json_get anns JOB_RECORD_RECORDED_ANNOTATION JNull; Ok (json_truthy v)
  else Ok false.

Definition is_terminal (job_status : SparkApplicationStatus) : bool :=
  bool_decide (state (applicationState job_status) ∈ terminal_states).

Definition job_type_label (spark_app : SparkApplication) : res json :=
  match meta_labels (app_metadata spark_app) with
  | JNull => Ok (JStr "unknown")
  | lbls => json_get lbls "job_type" (JStr "unknown")
  end.

(** The events of the application; a failed request leaves the list empty. *)
Definition fetch_events (spark_app : SparkApplication) (job_id : string) : M (FE W) (list CoreV1Event) :=
  let uid := meta_uid (app_metadata spark_app) in
  if json_truthy uid then
    try_except (list_events_for_spark_app (fe_kube fe) job_id uid ns) (fun _ => mret [])
  else mret [].

(** Metrics and job record of a job that has finished and is not recorded. *)
Definition record_completion (spark_app : SparkApplication) (job_id : string)
    (job_status : SparkApplicationStatus) (events : list CoreV1Event) : M (FE W) unit :=
  job_type ← lift (job_type_label spark_app);
  _ ← modify (emit (job_completion_events job_type
                      (bool_decide (state (applicationState job_status) = Completed))));
  record_job_run spark_app job_id job_status events.

(** [get_status] once the application is read. *)
Definition report_status (spark_app : SparkApplication) (job_id : string) : M (FE W) StatusResponse :=
  match app_status spark_app with
  | None => mret {| sr_id := job_id; sr_status := None; sr_events := [] |}
  | Some job_status =>
      recorded ← lift (is_recorded spark_app);
      k8s_events ← fetch_events spark_app job_id;
      _ ← (if is_terminal job_status && negb recorded
           then record_completion spark_app job_id job_status k8s_events else mret ());
      mret {| sr_id := job_id; sr_status := Some job_status; sr_events := map event_info k8s_events |}
  end.

Definition get_status (job_id : string) : M (FE W) StatusResponse :=
  try_except
    (spark_app ← get_spark_app (fe_kube fe) settings (fe_validate_status fe) job_id ns;
     report_status spark_app job_id)
    (fun e => match e with
              | ResourceNotFound _ => raise (HTTPException 404 ("Job with ID " +:+ job_id +:+ " not found"))
              | _ => http_500 "Failed to get job status" e
              end).

Definition get_runs (query_id : string) : M (FE W) JobRecordResponse :=
  if negb (str_truthy query_id) || negb (str_truthy (strip query_id)) then
    raise (HTTPException 400 "query_id cannot be null or empty.")
  else
    try_except
      (job_record ← in_world (get_job_record (fe_records fe) query_id ns);
       match job_record with
       | None => raise (HTTPException 404 ("No run history found for query ID: " +:+ query_id))
       | Some r => mret (from_job_record r)
       end)
      (fun e => match e with
                | HTTPException _ _ => raise e
                | _ => http_500 ("Failed to get runs for query " +:+ query_id) e
                end).

(** ** Events *)

Definition create_spark_app_event (job_id event_name message reason event_type : string) : M (FE W) unit :=
  try_except
    (spark_app ← get_spark_app (fe_kube fe) settings (fe_validate_status fe) job_id ns;
     let meta := app_metadata spark_app in
     if negb (json_truthy (meta_name meta)) || negb (json_truthy (meta_namespace meta))
        || negb (json_truthy (meta_uid meta))
     then raise (HTTPException 500 ("Spark application " +:+ job_id +:+ " has incomplete metadata"))
     else create_event (fe_kube fe) event_name ns message reason (meta_name meta) "SparkApplication"
            (meta_namespace meta) (meta_uid meta) event_type)
    (fun e => match e with
              | ResourceNotFound _ =>
                  raise (HTTPException 404 ("Spark application " +:+ job_id +:+ " not found"))
              | _ => raise e
              end).

Definition record_operational_event (job_id : string) (event : OperationalEvent) : M (FE W) unit :=
  try_except
    (uuid ← in_world (fe_uuid4 fe);
     let event_name := job_id +:+ "-event-" +:+ str_of_Z (op_id event) +:+ "-" +:+ str_take 8 uuid in
     message ← lift (op_get_message event);
     create_spark_app_event job_id event_name message (op_name event) "Normal")
    (http_500 "Failed to record operational event").

Definition record_statistics (job_id : string) (event : StatisticsEvent) : M (FE W) unit :=
  try_except
    (if negb (bool_decide (se_type event = QUERY_STATISTICS)) then
       raise (HTTPException 400 ("Invalid statistics event type: " +:+ se_type event
                                 +:+ ". Expected 'QueryStatistics'"))
     else
       raw ← lift (py_b64decode (JStr (se_data_base64 event)));
       decoded_data ← lift (utf8_decode raw);
       stats_data ← lift (fe_validate_stats fe decoded_data);
       _ ← modify (emit (query_statistics_events job_id (num_rows_read stats_data) (num_rows_written stats_data)));
       create_spark_app_event job_id (job_id +:+ "-statistics") decoded_data (se_type event) "Normal")
    (fun e => match e with
              | ResourceNotFound _ =>
                  raise (HTTPException 404 ("Spark application " +:+ job_id +:+ " not found"))
              | _ => http_500 "Failed to record statistics" e
              end).

(** ** The attestation report *)

Definition environ_of (k : string) : option string := environ (fe_spark fe) k.

Definition isSevSnp : bool :=
  negb (bool_decide (environ_of "INSECURE_VIRTUAL_ENVIRONMENT" = Some "true")).

Definition service_cert_location : string :=
  default "/app/service/service-cert.pem" (environ_of "SERVICE_CERT_LOCATION").

(** [response.raise_for_status()]; the text of the exception is left out. *)
Definition raise_for_status (code : Z) : res unit :=
  if (400 <=? code)%Z && (code <? 600)%Z then Err (OtherException "HTTPError") else Ok ().

Definition get_report (report_data : string) : M W json :=
  response ← fe_http_post fe "http://localhost:8284/attest/combined"
               (JObj [("runtime_data", JStr (b64encode report_data))]);
  _ ← lift (raise_for_status response.1);
  data ← lift response.2;
  evidence ← lift (json_get data "evidence" JNull);
  endorsements ← lift (json_get data "endorsements" JNull);
  uvm_endorsements ← lift (json_get data "uvm_endorsements" JNull);
  mret (JObj [("attestation", evidence); ("platformCertificates", endorsements);
              ("uvmEndorsements", uvm_endorsements)]).

Definition getFrontendReport : M (FE W) json :=
  found ← in_world (path_exists (fe_kube fe) service_cert_location);
  if negb found then
    raise (HTTPException 404 ("Service cert file not found at " +:+ service_cert_location))
  else
    raw ← in_world (read_bytes (fe_kube fe) service_cert_location);
    service_cert ← lift (utf8_decode raw);
    let report_data_bytes := utf8_encode (dumps (JObj [("serviceCert", JStr service_cert)])) in
    report ← (if isSevSnp then in_world (get_report report_data_bytes) else mret JNull);
    mret (JObj [("platform", JStr (if isSevSnp then "snp" else "virtual")); ("report", report);
                ("reportDataPayload", JStr (b64encode report_data_bytes))]).

(** ** Webhooks, middleware and start-up *)

Definition mutate (body : json) : M (FE W) json :=
  handle_request "cce_policy_injector"
    (injector_handle_request (fe_kube fe) CCE_POLICY_CONFIG_MAP_ANNOTATION
       CCE_POLICY_CONFIG_MAP_POLICY_KEY CCE_POLICY_ANNOTATION_NAME_LABEL) body.

Definition scheduler_mutate (pod_scheduler : PodScheduler PodCountConstraint) (body : json) : M (FE W) json :=
  handle_request "pod_scheduler"
    (scheduler_handle_request
       (select_node (ConstraintEnforcer0 := PodCountConstraint_enforcer (fe_kube fe))
          (fe_kube fe) pod_scheduler)) body.

(** A request that raises is not counted. *)
Definition telemetry_middleware (method path : string) (call_next : M (FE W) JSONResponse)
  : M (FE W) JSONResponse :=
  response ← call_next;
  _ ← modify (emit (http_request_events method path (status_code response)));
  mret response.

(** [exc_repr] is [repr] of the Kubernetes package's exception. *)
Definition kubernetes_error_handler (exc_repr : string) (path : string) (status : option Z)
    (text : string) : JSONResponse :=
  {| status_code := match status with Some z => if (z =? 0)%Z then 500%Z else z | None => 500%Z end;
     content := JObj [("message", JStr ("An error occurred while processing " +:+ path));
                      ("error", JStr exc_repr); ("details", JStr text)] |}.

(** [main] from the construction of the scheduler to the call of uvicorn. *)
Definition startup : M (FE W) (PodScheduler PodCountConstraint) :=
  let svc := cfg_service config in
  pod_scheduler ← lift (new_pod_scheduler (svc_scheduler svc));
  found ← in_world (path_exists (fe_kube fe) service_cert_location);
  if negb found then raise (OtherException ("File not found at " +:+ service_cert_location +:+ "."))
  else
    _ ← create_mutating_webhook_configuration (fe_kube fe) CCE_POLICY_INJECTOR_WEBHOOK_NAME
          "/pod/ccepolicy/mutate" [(CCE_POLICY_INJECTOR_LABEL, "true")] svc service_cert_location;
    _ ← create_mutating_webhook_configuration (fe_kube fe) SPARK_POD_SCHEDULER_WEBHOOK_NAME
          "/pod/schedulednode/mutate" [(SPARK_POD_SCHEDULER_LABEL, "true")] svc service_cert_location;
    mret pod_scheduler.
End Service.
