(* ===== verification/StatusProps.v ===== *)
(** * Status polling and job recording

    What repeated calls of [get_status] do to the gauge of active jobs and to
    the recorded annotation.  [StatusServer] states what the API server does
    to a stored application; [merge_patch] is the JSON merge patch (RFC 7386)
    it applies. *)

From S2P Require Import Prelude PyStr Base64 Json JsonFacts PyFloat SparkModels Settings Helpers CleanroomModels Metrics KubeClient KubeWorld JobModels JobRecordClient JobRecordProps Contracts AiOptimizer Frontend.
From Stdlib Require Import Lia.

(** ** Merge patches *)

Definition dict_delete {A} (k : string) (d : list (string * A)) : list (string * A) :=
  filter (fun kv => kv.1 <> k) d.

Fixpoint merge_patch (target patch : json) {struct patch} : json :=
  match patch with
  | JObj kvs =>
      let old := match target with JObj d => d | _ => [] end in
      JObj ((fix go (d : list (string * json)) (l : list (string * json)) :=
               match l with
               | [] => d
               | (k, v) :: l' =>
                   go (match v with
                       | JNull => dict_delete k d
                       | _ => dict_set k (merge_patch (default JNull (dict_lookup k d)) v) d
                       end) l'
               end) old kvs)
  | _ => patch
  end.

Definition annotation_patch (k v : string) : json :=
  JObj [("metadata", JObj [("annotations", JObj [(k, JStr v)])])].

(** ** The server's contract *)

Class StatusServer {W} (fe : FrontendEnv W) := {
  stored : W -> string -> string -> option json;
  get_app_result g v ns plural n w :
    (get_namespaced_custom_object (fe_kube fe) g v ns plural n w).2 =
    match stored w ns n with Some j => Ok j | None => Err (ApiException (Some 404%Z) "(404) Reason: Not Found") end;
  get_app_frame g v ns plural n w :
    stored (get_namespaced_custom_object (fe_kube fe) g v ns plural n w).1 = stored w;
  list_event_frame ns sel w : stored (list_namespaced_event (fe_kube fe) ns sel w).1 = stored w;
  now_frame w : stored (datetime_now (fe_kube fe) w).1 = stored w;
  patch_app_ok g v ns plural n k x w w' :
    patch_namespaced_custom_object (fe_kube fe) g v ns plural n (annotation_patch k x) w = (w', Ok ()) ->
    stored w' ns n = (fun j => merge_patch j (annotation_patch k x)) <$> stored w ns n;
  record_get_frame ns q w : stored (api_get (fe_records fe) ns q w).1 = stored w;
  record_create_frame ns r w : stored (api_create (fe_records fe) ns r w).1 = stored w;
  record_patch_frame ns q p w : stored (api_patch_status (fe_records fe) ns q p w).1 = stored w
}.

(** ** The gauge *)

Definition active_jobs {W} (s : FE W) : Z := instrument_total "spark_active_jobs_total" (meters s).

Lemma k8s_events_gauge op kind ok lbls :
  instrument_total "spark_active_jobs_total" (k8s_operation_events op kind ok lbls) = 0%Z.
Proof. by destruct ok. Qed.

Lemma completion_gauge jt ok :
  instrument_total "spark_active_jobs_total" (job_completion_events jt ok) = (-1)%Z.
Proof. by destruct ok. Qed.

Lemma active_emit {W} es (s : FE W) :
  active_jobs (emit es s) = (active_jobs s + instrument_total "spark_active_jobs_total" es)%Z.
Proof. apply instrument_total_app. Qed.

(** A computation that leaves the gauge and the stored applications alone. *)
Definition quiet {W A} {fe : FrontendEnv W} `{!StatusServer fe} (m : M (FE W) A) : Prop := forall s,
  active_jobs (m s).1 = active_jobs s /\ stored (world (m s).1) = stored (world s).

Section Quiet.
Context {W : Type} (fe : FrontendEnv W) `{!StatusServer fe}.
Context {A B : Type}.

Lemma quiet_bind (m : M (FE W) A) (k : A -> M (FE W) B) :
  quiet m -> (forall a, quiet (k a)) -> quiet (m ≫= k).
Proof.
  intros Hm Hk s. rewrite M_bind_run. specialize (Hm s). destruct (m s) as [s1 [a|e]]; cbn in *; [|done].
  specialize (Hk a s1). destruct (k a s1) as [s2 r]; cbn in *. split; destruct Hm, Hk; congruence.
Qed.

Lemma quiet_try (m : M (FE W) A) h : quiet m -> (forall e, quiet (h e)) -> quiet (try_except m h).
Proof.
  intros Hm Hh s. rewrite try_except_run. specialize (Hm s). destruct (m s) as [s1 [a|e]]; cbn in *; [done|].
  specialize (Hh e s1). split; destruct Hm, Hh; congruence.
Qed.

Lemma quiet_ret (a : A) : quiet (mret a).
Proof. done. Qed.
Lemma quiet_lift (r : res A) : quiet (lift r).
Proof. done. Qed.
Lemma quiet_raise e : quiet (raise (A := A) e).
Proof. done. Qed.

Lemma quiet_world (m : M W A) : (forall w, stored (m w).1 = stored w) -> quiet (in_world m).
Proof. intros Hm s. rewrite in_world_run. cbn. split; [done | apply Hm]. Qed.

Lemma quiet_call op kind name ns (m : M W A) :
  (forall w, stored (m w).1 = stored w) -> quiet (call op kind name ns m).
Proof.
  intros Hm s. unfold call. rewrite in_world_run. cbn [fst]. split.
  - rewrite active_emit, k8s_events_gauge. unfold active_jobs. cbn. lia.
  - apply Hm.
Qed.
End Quiet.

Create HintDb quiet discriminated.
#[export] Hint Resolve quiet_bind quiet_try quiet_ret quiet_lift quiet_raise quiet_world quiet_call : quiet.
#[export] Hint Resolve get_app_frame list_event_frame now_frame record_get_frame record_create_frame
  record_patch_frame : quiet.

(** ** The job record client leaves the applications alone *)

Section Calm.
Context {W : Type} (fe : FrontendEnv W) `{!StatusServer fe} `{!TenacityLaws (fe_tenacity fe)}.

Definition calm {A} (m : M W A) : Prop := forall w, stored (m w).1 = stored w.

Lemma calm_bind {A B} (m : M W A) (k : A -> M W B) : calm m -> (forall a, calm (k a)) -> calm (m ≫= k).
Proof.
  intros Hm Hk w. rewrite M_bind_run. specialize (Hm w). destruct (m w) as [w1 [a|e]]; cbn in *; [|done].
  by rewrite Hk.
Qed.

Lemma calm_try {A} (m : M W A) h : calm m -> (forall e, calm (h e)) -> calm (try_except m h).
Proof.
  intros Hm Hh w. rewrite try_except_run. specialize (Hm w). destruct (m w) as [w1 [a|e]]; cbn in *; [done|].
  by rewrite Hh.
Qed.

Lemma calm_retry {A} n p (m : M W A) : calm m -> calm (retry (fe_tenacity fe) A (S n) p m).
Proof.
  intros Hm. induction n as [|n IH]; intros w; rewrite retry_step; specialize (Hm w);
    destruct (m w) as [w1 [a|e]]; cbn in *; try done.
  - by rewrite andb_false_r.
  - destruct (p e); cbn; [by rewrite IH | done].
Qed.

Lemma calm_pure {A} (r : res A) : calm (lift r).
Proof. done. Qed.

Lemma calm_get q ns : calm (get_job_record (fe_records fe) q ns).
Proof.
  apply calm_try; [|by intros e; destruct (is_not_found e)].
  apply calm_bind; [intros w; apply record_get_frame | intros r].
  apply calm_bind; [apply calm_pure | done].
Qed.

Lemma calm_create q ns : calm (create_job_record (fe_records fe) q ns).
Proof. apply calm_bind; [intros w; apply record_create_frame | intros r; apply calm_pure]. Qed.

Lemma calm_get_or_create q ns : calm (get_or_create_job_record (fe_records fe) q ns).
Proof.
  apply calm_bind; [apply calm_get | intros [r|]; [done|]].
  apply calm_try; [apply calm_create|]. intros e. destruct (is_conflict_error e); [|done].
  apply calm_bind; [apply calm_get | by intros [r|]].
Qed.

Lemma calm_attempt q ns run : calm (add_run_attempt (fe_records fe) q ns run).
Proof.
  apply calm_bind.
  - apply calm_bind; [apply calm_get_or_create | intros r].
    apply calm_bind; [apply calm_pure | done].
  - intros [[[r rv] rs] sm]. case_decide; [done|].
    apply calm_bind; [intros w; apply record_patch_frame | intros r'; apply calm_pure].
Qed.

Lemma calm_add_run q ns run : calm (add_run (fe_records fe) (fe_tenacity fe) q ns run).
Proof.
  apply calm_try; [apply calm_retry, calm_attempt | by intros e; destruct (is_conflict_error e)].
Qed.
End Calm.

(** ** One poll *)

Section Poll.
Context {W : Type} (fe : FrontendEnv W) `{!StatusServer fe} `{!TenacityLaws (fe_tenacity fe)}.
Context (config : Configuration) (job_id : string).

Definition poll (s : FE W) : FE W := (get_status fe config job_id s).1.

Fixpoint polls (n : nat) (s : FE W) : FE W :=
  match n with 0 => s | S n' => polls n' (poll s) end.

(** The application the client reads from a stored object. *)
Definition reads_as (j : json) (app : SparkApplication) : Prop :=
  spark_app_of (fe_validate_status fe) j = Ok app.

Lemma get_spark_app_quiet : quiet (get_spark_app (fe_kube fe) (settings config) (fe_validate_status fe) job_id (ns config)).
Proof.
  apply quiet_try; [|by intros e; destruct (api_404 e)].
  apply quiet_bind; [apply quiet_call; intros w; apply get_app_frame | intros j; apply quiet_lift].
Qed.

Lemma get_spark_app_stored s j app : stored (world s) (ns config) job_id = Some j -> reads_as j app ->
  (get_spark_app (fe_kube fe) (settings config) (fe_validate_status fe) job_id (ns config) s).2 = Ok app.
Proof.
  intros Hj Happ. unfold get_spark_app. rewrite try_except_run, M_bind_run. unfold call.
  rewrite in_world_run. rewrite get_app_result, Hj. unfold lift. by rewrite Happ.
Qed.

(** Reading a stored application only moves to a state with the same gauge
    and the same applications. *)
Lemma poll_reads s j app : stored (world s) (ns config) job_id = Some j -> reads_as j app ->
  exists s1, active_jobs s1 = active_jobs s /\ stored (world s1) = stored (world s) /\
    poll s = (report_status fe config app job_id s1).1.
Proof.
  intros Hj Happ. pose proof (get_spark_app_quiet s) as [Ha Hs].
  pose proof (get_spark_app_stored s j app Hj Happ) as Hr.
  unfold poll, get_status. rewrite try_except_run, M_bind_run.
  destruct (get_spark_app _ _ _ _ _ s) as [s1 r]. cbn in Ha, Hs, Hr. subst r.
  exists s1. split_and!; [done..|].
  destruct (report_status fe config app job_id s1) as [s2 [o|e]]; [done|]. by destruct e.
Qed.

Lemma fetch_events_quiet app : quiet (fetch_events fe config app job_id).
Proof.
  unfold fetch_events. destruct (json_truthy _); [|done].
  apply quiet_try; [|done]. apply quiet_bind; [|done].
  apply quiet_call. intros w. apply list_event_frame.
Qed.

Lemma fetch_events_total app s : exists s' l, fetch_events fe config app job_id s = (s', Ok l).
Proof.
  unfold fetch_events. destruct (json_truthy _); [|by eexists _, _].
  rewrite try_except_run. destruct (list_events_for_spark_app _ _ _ _ s) as [s1 [l|e]]; by eexists _, _.
Qed.

(** The state a status report ends in: the events are read, and a finished job
    that is not recorded is recorded. *)
Lemma report_run app st b s : app_status app = Some st -> is_recorded app = Ok b ->
  exists s1 l, active_jobs s1 = active_jobs s /\ stored (world s1) = stored (world s) /\
    (report_status fe config app job_id s).1 =
      if is_terminal st && negb b then (record_completion fe config app job_id st l s1).1 else s1.
Proof.
  intros Hst Hb. destruct (fetch_events_total app s) as (s1 & l & Hf).
  pose proof (fetch_events_quiet app s) as [Ha Hs]. rewrite Hf in Ha, Hs. cbn in Ha, Hs.
  exists s1, l. split_and!; [done..|]. unfold report_status. rewrite Hst, M_bind_run, Hb. unfold lift.
  rewrite M_bind_run, Hf, M_bind_run.
  destruct (is_terminal st && negb b); [|done].
  by destruct (record_completion fe config app job_id st l s1) as [s2 [[]|e]].
Qed.

Lemma poll_run s j app st b : stored (world s) (ns config) job_id = Some j -> reads_as j app ->
  app_status app = Some st -> is_recorded app = Ok b ->
  exists s1 l, active_jobs s1 = active_jobs s /\ stored (world s1) = stored (world s) /\
    poll s = if is_terminal st && negb b then (record_completion fe config app job_id st l s1).1 else s1.
Proof.
  intros Hj Happ Hst Hb. destruct (poll_reads s j app Hj Happ) as (s1 & Ha & Hs & ->).
  destruct (report_run app st b s1 Hst Hb) as (s2 & l & Ha' & Hs' & ->).
  exists s2, l. split_and!; congruence.
Qed.

(** Polling a job that is not finished, or is recorded, changes nothing. *)
Lemma polls_idle n : forall s j app st b,
  stored (world s) (ns config) job_id = Some j -> reads_as j app ->
  app_status app = Some st -> is_recorded app = Ok b -> is_terminal st && negb b = false ->
  active_jobs (polls n s) = active_jobs s /\ stored (world (polls n s)) = stored (world s).
Proof.
  induction n as [|n IH]; intros s j app st b Hj Happ Hst Hb Hq; [done|]. cbn [polls].
  destruct (poll_run s j app st b Hj Happ Hst Hb) as (s1 & l & Ha & Hs & Hp). rewrite Hq in Hp. subst s1.
  edestruct (IH (poll s)) as [-> ->]; [by rewrite Hs|done..|done].
Qed.

(** ** Jobs without a query id *)

Lemma completion_unlabelled app st l s jt qid : job_type_label app = Ok jt ->
  query_id_label app = Ok qid -> json_truthy qid = false ->
  active_jobs (record_completion fe config app job_id st l s).1 = (active_jobs s - 1)%Z /\
  stored (world (record_completion fe config app job_id st l s).1) = stored (world s).
Proof.
  intros Hjt Hq Hf. unfold record_completion, record_job_run.
  rewrite M_bind_run, Hjt. unfold lift. rewrite M_bind_run. unfold modify.
  rewrite M_bind_run, Hq, Hf. cbn [fst mret M_ret negb].
  rewrite active_emit, completion_gauge. by split; [lia|].
Qed.

(** ** Jobs with a query id *)

Definition recorded_patch : json := annotation_patch JOB_RECORD_RECORDED_ANNOTATION "true".

Lemma object_meta_ok md m : object_meta md = Ok m -> exists d, md = JObj d.
Proof. unfold object_meta. intros H. py_inv. destruct md; try done. eauto. Qed.

Lemma object_meta_total d : exists m, object_meta (JObj d) = Ok m /\
  meta_annotations m = default JNull (dict_lookup "annotations" d).
Proof. eexists. split; [reflexivity|done]. Qed.

Lemma spark_app_of_obj v d :
  spark_app_of v (JObj d) =
  (m ← object_meta (default (JObj []) (dict_lookup "metadata" d));
   st ← (if json_truthy (default (JObj []) (dict_lookup "status" d)) then
           st ← v (default (JObj []) (dict_lookup "status" d)); Ok (Some st)
         else Ok None);
   Ok {| app_metadata := m; app_status := st |}).
Proof. reflexivity. Qed.

Lemma merge_reads j app : reads_as j app -> exists app', reads_as (merge_patch j recorded_patch) app' /\
  app_status app' = app_status app /\ is_recorded app' = Ok true.
Proof.
  unfold reads_as. intros H. unfold spark_app_of in H.
  apply res_bind_ok in H as (md & Hmd & H). apply res_bind_ok in H as (m & Hm & H).
  apply res_bind_ok in H as (sd & Hsd & H). apply res_bind_ok in H as (st & Hst & H). injection H as <-.
  destruct j as [| | | | |d]; try done. cbn [json_get] in Hmd, Hsd. injection Hmd as Hmd. injection Hsd as Hsd.
  destruct (object_meta_ok _ _ Hm) as [mdd ->].
  assert (Hmerge : exists olda, merge_patch (JObj d) recorded_patch =
    JObj (dict_set "metadata" (JObj (dict_set "annotations"
      (JObj (dict_set JOB_RECORD_RECORDED_ANNOTATION (JStr "true") olda)) mdd)) d)).
  { unfold recorded_patch, annotation_patch. cbn [merge_patch].
    destruct (dict_lookup "metadata" d) as [x|]; cbn in Hmd; subst; cbn;
      [eexists; reflexivity|injection Hmd as <-; exists []; reflexivity]. }
  destruct Hmerge as [olda ->].
  set (mdd' := dict_set "annotations" _ mdd).
  destruct (object_meta_total mdd') as (m' & Hm' & Ha).
  exists {| app_metadata := m'; app_status := st |}. split_and!.
  - rewrite spark_app_of_obj, dict_lookup_set_eq, dict_lookup_set_ne by done.
    change (default (JObj []) (Some (JObj mdd'))) with (JObj mdd'). rewrite Hm', Hsd.
    cbv [mbind res_bind] in *. by rewrite Hst.
  - done.
  - unfold is_recorded. cbn [app_metadata]. rewrite Ha. unfold mdd'. rewrite dict_lookup_set_eq.
    cbn [default from_option id].
    destruct (dict_set JOB_RECORD_RECORDED_ANNOTATION (JStr "true") olda) as [|e es] eqn:E.
    + pose proof (dict_lookup_set_eq JOB_RECORD_RECORDED_ANNOTATION (JStr "true") olda) as Hk.
      by rewrite E in Hk.
    + rewrite <- E. cbn [json_truthy json_get]. rewrite dict_lookup_set_eq. by rewrite E.
Qed.

(** The services a recording needs: the job record accepts the run and the
    application accepts the annotation. *)
Definition records_accept (q : string) : Prop := forall run w,
  is_ok (add_run (fe_records fe) (fe_tenacity fe) q (ns config) run w).2 = true.

Definition annotation_accepted : Prop := forall g v plural w,
  is_Some (stored w (ns config) job_id) ->
  is_ok (patch_namespaced_custom_object (fe_kube fe) g v (ns config) plural job_id recorded_patch w).2 = true.

(** The times of a finished job: it ended, and not before it started. *)
Definition ended (st : SparkApplicationStatus) : Prop :=
  exists t, terminationTime st = Some t /\
    match lastSubmissionAttemptTime st with Some b => (b <= t)%Z | None => True end.

Lemma job_run_valid st l t :
  match lastSubmissionAttemptTime st with Some b => (b <= t)%Z | None => True end ->
  validate_times (job_run fe job_id st l t) = Ok (job_run fe job_id st l t).
Proof.
  intros Ht. unfold validate_times, times_valid, job_run.
  destruct (parse_query_stats_from_events fe l) as [rr rw]. cbn [start_time end_time].
  destruct (lastSubmissionAttemptTime st) as [b|]; [|done].
  by rewrite (proj2 (Z.ltb_ge _ _)).
Qed.

Lemma patch_recorded s j : annotation_accepted -> stored (world s) (ns config) job_id = Some j ->
  exists s', patch_spark_app_annotation (fe_kube fe) (settings config) job_id (ns config)
      JOB_RECORD_RECORDED_ANNOTATION "true" s = (s', Ok ()) /\
    active_jobs s' = active_jobs s /\
    stored (world s') (ns config) job_id = Some (merge_patch j recorded_patch).
Proof.
  intros Hacc Hj. unfold patch_spark_app_annotation. rewrite try_except_run. unfold call. rewrite in_world_run.
  change (JObj [("metadata", JObj [("annotations", JObj [(JOB_RECORD_RECORDED_ANNOTATION, JStr "true")])])])
    with recorded_patch.
  edestruct (patch_namespaced_custom_object (fe_kube fe) _ _ _ _ _ recorded_patch (world s)) as [w' r] eqn:E.
  pose proof (Hacc (res_group (settings config)) (res_version (settings config)) (res_plural (settings config))
                (world s)) as Hok.
  rewrite E in Hok. destruct r as [[]|e]; [|discriminate Hok; by eexists]. cbn [fst snd].
  eexists. split; [done|]. split.
  - rewrite active_emit, k8s_events_gauge. unfold active_jobs. cbn. lia.
  - cbn. rewrite (patch_app_ok _ _ _ _ _ _ _ _ _ E), Hj. done.
Qed.

Lemma completion_labelled app st l s j jt q :
  stored (world s) (ns config) job_id = Some j -> job_type_label app = Ok jt ->
  query_id_label app = Ok (JStr q) -> str_truthy q = true -> ended st ->
  records_accept q -> annotation_accepted ->
  exists s', record_completion fe config app job_id st l s = (s', Ok ()) /\
    active_jobs s' = (active_jobs s - 1)%Z /\
    stored (world s') (ns config) job_id = Some (merge_patch j recorded_patch).
Proof.
  intros Hj Hjt Hq Hqt (t & Ht & Hle) Hrec Hann. unfold record_completion, record_job_run, add_and_mark.
  rewrite M_bind_run, Hjt. unfold lift at 1. rewrite M_bind_run. unfold modify.
  set (s1 := emit _ s). rewrite M_bind_run, Hq. unfold lift at 1. cbn [json_truthy]. rewrite Hqt. cbn [negb].
  rewrite try_except_run, M_bind_run, Ht. cbn [mret M_ret].
  rewrite M_bind_run, job_run_valid by done. unfold lift at 1. rewrite M_bind_run. unfold lift at 1, record_name.
  rewrite M_bind_run, in_world_run.
  specialize (Hrec (job_run fe job_id st l t) (world s1)).
  pose proof (calm_add_run fe q (ns config) (job_run fe job_id st l t) (world s1)) as Hcalm.
  destruct (add_run _ _ q _ _ (world s1)) as [w2 [r|e]]; [|discriminate Hrec]. cbn [fst snd] in *.
  assert (Hj2 : stored (world (MkFE w2 (meters s1))) (ns config) job_id = Some j) by (cbn; by rewrite Hcalm).
  rewrite try_except_run.
  destruct (patch_recorded (MkFE w2 (meters s1)) j Hann Hj2) as (s3 & -> & Ha & Hs).
  exists s3. split_and!; [done| |done].
  rewrite Ha. change (active_jobs (MkFE w2 (meters s1))) with (active_jobs s1).
  unfold s1. rewrite active_emit, completion_gauge. lia.
Qed.


(** C32. A finished job without a query id (every Pi job) is never marked as
    recorded: each poll of its status counts its completion again, so [n]
    polls lower the gauge of active jobs by [n]. *)
Theorem unlabelled_job_recounted n s j app st jt qid :
  stored (world s) (ns config) job_id = Some j -> reads_as j app ->
  app_status app = Some st -> is_terminal st = true -> is_recorded app = Ok false ->
  job_type_label app = Ok jt -> query_id_label app = Ok qid -> json_truthy qid = false ->
  active_jobs (polls n s) = (active_jobs s - Z.of_nat n)%Z.
Proof.
  revert s. induction n as [|n IH]; intros s Hj Happ Hst Ht Hrec Hjt Hq Hf; [cbn; lia|]. cbn [polls].
  destruct (poll_run s j app st false Hj Happ Hst Hrec) as (s1 & l & Ha & Hs & Hp).
  rewrite Ht in Hp. cbn in Hp.
  destruct (completion_unlabelled app st l s1 jt qid Hjt Hq Hf) as [Hc Hc'].
  rewrite <- Hp in Hc, Hc'. rewrite IH by congruence. lia.
Qed.
End Poll.
