(* ===== verification/FrontendWorld.v ===== *)
(** * A concrete environment of the front end

    The in-memory Kubernetes server of [KubeWorld] with a job record API that
    accepts every run, the application builder's files of [SparkBuilderProps]
    and fixed answers for the clock, uuids and HTTP.  It shows that the
    contract [StatusServer] can be met and carries the examples; nothing is
    proved of the front end from its definition. *)

From S2P Require Import Prelude PyStr Base64 Json JsonFacts PyFloat SparkModels Settings Helpers CleanroomModels AppBuilder AppBuilderProps Metrics KubeClient SparkBuilder SparkBuilderProps KubeWorld WebhookProps JobModels JobRecordClient JobRecordProps Contracts AiOptimizer Frontend StatusProps.

Definition outside {A} (m : M unit A) : M KW A := fun w => (w, (m ()).2).

Definition kw_spark_env : SparkEnv KW :=
  let e := build_env demo_spark_env in {|
  build_env := {|
    temp_dir := temp_dir e;
    file_exists f := outside (file_exists e f);
    make_dirs d := outside (make_dirs e d);
    oras_pull a b c := outside (oras_pull e a b c);
    yaml_load f := outside (yaml_load e f);
    read_text f := outside (read_text e f) |};
  current_carrier := []; current_baggage := []; environ := fun _ => None; package_dir := "/app" |}.

Definition accepted_record (q : string) : JobRecord :=
  {| api_version := GROUP +:+ "/" +:+ VERSION; kind := KIND;
     metadata := Some [("resourceVersion", JStr "1")]; spec_query_id := q; status := None |}.

Definition accepting_records : JobRecordApi KW := {|
  api_get _ q := fun w => (w, Ok (accepted_record q));
  api_create _ r := fun w => (w, Ok r);
  api_patch_status _ q _ := fun w => (w, Ok (accepted_record q))
|}.

(** A status object is read by its state alone; the job ran from second 10 to
    second 40. *)
Definition demo_status (st : ApplicationStateEnum) : SparkApplicationStatus :=
  {| applicationState := {| state := st; errorMessage := None |};
     driverInfo := {| podName := "driver"; webUIAddress := None; webUIPort := None; webUIServiceName := None |};
     executionAttempts := Some 1%Z; executorState := None; submissionAttempts := Some 1%Z;
     lastSubmissionAttemptTime := Some 10000000%Z; terminationTime := Some 40000000%Z |}.

Definition demo_validate_status (j : json) : res SparkApplicationStatus :=
  match j with
  | JStr "COMPLETED" => Ok (demo_status Completed)
  | JStr "FAILED" => Ok (demo_status Failed)
  | _ => Ok (demo_status Running)
  end.

Definition demo_stats : QueryStatisticsData :=
  {| duration_sec := of_int 30; num_rows_read := 12; num_rows_written := 3 |}.

Definition demo_frontend : FrontendEnv KW := {|
  fe_kube := kw_api;
  fe_validate_status := demo_validate_status;
  fe_records := accepting_records;
  fe_tenacity := loop_tenacity;
  fe_spark := kw_spark_env;
  fe_http_post url _ := fun w =>
    (w, if decide (url = "http://localhost:8284/attest/combined")
        then Ok (200%Z, Ok (JObj [("evidence", JStr "ev"); ("endorsements", JStr "en")]))
        else Ok (503%Z, Err (ValueError "Expecting value")));
  fe_load_config := demo_load;
  fe_validate_stats t := if decide (t = "stats") then Ok demo_stats else Err (ValidationError "not json");
  fe_time := fun w => (w, Ok 1700000000%Z);
  fe_uuid4 := fun w => (w, Ok "0123456789abcdef")
|}.

Definition kw_stored (w : KW) (ns n : string) : option json :=
  kw_app_json w (ns, n) <$> kw_apps w !! (ns, n).

Lemma kw_patch_merges w ns n k x b :
  kw_app_json (kw_set_annotations w
      (<[(ns, n) := dict_set k (JStr x) (default [] (kw_annotations w !! (ns, n)))]> (kw_annotations w)))
    (ns, n) b
  = merge_patch (kw_app_json w (ns, n) b) (annotation_patch k x).
Proof.
  unfold kw_app_json. cbn [kw_annotations kw_status kw_set_annotations]. rewrite lookup_insert_eq.
  by destruct (kw_status w !! (ns, n)).
Qed.

#[export] Program Instance demo_status_server : StatusServer demo_frontend := {| stored := kw_stored |}.
Next Obligation. intros. cbn. unfold kw_stored. by destruct (kw_apps w !! (ns, n)). Qed.
Next Obligation. done. Qed.
Next Obligation. done. Qed.
Next Obligation. done. Qed.
Next Obligation.
  intros g v ns plural n k x w w'. cbn. unfold kw_stored.
  destruct (kw_apps w !! (ns, n)) as [b|] eqn:E; [|done]. intros [= <-]. cbn [kw_apps kw_set_annotations].
  rewrite E. cbn. f_equal. apply kw_patch_merges.
Qed.
Next Obligation. done. Qed.
Next Obligation. done. Qed.
Next Obligation. done. Qed.

(** ** Two finished jobs *)

Definition demo_conf : Configuration := demo_config ConfidentialVirtualNode.

Definition finished_world (tags : list (string * string)) : KW :=
  {| kw_maps := ∅;
     kw_apps := {[ ("analytics", "job") :=
                   spark_body default_SparkResourceSettings "job" "analytics" demo_app (Some tags) ]};
     kw_status := {[ ("analytics", "job") := JStr "COMPLETED" ]}; kw_annotations := ∅; kw_events := [];
     kw_nodes := []; kw_pods := []; kw_hooks := ∅; kw_now := 50000000%Z;
     kw_files := [("/app/service/service-cert.pem", "cert")] |}.

Definition pi_state : FE KW := MkFE (finished_world [("job_type", "pi")]) [].
Definition sql_state : FE KW := MkFE (finished_world [("job_type", "sql"); ("query_id", "q1")]) [].

Definition stored_app (s : FE KW) : json := default JNull (kw_stored (world s) "analytics" "job").
Definition read_app (s : FE KW) : SparkApplication :=
  match spark_app_of demo_validate_status (stored_app s) with
  | Ok a => a
  | Err _ => {| app_metadata := {| meta_name := JNull; meta_namespace := JNull; meta_creation_timestamp := JNull;
                  meta_labels := JNull; meta_annotations := JNull; meta_uid := JNull;
                  meta_resource_version := JNull; meta_generation := JNull |}; app_status := None |}
  end.

Lemma unlabelled_job_recounted_witness :
  active_jobs (polls demo_frontend demo_conf "job" 3 pi_state) = (-3)%Z.
Proof.
  rewrite (unlabelled_job_recounted demo_frontend demo_conf "job" 3 pi_state (stored_app pi_state)
             (read_app pi_state) (demo_status Completed) (JStr "pi") JNull);
    [vm_compute; reflexivity ..].
Defined.

