(* ===== verification/FrontendProps.v ===== *)
(** * Correctness of the front end's handlers

    Submission and its metrics, the optimizer and dry runs, run history, event
    recording, the attestation report and the errors the handlers answer
    with. *)

From S2P Require Import Prelude PyStr Base64 Json JsonFacts PyFloat SparkModels Settings Helpers CleanroomModels Metrics KubeClient SparkBuilder SparkBuilderProps KubeWorld WebhookProps JobModels JobRecordClient JobRecordProps Contracts AiOptimizer Frontend StatusProps FrontendWorld.
From Stdlib Require Import Lia.

Definition metric_total {W} (name : string) (s : FE W) : Z := instrument_total name (meters s).

Lemma metric_emit {W} name es (s : FE W) :
  metric_total name (emit es s) = (metric_total name s + instrument_total name es)%Z.
Proof. apply instrument_total_app. Qed.

(** An instrument that requests to Kubernetes do not touch. *)
Definition job_instrument (name : string) : Prop :=
  name = "spark_active_jobs_total" \/ name = "spark_job_submissions_total" \/
  name = "spark_job_submissions_failed_total".

Lemma k8s_events_job name op kind ok lbls : job_instrument name ->
  instrument_total name (k8s_operation_events op kind ok lbls) = 0%Z.
Proof. by intros [-> | [-> | ->]]; destruct ok. Qed.

(** A computation that leaves the job instruments alone. *)
Definition unmetered {W A} (m : M (FE W) A) : Prop := forall name s, job_instrument name ->
  metric_total name (m s).1 = metric_total name s.

Section Unmetered.
Context {W A B : Type}.

Lemma unmetered_bind (m : M (FE W) A) (k : A -> M (FE W) B) :
  unmetered m -> (forall a, unmetered (k a)) -> unmetered (m ≫= k).
Proof.
  intros Hm Hk name s Hn. rewrite M_bind_run. specialize (Hm name s Hn).
  destruct (m s) as [s1 [a|e]]; cbn in *; [|done]. by rewrite Hk.
Qed.

Lemma unmetered_try (m : M (FE W) A) h :
  unmetered m -> (forall e, unmetered (h e)) -> unmetered (try_except m h).
Proof.
  intros Hm Hh name s Hn. rewrite try_except_run. specialize (Hm name s Hn).
  destruct (m s) as [s1 [a|e]]; cbn in *; [done|]. by rewrite Hh.
Qed.

Lemma unmetered_world (m : M W A) : unmetered (in_world m).
Proof. intros name s Hn. by rewrite in_world_run. Qed.

Lemma unmetered_call op kind name ns (m : M W A) : unmetered (call op kind name ns m).
Proof.
  intros i s Hi. unfold call. rewrite in_world_run. cbn [fst]. rewrite metric_emit, k8s_events_job by done.
  unfold metric_total. cbn. lia.
Qed.

Lemma unmetered_lift (r : res A) : unmetered (W := W) (lift r).
Proof. by intros name s Hn. Qed.

Lemma unmetered_raise e : unmetered (W := W) (raise (A := A) e).
Proof. by intros name s Hn. Qed.

Lemma unmetered_ret (a : A) : unmetered (W := W) (mret a).
Proof. by intros name s Hn. Qed.
End Unmetered.

Create HintDb unmetered discriminated.
#[export] Hint Resolve unmetered_call unmetered_world unmetered_lift unmetered_raise unmetered_ret : unmetered.

Lemma submission_totals jt ok lbls :
  instrument_total "spark_job_submissions_total" (job_submission_events jt ok lbls) = 1%Z /\
  instrument_total "spark_active_jobs_total" (job_submission_events jt ok lbls) = Z.b2z ok /\
  instrument_total "spark_job_submissions_failed_total" (job_submission_events jt ok lbls) = Z.b2z (negb ok).
Proof. by destruct ok. Qed.

Section Submission.
Context {W : Type} (fe : FrontendEnv W) (config : Configuration).

Lemma get_spark_app_unmetered api settings v name ns : unmetered (W := W) (get_spark_app api settings v name ns).
Proof.
  apply unmetered_try; [|intros e; destruct (api_404 e); eauto with unmetered].
  apply unmetered_bind; eauto with unmetered.
Qed.

Lemma set_owner_unmetered api settings v a b c : unmetered (W := W) (set_config_map_owner api settings v a b c).
Proof. apply unmetered_bind; [apply get_spark_app_unmetered | eauto with unmetered]. Qed.

Lemma submit_unmetered api settings v name ns app tags :
  unmetered (W := W) (KubeClient.submit_job api settings v name ns app tags).
Proof.
  do 3 (apply unmetered_bind; [unfold create_config_map; eauto with unmetered | intros _]).
  apply unmetered_bind; [|intros _]; apply set_owner_unmetered.
Qed.

(** Every submission is counted once, as a success (which raises the gauge
    of active jobs) or as a failure, according to its outcome. *)
Theorem submission_counted pt job_id job namespace telemetry tags override s :
  let '(s', r) := main_submit_job fe config pt job_id job namespace telemetry tags override s in
  metric_total "spark_job_submissions_total" s' = (metric_total "spark_job_submissions_total" s + 1)%Z /\
  metric_total "spark_active_jobs_total" s' = (metric_total "spark_active_jobs_total" s + Z.b2z (is_ok r))%Z /\
  metric_total "spark_job_submissions_failed_total" s' =
    (metric_total "spark_job_submissions_failed_total" s + Z.b2z (negb (is_ok r)))%Z.
Proof.
  unfold main_submit_job.
  match goal with |- context [let '(_, _) := ?m s in _] => assert (Hu : unmetered m) end.
  { apply unmetered_bind; [eauto with unmetered|]. intros app.
    apply unmetered_bind; [apply submit_unmetered | eauto with unmetered]. }
  match goal with |- context [let '(_, _) := ?m s in _] => set (body := m) in * end.
  specialize (fun n => Hu n s). destruct (body s) as [s' r]. cbn in Hu.
  rewrite !metric_emit, !Hu by (unfold job_instrument; tauto).
  destruct (submission_totals (provider_value pt) (is_ok r) [("namespace", JStr namespace)]) as (-> & -> & ->).
  lia.
Qed.

(** ** The optimizer and dry runs *)

Definition without_optimizer (q : SQLPart) : SQLPart :=
  {| query := query q; start_date := start_date q; end_date := end_date q; use_optimizer := false |}.

Lemma to_spark_spec_flag pt job_id job q telemetry override :
  to_spark_spec (fe_spark fe) config pt job_id (sql_job job (without_optimizer q)) telemetry override =
  to_spark_spec (fe_spark fe) config pt job_id (sql_job job q) telemetry override.
Proof. by destruct pt. Qed.

Lemma main_submit_flag job_id job q namespace telemetry tags override :
  main_submit_job fe config SQL job_id (sql_job job (without_optimizer q)) namespace telemetry tags override =
  main_submit_job fe config SQL job_id (sql_job job q) namespace telemetry tags override.
Proof. unfold main_submit_job. by rewrite to_spark_spec_flag. Qed.

(** The body of [submit_sql_job] after the optimizer. *)
Definition after_advice (job : JobInput) (q : SQLPart) (job_id query_id : string) (telemetry dry_run : bool)
    (advice : option SkuSettings * option string) : M (FE W) SubmitResponse :=
  if dry_run then
    mret (DryRun job_id (bool_decide (is_Some advice.1)) advice.2
            (default (an_sql (analytics (cfg_applications config))) advice.1))
  else main_submit_job fe config SQL job_id (sql_job job q) (ns config) telemetry
         (Some [("job_type", "sql");
                ("query_id", if str_truthy query_id then query_id else generate_query_id (query q))]) advice.1.

Lemma submit_sql_unfold job q job_id query_id telemetry dry_run s : str_truthy job_id = true ->
  submit_sql_job fe config job q job_id query_id telemetry dry_run s =
  try_except (advice ← consult_optimizer fe config job q;
              after_advice job q job_id query_id telemetry dry_run advice)
    (http_500 "Failed to submit SQL job") s.
Proof.
  intros Hid. unfold submit_sql_job, or_time. rewrite Hid, M_bind_run. cbn [mret M_ret].
  rewrite !try_except_run, !M_bind_run.
  by destruct (consult_optimizer fe config job q s) as [s1 [[o why]|e]].
Qed.

Lemma consult_total job q s : exists w' o,
  consult_optimizer fe config job q s = (MkFE w' (meters s), Ok o).
Proof.
  unfold consult_optimizer. destruct (opt_enabled _ && use_optimizer q); [|by exists (world s), (None, None); destruct s].
  rewrite try_except_run, M_bind_run, in_world_run.
  destruct (get_optimized_config_total (fe_http_post fe) (fe_load_config fe)
              (opt_endpoint (svc_optimizer (cfg_service config))) (query q) (dataset_info (datasets job)) (world s))
    as (w' & o & ->). cbn [fst snd mret M_ret]. by exists w', match o with Some c => (Some (override_of config c), reasoning c) | None => (None, None) end.
Qed.

(** When the optimizer gives no recommendation (it is unreachable, answers
    an error or something unreadable), a job that asked for it is handled just
    as one that did not. *)
Theorem optimizer_fallback job q job_id query_id telemetry dry_run s w' :
  str_truthy job_id = true ->
  get_optimized_config (fe_http_post fe) (fe_load_config fe) (opt_endpoint (svc_optimizer (cfg_service config)))
    (query q) (dataset_info (datasets job)) (world s) = (w', Ok None) ->
  opt_enabled (svc_optimizer (cfg_service config)) && use_optimizer q = true ->
  submit_sql_job fe config job q job_id query_id telemetry dry_run s =
  submit_sql_job fe config job (without_optimizer q) job_id query_id telemetry dry_run (MkFE w' (meters s)).
Proof.
  intros Hid Hopt Hon. rewrite !submit_sql_unfold by done. rewrite !try_except_run, !M_bind_run.
  unfold consult_optimizer. rewrite Hon. cbn [use_optimizer without_optimizer]. rewrite andb_false_r.
  rewrite try_except_run, M_bind_run, in_world_run, Hopt. cbn [fst snd mret M_ret].
  unfold after_advice. cbn [fst snd query without_optimizer]. by rewrite main_submit_flag.
Qed.

(** A dry run submits nothing and touches no metric: it answers with the
    driver and executor settings that the same request would submit the job
    with. *)
Theorem dry_run_previews job q job_id query_id telemetry s : str_truthy job_id = true ->
  exists s1 override why,
    submit_sql_job fe config job q job_id query_id telemetry true s =
      (s1, Ok (DryRun job_id (bool_decide (is_Some override)) why
                 (default (an_sql (analytics (cfg_applications config))) override))) /\
    meters s1 = meters s /\
    submit_sql_job fe config job q job_id query_id telemetry false s =
      try_except
        (main_submit_job fe config SQL job_id (sql_job job q) (ns config) telemetry
           (Some [("job_type", "sql");
                  ("query_id", if str_truthy query_id then query_id else generate_query_id (query q))]) override)
        (http_500 "Failed to submit SQL job") s1.
Proof.
  intros Hid. destruct (consult_total job q s) as (w' & [o why] & Hc).
  exists (MkFE w' (meters s)), o, why. rewrite !submit_sql_unfold by done.
  by rewrite !try_except_run, !M_bind_run, Hc.
Qed.
End Submission.

Definition optimized_config_of (c : Configuration) : Configuration :=
  {| cfg_cleanroom := cfg_cleanroom c; cfg_spark := cfg_spark c; cfg_applications := cfg_applications c;
     cfg_service :=
       {| svc_name := svc_name (cfg_service c); svc_namespace := svc_namespace (cfg_service c);
          svc_url := svc_url (cfg_service c); svc_telemetry := svc_telemetry (cfg_service c);
          svc_optimizer := {| opt_enabled := true; opt_endpoint := "http://ai"; opt_timeout := 30 |};
          svc_scheduler := svc_scheduler (cfg_service c) |} |}.

Definition asking_query : SQLPart :=
  {| query := "select id from orders"; start_date := None; end_date := None; use_optimizer := true |}.

Definition start_state : FE KW := MkFE empty_world [].

Lemma optimizer_fallback_witness :
  submit_sql_job demo_frontend (optimized_config_of demo_conf) demo_job asking_query "job-1" "" true false start_state =
  submit_sql_job demo_frontend (optimized_config_of demo_conf) demo_job (without_optimizer asking_query)
    "job-1" "" true false start_state.
Proof.
  apply (optimizer_fallback demo_frontend (optimized_config_of demo_conf) demo_job asking_query "job-1" "" true false
           start_state (world start_state)); reflexivity.
Defined.

Lemma dry_run_previews_witness : exists s1 override why,
  submit_sql_job demo_frontend demo_conf demo_job demo_query "job-1" "" true true start_state =
    (s1, Ok (DryRun "job-1" (bool_decide (is_Some override)) why (default demo_sku override))) /\
  meters s1 = [].
Proof.
  destruct (dry_run_previews demo_frontend demo_conf demo_job demo_query "job-1" "" true start_state)
    as (s1 & o & why & H & Hm & _); [reflexivity|].
  exists s1, o, why. split; [exact H | exact Hm].
Defined.

(** ** Events and statistics *)

Section Events.
Context {W : Type} (fe : FrontendEnv W) `{!StatusServer fe} (config : Configuration) (job_id : string).

(** An application that is read but not stored is reported as missing. *)
Lemma get_spark_app_missing s : stored (world s) (ns config) job_id = None ->
  (get_spark_app (fe_kube fe) (settings config) (fe_validate_status fe) job_id (ns config) s).2 =
  Err (ResourceNotFound ("Spark Application " +:+ job_id +:+ " not found")).
Proof.
  intros Hj. unfold get_spark_app. rewrite try_except_run, M_bind_run. unfold call.
  rewrite in_world_run. rewrite get_app_result, Hj. done.
Qed.

Lemma app_event_missing name message reason type s : stored (world s) (ns config) job_id = None ->
  (create_spark_app_event fe config job_id name message reason type s).2 =
  Err (HTTPException 404 ("Spark application " +:+ job_id +:+ " not found")).
Proof.
  intros Hj. unfold create_spark_app_event. rewrite try_except_run, M_bind_run.
  pose proof (get_spark_app_missing s Hj) as Hr.
  destruct (get_spark_app _ _ _ _ _ s) as [s1 r]. cbn in Hr. by subst r.
Qed.

(** The status of a job that is not stored is a 404, and whatever else goes
    wrong in [get_status] is a 404 or a 500. *)
Theorem get_status_errors s :
  (stored (world s) (ns config) job_id = None ->
     (get_status fe config job_id s).2 = Err (HTTPException 404 ("Job with ID " +:+ job_id +:+ " not found"))) /\
  forall e, (get_status fe config job_id s).2 = Err e ->
     exists detail, e = HTTPException 404 detail \/ e = HTTPException 500 detail.
Proof.
  split.
  - intros Hj. pose proof (get_spark_app_missing s Hj) as Hr. unfold get_status.
    rewrite try_except_run, M_bind_run.
    destruct (get_spark_app _ _ _ _ _ s) as [s1 r]. cbn in Hr. by subst r.
  - intros e. unfold get_status. rewrite try_except_run.
    destruct ((spark_app ← _; report_status fe config spark_app job_id) s) as [s1 [o|e']]; [done|].
    destruct e'; cbn; intros [= <-]; eauto.
Qed.

(** A client error in the recording endpoints is answered as a server
    error: the 404 for an unknown job and the 400 for a foreign statistics
    type are wrapped into a 500. *)
Theorem recording_errors_become_500 event message stats u w' s :
  (op_get_message event = Ok message -> fe_uuid4 fe (world s) = (w', Ok u) ->
   stored w' (ns config) job_id = None ->
   (record_operational_event fe config job_id event s).2 =
     Err (HTTPException 500 ("Failed to record operational event: 404: Spark application "
                             +:+ job_id +:+ " not found"))) /\
  (se_type stats <> QUERY_STATISTICS ->
   (record_statistics fe config job_id stats s).2 =
     Err (HTTPException 500 ("Failed to record statistics: 400: Invalid statistics event type: "
                             +:+ se_type stats +:+ ". Expected 'QueryStatistics'"))).
Proof.
  split.
  - intros Hm Hu Hj. unfold record_operational_event.
    rewrite try_except_run, M_bind_run, in_world_run, Hu. cbn [fst snd].
    rewrite M_bind_run, Hm. unfold lift.
    pose proof (app_event_missing
      (job_id +:+ "-event-" +:+ str_of_Z (op_id event) +:+ "-" +:+ str_take 8 u) message (op_name event) "Normal"
      (MkFE w' (meters s)) Hj) as Hr.
    destruct (create_spark_app_event _ _ _ _ _ _ _ _) as [s2 r]. cbn in Hr. by subst r.
  - intros Ht. unfold record_statistics. rewrite try_except_run. by rewrite bool_decide_false by done.
Qed.

(** ** Statistics reach the job record *)

(** The event of a successful [create_spark_app_event]. *)
Lemma app_event_created name message reason type s s' :
  create_spark_app_event fe config job_id name message reason type s = (s', Ok ()) ->
  exists e w1 w2, create_namespaced_event (fe_kube fe) (ns config) e w1 = (w2, Ok ()) /\ world s' = w2 /\
    ev_reason e = Some reason /\ ev_message e = Some message /\ ev_name e = Some name.
Proof.
  unfold create_spark_app_event. rewrite try_except_run, M_bind_run.
  destruct (get_spark_app _ _ _ _ _ s) as [s1 [app|e]]; [|by destruct e].
  match goal with |- context [if ?b then _ else _] => destruct b end; [done|]. unfold create_event. rewrite M_bind_run, in_world_run.
  destruct (datetime_now (fe_kube fe) (world s1)) as [w1 [t|e]]; cbn [fst snd]; [|by destruct e].
  unfold call. rewrite in_world_run. cbn [world fst snd].
  match goal with |- context [create_namespaced_event ?a ?n ?e ?w] =>
    destruct (create_namespaced_event a n e w) as [w2 [[]|x]] eqn:E end; cbn; [|by destruct x].
  intros [= <-]. by eexists _, _, _.
Qed.

Lemma parse_stats_found earlier e later message d :
  Forall (fun x => forall m, ev_message x = Some m -> is_ok (fe_validate_stats fe m) = false) earlier ->
  ev_reason e = Some QUERY_STATISTICS -> ev_message e = Some message -> str_truthy message = true ->
  fe_validate_stats fe message = Ok d ->
  parse_query_stats_from_events fe (earlier ++ e :: later) = (num_rows_read d, num_rows_written d).
Proof.
  intros He Hr Hm Ht Hd. induction He as [|x earlier Hx _ IH]; cbn [app parse_query_stats_from_events].
  - by rewrite Hr, Hm, Ht, Hd, bool_decide_true.
  - destruct (ev_reason x); [|done]. destruct (ev_message x) as [m|] eqn:Em; [|done].
    case_match; [|done]. specialize (Hx m eq_refl). by destruct (fe_validate_stats fe m).
Qed.

(** Statistics that were recorded for a job are the row counts of its run:
    the event [record_statistics] stores is the one the run's statistics are
    read from, unless an earlier event also holds statistics. *)
Theorem statistics_reach_run event s s' :
  record_statistics fe config job_id event s = (s', Ok ()) -> is_ok (fe_validate_stats fe "") = false ->
  exists e w1 d, create_namespaced_event (fe_kube fe) (ns config) e w1 = (world s', Ok ()) /\
    forall earlier later st t,
      Forall (fun x => forall m, ev_message x = Some m -> is_ok (fe_validate_stats fe m) = false) earlier ->
      run_stats (job_run fe job_id st (earlier ++ e :: later) t) =
        Some {| rows_read := num_rows_read d; rows_written := num_rows_written d |}.
Proof.
  unfold record_statistics. rewrite try_except_run. case_bool_decide as Ht; cbn [negb]; [|done].
  intros H Hempty.
  match type of H with context [let (_, _) := ?m in _] => destruct m as [s1 [[]|x]] eqn:E end;
    [|by destruct x]. injection H as <-.
  apply M_bind_ok in E as (s2 & raw & [-> _]%lift_ok & E).
  apply M_bind_ok in E as (s3 & data & [-> _]%lift_ok & E).
  apply M_bind_ok in E as (s4 & d & [-> Hd]%lift_ok & E).
  rewrite M_bind_run in E. unfold modify in E. cbn beta iota in E.
  destruct (app_event_created _ _ _ _ _ _ E) as (e & w1 & w2 & Hc & <- & Hr & Hm & _).
  exists e, w1, d. split; [done|]. intros earlier later st t He. unfold job_run.
  rewrite (parse_stats_found earlier e later data d); try done; [by rewrite Hr, Ht|].
  destruct data; [|done]. by rewrite Hd in Hempty.
Qed.
End Events.

Definition no_job_state : FE KW := MkFE (kw_set_apps (finished_world []) ∅) [].

Lemma get_status_errors_witness :
  (get_status demo_frontend demo_conf "job" no_job_state).2 = Err (HTTPException 404 "Job with ID job not found").
Proof. apply (get_status_errors demo_frontend demo_conf "job" no_job_state). reflexivity. Defined.

Lemma recording_errors_become_500_witness :
  (record_operational_event demo_frontend demo_conf "job" event_QueryExecutionStarted no_job_state).2 =
    Err (HTTPException 500 "Failed to record operational event: 404: Spark application job not found") /\
  (record_statistics demo_frontend demo_conf "job" {| se_type := "other"; se_data_base64 := "" |} no_job_state).2 =
    Err (HTTPException 500
      "Failed to record statistics: 400: Invalid statistics event type: other. Expected 'QueryStatistics'").
Proof.
  destruct (recording_errors_become_500 demo_frontend demo_conf "job" event_QueryExecutionStarted
    "Event_1010 | Query execution started" {| se_type := "other"; se_data_base64 := "" |} "0123456789abcdef"
    (world no_job_state) no_job_state) as [H1 H2].
  split; [apply H1; reflexivity | apply H2; discriminate].
Defined.

Definition stats_event : StatisticsEvent :=
  {| se_type := QUERY_STATISTICS; se_data_base64 := b64encode "stats" |}.

Lemma record_statistics_ok :
  is_ok (record_statistics demo_frontend demo_conf "job" stats_event sql_state).2 = true.
Proof. vm_compute. reflexivity. Qed.

Lemma statistics_reach_run_witness :
  exists s' e w1, record_statistics demo_frontend demo_conf "job" stats_event sql_state = (s', Ok ()) /\
    create_namespaced_event (fe_kube demo_frontend) (ns demo_conf) e w1 = (world s', Ok ()) /\
    exists st, run_stats (job_run demo_frontend "job" (demo_status Completed) [e] 40000000%Z) = Some st.
Proof.
  destruct (record_statistics demo_frontend demo_conf "job" stats_event sql_state) as [s' [[]|x]] eqn:E.
  2:{ pose proof record_statistics_ok as Hok. rewrite E in Hok. discriminate Hok. }
  destruct (statistics_reach_run demo_frontend demo_conf "job" stats_event sql_state s' E)
    as (e & w1 & d & Hc & Hall); [reflexivity|].
  exists s', e, w1. split; [reflexivity|]. split; [exact Hc|].
  eexists. exact (Hall [] [] (demo_status Completed) 40000000%Z (List.Forall_nil _)).
Defined.

(** ** The attestation report *)

Section Report.
Context {W : Type} (fe : FrontendEnv W).

(** The report data as a verifier decodes it. *)
Definition report_data (payload : string) : res json :=
  raw ← b64decode payload; text ← utf8_decode raw; loads text.

Lemma report_data_payload j : json_wf j = true -> report_data (b64encode (utf8_encode (dumps j))) = Ok j.
Proof.
  intros Hj. unfold report_data. rewrite b64_roundtrip. cbv [mbind res_bind].
  rewrite utf8_decode_encode. by apply loads_dumps.
Qed.

(** On confidential hardware the payload of the report is the certificate
    in the service's certificate file, and the attestation service was asked
    to sign exactly that payload. *)
Theorem report_binds_certificate s s' resp : isSevSnp fe = true ->
  getFrontendReport fe s = (s', Ok resp) ->
  exists raw cert payload w1 w2 code data report,
    read_bytes (fe_kube fe) (service_cert_location fe) w1 = (w2, Ok raw) /\ utf8_decode raw = Ok cert /\
    report_data payload = Ok (JObj [("serviceCert", JStr cert)]) /\
    fe_http_post fe "http://localhost:8284/attest/combined" (JObj [("runtime_data", JStr payload)]) w2
      = (world s', Ok (code, Ok data)) /\ raise_for_status code = Ok () /\
    json_item report "attestation" = json_get data "evidence" JNull /\
    resp = JObj [("platform", JStr "snp"); ("report", report); ("reportDataPayload", JStr payload)].
Proof.
  intros Hsnp. unfold getFrontendReport. rewrite Hsnp. rewrite M_bind_run, in_world_run.
  destruct (path_exists _ _ _) as [w0 [[]|e]]; cbn [fst snd negb]; [|done..]. rewrite M_bind_run, in_world_run.
  destruct (read_bytes _ _ _) as [w1 [raw|e]] eqn:Hread; cbn [fst snd]; [|done].
  intros H. apply M_bind_ok in H as (s1 & cert & [-> Hcert]%lift_ok & H).
  apply M_bind_ok in H as (s2 & report & Hrep & H). injection H as <- <-.
  rewrite in_world_run in Hrep. cbn [world meters] in Hrep.
  destruct (get_report _ _ _) as [w2 r] eqn:Hget. cbn [fst snd] in Hrep. injection Hrep as <- ->.
  unfold get_report in Hget. rewrite M_bind_run in Hget.
  destruct (fe_http_post _ _ _ _) as [w3 [[code data]|e]] eqn:Hpost; [|done]. cbn [fst snd] in Hget.
  apply M_bind_ok in Hget as (w4 & [] & [-> Hcode]%lift_ok & Hget).
  apply M_bind_ok in Hget as (w5 & d & [-> Hd]%lift_ok & Hget). subst data.
  apply M_bind_ok in Hget as (w6 & ev & [-> Hev]%lift_ok & Hget).
  apply M_bind_ok in Hget as (w7 & en & [-> _]%lift_ok & Hget).
  apply M_bind_ok in Hget as (w8 & uv & [-> _]%lift_ok & Hget). injection Hget as <- <-.
  eexists raw, cert, _, _, w1, code, d, _. split_and!; [done|done| | exact Hpost | done | | done].
  - by apply report_data_payload.
  - by rewrite Hev.
Qed.
End Report.

Lemma report_ok : is_ok (getFrontendReport demo_frontend sql_state).2 = true.
Proof. vm_compute. reflexivity. Qed.

Lemma report_binds_certificate_witness : exists s' resp cert payload report,
  getFrontendReport demo_frontend sql_state = (s', Ok resp) /\
  report_data payload = Ok (JObj [("serviceCert", JStr cert)]) /\
  resp = JObj [("platform", JStr "snp"); ("report", report); ("reportDataPayload", JStr payload)].
Proof.
  destruct (getFrontendReport demo_frontend sql_state) as [s' [resp|x]] eqn:E.
  2:{ pose proof report_ok as Hok. rewrite E in Hok. discriminate Hok. }
  destruct (report_binds_certificate demo_frontend sql_state s' resp)
    as (raw & cert & payload & w1 & w2 & code & data & report & _ & _ & Hp & _ & _ & _ & Hr);
    [reflexivity | exact E |].
  exists s', resp, cert, payload, report. split; [reflexivity|]. split; [exact Hp | exact Hr].
Defined.

(** ** Webhook registration *)

Class HookServer {W} (api : KubeApi W) := {
  hook_at : W -> string -> option V1MutatingWebhookConfiguration;
  read_hook name w w' r : read_mutating_webhook_configuration api name w = (w', r) ->
    (forall n, hook_at w' n = hook_at w n) /\
    match r with
    | Ok cfg => hook_at w name = Some cfg
    | Err e => api_404 e = true -> hook_at w name = None
    end;
  replace_hook name cfg w w' : replace_mutating_webhook_configuration api name cfg w = (w', Ok ()) ->
    hook_at w' name = Some cfg /\ forall n, n <> name -> hook_at w' n = hook_at w n;
  replace_hook_error name cfg w w' e : replace_mutating_webhook_configuration api name cfg w = (w', Err e) ->
    forall n, hook_at w' n = hook_at w n;
  create_hook cfg w w' : create_mutating_webhook_configuration_ api cfg w = (w', Ok ()) ->
    hook_at w (whc_name cfg) = None /\ hook_at w' (whc_name cfg) = Some cfg /\
    forall n, n <> whc_name cfg -> hook_at w' n = hook_at w n;
  path_frame p w n : hook_at (path_exists api p w).1 n = hook_at w n;
  bytes_frame p w n : hook_at (read_bytes api p w).1 n = hook_at w n
}.

(** The registration after an upsert: a new one, or the old one with its
    first webhook's address replaced. *)
Definition upserted (old : option V1MutatingWebhookConfiguration) (wh : V1MutatingWebhook)
    (new : V1MutatingWebhookConfiguration) : Prop :=
  match old with
  | None => new = {| whc_name := wh_name wh; whc_webhooks := [wh] |}
  | Some cfg => exists w0 rest, whc_webhooks cfg = w0 :: rest /\
      new = {| whc_name := whc_name cfg; whc_webhooks := set_client_config w0 (wh_client_config wh) :: rest |}
  end.

Section Hooks.
Context {W : Type} (api : KubeApi W) `{!HookServer api}.

Lemma call_world {A} op kind name ns (m : M W A) s :
  world (call op kind name ns m s).1 = (m (world s)).1 /\ (call op kind name ns m s).2 = (m (world s)).2.
Proof. unfold call. by rewrite in_world_run. Qed.

Lemma call_inv {A} op kind name ns (m : M W A) s s' r :
  call op kind name ns m s = (s', r) -> m (world s) = (world s', r).
Proof. intros H. pose proof (call_world op kind name ns m s) as [H1 H2]. rewrite H in H1, H2. cbn in *.
  destruct (m (world s)); cbn in *; congruence. Qed.

Lemma update_first_ok cfg c new : update_first_webhook cfg c = Ok new ->
  exists w0 rest, whc_webhooks cfg = w0 :: rest /\
    new = {| whc_name := whc_name cfg; whc_webhooks := set_client_config w0 c :: rest |}.
Proof. unfold update_first_webhook. destruct (whc_webhooks cfg); [done|]. intros [= <-]. eauto. Qed.

Lemma update_first_err cfg c e : update_first_webhook cfg c = Err e -> api_404 e = false.
Proof. unfold update_first_webhook. destruct (whc_webhooks cfg); [|done]. by intros [= <-]. Qed.

(** A successful registration of a webhook leaves it registered with the
    service's current certificate, path and address: created when there was
    none, otherwise the old registration with only its address replaced; other
    registrations are untouched. *)
Theorem webhook_upserted name path lbls svc cert_path s s' :
  create_mutating_webhook_configuration api name path lbls svc cert_path s = (s', Ok ()) ->
  exists cert w1, (read_bytes api cert_path w1).2 = Ok cert /\
    let wh := mutating_webhook name path lbls svc (b64encode cert) in
    (exists new, hook_at (world s') (wh_name wh) = Some new /\
       upserted (hook_at (world s) (wh_name wh)) wh new) /\
    forall n, n <> wh_name wh -> hook_at (world s') n = hook_at (world s) n.
Proof.
  unfold create_mutating_webhook_configuration. rewrite M_bind_run, in_world_run.
  pose proof (path_frame cert_path (world s)) as Hp.
  destruct (path_exists api cert_path (world s)) as [w1 [[]|e]]; cbn [fst snd negb] in *; [|done..].
  rewrite M_bind_run, in_world_run. pose proof (bytes_frame cert_path w1) as Hb. cbn [world meters].
  destruct (read_bytes api cert_path w1) as [w2 [cert|e]] eqn:Hread; cbn [fst snd] in *; [|done].
  intros H. exists cert, w1. split; [by rewrite Hread|]. cbv zeta. revert H.
  set (wh := mutating_webhook _ _ _ _ _). rewrite try_except_run, M_bind_run.
  destruct (call "get" _ _ _ _ _) as [s3 r] eqn:Hget. apply call_inv in Hget. cbn [world] in Hget.
  apply read_hook in Hget as [Hframe Hr].
  assert (Hold : forall n, hook_at (world s3) n = hook_at (world s) n) by (intros n; by rewrite Hframe, Hb, Hp).
  destruct r as [cfg|e]; [rewrite M_bind_run; unfold lift;
    destruct (update_first_webhook cfg (wh_client_config wh)) as [new|e] eqn:Hu|].
  - destruct (call "patch" _ _ _ _ s3) as [s4 [[]|e]] eqn:Hput; apply call_inv in Hput.
    + intros [= <-]. apply replace_hook in Hput as [Hnew Hother]. split.
      * exists new. split; [done|]. rewrite <- Hp, <- Hb, Hr. by apply update_first_ok.
      * intros n Hn. by rewrite Hother, Hold.
    + destruct (api_404 e); [|done]. intros [Hnone _]%call_inv%create_hook. cbn [whc_name] in Hnone.
      rewrite (replace_hook_error _ _ _ _ _ Hput), Hframe in Hnone. congruence.
  - by rewrite (update_first_err _ _ _ Hu).
  - destruct (api_404 e) eqn:He; [|done]. intros H%call_inv%create_hook. cbn [whc_name] in H.
    destruct H as (Hnone & Hnew & Hother). split.
    + eexists. split; [done|]. rewrite Hold in Hnone. by rewrite Hnone.
    + intros n Hn. by rewrite Hother, Hold.
Qed.
End Hooks.

#[export] Program Instance kw_hook_server : HookServer kw_api := {| hook_at w n := kw_hooks w !! n |}.
Next Obligation. intros name w w' r. cbn. destruct (kw_hooks w !! name) eqn:E; by intros [= <- <-]. Qed.
Next Obligation.
  intros name cfg w w'. cbn. intros [= <-]. cbn. split; [apply lookup_insert_eq|].
  intros n Hn. by rewrite lookup_insert_ne.
Qed.
Next Obligation. done. Qed.
Next Obligation.
  intros cfg w w' H. cbn in H. pose proof (kw_create_ok _ _ _ _ _ _ H) as ->.
  unfold kw_create in H. destruct (kw_hooks w !! whc_name cfg) eqn:E; [done|].
  split_and!; [done | cbn; apply lookup_insert_eq|]. intros n Hn. cbn. by rewrite lookup_insert_ne.
Qed.
Next Obligation. done. Qed.
Next Obligation. done. Qed.

Lemma startup_registers_ok :
  is_ok (create_mutating_webhook_configuration kw_api CCE_POLICY_INJECTOR_WEBHOOK_NAME "/pod/ccepolicy/mutate" []
           (cfg_service demo_conf) "/app/service/service-cert.pem" sql_state).2 = true.
Proof. vm_compute. reflexivity. Qed.

Lemma webhook_upserted_witness : exists s' new,
  create_mutating_webhook_configuration kw_api CCE_POLICY_INJECTOR_WEBHOOK_NAME "/pod/ccepolicy/mutate" []
    (cfg_service demo_conf) "/app/service/service-cert.pem" sql_state = (s', Ok ()) /\
  hook_at (world s') "cce-policy-injector.fe.svc" = Some new.
Proof.
  destruct (create_mutating_webhook_configuration kw_api CCE_POLICY_INJECTOR_WEBHOOK_NAME "/pod/ccepolicy/mutate" []
    (cfg_service demo_conf) "/app/service/service-cert.pem" sql_state) as [s' [[]|x]] eqn:E.
  2:{ pose proof startup_registers_ok as Hok. rewrite E in Hok. discriminate Hok. }
  destruct (webhook_upserted kw_api _ _ _ _ _ _ _ E) as (cert & w1 & _ & [(new & Hn & _) _]).
  exists s', new. split; [reflexivity | exact Hn].
Defined.

(** ** Run history *)

Section Runs.
Context {W : Type} (fe : FrontendEnv W) (config : Configuration).

(** The answer to a query id that is not blank, from the API server's. *)
Definition runs_answer (query_id : string) (r : res JobRecord) : res JobRecordResponse :=
  match r with
  | Ok o =>
      if forallb times_valid (status_runs (status o)) then Ok (from_job_record o)
      else Err (HTTPException 500 ("Failed to get runs for query " +:+ query_id
                                   +:+ ": end_time must be after start_time"))
  | Err e =>
      if is_not_found e then Err (HTTPException 404 ("No run history found for query ID: " +:+ query_id))
      else match e with
           | HTTPException _ _ => Err e
           | _ => Err (HTTPException 500 ("Failed to get runs for query " +:+ query_id +:+ ": " +:+ exn_str e))
           end
  end.

Lemma strip_blank s : str_truthy s = false -> str_truthy (strip s) = false.
Proof. unfold str_truthy. by intros ->%negb_false_iff%bool_decide_eq_true. Qed.

(** [get_runs] answers a blank query id with 400 and no request, an unknown
    one with 404, a stored record with its runs, and any other failure with
    500; it makes one request at most and changes nothing else. *)
Theorem get_runs_answers query_id s :
  get_runs fe config query_id s =
  if str_truthy (strip query_id) then
    let '(w', r) := api_get (fe_records fe) (ns config) query_id (world s) in
    (MkFE w' (meters s), runs_answer query_id r)
  else (s, Err (HTTPException 400 "query_id cannot be null or empty.")).
Proof.
  unfold get_runs. destruct (str_truthy (strip query_id)) eqn:Hq.
  - destruct (str_truthy query_id) eqn:Hq'; [|by rewrite strip_blank in Hq]. cbn [negb orb].
    rewrite try_except_run, M_bind_run, in_world_run. unfold get_job_record.
    rewrite try_except_run, M_bind_run.
    destruct (api_get _ _ _ (world s)) as [w' [o|e]].
    + unfold parse_job_record, model_validate. rewrite M_bind_run. unfold lift. cbn [runs_answer].
      by destruct (forallb times_valid (status_runs (status o))).
    + cbn [runs_answer]. destruct (is_not_found e) eqn:He; [done|]. by destruct e.
  - rewrite orb_true_r. done.
Qed.
End Runs.
