(* ===== verification/PyDate.v ===== *)
(** * Calendar dates

    The part of Python's [datetime] the analytics application uses: a datetime
    at midnight is its date, read by [strptime] and printed by [strftime] with
    the format [%Y-%m-%d], compared with [<=] and advanced by
    [timedelta(days=1)]. *)

From S2P Require Import Prelude PyStr Json.
From Stdlib Require Import Ascii Lia.

Local Open Scope Z_scope.

Record date := Date { yr : Z; mon : Z; mday : Z }.

#[export] Instance date_eq_dec : EqDecision date.
Proof. solve_decision. Defined.

Definition is_leap (y : Z) : bool :=
  (y mod 4 =? 0) && (negb (y mod 100 =? 0) || (y mod 400 =? 0)).

Definition days_in_month (y m : Z) : Z :=
  if m =? 2 then (if is_leap y then 29 else 28)
  else if (m =? 4) || (m =? 6) || (m =? 9) || (m =? 11) then 30 else 31.

Definition date_ok (d : date) : bool :=
  (1 <=? yr d) && (yr d <=? 9999) && (1 <=? mon d) && (mon d <=? 12)
  && (1 <=? mday d) && (mday d <=? days_in_month (yr d) (mon d)).

(** [datetime(y, m, d)] *)
Definition make_date (y m d : Z) : res date :=
  if negb ((1 <=? y) && (y <=? 9999)) then Err (ValueError ("year " +:+ str_of_Z y +:+ " is out of range"))
  else if negb ((1 <=? m) && (m <=? 12)) then Err (ValueError "month must be in 1..12")
  else if negb ((1 <=? d) && (d <=? days_in_month y m)) then Err (ValueError "day is out of range for month")
  else Ok (Date y m d).

(** ** [strptime]

    The format is matched as the regular expression the library compiles it
    to: four digits; a month [1[0-2]|0[1-9]|[1-9]]; a day
    [3[0-1]|[1-2]\d|0[1-9]|[1-9]| [1-9]]; what follows the day is refused. *)

Definition is_digit19 (c : ascii) : bool := in_range 49 57 c.

Definition scan_year (s : string) : option (Z * string) :=
  match s with
  | String a (String b (String c (String d r))) =>
      if is_digit a && is_digit b && is_digit c && is_digit d
      then Some (1000 * digit_val a + 100 * digit_val b + 10 * digit_val c + digit_val d, r)
      else None
  | _ => None
  end.

Definition scan_dash (s : string) : option string :=
  match s with String "-" r => Some r | _ => None end.

(** The month together with the dash that must follow it. *)
Definition scan_month_dash (s : string) : option (Z * string) :=
  match s with
  | String a (String b r) =>
      if bool_decide (b = "-"%char) then (if is_digit19 a then Some (digit_val a, r) else None)
      else if (bool_decide (a = "1"%char) && in_range 48 50 b)
              || (bool_decide (a = "0"%char) && is_digit19 b)
      then r' ← scan_dash r; Some (10 * digit_val a + digit_val b, r')
      else None
  | _ => None
  end.

Definition scan_day (s : string) : option (Z * string) :=
  match s with
  | String a t =>
      match t with
      | String b r =>
          if (bool_decide (a = "3"%char) && in_range 48 49 b)
             || (in_range 49 50 a && is_digit b)
             || (bool_decide (a = "0"%char) && is_digit19 b)
          then Some (10 * digit_val a + digit_val b, r)
          else if is_digit19 a then Some (digit_val a, t)
          else if bool_decide (a = " "%char) && is_digit19 b then Some (digit_val b, r)
          else None
      | "" => if is_digit19 a then Some (digit_val a, t) else None
      end
  | "" => None
  end.

Definition strptime_ymd (s : string) : res date :=
  let bad := ValueError ("time data " +:+ repr_str s +:+ " does not match format '%Y-%m-%d'") in
  '(y, r) ← of_option bad (scan_year s);
  r ← of_option bad (scan_dash r);
  '(m, r) ← of_option bad (scan_month_dash r);
  '(d, r) ← of_option bad (scan_day r);
  if str_truthy r then Err (ValueError ("unconverted data remains: " +:+ r))
  else make_date y m d.

(** ** [strftime]

    The C library prints the year without padding. *)
Definition pad2 (z : Z) : string := if z <? 10 then "0" +:+ str_of_Z z else str_of_Z z.

Definition strftime_ymd (d : date) : string :=
  str_of_Z (yr d) +:+ "-" +:+ pad2 (mon d) +:+ "-" +:+ pad2 (mday d).

(** ** Order and successor *)

Definition date_le (a b : date) : bool :=
  (yr a <? yr b) || ((yr a =? yr b)
    && ((mon a <? mon b) || ((mon a =? mon b) && (mday a <=? mday b)))).

(** [d + timedelta(days=1)] *)
Definition next_day (d : date) : res date :=
  if mday d <? days_in_month (yr d) (mon d) then Ok (Date (yr d) (mon d) (mday d + 1))
  else if mon d <? 12 then Ok (Date (yr d) (mon d + 1) 1)
  else if yr d <? 9999 then Ok (Date (yr d + 1) 1 1)
  else Err (OtherException "date value out of range").

(** ** Ordinals

    [ordinal] numbers the days from 0001-01-01 on; it turns the order and the
    successor of dates into those of integers. *)

Definition days_before_year (y : Z) : Z :=
  let p := y - 1 in 365 * p + p / 4 - p / 100 + p / 400.

Definition days_before_month (y m : Z) : Z :=
  (if m <=? 1 then 0 else if m <=? 2 then 31 else if m <=? 3 then 59 else if m <=? 4 then 90
   else if m <=? 5 then 120 else if m <=? 6 then 151 else if m <=? 7 then 181 else if m <=? 8 then 212
   else if m <=? 9 then 243 else if m <=? 10 then 273 else if m <=? 11 then 304
   else if m <=? 12 then 334 else 365)
  + (if (2 <? m) && is_leap y then 1 else 0).

Definition ordinal (d : date) : Z :=
  days_before_year (yr d) + days_before_month (yr d) (mon d) + mday d.

Lemma date_ok_iff d : date_ok d = true <->
  1 <= yr d <= 9999 /\ 1 <= mon d <= 12 /\ 1 <= mday d <= days_in_month (yr d) (mon d).
Proof. unfold date_ok. rewrite !andb_true_iff, !Z.leb_le. lia. Qed.

Lemma make_date_ok y m d x : make_date y m d = Ok x -> x = Date y m d /\ date_ok x = true.
Proof.
  unfold make_date. repeat case_match; intros [= <-].
  repeat match goal with H : negb _ = false |- _ => apply negb_false_iff, andb_true_iff in H as [] end.
  unfold date_ok. cbn. split; [done|]. by rewrite !andb_true_iff.
Qed.

Lemma div_step y k : 0 < k -> y / k = (y - 1) / k + (if y mod k =? 0 then 1 else 0).
Proof.
  intros Hk. pose proof (Z.div_mod y k ltac:(lia)) as Hy. pose proof (Z.mod_pos_bound y k Hk).
  destruct (Z.eqb_spec (y mod k) 0) as [H0|H0].
  - symmetry. rewrite Z.add_move_r. symmetry. apply Z.div_unique with (k - 1); lia.
  - rewrite Z.add_0_r. apply Z.div_unique with (y mod k - 1); lia.
Qed.

Lemma mod_mul_0 y a b : 0 < a -> 0 < b -> y mod (a * b) = 0 -> y mod a = 0.
Proof.
  intros Ha Hb [q ->]%Z.mod_divide; [|lia].
  apply Z.mod_divide; [lia|]. exists (q * b). lia.
Qed.

Lemma days_before_year_step y :
  days_before_year (y + 1) = days_before_year y + 365 + (if is_leap y then 1 else 0).
Proof.
  unfold days_before_year, is_leap. replace (y + 1 - 1) with y by lia.
  rewrite (div_step y 4), (div_step y 100), (div_step y 400) by lia.
  pose proof (mod_mul_0 y 4 25 ltac:(lia) ltac:(lia)) as H1.
  pose proof (mod_mul_0 y 100 4 ltac:(lia) ltac:(lia)) as H2.
  change (4 * 25) with 100 in H1. change (100 * 4) with 400 in H2.
  destruct (Z.eqb_spec (y mod 4) 0), (Z.eqb_spec (y mod 100) 0), (Z.eqb_spec (y mod 400) 0);
    cbn; try lia; exfalso; tauto.
Qed.

Lemma days_before_month_step y m : 1 <= m <= 12 ->
  days_before_month y (m + 1) = days_before_month y m + days_in_month y m.
Proof.
  intros Hm. unfold days_before_month, days_in_month.
  assert (m = 1 \/ m = 2 \/ m = 3 \/ m = 4 \/ m = 5 \/ m = 6 \/ m = 7 \/ m = 8 \/ m = 9 \/ m = 10
          \/ m = 11 \/ m = 12) as Hc by lia.
  destruct (is_leap y); repeat destruct Hc as [-> | Hc]; try subst m; reflexivity.
Qed.

Lemma days_before_month_13 y : days_before_month y 13 = 365 + (if is_leap y then 1 else 0).
Proof. unfold days_before_month. by destruct (is_leap y). Qed.

Lemma days_before_month_1 y : days_before_month y 1 = 0.
Proof. reflexivity. Qed.

Lemma days_in_month_pos y m : 28 <= days_in_month y m <= 31.
Proof. unfold days_in_month. repeat case_match; lia. Qed.

Lemma next_day_ordinal d d' : date_ok d = true -> next_day d = Ok d' ->
  date_ok d' = true /\ ordinal d' = ordinal d + 1.
Proof.
  intros Hd%date_ok_iff. destruct Hd as (Hy & Hm & Hd). unfold next_day, ordinal.
  pose proof (days_in_month_pos (yr d) (mon d + 1)).
  destruct (Z.ltb_spec (mday d) (days_in_month (yr d) (mon d))).
  { intros [= <-]. rewrite date_ok_iff. cbn. lia. }
  destruct (Z.ltb_spec (mon d) 12).
  { intros [= <-]. rewrite date_ok_iff. cbn. rewrite days_before_month_step by lia. lia. }
  destruct (Z.ltb_spec (yr d) 9999); [|done].
  intros [= <-]. rewrite date_ok_iff. cbn [yr mon mday].
  pose proof (days_before_month_step (yr d) 12 ltac:(lia)) as Hs.
  change (12 + 1) with 13 in Hs. rewrite days_before_month_13 in Hs.
  rewrite days_before_year_step, days_before_month_1.
  replace (mon d) with 12 in * by lia. pose proof (days_in_month_pos (yr d + 1) 1). lia.
Qed.

Lemma next_day_last d e : date_ok d = true -> next_day d = Err e -> d = Date 9999 12 31.
Proof.
  intros Hd%date_ok_iff. destruct Hd as (Hy & Hm & Hd), d as [y m x]. unfold next_day. cbn in *.
  destruct (Z.ltb_spec x (days_in_month y m)); [done|].
  destruct (Z.ltb_spec m 12); [done|]. destruct (Z.ltb_spec y 9999); [done|]. intros _.
  replace m with 12 in * by lia. replace y with 9999 in * by lia. cbn in *. f_equal; lia.
Qed.

Lemma days_before_month_mono y m m' : 1 <= m -> m < m' -> m' <= 13 ->
  days_before_month y m + days_in_month y m <= days_before_month y m'.
Proof.
  intros H1 H2 H3. replace m' with (m + 1 + (m' - m - 1)) by lia.
  rewrite <- days_before_month_step by lia.
  assert (0 <= m' - m - 1) as Hk by lia. remember (m' - m - 1) as k eqn:Ek.
  assert (m + 1 + k <= 13) as Hb by lia. clear H2 H3 Ek m'. revert Hb. pattern k.
  apply natlike_ind; [| |done].
  - intros _. rewrite Z.add_0_r. lia.
  - intros j Hj IH Hb. specialize (IH ltac:(lia)). replace (m + 1 + Z.succ j) with (m + 1 + j + 1) by lia.
    rewrite (days_before_month_step y (m + 1 + j)) by lia. pose proof (days_in_month_pos y (m + 1 + j)). lia.
Qed.

Lemma days_before_year_mono y y' : y < y' ->
  days_before_year y + 365 + (if is_leap y then 1 else 0) <= days_before_year y'.
Proof.
  intros H. rewrite <- days_before_year_step.
  replace y' with (y + 1 + (y' - y - 1)) by lia. pattern (y' - y - 1).
  apply natlike_ind; [by rewrite Z.add_0_r| |lia].
  intros j Hj IH. replace (y + 1 + Z.succ j) with (y + 1 + j + 1) by lia.
  rewrite (days_before_year_step (y + 1 + j)). destruct (is_leap _); lia.
Qed.

Lemma ordinal_in_year d : date_ok d = true ->
  days_before_year (yr d) < ordinal d <= days_before_year (yr d) + 365 + (if is_leap (yr d) then 1 else 0).
Proof.
  intros (Hy & Hm & Hd)%date_ok_iff. unfold ordinal.
  pose proof (days_before_month_mono (yr d) (mon d) 13) as H. rewrite days_before_month_13 in H.
  enough (0 <= days_before_month (yr d) (mon d)) by lia.
  unfold days_before_month. repeat case_match; lia.
Qed.

Lemma date_lt_ordinal a b : date_ok a = true -> date_ok b = true ->
  date_le a b = false -> ordinal b < ordinal a.
Proof.
  intros Ha Hb. pose proof (ordinal_in_year a Ha). pose proof (ordinal_in_year b Hb).
  apply date_ok_iff in Ha as (Hya & Hma & Hda), Hb as (Hyb & Hmb & Hdb). unfold date_le.
  rewrite orb_false_iff, andb_false_iff, orb_false_iff, andb_false_iff.
  rewrite !Z.ltb_ge, !Z.eqb_neq, Z.leb_gt. intros [H1 H2].
  destruct (decide (yr a = yr b)) as [Hy|Hy].
  - destruct H2 as [H2|[H2 H3]]; [done|]. unfold ordinal. rewrite Hy.
    destruct (decide (mon a = mon b)) as [Hm|Hm]; [rewrite Hm; lia|].
    pose proof (days_before_month_mono (yr b) (mon b) (mon a) ltac:(lia) ltac:(lia) ltac:(lia)). lia.
  - pose proof (days_before_year_mono (yr b) (yr a) ltac:(lia)). lia.
Qed.

Lemma date_le_antisym a b : date_le a b = true -> date_le b a = true -> a = b.
Proof.
  unfold date_le. rewrite !orb_true_iff, !andb_true_iff, !orb_true_iff, !andb_true_iff.
  rewrite !Z.ltb_lt, !Z.eqb_eq, !Z.leb_le. destruct a, b; cbn. intros. f_equal; lia.
Qed.

Lemma date_le_total a b : date_le a b = false -> date_le b a = true.
Proof.
  unfold date_le. rewrite orb_false_iff, andb_false_iff, orb_false_iff, andb_false_iff.
  rewrite !orb_true_iff, !andb_true_iff, !orb_true_iff, !andb_true_iff.
  rewrite !Z.ltb_lt, !Z.ltb_ge, !Z.eqb_eq, !Z.eqb_neq, !Z.leb_le, !Z.leb_gt. lia.
Qed.

Lemma date_le_ordinal a b : date_ok a = true -> date_ok b = true ->
  date_le a b = true <-> ordinal a <= ordinal b.
Proof.
  intros Ha Hb. split.
  - intros H. destruct (date_le b a) eqn:Hba.
    + by rewrite (date_le_antisym a b H Hba).
    + apply date_lt_ordinal in Hba; [lia|done..].
  - intros H. destruct (date_le a b) eqn:Hab; [done|]. apply date_lt_ordinal in Hab; [lia|done..].
Qed.

Lemma ordinal_inj a b : date_ok a = true -> date_ok b = true -> ordinal a = ordinal b -> a = b.
Proof. intros Ha Hb H. apply date_le_antisym; apply date_le_ordinal; lia || done. Qed.

(** ** Printed dates are read back *)

Definition digits4_ok (y : Z) : bool :=
  match str_of_Z y with
  | String a (String b (String c (String d ""))) =>
      is_digit a && is_digit b && is_digit c && is_digit d
      && (1000 * digit_val a + 100 * digit_val b + 10 * digit_val c + digit_val d =? y)
  | _ => false
  end.

Definition Zs (lo : Z) (n : nat) : list Z := map (fun i => lo + Z.of_nat i) (seq 0 n).

Lemma Zs_elem lo n z : lo <= z < lo + Z.of_nat n -> z ∈ Zs lo n.
Proof.
  intros H. apply list_elem_of_fmap. exists (Z.to_nat (z - lo)). split; [lia|]. apply elem_of_seq. lia.
Qed.

Lemma Zs_forall (f : Z -> bool) lo n z : forallb f (Zs lo n) = true -> lo <= z < lo + Z.of_nat n -> f z = true.
Proof.
  rewrite forallb_forall. intros H Hz. apply H. apply list_elem_of_In. by apply Zs_elem.
Qed.

Lemma scan_year_print y r : 1000 <= y <= 9999 -> scan_year (str_of_Z y +:+ r) = Some (y, r).
Proof.
  intros Hy. assert (digits4_ok y = true) as H.
  { apply (Zs_forall digits4_ok 1000 (Z.to_nat 9000)); [vm_compute; reflexivity | lia]. }
  unfold digits4_ok in H. repeat case_match; try done.
  apply andb_true_iff in H as [Hd Hv]. apply Z.eqb_eq in Hv.
  rewrite !string_app_cons. cbn [scan_year]. rewrite Hd. by rewrite Hv.
Qed.

Definition month_ok (m : Z) : bool :=
  bool_decide (scan_month_dash (pad2 m +:+ "-") = Some (m, "")) && bool_decide (String.length (pad2 m) = 2%nat).

Definition day_ok (d : Z) : bool :=
  bool_decide (scan_day (pad2 d) = Some (d, "")) && bool_decide (String.length (pad2 d) = 2%nat).

Lemma scan_month_print m r : 1 <= m <= 12 -> scan_month_dash (pad2 m +:+ "-" +:+ r) = Some (m, r).
Proof.
  intros Hm. assert (month_ok m = true) as H.
  { apply (Zs_forall month_ok 1 12); [vm_compute; reflexivity | lia]. }
  unfold month_ok in H. apply andb_true_iff in H as [H1%bool_decide_eq_true H2%bool_decide_eq_true].
  destruct (pad2 m) as [|a [|b [|c s]]]; try done. rewrite !string_app_cons in *.
  change ("" +:+ ?x) with x in *. unfold scan_month_dash in *.
  destruct (bool_decide (b = "-"%char)); [by destruct (is_digit19 a)|].
  destruct ((_ && _) || _); [|done]. cbn in *. change ("" +:+ r) with r. congruence.
Qed.

Lemma scan_day_print d : 1 <= d <= 31 -> scan_day (pad2 d) = Some (d, "").
Proof.
  intros Hd. assert (day_ok d = true) as H.
  { apply (Zs_forall day_ok 1 31); [vm_compute; reflexivity | lia]. }
  unfold day_ok in H. by apply andb_true_iff in H as [H1%bool_decide_eq_true _].
Qed.

Lemma make_date_valid d : date_ok d = true -> make_date (yr d) (mon d) (mday d) = Ok d.
Proof.
  intros H. unfold make_date. unfold date_ok in H. rewrite !andb_true_iff in H.
  destruct H as [[[[[-> ->] ->] ->] ->] ->]. by destruct d.
Qed.

Lemma strptime_strftime d : date_ok d = true -> 1000 <= yr d -> strptime_ymd (strftime_ymd d) = Ok d.
Proof.
  intros Hd Hy. pose proof Hd as (Hy' & Hm & Hd')%date_ok_iff. pose proof (days_in_month_pos (yr d) (mon d)).
  unfold strptime_ymd, strftime_ymd.
  rewrite scan_year_print by lia. cbn [of_option mbind res_bind].
  change (scan_dash ("-" +:+ ?r)) with (Some r). cbn [of_option mbind res_bind].
  rewrite scan_month_print by lia. cbn [of_option mbind res_bind].
  rewrite scan_day_print by lia. cbn [of_option mbind res_bind]. cbn. by apply make_date_valid.
Qed.

Lemma strptime_ok s d : strptime_ymd s = Ok d -> date_ok d = true.
Proof.
  unfold strptime_ymd. intros H.
  apply res_bind_ok in H as ([y r1] & _ & H). cbn beta iota in H. apply res_bind_ok in H as (r2 & _ & H).
  apply res_bind_ok in H as ([m r3] & _ & H). cbn beta iota in H.
  apply res_bind_ok in H as ([x r4] & _ & H). cbn beta iota in H.
  destruct (str_truthy r4); [done|]. apply make_date_ok in H. tauto.
Qed.

(** ** The days of a range *)

Definition next_or_same (d : date) : date := match next_day d with Ok d' => d' | Err _ => d end.

(** The [n] days from [d] on. *)
Fixpoint days_from (n : nat) (d : date) : list date :=
  match n with
  | O => []
  | S n' => d :: days_from n' (next_or_same d)
  end.

(** The number of days from [a] to [b], both included. *)
Definition span (a b : date) : nat := Z.to_nat (ordinal b - ordinal a + 1).

Definition date_range (a b : date) : list date := days_from (span a b) a.

Lemma next_or_same_ok d : date_ok d = true -> d <> Date 9999 12 31 ->
  next_day d = Ok (next_or_same d) /\ date_ok (next_or_same d) = true /\ ordinal (next_or_same d) = ordinal d + 1.
Proof.
  intros Hd Hl. unfold next_or_same. destruct (next_day d) as [d'|e] eqn:Hn.
  - apply next_day_ordinal in Hn as [? ?]; [|done]. done.
  - by apply next_day_last in Hn.
Qed.

Lemma ordinal_le_max d : date_ok d = true -> ordinal d <= ordinal (Date 9999 12 31).
Proof.
  intros Hd. pose proof Hd as (Hy & Hm & Hx)%date_ok_iff. apply date_le_ordinal; [done|done|].
  unfold date_le. cbn [yr mon mday].
  pose proof (days_in_month_pos (yr d) (mon d)).
  rewrite !orb_true_iff, !andb_true_iff, !orb_true_iff, !andb_true_iff, !Z.ltb_lt, !Z.eqb_eq, Z.leb_le. lia.
Qed.

(** The range holds exactly the dates between its ends, each once. *)
Lemma days_from_elem n a d : date_ok a = true -> ordinal a + Z.of_nat n <= ordinal (Date 9999 12 31) + 1 ->
  d ∈ days_from n a <-> date_ok d = true /\ ordinal a <= ordinal d < ordinal a + Z.of_nat n.
Proof.
  revert a. induction n as [|n IH]; intros a Ha Hn; cbn [days_from].
  - rewrite elem_of_nil. lia.
  - rewrite elem_of_cons. destruct (decide (a = Date 9999 12 31)) as [->|Hl].
    + assert (n = 0)%nat as -> by lia. cbn [days_from]. rewrite elem_of_nil. split.
      * intros [->|[]]. split; [done|lia].
      * intros [Hd Hr]. left. apply ordinal_inj; [done|done|lia].
    + destruct (next_or_same_ok a Ha Hl) as (_ & Ho & Hs). rewrite (IH _ Ho) by lia. rewrite Hs. split.
      * intros [->|[Hd Hr]]; split; try done; lia.
      * intros [Hd Hr]. destruct (decide (ordinal d = ordinal a)) as [He|He].
        -- left. by apply ordinal_inj.
        -- right. split; [done|lia].
Qed.

Lemma date_range_elem a b d : date_ok a = true -> date_ok b = true ->
  d ∈ date_range a b <-> date_ok d = true /\ date_le a d = true /\ date_le d b = true.
Proof.
  intros Ha Hb. unfold date_range. pose proof (ordinal_le_max b Hb). pose proof (ordinal_le_max a Ha).
  rewrite days_from_elem by (try done; unfold span; lia).
  split; [intros [Hd Hr] | intros (Hd & H1 & H2)]; (split; [done|]).
  - rewrite !date_le_ordinal by done. unfold span in Hr. lia.
  - rewrite date_le_ordinal in H1, H2 by done. unfold span. lia.
Qed.
