(* ===== verification/Steps.v ===== *)
(** * Relational frames of computations

    [steps R m]: every run of [m], whether it returns or raises, takes the state
    along the preorder [R].  The combinators of the monad preserve such frames,
    so that a frame of a whole handler follows from those of its calls.
    [answers P m] bounds the answers of [m] in the same way. *)

From S2P Require Import Prelude.
From Stdlib Require Import RelationClasses.

Section Steps.
Context {W : Type} (R : W -> W -> Prop) `{!PreOrder R}.

Definition steps {A} (m : M W A) : Prop := forall w, R w (m w).1.

Lemma steps_run {A} (m : M W A) w w' r : steps m -> m w = (w', r) -> R w w'.
Proof. intros H Hm. pose proof (H w) as Hw. by rewrite Hm in Hw. Qed.

Lemma steps_ret {A} (a : A) : steps (mret a).
Proof. intros w. cbn. reflexivity. Qed.

Lemma steps_raise {A} e : steps (raise (A := A) e).
Proof. intros w. cbn. reflexivity. Qed.

Lemma steps_lift {A} (r : res A) : steps (lift r).
Proof. intros w. cbn. reflexivity. Qed.

Lemma steps_bind {A B} (m : M W A) (k : A -> M W B) : steps m -> (forall a, steps (k a)) -> steps (m ≫= k).
Proof.
  intros Hm Hk w. rewrite M_bind_run. specialize (Hm w). destruct (m w) as [w1 [a|e]]; cbn in *; [|done].
  etrans; [exact Hm | apply Hk].
Qed.

Lemma steps_try {A} (m : M W A) h : steps m -> (forall e, steps (h e)) -> steps (try_except m h).
Proof.
  intros Hm Hh w. rewrite try_except_run. specialize (Hm w). destruct (m w) as [w1 [a|e]]; cbn in *; [done|].
  etrans; [exact Hm | apply Hh].
Qed.

Lemma steps_fold {A B} (f : B -> A -> M W B) b l : (forall b a, steps (f b a)) -> steps (fold_M f b l).
Proof.
  intros Hf. revert b. induction l as [|a l IH]; intros b; [apply steps_ret|].
  apply steps_bind; auto.
Qed.

Lemma steps_if {A} (c : bool) (m1 m2 : M W A) : steps m1 -> steps m2 -> steps (if c then m1 else m2).
Proof. by destruct c. Qed.

Lemma steps_option {A B} (o : option B) (f : B -> M W A) (m : M W A) :
  (forall b, steps (f b)) -> steps m -> steps (match o with Some b => f b | None => m end).
Proof. destruct o; auto. Qed.
End Steps.

(** A coarser relation frames more. *)
Lemma steps_weaken {W A} (R R' : W -> W -> Prop) (m : M W A) :
  (forall w w', R w w' -> R' w w') -> steps R m -> steps R' m.
Proof. intros HR Hm w. apply HR, Hm. Qed.

(** Agreement on an observation is a preorder. *)
Definition same {W B} (f : W -> B) (w w' : W) : Prop := f w' = f w.

#[export] Instance same_preorder {W B} (f : W -> B) : PreOrder (same f).
Proof. unfold same. split; [by intros w|]. intros a b c. congruence. Qed.

(** Extension of an observed log is a preorder. *)
Definition extends {W B} (f : W -> list B) (w w' : W) : Prop := f w `prefix_of` f w'.

#[export] Instance extends_preorder {W B} (f : W -> list B) : PreOrder (extends f).
Proof. unfold extends. split; [by intros w|]. intros a b c. by intros; etrans. Qed.

(** ** Running a list of computations

    [asyncio.gather] over coroutines that never suspend: each runs to its end
    in turn, and its result or its exception is kept. *)
Fixpoint gather {W A} (ms : list (M W A)) : M W (list (res A)) :=
  match ms with
  | [] => mret []
  | m :: ms' => fun w => let '(w1, r) := m w in
                let '(w2, rs) := gather ms' w1 in
                (w2, l ← rs; Ok (r :: l))
  end.

Lemma gather_run {W A} (m : M W A) ms w :
  gather (m :: ms) w
  = let '(w1, r) := m w in let '(w2, rs) := gather ms w1 in (w2, l ← rs; Ok (r :: l)).
Proof. reflexivity. Qed.

(** Gathering never raises and answers one result per computation. *)
Lemma gather_ok {W A} (ms : list (M W A)) w :
  exists w' rs, gather ms w = (w', Ok rs) /\ length rs = length ms.
Proof.
  revert w. induction ms as [|m ms IH]; intros w; [by exists w, []|].
  rewrite gather_run. destruct (m w) as [w1 r]. destruct (IH w1) as (w2 & rs & -> & Hl).
  exists w2, (r :: rs). cbn. by rewrite Hl.
Qed.

Lemma steps_gather {W A} (R : W -> W -> Prop) `{!PreOrder R} (ms : list (M W A)) :
  Forall (steps R) ms -> steps R (gather ms).
Proof.
  induction 1 as [|m ms Hm Hms IH]; [intros w; cbn; reflexivity|].
  intros w. rewrite gather_run. specialize (Hm w). destruct (m w) as [w1 r]. specialize (IH w1).
  destruct (gather ms w1) as [w2 rs]. cbn in *. by etrans.
Qed.

Lemma steps_gather_map {W A B} (R : W -> W -> Prop) `{!PreOrder R} (f : B -> M W A) (l : list B) :
  (forall b, steps R (f b)) -> steps R (gather (map f l)).
Proof. intros Hf. apply steps_gather; [done|]. induction l; constructor; auto. Qed.

(** ** Computations with one effect on an observation

    [ends_on f Q m w]: running [m] in [w] takes the observation [f] along [Q].
    Computations that do not change [f] can be peeled off at either end. *)

Definition ends_on {W B A} (f : W -> B) (Q : B -> B -> Prop) (m : M W A) (w : W) : Prop := Q (f w) (f (m w).1).

Section Ends.
Context {W B : Type} (f : W -> B) (Q : B -> B -> Prop).

Lemma ends_quiet {A} (m : M W A) w : (forall s, Q s s) -> steps (same f) m -> ends_on f Q m w.
Proof. intros HQ Hm. unfold ends_on. pose proof (Hm w) as H. unfold same in H. rewrite H. apply HQ. Qed.

Lemma ends_after {A C} (m : M W A) (k : A -> M W C) w :
  (forall s, Q s s) -> steps (same f) m ->
  (forall a w1, m w = (w1, Ok a) -> ends_on f Q (k a) w1) -> ends_on f Q (m ≫= k) w.
Proof.
  intros HQ Hm Hk. pose proof (Hm w) as H. unfold ends_on, same in *. rewrite M_bind_run.
  destruct (m w) as [w1 [a|e]]; cbn in *; [rewrite <- H; by apply Hk | by rewrite H].
Qed.

Lemma ends_before {A C} (m : M W A) (k : A -> M W C) w :
  ends_on f Q m w -> (forall a, steps (same f) (k a)) -> ends_on f Q (m ≫= k) w.
Proof.
  intros Hm Hk. unfold ends_on in *. rewrite M_bind_run. destruct (m w) as [w1 [a|e]]; [|done].
  pose proof (Hk a w1) as H. unfold same in H. by rewrite H.
Qed.

Lemma ends_try {A} (m : M W A) h w :
  ends_on f Q m w -> (forall e, steps (same f) (h e)) -> ends_on f Q (try_except m h) w.
Proof.
  intros Hm Hh. unfold ends_on in *. rewrite try_except_run. destruct (m w) as [w1 [a|e]]; [done|].
  pose proof (Hh e w1) as H. unfold same in H. by rewrite H.
Qed.
End Ends.

(** A log grows by nothing, or by one entry that satisfies [P]. *)
Definition at_most_one {B} (P : B -> Prop) (s s' : list B) : Prop :=
  s' = s \/ exists x, P x /\ s' = s ++ [x].

Lemma at_most_one_refl {B} (P : B -> Prop) s : at_most_one P s s.
Proof. by left. Qed.

(** [steps_go] frames a computation by its structure; the frames of the calls
    are the hints of [steps]. *)
Create HintDb steps discriminated.
#[export] Hint Resolve steps_ret steps_raise steps_lift : steps.

Ltac steps_go :=
  repeat match goal with
  | |- forall _ : (_ * _)%type, _ => intros [? ?]
  | |- PreOrder _ => typeclasses eauto
  | |- forall _, _ => intro
  | |- steps _ _ => solve [eauto with steps typeclass_instances]
  | |- steps _ (mbind _ _) => apply steps_bind
  | |- steps _ (try_except _ _) => apply steps_try
  | |- steps _ (fold_M _ _ _) => apply steps_fold
  | |- steps _ (gather (map _ _)) => apply steps_gather_map
  | |- steps _ (let _ := _ in _) => cbv zeta
  | |- steps _ (match ?x with _ => _ end) => destruct x
  end.

(** Peel a computation that does not change the observed log. *)
Ltac peel := apply ends_after; [apply at_most_one_refl | solve [steps_go] |].
