(* ===== verification/Analytics.v ===== *)
(** * The analytics application

    [analytics-app/src/analytics_workload]: the program that runs inside the
    Spark driver.  It decodes the job from its environment
    ([config/configuration.py], [config/query.py], [run_query.py: main]), loads
    the datasets as views that expose the allowed fields only
    ([utilities/dataset_loader.py]), runs the segments of the query step by step
    with their preconditions and filters, and writes the last segment's result
    ([run_query.py]).

    Spark, the file system and the clock are the record [SparkApi] of
    operations on a world [W] and data frames [DF]; the three reporting
    interfaces of [analytics_contracts] are the record [Adapters].  No coroutine
    of the application ever suspends (the reporting adapters block), so that
    [asyncio.gather] runs them one after the other ([Steps.gather]). *)

From S2P Require Import Prelude PyStr Base64 Json JsonFacts PyFloat PyDate CleanroomModels Contracts Steps.
From Stdlib Require Import Ascii.
From stdpp Require Import sorting.

(** ** Configuration *)

Record AppDataset := {
  ad_name : string;
  ad_view_name : string;
  ad_path : string;
  ad_format : DatasetFormat;
  ad_schema : option (list (string * list (string * string)));
  ad_allowedFields : list string
}.

Record QueryConfiguration := {
  qc_query : string;
  qc_datasets : list AppDataset;
  qc_datasink : AppDataset
}.

Record PreCondition := { pre_viewName : string; minRowCount : Z }.
Record PostFilter := { columnName : string; pf_value : Z }.

Record QuerySegment := {
  executionSequence : Z;
  data : string;
  preConditions : option (list PreCondition);
  postFilters : option (list PostFilter)
}.

Record Query := { segments : list QuerySegment }.

(** *** Validation

    pydantic in its default mode: unknown fields are ignored, a string field
    takes a JSON string only, an optional field may be absent or null.
    [lax_int] is its conversion of a JSON value that is not an integer. *)

Definition invalid {A} (msg : string) : res A := Err (ValidationError msg).

Definition field (d : list (string * json)) (k : string) : res json :=
  of_option (ValidationError (k +:+ ": Field required")) (dict_lookup k d).

Definition opt_field (d : list (string * json)) (k : string) : json := default JNull (dict_lookup k d).

Definition as_obj (j : json) : res (list (string * json)) :=
  match j with JObj d => Ok d | _ => invalid "Input should be an object" end.
Definition as_list (j : json) : res (list json) :=
  match j with JArr l => Ok l | _ => invalid "Input should be a valid list" end.
Definition as_str (j : json) : res string :=
  match j with JStr s => Ok s | _ => invalid "Input should be a valid string" end.
Definition as_opt {A} (f : json -> res A) (j : json) : res (option A) :=
  match j with JNull => Ok None | _ => a ← f j; Ok (Some a) end.
Definition as_dict {A} (f : json -> res A) (j : json) : res (list (string * A)) :=
  d ← as_obj j; mapM_res (fun kv => v ← f kv.2; Ok (kv.1, v)) d.
Definition as_list_of {A} (f : json -> res A) (j : json) : res (list A) :=
  l ← as_list j; mapM_res f l.

Definition as_format (j : json) : res DatasetFormat :=
  s ← as_str j;
  if decide (s = "csv") then Ok fmt_csv
  else if decide (s = "json") then Ok fmt_json
  else if decide (s = "parquet") then Ok fmt_parquet
  else invalid "Input should be 'csv', 'json' or 'parquet'".

Definition decode_dataset (j : json) : res AppDataset :=
  d ← as_obj j;
  name ← field d "name" ≫= as_str;
  view_name ← field d "viewName" ≫= as_str;
  path ← field d "path" ≫= as_str;
  format ← field d "format" ≫= as_format;
  schema ← as_opt (as_dict (as_dict as_str)) (opt_field d "schema");
  allowed ← field d "allowedFields" ≫= as_list_of as_str;
  Ok {| ad_name := name; ad_view_name := view_name; ad_path := path; ad_format := format;
        ad_schema := schema; ad_allowedFields := allowed |}.

Definition decode_query_configuration (j : json) : res QueryConfiguration :=
  d ← as_obj j;
  query ← field d "query" ≫= as_str;
  datasets ← field d "datasets" ≫= as_list_of decode_dataset;
  datasink ← field d "datasink" ≫= decode_dataset;
  Ok {| qc_query := query; qc_datasets := datasets; qc_datasink := datasink |}.

Definition as_int (lax_int : json -> res Z) (j : json) : res Z :=
  match j with JInt z => Ok z | _ => lax_int j end.

Section DecodeQuery.
Context (lax_int : json -> res Z).

Definition decode_precondition (j : json) : res PreCondition :=
  d ← as_obj j;
  v ← field d "viewName" ≫= as_str;
  n ← field d "minRowCount" ≫= as_int lax_int;
  Ok {| pre_viewName := v; minRowCount := n |}.

Definition decode_postfilter (j : json) : res PostFilter :=
  d ← as_obj j;
  c ← field d "columnName" ≫= as_str;
  v ← field d "value" ≫= as_int lax_int;
  Ok {| columnName := c; pf_value := v |}.

Definition decode_segment (j : json) : res QuerySegment :=
  d ← as_obj j;
  n ← field d "executionSequence" ≫= as_int lax_int;
  text ← field d "data" ≫= as_str;
  pre ← as_opt (as_list_of decode_precondition) (opt_field d "preConditions");
  post ← as_opt (as_list_of decode_postfilter) (opt_field d "postFilters");
  Ok {| executionSequence := n; data := text; preConditions := pre; postFilters := post |}.

Definition decode_query (j : json) : res Query :=
  d ← as_obj j;
  l ← field d "segments" ≫= as_list_of decode_segment;
  Ok {| segments := l |}.
End DecodeQuery.

(** [Model.model_validate_json(text)] *)
Definition validate_json {A} (decode : json -> res A) (text : string) : res A :=
  match loads text with
  | Ok j => decode j
  | Err (Unrepresentable t) => Err (Unrepresentable t)
  | Err e => invalid ("Invalid JSON: " +:+ exn_str e)
  end.

(** ** Spark schemas *)

(** [OtherType] stands for the types the application never names. *)
Inductive DataType :=
| StringType | IntegerType | LongType | TimestampType | DoubleType | BooleanType | DateType
| ArrayType (elementType : DataType) (containsNull : bool)
| OtherType (description : string).

#[export] Instance DataType_eq_dec : EqDecision DataType.
Proof. solve_decision. Defined.

Record StructField := { sf_name : string; sf_type : DataType; sf_nullable : bool }.
Definition StructType := list StructField.

Definition no_get (ty : string) : exn := AttributeError ("'" +:+ ty +:+ "' object has no attribute 'get'").

(** [parse_field] on the description of one column.  The values of a
    description are strings, so that the description of an array's items and
    the descriptions inside an object have no [get]. *)
Definition parse_field (prop_schema : list (string * string)) : res DataType :=
  let type_ := dict_lookup "type" prop_schema in
  if decide (type_ = Some "string") then Ok StringType
  else if decide (type_ = Some "integer") then Ok IntegerType
  else if decide (type_ = Some "long") then Ok LongType
  else if decide (type_ = Some "timestamp") then Ok TimestampType
  else if decide (type_ = Some "number") then Ok DoubleType
  else if decide (type_ = Some "boolean") then Ok BooleanType
  else if decide (type_ = Some "date") then Ok DateType
  else if decide (type_ = Some "array") then
    match dict_lookup "items" prop_schema with
    | Some _ => Err (no_get "str")
    | None => Ok (ArrayType StringType true)
    end
  else if decide (type_ = Some "object") then Err (no_get "str")
  else Ok StringType.

(** [prop not in schema.get("required", [])]: a column called [required] makes
    its description the list of required columns. *)
Definition is_required (schema : list (string * list (string * string))) (prop : string) : bool :=
  match dict_lookup "required" schema with
  | Some d => match dict_lookup prop d with Some _ => true | None => false end
  | None => false
  end.

Definition parse_json_schema (schema : option (list (string * list (string * string)))) : res StructType :=
  match schema with
  | None => Err (AttributeError "'NoneType' object has no attribute 'items'")
  | Some s =>
      mapM_res (fun kv => t ← parse_field kv.2;
                          Ok {| sf_name := kv.1; sf_type := t; sf_nullable := negb (is_required s kv.1) |}) s
  end.

Definition field_types (s : StructType) : list (string * DataType) :=
  dict_of_pairs (map (fun f => (sf_name f, sf_type f)) s).

Definition is_schema_compatible (df_schema expected_schema : StructType) : bool :=
  let expected_fields := field_types expected_schema in
  forallb (fun kv => bool_decide (dict_lookup kv.1 expected_fields = Some kv.2)) (field_types df_schema).

(** ** The outside world *)

Record SparkApi (W DF : Type) := {
  read_csv : string -> StructType -> M W DF;
  read_json : string -> StructType -> M W DF;
  read_parquet : string -> StructType -> M W DF;
  unionByName : DF -> DF -> M W DF;
  select : DF -> list string -> M W DF;
  filter_ge : DF -> string -> Z -> M W DF;
  columns : DF -> list string;
  df_schema : DF -> StructType;
  df_cache : DF -> M W unit;
  df_count : DF -> M W Z;
  createOrReplaceTempView : DF -> string -> M W unit;
  listTables : M W (list string);
  table : string -> M W DF;
  sql : string -> M W DF;
  conf_set : string -> string -> M W unit;
  getOrCreate : string -> M W unit;
  makedirs : string -> M W unit;
  save : DF -> string -> string -> M W unit;
  today : M W date;
  monotonic_ns : M W Z;
  float_repr : float -> string;
  set_repr : list string -> string
}.
Arguments read_csv {W DF}. Arguments read_json {W DF}. Arguments read_parquet {W DF}.
Arguments unionByName {W DF}. Arguments select {W DF}. Arguments filter_ge {W DF}.
Arguments columns {W DF}. Arguments df_schema {W DF}. Arguments df_cache {W DF}.
Arguments df_count {W DF}. Arguments createOrReplaceTempView {W DF}. Arguments listTables {W DF}.
Arguments table {W DF}. Arguments sql {W DF}. Arguments conf_set {W DF}. Arguments getOrCreate {W DF}.
Arguments makedirs {W DF}. Arguments save {W DF}. Arguments today {W DF}. Arguments monotonic_ns {W DF}.
Arguments float_repr {W DF}. Arguments set_repr {W DF}.

(** [IEventEmitter], [IAuditRecordLogger] and [IStatisticsRecorder]. *)
Record Adapters (W : Type) := {
  log_operational_event : OperationalEvent -> M W unit;
  log_audit_record : AuditRecord -> M W unit;
  record_stats : StatisticsEvent -> M W unit
}.
Arguments log_operational_event {W}. Arguments log_audit_record {W}. Arguments record_stats {W}.

(** [os.path.join(a, b)] for a relative [b]. *)
Fixpoint ends_with_slash (s : string) : bool :=
  match s with
  | "" => false
  | String c "" => bool_decide (c = "/"%char)
  | String _ t => ends_with_slash t
  end.
Definition path_join (a b : string) : string :=
  if bool_decide (a = "") || ends_with_slash a then a +:+ b else a +:+ "/" +:+ b.

Definition or_na (s : string) : string := if bool_decide (s = "") then "NA" else s.

Section App.
Context {W DF : Type} (api : SparkApi W DF) (ad : Adapters W).

(** ** Loading and writing datasets *)

Definition load_dataset_folder (dataset : AppDataset) (data_path : string) : M W DF :=
  schema ← lift (parse_json_schema (ad_schema dataset));
  match ad_format dataset with
  | fmt_csv => read_csv api data_path schema
  | fmt_json => read_json api data_path schema
  | fmt_parquet => read_parquet api data_path schema
  end.

(** The loop over the days from [current] to [end_]; [fuel] bounds the number
    of days. *)
Fixpoint load_days (fuel : nat) (dataset : AppDataset) (current end_ : date) (all_dfs : list DF)
  : M W (list DF) :=
  if date_le current end_ then
    match fuel with
    | O => raise (OtherException "date loop: fuel")
    | S fuel' =>
        let data_path := path_join (ad_path dataset) (strftime_ymd current) in
        '(current', dfs) ← try_except
          (df ← load_dataset_folder dataset data_path;
           next ← lift (next_day current);
           mret (next, all_dfs ++ [df]))
          (fun e => if str_contains "Path does not exist" (exn_str e)
                    then next ← lift (next_day current); mret (next, all_dfs)
                    else raise e);
        load_days fuel' dataset current' end_ dfs
    end
  else mret all_dfs.

(** [reduce(unionByName, all_dfs)], [None] when there is nothing to combine. *)
Definition consolidate (all_dfs : list DF) : M W (option DF) :=
  match all_dfs with
  | [] => mret None
  | df :: dfs => d ← fold_M (unionByName api) df dfs; mret (Some d)
  end.

Definition load_date_range (dataset : AppDataset) (start_date end_date : string) : M W (option DF) :=
  if bool_decide (start_date = "") || bool_decide (end_date = "") then mret None
  else
    start ← lift (strptime_ymd start_date);
    end_ ← lift (strptime_ymd end_date);
    all_dfs ← load_days (span start end_) dataset start end_ [];
    consolidate all_dfs.

Definition select_allowed (dataset : AppDataset) (df : DF) : M W DF :=
  select api df (filter (fun f => f ∈ columns api df) (ad_allowedFields dataset)).

Definition load_dataset_async (dataset : AppDataset) (start_date end_date job_id : string) : M W Z :=
  log_operational_event ad
    (event_DatasetLoadStarted (ad_name dataset) (ad_path dataset) (or_na end_date) (or_na start_date));;
  try_except
    (consolidated_df ← load_date_range dataset start_date end_date;
     df ← match consolidated_df with
          | Some df => mret df
          | None => load_dataset_folder dataset (ad_path dataset)
          end;
     df ← select_allowed dataset df;
     df_cache api df;;
     createOrReplaceTempView api df (ad_view_name dataset);;
     row_count ← df_count api df;
     log_operational_event ad
       (event_DatasetLoadCompleted (ad_name dataset) (ad_path dataset) (str_of_Z row_count));;
     log_audit_record ad (audit_DatasetLoadCompleted "dataset_loader" (ad_name dataset) job_id);;
     mret row_count)
    (fun e =>
       log_operational_event ad (event_DatasetLoadFailed (ad_name dataset) (ad_path dataset) (exn_str e));;
       log_audit_record ad (audit_DatasetLoadFailed "dataset_loader" (ad_name dataset) job_id);;
       raise e).

Definition output_path (dataset : AppDataset) (current_date : date) (job_id : string) : string :=
  ad_path dataset +:+ "/" +:+ strftime_ymd current_date +:+ "/" +:+ job_id.

Definition write_dataset_async (job_id : string) (df : DF) (dataset : AppDataset) : M W Z :=
  log_operational_event ad (event_DatasetWriteStarted (ad_name dataset) (ad_path dataset));;
  conf_set api "mapreduce.fileoutputcommitter.marksuccessfuljobs" "false";;
  conf_set api "dfs.client.write.checksum" "false";;
  conf_set api "mapreduce.fileoutputcommitter.algorithm.version" "2";;
  current_date ← today api;
  let path := output_path dataset current_date job_id in
  try_except
    (df ← select_allowed dataset df;
     dataset_schema ← lift (parse_json_schema (ad_schema dataset));
     if negb (is_schema_compatible (df_schema api df) dataset_schema)
     then raise (ValueError "DataFrame schema does not match expected dataset schema.")
     else
       _ ← df_count api df;
       makedirs api path;;
       save api df (DatasetFormat_value (ad_format dataset)) path;;
       row_count ← df_count api df;
       log_operational_event ad (event_DatasetWriteCompleted (ad_name dataset) path (str_of_Z row_count));;
       log_audit_record ad
         (audit_DatasetWriteCompleted "dataset_loader" (ad_name dataset) path job_id (str_of_Z row_count));;
       mret row_count)
    (fun e =>
       log_operational_event ad (event_DatasetWriteFailed (ad_name dataset) (exn_str e) path);;
       log_audit_record ad
         (audit_DatasetWriteFailed "dataset_loader" (ad_name dataset) path job_id (exn_str e));;
       raise e).

(** ** Running the query *)

Definition enforce (all_tables : list string) (_ : unit) (c : PreCondition) : M W unit :=
  if negb (bool_decide (pre_viewName c ∈ all_tables))
  then raise (ValueError ("View " +:+ pre_viewName c +:+ " does not exist in the Spark catalog. Exiting"))
  else
    df ← table api (pre_viewName c);
    row_count ← df_count api df;
    if (row_count <? minRowCount c)%Z
    then raise (ValueError ("Pre-segment enforcement failed for view " +:+ pre_viewName c +:+ ": row count "
           +:+ str_of_Z row_count +:+ " is less than minRowCount " +:+ str_of_Z (minRowCount c)))
    else mret ().

Definition pre_segment_enforcement (enforcements : list PreCondition) : M W unit :=
  all_tables ← listTables api;
  fold_M (enforce all_tables) () enforcements.

Definition missing_columns (df : DF) (enforcements : list PostFilter) : list string :=
  filter (fun c => c ∉ columns api df) (remove_dups (map columnName enforcements)).

Definition post_segment_filtering (df : DF) (enforcements : list PostFilter) : M W DF :=
  match missing_columns df enforcements with
  | [] => fold_M (fun d f => filter_ge api d (columnName f) (pf_value f)) df enforcements
  | missing => raise (ValueError ("Required columns: " +:+ set_repr api missing
                 +:+ " missing in the output for PostSegmentFilteringEnforcement"))
  end.

(** [if l:] for an optional list. *)
Definition some_list {A} (o : option (list A)) : option (list A) :=
  match o with Some (a :: l) => Some (a :: l) | _ => None end.

(** The body of a segment: its result and the row count that is reported. *)
Definition execute_segment (segment : QuerySegment) : M W (DF * Z) :=
  match some_list (preConditions segment) with
  | Some l => pre_segment_enforcement l
  | None => mret ()
  end;;
  result ← sql api (data segment);
  row_count ← df_count api result;
  match some_list (postFilters segment) with
  | Some l =>
      result ← post_segment_filtering result l;
      row_count ← df_count api result;
      mret (result, row_count)
  | None => mret (result, row_count)
  end.

Definition run_query_segment (segment : QuerySegment) : M W DF :=
  let step_number := str_of_Z (executionSequence segment) in
  try_except
    (log_operational_event ad (event_QuerySegmentExecutionStarted step_number);;
     '(result, row_count) ← execute_segment segment;
     log_operational_event ad (event_QuerySegmentExecutionCompleted (str_of_Z row_count) step_number);;
     mret result)
    (fun e =>
       log_operational_event ad (event_QuerySegmentExecutionFailed (exn_str e) step_number);;
       raise e).

(** [segments_by_step]: a dictionary from step to segments in insertion order. *)
Fixpoint add_to_step (step : Z) (s : QuerySegment) (d : list (Z * list QuerySegment))
  : list (Z * list QuerySegment) :=
  match d with
  | [] => [(step, [s])]
  | (k, l) :: d' => if decide (k = step) then (k, l ++ [s]) :: d' else (k, l) :: add_to_step step s d'
  end.

Definition segments_by_step (l : list QuerySegment) : list (Z * list QuerySegment) :=
  foldl (fun d s => add_to_step (executionSequence s) s d) [] l.

Definition last_step (l : list QuerySegment) : Z :=
  foldl (fun m s => if (m <? executionSequence s)%Z then executionSequence s else m) 0%Z l.

(** [d[step]] of the dictionary; an absent step has no segments. *)
Fixpoint step_segments (step : Z) (d : list (Z * list QuerySegment)) : list QuerySegment :=
  match d with
  | [] => []
  | (k, l) :: d' => if decide (k = step) then l else step_segments step d'
  end.

Definition check_last_step (l : list QuerySegment) : res unit :=
  let d := segments_by_step l in
  if bool_decide (length d = 0%nat) then Ok ()
  else let n := length (step_segments (last_step l) d) in
       if bool_decide (n = 1%nat) then Ok ()
       else Err (ValueError ("There should be just 1 last segment but there are "
                             +:+ str_of_Z (Z.of_nat n) +:+ ".")).

(** [sorted(segments_by_step.keys())] *)
Definition sorted_steps (d : list (Z * list QuerySegment)) : list Z := merge_sort Z.le (d.*1).

(** One step: every segment runs, the first exception is raised, and the last
    step gives the output. *)
Definition run_step (l : list QuerySegment) (output : option DF) (step : Z) : M W (option DF) :=
  results ← gather (map run_query_segment (step_segments step (segments_by_step l)));
  results ← lift (mapM_res id results);
  if (last_step l =? step)%Z
  then match results with
       | r :: _ => mret (Some r)
       | [] => raise (IndexError "list index out of range")
       end
  else mret output.

Definition run_segments (l : list QuerySegment) : M W (option DF) :=
  lift (check_last_step l);;
  fold_M (run_step l) None (sorted_steps (segments_by_step l)).

Definition sum_Z (l : list Z) : Z := foldl Z.add 0%Z l.

Definition load_datasets (config : QueryConfiguration) (start_date end_date job_id : string) : M W Z :=
  results ← gather (map (fun d => load_dataset_async d start_date end_date job_id) (qc_datasets config));
  results ← lift (mapM_res id results);
  mret (sum_Z results).

Definition run_query (config : QueryConfiguration) (query : Query) (start_date end_date job_id : string)
  : M W unit :=
  start_time ← monotonic_ns api;
  try_except
    (row_count_read ← load_datasets config start_date end_date job_id;
     output ← run_segments (segments query);
     row_count_written ← match output with
                         | Some df => write_dataset_async job_id df (qc_datasink config)
                         | None => mret 0%Z
                         end;
     end_time ← monotonic_ns api;
     let duration := fdiv (of_int (end_time - start_time)) (of_int 1000000000) in
     log_operational_event ad (event_QueryExecutionCompleted (float_repr api duration));;
     log_audit_record ad (audit_QueryCompleted "run_query" job_id);;
     record_stats ad (event_QueryStatistics (float_repr api) duration row_count_read row_count_written))
    (fun e =>
       log_operational_event ad (event_QueryExecutionFailed (exn_str e));;
       log_audit_record ad (audit_QueryFailed "run_query" job_id (exn_str e));;
       raise e).

(** ** [main] *)

Context (lax_int : json -> res Z).

Definition env_str (environ : string -> option string) (k : string) : string := default "" (environ k).

(** The carrier of the trace context is decoded even though only telemetry
    reads it. *)
Definition decode_trace_context (environ : string -> option string) : res unit :=
  let b64 := env_str environ "OTEL_TRACE_CONTEXT_BASE64" in
  if str_truthy b64 then t ← b64decode b64 ≫= utf8_decode; _ ← loads t; Ok () else Ok ().

Definition decode_job_config (environ : string -> option string) : res QueryConfiguration :=
  let b64 := env_str environ "JOB_CONFIG" in
  if negb (str_truthy b64) then Err (ValueError "Environment variable JOB_CONFIG is not set")
  else t ← b64decode b64 ≫= utf8_decode; validate_json decode_query_configuration t.

Definition decode_query_text (config : QueryConfiguration) : res Query :=
  t ← b64decode (qc_query config) ≫= utf8_decode; validate_json (decode_query lax_int) t.

Definition main (environ : string -> option string) : M W unit :=
  let job_id := env_str environ "JOB_ID" in
  if negb (str_truthy job_id) then raise (ValueError "Environment variable JOB_ID is not set")
  else
    lift (decode_trace_context environ);;
    config ← lift (decode_job_config environ);
    query ← lift (decode_query_text config);
    getOrCreate api ("Clean Room Spark Analytics-" +:+ job_id);;
    run_query config query (env_str environ "START_DATE") (env_str environ "END_DATE") job_id.
End App.
