(* ===== verification/AnalyticsProps.v ===== *)
(** * What the analytics application guarantees

    The promises of Spark and of the reporting adapters that the application
    relies on, as classes, and the theorems proved against them: views expose
    the allowed fields only; what is written is the filtered result of the last
    segment, restricted to the allowed fields; dates are visited once each; a
    run is reported once as completed or failed. *)

From S2P Require Import Prelude PyStr Base64 Json JsonFacts PyFloat PyDate CleanroomModels Contracts Steps Analytics.
From Stdlib Require Import Ascii Lia RelationClasses.
From stdpp Require Import sorting.

(** ** Interfaces *)

(** What can be observed of a world: the temporary views, the calls of the
    data frame writer (path, format, frame), and the reports made. *)
Class Observed (W DF : Type) := {
  views : W -> gmap string DF;
  saved : W -> list (string * string * DF);
  events : W -> list OperationalEvent;
  audits : W -> list AuditRecord;
  stats : W -> list StatisticsEvent
}.

Section Observe.
Context {W DF : Type} {ob : Observed W DF}.

Definition reports (w : W) := (events w, audits w, stats w).
Definition obs (w : W) := (views w, saved w, reports w).
(** Everything but the views. *)
Definition outputs (w : W) := (saved w, reports w).
(** Everything but the reports. *)
Definition session (w : W) := (views w, saved w).
End Observe.

(** Column names that Spark does not read as a path or a wildcard. *)
Definition plain_column (c : string) : bool :=
  negb (bool_decide (c = "*")) && negb (str_contains "." c) && negb (str_contains "`" c).

(** Data frames as lists of rows, and the frame of every operation.  SQL text
    may define views, and nothing else that is observed. *)
Class SparkLaws {W DF} (api : SparkApi W DF) {ob : Observed W DF} := {
  Row : Type;
  rows : DF -> list Row;
  satisfies : string -> Z -> Row -> bool;
  project : list string -> Row -> Row;
  read_csv_frame : forall p s, steps (same obs) (read_csv api p s);
  read_json_frame : forall p s, steps (same obs) (read_json api p s);
  read_parquet_frame : forall p s, steps (same obs) (read_parquet api p s);
  union_frame : forall a b, steps (same obs) (unionByName api a b);
  select_frame : forall d cs, steps (same obs) (select api d cs);
  filter_frame : forall d c v, steps (same obs) (filter_ge api d c v);
  cache_frame : forall d, steps (same obs) (df_cache api d);
  count_frame : forall d, steps (same obs) (df_count api d);
  list_frame : steps (same obs) (listTables api);
  table_frame : forall v, steps (same obs) (table api v);
  conf_frame : forall k v, steps (same obs) (conf_set api k v);
  mkdir_frame : forall p, steps (same obs) (makedirs api p);
  today_frame : steps (same obs) (today api);
  clock_frame : steps (same obs) (monotonic_ns api);
  sql_frame : forall t, steps (same outputs) (sql api t);
  view_frame : forall d n w, outputs (createOrReplaceTempView api d n w).1 = outputs w;
  save_frame : forall d f p w, let w' := (save api d f p w).1 in
    views w' = views w /\ saved w' = saved w ++ [(p, f, d)] /\ reports w' = reports w;
  view_ok : forall d n w w', createOrReplaceTempView api d n w = (w', Ok ()) -> views w' = <[n := d]> (views w);
  table_ok : forall n w w' d, table api n w = (w', Ok d) -> views w !! n = Some d;
  count_ok : forall d w w' n, df_count api d w = (w', Ok n) -> n = Z.of_nat (length (rows d));
  select_ok : forall d cs w w' d', Forall (fun c => plain_column c = true) cs ->
    select api d cs w = (w', Ok d') -> columns api d' = cs /\ rows d' = map (project cs) (rows d);
  filter_ok : forall d c v w w' d', plain_column c = true ->
    filter_ge api d c v w = (w', Ok d') -> columns api d' = columns api d /\ rows d' = filter (satisfies c v) (rows d)
}.

(** Reporting an event whose message can be printed never raises and touches
    neither views nor output. *)
Class AdapterLaws {W DF} (ad : Adapters W) {ob : Observed W DF} : Prop := {
  event_total : forall e m w, op_get_message e = Ok m ->
    exists w', log_operational_event ad e w = (w', Ok ()) /\ session w' = session w;
  audit_total : forall a m w, au_get_message a = Ok m ->
    exists w', log_audit_record ad a w = (w', Ok ()) /\ session w' = session w;
  stats_total : forall e w, exists w', record_stats ad e w = (w', Ok ()) /\ session w' = session w
}.

(** Adapters whose service accepts every report. *)
Class ReliableAdapters {W DF} (ad : Adapters W) {ob : Observed W DF} : Prop := {
  reliable_laws : AdapterLaws ad;
  event_logged : forall e w, let w' := (log_operational_event ad e w).1 in
    events w' = events w ++ [e] /\ audits w' = audits w /\ stats w' = stats w;
  audit_logged : forall e w, let w' := (log_audit_record ad e w).1 in
    audits w' = audits w ++ [e] /\ events w' = events w /\ stats w' = stats w;
  stats_logged : forall e w, let w' := (record_stats ad e w).1 in
    stats w' = stats w ++ [e] /\ events w' = events w /\ audits w' = audits w
}.

(** ** Grouping by step *)

Lemma step_segments_add k s d k' :
  step_segments k' (add_to_step k s d)
  = if decide (k = k') then step_segments k' d ++ [s] else step_segments k' d.
Proof.
  induction d as [|[j l] d IH]; cbn.
  - by repeat case_decide; subst.
  - repeat (case_decide; subst; cbn; try done). all: by rewrite IH, ?decide_True, ?decide_False by done.
Qed.

(** The segments of a step, in the order of the query. *)
Lemma step_segments_spec l k :
  step_segments k (segments_by_step l) = filter (fun s => executionSequence s = k) l.
Proof.
  unfold segments_by_step. induction l as [|s l IH] using rev_ind; [done|].
  rewrite foldl_snoc, step_segments_add, IH, filter_app. case_decide as Hk; subst.
  - by rewrite filter_cons_True by done.
  - by rewrite filter_cons_False, filter_nil, app_nil_r by done.
Qed.

Lemma last_step_ge l s : s ∈ l -> (executionSequence s <= last_step l)%Z.
Proof.
  unfold last_step. induction l as [|x l IH] using rev_ind; [by intros ?%elem_of_nil|].
  rewrite foldl_snoc, elem_of_app, list_elem_of_singleton.
  destruct (Z.ltb_spec (foldl (fun m s => if (m <? executionSequence s)%Z then executionSequence s else m) 0%Z l)
              (executionSequence x)); intros [Hs| ->]; try specialize (IH Hs); lia.
Qed.

(** [s] is the one segment with the greatest execution sequence. *)
Definition last_segment (l : list QuerySegment) (s : QuerySegment) : Prop :=
  filter (fun x => executionSequence x = executionSequence s) l = [s] /\
  forall x, x ∈ l -> (executionSequence x <= executionSequence s)%Z.

Lemma last_step_segment l s :
  step_segments (last_step l) (segments_by_step l) = [s] -> last_segment l s.
Proof.
  rewrite step_segments_spec. intros H.
  assert (s ∈ filter (fun x => executionSequence x = last_step l) l) as Hs
    by (rewrite H; by apply list_elem_of_singleton).
  apply list_elem_of_filter in Hs as [He _]. split; [by rewrite He|].
  intros x Hx. rewrite He. by apply last_step_ge.
Qed.

Section Laws.
Context {W DF : Type} {api : SparkApi W DF} {ad : Adapters W} {ob : Observed W DF}.
Context {sl : SparkLaws api} {al : AdapterLaws ad}.

(** ** Frames *)

Lemma obs_saved w w' : same obs w w' -> same saved w w'.
Proof. unfold same, obs. congruence. Qed.
Lemma obs_views w w' : same obs w w' -> same views w w'.
Proof. unfold same, obs. congruence. Qed.
Lemma obs_session w w' : same obs w w' -> same session w w'.
Proof. unfold same, obs, session. congruence. Qed.
Lemma obs_reports w w' : same obs w w' -> same reports w w'.
Proof. unfold same, obs. congruence. Qed.
Lemma outputs_saved w w' : same outputs w w' -> same saved w w'.
Proof. unfold same, outputs. congruence. Qed.

Lemma session_saved (w w' : W) : session w' = session w -> same saved w w'.
Proof. unfold session, same. congruence. Qed.

Lemma event_saved e m : op_get_message e = Ok m -> steps (same saved) (log_operational_event ad e).
Proof. intros He w. destruct (event_total e m w He) as (w' & -> & Hs). by apply session_saved. Qed.
Lemma audit_saved a m : au_get_message a = Ok m -> steps (same saved) (log_audit_record ad a).
Proof. intros Ha w. destruct (audit_total a m w Ha) as (w' & -> & Hs). by apply session_saved. Qed.
Lemma stats_saved e : steps (same saved) (record_stats ad e).
Proof. intros w. destruct (stats_total e w) as (w' & -> & Hs). by apply session_saved. Qed.

Hint Resolve read_csv_frame read_json_frame read_parquet_frame union_frame select_frame filter_frame
  cache_frame count_frame list_frame table_frame conf_frame mkdir_frame today_frame clock_frame : steps.

Lemma read_frame ds p : steps (same obs) (load_dataset_folder api ds p).
Proof. unfold load_dataset_folder. steps_go. Qed.
Hint Resolve read_frame : steps.

Lemma days_frame n ds a b l : steps (same obs) (load_days api n ds a b l).
Proof. revert a l. induction n as [|n IH]; intros a l; cbn [load_days]; steps_go. Qed.
Hint Resolve days_frame : steps.

Lemma consolidate_frame l : steps (same obs) (consolidate api l).
Proof. unfold consolidate. steps_go. Qed.
Hint Resolve consolidate_frame : steps.

Lemma range_frame ds a b : steps (same obs) (load_date_range api ds a b).
Proof. unfold load_date_range. steps_go. Qed.
Hint Resolve range_frame : steps.

Lemma allowed_frame ds d : steps (same obs) (select_allowed api ds d).
Proof. unfold select_allowed. steps_go. Qed.
Hint Resolve allowed_frame : steps.

Lemma pre_frame l : steps (same obs) (pre_segment_enforcement api l).
Proof. unfold pre_segment_enforcement, enforce. steps_go. Qed.

Lemma post_frame d l : steps (same obs) (post_segment_filtering api d l).
Proof. unfold post_segment_filtering. steps_go. Qed.

Lemma frame_saved {A} (m : M W A) : steps (same obs) m -> steps (same saved) m.
Proof. apply steps_weaken, obs_saved. Qed.
Lemma sql_saved t : steps (same saved) (sql api t).
Proof. eapply steps_weaken; [apply outputs_saved | apply sql_frame]. Qed.
Lemma view_saved d n : steps (same saved) (createOrReplaceTempView api d n).
Proof. intros w. apply outputs_saved. unfold same. apply view_frame. Qed.
Hint Resolve frame_saved sql_saved view_saved stats_saved pre_frame post_frame : steps.
Hint Extern 1 (steps (same saved) (log_operational_event _ _)) => eapply event_saved; reflexivity : steps.
Hint Extern 1 (steps (same saved) (log_audit_record _ _)) => eapply audit_saved; reflexivity : steps.

Lemma load_saved ds a b job : steps (same saved) (load_dataset_async api ad ds a b job).
Proof. unfold load_dataset_async. steps_go. Qed.

Lemma segment_saved s : steps (same saved) (run_query_segment api ad s).
Proof. unfold run_query_segment, execute_segment. steps_go. Qed.
Hint Resolve load_saved segment_saved : steps.

Lemma load_datasets_saved cfg a b job : steps (same saved) (load_datasets api ad cfg a b job).
Proof. unfold load_datasets. steps_go. Qed.

Lemma run_step_saved l o k : steps (same saved) (run_step api ad l o k).
Proof. unfold run_step. steps_go. Qed.
Hint Resolve run_step_saved load_datasets_saved : steps.

Lemma run_segments_saved l : steps (same saved) (run_segments api ad l).
Proof. unfold run_segments. steps_go. Qed.
Hint Resolve run_segments_saved : steps.

(** ** Filters *)

Definition passes (fs : list PostFilter) (r : Row) : bool :=
  forallb (fun f => satisfies (columnName f) (pf_value f) r) fs.

Definition plain_filters (fs : list PostFilter) : Prop := Forall (fun f => plain_column (columnName f) = true) fs.

Lemma filters_ok fs d w w' d' : plain_filters fs ->
  fold_M (fun d f => filter_ge api d (columnName f) (pf_value f)) d fs w = (w', Ok d') ->
  columns api d' = columns api d /\ rows d' = filter (passes fs) (rows d).
Proof.
  intros Hp. revert d w. induction Hp as [|f fs Hf Hfs IH]; intros d w; cbn [fold_M].
  - intros [= <- <-]. split; [done|]. by rewrite filter_all by done.
  - intros (w1 & d1 & H1 & H2)%M_bind_ok.
    apply filter_ok in H1 as [Hc1 Hr1]; [|done]. apply IH in H2 as [Hc2 Hr2].
    split; [congruence|]. rewrite Hr2, Hr1, list_filter_filter. apply list_filter_iff. intros r.
    cbn. rewrite andb_True. tauto.
Qed.

Lemma post_ok fs d w w' d' : plain_filters fs -> post_segment_filtering api d fs w = (w', Ok d') ->
  columns api d' = columns api d /\ rows d' = filter (passes fs) (rows d).
Proof.
  unfold post_segment_filtering. intros Hp. destruct (missing_columns api d fs); [|done].
  by apply filters_ok.
Qed.
(** ** Segments *)

(** The preconditions of a segment hold of the views of [w]. *)
Definition pre_holds (w : W) (c : PreCondition) : Prop :=
  exists d, views w !! pre_viewName c = Some d /\ (minRowCount c <= Z.of_nat (length (rows d)))%Z.

Lemma enforce_ok tables u c w w' : enforce api tables u c w = (w', Ok ()) -> pre_holds w c /\ same obs w w'.
Proof.
  unfold enforce. case_bool_decide; [|done]. cbn [negb].
  intros (w1 & d & H1 & (w2 & n & H2 & H3)%M_bind_ok)%M_bind_ok.
  destruct (Z.ltb_spec n (minRowCount c)); [done|]. injection H3 as <-.
  assert (same obs w w2).
  { etrans; [eapply steps_run, H1; apply table_frame | eapply steps_run, H2; apply count_frame]. }
  split; [|done]. exists d. split; [by eapply table_ok|]. apply count_ok in H2. lia.
Qed.

Lemma pre_ok l w w' : pre_segment_enforcement api l w = (w', Ok ()) -> Forall (pre_holds w') l.
Proof.
  unfold pre_segment_enforcement. intros (w1 & tables & _ & H)%M_bind_ok.
  cut (same obs w1 w' /\ Forall (pre_holds w') l); [tauto|].
  revert w1 H. induction l as [|c l IH]; intros w1; cbn [fold_M].
  - intros [= <-]. split; [reflexivity | constructor].
  - intros (w2 & [] & [Hc H1]%enforce_ok & H2)%M_bind_ok. apply IH in H2 as [H2 Hl].
    assert (same obs w1 w') as H by by etrans. split; [done|]. constructor; [|done].
    apply obs_views in H. unfold same in H. unfold pre_holds. by rewrite H.
Qed.

(** What a segment that succeeds returns: the rows of its SQL text's result that
    pass its filters; its preconditions held when the text was executed. *)
Definition segment_result (s : QuerySegment) (out : DF) : Prop :=
  exists w1 w2 result,
    Forall (pre_holds w1) (default [] (preConditions s)) /\
    sql api (data s) w1 = (w2, Ok result) /\
    columns api out = columns api result /\
    rows out = filter (passes (default [] (postFilters s))) (rows result).

Lemma some_list_None {A} (o : option (list A)) : some_list o = None -> default [] o = [].
Proof. by destruct o as [[]|]. Qed.
Lemma some_list_Some {A} (o : option (list A)) l : some_list o = Some l -> default [] o = l.
Proof. destruct o as [[]|]; cbn; congruence. Qed.

Lemma execute_ok s w w' out n : plain_filters (default [] (postFilters s)) ->
  execute_segment api s w = (w', Ok (out, n)) -> segment_result s out.
Proof.
  intros Hp. unfold execute_segment.
  intros (w1 & [] & Hpre & (w2 & result & Hsql & (w3 & k & Hc & H)%M_bind_ok)%M_bind_ok)%M_bind_ok.
  exists w1, w2, result. split_and!; [|done|..].
  - destruct (some_list (preConditions s)) as [l|] eqn:Hl.
    + apply some_list_Some in Hl. rewrite Hl. by eapply pre_ok.
    + apply some_list_None in Hl. by rewrite Hl.
  - destruct (some_list (postFilters s)) as [l|] eqn:Hl; [|by injection H as <- <- <-].
    apply some_list_Some in Hl. rewrite Hl in Hp.
    apply M_bind_ok in H as (w4 & d & Hf & (w5 & n' & _ & [= <- <- <-])%M_bind_ok).
    by apply (post_ok l) in Hf as [? ?].
  - destruct (some_list (postFilters s)) as [l|] eqn:Hl.
    + apply some_list_Some in Hl. rewrite Hl in *.
      apply M_bind_ok in H as (w4 & d & Hf & (w5 & n' & _ & [= <- <- <-])%M_bind_ok).
      by apply (post_ok l) in Hf as [? ?].
    + apply some_list_None in Hl. rewrite Hl. injection H as <- <- <-. by rewrite filter_all by done.
Qed.

Lemma segment_ok s w w' out : plain_filters (default [] (postFilters s)) ->
  run_query_segment api ad s w = (w', Ok out) -> segment_result s out.
Proof.
  intros Hp. unfold run_query_segment. rewrite try_except_run. cbv zeta.
  match goal with |- match ?m w with _ => _ end = _ -> _ => destruct (m w) as [w1 [a|e]] eqn:Hm end.
  - intros [= <- <-].
    apply M_bind_ok in Hm as (w2 & [] & _ & (w3 & [d n] & He & (w4 & [] & _ & [= <- <-])%M_bind_ok)%M_bind_ok).
    by eapply execute_ok.
  - intros (w2 & [] & _ & [=])%M_bind_ok.
Qed.
(** ** The output *)

Definition plain_query (q : Query) : Prop :=
  Forall (fun s => plain_filters (default [] (postFilters s))) (segments q).

Lemma gather_one {A} (m : M W A) w w' l rs :
  gather [m] w = (w', Ok rs) -> mapM_res id rs = Ok l -> exists a, l = [a] /\ m w = (w', Ok a).
Proof.
  cbn. destruct (m w) as [w1 [a|e]]; cbn; intros [= <- <-]; cbn; [|done].
  intros [= <-]. eauto.
Qed.

(** The output of a step is the result of the last segment. *)
Lemma run_step_ok l o k w w' df :
  Forall (fun s => plain_filters (default [] (postFilters s))) l -> check_last_step l = Ok () ->
  run_step api ad l o k w = (w', Ok (Some df)) ->
  o = Some df \/ exists s, last_segment l s /\ segment_result s df.
Proof.
  intros Hp Hc. unfold run_step.
  intros (w1 & rs & Hg & (w2 & l' & [-> Hl]%lift_ok & H)%M_bind_ok)%M_bind_ok.
  destruct (Z.eqb_spec (last_step l) k) as [<-|_]; [right | left; by injection H as <- ->].
  unfold check_last_step in Hc. cbv zeta in Hc. case_bool_decide as Hd.
  { destruct (segments_by_step l); [|done]. cbn in Hg. injection Hg as <- <-. cbn in Hl.
    by injection Hl as <-. }
  case_bool_decide as Hn; [|done].
  destruct (step_segments (last_step l) (segments_by_step l)) as [|s [|]] eqn:Hs; try done.
  cbn [map] in Hg. destruct (gather_one _ _ _ _ _ Hg Hl) as (a & -> & Hrun).
  injection H as <- <-. pose proof (last_step_segment l s Hs) as Hlast. exists s. split; [done|].
  eapply segment_ok, Hrun. rewrite Forall_forall in Hp. apply Hp.
  destruct Hlast as [Hf _]. eapply list_elem_of_filter. erewrite Hf. by apply list_elem_of_singleton.
Qed.

Lemma run_segments_ok q w w' df : plain_query q ->
  run_segments api ad (segments q) w = (w', Ok (Some df)) ->
  exists s, last_segment (segments q) s /\ segment_result s df.
Proof.
  unfold plain_query, run_segments. intros Hp (w1 & [] & [-> Hc]%lift_ok & H)%M_bind_ok.
  cut ((None : option DF) = Some df \/ exists s, last_segment (segments q) s /\ segment_result s df);
    [by intros [?|?]|].
  revert H. generalize (None : option DF) as o. generalize (sorted_steps (segments_by_step (segments q))) as ks.
  intros ks. revert w. induction ks as [|k ks IH]; intros w o; cbn [fold_M].
  - intros [= <- ->]. by left.
  - intros (w1 & o' & H1 & H2)%M_bind_ok. apply IH in H2 as [->|?]; [|by right].
    by eapply run_step_ok.
Qed.

(** What is written of a frame: the allowed columns it has, in a schema the
    datasink accepts. *)
Definition written_as (ds : AppDataset) (df out : DF) : Prop :=
  columns api out = filter (fun f => f ∈ columns api df) (ad_allowedFields ds) /\
  rows out = map (project (columns api out)) (rows df) /\
  exists st, parse_json_schema (ad_schema ds) = Ok st /\ is_schema_compatible (df_schema api out) st = true.

Definition plain_fields (ds : AppDataset) : Prop := Forall (fun f => plain_column f = true) (ad_allowedFields ds).

Lemma select_allowed_ok ds df w w' out : plain_fields ds -> select_allowed api ds df w = (w', Ok out) ->
  columns api out = filter (fun f => f ∈ columns api df) (ad_allowedFields ds) /\
  rows out = map (project (columns api out)) (rows df).
Proof.
  unfold select_allowed. intros Hp H. apply select_ok in H as [Hc Hr].
  - by rewrite Hr, Hc.
  - unfold plain_fields in Hp. rewrite Forall_forall in *. intros f [_ Hf]%list_elem_of_filter. by apply Hp.
Qed.
(** Where a frame goes and what it holds. *)
Definition written_output (job : string) (ds : AppDataset) (df : DF) (x : string * string * DF) : Prop :=
  exists day out, x = (output_path ds day job, DatasetFormat_value (ad_format ds), out) /\ written_as ds df out.

Lemma write_ok job df ds w : plain_fields ds ->
  ends_on saved (at_most_one (written_output job ds df)) (write_dataset_async api ad job df ds) w.
Proof.
  intros Hp. unfold write_dataset_async. do 4 (peel; intros [] ? _). peel. intros day u1 _. cbv zeta.
  apply ends_try; [|steps_go]. peel. intros out u2 [Hcs Hrs]%select_allowed_ok; [|done].
  peel. intros st u3 [-> Hst]%lift_ok.
  destruct (is_schema_compatible (df_schema api out) st) eqn:Hcompat; cbn [negb];
    [|apply ends_quiet; [apply at_most_one_refl | steps_go]].
  peel. intros n u4 _. peel. intros [] u5 _. apply ends_before; [|steps_go].
  right. eexists. split; [|apply save_frame].
  exists day, out. split; [done|]. unfold written_as. eauto.
Qed.

(** C3. The output of a run.  Whatever happens, at most one frame is written: to
    the datasink's folder of the day and the job, holding the allowed columns
    only, and its rows are the rows of the result of the query's one last
    segment that pass all its filters; the segment's preconditions held of the
    views when its text was executed.  Unless that segment succeeds nothing is
    written. *)
Theorem output_guarded config q start_date end_date job w :
  plain_fields (qc_datasink config) -> plain_query q ->
  ends_on saved (at_most_one (fun x => exists s df, last_segment (segments q) s /\ segment_result s df /\
                                written_output job (qc_datasink config) df x))
    (run_query api ad config q start_date end_date job) w.
Proof.
  intros Hp Hq. unfold run_query. peel. intros t0 w1 _. apply ends_try; [|steps_go].
  peel. intros n w2 _. peel. intros o w3 Ho.
  apply ends_before; [|steps_go].
  destruct o as [df|]; [|apply ends_quiet; [apply at_most_one_refl | steps_go]].
  apply run_segments_ok in Ho as (s & Hs & Hr); [|done].
  destruct (write_ok job df (qc_datasink config) w3 Hp) as [H|(x & Hx & H)]; [by left | right].
  exists x. eauto 10.
Qed.
(** ** Views *)

(** The view of a loaded dataset exposes the allowed columns only, with the
    rows of the frame that was read; the row count that is answered is that of
    the view, and nothing is written. *)
Theorem loaded_view_restricted ds start_date end_date job w w' n :
  plain_fields ds -> load_dataset_async api ad ds start_date end_date job w = (w', Ok n) ->
  exists src df,
    views w' !! ad_view_name ds = Some df /\
    columns api df = filter (fun f => f ∈ columns api src) (ad_allowedFields ds) /\
    rows df = map (project (columns api df)) (rows src) /\
    n = Z.of_nat (length (rows df)) /\ saved w' = saved w.
Proof.
  intros Hp H. pose proof (steps_run _ _ _ _ _ (load_saved ds start_date end_date job) H) as Hsaved.
  unfold load_dataset_async in H. apply M_bind_ok in H as (w1 & [] & _ & H).
  rewrite try_except_run in H.
  match type of H with match ?m w1 with _ => _ end = _ => destruct (m w1) as [w2 [a|e]] eqn:Hm end;
    [injection H as <- <- | by apply M_bind_ok in H as (? & [] & _ & (? & [] & _ & [=])%M_bind_ok)].
  apply M_bind_ok in Hm as (w3 & o & _ & (w4 & src & _ & (w5 & df & Hsel & Hm)%M_bind_ok)%M_bind_ok).
  apply M_bind_ok in Hm as (w6 & [] & _ & (w7 & [] & Hview & (w8 & k & Hcount & Hm)%M_bind_ok)%M_bind_ok).
  apply M_bind_ok in Hm as (w9 & [] & He & (w10 & [] & Ha & [= <- <-])%M_bind_ok).
  exists src, df. apply select_allowed_ok in Hsel as [Hc Hr]; [|done].
  split_and!; [|done..|by eapply count_ok|done].
  pose proof (event_total (event_DatasetLoadCompleted (ad_name ds) (ad_path ds) (str_of_Z k)) _ w8 eq_refl) as (? & He' & Hs1).
  rewrite He in He'. injection He' as <-.
  pose proof (audit_total (audit_DatasetLoadCompleted "dataset_loader" (ad_name ds) job) _ w9 eq_refl) as (? & Ha' & Hs2).
  rewrite Ha in Ha'. injection Ha' as <-.
  pose proof (steps_run _ _ _ _ _ (count_frame df) Hcount) as Hs3%obs_session. unfold same in Hs3.
  assert (session w10 = session w7) as Hs by congruence. unfold session in Hs. injection Hs as -> _.
  rewrite (view_ok _ _ _ _ Hview). apply lookup_insert_eq.
Qed.
End Laws.

(** ** Reports *)

Section Reports.
Context {W DF : Type} {api : SparkApi W DF} {ad : Adapters W} {ob : Observed W DF}.
Context {sl : SparkLaws api} {ra : ReliableAdapters ad}.

(** Reports on datasets and segments, as opposed to the whole query. *)
Definition inner_event (e : OperationalEvent) : Prop := (1001 <= op_id e <= 1009)%Z.
Definition inner_audit (a : AuditRecord) : Prop := au_id a <> 3003%Z /\ au_id a <> 3004%Z.

Definition inner_reports (w w' : W) : Prop :=
  exists evs aus, events w' = events w ++ evs /\ audits w' = audits w ++ aus /\ stats w' = stats w /\
    Forall inner_event evs /\ Forall inner_audit aus.

#[local] Instance inner_reports_preorder : PreOrder inner_reports.
Proof.
  split.
  - intros w. exists [], []. by rewrite !app_nil_r.
  - intros a b c (e1 & a1 & He1 & Ha1 & Hs1 & Fe1 & Fa1) (e2 & a2 & He2 & Ha2 & Hs2 & Fe2 & Fa2).
    exists (e1 ++ e2), (a1 ++ a2). rewrite He2, He1, Ha2, Ha1, !app_assoc, Hs2, Hs1, !Forall_app. done.
Qed.

Lemma reports_inner w w' : same reports w w' -> inner_reports w w'.
Proof.
  unfold same, reports. intros [= He Ha Hs]. exists [], []. by rewrite !app_nil_r.
Qed.

Lemma obs_inner {A} (m : M W A) : steps (same obs) m -> steps inner_reports m.
Proof. apply steps_weaken. intros w w' H. by apply reports_inner, obs_reports. Qed.

Lemma event_inner e : inner_event e -> steps inner_reports (log_operational_event ad e).
Proof.
  intros He w. destruct (event_logged e w) as (H1 & H2 & H3). exists [e], [].
  rewrite app_nil_r. repeat split; auto.
Qed.

Lemma audit_inner a : inner_audit a -> steps inner_reports (log_audit_record ad a).
Proof.
  intros Ha w. destruct (audit_logged a w) as (H1 & H2 & H3). exists [], [a].
  rewrite app_nil_r. repeat split; auto; by apply Ha.
Qed.

Lemma sql_inner t : steps inner_reports (sql api t).
Proof.
  eapply steps_weaken; [|apply sql_frame]. intros w w' H. apply reports_inner.
  unfold same, outputs in *. congruence.
Qed.

Lemma view_inner d n : steps inner_reports (createOrReplaceTempView api d n).
Proof.
  intros w. apply reports_inner. pose proof (view_frame d n w). unfold same, outputs in *. congruence.
Qed.

Lemma save_inner d f p : steps inner_reports (save api d f p).
Proof. intros w. apply reports_inner. apply save_frame. Qed.

Hint Resolve obs_inner sql_inner view_inner save_inner range_frame read_frame allowed_frame cache_frame count_frame
  conf_frame today_frame mkdir_frame clock_frame pre_frame post_frame : steps.

Ltac inner := steps_go; first [apply event_inner | apply audit_inner]; unfold inner_event, inner_audit; cbn; lia.

Lemma load_inner ds a b job : steps inner_reports (load_dataset_async api ad ds a b job).
Proof. unfold load_dataset_async. inner. Qed.
Hint Resolve load_inner : steps.

Lemma load_datasets_inner cfg a b job : steps inner_reports (load_datasets api ad cfg a b job).
Proof. unfold load_datasets. steps_go. Qed.

Lemma segment_inner s : steps inner_reports (run_query_segment api ad s).
Proof. unfold run_query_segment, execute_segment. inner. Qed.
Hint Resolve segment_inner : steps.

Lemma run_segments_inner l : steps inner_reports (run_segments api ad l).
Proof. unfold run_segments, run_step. steps_go. Qed.

Lemma write_inner job df ds : steps inner_reports (write_dataset_async api ad job df ds).
Proof. unfold write_dataset_async. inner. Qed.
#[local] Instance reliable_adapter_laws : AdapterLaws ad := reliable_laws.

(** How the run of a query ends in its logs. *)
Definition closing (job : string) (r : res unit) (w w' : W) : Prop :=
  match r with
  | Ok _ => exists d rr rw,
      events w' = events w ++ [event_QueryExecutionCompleted (float_repr api d)] /\
      audits w' = audits w ++ [audit_QueryCompleted "run_query" job] /\
      stats w' = stats w ++ [event_QueryStatistics (float_repr api) d rr rw]
  | Err e =>
      events w' = events w ++ [event_QueryExecutionFailed (exn_str e)] /\
      audits w' = audits w ++ [audit_QueryFailed "run_query" job (exn_str e)] /\
      stats w' = stats w
  end.

Lemma log_event e m w : op_get_message e = Ok m -> exists w', log_operational_event ad e w = (w', Ok ()) /\
  events w' = events w ++ [e] /\ audits w' = audits w /\ stats w' = stats w.
Proof.
  intros He. destruct (event_total e m w He) as (w' & H & _). pose proof (event_logged e w) as Hl.
  rewrite H in Hl. by exists w'.
Qed.
Lemma log_audit a m w : au_get_message a = Ok m -> exists w', log_audit_record ad a w = (w', Ok ()) /\
  audits w' = audits w ++ [a] /\ events w' = events w /\ stats w' = stats w.
Proof.
  intros Ha. destruct (audit_total a m w Ha) as (w' & H & _). pose proof (audit_logged a w) as Hl.
  rewrite H in Hl. by exists w'.
Qed.
Lemma log_stats x w : exists w', record_stats ad x w = (w', Ok ()) /\
  stats w' = stats w ++ [x] /\ events w' = events w /\ audits w' = audits w.
Proof.
  destruct (stats_total x w) as (w' & H & _). pose proof (stats_logged x w) as Hl.
  rewrite H in Hl. by exists w'.
Qed.

(** A computation that makes inner reports and then closes. *)
Definition reported (job : string) (w w' : W) (r : res unit) : Prop :=
  exists w1, inner_reports w w1 /\ closing job r w1 w'.

Lemma reported_failure job e w : let h := log_operational_event ad (event_QueryExecutionFailed (exn_str e));;
    log_audit_record ad (audit_QueryFailed "run_query" job (exn_str e));; raise (A := unit) e in
  exists w', h w = (w', Err e) /\ closing job (Err e) w w'.
Proof.
  destruct (log_event (event_QueryExecutionFailed (exn_str e)) _ w eq_refl) as (w1 & H1 & E1 & A1 & S1).
  destruct (log_audit (audit_QueryFailed "run_query" job (exn_str e)) _ w1 eq_refl) as (w2 & H2 & A2 & E2 & S2).
  exists w2. cbv zeta. rewrite M_bind_run, H1, M_bind_run, H2. split; [done|]. cbn.
  split_and!; congruence.
Qed.

Lemma reported_success job d rr rw w :
  let fin := log_operational_event ad (event_QueryExecutionCompleted (float_repr api d));;
     log_audit_record ad (audit_QueryCompleted "run_query" job);;
     record_stats ad (event_QueryStatistics (float_repr api) d rr rw) in
  exists w', fin w = (w', Ok ()) /\ closing job (Ok ()) w w'.
Proof.
  destruct (log_event (event_QueryExecutionCompleted (float_repr api d)) _ w eq_refl) as (w1 & H1 & E1 & A1 & S1).
  destruct (log_audit (audit_QueryCompleted "run_query" job) _ w1 eq_refl) as (w2 & H2 & A2 & E2 & S2).
  destruct (log_stats (event_QueryStatistics (float_repr api) d rr rw) w2) as (w3 & H3 & S3 & E3 & A3).
  exists w3. cbv zeta. rewrite M_bind_run, H1, M_bind_run, H2, H3. split; [done|]. cbn.
  exists d, rr, rw. split_and!; congruence.
Qed.

(** [m] makes inner reports and then raises, or closes as a completed run. *)
Definition completes (job : string) (m : M W unit) (w : W) : Prop :=
  exists w2, inner_reports w w2 /\
    ((exists e, m w = (w2, Err e)) \/ exists w3, m w = (w3, Ok ()) /\ closing job (Ok ()) w2 w3).

Lemma completes_bind {A} job (m : M W A) k w :
  steps inner_reports m -> (forall a w1, completes job (k a) w1) -> completes job (m ≫= k) w.
Proof.
  intros Hm Hk. specialize (Hm w). unfold completes. rewrite M_bind_run.
  destruct (m w) as [w1 [a|e]]; cbn in Hm; [|by eauto 10].
  destruct (Hk a w1) as (w2 & Hi & H). exists w2. split; [by etrans | done].
Qed.

End Reports.

(** ** Dates *)

Section Dates.
Context {W DF : Type} (api : SparkApi W DF).

(** The frames of one day: none when its folder does not exist. *)
Definition load_day (ds : AppDataset) (d : date) : M W (list DF) :=
  try_except (df ← load_dataset_folder api ds (path_join (ad_path ds) (strftime_ymd d)); mret [df])
    (fun e => if str_contains "Path does not exist" (exn_str e) then mret [] else raise e).

Fixpoint load_each (ds : AppDataset) (days : list date) : M W (list DF) :=
  match days with
  | [] => mret []
  | d :: days' => l ← load_day ds d; l' ← load_each ds days'; mret (l ++ l')
  end.

Definition last_day : date := Date 9999 12 31.

Lemma span_step a b : date_ok a = true -> date_ok b = true -> b <> last_day -> date_le a b = true ->
  next_day a = Ok (next_or_same a) /\ date_ok (next_or_same a) = true /\ span a b = S (span (next_or_same a) b).
Proof.
  intros Ha Hb Hl Hab. assert (a <> Date 9999 12 31) as Ha'.
  { intros ->. apply Hl. apply ordinal_inj; [done..|]. apply date_le_ordinal in Hab; [|done..].
    pose proof (ordinal_le_max b Hb). unfold last_day. lia. }
  destruct (next_or_same_ok a Ha Ha') as (Hn & Ho & Hs). split_and!; [done..|].
  apply date_le_ordinal in Hab; [|done..]. unfold span. lia.
Qed.

Lemma span_0 a b : date_ok a = true -> date_ok b = true -> date_le a b = false -> span a b = 0.
Proof. intros Ha Hb H%date_lt_ordinal; [|done..]. unfold span. lia. Qed.

Lemma load_days_each n ds a b acc w : date_ok a = true -> date_ok b = true -> b <> last_day -> n = span a b ->
  load_days api n ds a b acc w = (l ← load_each ds (days_from n a); mret (acc ++ l)) w.
Proof.
  intros Ha Hb Hl. revert a acc w Ha. induction n as [|n IH]; intros a acc w Ha Hn; cbn [load_days days_from];
    (destruct (date_le a b) eqn:Hab; [destruct (span_step a b) as (Hnext & Ho & Hs); try done |
       rewrite span_0 in Hn by done]); try lia.
  - rewrite M_bind_run. cbn. by rewrite app_nil_r.
  - rewrite M_bind_run, try_except_run, M_bind_run, Hnext. cbn [load_each].
    rewrite !M_bind_run. unfold load_day. rewrite try_except_run, M_bind_run.
    destruct (load_dataset_folder api ds _ w) as [w1 [df|e]].
    + rewrite M_bind_run. cbn [lift mret M_ret]. rewrite IH by (done || lia). rewrite !M_bind_run.
      destruct (load_each ds (days_from n (next_or_same a)) w1) as [w2 [l|e]]; [|done]. cbn. by rewrite <- app_assoc.
    + destruct (str_contains "Path does not exist" (exn_str e)); [|done].
      rewrite M_bind_run. cbn [lift mret M_ret]. rewrite IH by (done || lia). rewrite !M_bind_run.
      by destruct (load_each ds (days_from n (next_or_same a)) w1) as [w2 [l|e']].
Qed.

Lemma days_from_sorted n a : date_ok a = true -> (ordinal a + Z.of_nat n <= ordinal last_day + 1)%Z ->
  Sorted.StronglySorted (fun x y => (ordinal x < ordinal y)%Z) (days_from n a).
Proof.
  revert a. induction n as [|n IH]; intros a Ha Hn; cbn [days_from]; [constructor|].
  destruct n as [|n]; [by repeat constructor|].
  destruct (next_or_same_ok a Ha) as (_ & Ho & Hs); [by intros ->; unfold last_day in Hn; lia|].
  constructor; [apply IH; [done|lia]|]. apply Forall_forall. intros d Hd.
  apply days_from_elem in Hd; [lia|done|]. unfold last_day in Hn. lia.
Qed.

(** C29. The loop over the days of a range ends, and loads exactly the days from
    its first to its last date, each once and in order; a day without a folder
    contributes nothing and any other failure ends the load. *)
Theorem date_loop_visits_range ds a b :
  date_ok a = true -> date_ok b = true -> b <> last_day ->
  (forall w, load_days api (span a b) ds a b [] w = load_each ds (date_range a b) w) /\
  (forall d, d ∈ date_range a b <-> date_ok d = true /\ date_le a d = true /\ date_le d b = true) /\
  Sorted.StronglySorted (fun x y => (ordinal x < ordinal y)%Z) (date_range a b).
Proof.
  intros Ha Hb Hl. split_and!.
  - intros w. rewrite load_days_each by done. rewrite M_bind_run. unfold date_range.
    by destruct (load_each ds (days_from (span a b) a) w) as [w' [l|e]].
  - intros d. by apply date_range_elem.
  - unfold date_range. apply days_from_sorted; [done|].
    pose proof (ordinal_le_max b Hb). pose proof (ordinal_le_max a Ha). unfold span, last_day. lia.
Qed.

(** A range that ends on the last representable day cannot be loaded: the loop
    has no day to advance to. *)
Lemma last_day_overflows n ds a acc w : date_ok a = true -> span a last_day <= n ->
  exists e, (load_days api n ds a last_day acc w).2 = Err e.
Proof.
  revert a acc w. induction n as [|n IH]; intros a acc w Ha Hn.
  { pose proof (ordinal_le_max a Ha). unfold span, last_day in Hn. lia. }
  cbn [load_days]. assert (date_le a last_day = true) as ->.
  { apply date_le_ordinal; [done..|]. by apply ordinal_le_max. }
  rewrite M_bind_run, try_except_run, M_bind_run.
  destruct (decide (a = Date 9999 12 31)) as [->|Hne].
  - change (next_day (Date 9999 12 31)) with (@Err date (OtherException "date value out of range")).
    destruct (load_dataset_folder api ds _ w) as [w1 [df|e]]; rewrite ?M_bind_run; cbn; [by eauto|].
    destruct (str_contains _ (exn_str e)); cbn; eauto.
  - destruct (next_or_same_ok a Ha Hne) as (Hnext & Ho & Hs). rewrite Hnext.
    assert (span (next_or_same a) last_day <= n) by (unfold span, last_day in *; lia).
    destruct (load_dataset_folder api ds _ w) as [w1 [df|e]]; rewrite ?M_bind_run; cbn [lift mret M_ret].
    + by apply IH.
    + destruct (str_contains _ (exn_str e)); [|by cbn; eauto]. rewrite M_bind_run. cbn [lift mret M_ret]. by apply IH.
Qed.
End Dates.

(** ** Schemas *)

(** The Spark type each type name of a schema stands for. *)
Definition spark_types : list (string * DataType) :=
  [("string", StringType); ("integer", IntegerType); ("long", LongType); ("timestamp", TimestampType);
   ("number", DoubleType); ("boolean", BooleanType); ("date", DateType); ("array", ArrayType StringType true)].

Definition column_type (c : list (string * string)) : DataType :=
  default StringType (dict_lookup "type" c ≫= fun t => dict_lookup t spark_types).

(** Columns with a nested description: objects, and arrays that describe their
    items. *)
Definition nested_column (c : list (string * string)) : bool :=
  bool_decide (dict_lookup "type" c = Some "object")
  || (bool_decide (dict_lookup "type" c = Some "array") && bool_decide (is_Some (dict_lookup "items" c))).

Lemma parse_field_spec c : parse_field c = if nested_column c then Err (no_get "str") else Ok (column_type c).
Proof.
  unfold parse_field, nested_column, column_type. cbv zeta.
  destruct (dict_lookup "type" c) as [t|]; [|done]. cbn [mbind option_bind].
  repeat (let H := fresh "H" in case_decide as H; [injection H as ->; try done|]).
  - cbn. by destruct (dict_lookup "items" c).
  - rewrite (bool_decide_false (Some t = Some "object")), (bool_decide_false (Some t = Some "array")) by done.
    cbn [orb andb]. unfold spark_types. cbn [dict_lookup].
    repeat (rewrite decide_False by congruence). done.
Qed.

(** C31. The Spark schema of a dataset: one field per column, in order and under
    its name, of the type the column's description names (a string when it
    names none), nullable unless listed under a column called [required]; the
    schema is refused exactly when a column is an object or an array that
    describes its items, or when there is none. *)
Theorem schema_types s :
  parse_json_schema None = Err (AttributeError "'NoneType' object has no attribute 'items'") /\
  parse_json_schema (Some s)
  = if existsb (fun kv => nested_column kv.2) s then Err (no_get "str")
    else Ok (map (fun kv => {| sf_name := kv.1; sf_type := column_type kv.2;
                               sf_nullable := negb (is_required s kv.1) |}) s).
Proof.
  split; [done|]. cbn [parse_json_schema]. generalize (is_required s) as f. intros f.
  induction s as [|[k c] s IH]; [done|]. cbn [mapM_res existsb map fst snd]. rewrite parse_field_spec, IH.
  destruct (nested_column c); [done|]. cbn. by destruct (existsb _ s).
Qed.
