(* ===== verification/AnalyticsOrder.v ===== *)
(** * The order of a query's segments

    Grouping by step and gathering each group amounts to running the segments
    one after the other, by execution sequence and, within a step, in the order
    of the query. *)

From S2P Require Import Prelude PyStr Json PyFloat PyDate CleanroomModels Contracts Steps Analytics AnalyticsProps.
From Stdlib Require Import Lia.
From stdpp Require Import sorting.

(** ** The schedule *)

(** Group by group in the order of the given steps. *)
Definition grouped (l : list QuerySegment) (ks : list Z) : list QuerySegment :=
  concat (map (fun k => filter (fun s => executionSequence s = k) l) ks).

Definition schedule (l : list QuerySegment) : list QuerySegment := grouped l (sorted_steps (segments_by_step l)).

Lemma add_to_step_keys k s d :
  (add_to_step k s d).*1 = if decide (k ∈ d.*1) then d.*1 else d.*1 ++ [k].
Proof.
  induction d as [|[j l] d IH]; [done|]. cbn [add_to_step fmap list_fmap fst].
  destruct (decide (j = k)) as [->|Hjk].
  - cbn. rewrite decide_True; [done|]. by left.
  - cbn [fmap list_fmap fst]. change (list_fmap _ _ fst (add_to_step k s d)) with ((add_to_step k s d).*1).
    rewrite IH. change (list_fmap _ _ fst d) with (d.*1).
    destruct (decide (k ∈ d.*1)) as [Hk|Hk].
    + rewrite decide_True; [done|]. by right.
    + rewrite decide_False; [done|]. intros [->|?]%elem_of_cons; done.
Qed.

Lemma segments_by_step_keys l :
  NoDup (segments_by_step l).*1 /\ forall s, s ∈ l -> executionSequence s ∈ (segments_by_step l).*1.
Proof.
  unfold segments_by_step. induction l as [|s l [IHn IHk]] using rev_ind.
  - split; [constructor|]. by intros s ?%elem_of_nil.
  - rewrite foldl_snoc, add_to_step_keys.
    destruct (decide (executionSequence s ∈ (foldl (fun d x => add_to_step (executionSequence x) x d) [] l).*1))
      as [Hk|Hk].
    + split; [done|]. intros x [Hx|Hx%list_elem_of_singleton]%elem_of_app; [by apply IHk | by subst].
    + split.
      * apply NoDup_app. split_and!; [done| |apply NoDup_singleton].
        intros k Hk' ->%list_elem_of_singleton. done.
      * intros x [Hx|Hx%list_elem_of_singleton]%elem_of_app; apply elem_of_app.
        -- left. by apply IHk.
        -- right. subst. by apply list_elem_of_singleton.
Qed.

Lemma filter_split {A} (P : A -> Prop) `{!forall x, Decision (P x)} (l : list A) :
  filter P l ++ filter (fun x => ~ P x) l ≡ₚ l.
Proof.
  induction l as [|x l IH]; [done|]. rewrite !filter_cons.
  destruct (decide (P x)) as [Hx|Hx].
  - rewrite decide_False by tauto. cbn. by f_equiv.
  - rewrite decide_True by done. rewrite <- Permutation_middle. by f_equiv.
Qed.

Lemma grouped_perm l ks : NoDup ks -> (forall s, s ∈ l -> executionSequence s ∈ ks) -> grouped l ks ≡ₚ l.
Proof.
  unfold grouped. revert l. induction ks as [|k ks IH]; intros l Hn Hk.
  - destruct l as [|s l]; [done|]. exfalso. specialize (Hk s ltac:(by left)). by apply elem_of_nil in Hk.
  - apply NoDup_cons in Hn as [Hnk Hn]. cbn [map concat].
    rewrite <- (filter_split (fun s => executionSequence s = k) l) at 2.
    apply Permutation_app; [done|].
    rewrite <- (IH (filter (fun s => executionSequence s <> k) l) Hn) at 1.
    + apply Permutation_refl'. f_equal. apply map_ext_in. intros j Hj%list_elem_of_In.
      rewrite list_filter_filter. apply list_filter_iff. intros s. split; [|tauto].
      intros ->. split; [done|]. by intros ->.
    + intros s [Hs Hl]%list_elem_of_filter. specialize (Hk s Hl). apply elem_of_cons in Hk as [?|?]; done.
Qed.

Lemma sorted_app {A} (R : A -> A -> Prop) l1 l2 : StronglySorted R l1 -> StronglySorted R l2 ->
  (forall a b, a ∈ l1 -> b ∈ l2 -> R a b) -> StronglySorted R (l1 ++ l2).
Proof.
  induction 1 as [|a l1 Hs IH Ha]; intros H2 H12; [done|]. cbn. constructor.
  - apply IH; [done|]. intros x b Hx. apply H12. by right.
  - apply Forall_app. split; [done|]. apply Forall_forall. intros b Hb. apply H12; [by left|done].
Qed.

Definition seq_le (a b : QuerySegment) : Prop := (executionSequence a <= executionSequence b)%Z.

Lemma step_sorted k l : StronglySorted seq_le (filter (fun s => executionSequence s = k) l).
Proof.
  assert (Forall (fun s => executionSequence s = k) (filter (fun s => executionSequence s = k) l)) as H.
  { apply Forall_forall. intros s [Hs _]%list_elem_of_filter. done. }
  induction H as [|s l' Hs Hl IH]; constructor; [done|].
  eapply Forall_impl; [exact Hl|]. intros x Hx. unfold seq_le. cbn in *. lia.
Qed.

Lemma grouped_elem l ks s : s ∈ grouped l ks -> executionSequence s ∈ ks.
Proof.
  unfold grouped. intros (g & Hg & Hs)%list_elem_of_In%in_concat. apply in_map_iff in Hg as (j & <- & Hj).
  apply list_elem_of_In, list_elem_of_filter in Hs as [-> _]. by apply list_elem_of_In.
Qed.

Lemma grouped_sorted l ks : StronglySorted Z.le ks -> StronglySorted seq_le (grouped l ks).
Proof.
  induction 1 as [|k ks Hs IH Hk]; [constructor|]. apply (sorted_app _ (filter _ l)); [apply step_sorted|done|].
  intros a b [Ha _]%list_elem_of_filter Hb%grouped_elem. unfold seq_le. rewrite Ha.
  rewrite Forall_forall in Hk. by apply Hk.
Qed.

Lemma filter_none {A} (P : A -> Prop) `{!forall x, Decision (P x)} (l : list A) :
  (forall x, x ∈ l -> ~ P x) -> filter P l = [].
Proof.
  induction l as [|x l IH]; intros Hx; [done|]. rewrite filter_cons, decide_False by (apply Hx; by left).
  apply IH. intros y Hy. apply Hx. by right.
Qed.

Lemma grouped_step l ks k : NoDup ks -> k ∈ ks ->
  filter (fun s => executionSequence s = k) (grouped l ks) = filter (fun s => executionSequence s = k) l.
Proof.
  induction ks as [|j ks IH]; intros Hn Hk; [by apply elem_of_nil in Hk|].
  apply NoDup_cons in Hn as [Hj Hn].
  change (grouped l (j :: ks)) with (filter (fun s => executionSequence s = j) l ++ grouped l ks).
  rewrite filter_app. apply elem_of_cons in Hk as [->|Hk].
  - rewrite (filter_none _ (grouped l ks)) by (by intros s Hs%grouped_elem <-).
    rewrite app_nil_r, list_filter_filter. apply list_filter_iff. tauto.
  - rewrite (IH Hn Hk), (filter_none _ (filter _ l)); [done|].
    intros s [-> _]%list_elem_of_filter ->. done.
Qed.

(** The schedule is the query's segments, ordered by sequence, and keeps the
    query's order within a step. *)
Lemma schedule_spec l :
  schedule l ≡ₚ l /\ StronglySorted seq_le (schedule l) /\
  forall k, filter (fun s => executionSequence s = k) (schedule l) = filter (fun s => executionSequence s = k) l.
Proof.
  destruct (segments_by_step_keys l) as [Hn Hk]. unfold schedule, sorted_steps.
  assert (merge_sort Z.le (segments_by_step l).*1 ≡ₚ (segments_by_step l).*1) as Hp by apply merge_sort_Permutation.
  assert (NoDup (merge_sort Z.le (segments_by_step l).*1)) as Hn' by by rewrite Hp.
  assert (forall s, s ∈ l -> executionSequence s ∈ merge_sort Z.le (segments_by_step l).*1) as Hk'
    by (intros s Hs; rewrite Hp; by apply Hk).
  split_and!.
  - by apply grouped_perm.
  - apply grouped_sorted. apply (StronglySorted_merge_sort Z.le).
  - intros k. destruct (decide (k ∈ merge_sort Z.le (segments_by_step l).*1)) as [Hin|Hin].
    + by apply grouped_step.
    + rewrite !filter_none; [done|..]; intros s Hs <-.
      * by apply Hin, Hk'.
      * apply Hin. by apply grouped_elem in Hs.
Qed.

(** ** Running the schedule *)

Section Run.
Context {W DF : Type} (api : SparkApi W DF) (ad : Adapters W).

(** Segments one after the other, each having succeeded before the next. *)
Fixpoint run_all (l : list QuerySegment) : M W (list DF) :=
  match l with
  | [] => mret []
  | s :: l' => d ← run_query_segment api ad s; ds ← run_all l'; mret (d :: ds)
  end.

Lemma run_all_app l1 l2 w w1 w2 d1 d2 :
  run_all l1 w = (w1, Ok d1) -> run_all l2 w1 = (w2, Ok d2) -> run_all (l1 ++ l2) w = (w2, Ok (d1 ++ d2)).
Proof.
  revert w d1. induction l1 as [|s l1 IH]; intros w d1; cbn [run_all app].
  - intros [= <- <-] ->. done.
  - intros (w3 & d & Hd & (w4 & ds & Hds & [= <- <-])%M_bind_ok)%M_bind_ok H2.
    rewrite M_bind_run, Hd, M_bind_run, (IH _ _ Hds H2). done.
Qed.

Lemma gather_run_all l w w' rs ds :
  gather (map (run_query_segment api ad) l) w = (w', Ok rs) -> mapM_res id rs = Ok ds ->
  run_all l w = (w', Ok ds).
Proof.
  revert w rs ds. induction l as [|s l IH]; intros w rs ds.
  - intros [= <- <-] [= <-]. done.
  - cbn [map]. rewrite gather_run. destruct (run_query_segment api ad s w) as [w1 r] eqn:Hs.
    destruct (gather_ok (map (run_query_segment api ad) l) w1) as (w2 & rs' & Hg & _). rewrite Hg.
    cbn. intros [= <- <-] H. cbn in H. destruct r as [d|e]; [|done]. cbn in H.
    apply res_bind_ok in H as (ds' & Hds & [= <-]).
    rewrite M_bind_run, Hs, M_bind_run, (IH _ _ _ Hg Hds). done.
Qed.

Lemma run_step_all l o k w w' o' : run_step api ad l o k w = (w', Ok o') ->
  exists ds, run_all (filter (fun s => executionSequence s = k) l) w = (w', Ok ds) /\
    o' = if (last_step l =? k)%Z then head ds else o.
Proof.
  unfold run_step. rewrite step_segments_spec.
  intros (w1 & rs & Hg & (w2 & ds & [-> Hm]%lift_ok & H)%M_bind_ok)%M_bind_ok.
  exists ds. destruct (last_step l =? k)%Z.
  - destruct ds as [|d ds]; [done|]. injection H as <- <-. split; [|done]. by eapply gather_run_all.
  - injection H as <- <-. split; [|done]. by eapply gather_run_all.
Qed.

Lemma run_steps_all l ks o w w' o' : fold_M (run_step api ad l) o ks w = (w', Ok o') ->
  exists ds, run_all (grouped l ks) w = (w', Ok ds).
Proof.
  revert o w. induction ks as [|k ks IH]; intros o w; cbn [fold_M].
  - intros [= <- <-]. by exists [].
  - intros (w1 & o1 & (ds1 & H1 & _)%run_step_all & (ds2 & H2)%IH)%M_bind_ok.
    exists (ds1 ++ ds2). by eapply run_all_app.
Qed.

(** C27. When the segments of a query succeed they have run one after the other:
    every segment exactly once, in the order of their execution sequence, and
    those of one step in the order of the query. *)
Theorem segments_run_in_order l w w' o :
  run_segments api ad l w = (w', Ok o) ->
  exists sched ds, run_all sched w = (w', Ok ds) /\
    sched ≡ₚ l /\ StronglySorted seq_le sched /\
    forall k, filter (fun s => executionSequence s = k) sched = filter (fun s => executionSequence s = k) l.
Proof.
  unfold run_segments. intros (w1 & [] & [-> _]%lift_ok & H)%M_bind_ok.
  apply run_steps_all in H as (ds & H). exists (schedule l), ds. split; [exact H | apply schedule_spec].
Qed.
End Run.
