(* ===== verification/AnalyticsAdapters.v ===== *)
(** * Reporting adapters of the analytics application

    [utilities/http_utilities.py], [adapters/adapter_http], [adapters/adapters_mock],
    [adapters/adapters_factory] and the configuration that selects them.  The
    requests session and tenacity are parameters; pydantic's printer is
    [model_dump_json]. *)

From S2P Require Import Prelude PyStr Base64 Json JsonFacts PyFloat SparkModels JobModels JobRecordClient Contracts Steps Analytics AnalyticsProps.
From Stdlib Require Import Ascii Lia.

(** ** [HttpClient] *)

(** One request and the status code of its response. *)
Record HttpRequest := {
  rq_method : string;
  rq_url : string;
  rq_data : string;
  rq_json : list (string * json);
  rq_headers : list (string * string);
  rq_verify : bool
}.

Record HttpSession (W : Type) := { session_request : HttpRequest -> M W Z }.
Arguments session_request {W}.

(** [response.raise_for_status()] *)
Definition raise_for_status (code : Z) : res unit :=
  if ((400 <=? code) && (code <? 600))%Z then Err (HTTPError ("status " +:+ str_of_Z code)) else Ok ().

(** The exceptions worth another attempt. *)
Definition transient (e : exn) : bool :=
  match e with ConnectionError _ | Timeout _ => true | _ => false end.

Definition request_headers (body : list (string * json)) (headers : list (string * string))
  : list (string * string) :=
  match body with
  | [] => headers
  | _ => if existsb (fun kv => bool_decide (lower kv.1 = "content-type")) headers then headers
         else dict_set "Content-Type" "application/json" headers
  end.

Definition DEFAULT_MAX_RETRIES : nat := 12.

Section Http.
Context {W : Type} (ten : Tenacity W) (http : HttpSession W).

Definition execute (method endpoint data : string) (body : list (string * json)) (verify_ssl : bool)
    (headers : list (string * string)) : M W unit :=
  code ← session_request http {| rq_method := method; rq_url := endpoint; rq_data := data; rq_json := body;
                                 rq_headers := request_headers body headers; rq_verify := verify_ssl |};
  lift (raise_for_status code).

Definition do_request (max_retries : nat) (method endpoint data : string) (body : list (string * json))
    (verify_ssl : bool) (headers : list (string * string)) : M W unit :=
  retry ten unit max_retries transient (execute method endpoint data body verify_ssl headers).

Definition post_with_retry (max_retries : nat) (endpoint data : string) (body : list (string * json))
    (headers : list (string * string)) (verify_ssl : bool) : M W unit :=
  do_request max_retries "POST" endpoint data body verify_ssl headers.

Definition put_with_retry (max_retries : nat) (endpoint data : string) (body : list (string * json))
    (headers : list (string * string)) (verify_ssl : bool) : M W unit :=
  do_request max_retries "PUT" endpoint data body verify_ssl headers.

(** ** The HTTP adapters

    Every exception is logged and swallowed. *)

Context (model_dump_json : json -> string).

Definition event_json (e : OperationalEvent) : json :=
  JObj [("id", JInt (op_id e)); ("name", JStr (op_name e)); ("message", JStr (op_message e));
        ("parameters", JObj (map (fun kv => (kv.1, JStr kv.2)) (op_parameters e)))].

Definition statistics_json (e : StatisticsEvent) : json :=
  JObj [("type", JStr (se_type e)); ("data_base64", JStr (se_data_base64 e))].

Definition http_log_operational_event (endpoint : string) (e : OperationalEvent) : M W unit :=
  try_except (put_with_retry DEFAULT_MAX_RETRIES endpoint (model_dump_json (event_json e)) [] [] false)
    (fun _ => mret ()).

Definition http_record_statistics (endpoint : string) (e : StatisticsEvent) : M W unit :=
  try_except (put_with_retry DEFAULT_MAX_RETRIES endpoint (model_dump_json (statistics_json e)) [] [] false)
    (fun _ => mret ()).

Definition http_log_audit_record (endpoint : string) (a : AuditRecord) : M W unit :=
  try_except
    (message ← lift (au_get_message a);
     put_with_retry DEFAULT_MAX_RETRIES endpoint ""
       [("source", JStr (au_source a)); ("message", JStr message)] [] true)
    (fun _ => mret ()).

(** ** The mock adapters, which only print *)

Definition local_log_operational_event (e : OperationalEvent) : M W unit := _ ← lift (op_get_message e); mret ().
Definition mock_log_audit_record (a : AuditRecord) : M W unit := _ ← lift (au_get_message a); mret ().
Definition mock_record_statistics (e : StatisticsEvent) : M W unit := mret ().

(** ** [AdapterFactory] *)

Inductive ProviderType := Http | Mock.

(** The factory keeps the endpoints for the HTTP provider only. *)
Inductive AdapterFactory :=
| HttpFactory (statistics_recorder_endpoint event_emitter_endpoint audit_record_logger_endpoint : string)
| MockFactory.

Definition new_AdapterFactory (provider_type : ProviderType)
    (statistics_recorder_endpoint event_emitter_endpoint audit_record_logger_endpoint : option string)
  : res AdapterFactory :=
  match provider_type with
  | Http =>
      if ostr_truthy statistics_recorder_endpoint && ostr_truthy event_emitter_endpoint
         && ostr_truthy audit_record_logger_endpoint
      then Ok (HttpFactory (default "" statistics_recorder_endpoint) (default "" event_emitter_endpoint)
                 (default "" audit_record_logger_endpoint))
      else Err (ValueError
             "Statistics, Event emitter and Audit record endpoints must be provided for Http provider type")
  | Mock => Ok MockFactory
  end.

Definition factory_adapters (f : AdapterFactory) : Adapters W :=
  match f with
  | HttpFactory s e a =>
      {| log_operational_event := http_log_operational_event e;
         log_audit_record := http_log_audit_record a;
         record_stats := http_record_statistics s |}
  | MockFactory =>
      {| log_operational_event := local_log_operational_event;
         log_audit_record := mock_log_audit_record;
         record_stats := mock_record_statistics |}
  end.

(** ** Configuration

    [source k] is what the settings classes take a field from when the JSON
    text does not give it (the process environment, then the default). *)

Definition as_provider (j : json) : res ProviderType :=
  s ← as_str j;
  if decide (s = "http") then Ok Http else if decide (s = "mock") then Ok Mock
  else invalid "Input should be 'http' or 'mock'".

Definition setting (source : string -> json) (d : list (string * json)) (k : string) : json :=
  default (source k) (dict_lookup k d).

Definition decode_factory (source : string -> json) (text : string) : res AdapterFactory :=
  validate_json (fun j =>
    d ← as_obj j;
    rec ← as_obj (setting source d "eventRecorderConfiguration");
    provider ← as_provider (setting source rec "providerType");
    s ← as_opt as_str (setting source rec "statisticsRecorderEndpoint");
    e ← as_opt as_str (setting source rec "eventEmitterEndpoint");
    a ← as_opt as_str (setting source rec "auditRecordLoggerEndpoint");
    new_AdapterFactory provider s e a) text.

(** The process's entry point: the adapters are chosen from the environment. *)
Definition run_app {DF} (api : SparkApi W DF) (lax_int : json -> res Z) (source : string -> json)
    (environ : string -> option string) : M W unit :=
  let text := env_str environ "APPLICATION_CONFIGURATION" in
  if negb (str_truthy text)
  then raise (ValueError "Environment variable APPLICATION_CONFIGURATION is not set")
  else factory ← lift (decode_factory source text);
       main api (factory_adapters factory) lax_int environ.
End Http.

(** ** Reporting is harmless *)

Section Harmless.
Context {W DF : Type} {ob : Observed W DF} {ten : Tenacity W} {tl : TenacityLaws ten} {http : HttpSession W}.

Lemma retry_steps (R : W -> W -> Prop) `{!PreOrder R} {A} n p (m : M W A) :
  steps R m -> steps R (retry ten A (S n) p m).
Proof.
  intros Hm. induction n as [|n IH]; intros w; rewrite retry_step; specialize (Hm w);
    destruct (m w) as [w1 [a|e]]; cbn in *; try done.
  - by rewrite andb_false_r.
  - rewrite andb_true_r. destruct (p e); [|done]. etrans; [exact Hm | apply IH].
Qed.

(** A service request touches neither the views nor the output. *)
Context (http_frame : forall rq, steps (same session) (session_request http rq)).
Context (model_dump_json : json -> string).

Lemma put_session endpoint text body headers verify :
  steps (same session) (put_with_retry ten http DEFAULT_MAX_RETRIES endpoint text body headers verify).
Proof.
  unfold put_with_retry, do_request, DEFAULT_MAX_RETRIES. apply retry_steps; [typeclasses eauto|].
  unfold execute. apply steps_bind; [typeclasses eauto | apply http_frame | intros c].
  apply steps_lift. typeclasses eauto.
Qed.

Lemma swallowed (m : M W unit) w : steps (same session) m ->
  exists w', try_except m (fun _ => mret ()) w = (w', Ok ()) /\ session w' = session w.
Proof.
  intros Hm. specialize (Hm w). rewrite try_except_run.
  destruct (m w) as [w1 [[]|e]]; cbn in *; eauto.
Qed.

(** Both providers keep the promise the application relies on. *)
Lemma factory_adapter_laws f : AdapterLaws (factory_adapters ten http model_dump_json f).
Proof.
  destruct f as [s e a|]; split; cbn -[op_get_message au_get_message].
  - intros ev m w _. apply swallowed, put_session.
  - intros au m w _. apply swallowed. apply steps_bind; [typeclasses eauto | | intros t; apply put_session].
    apply steps_lift. typeclasses eauto.
  - intros ev w. apply swallowed, put_session.
  - intros ev m w H. unfold local_log_operational_event. rewrite M_bind_run. cbn [lift]. rewrite H. eauto.
  - intros au m w H. unfold mock_log_audit_record. rewrite M_bind_run. cbn [lift]. rewrite H. eauto.
  - intros ev w. exists w. done.
Qed.
End Harmless.

(** ** Bounded attempts *)

Section Attempts.
Context {W : Type} {ten : Tenacity W} {tl : TenacityLaws ten} (http : HttpSession W).

(** [k] attempts in a row that fail with a transient error. *)
Inductive fails {A} (m : M W A) : nat -> W -> W -> Prop :=
| fails_none w : fails m 0 w w
| fails_once k w w1 w2 e :
    m w = (w1, Err e) -> transient e = true -> fails m k w1 w2 -> fails m (S k) w w2.

Definition final {A} (r : res A) : bool := match r with Err e => negb (transient e) | Ok _ => true end.

Lemma retry_attempts {A} n (m : M W A) w w' r : retry ten A (S n) transient m w = (w', r) ->
  exists k w1, k <= n /\ fails m k w w1 /\ m w1 = (w', r) /\ (k < n -> final r = true).
Proof.
  revert w. induction n as [|n IH]; intros w; rewrite retry_step;
    destruct (m w) as [w1 [a|e]] eqn:Hm.
  - intros [= <- <-]. exists 0, w. split_and!; [lia|constructor|done|done].
  - rewrite andb_false_r. intros [= <- <-]. exists 0, w. split_and!; [lia|constructor|done|lia].
  - intros [= <- <-]. exists 0, w. split_and!; [lia|constructor|done|done].
  - destruct (transient e) eqn:He; cbn [andb Nat.eqb negb].
    + intros H. apply IH in H as (k & w2 & Hk & Hf & H & Hfin). exists (S k), w2.
      split_and!; [lia|by econstructor|done|]. intros Hk'. apply Hfin. lia.
    + intros [= <- <-]. exists 0, w. split_and!; [lia|constructor|done|]. intros _. cbn. by rewrite He.
Qed.

End Attempts.
