(* ===== verification/AnalyticsEntry.v ===== *)
(** * From the front end's request to the running application

    The front end encodes a job into the environment of the Spark pods
    ([sql_env_vars]); the analytics application decodes it
    ([Analytics.main]).  This file shows that the two agree. *)

From S2P Require Import Prelude PyStr Base64 Json JsonFacts PyFloat PyDate SparkModels Settings Helpers CleanroomModels Contracts Metrics KubeClient AppBuilder SparkBuilder JobRecordClient Steps Analytics AnalyticsAdapters.

(** ** What the application should decode *)

Definition app_dataset (d : DatasetInfo) (path : string) : AppDataset :=
  {| ad_name := ds_name d; ad_view_name := viewName d; ad_path := path; ad_format := format d;
     ad_schema := schema_ d; ad_allowedFields := allowedFields d |}.

Definition app_configuration (job : JobInput) (q : SQLPart) (sink : DatasetInfo) : QueryConfiguration :=
  {| qc_query := query q;
     qc_datasets := map (fun d => app_dataset d ("/mnt/remote/" +:+ ds_name d)) (datasets job);
     qc_datasink := app_dataset sink ("/mnt/remote/" +:+ ds_name sink +:+ "/" +:+ contract_id job) |}.

(** The JSON text of a query as its author writes it, absent lists as null. *)
Definition precondition_json (c : PreCondition) : json :=
  JObj [("viewName", JStr (pre_viewName c)); ("minRowCount", JInt (minRowCount c))].
Definition postfilter_json (f : PostFilter) : json :=
  JObj [("columnName", JStr (columnName f)); ("value", JInt (pf_value f))].
Definition opt_list_json {A} (f : A -> json) (o : option (list A)) : json :=
  match o with Some l => JArr (map f l) | None => JNull end.
Definition segment_json (s : QuerySegment) : json :=
  JObj [("executionSequence", JInt (executionSequence s)); ("data", JStr (data s));
        ("preConditions", opt_list_json precondition_json (preConditions s));
        ("postFilters", opt_list_json postfilter_json (postFilters s))].
Definition query_json (q : Query) : json := JObj [("segments", JArr (map segment_json (segments q)))].
Definition query_text (q : Query) : string := b64encode (utf8_encode (dumps (query_json q))).

(** ** Decoding is the inverse of printing *)

Lemma as_format_value f : as_format (JStr (DatasetFormat_value f)) = Ok f.
Proof. by destruct f. Qed.

Lemma as_dict_map {A} (f : json -> res A) (g : A -> json) (d : list (string * A)) :
  (forall a, f (g a) = Ok a) -> as_dict f (JObj (map (fun kv => (kv.1, g kv.2)) d)) = Ok d.
Proof.
  intros H. unfold as_dict. cbn [as_obj mbind res_bind]. apply mapM_res_map_id.
  intros [k v]. cbn. by rewrite H.
Qed.

Lemma decode_schema s : as_opt (as_dict (as_dict as_str)) (schema_json s) = Ok s.
Proof.
  destruct s as [s|]; [|done]. unfold schema_json, as_opt.
  rewrite (as_dict_map (as_dict as_str) (fun d => JObj (map (fun fv => (fv.1, JStr fv.2)) d))); [done|].
  intros d. by apply (as_dict_map as_str JStr).
Qed.

Lemma decode_dataset_json d path : decode_dataset (dataset_json d path) = Ok (app_dataset d path).
Proof.
  transitivity (fmt ← as_format (JStr (DatasetFormat_value (format d)));
    schema ← as_opt (as_dict (as_dict as_str)) (schema_json (schema_ d));
    allowed ← mapM_res as_str (map JStr (allowedFields d));
    Ok {| ad_name := ds_name d; ad_view_name := viewName d; ad_path := path; ad_format := fmt;
          ad_schema := schema; ad_allowedFields := allowed |}); [reflexivity|].
  by rewrite as_format_value, decode_schema, (mapM_res_map_id as_str JStr).
Qed.

Lemma decode_app_input job q sink :
  decode_query_configuration (app_input job q sink) = Ok (app_configuration job q sink).
Proof.
  set (path := fun d => "/mnt/remote/" +:+ ds_name d).
  transitivity (l ← mapM_res decode_dataset (map (fun d => dataset_json d (path d)) (datasets job));
    s ← decode_dataset (dataset_json sink ("/mnt/remote/" +:+ ds_name sink +:+ "/" +:+ contract_id job));
    Ok {| qc_query := query q; qc_datasets := l; qc_datasink := s |}); [reflexivity|].
  rewrite (mapM_res_map decode_dataset _ (fun d => app_dataset d (path d)))
    by (intros d; apply decode_dataset_json).
  by rewrite decode_dataset_json.
Qed.

Section Entry.
Context (lax_int : json -> res Z).

Lemma decode_opt_list {A} (f : json -> res A) (g : A -> json) (o : option (list A)) :
  (forall a, f (g a) = Ok a) -> as_opt (as_list_of f) (opt_list_json g o) = Ok o.
Proof.
  intros H. destruct o as [l|]; [|done]. unfold as_opt, opt_list_json, as_list_of.
  cbn -[mapM_res]. by rewrite (mapM_res_map_id f g) by done.
Qed.

Lemma decode_segment_json s : decode_segment lax_int (segment_json s) = Ok s.
Proof.
  transitivity (pre ← as_opt (as_list_of (decode_precondition lax_int)) (opt_list_json precondition_json (preConditions s));
    post ← as_opt (as_list_of (decode_postfilter lax_int)) (opt_list_json postfilter_json (postFilters s));
    Ok {| executionSequence := executionSequence s; data := data s; preConditions := pre; postFilters := post |});
    [reflexivity|].
  rewrite (decode_opt_list _ precondition_json) by (by intros []).
  rewrite (decode_opt_list _ postfilter_json) by (by intros []). by destruct s.
Qed.

Lemma decode_query_json q : decode_query lax_int (query_json q) = Ok q.
Proof.
  transitivity (l ← mapM_res (decode_segment lax_int) (map segment_json (segments q)); Ok {| segments := l |});
    [reflexivity|].
  rewrite (mapM_res_map_id _ segment_json) by apply decode_segment_json. by destruct q.
Qed.
End Entry.

(** ** Well-formed texts *)

Ltac nodup_keys := apply (bool_decide_unpack _); vm_compute; exact I.

Lemma forallb_map_true {A} (f : json -> bool) (g : A -> json) l :
  (forall a, f (g a) = true) -> forallb f (map g l) = true.
Proof. intros H. induction l as [|a l IH]; [done|]. cbn. by rewrite H. Qed.

Lemma query_json_wf q : json_wf (query_json q) = true.
Proof.
  unfold query_json. cbn -[bool_decide]. rewrite bool_decide_true by (apply NoDup_singleton). cbn [andb].
  rewrite forallb_map_true; [done|]. intros s.
  cbn -[bool_decide]. rewrite bool_decide_true by nodup_keys.
  destruct (preConditions s) as [l|], (postFilters s) as [l'|]; cbn -[bool_decide];
    rewrite ?forallb_map_true; try done.
Qed.

(** The keys of a schema are those of Python dictionaries: distinct. *)
Definition schema_wf (d : DatasetInfo) : bool :=
  match schema_ d with
  | Some s => bool_decide (NoDup s.*1) && forallb (fun kv => bool_decide (NoDup kv.2.*1)) s
  | None => true
  end.

Lemma keys_map {A B} (g : A -> B) (d : list (string * A)) : (map (fun kv => (kv.1, g kv.2)) d).*1 = d.*1.
Proof. induction d as [|[k a] d IH]; [done|]. cbn. f_equal. exact IH. Qed.

Lemma schema_json_wf d : schema_wf d = true -> json_wf (schema_json (schema_ d)) = true.
Proof.
  unfold schema_wf. destruct (schema_ d) as [s|]; [|done]. intros [Hk Hs]%andb_true_iff.
  unfold schema_json. cbn [json_wf].
  rewrite (keys_map (fun v => JObj (map (fun fv => (fv.1, JStr fv.2)) v)) s), Hk. cbn [andb].
  induction s as [|[k v] s IH]; [done|]. cbn [map forallb fst snd] in *.
  apply andb_true_iff in Hs as [Hv Hs]. cbn [json_wf]. rewrite (keys_map JStr v), Hv. cbn [andb].
  rewrite IH; [|by apply bool_decide_eq_true in Hk; apply NoDup_cons in Hk as [_ ?]; apply bool_decide_eq_true|done].
  rewrite andb_true_r. clear. induction v; [done|]. done.
Qed.

Lemma dataset_json_wf d path : schema_wf d = true -> json_wf (dataset_json d path) = true.
Proof.
  intros H. unfold dataset_json. cbn [json_wf]. rewrite bool_decide_true by nodup_keys.
  cbn [andb forallb snd json_wf]. rewrite schema_json_wf by done. cbn [andb].
  rewrite forallb_map_true by done. done.
Qed.

Lemma app_input_wf job q sink : forallb schema_wf (datasets job) = true -> schema_wf sink = true ->
  json_wf (app_input job q sink) = true.
Proof.
  intros Hd Hs. unfold app_input. cbn [json_wf]. rewrite bool_decide_true by nodup_keys.
  cbn [andb forallb snd json_wf]. rewrite dataset_json_wf by done. rewrite andb_true_r.
  induction (datasets job) as [|d l IH]; [done|]. cbn [map forallb] in *.
  apply andb_true_iff in Hd as [Hd Hl]. by rewrite dataset_json_wf, IH.
Qed.

(** ** The application runs the requested job *)

(** The environment of the driver's container gives every variable the front
    end set for the job. *)
Definition env_has (environ : string -> option string) (vars : list EnvData) : Prop :=
  Forall (fun v => environ (env_key v) = Some (env_val v)) vars.

Lemma job_config_env_decodes environ job q sink text :
  environ "JOB_CONFIG" = Some text -> datasink job = Some sink -> to_app_input job q = Ok text ->
  json_wf (app_input job q sink) = true ->
  decode_job_config environ = Ok (app_configuration job q sink).
Proof.
  unfold to_app_input. intros He Hs Ht Hwf. rewrite Hs in Ht. cbn [of_option mbind res_bind] in Ht.
  assert (text = b64encode (utf8_encode (dumps (app_input job q sink)))) as -> by congruence. clear Ht.
  unfold decode_job_config, env_str. rewrite He. cbv zeta. cbn [default from_option id].
  assert (dumps (app_input job q sink) <> "") as Hne.
  { intros Heq. pose proof (loads_dumps _ Hwf) as Hl. by rewrite Heq in Hl. }
  unfold str_truthy. rewrite bool_decide_false.
  - cbn [negb]. rewrite b64_roundtrip. cbn [mbind res_bind]. rewrite utf8_decode_encode. cbn [mbind res_bind].
    unfold validate_json. rewrite loads_dumps by done. apply decode_app_input.
  - intros Hb%b64encode_empty. apply Hne. by rewrite utf8_encode_ascii in Hb by apply dumps_ascii.
Qed.

Lemma query_text_decodes lax_int cfg q : qc_query cfg = query_text q -> decode_query_text lax_int cfg = Ok q.
Proof.
  intros H. unfold decode_query_text. rewrite H. unfold query_text. rewrite b64_roundtrip. cbn [mbind res_bind].
  rewrite utf8_decode_encode. cbn [mbind res_bind]. unfold validate_json.
  rewrite loads_dumps by apply query_json_wf. apply decode_query_json.
Qed.

(** The adapters report to the front end that submitted the job, and audit
    records go to the governance sidecar. *)
Definition front_end_factory (service_url app_name : string) : AdapterFactory :=
  HttpFactory (service_url +:+ "/analytics/" +:+ app_name +:+ "/record_statistics")
    (service_url +:+ "/analytics/" +:+ app_name +:+ "/record_operational_event")
    "http://localhost:8300/events".

Lemma str_truthy_app a b : str_truthy (a +:+ b) = str_truthy a || str_truthy b.
Proof. by destruct a. Qed.

Lemma app_config_decodes source service_url app_name :
  decode_factory source (dumps (app_config service_url app_name)) = Ok (front_end_factory service_url app_name).
Proof.
  unfold decode_factory, validate_json. rewrite loads_dumps.
  - set (s := service_url +:+ "/analytics/" +:+ app_name +:+ "/record_statistics").
    set (e := service_url +:+ "/analytics/" +:+ app_name +:+ "/record_operational_event").
    transitivity (new_AdapterFactory Http (Some s) (Some e) (Some "http://localhost:8300/events")); [reflexivity|].
    unfold new_AdapterFactory, ostr_truthy, s, e. by rewrite !str_truthy_app, !orb_true_r.
  - unfold app_config. cbn [json_wf]. rewrite !bool_decide_true by nodup_keys. done.
Qed.

