(* ===== verification/AnalyticsWorld.v ===== *)
(** * An in-memory Spark

    A concrete world for the analytics application: folders hold frames of
    integers, views are a map, SQL texts of the form [SELECT * FROM v] and
    [CREATE VIEW n AS v] are understood, and every report is kept.  It meets
    the laws of [AnalyticsProps] and serves the examples below. *)

From S2P Require Import Prelude PyStr Base64 Json JsonFacts PyFloat PyDate SparkModels Settings CleanroomModels Helpers Contracts JobModels JobRecordClient JobRecordProps AppBuilder SparkBuilder SparkBuilderProps Steps Analytics AnalyticsProps AnalyticsOrder AnalyticsAdapters AnalyticsEntry.
From Stdlib Require Import Ascii Lia Sorted.

Record Frame := { fr_columns : list (string * DataType); fr_rows : list (list (string * Z)) }.

Record World := {
  w_files : list (string * Frame);
  w_views : gmap string Frame;
  w_saved : list (string * string * Frame);
  w_events : list OperationalEvent;
  w_audits : list AuditRecord;
  w_stats : list StatisticsEvent
}.

Definition with_views (w : World) (v : gmap string Frame) : World :=
  {| w_files := w_files w; w_views := v; w_saved := w_saved w; w_events := w_events w; w_audits := w_audits w;
     w_stats := w_stats w |}.
Definition with_saved (w : World) (s : list (string * string * Frame)) : World :=
  {| w_files := w_files w; w_views := w_views w; w_saved := s; w_events := w_events w; w_audits := w_audits w;
     w_stats := w_stats w |}.
Definition with_reports (w : World) e a s : World :=
  {| w_files := w_files w; w_views := w_views w; w_saved := w_saved w; w_events := e; w_audits := a; w_stats := s |}.

#[export] Instance world_observed : Observed World Frame :=
  {| views := w_views; saved := w_saved; events := w_events; audits := w_audits; stats := w_stats |}.

Definition row_satisfies (c : string) (v : Z) (r : list (string * Z)) : bool :=
  match dict_lookup c r with Some z => (v <=? z)%Z | None => false end.
Definition row_project (cs : list string) (r : list (string * Z)) : list (string * Z) :=
  filter (fun kv => kv.1 ∈ cs) r.
Definition frame_columns (d : Frame) : list string := (fr_columns d).*1.

Definition read_folder (path : string) (_ : StructType) : M World Frame := fun w =>
  (w, of_option (OtherException ("[PATH_NOT_FOUND] Path does not exist: " +:+ path)) (dict_lookup path (w_files w))).

Definition find_view (n : string) : M World Frame := fun w =>
  (w, of_option (OtherException "[TABLE_OR_VIEW_NOT_FOUND]") (w_views w !! n)).

Definition column_of (d : Frame) (c : string) : res (string * DataType) :=
  of_option (OtherException "[UNRESOLVED_COLUMN]") (t ← dict_lookup c (fr_columns d); Some (c, t)).

Definition frame_select (d : Frame) (cs : list string) : M World Frame :=
  lift (cols ← mapM_res (column_of d) cs;
        Ok {| fr_columns := cols; fr_rows := map (row_project cs) (fr_rows d) |}).

Definition frame_filter (d : Frame) (c : string) (v : Z) : M World Frame :=
  lift (_ ← column_of d c; Ok {| fr_columns := fr_columns d; fr_rows := filter (row_satisfies c v) (fr_rows d) |}).

Definition run_sql (text : string) : M World Frame :=
  match strip_prefix "SELECT * FROM " text with
  | Some v => find_view v
  | None => match split_on " " text with
            | ["CREATE"; "VIEW"; n; "AS"; v] =>
                d ← find_view v; modify (fun w => with_views w (<[n := d]> (w_views w)));;
                mret {| fr_columns := []; fr_rows := [] |}
            | _ => raise (OtherException "[PARSE_SYNTAX_ERROR]")
            end
  end.

Definition spark : SparkApi World Frame := {|
  read_csv := read_folder; read_json := read_folder; read_parquet := read_folder;
  unionByName := fun a b => mret {| fr_columns := fr_columns a; fr_rows := fr_rows a ++ fr_rows b |};
  select := frame_select;
  filter_ge := frame_filter;
  columns := frame_columns;
  df_schema := fun d => map (fun c => {| sf_name := c.1; sf_type := c.2; sf_nullable := true |}) (fr_columns d);
  df_cache := fun _ => mret ();
  df_count := fun d => mret (Z.of_nat (length (fr_rows d)));
  createOrReplaceTempView := fun d n => modify (fun w => with_views w (<[n := d]> (w_views w)));
  listTables := fun w => (w, Ok (map fst (map_to_list (w_views w))));
  table := find_view;
  sql := run_sql;
  conf_set := fun _ _ => mret ();
  getOrCreate := fun _ => mret ();
  makedirs := fun _ => mret ();
  save := fun d f p => modify (fun w => with_saved w (w_saved w ++ [(p, f, d)]));
  today := mret (Date 2025 6 1);
  monotonic_ns := mret 0%Z;
  float_repr := fun _ => "0.0";
  set_repr := fun l => "{" +:+ join ", " (map repr_str l) +:+ "}"
|}.

Definition log : Adapters World := {|
  log_operational_event := fun e => modify (fun w => with_reports w (w_events w ++ [e]) (w_audits w) (w_stats w));
  log_audit_record := fun a => modify (fun w => with_reports w (w_events w) (w_audits w ++ [a]) (w_stats w));
  record_stats := fun s => modify (fun w => with_reports w (w_events w) (w_audits w) (w_stats w ++ [s]))
|}.

Lemma columns_of_fst d cs cols : mapM_res (column_of d) cs = Ok cols -> cols.*1 = cs.
Proof.
  intros H%mapM_res_Forall2. induction H as [|c [c' t] cs cols Hc _ IH]; [done|].
  cbn. f_equal; [|exact IH]. unfold column_of in Hc.
  destruct (dict_lookup c (fr_columns d)); cbn in Hc; congruence.
Qed.

Lemma sql_outputs t : steps (same outputs) (run_sql t).
Proof.
  unfold run_sql. steps_go; unfold find_view; intros ?; unfold same; done.
Qed.

Lemma frame_select_ok d cs w w' d' : frame_select d cs w = (w', Ok d') ->
  frame_columns d' = cs /\ fr_rows d' = map (row_project cs) (fr_rows d).
Proof.
  unfold frame_select. intros [-> H]%lift_ok. apply res_bind_ok in H as (cols & Hc & [= <-]).
  split; [by eapply columns_of_fst | done].
Qed.

Lemma frame_filter_ok d c v w w' d' : frame_filter d c v w = (w', Ok d') ->
  frame_columns d' = frame_columns d /\ fr_rows d' = filter (row_satisfies c v) (fr_rows d).
Proof. unfold frame_filter. intros [-> H]%lift_ok. by apply res_bind_ok in H as (? & _ & [= <-]). Qed.

#[export] Instance spark_laws : SparkLaws spark.
Proof.
  refine {| Row := list (string * Z); rows := fr_rows; satisfies := row_satisfies; project := row_project |};
    try (intros; by intros ?).
  - apply sql_outputs.
  - done.
  - done.
  - by intros d n w w' [= <-].
  - intros n w w' d H. change (find_view n w = (w', Ok d)) in H. unfold find_view in H.
    assert (of_option (OtherException "[TABLE_OR_VIEW_NOT_FOUND]") (w_views w !! n) = Ok d) as Hv by congruence.
    by apply of_option_ok in Hv.
  - by intros d w w' n [= _ <-].
  - intros d cs w w' d' _. apply frame_select_ok.
  - intros d c v w w' d' _. apply frame_filter_ok.
Defined.

#[export] Instance log_laws : AdapterLaws log.
Proof. split; [intros e m w _ | intros a m w _ | intros s w]; eexists; done. Qed.

#[export] Instance log_reliable : ReliableAdapters log.
Proof. split; [apply log_laws | done..]. Qed.

(** ** Examples *)

Definition orders : AppDataset :=
  {| ad_name := "orders"; ad_view_name := "orders_view"; ad_path := "/mnt/remote/orders"; ad_format := fmt_csv;
     ad_schema := Some [("id", [("type", "integer")]); ("amount", [("type", "integer")]); ("card", [("type", "integer")])];
     ad_allowedFields := ["amount"; "id"] |}.

Definition results : AppDataset :=
  {| ad_name := "results"; ad_view_name := "results"; ad_path := "/mnt/remote/results/contract";
     ad_format := fmt_parquet; ad_schema := Some [("amount", [("type", "integer")])]; ad_allowedFields := ["amount"] |}.

Definition order (id amount : Z) : list (string * Z) := [("id", id); ("amount", amount); ("card", 4000%Z)].

Definition order_frame (l : list (list (string * Z))) : Frame :=
  {| fr_columns := [("id", IntegerType); ("amount", IntegerType); ("card", IntegerType)]; fr_rows := l |}.

(** Two of three days have data. *)
Definition demo_world : World :=
  {| w_files := [("/mnt/remote/orders/2025-05-01", order_frame [order 1 5; order 2 50]);
                 ("/mnt/remote/orders/2025-05-03", order_frame [order 3 70])];
     w_views := ∅; w_saved := []; w_events := []; w_audits := []; w_stats := [] |}.

Definition demo_app_config : QueryConfiguration :=
  {| qc_query := ""; qc_datasets := [orders]; qc_datasink := results |}.

Definition demo_segments : Query := {| segments :=
  [{| executionSequence := 2; data := "SELECT * FROM big"; preConditions := None;
      postFilters := Some [{| columnName := "amount"; pf_value := 10 |}] |};
   {| executionSequence := 1; data := "CREATE VIEW big AS orders_view";
      preConditions := Some [{| pre_viewName := "orders_view"; minRowCount := 3 |}]; postFilters := None |}] |}.

Definition demo_run : M World unit :=
  run_query spark log demo_app_config demo_segments "2025-05-01" "2025-05-03" "job-1".

Lemma output_guarded_witness :
  ends_on saved (at_most_one (fun x => exists s df, last_segment (segments demo_segments) s /\ segment_result s df /\
          written_output "job-1" (qc_datasink demo_app_config) df x)) demo_run demo_world /\
  w_saved (demo_run demo_world).1
  = [("/mnt/remote/results/contract/2025-06-01/job-1", "parquet",
      {| fr_columns := [("amount", IntegerType)]; fr_rows := [[("amount", 50%Z)]; [("amount", 70%Z)]] |})].
Proof.
  split; [|vm_compute; reflexivity].
  apply (output_guarded demo_app_config demo_segments "2025-05-01" "2025-05-03" "job-1" demo_world).
  - repeat constructor.
  - repeat constructor.
Defined.

Lemma demo_load_ok : (load_dataset_async spark log orders "2025-05-01" "2025-05-03" "job-1" demo_world).2 = Ok 3%Z.
Proof. vm_compute. reflexivity. Qed.

Lemma loaded_view_restricted_witness :
  exists src df, views (load_dataset_async spark log orders "2025-05-01" "2025-05-03" "job-1" demo_world).1
                   !! "orders_view" = Some df /\
    columns spark df = filter (fun f => f ∈ columns spark src) (ad_allowedFields orders).
Proof.
  destruct (load_dataset_async spark log orders "2025-05-01" "2025-05-03" "job-1" demo_world) as [w' r] eqn:Hl.
  pose proof demo_load_ok as Hr. rewrite Hl in Hr. cbn in Hr. subst r.
  destruct (loaded_view_restricted orders "2025-05-01" "2025-05-03" "job-1" demo_world w' 3%Z)
    as (src & df & H1 & H2 & _).
  - repeat constructor.
  - exact Hl.
  - exists src, df. split; [exact H1 | exact H2].
Defined.


Lemma date_loop_visits_range_witness :
  load_days spark (span (Date 2025 5 1) (Date 2025 5 3)) orders (Date 2025 5 1) (Date 2025 5 3) [] demo_world
  = load_each spark orders (date_range (Date 2025 5 1) (Date 2025 5 3)) demo_world /\
  map strftime_ymd (date_range (Date 2025 5 1) (Date 2025 5 3)) = ["2025-05-01"; "2025-05-02"; "2025-05-03"].
Proof.
  split; [|vm_compute; reflexivity].
  apply (date_loop_visits_range spark orders (Date 2025 5 1) (Date 2025 5 3)); [reflexivity | reflexivity | discriminate].
Defined.

(** A service that refuses as many connections as the state says. *)
Definition flaky : HttpSession nat := {| session_request := fun _ n =>
  match n with S n' => (n', Err (ConnectionError "refused")) | O => (O, Ok 200%Z) end |}.


(** A request of the front end, and the environment its pods get. *)
Definition app_sql : SQLPart :=
  {| query := query_text demo_segments; start_date := Some "2025-05-01"; end_date := Some "2025-05-03";
     use_optimizer := false |}.

Definition app_vars : list EnvData :=
  match sql_env_vars (demo_config Virtual) "job-1" demo_job app_sql with Ok l => l | Err _ => [] end.

Definition app_environ (k : string) : option string :=
  dict_lookup k (map (fun v => (env_key v, env_val v)) app_vars).

Definition no_http : HttpSession World := {| session_request := fun _ => raise (ConnectionError "refused") |}.
Definition no_int (j : json) : res Z := invalid "Input should be a valid integer".

Lemma app_vars_eq : sql_env_vars (demo_config Virtual) "job-1" demo_job app_sql = Ok app_vars.
Proof. vm_compute. reflexivity. Qed.

Lemma app_environ_has : env_has app_environ app_vars.
Proof. vm_compute. repeat constructor. Qed.


(** The views the segments read are there once the datasets are loaded. *)
Definition loaded_world : World := (load_dataset_async spark log orders "2025-05-01" "2025-05-03" "job-1" demo_world).1.

Lemma demo_segments_ok : is_ok (run_segments spark log (segments demo_segments) loaded_world).2 = true.
Proof. vm_compute. reflexivity. Qed.

Lemma segments_run_in_order_witness :
  exists sched ds, run_all spark log sched loaded_world
                   = ((run_segments spark log (segments demo_segments) loaded_world).1, Ok ds) /\
    sched ≡ₚ segments demo_segments /\ StronglySorted seq_le sched.
Proof.
  destruct (run_segments spark log (segments demo_segments) loaded_world) as [w' [o|e]] eqn:Hr.
  - destruct (segments_run_in_order spark log (segments demo_segments) loaded_world w' o Hr)
      as (sched & ds & H1 & H2 & H3 & _).
    exists sched, ds. split; [exact H1|]. split; [exact H2 | exact H3].
  - exfalso. pose proof demo_segments_ok as H. rewrite Hr in H. discriminate H.
Defined.
