(* ===== verification/Launchers.v ===== *)
(** * Mount launchers and the containers that wait for them

    [cleanroom_internal/utilities] (mount points, service readiness, secrets),
    the blobfuse launcher ([blobfuse-launcher/src/blobfuse_launcher]), the s3fs
    launcher ([s3fs-launcher/src/s3fs_launcher]) and the launcher of the Spark
    containers ([analytics_workload/spark_launcher.py],
    [analytics_workload/utilities/utilities.py]).

    A launcher mounts a data store and leaves a marker file in the shared status
    directory; the other containers of the pod poll for it.  Files, processes,
    sockets, sleeping and HTTP are the record [Sidecars]; opening a file for
    writing and writing it out are separate operations, since another container
    can look in between.  Parsed command lines are records. *)

From S2P Require Import Prelude PyStr Base64 Json JsonFacts Sha256 PyFloat CleanroomModels Contracts Steps Analytics.
From Stdlib Require Import Ascii.

Record Sidecars (W : Type) := {
  path_exists : string -> M W bool;
  read_text : string -> M W string;
  open_w : string -> M W unit;
  write_close : string -> string -> M W unit;
  make_dirs : string -> M W unit;
  sleep : Z -> M W unit;
  connect : Z -> M W unit;
  popen_wait : list string -> M W Z;
  set_environ : string -> string -> M W unit;
  http_post : string -> option string -> M W (Z * string);
  yaml_load : string -> M W json;
  yaml_dump : json -> string -> M W unit;
  execv : string -> list string -> M W unit
}.
Arguments path_exists {W}. Arguments read_text {W}. Arguments open_w {W}. Arguments write_close {W}.
Arguments make_dirs {W}. Arguments sleep {W}. Arguments connect {W}. Arguments popen_wait {W}.
Arguments set_environ {W}. Arguments http_post {W}. Arguments yaml_load {W}. Arguments yaml_dump {W}.
Arguments execv {W}.

(** [str] of an optional string inside an f-string, and [str(b).lower()]. *)
Definition opt_str (o : option string) : string := default "None" o.
Definition flag_str (o : option bool) : string :=
  match o with Some true => "true" | Some false => "false" | None => "none" end.

(** [os.path.basename] *)
Fixpoint basename (s : string) : string :=
  match s with
  | "" => ""
  | String c t => if str_contains "/" s then basename t else s
  end.

Section Waiting.
Context {W : Type} (sc : Sidecars W) (environ : string -> option string).

(** ** [mountpoint_utilities.py] *)

Definition get_volumestatus_mountpath : string := default "/mnt/volumestatus" (environ "VOLUMESTATUS_MOUNT_PATH").

Definition ready_file (access_name : string) : string :=
  path_join get_volumestatus_mountpath (access_name +:+ ".volume.ready").
Definition error_file (access_name : string) : string :=
  path_join get_volumestatus_mountpath (access_name +:+ ".volume.error").

Definition get_mount_path (access_name : string) : M W json :=
  text ← read_text sc (ready_file access_name);
  lift (j ← loads text; json_item j "mount_path").

Definition is_volume_ready (access_name : string) : M W bool := path_exists sc (ready_file access_name).
Definition is_volume_error (access_name : string) : M W bool := path_exists sc (error_file access_name).

Definition get_blobfuse_error (access_name : string) : M W json :=
  found ← path_exists sc (error_file access_name);
  if (found : bool) then
    text ← read_text sc (error_file access_name);
    lift (j ← loads text; json_item j "error_code")
  else mret (JStr "Unknown").

Fixpoint poll_volume (max_retries : nat) (retry_delay : Z) (access_name : string) : M W bool :=
  match max_retries with
  | O => mret false
  | S n =>
      ready ← is_volume_ready access_name;
      if (ready : bool) then mret true
      else
        failed ← is_volume_error access_name;
        if (failed : bool) then mret false
        else sleep sc retry_delay;; poll_volume n retry_delay access_name
  end.

Definition wait_for_mount_point (access_name : string) (max_retries : nat) (retry_delay : Z) : M W json :=
  volume_ready ← poll_volume max_retries retry_delay access_name;
  if (volume_ready : bool) then get_mount_path access_name
  else
    err ← get_blobfuse_error access_name;
    raise (OtherException ("Mount point for " +:+ access_name
             +:+ " is not available. Blobfuse exited with error : " +:+ py_str err)).

(** ** [utilities.wait_for_services_readiness]

    The attempts left are shared by all ports. *)

Definition SERVICE_RETRIES : nat := 18.
Definition SERVICE_DELAY : Z := 5.

Fixpoint wait_port (attempts_left : nat) (port : Z) : M W nat :=
  match attempts_left with
  | O => mret O
  | S n =>
      up ← try_except (connect sc port;; mret true) (fun _ => mret false);
      if (up : bool) then mret (S n) else sleep sc SERVICE_DELAY;; wait_port n port
  end.

Definition wait_service (attempts_left : nat) (port : Z) : M W nat :=
  left ← wait_port attempts_left port;
  match left with
  | O => raise (OtherException ("Service on port " +:+ str_of_Z port
           +:+ " is not available even after waiting for the threshold. Exiting..."))
  | S _ => mret left
  end.

Definition wait_for_services_readiness (service_ports : list Z) : M W unit :=
  _ ← fold_M wait_service SERVICE_RETRIES service_ports; mret ().

(** ** [secret_utilities.py] *)

(** [raise_for_status()], then the decoded [value] of the response. *)
Definition secret_of_response (r : Z * string) : res string :=
  if ((400 <=? r.1) && (r.1 <? 600))%Z then Err (HTTPError ("status " +:+ str_of_Z r.1))
  else
    result ← loads r.2;
    value ← json_item result "value";
    match value with
    | JStr s => b64decode s
    | _ => Err (TypeError "argument should be a bytes-like object or ASCII string")
    end.

Definition opt_json (o : option string) : json := match o with Some s => JStr s | None => JNull end.

Definition unwrap_secret (secrets_port : Z)
    (client_id tenant_id kid akv_endpoint kek_kid kek_akv_endpoint maa_endpoint : option string) : M W string :=
  r ← http_post sc ("http://localhost:" +:+ str_of_Z secrets_port +:+ "/secrets/unwrap")
        (Some (dumps (JObj [("clientId", opt_json client_id); ("tenantId", opt_json tenant_id);
                            ("kid", opt_json kid); ("akvEndpoint", opt_json akv_endpoint);
                            ("kek", JObj [("kid", opt_json kek_kid); ("akvEndpoint", opt_json kek_akv_endpoint);
                                          ("maaEndpoint", opt_json maa_endpoint)])])));
  lift (secret_of_response r).

Definition get_cgs_secret (governance_port : Z) (kid : string) : M W string :=
  r ← http_post sc ("http://localhost:" +:+ str_of_Z governance_port +:+ "/secrets/" +:+ kid) None;
  lift (secret_of_response r).

(** ** Markers *)

(** [with open(path, "w") as f: f.write(text)] *)
Definition write_file (path text : string) : M W unit := open_w sc path;; write_close sc path text.

Definition mount_path_json (mount_path : string) : json := JObj [("mount_path", JStr mount_path)].
Definition error_code_json (returncode : Z) : json := JObj [("error_code", JInt returncode)].

Definition write_marker (access_name mount_path : string) (returncode : Z) : M W unit :=
  if (returncode =? 0)%Z then write_file (ready_file access_name) (dumps (mount_path_json mount_path))
  else write_file (error_file access_name) (dumps (error_code_json returncode)).

(** Mount, at most [max_retries] times; the answer is the last return code. *)
Fixpoint mount_loop (max_retries : nat) (retry_delay : Z) (launch : M W Z) (on_failure : M W unit) (last : Z)
  : M W Z :=
  match max_retries with
  | O => mret last
  | S n =>
      returncode ← launch;
      if (returncode =? 0)%Z then mret returncode
      else on_failure;; sleep sc retry_delay;; mount_loop n retry_delay launch on_failure returncode
  end.

(** [ReadinessHandler.do_GET]: status code and body. *)
Definition readiness_do_GET (access_name path : string) : M W (Z * string) :=
  if bool_decide (path = "/ready") then
    ready ← path_exists sc (ready_file access_name);
    done_ ← (if (ready : bool) then mret true else path_exists sc (error_file access_name));
    mret (if (done_ : bool) then (200%Z, "ready") else (503%Z, "not ready"))
  else mret (404%Z, "").
End Waiting.

(** ** The blobfuse launcher *)

Inductive EncryptionMode := CPK | CSE | SSE.

Record BlobfuseArgs := {
  skr_port : Z;
  governance_port : Z;
  secrets_port : Z;
  maa_endpoint : option string;
  akv_endpoint : option string;
  kid : option string;
  imds_port : Z;
  otel_collector_port : Z;
  tenant_id : option string;
  client_id : option string;
  mount_path : string;
  read_only : option bool;
  use_adls : option bool;
  wrapped_dek_secret : option string;
  wrapped_dek_akv_endpoint : option string;
  sub_directory : string;
  encryption_mode : EncryptionMode;
  block_size_mb : Z;
  cgs_dek_secret : option string;
  readiness_port : option Z
}.

Definition BLOBFUSE_LAUNCHER_RETRIES : nat := 5.
Definition BLOBFUSE_LAUNCHER_RETRY_DELAY : Z := 10.

Section Launchers.
Context {W : Type} (sc : Sidecars W) (environ : string -> option string).

Definition telemetry_path : string := default "/mnt/telemetry" (environ "TELEMETRY_MOUNT_PATH").

Definition blobfuse_log (mountPath telemetryPath : string) : string :=
  telemetryPath +:+ "/infrastructure/" +:+ basename mountPath +:+ "-blobfuse.log".

Definition blobfuse_command (mountPath : string) (readOnly : option bool) (subdirectory : string)
    (useAdls : option bool) (cpkEnabled disableWritebackCache : bool) (blockSizeMB : Z) (telemetryPath : string)
  : list string :=
  ["blobfuse2"; "mount"; mountPath; "--allow-other";
   "--read-only=" +:+ flag_str readOnly;
   "--cpk-enabled=" +:+ flag_str (Some cpkEnabled);
   "--virtual-directory=true"; "--block-cache"; "--block-cache-path"; "/tmp/blobfuse_tmp";
   "--block-cache-block-size=" +:+ str_of_Z blockSizeMB;
   "--block-cache-pool-size=256"; "--block-cache-prefetch=0"; "--block-cache-disk-size=4096";
   "--log-file-path"; blobfuse_log mountPath telemetryPath; "--log-level=LOG_INFO";
   "--subdirectory"; subdirectory;
   "--use-adls=" +:+ flag_str useAdls;
   "--disable-writeback-cache=" +:+ flag_str (Some disableWritebackCache)].

Definition launch_blobfuse (mountPath : string) (readOnly : option bool) (subdirectory : string)
    (useAdls : option bool) (cpkEnabled disableWritebackCache : bool) (blockSizeMB : Z) (telemetryPath : string)
  : M W Z :=
  popen_wait sc (blobfuse_command mountPath readOnly subdirectory useAdls cpkEnabled disableWritebackCache
                   blockSizeMB telemetryPath).

(** [config[k].update(d)] *)
Definition json_update (config : json) (k : string) (d : list (string * json)) : res json :=
  old ← json_item config k;
  match config, old with
  | JObj c, JObj o => Ok (JObj (dict_set k (JObj (foldl (fun o kv => dict_set kv.1 kv.2 o) o d)) c))
  | _, _ => Err (AttributeError ("'" +:+ py_type old +:+ "' object has no attribute 'update'"))
  end.

Definition launch_blobfuse_encrypted (mountPath : string) (readOnly : option bool) (subdirectory telemetryPath : string)
  : M W Z :=
  config ← yaml_load sc "encryptor-config.yaml";
  config ← lift (json_update config "block_cache" [("block-size-mb", JInt 16)]);
  config ← lift (json_update config "encryptor"
                   [("block-size-mb", JInt 16); ("encrypted-mount-path", JStr (mountPath +:+ "-plain/"))]);
  yaml_dump sc config "config.yaml";;
  popen_wait sc
    (["blobfuse2"; "mount"; mountPath; "--config-file=config.yaml"; "--read-only=" +:+ flag_str readOnly;
      "--log-file-path"; blobfuse_log mountPath telemetryPath]
     ++ if str_truthy subdirectory then ["--subdirectory"; subdirectory] else []).

Definition read_blobfuse_logs (mountPath telemetryPath : string) : M W unit :=
  try_except (_ ← read_text sc (blobfuse_log mountPath telemetryPath); mret ()) (fun _ => mret ()).

(** The data encryption key, [None] when the store encrypts by itself. *)
Definition get_encryption_key (args : BlobfuseArgs) : M W (option string) :=
  match encryption_mode args with
  | SSE => mret None
  | _ =>
      if ostr_truthy (cgs_dek_secret args)
      then key ← get_cgs_secret sc (governance_port args) (default "" (cgs_dek_secret args)); mret (Some key)
      else
        wait_for_services_readiness sc [skr_port args; secrets_port args];;
        key ← unwrap_secret sc (secrets_port args) (client_id args) (tenant_id args) (wrapped_dek_secret args)
                (wrapped_dek_akv_endpoint args) (kid args) (akv_endpoint args) (maa_endpoint args);
        mret (Some key)
  end.

(** One mount attempt in the chosen encryption mode. *)
Definition mount_once (args : BlobfuseArgs) (key : option string) : M W Z :=
  let key_bytes := default "" key in
  let key_base64 := match key with Some k => b64encode k | None => "" end in
  match encryption_mode args with
  | CPK =>
      set_environ sc "AZURE_STORAGE_CPK_ENCRYPTION_KEY" key_base64;;
      set_environ sc "AZURE_STORAGE_CPK_ENCRYPTION_KEY_SHA256" (b64encode (sha256_digest key_bytes));;
      launch_blobfuse (mount_path args) (read_only args) (sub_directory args) (use_adls args) true false
        (block_size_mb args) telemetry_path
  | SSE =>
      launch_blobfuse (mount_path args) (read_only args) (sub_directory args) (use_adls args) false false
        (block_size_mb args) telemetry_path
  | CSE =>
      set_environ sc "ENCRYPTION_KEY" key_base64;;
      launch_blobfuse_encrypted (mount_path args) (read_only args) (sub_directory args) telemetry_path
  end.

(** The launcher up to the marker; afterwards it sleeps until it is stopped and
    exits with the return code that is answered here. *)
Definition blobfuse_main (access_name : string) (args : BlobfuseArgs) : M W Z :=
  lift (decode_trace_context environ);;
  try_except (wait_for_services_readiness sc [otel_collector_port args]) (fun _ => mret ());;
  wait_for_services_readiness sc [imds_port args; governance_port args];;
  key ← get_encryption_key args;
  make_dirs sc (mount_path args);;
  make_dirs sc "/tmp/blobfuse_tmp";;
  set_environ sc "AZURE_STORAGE_AUTH_TYPE" "msi";;
  set_environ sc "MSI_ENDPOINT"
    ("http://localhost:" +:+ str_of_Z (imds_port args) +:+ "/metadata/identity/" +:+ opt_str (tenant_id args)
     +:+ "/" +:+ opt_str (client_id args) +:+ "/oauth2/token");;
  returncode ← mount_loop sc BLOBFUSE_LAUNCHER_RETRIES BLOBFUSE_LAUNCHER_RETRY_DELAY (mount_once args key)
                 (read_blobfuse_logs (mount_path args) telemetry_path) 0;
  write_marker sc environ access_name (mount_path args) returncode;;
  mret returncode.

(** The module and its [main], in the container's environment. *)
Definition blobfuse_launcher (args : BlobfuseArgs) : M W Z :=
  match environ "AZURE_STORAGE_ACCOUNT_CONTAINER" with
  | None => raise (ValueError "AZURE_STORAGE_ACCOUNT_CONTAINER environment variable is not set")
  | Some _ => blobfuse_main (opt_str (environ "ACCESS_NAME")) args
  end.

(** [handle_sigterm]: whatever fails, the launcher exits with 0. *)
Definition blobfuse_handle_sigterm (args : BlobfuseArgs) : M W Z :=
  try_except
    (read_blobfuse_logs (mount_path args) telemetry_path;;
     _ ← popen_wait sc ["blobfuse2"; "unmount"; mount_path args]; mret ())
    (fun _ => mret ());;
  mret 0%Z.

(** ** The s3fs launcher *)

Record S3fsArgs := {
  s3_governance_port : Z;
  s3_otel_collector_port : Z;
  s3_mount_path : string;
  s3_read_only : option bool;
  aws_url : string;
  use_path_request_style : option bool;
  cgs_aws_s3_config_secret : option string
}.

Definition S3FS_LAUNCHER_RETRIES : nat := 5.
Definition S3FS_LAUNCHER_RETRY_DELAY : Z := 10.

Definition flag_set (o : option bool) : bool := match o with Some b => b | None => false end.

Definition launch_s3fs (bucketName mountPath : string) (readOnly : option bool) (awsUrl : string)
    (usePathRequestStyle : option bool) (telemetryPath : string) : M W Z :=
  popen_wait sc
    (["s3fs"; bucketName; mountPath; "-o";
      "logfile=" +:+ telemetryPath +:+ "/infrastructure/" +:+ basename mountPath +:+ "-s3fs.log";
      "-o"; "url=" +:+ awsUrl; "-o"; "allow_other"]
     ++ (if flag_set readOnly then ["-o"; "ro"; "-o"; "umask=022"] else [])
     ++ (if flag_set usePathRequestStyle then ["-o"; "use_path_request_style"] else [])).

(** A value put into [os.environ] has to be a string. *)
Definition environ_value (j : json) : res string :=
  match j with JStr s => Ok s | _ => Err (TypeError ("str expected, not " +:+ py_type j)) end.

Definition aws_credentials (args : S3fsArgs) : M W (json * json) :=
  match environ "AWS_ACCESS_KEY_ID", environ "AWS_SECRET_ACCESS_KEY" with
  | Some i, Some k => mret (JStr i, JStr k)
  | _, _ =>
      try_except (wait_for_services_readiness sc [s3_otel_collector_port args]) (fun _ => mret ());;
      wait_for_services_readiness sc [s3_governance_port args];;
      raw ← get_cgs_secret sc (s3_governance_port args) (opt_str (cgs_aws_s3_config_secret args));
      lift (text ← utf8_decode raw;
            aws_config ← loads text;
            i ← json_item aws_config "awsAccessKeyId";
            k ← json_item aws_config "awsSecretAccessKey";
            Ok (i, k))
  end.

Definition s3fs_main (access_name bucket_name : string) (args : S3fsArgs) : M W Z :=
  lift (decode_trace_context environ);;
  creds ← aws_credentials args;
  make_dirs sc (s3_mount_path args);;
  make_dirs sc "/tmp/s3fs_tmp";;
  returncode ← mount_loop sc S3FS_LAUNCHER_RETRIES S3FS_LAUNCHER_RETRY_DELAY
    (i ← lift (environ_value creds.1); set_environ sc "AWS_ACCESS_KEY_ID" i;;
     k ← lift (environ_value creds.2); set_environ sc "AWS_SECRET_ACCESS_KEY" k;;
     launch_s3fs bucket_name (s3_mount_path args) (s3_read_only args) (aws_url args)
       (use_path_request_style args) telemetry_path)
    (mret ()) 0;
  present ← path_exists sc (get_volumestatus_mountpath environ);
  (if (present : bool) then mret () else make_dirs sc (get_volumestatus_mountpath environ));;
  write_marker sc environ access_name (s3_mount_path args) returncode;;
  mret returncode.

Definition s3fs_launcher (args : S3fsArgs) : M W Z :=
  let bucket_name := env_str environ "AWS_BUCKET_NAME" in
  let access_name := env_str environ "ACCESS_NAME" in
  if negb (str_truthy bucket_name) then raise (ValueError "AWS_BUCKET_NAME environment variable is not set")
  else if negb (str_truthy access_name) then raise (ValueError "ACCESS_NAME environment variable is not set")
  else s3fs_main access_name bucket_name args.

(** ** The launcher of the Spark containers *)

Definition APP_MOUNT_RETRIES : nat := 10.
Definition APP_MOUNT_RETRY_DELAY : Z := 30.

Definition app_wait_for_mount_point (access_name : string) : M W json :=
  wait_for_mount_point sc environ access_name APP_MOUNT_RETRIES APP_MOUNT_RETRY_DELAY.

Definition wait_for_mounts (config : QueryConfiguration) : M W unit :=
  fold_M (fun _ d => _ ← app_wait_for_mount_point (ad_name d); mret ()) () (qc_datasets config);;
  _ ← app_wait_for_mount_point (ad_name (qc_datasink config)); mret ().

Definition spark_launcher_main (argv : list string) : M W unit :=
  if negb (str_truthy (env_str environ "JOB_ID")) then raise (ValueError "Environment variable JOB_ID is not set")
  else
    lift (decode_trace_context environ);;
    config ← lift (decode_job_config environ);
    wait_for_mounts config;;
    execv sc "/opt/entrypoint.sh" ("/opt/entrypoint.sh" :: argv).
End Launchers.
