(* ===== verification/LauncherProps.v ===== *)
(** * The mount protocol

    What the marker files of the launchers mean to the containers that wait for
    them: the outcome of the mount reaches them, a marker that is still being
    written does not look like a mount, and the number of attempts is bounded. *)

From S2P Require Import Prelude PyStr Base64 Json JsonFacts Sha256 PyFloat CleanroomModels Contracts Steps Analytics Launchers.
From Stdlib Require Import Ascii Lia.

(** ** Files *)

(** Files as a map, written by nothing but [open_w] and [write_close]. *)
Class FileLaws {W} (sc : Sidecars W) := {
  files : W -> gmap string string;
  exists_ok : forall p w, path_exists sc p w = (w, Ok (bool_decide (is_Some (files w !! p))));
  read_ok : forall p w t, files w !! p = Some t -> read_text sc p w = (w, Ok t);
  read_frame : forall p, steps (same files) (read_text sc p);
  open_ok : forall p w w', open_w sc p w = (w', Ok ()) -> files w' = <[p := ""]> (files w);
  write_ok : forall p t w w', write_close sc p t w = (w', Ok ()) -> files w' = <[p := t]> (files w);
  dirs_frame : forall p, steps (same files) (make_dirs sc p);
  sleep_frame : forall d, steps (same files) (sleep sc d);
  connect_frame : forall p, steps (same files) (connect sc p);
  popen_frame : forall c, steps (same files) (popen_wait sc c);
  environ_frame : forall k v, steps (same files) (set_environ sc k v);
  post_frame : forall u d, steps (same files) (http_post sc u d);
  load_frame : forall p, steps (same files) (yaml_load sc p);
  dump_frame : forall j p, steps (same files) (yaml_dump sc j p)
}.

Section Protocol.
Context {W : Type} {sc : Sidecars W} {fl : FileLaws sc} (environ : string -> option string).

Hint Resolve read_frame dirs_frame sleep_frame connect_frame popen_frame environ_frame post_frame load_frame
  dump_frame : steps.

Lemma exists_frame p : steps (same files) (path_exists sc p).
Proof. intros w. rewrite exists_ok. done. Qed.
Hint Resolve exists_frame : steps.

Lemma wait_port_frame n p : steps (same files) (wait_port sc n p).
Proof. induction n as [|n IH]; cbn [wait_port]; steps_go. Qed.
Hint Resolve wait_port_frame : steps.

Lemma services_frame ps : steps (same files) (wait_for_services_readiness sc ps).
Proof. unfold wait_for_services_readiness, wait_service. steps_go. Qed.
Hint Resolve services_frame : steps.

Lemma key_frame args : steps (same files) (get_encryption_key sc args).
Proof. unfold get_encryption_key, get_cgs_secret, unwrap_secret. steps_go. Qed.

Lemma mount_frame args key : steps (same files) (mount_once sc environ args key).
Proof. unfold mount_once, launch_blobfuse, launch_blobfuse_encrypted. steps_go. Qed.

Lemma loop_frame n d launch fail last : steps (same files) launch -> steps (same files) fail ->
  steps (same files) (mount_loop sc n d launch fail last).
Proof. intros Hl Hf. revert last. induction n as [|n IH]; intros last; cbn [mount_loop]; steps_go. Qed.

Lemma logs_frame p q : steps (same files) (read_blobfuse_logs sc p q).
Proof. unfold read_blobfuse_logs. steps_go. Qed.
Hint Resolve key_frame mount_frame loop_frame logs_frame : steps.

(** ** Markers *)

Lemma append_cancel (a b c : string) : a +:+ b = a +:+ c -> b = c.
Proof. induction a as [|x a IH]; [done|]. rewrite !string_app_cons. intros [= H]. by apply IH. Qed.

Lemma marker_distinct access : ready_file environ access <> error_file environ access.
Proof.
  unfold ready_file, error_file, path_join.
  destruct (bool_decide _ || _); intros H; repeat apply append_cancel in H; discriminate H.
Qed.

Definition no_marker (access : string) (w : W) : Prop :=
  files w !! ready_file environ access = None /\ files w !! error_file environ access = None.

Lemma write_file_ok p t w w' : write_file sc p t w = (w', Ok ()) -> files w' = <[p := t]> (files w).
Proof.
  unfold write_file. intros (w1 & [] & H1%open_ok & H2%write_ok)%M_bind_ok.
  rewrite H2, H1. apply insert_insert_eq.
Qed.

(** What the marker of a finished launcher tells a container that waits. *)
Definition waiter_learns (access path : string) (rc : Z) (w : W) : Prop :=
  forall n d, 0 < n ->
    wait_for_mount_point sc environ access n d w
    = (w, if (rc =? 0)%Z then Ok (JStr path)
          else Err (OtherException ("Mount point for " +:+ access
                 +:+ " is not available. Blobfuse exited with error : " +:+ str_of_Z rc))).

Lemma ready_learns access path w :
  files w !! ready_file environ access = Some (dumps (mount_path_json path)) -> waiter_learns access path 0 w.
Proof.
  intros H [|n] d Hn; [lia|]. unfold wait_for_mount_point. cbn [poll_volume].
  rewrite M_bind_run, M_bind_run. unfold is_volume_ready. rewrite exists_ok, H.
  rewrite bool_decide_true by done. cbn [mret M_ret]. unfold get_mount_path.
  rewrite M_bind_run, (read_ok _ _ _ H). unfold lift. rewrite loads_dumps by done. done.
Qed.

Lemma error_learns access path rc w : rc <> 0%Z ->
  files w !! ready_file environ access = None ->
  files w !! error_file environ access = Some (dumps (error_code_json rc)) -> waiter_learns access path rc w.
Proof.
  intros Hrc Hr He [|n] d Hn; [lia|]. unfold wait_for_mount_point. cbn [poll_volume].
  rewrite M_bind_run, M_bind_run. unfold is_volume_ready, is_volume_error. rewrite exists_ok, Hr.
  rewrite bool_decide_false by (by intros []). rewrite M_bind_run, exists_ok, He.
  rewrite bool_decide_true by done. cbn [mret M_ret].
  rewrite M_bind_run. unfold get_blobfuse_error. rewrite M_bind_run, exists_ok, He.
  rewrite bool_decide_true by done. rewrite M_bind_run, (read_ok _ _ _ He). unfold lift.
  rewrite loads_dumps by done. destruct (Z.eqb_spec rc 0); done.
Qed.

Lemma write_marker_learns access path rc w w' : no_marker access w ->
  write_marker sc environ access path rc w = (w', Ok ()) -> waiter_learns access path rc w'.
Proof.
  unfold write_marker. intros [Hr He]. destruct (Z.eqb_spec rc 0) as [->|Hrc]; intros Hf%write_file_ok.
  - apply ready_learns. rewrite Hf. apply lookup_insert_eq.
  - apply error_learns; [done|..]; rewrite Hf; [|apply lookup_insert_eq].
    rewrite lookup_insert_ne by (apply not_eq_sym, marker_distinct). done.
Qed.
(** Readiness probes answer once there is a marker, of either kind. *)
Lemma readiness_after_marker access w :
  (is_Some (files w !! ready_file environ access) \/ is_Some (files w !! error_file environ access)) ->
  readiness_do_GET sc environ access "/ready" w = (w, Ok (200%Z, "ready")).
Proof.
  intros H. unfold readiness_do_GET. rewrite bool_decide_true by done. rewrite M_bind_run, exists_ok.
  case_bool_decide as Hr; [done|]. rewrite M_bind_run, exists_ok.
  rewrite bool_decide_true by (by destruct H). done.
Qed.

(** ** Attempts *)

(** [k] attempts in a row that end with a non-zero code. *)
Inductive failed_mounts (launch : M W Z) (fail : M W unit) (d : Z) : nat -> W -> W -> Prop :=
| failed_none w : failed_mounts launch fail d 0 w w
| failed_once k rc w w1 w2 w3 w4 :
    launch w = (w1, Ok rc) -> rc <> 0%Z -> fail w1 = (w2, Ok ()) -> sleep sc d w2 = (w3, Ok ()) ->
    failed_mounts launch fail d k w3 w4 -> failed_mounts launch fail d (S k) w w4.

(** The loop stops at the first success; a failure is answered only when every
    permitted attempt failed. *)
Lemma mount_loop_attempts n launch fail d last w w' rc :
  mount_loop sc (S n) d launch fail last w = (w', Ok rc) ->
  (rc = 0%Z /\ exists k w1, k <= n /\ failed_mounts launch fail d k w w1 /\ launch w1 = (w', Ok 0%Z)) \/
  (rc <> 0%Z /\ failed_mounts launch fail d (S n) w w').
Proof.
  revert w last. induction n as [|n IH]; intros w last H;
    (cbn [mount_loop] in H; apply M_bind_ok in H as (w1 & rc1 & Hl & H);
     destruct (Z.eqb_spec rc1 0) as [->|Hrc];
     [injection H as <- <-; left; split; [done|]; exists 0, w; split_and!; [lia|constructor|done]|]).
  - apply M_bind_ok in H as (w2 & [] & Hf & (w3 & [] & Hs & [= <- <-])%M_bind_ok).
    right. split; [done|]. econstructor; eauto. constructor.
  - apply M_bind_ok in H as (w2 & [] & Hf & (w3 & [] & Hs & H)%M_bind_ok).
    apply (IH w3 rc1) in H as [(-> & k & w4 & Hk & Ha & H)|[Hne Ha]].
    + left. split; [done|]. exists (S k), w4. split_and!; [lia | by econstructor | done].
    + right. split; [done|]. by econstructor.
Qed.

Lemma after_quiet {A B} access (m : M W A) (k : A -> M W B) w w' b :
  no_marker access w -> steps (same files) m -> (m ≫= k) w = (w', Ok b) ->
  exists w1 a, no_marker access w1 /\ k a w1 = (w', Ok b).
Proof.
  intros Hn Hm (w1 & a & H1 & H2)%M_bind_ok. exists w1, a. split; [|done].
  pose proof (steps_run _ _ _ _ _ Hm H1) as Hs. unfold same in Hs. unfold no_marker. by rewrite Hs.
Qed.

Ltac skip H Hn := eapply after_quiet in H; [destruct H as (? & ? & ? & H) | exact Hn | solve [steps_go]];
  clear Hn; match goal with H' : no_marker _ _ |- _ => rename H' into Hn end.

(** The attempts behind the return code [rc]. *)
Definition mounted_within (n : nat) (launch : M W Z) (fail : M W unit) (d rc : Z) : Prop :=
  (rc = 0%Z /\ exists k w1 w2 w3, k < n /\ failed_mounts launch fail d k w1 w2 /\ launch w2 = (w3, Ok 0%Z)) \/
  (rc <> 0%Z /\ exists w1 w2, failed_mounts launch fail d n w1 w2).


(** The s3fs launcher speaks the same protocol. *)
Lemma s3fs_handshake access bucket args w w' rc :
  no_marker access w -> s3fs_main sc environ access bucket args w = (w', Ok rc) ->
  waiter_learns access (s3_mount_path args) rc w'.
Proof.
  intros Hn H. unfold s3fs_main, aws_credentials, get_cgs_secret in H. do 4 skip H Hn.
  eapply after_quiet in H; [destruct H as (w1 & rc' & Hn' & H) | exact Hn |].
  - eapply after_quiet in H; [destruct H as (w2 & b & Hn2 & H) | exact Hn' | auto with steps].
    eapply after_quiet in H; [destruct H as (w3 & [] & Hn3 & H) | exact Hn2 | steps_go].
    apply M_bind_ok in H as (w4 & [] & Hw & [= <- <-]). by eapply write_marker_learns.
  - apply loop_frame; unfold launch_s3fs; steps_go.
Qed.

(** ** A marker that is being written *)

(** The marker exists before its content does: a container that looks
    between the launcher's [open] and its [write] finds the volume ready, reads
    an empty file, and fails although the mount succeeded. *)
Theorem half_written_marker_fails access w w1 n d :
  open_w sc (ready_file environ access) w = (w1, Ok ()) -> 0 < n ->
  wait_for_mount_point sc environ access n d w1 = (w1, Err (ValueError "Expecting value")).
Proof.
  intros H Hn. apply open_ok in H. destruct n as [|n]; [lia|].
  assert (files w1 !! ready_file environ access = Some "") as Hr by (rewrite H; apply lookup_insert_eq).
  unfold wait_for_mount_point. cbn [poll_volume]. rewrite M_bind_run, M_bind_run. unfold is_volume_ready.
  rewrite exists_ok, Hr. rewrite bool_decide_true by done. cbn [mret M_ret]. unfold get_mount_path.
  by rewrite M_bind_run, (read_ok _ _ _ Hr).
Qed.
End Protocol.

(** ** A concrete pod

    The mount command ends with the codes of the list, then with 0; the services
    that listen are fixed. *)

Record Pod := { pod_files : gmap string string; pod_codes : list Z }.

Definition pod_sidecars (up : list Z) : Sidecars Pod := {|
  path_exists := fun p w => (w, Ok (bool_decide (is_Some (pod_files w !! p))));
  read_text := fun p w => (w, of_option (OtherException ("No such file or directory: " +:+ p)) (pod_files w !! p));
  open_w := fun p => modify (fun w => {| pod_files := <[p := ""]> (pod_files w); pod_codes := pod_codes w |});
  write_close := fun p t => modify (fun w => {| pod_files := <[p := t]> (pod_files w); pod_codes := pod_codes w |});
  make_dirs := fun _ => mret ();
  sleep := fun _ => mret ();
  connect := fun p => if bool_decide (p ∈ up) then mret () else raise (ConnectionError "refused");
  popen_wait := fun _ w => ({| pod_files := pod_files w; pod_codes := tail (pod_codes w) |}, Ok (hd 0%Z (pod_codes w)));
  set_environ := fun _ _ => mret ();
  http_post := fun _ _ => mret (200%Z, dumps (JObj [("value", JStr (b64encode "key"))]));
  yaml_load := fun _ => mret JNull;
  yaml_dump := fun _ _ => mret ();
  execv := fun _ _ => mret ()
|}.

#[export] Instance pod_file_laws up : FileLaws (pod_sidecars up).
Proof.
  refine {| files := pod_files |}; try (intros; by intros ?); try done.
  - intros p w t H. cbn. by rewrite H.
  - by intros p w w' [= <-].
  - by intros p t w w' [= <-].
  - intros p w. cbn. by destruct (bool_decide _).
Defined.

Definition demo_args : BlobfuseArgs := {|
  skr_port := 8284; governance_port := 8300; secrets_port := 9300; maa_endpoint := None; akv_endpoint := None;
  kid := None; imds_port := 8290; otel_collector_port := 4317; tenant_id := Some "t"; client_id := Some "c";
  mount_path := "/mnt/remote/orders"; read_only := Some true; use_adls := Some false; wrapped_dek_secret := None;
  wrapped_dek_akv_endpoint := None; sub_directory := ""; encryption_mode := CPK; block_size_mb := 16;
  cgs_dek_secret := Some "dek"; readiness_port := Some 6300%Z |}.

Definition demo_pod (codes : list Z) : Pod := {| pod_files := ∅; pod_codes := codes |}.

(** The collector is down, which is tolerated; the second attempt succeeds. *)
Definition demo_mount (codes : list Z) : Pod * res Z :=
  blobfuse_main (pod_sidecars [8290%Z; 8300%Z]) (fun _ => None) "orders" demo_args (demo_pod codes).

Lemma demo_mount_ok : (demo_mount [1%Z]).2 = Ok 0%Z /\ (demo_mount [1; 1; 1; 1; 7]%Z).2 = Ok 7%Z.
Proof. vm_compute. split; reflexivity. Qed.


Lemma half_written_marker_fails_witness :
  (wait_for_mount_point (pod_sidecars []) (fun _ => None) "orders" 10 30
     (open_w (pod_sidecars []) "/mnt/volumestatus/orders.volume.ready" (demo_pod [])).1).2
  = Err (ValueError "Expecting value").
Proof.
  rewrite (half_written_marker_fails (sc := pod_sidecars []) (fun _ => None) "orders" (demo_pod [])
    (open_w (pod_sidecars []) "/mnt/volumestatus/orders.volume.ready" (demo_pod [])).1 10 30).
  - reflexivity.
  - reflexivity.
  - lia.
Defined.
