(* ===== verification/CodeLauncher.v ===== *)
(** * The code launcher

    [code-launcher/src/code_launcher]: the sidecar that runs the clean room's
    application container under podman.  It pulls the application's image,
    starts the container at once or on request, reports its status and exports
    telemetry, each behind the consent the governance sidecar grants; every
    step is announced to governance.

    The podman client, the requests library and the file copy are the record
    [Podman]; mount points, ports and sleeping are the [Sidecars] of
    [Launchers].  [exn_repr] is [repr] of an exception; [is_PodmanError] says
    which exceptions are instances of podman's [PodmanError], [api_status] which
    are instances of its [APIError], with their [status_code].  The launcher's own
    exceptions are [RuntimeError]s; those that some caller tells apart are
    constructors of [exn], the others are [RuntimeError]. *)

From S2P Require Import Prelude PyStr Base64 Json JsonFacts PyFloat CleanroomModels Steps Analytics Launchers.
From Stdlib Require Import Ascii.

(** ** Data *)

Inductive ApplicationStartType := Auto | Manual.

(** The fields of [Application] the launcher reads; [a_executable] is
    [image.executable]. *)
Record Application := {
  a_name : string;
  a_executable : Document;
  a_startType : ApplicationStartType;
  a_command : list string;
  a_environmentVariables : list (string * string);
  a_datasources : option (list (string * string));
  a_datasinks : option (list (string * string))
}.

Inductive ConsentCheckScope := Execution | Logging | Telemetry.

Definition scope_value (s : ConsentCheckScope) : string :=
  match s with Execution => "Execution" | Logging => "Logging" | Telemetry => "Telemetry" end.

Record Container := { container_id : string; container_status : string }.

Record BindMount := { bm_source : string; bm_target : string; bm_read_only : bool }.

(** The arguments of [containers.create]. *)
Record ContainerSpec := {
  sp_image : string;
  sp_name : string;
  sp_command : list string;
  sp_environment : list (string * string);
  sp_mounts : list BindMount;
  sp_user : string;
  sp_log_path : string
}.

Record Podman (W : Type) := {
  requests_get : string -> list (string * string) -> M W (Z * string);
  requests_post : string -> string -> M W (Z * string);
  requests_put : string -> json -> M W (Z * string);
  images_get : string -> M W unit;
  images_pull : string -> string -> option (string * json) -> M W unit;
  containers_get : string -> M W Container;
  containers_create : ContainerSpec -> M W Container;
  container_start : Container -> M W unit;
  container_wait : Container -> M W Z;
  podman_ping : M W bool;
  podman_service : M W unit;
  copytree : string -> string -> M W unit;
  exn_repr : exn -> string;
  is_PodmanError : exn -> bool;
  api_status : exn -> option (option Z)
}.
Arguments requests_get {W}. Arguments requests_post {W}. Arguments requests_put {W}. Arguments images_get {W}.
Arguments images_pull {W}. Arguments containers_get {W}. Arguments containers_create {W}.
Arguments container_start {W}. Arguments container_wait {W}. Arguments podman_ping {W}.
Arguments podman_service {W}. Arguments copytree {W}. Arguments exn_repr {W}.
Arguments is_PodmanError {W}. Arguments api_status {W}.

(** [s.rsplit(c, 1)] when [c] occurs. *)
Fixpoint rsplit_once (c : ascii) (s : string) : option (string * string) :=
  match s with
  | "" => None
  | String d t =>
      match rsplit_once c t with
      | Some (a, b) => Some (String d a, b)
      | None => if decide (d = c) then Some ("", t) else None
      end
  end.

(** [urlsafe_b64decode] *)
Definition urlsafe_b64decode (s : string) : res string :=
  b64decode (str_map (fun c => if decide (c = "-"%char) then "+"%char
                               else if decide (c = "_"%char) then "/"%char else c) s).

Definition MGMT_SCOPE : string := "https://management.azure.com/.default".

Record Response := { rs_status : Z; rs_content : json }.

Section CodeLauncher.
Context {W : Type} (pm : Podman W) (sc : Sidecars W) (environ : string -> option string).
Context (governance_port identity_port : Z).

(** ** [httpconnectors.py] *)

(** [raise_for_status()] of a response. *)
Definition checked (r : Z * string) : res string :=
  if ((400 <=? r.1) && (r.1 <? 600))%Z then Err (HTTPError ("status " +:+ str_of_Z r.1)) else Ok r.2.

Definition events_enabled : bool := negb (bool_decide (environ "DISABLE_GOV_EVENTS" = Some "true")).

(** Only HTTP error statuses are tolerated. *)
Definition put_event (message : string) : M W unit :=
  if events_enabled then
    try_except
      (r ← requests_put pm ("http://localhost:" +:+ str_of_Z governance_port +:+ "/events")
             (JObj [("source", JStr "code-launcher"); ("message", JStr message)]);
       _ ← lift (checked r); mret ())
      (fun e => match e with HTTPError _ => mret () | _ => raise e end)
  else mret ().

Definition consent_url (scope : ConsentCheckScope) : string :=
  "http://localhost:" +:+ str_of_Z governance_port +:+ "/consentcheck/" +:+ lower (scope_value scope).

Definition is_enabled (status : json) : bool :=
  match status with JStr s => bool_decide (s = "enabled") | _ => false end.

Definition check_consent (scope : ConsentCheckScope) : M W unit :=
  r ← requests_post pm (consent_url scope) "";
  status ← lift (text ← checked r; resp ← loads text; json_item resp "status");
  if is_enabled status then mret ()
  else raise (ConsentCheckFailure ("Consent status for " +:+ lower (scope_value scope)
                +:+ " is not enabled. Status is: '" +:+ py_str status +:+ "'.")).

(** A token of the response, [JNull] after an HTTP error status. *)
Definition token_of (k missing : string) (r : Z * string) : res json :=
  text ← checked r;
  resp ← loads text;
  token ← json_get resp k JNull;
  match token with JNull => Err (RuntimeError missing) | _ => Ok token end.

Definition none_on_http_error (m : M W json) : M W json :=
  try_except m (fun e => match e with HTTPError _ => mret JNull | _ => raise e end).

Definition fetch_aad_token (tenant_id client_id scope : string) : M W json :=
  none_on_http_error
    (r ← requests_get pm ("http://localhost:" +:+ str_of_Z identity_port +:+ "/metadata/identity/oauth2/token")
           [("scope", scope); ("tenantId", tenant_id); ("clientId", client_id); ("apiVersion", "2018-02-01")];
     lift (token_of "token" "identity token not found in response" r)).

Definition fetch_acr_refresh_token (private_acr_fqdn tenant_id : string) (aad_token : json) : M W json :=
  none_on_http_error
    (r ← requests_post pm ("https://" +:+ private_acr_fqdn +:+ "/oauth2/exchange")
           ("grant_type=access_token&service=" +:+ private_acr_fqdn +:+ "&tenant=" +:+ tenant_id
            +:+ "&access_token=" +:+ py_str aad_token);
     lift (token_of "refresh_token" "ACR refresh_token not found in response" r)).

(** ** [podman_utilities.py] *)

Definition image_url (a : Application) : string := resource_id (doc_backingResource (a_executable a)).

Definition image_present (url : string) : M W bool :=
  try_except (images_get pm url;; mret true)
    (fun e => match e with ImageNotFound _ => mret false | _ => raise e end).

Definition registry_login (a : Application) : M W (option (string * json)) :=
  match doc_identity (a_executable a) with
  | None => mret None
  | Some i =>
      aad_token ← fetch_aad_token (tenantId i) (clientId i) MGMT_SCOPE;
      acr_ref_token ← fetch_acr_refresh_token (endpoint_url (provider (doc_backingResource (a_executable a))))
                        (tenantId i) aad_token;
      mret (Some ("00000000-0000-0000-0000-000000000000", acr_ref_token))
  end.

Definition fetch_application_image (a : Application) : M W unit :=
  present ← image_present (image_url a);
  if (present : bool) then mret ()
  else
    put_event ("Pulling image " +:+ image_url a);;
    auth_config ← registry_login a;
    '(repository, tag) ← lift (of_option (ValueError "not enough values to unpack (expected 2, got 1)")
                                 (rsplit_once ":" (image_url a)));
    images_pull pm repository tag auth_config;;
    put_event ("Pulled image " +:+ image_url a).

(** [ACRCmdExecutor.execute] *)
Definition acr_execute (a : Application) : M W unit :=
  try_except (fetch_application_image a)
    (fun _ => raise (RuntimeError ("failed to pull image for application " +:+ a_name a))).

(** Default arguments of [mountpoint_utilities.wait_for_mount_point]. *)
Definition wait_mounts (names : option (list (string * string))) : M W unit :=
  fold_M (fun _ kv => _ ← wait_for_mount_point sc environ kv.1 12 30; mret ()) () (default [] names).

Definition bind_mounts (read_only : bool) (names : option (list (string * string))) : M W (list BindMount) :=
  fold_M (fun l kv => path ← get_mount_path sc environ kv.1;
                      mret (l ++ [{| bm_source := py_str path; bm_target := kv.2; bm_read_only := read_only |}]))
    [] (default [] names).

Definition find_container (name : string) : M W (option Container) :=
  try_except (c ← containers_get pm name; mret (Some c))
    (fun e => match e with PodmanNotFound _ => mret None | _ => raise e end).

(** A failed creation is logged and leaves the variable [container] unset. *)
Definition create_or_log (spec : ContainerSpec) : M W (option Container) :=
  try_except (c ← containers_create pm spec; mret (Some c))
    (fun e => if is_PodmanError pm e then mret None else raise e).

Definition start_or_log (c : Container) : M W unit :=
  try_except (container_start pm c) (fun e => if is_PodmanError pm e then mret () else raise e).

Definition container_spec (a : Application) (telemetry_path : string) (mounts : list BindMount) : ContainerSpec :=
  {| sp_image := image_url a; sp_name := a_name a; sp_command := a_command a;
     sp_environment := a_environmentVariables a; sp_mounts := mounts; sp_user := "1000";
     sp_log_path := telemetry_path +:+ "/application/" +:+ a_name a +:+ ".log" |}.

Definition create_application_container (a : Application) (telemetry_path : string) : M W Container :=
  sources ← bind_mounts true (a_datasources a);
  sinks ← bind_mounts false (a_datasinks a);
  put_event ("Creating container for " +:+ a_name a);;
  created ← create_or_log (container_spec a telemetry_path (sources ++ sinks));
  match created with
  | Some c => put_event ("Created container with Id " +:+ container_id c +:+ " for " +:+ a_name a);; mret c
  | None => raise (UnboundLocalError "cannot access local variable 'container' where it is not associated with a value")
  end.

Definition start_application_container (a : Application) (telemetry_path : string) : M W unit :=
  wait_mounts (a_datasources a);;
  wait_mounts (a_datasinks a);;
  images_get pm (image_url a);;
  existing ← find_container (a_name a);
  c ← match existing with
      | Some c => mret c
      | None => create_application_container a telemetry_path
      end;
  put_event ("Starting execution of " +:+ a_name a +:+ " container");;
  start_or_log c.

Definition get_application_status (application_name : string) : M W (string * Z) :=
  c ← try_except (containers_get pm application_name)
        (fun e => match e with PodmanNotFound _ => raise (PodmanContainerNotFound application_name) | _ => raise e end);
  exit_code ← (if bool_decide (container_status c = "stopped") || bool_decide (container_status c = "exited")
               then container_wait pm c else mret 0%Z);
  put_event (application_name +:+ " container status: " +:+ container_status c +:+ ", exit code: "
             +:+ str_of_Z exit_code);;
  mret (container_status c, exit_code).

(** ** [main.py]: the endpoints *)

Definition message (text : string) : Response := {| rs_status := 200; rs_content := JObj [("message", JStr text)] |}.

Definition start (a : Application) (telemetry_path application_name : string) : M W Response :=
  check_consent Execution;;
  if bool_decide (a_name a = application_name) then
    try_except
      (start_application_container a telemetry_path;; mret (message "Application started successfully."))
      (fun e => put_event ("Starting application container for " +:+ a_name a +:+ " failed with error "
                           +:+ exn_repr pm e +:+ ".");; raise e)
  else raise (HTTPException 404 "Application not found").

Definition getStatus (a : Application) (application_name : string) : M W Response :=
  try_except
    ('(status, exit_code) ← get_application_status application_name;
     mret {| rs_status := 200; rs_content := JObj [("status", JStr status); ("exit_code", JInt exit_code)] |})
    (fun e =>
       put_event ("Get Status for " +:+ a_name a +:+ " failed with error " +:+ exn_repr pm e +:+ ".");;
       match e with
       | PodmanContainerNotFound _ => raise (HTTPException 404 "Application not found")
       | _ => raise e
       end).

Definition CL_MOUNT_RETRIES : nat := 5.
Definition CL_MOUNT_RETRY_DELAY : Z := 10.

Definition cl_wait_for_mount_point (access_name : string) : M W json :=
  wait_for_mount_point sc environ access_name CL_MOUNT_RETRIES CL_MOUNT_RETRY_DELAY.

Definition exportLogs (telemetry_path : string) : M W Response :=
  check_consent Logging;;
  path ← cl_wait_for_mount_point "application-telemetry";
  try_except
    (copytree pm (telemetry_path +:+ "/application") (py_str path);;
     mret (message "Application telemetry data exported successfully."))
    (fun e => put_event ("Exporting application telemetry (logs) failed with error " +:+ exn_str e +:+ ".");;
              raise (RuntimeError "Failed to export application telemetry")).

Definition exportTelemetry (telemetry_path : string) : M W Response :=
  check_consent Telemetry;;
  path ← cl_wait_for_mount_point "infrastructure-telemetry";
  try_except
    (copytree pm (telemetry_path +:+ "/infrastructure") (py_str path);;
     mret (message "Infrastructure telemetry data exported successfully."))
    (fun e => put_event ("Exporting infrastructure telemetry failed with error " +:+ exn_repr pm e +:+ ".");;
              raise (RuntimeError "Failed to export infrastructure telemetry")).

(** The handlers of the application, the most specific class first. *)
Definition error_response (path : string) (e : exn) : Response :=
  let content := JObj [("message", JStr ("An error occurred while processing " +:+ path));
                       ("error", JStr (exn_repr pm e)); ("details", JStr (exn_str e))] in
  match e with
  | ConsentCheckFailure t =>
      {| rs_status := 403; rs_content := JObj [("code", JStr "ConsentCheckFailed"); ("message", JStr t)] |}
  | HTTPException code detail => {| rs_status := code; rs_content := JObj [("detail", JStr detail)] |}
  | _ =>
      match api_status pm e with
      | Some status_code => {| rs_status := default 500%Z status_code; rs_content := content |}
      | None =>
          if is_PodmanError pm e then {| rs_status := 500; rs_content := content |}
          else {| rs_status := 500; rs_content := JStr "Internal Server Error" |}
      end
  end.

Definition respond (path : string) (m : M W Response) : M W Response :=
  try_except m (fun e => mret (error_response path e)).

(** ** [async_main], up to serving *)

Fixpoint poll_podman (max_retries : nat) : M W bool :=
  match max_retries with
  | O => mret false
  | S n =>
      up ← try_except (podman_ping pm) (fun _ => mret false);
      if (up : bool) then mret true else sleep sc 5;; poll_podman n
  end.

Definition wait_for_podman_service : M W unit :=
  up ← poll_podman 12;
  if (up : bool) then mret () else raise (RuntimeError "Podman service in unreachable.").

Definition wait_for_services_enabled : bool :=
  negb (bool_decide (environ "DISABLE_WAIT_FOR_SERVICES" = Some "true")).

(** A failed automatic start is reported and does not stop the launcher. *)
Definition auto_start (a : Application) (telemetry_path : string) : M W unit :=
  match a_startType a with
  | Auto =>
      try_except
        (check_consent Execution;; start_application_container a telemetry_path)
        (fun e => put_event ("Starting application container for " +:+ a_name a +:+ " failed with error "
                             +:+ exn_repr pm e +:+ "."))
  | Manual => mret ()
  end.

(** [validate_args], of the value or the environment's default. *)
Definition validate_args (decode_application : string -> res Application) (application_base_64 : option string)
    : res string :=
  match application_base_64 with
  | None => Err (OtherException "application details not provided")
  | Some b => raw ← urlsafe_b64decode b; _ ← decode_application raw; Ok b
  end.

Definition async_main (decode_application : string -> res Application) (secrets_port otelcollector_port : Z)
    (application_base_64 : option string) (telemetry_path : string) : M W Application :=
  encoded ← lift (validate_args decode_application application_base_64);
  (if wait_for_services_enabled then
     try_except (wait_for_services_readiness sc [otelcollector_port]) (fun _ => mret ());;
     wait_for_services_readiness sc [governance_port; identity_port; secrets_port]
   else mret ());;
  podman_service pm;;
  wait_for_podman_service;;
  a ← lift (raw ← urlsafe_b64decode encoded; text ← utf8_decode raw; decode_application text);
  acr_execute a;;
  auto_start a telemetry_path;;
  mret a.
End CodeLauncher.
