(* ===== verification/CodeLauncherProps.v ===== *)
(** * What the code launcher guarantees

    Nothing runs and nothing is exported without the consent governance grants
    for it; the application's container gets the mounts its specification names
    and no others; how failures of podman are answered. *)

From S2P Require Import Prelude PyStr Base64 Json JsonFacts PyFloat CleanroomModels Steps Analytics Launchers CodeLauncher.
From Stdlib Require Import Ascii Lia.

(** ** Interface

    The calls that change something outside the launcher are logged; all others
    leave the logs alone. *)
Class PodmanLaws {W} (pm : Podman W) (sc : Sidecars W) := {
  created : W -> list ContainerSpec;
  started : W -> list Container;
  exported : W -> list (string * string);
  effects : W -> list ContainerSpec * list Container * list (string * string) :=
    fun w => (created w, started w, exported w);
  get_quiet : forall u p, steps (same effects) (requests_get pm u p);
  post_quiet : forall u d, steps (same effects) (requests_post pm u d);
  put_quiet : forall u j, steps (same effects) (requests_put pm u j);
  image_quiet : forall u, steps (same effects) (images_get pm u);
  pull_quiet : forall r t a, steps (same effects) (images_pull pm r t a);
  find_quiet : forall n, steps (same effects) (containers_get pm n);
  wait_quiet : forall c, steps (same effects) (container_wait pm c);
  exists_quiet : forall p, steps (same effects) (path_exists sc p);
  read_quiet : forall p, steps (same effects) (read_text sc p);
  sleep_quiet : forall d, steps (same effects) (sleep sc d);
  create_effect : forall s w, let w' := (containers_create pm s w).1 in
    created w' = created w ++ [s] /\ started w' = started w /\ exported w' = exported w;
  start_effect : forall c w, let w' := (container_start pm c w).1 in
    created w' = created w /\ started w' = started w ++ [c] /\ exported w' = exported w;
  copy_effect : forall a b w, let w' := (copytree pm a b w).1 in
    created w' = created w /\ started w' = started w /\ exported w' = exported w ++ [(a, b)]
}.

Section Props.
Context {W : Type} {pm : Podman W} {sc : Sidecars W} {pl : PodmanLaws pm sc} (environ : string -> option string).
Context (governance_port identity_port : Z).

Hint Resolve get_quiet post_quiet put_quiet image_quiet pull_quiet find_quiet wait_quiet exists_quiet read_quiet
  sleep_quiet : steps.

(** ** Frames *)

Lemma event_quiet t : steps (same effects) (put_event pm environ governance_port t).
Proof. unfold put_event. steps_go. Qed.
Lemma consent_quiet s : steps (same effects) (check_consent pm governance_port s).
Proof. unfold check_consent. steps_go. Qed.
Lemma poll_quiet n d a : steps (same effects) (poll_volume sc environ n d a).
Proof. induction n as [|n IH]; cbn [poll_volume]; unfold is_volume_ready, is_volume_error; steps_go. Qed.
Hint Resolve event_quiet consent_quiet poll_quiet : steps.

Lemma path_quiet a : steps (same effects) (get_mount_path sc environ a).
Proof. unfold get_mount_path. steps_go. Qed.
Hint Resolve path_quiet : steps.

Lemma mount_wait_quiet a n d : steps (same effects) (wait_for_mount_point sc environ a n d).
Proof. unfold wait_for_mount_point, get_blobfuse_error. steps_go. Qed.
Hint Resolve mount_wait_quiet : steps.

Lemma wait_mounts_quiet l : steps (same effects) (wait_mounts sc environ l).
Proof. unfold wait_mounts. steps_go. Qed.
Lemma bind_mounts_quiet b l : steps (same effects) (bind_mounts sc environ b l).
Proof. unfold bind_mounts. steps_go. Qed.
Lemma find_container_quiet n : steps (same effects) (find_container pm n).
Proof. unfold find_container. steps_go. Qed.
Hint Resolve wait_mounts_quiet bind_mounts_quiet find_container_quiet : steps.

Lemma image_fetch_quiet a : steps (same effects) (fetch_application_image pm environ governance_port identity_port a).
Proof.
  unfold fetch_application_image, image_present, registry_login, fetch_aad_token, fetch_acr_refresh_token,
    none_on_http_error. steps_go.
Qed.

(** ** Consent *)

(** Governance answers the consent check with the status [v]. *)
Definition consent_answer (s : ConsentCheckScope) (v : json) (w w1 : W) : Prop :=
  exists code text d, requests_post pm (consent_url governance_port s) "" w = (w1, Ok (code, text)) /\
    ((400 <=? code) && (code <? 600))%Z = false /\
    loads text = Ok (JObj d) /\ dict_lookup "status" d = Some v.

Definition consent_enabled (s : ConsentCheckScope) (w : W) : Prop :=
  exists w1, consent_answer s (JStr "enabled") w w1.

Lemma is_enabled_iff v : is_enabled v = true <-> v = JStr "enabled".
Proof. destruct v; cbn; try done. rewrite bool_decide_eq_true. naive_solver. Qed.

Lemma check_consent_enabled s w w' : check_consent pm governance_port s w = (w', Ok ()) -> consent_enabled s w.
Proof.
  unfold check_consent. intros (w1 & [code text] & Hp & (w2 & status & [-> H]%lift_ok & Hs)%M_bind_ok)%M_bind_ok.
  apply res_bind_ok in H as (t & Ht & H). apply res_bind_ok in H as (resp & Hl & H).
  unfold checked in Ht. cbn [fst snd] in Ht. destruct ((400 <=? code) && (code <? 600))%Z eqn:Hc; [done|].
  injection Ht as <-. destruct resp as [| | | | |d]; try done. cbn in H. apply of_option_ok in H.
  exists w1, code, text, d. split_and!; try done. rewrite H. destruct (is_enabled status) eqn:He; [|done].
  by apply is_enabled_iff in He as ->.
Qed.

(** An operation behind a consent check has no effect unless it is granted. *)
Lemma gated {A} s (k : M W A) w :
  effects ((check_consent pm governance_port s;; k) w).1 = effects w \/ consent_enabled s w.
Proof.
  rewrite M_bind_run. destruct (check_consent pm governance_port s w) as [w1 [[]|e]] eqn:Hc.
  - right. by eapply check_consent_enabled.
  - left. exact (steps_run _ _ _ _ _ (consent_quiet s) Hc).
Qed.

(** C6. Nothing happens without consent: a request to start the application, and
    its automatic start, create and start no container unless governance answers
    that execution is enabled; logs and infrastructure telemetry are exported
    only when governance answers that logging, respectively telemetry, is. *)
Theorem consent_required a telemetry_path name w :
  (effects (start pm sc environ governance_port a telemetry_path name w).1 = effects w
   \/ consent_enabled Execution w) /\
  (effects (auto_start pm sc environ governance_port a telemetry_path w).1 = effects w
   \/ consent_enabled Execution w) /\
  (effects (exportLogs pm sc environ governance_port telemetry_path w).1 = effects w
   \/ consent_enabled Logging w) /\
  (effects (exportTelemetry pm sc environ governance_port telemetry_path w).1 = effects w
   \/ consent_enabled Telemetry w).
Proof.
  split_and!; [apply gated | | apply gated | apply gated].
  unfold auto_start. destruct (a_startType a); [|by left].
  rewrite try_except_run. destruct (gated Execution (start_application_container pm sc environ governance_port a
    telemetry_path) w) as [H|H]; [left | by right].
  match goal with |- context [match ?m w with _ => _ end] => destruct (m w) as [w1 [[]|e]] end; [done|].
  cbn in H. rewrite <- H. exact (event_quiet _ w1).
Qed.

(** ** The container *)

Definition bound_to (read_only : bool) (kv : string * string) (m : BindMount) : Prop :=
  bm_target m = kv.2 /\ bm_read_only m = read_only /\
  exists w1 w2 path, get_mount_path sc environ kv.1 w1 = (w2, Ok path) /\ bm_source m = py_str path.

Lemma bind_mounts_ok b names w w' l : bind_mounts sc environ b names w = (w', Ok l) ->
  Forall2 (bound_to b) (default [] names) l.
Proof.
  unfold bind_mounts. intros H.
  cut (forall acc done_, Forall2 (bound_to b) done_ acc -> forall w,
    fold_M (fun l kv => path ← get_mount_path sc environ kv.1;
      mret (l ++ [{| bm_source := py_str path; bm_target := kv.2; bm_read_only := b |}])) acc (default [] names) w
    = (w', Ok l) -> Forall2 (bound_to b) (done_ ++ default [] names) l).
  { intros Hc. by apply (Hc [] [] (List.Forall2_nil _) w). }
  clear w H. induction (default [] names) as [|kv ns IH]; intros acc done_ Ha w; cbn [fold_M].
  - intros [= <- <-]. by rewrite app_nil_r.
  - intros (w1 & acc' & (w2 & path & Hp & [= <- <-])%M_bind_ok & H)%M_bind_ok.
    rewrite (assoc_L (++) done_ [kv] ns : done_ ++ kv :: ns = _).
    eapply IH, H. apply Forall2_app; [done|]. constructor; [|constructor].
    split_and!; [done..|]. by exists w, w2, path.
Qed.

Lemma effects_created w w' : same effects w w' -> same created w w'.
Proof. unfold same, effects. intros [= H _ _]. done. Qed.

Lemma quiet_created {A} (m : M W A) : steps (same effects) m -> steps (same created) m.
Proof. apply steps_weaken, effects_created. Qed.

Lemma start_created c : steps (same created) (start_or_log pm c).
Proof.
  unfold start_or_log. steps_go. intros w. apply start_effect.
Qed.
Hint Resolve quiet_created start_created : steps.

(** The container an application gets. *)
Definition confined (a : Application) (telemetry_path : string) (s : ContainerSpec) : Prop :=
  exists sources sinks, s = container_spec a telemetry_path (sources ++ sinks) /\
    Forall2 (bound_to true) (default [] (a_datasources a)) sources /\
    Forall2 (bound_to false) (default [] (a_datasinks a)) sinks.

Lemma create_confined a tel w :
  ends_on created (at_most_one (confined a tel)) (create_application_container pm sc environ governance_port a tel) w.
Proof.
  unfold create_application_container. peel. intros sources w1 Hs%bind_mounts_ok.
  peel. intros sinks w2 Hk%bind_mounts_ok. peel. intros [] w3 _. apply ends_before; [|steps_go].
  unfold create_or_log. apply ends_try; [|steps_go]. apply ends_before; [|steps_go].
  right. eexists. split; [|apply create_effect]. exists sources, sinks. done.
Qed.


(** ** Refusals *)

Definition refusal (s : ConsentCheckScope) (v : json) : exn :=
  ConsentCheckFailure ("Consent status for " +:+ lower (scope_value s) +:+ " is not enabled. Status is: '"
                       +:+ py_str v +:+ "'.").

Lemma check_consent_run s v w w1 : consent_answer s v w w1 ->
  check_consent pm governance_port s w
  = (w1, if is_enabled v then Ok () else Err (refusal s v)).
Proof.
  intros (code & text & d & Hp & Hc & Hl & Hd). unfold check_consent. rewrite M_bind_run, Hp.
  unfold checked. cbn [fst snd]. rewrite Hc. cbn [mbind res_bind]. rewrite M_bind_run. cbn [lift].
  rewrite Hl. cbn. rewrite Hd. cbn. by destruct (is_enabled v).
Qed.

(** How the start endpoint refuses: a consent status other than enabled is
    answered 403 with the status in the message, and a request for another
    application 404; in both cases nothing but the consent check has run. *)
Theorem start_refusals a telemetry_path name path v w w1 :
  consent_answer Execution v w w1 ->
  (v <> JStr "enabled" ->
    respond pm path (start pm sc environ governance_port a telemetry_path name) w
    = (w1, Ok {| rs_status := 403;
                 rs_content := JObj [("code", JStr "ConsentCheckFailed");
                                     ("message", JStr (exn_str (refusal Execution v)))] |})) /\
  (v = JStr "enabled" -> a_name a <> name ->
    respond pm path (start pm sc environ governance_port a telemetry_path name) w
    = (w1, Ok {| rs_status := 404; rs_content := JObj [("detail", JStr "Application not found")] |})).
Proof.
  intros H. apply check_consent_run in H. unfold respond, start. rewrite try_except_run, M_bind_run, H. split.
  - intros Hv. destruct (is_enabled v) eqn:He; [|done]. by apply is_enabled_iff in He.
  - intros -> Hn. rewrite (proj2 (is_enabled_iff _) eq_refl), bool_decide_eq_false_2 by exact Hn. reflexivity.
Qed.
End Props.

(** ** A concrete host

    Governance answers each consent check with a fixed status; containers start
    unless podman refuses. *)

Record Host := {
  host_files : gmap string string;
  host_containers : gmap string Container;
  host_created : list ContainerSpec;
  host_started : list Container;
  host_exported : list (string * string)
}.

Definition host_create (s : ContainerSpec) (w : Host) : Host * res Container :=
  let c := {| container_id := "id-" +:+ sp_name s; container_status := "created" |} in
  ({| host_files := host_files w; host_containers := <[sp_name s := c]> (host_containers w);
      host_created := host_created w ++ [s]; host_started := host_started w; host_exported := host_exported w |}, Ok c).

Definition host_start (refuse : option exn) (c : Container) (w : Host) : Host * res unit :=
  ({| host_files := host_files w; host_containers := host_containers w; host_created := host_created w;
      host_started := host_started w ++ [c]; host_exported := host_exported w |},
   match refuse with Some e => Err e | None => Ok () end).

Definition host_copy (a b : string) (w : Host) : Host * res unit :=
  ({| host_files := host_files w; host_containers := host_containers w; host_created := host_created w;
      host_started := host_started w; host_exported := host_exported w ++ [(a, b)] |}, Ok ()).

Definition host_podman (consent : string) (refuse : option exn) : Podman Host := {|
  requests_get := fun _ _ => mret (200%Z, "{}");
  requests_post := fun _ _ => mret (200%Z, dumps (JObj [("status", JStr consent)]));
  requests_put := fun _ _ => mret (200%Z, "");
  images_get := fun _ => mret ();
  images_pull := fun _ _ _ => mret ();
  containers_get := fun n w => (w, of_option (PodmanNotFound n) (host_containers w !! n));
  containers_create := host_create;
  container_start := host_start refuse;
  container_wait := fun _ => mret 0%Z;
  podman_ping := mret true;
  podman_service := mret ();
  copytree := host_copy;
  exn_repr := exn_str;
  is_PodmanError := fun e => match e with PodmanError _ => true | _ => false end;
  api_status := fun e => match e with
                         | PodmanAPIError c _ => Some c
                         | PodmanNotFound _ | ImageNotFound _ => Some (Some 404%Z)
                         | _ => None
                         end
|}.

Definition host_sidecars : Sidecars Host := {|
  path_exists := fun p w => (w, Ok (bool_decide (is_Some (host_files w !! p))));
  read_text := fun p w => (w, of_option (OtherException ("No such file or directory: " +:+ p)) (host_files w !! p));
  open_w := fun _ => mret (); write_close := fun _ _ => mret (); make_dirs := fun _ => mret ();
  sleep := fun _ => mret (); connect := fun _ => mret (); popen_wait := fun _ => mret 0%Z;
  set_environ := fun _ _ => mret (); http_post := fun _ _ => mret (200%Z, ""); yaml_load := fun _ => mret JNull;
  yaml_dump := fun _ _ => mret (); execv := fun _ _ => mret ()
|}.

#[export] Instance host_laws consent refuse : PodmanLaws (host_podman consent refuse) host_sidecars.
Proof.
  refine {| created := host_created; started := host_started; exported := host_exported |}; intros; try done;
    try (by intros ?); split_and!; reflexivity.
Defined.

Definition demo_app : Application := {|
  a_name := "app";
  a_executable := {| documentType := "OCI"; authenticityReceipt := ""; doc_identity := None;
    doc_backingResource := {| resource_name := "app"; resource_type := RT_AzureContainerRegistry;
      resource_id := "registry.io/app:1"; provider := {| protocol := AzureContainerRegistry; endpoint_url := "registry.io";
      endpoint_configuration := None |} |} |};
  a_startType := Manual; a_command := ["run"]; a_environmentVariables := [];
  a_datasources := Some [("orders", "/data/orders")]; a_datasinks := Some [("report", "/data/report")] |}.

Definition announced (n : string) : string := dumps (JObj [("mount_path", JStr ("/mnt/remote/" +:+ n))]).

Definition demo_host : Host := {|
  host_files := {["/mnt/volumestatus/orders.volume.ready" := announced "orders";
                  "/mnt/volumestatus/report.volume.ready" := announced "report"]};
  host_containers := ∅; host_created := []; host_started := []; host_exported := [] |}.

Definition demo_start (consent : string) (refuse : option exn) (name : string) : Host * res Response :=
  respond (host_podman consent refuse) "/gov/app/start"
    (start (host_podman consent refuse) host_sidecars (fun _ => None) 8300 demo_app "/mnt/telemetry" name) demo_host.

Lemma start_refusals_witness :
  demo_start "disabled" None "app"
  = (demo_host, Ok {| rs_status := 403;
      rs_content := JObj [("code", JStr "ConsentCheckFailed");
        ("message", JStr "Consent status for execution is not enabled. Status is: 'disabled'.")] |}) /\
  demo_start "enabled" None "other"
  = (demo_host, Ok {| rs_status := 404; rs_content := JObj [("detail", JStr "Application not found")] |}).
Proof.
  split.
  - refine (proj1 (start_refusals (sc := host_sidecars) (fun _ => None) 8300 demo_app "/mnt/telemetry" "app"
      "/gov/app/start" (JStr "disabled") demo_host demo_host _) _); [|discriminate].
    exists 200%Z, (dumps (JObj [("status", JStr "disabled")])), [("status", JStr "disabled")]. by vm_compute.
  - refine (proj2 (start_refusals (sc := host_sidecars) (fun _ => None) 8300 demo_app "/mnt/telemetry" "other"
      "/gov/app/start" (JStr "enabled") demo_host demo_host _) eq_refl _); [|discriminate].
    exists 200%Z, (dumps (JObj [("status", JStr "enabled")])), [("status", JStr "enabled")]. by vm_compute.
Defined.

(** With consent, one container is created, with the announced paths. *)
Lemma demo_started : let w := (demo_start "enabled" None "app").1 in
  (demo_start "enabled" None "app").2 = Ok (message "Application started successfully.") /\
  map container_id (host_started w) = ["id-app"] /\
  map sp_mounts (host_created w)
  = [[{| bm_source := "/mnt/remote/orders"; bm_target := "/data/orders"; bm_read_only := true |};
      {| bm_source := "/mnt/remote/report"; bm_target := "/data/report"; bm_read_only := false |}]].
Proof. vm_compute. split_and!; reflexivity. Qed.

(** The start endpoint can answer success although the application never
    started: a [PodmanError] of [container.start()] is logged and dropped, while
    an error of podman's API is answered with its status. *)
Theorem start_error_dropped :
  (demo_start "enabled" (Some (PodmanError "no runtime")) "app").2
  = Ok (message "Application started successfully.") /\
  exists content, (demo_start "enabled" (Some (PodmanAPIError (Some 409%Z) "conflict")) "app").2
  = Ok {| rs_status := 409; rs_content := content |}.
Proof. vm_compute. split; [reflexivity | eexists; reflexivity]. Qed.
