(* ===== verification/KServeModels.v ===== *)
(** * Data models of the KServe inferencing front end

    [kserve_inferencing_frontend]: the request ([models/input_models.py]), the
    inference service resource and its status
    ([models/inference_service_models.py]) and the configuration
    ([config/configuration.py]).  A [PredictorSpec] inherits the fields of
    [PodSpec] and [ComponentExtensionSpec]; it holds one record of each.  A field
    that was never set is [None].  Classes that keep unknown fields hold them in
    a field [..._extra]. *)

From S2P Require Import Prelude PyStr Json PyFloat SparkModels Settings CleanroomModels.

(** ** The request *)

Record ModelFormatInput := { mfi_name : string; mfi_version : option string }.

Record ResourceRequirementsInput := {
  rri_requests : option (list (string * string));
  rri_limits : option (list (string * string))
}.

Record EnvVarInput := { evi_name : string; evi_value : option string }.

Record ModelInput := {
  mi_model_format : ModelFormatInput;
  mi_protocol_version : option string;
  mi_runtime : option string;
  mi_args : option (list string);
  mi_resources : option ResourceRequirementsInput;
  mi_env : option (list EnvVarInput)
}.

Inductive NodeType := flexnode.

Record PlacementInput := { host_network : option bool }.

Record BatcherInput := {
  bi_max_batch_size : option Z;
  bi_max_latency : option Z;
  bi_timeout : option Z
}.

Record AutoScalingMetricInput := {
  asmi_type : string;
  asmi_resource : option (list (string * json));
  asmi_external : option (list (string * json));
  asmi_podmetric : option (list (string * json))
}.

Record AutoScalingInput := {
  asi_metrics : option (list AutoScalingMetricInput);
  asi_behavior : option (list (string * json))
}.

Record PredictorInput := {
  pi_model : ModelInput;
  pi_min_replicas : option Z;
  pi_max_replicas : option Z;
  pi_timeout : option Z;
  pi_batcher : option BatcherInput;
  pi_deployment_strategy : option (list (string * json));
  pi_scale_metric_type : option string;
  pi_auto_scaling : option AutoScalingInput
}.

Record InferenceJob := {
  ij_contract_id : string;
  ij_model_name : string;
  ij_predictor : PredictorInput;
  ij_model_dir : option string;
  ij_datasets : list DatasetInfo;
  ij_governance : option GovernanceSettings;
  ij_placement : option PlacementInput
}.

(** ** Kubernetes objects of a predictor pod

    A container with every field the builders touch; [k_resources] holds the
    requests and the limits. *)

Record V1SecurityContext := { sec_privileged : json; sec_allow_privilege_escalation : option bool }.

Record PodContainer := {
  k_name : json;
  k_image : json;
  k_command : json;
  k_args : option (list string);
  k_env : option (list V1EnvVar);
  k_resources : option (json * json);
  k_volume_mounts : option (list V1VolumeMount);
  k_security_context : option V1SecurityContext;
  k_ports : option (list V1ContainerPort);
  k_startup_probe : option V1Probe;
  k_restart_policy : option string
}.

(** A sidecar's container, as [_get_sidecar] of the clean room builder creates it. *)
Definition of_sidecar (c : V1Container) : PodContainer :=
  {| k_name := c_name c; k_image := c_image c; k_command := c_command c; k_args := None;
     k_env := Some (c_env c); k_resources := Some (c_requests c, JNull);
     k_volume_mounts := Some (c_volume_mounts c);
     k_security_context := Some {| sec_privileged := c_privileged c; sec_allow_privilege_escalation := None |};
     k_ports := c_ports c; k_startup_probe := c_startup_probe c; k_restart_policy := Some (c_restart_policy c) |}.

Inductive VolumeSource := EmptyDir | HostPath (path : string).

Record V1Volume := { vol_name : string; vol_source : VolumeSource }.

(** ** The inference service *)

Record PodSpec := {
  ps_initContainers : option (list PodContainer);
  ps_containers : option (list PodContainer);
  ps_volumes : option (list V1Volume);
  ps_hostNetwork : option bool;
  ps_nodeSelector : option (list (string * string));
  ps_tolerations : option (list (list (string * json)));
  ps_affinity : option (list (string * json));
  ps_serviceAccountName : option string
}.

Definition empty_PodSpec : PodSpec :=
  {| ps_initContainers := None; ps_containers := None; ps_volumes := None; ps_hostNetwork := None;
     ps_nodeSelector := None; ps_tolerations := None; ps_affinity := None; ps_serviceAccountName := None |}.

Record LoggerSpec := {
  log_url : option string;
  log_mode : option string;
  log_metadataHeaders : option (list string)
}.

Record Batcher := { maxBatchSize : option Z; maxLatency : option Z; batch_timeout : option Z }.

Record AutoScalingMetricSpec := {
  asm_type : string;
  asm_resource : option (list (string * json));
  asm_external : option (list (string * json));
  asm_podmetric : option (list (string * json))
}.

Record AutoScalingSpec := {
  as_metrics : option (list AutoScalingMetricSpec);
  as_behavior : option (list (string * json))
}.

Record ComponentExtensionSpec := {
  ce_minReplicas : option Z;
  ce_maxReplicas : option Z;
  ce_canaryTrafficPercent : option Z;
  ce_containerConcurrency : option Z;
  ce_timeout : option Z;
  ce_scaleTarget : option Z;
  ce_scaleMetric : option string;
  ce_scaleMetricType : option string;
  ce_autoScaling : option AutoScalingSpec;
  ce_logger : option LoggerSpec;
  ce_batcher : option Batcher;
  ce_deploymentStrategy : option (list (string * json));
  ce_annotations : option (list (string * json));
  ce_labels : option (list (string * string))
}.

Definition empty_ComponentExtensionSpec : ComponentExtensionSpec :=
  {| ce_minReplicas := None; ce_maxReplicas := None; ce_canaryTrafficPercent := None;
     ce_containerConcurrency := None; ce_timeout := None; ce_scaleTarget := None; ce_scaleMetric := None;
     ce_scaleMetricType := None; ce_autoScaling := None; ce_logger := None; ce_batcher := None;
     ce_deploymentStrategy := None; ce_annotations := None; ce_labels := None |}.

Record ModelFormat := {
  mf_name : option string;
  mf_version : option string;
  mf_autoSelect : option bool
}.

Record GenericModelSpec := {
  gm_modelFormat : option ModelFormat;
  gm_storageUri : option string;
  gm_runtime : option string;
  gm_runtimeVersion : option string;
  gm_protocolVersion : option string;
  gm_storage : option (list (string * json));
  gm_env : option (list (list (string * json)));
  gm_volumeMounts : option (list V1VolumeMount);
  gm_resources : option (list (string * json));
  gm_securityContext : option V1SecurityContext;
  gm_args : option (list string)
}.

Record PredictorSpec := {
  pr_pod : PodSpec;
  pr_extension : ComponentExtensionSpec;
  pr_model : option GenericModelSpec
}.

(** [PredictorSpec()] *)
Definition empty_PredictorSpec : PredictorSpec :=
  {| pr_pod := empty_PodSpec; pr_extension := empty_ComponentExtensionSpec; pr_model := None |}.

Record ARTExplainerSpec := {
  art_type : option string;
  art_runtimeVersion : option string;
  art_storageUri : option string;
  art_config : option (list (string * string))
}.

Record ExplainerSpec := {
  exp_pod : PodSpec;
  exp_extension : ComponentExtensionSpec;
  exp_art : option ARTExplainerSpec
}.

Record TransformerSpec := {
  tr_pod : PodSpec;
  tr_extension : ComponentExtensionSpec;
  tr_transformerImpl : option (list (string * json))
}.

Record InferenceServiceSpec := {
  is_predictor : PredictorSpec;
  is_explainer : option ExplainerSpec;
  is_transformer : option TransformerSpec
}.

(** ** Status *)

Record Condition := {
  con_type : option string;
  con_status : option string;
  con_lastTransitionTime : option datetime;
  con_reason : option string;
  con_message : option string;
  con_extra : list (string * json)
}.

Record Addressable := { addr_url : option string; addr_extra : list (string * json) }.

Record TrafficTarget := {
  tt_tag : option string;
  tt_percent : option Z;
  tt_revisionName : option string;
  tt_latestRevision : option bool;
  tt_extra : list (string * json)
}.

Record ComponentStatus := {
  cs_latestReadyRevision : option string;
  cs_latestCreatedRevision : option string;
  cs_previousRolledoutRevision : option string;
  cs_latestRolledoutRevision : option string;
  cs_traffic : option (list TrafficTarget);
  cs_url : option string;
  cs_restUrl : option string;
  cs_grpcUrl : option string;
  cs_address : option Addressable;
  cs_extra : list (string * json)
}.

Record ComponentsSpec := {
  cps_predictor : option ComponentStatus;
  cps_transformer : option ComponentStatus;
  cps_explainer : option ComponentStatus;
  cps_extra : list (string * json)
}.

Record ModelCopies := {
  mc_failedCopies : option Z;
  mc_totalCopies : option Z;
  mc_extra : list (string * json)
}.

Record ModelRevisionStates := {
  mrs_activeModelState : option string;
  mrs_targetModelState : option string;
  mrs_extra : list (string * json)
}.

Record FailureInfo := {
  fi_location : option string;
  fi_reason : option string;
  fi_message : option string;
  fi_modelRevisionName : option string;
  fi_time : option datetime;
  fi_exitCode : option Z;
  fi_extra : list (string * json)
}.

Record ModelStatus := {
  ms_transitionStatus : option string;
  ms_modelRevisionStates : option ModelRevisionStates;
  ms_lastFailureInfo : option FailureInfo;
  ms_copies : option ModelCopies;
  ms_extra : list (string * json)
}.

Record InferenceServiceStatus := {
  st_observedGeneration : option Z;
  st_conditions : option (list Condition);
  st_url : option string;
  st_address : option Addressable;
  st_annotations : option (list (string * string));
  st_components : option ComponentsSpec;
  st_modelStatus : option ModelStatus;
  st_deploymentMode : option string;
  st_servingRuntimeName : option string;
  st_extra : list (string * json)
}.

(** The fields [get_inference_service] fills in. *)
Record InferenceService := {
  svc_metadata : ObjectMeta;
  svc_status : option InferenceServiceStatus
}.

(** ** Policies and the built application *)

Record InfPolicy := { pol_json : string; pol_json_base64 : string; pol_pcrs : json }.

(** [ia_sidecars] lists the sidecars' containers, which are the objects in the
    predictor's [initContainers], with their policies. *)
Record CleanRoomInferencingApplication := {
  ia_spec : InferenceServiceSpec;
  ia_predictor_policy : InfPolicy;
  ia_transformer_policy : InfPolicy;
  ia_sidecars : list (PodContainer * json)
}.

(** ** Configuration *)

Record InfCleanroomSettings := {
  ics_base : CleanroomSettings;
  cvm_measurements_document : string;
  runtime_digests_document : string
}.

Definition default_InfCleanroomSettings (environ : string -> option string) (mcr_version : string)
  : InfCleanroomSettings :=
  {| ics_base := default_CleanroomSettings environ mcr_version;
     cvm_measurements_document :=
       env_or environ "CLEANROOM_CVM_MEASUREMENTS_DOCUMENT_URL"
         (DEFAULT_MCR_URL +:+ "/cvm-measurements:" +:+ mcr_version);
     runtime_digests_document :=
       env_or environ "CLEANROOM_RUNTIME_DIGESTS_DOCUMENT_URL"
         (DEFAULT_MCR_URL +:+ "/inf-runtime-digests:" +:+ mcr_version) |}.

Inductive InferencingComputeProvider := InfConfidentialVirtualNode | InfConfidentialVM | InfVirtual.

#[export] Instance InferencingComputeProvider_eq_dec : EqDecision InferencingComputeProvider.
Proof. solve_decision. Defined.

Record PredictorSettings := { prs_cores : float; prs_memory : string; prs_service_account : string }.

Record InfSkuSettings := { isk_predictor : PredictorSettings }.

Record InferencingSettings := {
  inf_namespace : string;
  inf_image : string;
  inf_policy_file : string;
  inf_debug_mode : bool;
  inf_allow_all : bool;
  inf_kserve : InfSkuSettings
}.

(** The defaults of [InferencingSettings], for a given SKU. *)
Definition default_InferencingSettings (environ : string -> option string) (mcr_version : string)
    (sku : InfSkuSettings) : InferencingSettings :=
  {| inf_namespace := "kserve-inferencing";
     inf_image := env_default environ "CLEANROOM_KSERVE_INFERENCING_IMAGE_URL"
       (DEFAULT_MCR_URL +:+ "/workloads/cleanroom-kserve-inferencing-app:" +:+ mcr_version);
     inf_policy_file := env_default environ "CLEANROOM_KSERVE_INFERENCING_POLICY_FILE"
       (DEFAULT_MCR_URL +:+ "/policies/cleanroom-kserve-inferencing-app-policy:" +:+ mcr_version);
     inf_debug_mode := false; inf_allow_all := false; inf_kserve := sku |}.

Record InferenceServiceResourceSettings := {
  ir_group : string;
  ir_version : string;
  ir_kind : string;
  ir_plural : string
}.

Definition default_InferenceServiceResourceSettings : InferenceServiceResourceSettings :=
  {| ir_group := "serving.kserve.io"; ir_version := "v1beta1"; ir_kind := "inferenceservice";
     ir_plural := "inferenceservices" |}.

Record InfServiceSettings := { iss_name : string; iss_namespace : string; iss_telemetry : TelemetrySettings }.

Definition default_InfServiceSettings : InfServiceSettings :=
  {| iss_name := "kserve-inferencing-frontend"; iss_namespace := "kserve-inferencing-frontend";
     iss_telemetry := default_TelemetrySettings |}.

Record KServeSettings := {
  ks_compute_provider : InferencingComputeProvider;
  ks_resource : InferenceServiceResourceSettings
}.

Definition default_KServeSettings : KServeSettings :=
  {| ks_compute_provider := InfConfidentialVM; ks_resource := default_InferenceServiceResourceSettings |}.

(** [applications] has the one field [inferencing]. *)
Record InfConfiguration := {
  ic_cleanroom : InfCleanroomSettings;
  ic_kserve : KServeSettings;
  ic_inferencing : InferencingSettings;
  ic_service : InfServiceSettings
}.
