(* ===== verification/KServeBuilder.v ===== *)
(** * The inference service builders

    [builders/inference_service_builder.py] with its two subclasses
    ([virtual_...] and [confidential_vm_...]), the factory and
    [utilities/job_converters.py].  A subclass is the builder's
    [InferencingComputeProvider]; its overrides are the matches on it.  The clean
    room builder ([AppBuilder]) makes the sidecars; the file system, the registry
    and the YAML loader are its [BuildEnv].  The carrier of the current trace is
    an argument.  [StopIteration] of [next] is an [OtherException] without text,
    [NotImplementedError] a [RuntimeError]. *)

From S2P Require Import Prelude PyStr Base64 Json JsonFacts Template PyFloat SparkModels Settings Helpers CleanroomModels AppBuilder KServeModels.
From Stdlib Require Import Ascii.

Definition KSERVE_ALLOW_ALL_POLICY_BASE64 : string := "WyJhbGxvd2FsbCJd".

Definition SUPPORTED_RUNTIMES : list string := ["kserve-sklearnserver"; "llamacpp-server"].

Definition RUNTIME_MODEL_ARG_MAP : list (string * string) :=
  [("kserve-sklearnserver", "--model_dir"); ("llamacpp-server", "--model")].

Definition RUNTIMES_WITH_MODEL_NAME : list string := ["kserve-sklearnserver"].

Definition RUNTIME_HEALTH_PATH_MAP : list (string * string) :=
  [("kserve-sklearnserver", "/v2/health/ready"); ("llamacpp-server", "/health")].

Definition to_kserve_app_name (name : string) : string :=
  str_take 63 ("cl-kserve-" +:+ dash_others (lower name)).

(** ** Updates of containers *)

Definition with_image (c : PodContainer) (v : json) : PodContainer :=
  {| k_name := k_name c; k_image := v; k_command := k_command c; k_args := k_args c; k_env := k_env c;
     k_resources := k_resources c; k_volume_mounts := k_volume_mounts c;
     k_security_context := k_security_context c; k_ports := k_ports c; k_startup_probe := k_startup_probe c;
     k_restart_policy := k_restart_policy c |}.
Definition with_env (c : PodContainer) (v : option (list V1EnvVar)) : PodContainer :=
  {| k_name := k_name c; k_image := k_image c; k_command := k_command c; k_args := k_args c; k_env := v;
     k_resources := k_resources c; k_volume_mounts := k_volume_mounts c;
     k_security_context := k_security_context c; k_ports := k_ports c; k_startup_probe := k_startup_probe c;
     k_restart_policy := k_restart_policy c |}.
Definition with_args (c : PodContainer) (v : option (list string)) : PodContainer :=
  {| k_name := k_name c; k_image := k_image c; k_command := k_command c; k_args := v; k_env := k_env c;
     k_resources := k_resources c; k_volume_mounts := k_volume_mounts c;
     k_security_context := k_security_context c; k_ports := k_ports c; k_startup_probe := k_startup_probe c;
     k_restart_policy := k_restart_policy c |}.
Definition with_mounts (c : PodContainer) (v : option (list V1VolumeMount)) : PodContainer :=
  {| k_name := k_name c; k_image := k_image c; k_command := k_command c; k_args := k_args c; k_env := k_env c;
     k_resources := k_resources c; k_volume_mounts := v;
     k_security_context := k_security_context c; k_ports := k_ports c; k_startup_probe := k_startup_probe c;
     k_restart_policy := k_restart_policy c |}.
Definition with_security (c : PodContainer) (v : V1SecurityContext) : PodContainer :=
  {| k_name := k_name c; k_image := k_image c; k_command := k_command c; k_args := k_args c; k_env := k_env c;
     k_resources := k_resources c; k_volume_mounts := k_volume_mounts c;
     k_security_context := Some v; k_ports := k_ports c; k_startup_probe := k_startup_probe c;
     k_restart_policy := k_restart_policy c |}.

Definition named (n : string) (c : PodContainer) : bool := json_eqs (k_name c) n.

(** The first element that satisfies [p] is updated in place. *)
Fixpoint update_first {A} (p : A -> bool) (f : A -> A) (l : list A) : option (list A) :=
  match l with
  | [] => None
  | x :: l' => if p x then Some (f x :: l') else (x ::.) <$> update_first p f l'
  end.

(** [next(c for c in containers if c.name == "kserve-container")], updated. *)
Definition update_serving (f : PodContainer -> PodContainer) (l : list PodContainer) : res (list PodContainer) :=
  of_option (OtherException "") (update_first (named "kserve-container") f l).

Definition with_init (p : PodSpec) (v : list PodContainer) : PodSpec :=
  {| ps_initContainers := Some v; ps_containers := ps_containers p; ps_volumes := ps_volumes p;
     ps_hostNetwork := ps_hostNetwork p; ps_nodeSelector := ps_nodeSelector p;
     ps_tolerations := ps_tolerations p; ps_affinity := ps_affinity p;
     ps_serviceAccountName := ps_serviceAccountName p |}.
Definition with_containers (p : PodSpec) (v : option (list PodContainer)) : PodSpec :=
  {| ps_initContainers := ps_initContainers p; ps_containers := v; ps_volumes := ps_volumes p;
     ps_hostNetwork := ps_hostNetwork p; ps_nodeSelector := ps_nodeSelector p;
     ps_tolerations := ps_tolerations p; ps_affinity := ps_affinity p;
     ps_serviceAccountName := ps_serviceAccountName p |}.
Definition with_volumes (p : PodSpec) (v : list V1Volume) : PodSpec :=
  {| ps_initContainers := ps_initContainers p; ps_containers := ps_containers p; ps_volumes := Some v;
     ps_hostNetwork := ps_hostNetwork p; ps_nodeSelector := ps_nodeSelector p;
     ps_tolerations := ps_tolerations p; ps_affinity := ps_affinity p;
     ps_serviceAccountName := ps_serviceAccountName p |}.
Definition with_host_network (p : PodSpec) (v : bool) : PodSpec :=
  {| ps_initContainers := ps_initContainers p; ps_containers := ps_containers p; ps_volumes := ps_volumes p;
     ps_hostNetwork := Some v; ps_nodeSelector := ps_nodeSelector p;
     ps_tolerations := ps_tolerations p; ps_affinity := ps_affinity p;
     ps_serviceAccountName := ps_serviceAccountName p |}.

Definition with_pod (p : PredictorSpec) (v : PodSpec) : PredictorSpec :=
  {| pr_pod := v; pr_extension := pr_extension p; pr_model := pr_model p |}.
Definition with_predictor (s : InferenceServiceSpec) (v : PredictorSpec) : InferenceServiceSpec :=
  {| is_predictor := v; is_explainer := is_explainer s; is_transformer := is_transformer s |}.

(** ** The builder's state *)

(** What [__init__] and [CreateBuilder] set. *)
Record InfSetup := {
  iu_provider : InferencingComputeProvider;
  iu_settings : InfCleanroomSettings;
  iu_telemetry : TelemetrySettings;
  iu_governance : option GovernanceSettings;
  iu_contract_id : string;
  iu_trace_context : list (string * string)
}.

Record InfBuilder := {
  ib_setup : InfSetup;
  ib_app_name : option string;
  ib_runtime : option string;
  ib_predictor : option PredictorSpec;
  ib_debug_mode : bool;
  ib_allow_all : bool;
  ib_datasets : list DatasetInfo;
  ib_model_dir : option string;
  ib_model_name : option string;
  ib_namespace : option string;
  ib_placement : option PlacementInput
}.

(** The virtual builder starts with the allow-all policy. *)
Definition new_inf_builder (u : InfSetup) : InfBuilder :=
  {| ib_setup := u; ib_app_name := None; ib_runtime := None; ib_predictor := None; ib_debug_mode := false;
     ib_allow_all := bool_decide (iu_provider u = InfVirtual); ib_datasets := []; ib_model_dir := None;
     ib_model_name := None; ib_namespace := None; ib_placement := None |}.

Definition inf_WithPolicy (b : InfBuilder) (policy_file : string) (debug_mode allow_all : bool) : InfBuilder :=
  {| ib_setup := ib_setup b; ib_app_name := ib_app_name b; ib_runtime := ib_runtime b;
     ib_predictor := ib_predictor b; ib_debug_mode := debug_mode; ib_allow_all := allow_all;
     ib_datasets := ib_datasets b; ib_model_dir := ib_model_dir b; ib_model_name := ib_model_name b;
     ib_namespace := ib_namespace b; ib_placement := ib_placement b |}.
Definition inf_WithName (b : InfBuilder) (name : string) : InfBuilder :=
  {| ib_setup := ib_setup b; ib_app_name := Some (to_kserve_app_name name); ib_runtime := ib_runtime b;
     ib_predictor := ib_predictor b; ib_debug_mode := ib_debug_mode b; ib_allow_all := ib_allow_all b;
     ib_datasets := ib_datasets b; ib_model_dir := ib_model_dir b; ib_model_name := ib_model_name b;
     ib_namespace := ib_namespace b; ib_placement := ib_placement b |}.
Definition inf_WithModelDir (b : InfBuilder) (model_dir : string) : InfBuilder :=
  {| ib_setup := ib_setup b; ib_app_name := ib_app_name b; ib_runtime := ib_runtime b;
     ib_predictor := ib_predictor b; ib_debug_mode := ib_debug_mode b; ib_allow_all := ib_allow_all b;
     ib_datasets := ib_datasets b; ib_model_dir := Some model_dir; ib_model_name := ib_model_name b;
     ib_namespace := ib_namespace b; ib_placement := ib_placement b |}.
Definition inf_WithModelName (b : InfBuilder) (model_name : string) : InfBuilder :=
  {| ib_setup := ib_setup b; ib_app_name := ib_app_name b; ib_runtime := ib_runtime b;
     ib_predictor := ib_predictor b; ib_debug_mode := ib_debug_mode b; ib_allow_all := ib_allow_all b;
     ib_datasets := ib_datasets b; ib_model_dir := ib_model_dir b; ib_model_name := Some model_name;
     ib_namespace := ib_namespace b; ib_placement := ib_placement b |}.
Definition inf_WithNamespace (b : InfBuilder) (ns : string) : InfBuilder :=
  {| ib_setup := ib_setup b; ib_app_name := ib_app_name b; ib_runtime := ib_runtime b;
     ib_predictor := ib_predictor b; ib_debug_mode := ib_debug_mode b; ib_allow_all := ib_allow_all b;
     ib_datasets := ib_datasets b; ib_model_dir := ib_model_dir b; ib_model_name := ib_model_name b;
     ib_namespace := Some ns; ib_placement := ib_placement b |}.
Definition inf_WithPlacement (b : InfBuilder) (placement : PlacementInput) : InfBuilder :=
  {| ib_setup := ib_setup b; ib_app_name := ib_app_name b; ib_runtime := ib_runtime b;
     ib_predictor := ib_predictor b; ib_debug_mode := ib_debug_mode b; ib_allow_all := ib_allow_all b;
     ib_datasets := ib_datasets b; ib_model_dir := ib_model_dir b; ib_model_name := ib_model_name b;
     ib_namespace := ib_namespace b; ib_placement := Some placement |}.
Definition inf_AddDataset (b : InfBuilder) (d : DatasetInfo) : InfBuilder :=
  {| ib_setup := ib_setup b; ib_app_name := ib_app_name b; ib_runtime := ib_runtime b;
     ib_predictor := ib_predictor b; ib_debug_mode := ib_debug_mode b; ib_allow_all := ib_allow_all b;
     ib_datasets := ib_datasets b ++ [d]; ib_model_dir := ib_model_dir b; ib_model_name := ib_model_name b;
     ib_namespace := ib_namespace b; ib_placement := ib_placement b |}.
Definition set_predictor (b : InfBuilder) (runtime : string) (p : PredictorSpec) : InfBuilder :=
  {| ib_setup := ib_setup b; ib_app_name := ib_app_name b; ib_runtime := Some runtime;
     ib_predictor := Some p; ib_debug_mode := ib_debug_mode b; ib_allow_all := ib_allow_all b;
     ib_datasets := ib_datasets b; ib_model_dir := ib_model_dir b; ib_model_name := ib_model_name b;
     ib_namespace := ib_namespace b; ib_placement := ib_placement b |}.

(** ** The predictor *)

(** [if x:] for an optional list or dict. *)
Definition nonempty {A} (o : option (list A)) : option (list A) :=
  match o with Some (x :: l) => Some (x :: l) | _ => None end.

Definition string_dict (o : option (list (string * string))) : json :=
  match o with Some d => JObj (map (fun kv => (kv.1, JStr kv.2)) d) | None => JNull end.

Definition opt_str (o : option string) : json := match o with Some s => JStr s | None => JNull end.

(** The serving container, before the model is wired. *)
Definition serving_container (runtime image : string) (m : ModelInput) : PodContainer :=
  {| k_name := JStr "kserve-container"; k_image := JStr image; k_command := JNull; k_args := nonempty (mi_args m);
     k_env := map (fun e => {| env_name := JStr (evi_name e); env_value := opt_str (evi_value e) |})
                <$> nonempty (mi_env m);
     k_resources := (fun r => (string_dict (rri_requests r), string_dict (rri_limits r))) <$> mi_resources m;
     k_volume_mounts := None; k_security_context := None;
     k_ports := Some [{| port_name := JNull; container_port := 8080; port_protocol := JStr "TCP" |}];
     k_startup_probe :=
       Some {| probe_action_ :=
                 Some (HttpGet (JStr (default "/health" (dict_lookup runtime RUNTIME_HEALTH_PATH_MAP))) 8080);
               initial_delay_seconds := JInt 5; period_seconds := JInt 10; failure_threshold := JInt 120 |};
     k_restart_policy := None |}.

Definition pod_policy_toleration : list (string * json) :=
  [("key", JStr "pod-policy"); ("operator", JStr "Equal"); ("value", JStr "required");
   ("effect", JStr "NoSchedule")].

Definition auto_scaling_spec (a : AutoScalingInput) : AutoScalingSpec :=
  {| as_metrics := map (fun m => {| asm_type := asmi_type m; asm_resource := asmi_resource m;
                                    asm_external := asmi_external m; asm_podmetric := asmi_podmetric m |})
                     <$> nonempty (asi_metrics a);
     as_behavior := nonempty (asi_behavior a) |}.

Definition predictor_extension (input : PredictorInput) : ComponentExtensionSpec :=
  {| ce_minReplicas := pi_min_replicas input; ce_maxReplicas := pi_max_replicas input;
     ce_canaryTrafficPercent := None; ce_containerConcurrency := None; ce_timeout := pi_timeout input;
     ce_scaleTarget := None; ce_scaleMetric := None;
     ce_scaleMetricType := match pi_scale_metric_type input with
                           | Some s => if str_truthy s then Some s else None
                           | None => None
                           end;
     ce_autoScaling := auto_scaling_spec <$> pi_auto_scaling input; ce_logger := None;
     ce_batcher := (fun b => {| maxBatchSize := bi_max_batch_size b; maxLatency := bi_max_latency b;
                                batch_timeout := bi_timeout b |}) <$> pi_batcher input;
     ce_deploymentStrategy := nonempty (pi_deployment_strategy input); ce_annotations := None;
     ce_labels := None |}.

Definition predictor_pod (b : InfBuilder) (c : PodContainer) : PodSpec :=
  {| ps_initContainers := None; ps_containers := Some [c]; ps_volumes := None;
     ps_hostNetwork := ib_placement b ≫= host_network; ps_nodeSelector := Some [("pod-policy", "required")];
     ps_tolerations := Some [pod_policy_toleration]; ps_affinity := None; ps_serviceAccountName := None |}.

(** The confidential VM's override: host networking unless the placement says
    otherwise. *)
Definition default_host_network (provider : InferencingComputeProvider) (p : PodSpec) : PodSpec :=
  match provider, ps_hostNetwork p with
  | InfConfidentialVM, None => with_host_network p true
  | _, _ => p
  end.

(** The digest-pinned image of the first entry for the runtime. *)
Fixpoint find_runtime (runtime : string) (entries : list json) : res string :=
  match entries with
  | [] => Err (ValueError ("Runtime '" +:+ runtime +:+ "' not found in runtime digests document."))
  | entry :: entries' =>
      r ← json_get entry "runtime" JNull;
      if json_eqs r runtime then
        image ← json_item entry "image";
        digest ← json_item entry "digest";
        Ok (py_str image +:+ "@" +:+ py_str digest)
      else find_runtime runtime entries'
  end.

(** ** Policies *)

(** [next(iter(d.values()))] *)
Definition first_value (j : json) : res json :=
  match j with
  | JObj (kv :: _) => Ok kv.2
  | JObj [] => Err (OtherException "")
  | _ => Err (AttributeError ("'" +:+ py_type j +:+ "' object has no attribute 'values'"))
  end.

Definition allow_all_policy (pcrs : json) : res InfPolicy :=
  raw ← b64decode KSERVE_ALLOW_ALL_POLICY_BASE64;
  text ← utf8_decode raw;
  Ok {| pol_json := text; pol_json_base64 := KSERVE_ALLOW_ALL_POLICY_BASE64; pol_pcrs := pcrs |}.

(** ** [Build]: wiring the serving container *)

Definition serving_args (runtime : string) (model_dir model_name : option string) (args : option (list string))
  : option (list string) :=
  let args := match dict_lookup runtime RUNTIME_MODEL_ARG_MAP, model_dir with
              | Some flag, Some d =>
                  if str_truthy flag && str_truthy d then Some (default [] args ++ [flag; "/mnt/remote/" +:+ d])
                  else args
              | _, _ => args
              end in
  match model_name with
  | Some n => if str_truthy n && bool_decide (runtime ∈ RUNTIMES_WITH_MODEL_NAME)
              then Some (default [] args ++ ["--model_name"; n]) else args
  | None => args
  end.

Definition remote_mount : V1VolumeMount :=
  {| vm_name := JStr "remotemounts"; vm_mount_path := JStr "/mnt/remote"; vm_read_only := JNull;
     vm_mount_propagation := JNull |}.

Definition wire_serving (b : InfBuilder) (runtime : string) (c : PodContainer) : PodContainer :=
  with_mounts (with_args c (serving_args runtime (ib_model_dir b) (ib_model_name b) (k_args c))) (Some [remote_mount]).

Definition pod_volumes : list V1Volume :=
  map (fun n => {| vol_name := n; vol_source := EmptyDir |})
    ["remotemounts"; "telemetrymounts"; "volumestatusmounts"; "shared"].

(** The name under which the pod's HTTPS service is reached. *)
Definition ccr_proxy_fqdn (model_name namespace : option string) : string :=
  match model_name, namespace with
  | Some m, Some n =>
      if str_truthy m && str_truthy n then m +:+ "-predictor-https." +:+ n +:+ ".svc.cluster.local" else ""
  | _, _ => ""
  end.

(** KServe adds an agent in front of the serving container for these features. *)
Definition has_agent (p : option PredictorSpec) : bool :=
  match p with
  | Some p => match ce_batcher (pr_extension p), ce_logger (pr_extension p) with None, None => false | _, _ => true end
  | None => false
  end.

Definition destination_port (b : InfBuilder) : Z := if has_agent (ib_predictor b) then 9081 else 8080.

(** The clean room builder, configured. *)
Definition sidecar_builder (b : InfBuilder) (app_name : string) : res Builder :=
  let u := ib_setup b in
  c ← WithName (new_builder (ics_base (iu_settings u))) app_name;
  let c := WithContractId c (iu_contract_id u) in
  let c := if telemetry_collection_enabled (iu_telemetry u)
           then WithTelemetry c (iu_telemetry u) (iu_trace_context u) [] else c in
  c ← match iu_governance u with Some g => WithGovernance c g CVM | None => Ok c end;
  let c := foldl (fun c d => AddStorage c (accessPoint d) (ownerId d)) c (ib_datasets b) in
  Ok (WithCcrProxyHttpsHttp c 443 (destination_port b) (ccr_proxy_fqdn (ib_model_name b) (ib_namespace b))).

(** ** The subclasses' overrides of [Build] *)

Definition set_propagation (v : string) (vm : V1VolumeMount) : V1VolumeMount :=
  if json_eqs (vm_name vm) "remotemounts"
  then {| vm_name := vm_name vm; vm_mount_path := vm_mount_path vm; vm_read_only := vm_read_only vm;
          vm_mount_propagation := JStr v |}
  else vm.

Definition propagate (v : string) (c : PodContainer) : PodContainer :=
  with_mounts c (map (set_propagation v) <$> k_volume_mounts c).

(** The sidecars are the objects in [initContainers]: updating the latter in
    place updates both. *)
Definition update_sidecars (app : CleanRoomInferencingApplication) (l : list PodContainer)
  : list (PodContainer * json) := combine l (map snd (ia_sidecars app)).

Definition virtual_governance_image (settings : CleanroomSettings) : string :=
  registry_url settings +:+ "/ccr-governance-virtual:" +:+ List.last (split_on ":" (versions_document settings)) "".

Definition virtual_governance (image : string) (c : PodContainer) : PodContainer :=
  let c := with_image c (JStr image) in
  with_env c (Some (default [] (k_env c) ++
    [{| env_name := JStr "INSECURE_VIRTUAL_DIR"; env_value := JStr "/app/cvm/insecure-virtual/" |}])).

Definition without_tpm (c : PodContainer) : PodContainer :=
  with_mounts c (filter (fun vm => json_eqs (vm_name vm) "tpmrm0" = false) <$> k_volume_mounts c).

Definition privileged_serving (c : PodContainer) : PodContainer :=
  with_security (propagate "Bidirectional" c)
    {| sec_privileged := JBool true; sec_allow_privilege_escalation := Some true |}.

Definition has_mounts (c : PodContainer) : bool := match k_volume_mounts c with Some _ => true | None => false end.

(** The init containers after the virtual builder's updates, before the agent is
    removed. *)
Definition virtual_init (settings : CleanroomSettings) (l : list PodContainer) : list PodContainer :=
  let l := default l (update_first (named "ccr-governance") (virtual_governance (virtual_governance_image settings)) l) in
  let l := default l (update_first (fun c => named "cvm-attestation-agent" c && has_mounts c) without_tpm l) in
  map (propagate "Bidirectional") l.

Definition propagate_pod (p : PodSpec) : PodSpec :=
  let q := with_containers p (map (propagate "Bidirectional") <$> ps_containers p) in
  match ps_initContainers p with Some l => with_init q (map (propagate "Bidirectional") l) | None => q end.

Definition virtual_build (settings : CleanroomSettings) (app : CleanRoomInferencingApplication)
  : res CleanRoomInferencingApplication :=
  let s := ia_spec app in
  let pod := pr_pod (is_predictor s) in
  let init := virtual_init settings (default [] (ps_initContainers pod)) in
  containers ← of_option (AssertionError "") (ps_containers pod);
  containers ← update_serving privileged_serving containers;
  let containers := match nonempty (ps_initContainers pod) with
                    | Some _ => map (propagate "Bidirectional") containers
                    | None => containers
                    end in
  let pod := with_containers pod (Some containers) in
  let pod := match nonempty (ps_initContainers pod) with
             | Some _ => with_init pod (filter (fun c => named "cvm-attestation-agent" c = false) init)
             | None => pod
             end in
  Ok {| ia_spec := {| is_predictor := with_pod (is_predictor s) pod; is_explainer := is_explainer s;
                      is_transformer := (fun t => {| tr_pod := propagate_pod (tr_pod t);
                                                     tr_extension := tr_extension t;
                                                     tr_transformerImpl := tr_transformerImpl t |})
                                          <$> is_transformer s |};
        ia_predictor_policy := ia_predictor_policy app; ia_transformer_policy := ia_transformer_policy app;
        ia_sidecars := update_sidecars app init |}.

Definition none_not_iterable {A} : res A := Err (TypeError "'NoneType' object is not iterable").

(** The mount goes out of the blobfuse container and into the others. *)
Definition cvm_mount (c : PodContainer) (vm : V1VolumeMount) : res V1VolumeMount :=
  if json_eqs (vm_name vm) "remotemounts" then
    is_blobfuse ← json_has "blobfuse" (k_name c);
    Ok (set_propagation (if (is_blobfuse : bool) then "Bidirectional" else "HostToContainer") vm)
  else Ok vm.

Definition cvm_init (c : PodContainer) : res PodContainer :=
  match k_volume_mounts c with
  | Some vms => vms' ← mapM_res (cvm_mount c) vms; Ok (with_mounts c (Some vms'))
  | None => none_not_iterable
  end.

Definition cvm_serving (c : PodContainer) : res PodContainer :=
  if has_mounts c then Ok (propagate "HostToContainer" c) else none_not_iterable.

Definition cvm_build (app : CleanRoomInferencingApplication) : res CleanRoomInferencingApplication :=
  let s := ia_spec app in
  let pod := pr_pod (is_predictor s) in
  volumes ← of_option (AttributeError "'NoneType' object has no attribute 'append'") (ps_volumes pod);
  let pod := with_volumes pod (volumes ++ [{| vol_name := "tpmrm0"; vol_source := HostPath "/dev/tpmrm0" |}]) in
  init ← mapM_res cvm_init (default [] (ps_initContainers pod));
  containers ← of_option (TypeError "'NoneType' object is not iterable") (ps_containers pod);
  containers ← update_serving (propagate "HostToContainer") containers;
  containers ← mapM_res cvm_serving containers;
  let pod := with_containers pod (Some containers) in
  let pod := match ps_initContainers pod with Some _ => with_init pod init | None => pod end in
  Ok {| ia_spec := with_predictor s (with_pod (is_predictor s) pod);
        ia_predictor_policy := ia_predictor_policy app; ia_transformer_policy := ia_transformer_policy app;
        ia_sidecars := update_sidecars app init |}.

Section Build.
Context {W : Type} (be : BuildEnv W).

(** The lock is local to the call, as in the clean room builder. *)
Definition pull_once (file url : string) (insecure : bool) : M W json :=
  let path := path_join (temp_dir be) file in
  found ← file_exists be path;
  _ ← (if (found : bool) then mret () else
         found ← file_exists be path;
         if (found : bool) then mret () else oras_pull be url (temp_dir be) insecure);
  yaml_load be path.

Definition get_runtime_digests (s : InfCleanroomSettings) : M W json :=
  pull_once "inf-runtime-digests.yaml" (runtime_digests_document s) (use_http (ics_base s)).

Definition get_cvm_measurements (s : InfCleanroomSettings) : M W json :=
  pull_once "cvm-measurements.yaml" (cvm_measurements_document s) (use_http (ics_base s)).

Definition resolve_container_image (s : InfCleanroomSettings) (runtime : string) : M W string :=
  runtime_digests ← get_runtime_digests s;
  lift (entries ← json_items runtime_digests; find_runtime runtime entries).

(** [AddPredictor]; the text of the error lists the runtimes as a set prints. *)
Definition AddPredictor (b : InfBuilder) (input : PredictorInput) : M W InfBuilder :=
  match mi_runtime (pi_model input) with
  | Some runtime =>
      if bool_decide (runtime ∈ SUPPORTED_RUNTIMES) then
        image ← resolve_container_image (iu_settings (ib_setup b)) runtime;
        let c := serving_container runtime image (pi_model input) in
        mret (set_predictor b runtime
          {| pr_pod := default_host_network (iu_provider (ib_setup b)) (predictor_pod b c);
             pr_extension := predictor_extension input; pr_model := None |})
      else raise (ValueError ("Unsupported runtime: " +:+ runtime
             +:+ ". Supported runtimes: {'kserve-sklearnserver', 'llamacpp-server'}"))
  | None => raise (ValueError
             "Unsupported runtime: None. Supported runtimes: {'kserve-sklearnserver', 'llamacpp-server'}")
  end.

Definition get_inferencing_pod_policy (b : InfBuilder) : M W (InfPolicy * InfPolicy) :=
  if ib_allow_all b then
    cvm_measurements ← get_cvm_measurements (iu_settings (ib_setup b));
    lift (first_image ← first_value cvm_measurements;
          pcrs ← json_item first_image "pcrs";
          p ← allow_all_policy pcrs;
          Ok (p, p))
  else raise (RuntimeError "Custom policy generation is not implemented yet.").

(** [InferenceServiceBuilder.Build] *)
Definition base_build (b : InfBuilder) : M W CleanRoomInferencingApplication :=
  match ib_app_name b with
  | Some app_name =>
      if str_truthy app_name then
        c ← lift (sidecar_builder b app_name);
        sidecars ← Build be c;
        policies ← get_inferencing_pod_policy b;
        lift (predictor ← of_option (AssertionError "") (ib_predictor b);
              let init := map (fun s => (of_sidecar (container s), virtual_node_policy s)) sidecars in
              let pod := with_volumes (with_init (pr_pod predictor) (map fst init)) pod_volumes in
              containers ← of_option (AssertionError "") (ps_containers pod);
              runtime ← of_option (AssertionError "") (ib_runtime b);
              containers ← update_serving (wire_serving b runtime) containers;
              Ok {| ia_spec := {| is_predictor := with_pod predictor (with_containers pod (Some containers));
                                  is_explainer := None; is_transformer := None |};
                    ia_predictor_policy := policies.1; ia_transformer_policy := policies.2;
                    ia_sidecars := init |})
      else raise (ValueError "Missing required fields to build InferenceService")
  | None => raise (ValueError "Missing required fields to build InferenceService")
  end.

Definition inf_build (b : InfBuilder) : M W CleanRoomInferencingApplication :=
  app ← base_build b;
  match iu_provider (ib_setup b) with
  | InfVirtual => lift (virtual_build (ics_base (iu_settings (ib_setup b))) app)
  | InfConfidentialVM => lift (cvm_build app)
  | InfConfidentialVirtualNode => mret app
  end.

(** ** The factory and the converter *)

Definition get_inference_svc_builder (provider : InferencingComputeProvider) (job : InferenceJob)
    (settings : InfCleanroomSettings) (telemetry : TelemetrySettings) (trace_context : list (string * string))
  : res InfBuilder :=
  match provider with
  | InfVirtual | InfConfidentialVM =>
      Ok (new_inf_builder {| iu_provider := provider; iu_settings := settings; iu_telemetry := telemetry;
                             iu_governance := ij_governance job; iu_contract_id := ij_contract_id job;
                             iu_trace_context := trace_context |})
  | InfConfidentialVirtualNode => Err (ValueError "Confidential VN2 compute provider support not yet added!")
  end.

Definition convert_to_inference_svc_spec (config : InfConfiguration) (trace_context : list (string * string))
    (job_id : string) (job : InferenceJob) (policy_file : string) (debug_mode allow_all : bool)
    (telemetry : option TelemetrySettings) : M W CleanRoomInferencingApplication :=
  b ← lift (get_inference_svc_builder (ks_compute_provider (ic_kserve config)) job (ic_cleanroom config)
              (default default_TelemetrySettings telemetry) trace_context);
  let b := inf_WithNamespace (inf_WithPolicy (inf_WithName b job_id) policy_file debug_mode allow_all)
             (inf_namespace (ic_inferencing config)) in
  let b := match ij_model_dir job with
           | Some d => if str_truthy d then inf_WithModelDir b d else b
           | None => b
           end in
  let b := inf_WithModelName b (ij_model_name job) in
  let b := match ij_placement job with Some p => inf_WithPlacement b p | None => b end in
  b ← AddPredictor b (ij_predictor job);
  inf_build (foldl inf_AddDataset b (ij_datasets job)).

(** [job_converters.get(config).to_inference_svc_spec(...)] *)
Definition to_inference_svc_spec (config : InfConfiguration) (trace_context : list (string * string))
    (job_id : string) (job : InferenceJob) (telemetry : option TelemetrySettings)
  : M W CleanRoomInferencingApplication :=
  convert_to_inference_svc_spec config trace_context job_id job "" true true telemetry.
End Build.
