(* ===== verification/KServeClient.v ===== *)
(** * The Kubernetes client and metrics of the KServe front end

    [clients/kubernetes_client.py] and [telemetry/metrics.py] of
    [kserve_inferencing_frontend].  The API server is the record [KServeApi];
    pydantic's validation of a status is the parameter [validate_isvc].  The
    state [FE] of [Metrics] pairs the outside world with the metric updates;
    durations are left out of these. *)

From S2P Require Import Prelude PyStr Json JsonFacts PyFloat SparkModels Settings CleanroomModels Metrics KubeClient KServeModels.

(** ** Metrics *)

Definition kserve_job_submission_events (success : bool) (labels : list (string * json)) : list metric_event :=
  let attrs := ("success", JStr (bool_text success)) :: labels in
  CounterAdd "kserve_job_submissions_total" 1 attrs
    :: (if success then CounterAdd "kserve_active_jobs_total" 1 attrs
        else CounterAdd "kserve_job_submissions_failed_total" 1 attrs)
    :: [HistogramRecord "kserve_job_submission_duration_seconds" attrs].

Definition kserve_job_completion_events (job_type : string) (success : bool) (labels : list (string * json))
  : list metric_event :=
  let attrs := [("job_type", JStr job_type); ("success", JStr (bool_text success))] ++ labels in
  [CounterAdd "kserve_active_jobs_total" (-1) attrs]
    ++ (if success then [] else [CounterAdd "kserve_job_failed_total" 1 attrs])
    ++ [HistogramRecord "kserve_job_duration_seconds" attrs].

Definition kserve_http_request_events (method path : string) (status_code : Z) : list metric_event :=
  let attrs := [("method", JStr method); ("path", JStr path); ("status_code", JStr (str_of_Z status_code))] in
  [CounterAdd "http_requests_total" 1 attrs; HistogramRecord "http_request_duration_seconds" attrs]
    ++ (if (400 <=? status_code)%Z then [CounterAdd "http_requests_failed_total" 1 attrs] else []).

Definition kserve_k8s_operation_events (operation resource_kind : string) (success : bool)
    (labels : list (string * json)) : list metric_event :=
  let attrs := [("operation", JStr operation); ("resource_kind", JStr resource_kind);
                ("success", JStr (bool_text success))] ++ labels in
  [CounterAdd "k8s_operations_total" 1 attrs]
    ++ (if success then [] else [CounterAdd "k8s_operations_failed_total" 1 attrs])
    ++ [HistogramRecord "k8s_operation_duration_seconds" attrs].

(** ** Objects *)

(** The body of a custom resource; [rb_spec] stands for
    [spec.model_dump(exclude_unset=True)]. *)
Record ResourceBody := {
  rb_api_version : string;
  rb_kind : string;
  rb_name : string;
  rb_namespace : string;
  rb_labels : list (string * string);
  rb_annotations : list (string * json);
  rb_resource_version : option json;
  rb_spec : InferenceServiceSpec
}.

Definition with_resource_version (b : ResourceBody) (v : json) : ResourceBody :=
  {| rb_api_version := rb_api_version b; rb_kind := rb_kind b; rb_name := rb_name b;
     rb_namespace := rb_namespace b; rb_labels := rb_labels b; rb_annotations := rb_annotations b;
     rb_resource_version := Some v; rb_spec := rb_spec b |}.

Record V1OwnerReference := {
  or_api_version : string;
  or_kind : string;
  or_name : string;
  or_uid : json;
  or_block_owner_deletion : bool;
  or_controller : bool
}.

Record V1ServicePort := { sp_port_name : string; sp_port : Z; sp_target_port : Z; sp_protocol : string }.

Record V1Service := {
  sv_name : string;
  sv_namespace : string;
  sv_labels : list (string * string);
  sv_owner_references : list V1OwnerReference;
  sv_selector : list (string * string);
  sv_ports : list V1ServicePort
}.

(** ** The outside world *)

Record KServeApi (W : Type) := {
  get_object : string -> string -> string -> string -> string -> M W json;
  replace_object : string -> string -> string -> string -> string -> ResourceBody -> M W unit;
  create_object : string -> string -> string -> string -> ResourceBody -> M W unit;
  create_namespaced_service : string -> V1Service -> M W unit
}.
Arguments get_object {W}.
Arguments replace_object {W}.
Arguments create_object {W}.
Arguments create_namespaced_service {W}.

Definition api_409 (e : exn) : bool :=
  match e with ApiException (Some 409%Z) _ => true | _ => false end.

Section Client.
Context {W : Type} (api : KServeApi W) (rs : InferenceServiceResourceSettings).
Context (validate_isvc : json -> res InferenceServiceStatus).

(** [KubernetesAPICaller.call]: the outcome is recorded on the way out. *)
Definition kserve_call {A} (operation resource_type name ns : string) (m : M W A) : M (FE W) A := fun s =>
  let '(s', r) := in_world m s in
  (emit (kserve_k8s_operation_events operation resource_type (is_ok r)
           (truthy_label "namespace" (JStr ns) ++ truthy_label "resource_name" (JStr name))) s', r).

(** The body is updated in place with the version read, so that a creation after
    a failed replacement sends it too.  The look-up itself is not metered. *)
Definition submit_custom_resource (name ns : string) (spec_dict : InferenceServiceSpec)
    (group version kind plural : string) (tags : option (list (string * string)))
    (annotations : option (list (string * json))) : M (FE W) unit :=
  let body := {| rb_api_version := group +:+ "/" +:+ version; rb_kind := kind; rb_name := name;
                 rb_namespace := ns; rb_labels := default [] tags; rb_annotations := default [] annotations;
                 rb_resource_version := None; rb_spec := spec_dict |} in
  let create (b : ResourceBody) := kserve_call "create" (lower kind) name ns (create_object api group version ns plural b) in
  existing ← try_except (e ← in_world (get_object api group version ns plural name); mret (Some e))
               (fun e => if api_404 e then mret None else raise e);
  match existing with
  | None => create body
  | Some j =>
      v ← lift (meta ← json_item j "metadata"; json_item meta "resourceVersion");
      let body := with_resource_version body v in
      try_except (kserve_call "update" (lower kind) name ns (replace_object api group version ns plural name body))
        (fun e => if api_404 e then create body else raise e)
  end.

Definition get_custom_resource (name ns group version kind plural : string) : M (FE W) json :=
  try_except (kserve_call "get" (lower kind) name ns (get_object api group version ns plural name))
    (fun e => if api_404 e then raise (ResourceNotFound ("Custom resource " +:+ name +:+ " not found")) else raise e).

Definition get_inference_service_owner_ref (name ns : string) : M (FE W) V1OwnerReference :=
  cr ← in_world (get_object api (ir_group rs) (ir_version rs) ns (ir_plural rs) name);
  uid ← lift (meta ← json_item cr "metadata"; json_item meta "uid");
  mret {| or_api_version := ir_group rs +:+ "/" +:+ ir_version rs; or_kind := ir_kind rs; or_name := name;
          or_uid := uid; or_block_owner_deletion := true; or_controller := true |}.

Definition ccr_proxy_service (name ns : string) (owner_ref : V1OwnerReference) : V1Service :=
  {| sv_name := name +:+ "-predictor-https"; sv_namespace := ns;
     sv_labels := [("app", "isvc." +:+ name +:+ "-predictor"); ("component", "predictor")];
     sv_owner_references := [owner_ref]; sv_selector := [("app", "isvc." +:+ name +:+ "-predictor")];
     sv_ports := [{| sp_port_name := "https"; sp_port := 443; sp_target_port := 443; sp_protocol := "TCP" |}] |}.

Definition create_ccr_proxy_service (name ns : string) (owner_ref : V1OwnerReference) : M (FE W) unit :=
  try_except (in_world (create_namespaced_service api ns (ccr_proxy_service name ns owner_ref)))
    (fun e => if api_409 e then mret () else raise e).

Definition submit_inference_service (name ns : string) (spec : InferenceServiceSpec)
    (tags : option (list (string * string))) (annotations : option (list (string * json))) : M (FE W) unit :=
  _ ← submit_custom_resource name ns spec (ir_group rs) (ir_version rs) (ir_kind rs) (ir_plural rs) tags annotations;
  owner_ref ← get_inference_service_owner_ref name ns;
  create_ccr_proxy_service name ns owner_ref.

(** The part of [get_inference_service] after the request. *)
Definition inference_service_of (ret_val : json) : res InferenceService :=
  metadata_dict ← json_get ret_val "metadata" (JObj []);
  metadata_obj ← object_meta metadata_dict;
  status_dict ← json_get ret_val "status" (JObj []);
  status ← (if json_truthy status_dict then st ← validate_isvc status_dict; Ok (Some st) else Ok None);
  Ok {| svc_metadata := metadata_obj; svc_status := status |}.

Definition get_inference_service (name ns : string) : M (FE W) InferenceService :=
  ret_val ← get_custom_resource name ns (ir_group rs) (ir_version rs) (ir_kind rs) (ir_plural rs);
  lift (inference_service_of ret_val).
End Client.
