(* ===== verification/KServeFrontend.v ===== *)
(** * The KServe inferencing front end's HTTP service

    [main.py] of [kserve_inferencing_frontend] and its governance connector: the
    endpoints that deploy a model, report its status and policy, and the report
    that binds the service certificate.  The outside world is the record
    [KServeEnv]. *)

From S2P Require Import Prelude PyStr Base64 Json JsonFacts Template PyFloat SparkModels Settings CleanroomModels AppBuilder Metrics KubeClient KServeModels KServeBuilder KServeClient.

Record KServeEnv (W : Type) := {
  ke_api : KServeApi W;
  ke_validate : json -> res InferenceServiceStatus;
  ke_build : BuildEnv W;
  ke_carrier : list (string * string);
  ke_environ : string -> option string;
  ke_http_post : string -> json -> M W (Z * res json);
  ke_path_exists : string -> M W bool;
  ke_read_text : string -> M W string;
  ke_time : M W Z
}.
Arguments ke_api {W}.
Arguments ke_validate {W}.
Arguments ke_build {W}.
Arguments ke_carrier {W}.
Arguments ke_environ {W}.
Arguments ke_http_post {W}.
Arguments ke_path_exists {W}.
Arguments ke_read_text {W}.
Arguments ke_time {W}.

(** ** Responses *)

Record DeployResponse := { dr_status : string; dr_id : string }.

(** [None] stands for the placeholder with an empty url. *)
Record InfStatusResponse := { isr_id : string; isr_status : option InferenceServiceStatus }.

Record PolicyView := { pv_jsonBase64 : string; pv_pcrs : json }.

Record InfPolicyResponse := { ipr_predictor : PolicyView; ipr_transformer : PolicyView }.

Record InfResponse := { ir_status_code : Z; ir_content : json }.

Definition GOVERNANCE_PORT : Z := 8300.

(** [response.raise_for_status()] *)
Definition kserve_raise_for_status (code : Z) : res unit :=
  if ((400 <=? code) && (code <? 600))%Z then Err (HTTPError ("status " +:+ str_of_Z code)) else Ok ().

Section Service.
Context {W : Type} (ke : KServeEnv W) (config : InfConfiguration).

Definition inf_ns : string := inf_namespace (ic_inferencing config).
Definition inf_rs : InferenceServiceResourceSettings := ks_resource (ic_kserve config).
Definition inf_telemetry (enable : bool) : option TelemetrySettings :=
  if enable then Some (iss_telemetry (ic_service config)) else None.

(** ** Signing *)

Definition sign_policy (payload : string) : M W json :=
  response ← ke_http_post ke ("http://localhost:" +:+ str_of_Z GOVERNANCE_PORT +:+ "/signing/sign")
               (JObj [("payload", JStr payload)]);
  lift (_ ← kserve_raise_for_status response.1;
        result ← response.2;
        signature ← json_get result "value" JNull;
        if json_truthy signature then Ok signature else Err (ValueError "No 'value' field in signing response")).

(** The signature is put in as governance returned it. *)
Definition policy_annotations (signature : json) : list (string * json) :=
  [("api-server-proxy.io/policy", JStr KSERVE_ALLOW_ALL_POLICY_BASE64);
   ("api-server-proxy.io/signature", signature)].

Definition annotate_predictor (s : InferenceServiceSpec) (a : list (string * json)) : InferenceServiceSpec :=
  let p := is_predictor s in
  let e := pr_extension p in
  with_predictor s
    {| pr_pod := pr_pod p;
       pr_extension :=
         {| ce_minReplicas := ce_minReplicas e; ce_maxReplicas := ce_maxReplicas e;
            ce_canaryTrafficPercent := ce_canaryTrafficPercent e;
            ce_containerConcurrency := ce_containerConcurrency e; ce_timeout := ce_timeout e;
            ce_scaleTarget := ce_scaleTarget e; ce_scaleMetric := ce_scaleMetric e;
            ce_scaleMetricType := ce_scaleMetricType e; ce_autoScaling := ce_autoScaling e;
            ce_logger := ce_logger e; ce_batcher := ce_batcher e;
            ce_deploymentStrategy := ce_deploymentStrategy e; ce_annotations := Some a;
            ce_labels := ce_labels e |};
       pr_model := pr_model p |}.

(** ** Deployment *)

(** [finally: metrics_collector.record_job_submission(...)] *)
Definition metered_submission {A} (namespace : string) (m : M (FE W) A) : M (FE W) A := fun s =>
  let '(s', r) := m s in
  (emit (kserve_job_submission_events (is_ok r) [("namespace", JStr namespace)]) s', r).

Definition deploy_model (job_id : string) (job : InferenceJob) (namespace : string)
    (enable_telemetry_collection : bool) (tags : option (list (string * string))) : M (FE W) DeployResponse :=
  metered_submission namespace
    (app ← in_world (to_inference_svc_spec (ke_build ke) config (ke_carrier ke) job_id job
                       (inf_telemetry enable_telemetry_collection));
     signature ← in_world (sign_policy KSERVE_ALLOW_ALL_POLICY_BASE64);
     let spec := annotate_predictor (ia_spec app) (policy_annotations signature) in
     _ ← submit_inference_service (ke_api ke) inf_rs (ij_model_name job) namespace spec tags None;
     mret {| dr_status := "success"; dr_id := ij_model_name job |}).

Definition model_mount : V1VolumeMount :=
  {| vm_name := JStr "model-data"; vm_mount_path := JStr "/mnt/models"; vm_read_only := JNull;
     vm_mount_propagation := JNull |}.

Definition test_container (name image : string) (command : json) (args : list string)
    (ports : option (list V1ContainerPort)) : PodContainer :=
  {| k_name := JStr name; k_image := JStr image; k_command := command; k_args := Some args; k_env := None;
     k_resources := None; k_volume_mounts := Some [model_mount]; k_security_context := None; k_ports := ports;
     k_startup_probe := None; k_restart_policy := None |}.

Definition model_url : string :=
  "https://storage.googleapis.com/kfserving-examples/models/sklearn/1.0/model/model.joblib".

(** The pod of the integration test. *)
Definition test_pod (name : string) (node_type : option NodeType) (host_network : option bool) : PodSpec :=
  let flex := match node_type with Some flexnode => true | None => false end in
  {| ps_initContainers := Some [test_container "model-download" "busybox:1.36" (JArr [JStr "sh"; JStr "-c"])
       ["mkdir -p /mnt/models && wget -q -O /mnt/models/model.joblib " +:+ model_url] None];
     ps_containers := Some [test_container "kserve-container" "docker.io/kserve/sklearnserver:v0.17.0" JNull
       ["--model_name=" +:+ name; "--model_dir=/mnt/models"]
       (Some [{| port_name := JNull; container_port := 8080; port_protocol := JStr "TCP" |}])];
     ps_volumes := Some [{| vol_name := "model-data"; vol_source := EmptyDir |}];
     ps_hostNetwork := if flex then host_network else None;
     ps_nodeSelector := if flex then Some [("pod-policy", "required")] else None;
     ps_tolerations := if flex then Some [pod_policy_toleration] else None;
     ps_affinity := None; ps_serviceAccountName := None |}.

Definition deploy_test_model (name job_id namespace : string) (node_type : option NodeType)
    (host_network : option bool) (signature : option string) (tags : option (list (string * string)))
  : M (FE W) DeployResponse :=
  metered_submission namespace
    (let spec := {| is_predictor := with_pod empty_PredictorSpec (test_pod name node_type host_network);
                    is_explainer := None; is_transformer := None |} in
     _ ← submit_inference_service (ke_api ke) inf_rs name namespace spec tags
           ((fun s => policy_annotations (JStr s)) <$> signature);
     mret {| dr_status := "success"; dr_id := name |}).

Definition inf_500 {A} (what : string) (e : exn) : M (FE W) A :=
  raise (HTTPException 500 (what +:+ ": " +:+ exn_str e)).

Definition inferencing_tags : option (list (string * string)) := Some [("job_type", "inferencing")].

Definition deploy_inferencing_model (job : InferenceJob) (job_id : string) (enable_telemetry_collection : bool)
  : M (FE W) DeployResponse :=
  job_id ← (if str_truthy job_id then mret job_id else t ← in_world (ke_time ke); mret (str_of_Z t));
  try_except (deploy_model job_id job inf_ns enable_telemetry_collection inferencing_tags)
    (inf_500 "Failed to create inferencing service").

Definition deploy_inferencing_test_model (model_name : string) (node_type : option NodeType)
    (host_network : option bool) (signature : option string) : M (FE W) DeployResponse :=
  t ← in_world (ke_time ke);
  try_except (deploy_test_model model_name (str_of_Z t) inf_ns node_type host_network signature inferencing_tags)
    (inf_500 "Failed to create inferencing service").

(** The only node type passes the check. *)
Definition get_inferencing_test_policy (node_type : NodeType) : res json :=
  match node_type with
  | flexnode => Ok (JObj [("predictor", JObj [("jsonBase64", JStr KSERVE_ALLOW_ALL_POLICY_BASE64)])])
  end.

(** ** Status and policy *)

Definition inf_get_status (model_name : string) : M (FE W) InfStatusResponse :=
  try_except
    (svc ← get_inference_service (ke_api ke) inf_rs (ke_validate ke) model_name inf_ns;
     mret {| isr_id := model_name; isr_status := svc_status svc |})
    (fun e => match e with
              | ResourceNotFound _ => raise (HTTPException 404 ("Job with ID " +:+ model_name +:+ " not found"))
              | _ => inf_500 "Failed to get model status" e
              end).

Definition policy_view (p : InfPolicy) : PolicyView :=
  {| pv_jsonBase64 := pol_json_base64 p; pv_pcrs := pol_pcrs p |}.

Definition get_inferencing_service_policy (job : InferenceJob) (enable_telemetry_collection : bool)
  : M (FE W) InfPolicyResponse :=
  t ← in_world (ke_time ke);
  try_except
    (app ← in_world (to_inference_svc_spec (ke_build ke) config (ke_carrier ke) (str_of_Z t) job
                       (inf_telemetry enable_telemetry_collection));
     mret {| ipr_predictor := policy_view (ia_predictor_policy app);
             ipr_transformer := policy_view (ia_transformer_policy app) |})
    (inf_500 "Failed to get inferencing pod policy").

(** ** The attestation report *)

Definition inf_isSevSnp : bool :=
  negb (bool_decide (ke_environ ke "INSECURE_VIRTUAL_ENVIRONMENT" = Some "true")).

Definition inf_cert_location : string :=
  default "/app/service/service-cert.pem" (ke_environ ke "SERVICE_CERT_LOCATION").

Definition inf_get_report (report_data : string) : M W json :=
  response ← ke_http_post ke "http://localhost:8284/attest/combined"
               (JObj [("runtime_data", JStr (b64encode report_data))]);
  lift (_ ← kserve_raise_for_status response.1;
        data ← response.2;
        evidence ← json_get data "evidence" JNull;
        endorsements ← json_get data "endorsements" JNull;
        uvm_endorsements ← json_get data "uvm_endorsements" JNull;
        Ok (JObj [("attestation", evidence); ("platformCertificates", endorsements);
                  ("uvmEndorsements", uvm_endorsements)])).

Definition inf_getFrontendReport : M (FE W) json :=
  found ← in_world (ke_path_exists ke inf_cert_location);
  if negb found then
    raise (HTTPException 404 ("Service cert file not found at " +:+ inf_cert_location))
  else
    service_cert ← in_world (ke_read_text ke inf_cert_location);
    let report_data_bytes := utf8_encode (dumps (JObj [("serviceCert", JStr service_cert)])) in
    report ← (if inf_isSevSnp then in_world (inf_get_report report_data_bytes) else mret JNull);
    mret (JObj [("platform", JStr (if inf_isSevSnp then "snp" else "virtual")); ("report", report);
                ("reportDataPayload", JStr (b64encode report_data_bytes))]).

Definition is_ready : json := JObj [("status", JStr "up")].

(** ** Middleware and error handlers *)

(** A request that raises is not counted. *)
Definition inf_telemetry_middleware (method path : string) (call_next : M (FE W) InfResponse)
  : M (FE W) InfResponse :=
  response ← call_next;
  _ ← modify (emit (kserve_http_request_events method path (ir_status_code response)));
  mret response.

(** [exn_repr] is [repr] of an exception. *)
Definition kubernetes_error_handler (exn_repr : exn -> string) (path : string) (status : option Z) (e : exn)
  : InfResponse :=
  {| ir_status_code := match status with Some s => if (s =? 0)%Z then 500 else s | None => 500 end;
     ir_content := JObj [("message", JStr ("An error occurred while processing " +:+ path));
                         ("error", JStr (exn_repr e)); ("details", JStr (exn_str e))] |}.

Definition validation_exception_handler (errors : json) : InfResponse :=
  {| ir_status_code := 422; ir_content := JObj [("message", JStr "Validation Failed"); ("errors", errors)] |}.
End Service.
