(* ===== verification/KServeProps.v ===== *)
(** * What the KServe builders guarantee

    The serving container, the route from the pod's HTTPS service through the
    proxy, the propagation of mounts, and the policy a pod is deployed with. *)

From S2P Require Import Prelude PyStr Base64 Json JsonFacts Template PyFloat SparkModels Settings Helpers CleanroomModels AppBuilder AppBuilderProps Metrics KubeClient KServeModels KServeBuilder KServeClient.
From Stdlib Require Import Lia.

(** ** Inverting a conversion *)

(** The builder a job ends up with. *)
Definition job_builder (config : InfConfiguration) (tc : list (string * string)) (job_id : string)
    (job : InferenceJob) (tel : option TelemetrySettings) (runtime : string) (p : PredictorSpec) : InfBuilder :=
  {| ib_setup := {| iu_provider := ks_compute_provider (ic_kserve config); iu_settings := ic_cleanroom config;
                    iu_telemetry := default default_TelemetrySettings tel; iu_governance := ij_governance job;
                    iu_contract_id := ij_contract_id job; iu_trace_context := tc |};
     ib_app_name := Some (to_kserve_app_name job_id); ib_runtime := Some runtime; ib_predictor := Some p;
     ib_debug_mode := true; ib_allow_all := true; ib_datasets := ij_datasets job;
     ib_model_dir := match ij_model_dir job with Some d => if str_truthy d then Some d else None | None => None end;
     ib_model_name := Some (ij_model_name job); ib_namespace := Some (inf_namespace (ic_inferencing config));
     ib_placement := ij_placement job |}.

(** The predictor made from the request and the resolved image. *)
Definition job_predictor (provider : InferencingComputeProvider) (job : InferenceJob) (runtime image : string)
  : PredictorSpec :=
  {| pr_pod := default_host_network provider
       {| ps_initContainers := None;
          ps_containers := Some [serving_container runtime image (pi_model (ij_predictor job))]; ps_volumes := None;
          ps_hostNetwork := ij_placement job ≫= host_network; ps_nodeSelector := Some [("pod-policy", "required")];
          ps_tolerations := Some [pod_policy_toleration]; ps_affinity := None; ps_serviceAccountName := None |};
     pr_extension := predictor_extension (ij_predictor job); pr_model := None |}.

Lemma add_datasets ds : forall b,
  foldl inf_AddDataset b ds =
  {| ib_setup := ib_setup b; ib_app_name := ib_app_name b; ib_runtime := ib_runtime b;
     ib_predictor := ib_predictor b; ib_debug_mode := ib_debug_mode b; ib_allow_all := ib_allow_all b;
     ib_datasets := ib_datasets b ++ ds; ib_model_dir := ib_model_dir b; ib_model_name := ib_model_name b;
     ib_namespace := ib_namespace b; ib_placement := ib_placement b |}.
Proof.
  induction ds as [|d ds IH]; intros b; cbn [foldl]; [rewrite app_nil_r; by destruct b|].
  rewrite IH. cbn. by rewrite <- app_assoc.
Qed.

(** The override of a provider. *)
Definition override (provider : InferencingComputeProvider) (settings : CleanroomSettings)
    (app : CleanRoomInferencingApplication) : res CleanRoomInferencingApplication :=
  match provider with
  | InfVirtual => virtual_build settings app
  | InfConfidentialVM => cvm_build app
  | InfConfidentialVirtualNode => Ok app
  end.

Section Inversion.
Context {W : Type} (be : BuildEnv W) (config : InfConfiguration).
Abbreviation provider := (ks_compute_provider (ic_kserve config)).

(** The builder of the job, before the predictor and the datasets are added. *)
Definition bare_builder (tc : list (string * string)) (job_id : string) (job : InferenceJob)
    (tel : option TelemetrySettings) : InfBuilder :=
  {| ib_setup := {| iu_provider := provider; iu_settings := ic_cleanroom config;
                    iu_telemetry := default default_TelemetrySettings tel; iu_governance := ij_governance job;
                    iu_contract_id := ij_contract_id job; iu_trace_context := tc |};
     ib_app_name := Some (to_kserve_app_name job_id); ib_runtime := None; ib_predictor := None;
     ib_debug_mode := true; ib_allow_all := true; ib_datasets := [];
     ib_model_dir := match ij_model_dir job with Some d => if str_truthy d then Some d else None | None => None end;
     ib_model_name := Some (ij_model_name job); ib_namespace := Some (inf_namespace (ic_inferencing config));
     ib_placement := ij_placement job |}.

Lemma convert_run tc job_id job tel w :
  to_inference_svc_spec be config tc job_id job tel w =
  if bool_decide (provider = InfConfidentialVirtualNode)
  then (w, Err (ValueError "Confidential VN2 compute provider support not yet added!"))
  else (b ← AddPredictor be (bare_builder tc job_id job tel) (ij_predictor job);
        inf_build be (foldl inf_AddDataset b (ij_datasets job))) w.
Proof.
  unfold to_inference_svc_spec, convert_to_inference_svc_spec, bare_builder. rewrite M_bind_run.
  unfold get_inference_svc_builder.
  destruct provider; cbn [lift bool_decide decide]; [reflexivity|..];
    (destruct (ij_model_dir job) as [d|]; [destruct (str_truthy d)|]);
    destruct (ij_placement job); reflexivity.
Qed.

Lemma convert_inv tc job_id job tel w w' app :
  to_inference_svc_spec be config tc job_id job tel w = (w', Ok app) ->
  exists runtime image w1 app0,
    provider <> InfConfidentialVirtualNode /\
    mi_runtime (pi_model (ij_predictor job)) = Some runtime /\ runtime ∈ SUPPORTED_RUNTIMES /\
    resolve_container_image be (ic_cleanroom config) runtime w = (w1, Ok image) /\
    base_build be (job_builder config tc job_id job tel runtime (job_predictor provider job runtime image)) w1
      = (w', Ok app0) /\
    override provider (ics_base (ic_cleanroom config)) app0 = Ok app.
Proof.
  rewrite convert_run. case_bool_decide as Hprov; [done|].
  intros (w1 & b & Hp & H)%M_bind_ok. unfold AddPredictor in Hp.
  destruct (mi_runtime (pi_model (ij_predictor job))) as [runtime|]; [|done].
  destruct (bool_decide_reflect (runtime ∈ SUPPORTED_RUNTIMES)) as [Hr|]; [|done].
  apply M_bind_ok in Hp as (w2 & image & Hi & [= <- <-]).
  rewrite add_datasets in H. unfold inf_build in H. apply M_bind_ok in H as (w3 & app0 & H0 & H).
  exists runtime, image, w2, app0. split_and!; try done.
  - assert (w3 = w') as <- by (cbn in H; destruct provider; by injection H). exact H0.
  - cbn in H. unfold override. destruct provider; by injection H.
Qed.
Definition sidecar_containers (sidecars : list Sidecar) : list (PodContainer * json) :=
  map (fun s => (of_sidecar (container s), virtual_node_policy s)) sidecars.

(** The application [base_build] makes of a job. *)
Definition base_app (b : InfBuilder) (job : InferenceJob) (runtime image : string) (sidecars : list Sidecar)
    (pol : InfPolicy) : CleanRoomInferencingApplication :=
  let p := job_predictor provider job runtime image in
  {| ia_spec :=
       {| is_predictor := with_pod p (with_containers
            (with_volumes (with_init (pr_pod p) (map fst (sidecar_containers sidecars))) pod_volumes)
            (Some [wire_serving b runtime (serving_container runtime image (pi_model (ij_predictor job)))]));
          is_explainer := None; is_transformer := None |};
     ia_predictor_policy := pol; ia_transformer_policy := pol; ia_sidecars := sidecar_containers sidecars |}.

Lemma job_pod_containers job runtime image :
  ps_containers (pr_pod (job_predictor provider job runtime image))
  = Some [serving_container runtime image (pi_model (ij_predictor job))].
Proof. unfold job_predictor, default_host_network. cbn. by destruct provider, (ij_placement job ≫= host_network). Qed.

Lemma base_inv tc job_id job tel runtime image w w' app0 :
  let b := job_builder config tc job_id job tel runtime (job_predictor provider job runtime image) in
  base_build be b w = (w', Ok app0) ->
  exists c sidecars w1 pcrs pol,
    sidecar_builder b (to_kserve_app_name job_id) = Ok c /\ Build be c w = (w1, Ok sidecars) /\
    allow_all_policy pcrs = Ok pol /\ app0 = base_app b job runtime image sidecars pol.
Proof.
  intros b. unfold base_build. cbn [ib_app_name b job_builder].
  destruct (str_truthy (to_kserve_app_name job_id)); [|done].
  intros (w0 & c & [-> Hc]%lift_ok & (w1 & sidecars & Hs & (w2 & pols & Hp & H)%M_bind_ok)%M_bind_ok)%M_bind_ok.
  unfold get_inferencing_pod_policy in Hp. cbn [ib_allow_all b job_builder] in Hp.
  apply M_bind_ok in Hp as (w3 & ms & _ & [-> Hp]%lift_ok).
  apply res_bind_ok in Hp as (v & _ & Hp). apply res_bind_ok in Hp as (pcrs & _ & Hp).
  apply res_bind_ok in Hp as (pol & Hpol & [= <-]).
  exists c, sidecars, w1, pcrs, pol. split_and!; try done.
  apply lift_ok in H as [_ H]. cbn [ib_predictor ib_runtime b job_builder of_option mbind res_bind] in H.
  unfold with_volumes, with_init in H. cbn [ps_containers] in H. rewrite job_pod_containers in H.
  cbn in H. injection H as <-. reflexivity.
Qed.
End Inversion.

(** ** The serving container *)

Definition pod_of (app : CleanRoomInferencingApplication) : PodSpec := pr_pod (is_predictor (ia_spec app)).

(** The image is the digest-pinned one of an entry for the runtime, the first. *)
Definition pinned (runtime : string) (entries : list json) (image : string) : Prop :=
  exists pre entry post i d, entries = pre ++ entry :: post /\
    (forall e j, e ∈ pre -> json_get e "runtime" JNull = Ok j -> json_eqs j runtime = false) /\
    json_get entry "runtime" JNull = Ok (JStr runtime) /\
    json_item entry "image" = Ok i /\ json_item entry "digest" = Ok d /\ image = py_str i +:+ "@" +:+ py_str d.

Lemma json_eqs_true j s : json_eqs j s = true -> j = JStr s.
Proof. destruct j; cbn; try done. rewrite bool_decide_eq_true. congruence. Qed.

Lemma find_runtime_pinned runtime entries image : find_runtime runtime entries = Ok image -> pinned runtime entries image.
Proof.
  induction entries as [|e entries IH]; cbn; [done|]. intros (r & Hr & H)%res_bind_ok.
  destruct (json_eqs r runtime) eqn:He.
  - apply json_eqs_true in He as ->. apply res_bind_ok in H as (i & Hi & H). apply res_bind_ok in H as (d & Hd & [= <-]).
    exists [], e, entries, i, d. split_and!; try done. intros e' j Hin. by apply not_elem_of_nil in Hin.
  - destruct (IH H) as (pre & e' & post & i & d & -> & Hpre & Hrest).
    exists (e :: pre), e', post, i, d. split_and!; try apply Hrest; [done|].
    intros x j [-> |Hx]%elem_of_cons Hj; [congruence | by eapply Hpre].
Qed.

(** Every override keeps the serving container but for its mounts and its
    security context, and keeps the policies. *)
Definition same_program (c c' : PodContainer) : Prop :=
  k_name c' = k_name c /\ k_command c' = k_command c /\ k_args c' = k_args c /\
  k_resources c' = k_resources c /\ k_ports c' = k_ports c /\ k_startup_probe c' = k_startup_probe c.

Record overridden (app app' : CleanRoomInferencingApplication) : Prop := {
  ov_policies : ia_predictor_policy app' = ia_predictor_policy app /\ ia_transformer_policy app' = ia_transformer_policy app;
  ov_extension : pr_extension (is_predictor (ia_spec app')) = pr_extension (is_predictor (ia_spec app));
  ov_serving : forall c, ps_containers (pod_of app) = Some [c] -> named "kserve-container" c = true ->
    exists c', ps_containers (pod_of app') = Some [c'] /\ same_program c c' /\ k_image c' = k_image c /\ k_env c' = k_env c;
  ov_sidecars : Forall2 (fun x y => same_program x.1 y.1) (ia_sidecars app) (ia_sidecars app')
}.

Lemma same_program_refl c : same_program c c.
Proof. by split_and!. Qed.

Lemma same_program_trans c1 c2 c3 : same_program c1 c2 -> same_program c2 c3 -> same_program c1 c3.
Proof. unfold same_program. intuition congruence. Qed.

Lemma propagate_same v c : same_program c (propagate v c).
Proof. by split_and!. Qed.

Lemma update_first_Forall2 (R : PodContainer -> PodContainer -> Prop) p f l :
  (forall c, R c c) -> (forall c, R c (f c)) -> Forall2 R l (default l (update_first p f l)).
Proof.
  intros Hr Hf. induction l as [|c l IH]; cbn; [constructor|].
  destruct (p c); cbn; [constructor; [done | by apply Forall_Forall2_diag, Forall_true]|].
  destruct (update_first p f l); cbn in *; by constructor.
Qed.

Lemma combine_same (R : PodContainer -> PodContainer -> Prop) (xs : list (PodContainer * json)) : forall l,
  Forall2 R (map fst xs) l -> Forall2 (fun x y : PodContainer * json => R x.1 y.1) xs (combine l (map snd xs)).
Proof.
  induction xs as [|x xs IH]; intros l H; inversion H; subst; cbn; [constructor|].
  constructor; [done | by apply IH].
Qed.

Lemma combine_fst (xs : list (PodContainer * json)) (l : list PodContainer) :
  length l = length xs -> map fst (combine l (map snd xs)) = l.
Proof.
  revert l. induction xs as [|x xs IH]; intros [|c l] H; try done. cbn. f_equal. apply IH. by injection H.
Qed.

Definition init_shared (app : CleanRoomInferencingApplication) : Prop :=
  ps_initContainers (pod_of app) = Some (map fst (ia_sidecars app)).

Lemma same_programs_trans l1 l2 l3 :
  Forall2 same_program l1 l2 -> Forall2 same_program l2 l3 -> Forall2 same_program l1 l3.
Proof.
  intros H. revert l3. induction H as [|c1 c2 l1 l2 Hc Hl IH]; intros l3 H; inversion H; subst; constructor; auto.
  by eapply same_program_trans.
Qed.

Lemma virtual_init_same settings l : Forall2 same_program l (virtual_init settings l).
Proof.
  unfold virtual_init.
  set (l1 := default l _). set (l2 := default l1 _).
  assert (Forall2 same_program l l1) as H1.
  { apply update_first_Forall2; [apply same_program_refl | by intros c; split_and!]. }
  assert (Forall2 same_program l1 l2) as H2.
  { apply update_first_Forall2; [apply same_program_refl | by intros c; split_and!]. }
  eapply same_programs_trans; [exact H1|]. eapply same_programs_trans; [exact H2|].
  apply Forall2_fmap_r, Forall_Forall2_diag, Forall_true, propagate_same.
Qed.

Lemma virtual_overridden settings app app' : init_shared app -> virtual_build settings app = Ok app' -> overridden app app'.
Proof.
  intros Hi. unfold virtual_build. fold (pod_of app). rewrite Hi. cbn [default].
  intros (cs & Hcs & H)%res_bind_ok. apply of_option_ok in Hcs. apply res_bind_ok in H as (cs' & Hcs' & [= <-]).
  split; [done | done | |].
  - intros c Hc Hn. rewrite Hc in Hcs. injection Hcs as <-. unfold update_serving in Hcs'. cbn in Hcs'.
    rewrite Hn in Hcs'. cbn in Hcs'. injection Hcs' as <-.
    cbn [ps_initContainers with_containers pod_of].
    destruct (nonempty (ps_initContainers (pod_of app))), (map fst (ia_sidecars app));
      (eexists; split; [reflexivity|]; by split_and!).
  - cbn. apply combine_same, virtual_init_same.
Qed.

Lemma cvm_init_same c c' : cvm_init c = Ok c' -> same_program c c'.
Proof. unfold cvm_init. destruct (k_volume_mounts c); [|done]. intros H. py_inv. by split_and!. Qed.

Lemma cvm_overridden app app' : init_shared app -> cvm_build app = Ok app' ->
  overridden app app' /\ init_shared app'.
Proof.
  intros Hi. unfold cvm_build. fold (pod_of app).
  intros (vs & Hvs & H)%res_bind_ok. cbn [ps_initContainers ps_containers with_volumes] in H. rewrite Hi in H. cbn [default] in H.
  apply res_bind_ok in H as (init & Hinit & H). apply res_bind_ok in H as (cs & Hcs & H). apply of_option_ok in Hcs.
  apply res_bind_ok in H as (cs1 & Hcs1 & H). apply res_bind_ok in H as (cs2 & Hcs2 & [= <-]).
  apply mapM_res_Forall2 in Hinit. split; [split; [done | done | |] | unfold init_shared; cbn].
  - intros c Hc Hn. rewrite Hc in Hcs. injection Hcs as <-. unfold update_serving in Hcs1. cbn in Hcs1.
    rewrite Hn in Hcs1. cbn in Hcs1. injection Hcs1 as <-. cbn in Hcs2.
    apply res_bind_ok in Hcs2 as (c2 & Hc2 & [= <-]). unfold cvm_serving in Hc2.
    destruct (has_mounts _); [|done]. injection Hc2 as <-. unfold init_shared in Hi. cbn [ps_initContainers with_containers with_volumes].
    rewrite Hi. eexists. split; [reflexivity|]. by split_and!.
  - cbn. apply combine_same. eapply Forall2_impl; [exact Hinit | apply cvm_init_same].
  - unfold init_shared, pod_of in *. cbn. rewrite Hi. cbn. f_equal. symmetry. apply combine_fst.
    rewrite <- (length_fmap fst (ia_sidecars app)). symmetry.
    by eapply Forall2_length.
Qed.

(** ** Mount propagation *)

(** Every mount of the remote data in a container propagates as [v]. *)
Definition propagates (v : string) (c : PodContainer) : Prop :=
  forall vms vm, k_volume_mounts c = Some vms -> vm ∈ vms -> vm_name vm = JStr "remotemounts" ->
    vm_mount_propagation vm = JStr v.

Lemma set_propagation_spec v vm : vm_name (set_propagation v vm) = JStr "remotemounts" ->
  vm_mount_propagation (set_propagation v vm) = JStr v.
Proof.
  unfold set_propagation. destruct (json_eqs (vm_name vm) "remotemounts") eqn:E; [done|].
  intros H. by rewrite H in E.
Qed.

Lemma propagate_propagates v c : propagates v (propagate v c).
Proof.
  intros vms vm. unfold propagate. cbn. destruct (k_volume_mounts c) as [l|]; [|done]. cbn. intros [= <-].
  change (map ?f l) with (f <$> l). intros (x & -> & _)%list_elem_of_fmap. apply set_propagation_spec.
Qed.

Lemma cvm_init_propagates c c' : cvm_init c = Ok c' ->
  forall b, json_has "blobfuse" (k_name c') = Ok b -> propagates (if b then "Bidirectional" else "HostToContainer") c'.
Proof.
  unfold cvm_init. destruct (k_volume_mounts c) as [l|]; [|done].
  intros (l' & Hl & [= <-])%res_bind_ok b Hb vms vm. cbn. intros [= <-] Hin Hn. cbn in Hb.
  apply mapM_res_Forall2 in Hl. apply list_elem_of_lookup in Hin as [i Hi].
  destruct (Forall2_lookup_r _ _ _ _ _ Hl Hi) as (vm0 & _ & H). unfold cvm_mount in H.
  destruct (json_eqs (vm_name vm0) "remotemounts") eqn:E.
  - rewrite Hb in H. injection H as <-. by apply set_propagation_spec.
  - injection H as <-. by rewrite Hn in E.
Qed.

Lemma cvm_build_mounts app app' : init_shared app -> cvm_build app = Ok app' ->
  Forall (fun c => forall b, json_has "blobfuse" (k_name c) = Ok b ->
    propagates (if b then "Bidirectional" else "HostToContainer") c) (map fst (ia_sidecars app')) /\
  Forall (propagates "HostToContainer") (default [] (ps_containers (pod_of app'))) /\
  ps_hostNetwork (pod_of app') = ps_hostNetwork (pod_of app) /\
  {| vol_name := "tpmrm0"; vol_source := HostPath "/dev/tpmrm0" |} ∈ default [] (ps_volumes (pod_of app')).
Proof.
  intros Hi. unfold cvm_build. fold (pod_of app).
  intros (vs & Hvs & H)%res_bind_ok. cbn [ps_initContainers ps_containers with_volumes] in H. unfold init_shared in Hi.
  rewrite Hi in H. cbn [default ps_initContainers with_containers] in H.
  apply res_bind_ok in H as (init & Hinit & H). apply res_bind_ok in H as (cs & Hcs & H).
  apply res_bind_ok in H as (cs1 & Hcs1 & H). apply res_bind_ok in H as (cs2 & Hcs2 & [= <-]).
  apply mapM_res_Forall2 in Hinit, Hcs2. rewrite Hi. split_and!; [| | done |].
  - cbn [ia_sidecars]. unfold update_sidecars. rewrite combine_fst by
      (rewrite <- (length_fmap fst (ia_sidecars app)); symmetry; by eapply Forall2_length).
    apply Forall_lookup. intros i c Hc. destruct (Forall2_lookup_r _ _ _ _ _ Hinit Hc) as (c0 & _ & H0).
    by eapply cvm_init_propagates.
  - cbn. apply Forall_lookup. intros i c Hc. destruct (Forall2_lookup_r _ _ _ _ _ Hcs2 Hc) as (c0 & _ & H0).
    unfold cvm_serving in H0. destruct (has_mounts c0); [|done]. injection H0 as <-. apply propagate_propagates.
  - cbn. set_solver.
Qed.

(** The first element that satisfies a predicate that the update keeps. *)
Lemma update_first_at {A} (p : A -> bool) f l pre x post :
  (forall y, p y = true -> p (f y) = true) ->
  default l (update_first p f l) = pre ++ x :: post -> Forall (fun y => p y = false) pre -> p x = true ->
  exists y, x = f y.
Proof.
  intros Hf. revert pre. induction l as [|y l IH]; intros pre; cbn; [by destruct pre|].
  destruct (p y) eqn:Hy; cbn.
  - destruct pre as [|z pre]; cbn; [intros [= <- _]; eauto|]. intros [= <- _] Hpre _.
    apply Forall_cons in Hpre as [Hz _]. by rewrite Hf in Hz.
  - destruct (update_first p f l) as [l'|]; cbn in *; (destruct pre as [|z pre]; cbn; [intros [= <- _]; congruence|]);
      intros [= <- H] [_ Hpre]%Forall_cons Hx; by eapply IH.
Qed.

(** The governance container the virtual builder makes. *)
Definition virtualised (settings : CleanroomSettings) (c : PodContainer) : Prop :=
  k_image c = JStr (virtual_governance_image settings) /\
  {| env_name := JStr "INSECURE_VIRTUAL_DIR"; env_value := JStr "/app/cvm/insecure-virtual/" |} ∈ default [] (k_env c).

(** Updates that keep names, images and environments keep the first container of a name. *)
Lemma kept_first (l l' : list PodContainer) pre c post :
  Forall2 (fun x y => k_name y = k_name x /\ k_image y = k_image x /\ k_env y = k_env x) l l' ->
  l' = pre ++ c :: post -> exists pre0 c0 post0, l = pre0 ++ c0 :: post0 /\
    map k_name pre = map k_name pre0 /\ k_name c = k_name c0 /\ k_image c = k_image c0 /\ k_env c = k_env c0.
Proof.
  intros H ->. apply Forall2_app_inv_r in H as (pre0 & l0 & Hpre & Hl & ->).
  apply Forall2_cons_inv_r in Hl as (c0 & post0 & (Hn & Hi & He) & _ & ->).
  exists pre0, c0, post0. split_and!; try done. clear -Hpre. induction Hpre as [|x y l1 l2 [Hn _] _ IH]; cbn; congruence.
Qed.

Lemma named_map n l l' : map k_name l = map k_name l' ->
  Forall (fun c => named n c = false) l -> Forall (fun c => named n c = false) l'.
Proof.
  revert l'. induction l as [|c l IH]; intros [|c' l'] H; try done. injection H as Hc Hl.
  intros [H1 H2]%Forall_cons. constructor; [unfold named in *; congruence | by apply IH].
Qed.

Lemma virtual_init_governance settings l pre c post :
  virtual_init settings l = pre ++ c :: post -> Forall (fun c => named "ccr-governance" c = false) pre ->
  named "ccr-governance" c = true -> virtualised settings c.
Proof.
  unfold virtual_init. set (l1 := default l _). set (l2 := default l1 _). intros H Hpre Hc.
  assert (Forall2 (fun x y => k_name y = k_name x /\ k_image y = k_image x /\ k_env y = k_env x) l1
    (map (propagate "Bidirectional") l2)) as Hk.
  { apply Forall2_fmap_r. eapply Forall2_impl; [|intros x y Hxy; exact Hxy].
    apply update_first_Forall2; [done | by intros c']. }
  destruct (kept_first _ _ _ _ _ Hk H) as (pre0 & c0 & post0 & H0 & Hn & Hnc & Hi & He).
  apply (named_map _ _ pre0) in Hpre; [|done].
  destruct (update_first_at (named "ccr-governance") (virtual_governance (virtual_governance_image settings)) l
    pre0 c0 post0) as [y ->]; [done | exact H0 | done | unfold named in *; congruence |].
  unfold virtualised. rewrite Hi, He. split; [done|]. cbn. set_solver.
Qed.

Lemma virtual_build_ready settings app app' : init_shared app -> virtual_build settings app = Ok app' ->
  ps_volumes (pod_of app') = ps_volumes (pod_of app) /\
  ps_hostNetwork (pod_of app') = ps_hostNetwork (pod_of app) /\
  Forall (fun c => named "cvm-attestation-agent" c = false /\ propagates "Bidirectional" c)
    (default [] (ps_initContainers (pod_of app'))) /\
  (forall pre c post, map fst (ia_sidecars app') = pre ++ c :: post ->
     Forall (fun c => named "ccr-governance" c = false) pre -> named "ccr-governance" c = true -> virtualised settings c).
Proof.
  intros Hi. unfold virtual_build. fold (pod_of app). unfold init_shared in Hi. rewrite Hi. cbn [default].
  intros (cs & _ & H)%res_bind_ok. apply res_bind_ok in H as (cs' & _ & [= <-]).
  cbn [ps_initContainers with_containers]. rewrite Hi.
  assert (length (virtual_init settings (map fst (ia_sidecars app))) = length (ia_sidecars app)) as Hlen.
  { rewrite <- (length_fmap fst (ia_sidecars app)). symmetry. by eapply Forall2_length, virtual_init_same. }
  split_and!; [by destruct (map fst (ia_sidecars app)).. | |].
  - destruct (map fst (ia_sidecars app)) as [|c0 l0] eqn:El; [cbn; rewrite Hi; constructor|].
    cbn [nonempty ps_initContainers with_init pod_of ia_spec is_predictor with_pod pr_pod default].
    apply Forall_forall. intros c [Hn Hin]%list_elem_of_filter. split; [done|].
    unfold virtual_init in Hin. apply list_elem_of_fmap in Hin as (x & -> & _). apply propagate_propagates.
  - intros pre c post. cbn [ia_sidecars]. unfold update_sidecars. rewrite combine_fst by done.
    apply virtual_init_governance.
Qed.

Section Job.
Context {W : Type} (be : BuildEnv W) (config : InfConfiguration).
Context (tc : list (string * string)) (job_id : string) (job : InferenceJob) (tel : option TelemetrySettings).
Abbreviation provider := (ks_compute_provider (ic_kserve config)).

Lemma base_shared b runtime image sidecars pol : init_shared (base_app config b job runtime image sidecars pol).
Proof. reflexivity. Qed.

(** What a successful conversion went through. *)
Lemma job_inv w w' app :
  to_inference_svc_spec be config tc job_id job tel w = (w', Ok app) ->
  exists runtime image w1 w2 c sidecars pcrs pol,
    let b := job_builder config tc job_id job tel runtime (job_predictor provider job runtime image) in
    let app0 := base_app config b job runtime image sidecars pol in
    mi_runtime (pi_model (ij_predictor job)) = Some runtime /\ runtime ∈ SUPPORTED_RUNTIMES /\
    resolve_container_image be (ic_cleanroom config) runtime w = (w1, Ok image) /\
    sidecar_builder b (to_kserve_app_name job_id) = Ok c /\ Build be c w1 = (w2, Ok sidecars) /\
    allow_all_policy pcrs = Ok pol /\ override provider (ics_base (ic_cleanroom config)) app0 = Ok app /\
    overridden app0 app.
Proof.
  intros (runtime & image & w1 & app0 & Hp & Hr & Hin & Hi & Hb & Ho)%convert_inv.
  apply base_inv in Hb as (c & sidecars & w2 & pcrs & pol & Hc & Hs & Hpol & ->).
  exists runtime, image, w1, w2, c, sidecars, pcrs, pol. split_and!; try done.
  unfold override in Ho. destruct provider; [done | by apply cvm_overridden in Ho as [? _] | by eapply virtual_overridden].
Qed.

Definition truthy_dir : option string :=
  match ij_model_dir job with Some d => if str_truthy d then Some d else None | None => None end.

(** The arguments the model adds to those of the request. *)
Definition model_args (runtime : string) : list string :=
  match truthy_dir with
  | Some d => [if bool_decide (runtime = "llamacpp-server") then "--model" else "--model_dir"; "/mnt/remote/" +:+ d]
  | None => []
  end ++
  (if str_truthy (ij_model_name job) && bool_decide (runtime = "kserve-sklearnserver")
   then ["--model_name"; ij_model_name job] else []).

Lemma serving_args_spec runtime args : runtime ∈ SUPPORTED_RUNTIMES ->
  default [] (serving_args runtime truthy_dir (Some (ij_model_name job)) args) = default [] args ++ model_args runtime.
Proof.
  unfold serving_args, model_args, truthy_dir. intros Hr.
  assert (runtime = "kserve-sklearnserver" \/ runtime = "llamacpp-server") as [-> | ->] by set_solver.
  - change (dict_lookup _ RUNTIME_MODEL_ARG_MAP) with (Some "--model_dir"). assert (str_truthy "--model_dir" = true) as Hx by reflexivity.
    rewrite (bool_decide_eq_true_2 ("kserve-sklearnserver" ∈ _)) by set_solver. rewrite bool_decide_eq_false_2 by done.
    rewrite (bool_decide_eq_true_2 ("kserve-sklearnserver" = _)) by done. rewrite !andb_true_r.
    destruct (ij_model_dir job) as [d|]; [destruct (str_truthy d) eqn:Ed|]; destruct (str_truthy (ij_model_name job));
      cbn -[str_truthy]; rewrite ?Ed, ?Hx; cbn; rewrite ?app_nil_r, <- ?app_assoc; done.
  - change (dict_lookup _ RUNTIME_MODEL_ARG_MAP) with (Some "--model"). assert (str_truthy "--model" = true) as Hx by reflexivity.
    rewrite (bool_decide_eq_false_2 ("llamacpp-server" ∈ _)) by set_solver. rewrite bool_decide_eq_true_2 by done.
    rewrite (bool_decide_eq_false_2 ("llamacpp-server" = _)) by done. rewrite !andb_false_r.
    destruct (ij_model_dir job) as [d|]; [destruct (str_truthy d) eqn:Ed|];
      cbn -[str_truthy]; rewrite ?Ed, ?Hx; cbn; rewrite ?app_nil_r; done.
Qed.

(** C24. The pod of a deployed model has exactly one serving container: its runtime
    is a supported one, its image is the digest-pinned image of the first entry
    for that runtime in the runtime digests document, its arguments are those of
    the request followed by the model's path and name as the runtime takes them,
    and it is probed on the runtime's health path. *)
Theorem serving_container_pinned w w' app :
  to_inference_svc_spec be config tc job_id job tel w = (w', Ok app) ->
  exists runtime doc entries image w1 c,
    mi_runtime (pi_model (ij_predictor job)) = Some runtime /\ runtime ∈ SUPPORTED_RUNTIMES /\
    get_runtime_digests be (ic_cleanroom config) w = (w1, Ok doc) /\ json_items doc = Ok entries /\
    pinned runtime entries image /\
    ps_containers (pod_of app) = Some [c] /\
    k_name c = JStr "kserve-container" /\ k_image c = JStr image /\
    default [] (k_args c) = default [] (mi_args (pi_model (ij_predictor job))) ++ model_args runtime /\
    exists path, k_startup_probe c = Some {| probe_action_ := Some (HttpGet (JStr path) 8080);
        initial_delay_seconds := JInt 5; period_seconds := JInt 10; failure_threshold := JInt 120 |} /\
      dict_lookup runtime RUNTIME_HEALTH_PATH_MAP = Some path.
Proof.
  intros (runtime & image & w1 & w2 & c & sidecars & pcrs & pol & Hr & Hin & Hi & _ & _ & _ & _ & Hov)%job_inv.
  unfold resolve_container_image in Hi. apply M_bind_ok in Hi as (w3 & doc & Hdoc & [_ Hi]%lift_ok).
  apply res_bind_ok in Hi as (entries & He & Hf).
  destruct (ov_serving _ _ Hov _ eq_refl eq_refl) as (c' & Hc & (Hn & _ & Ha & _ & _ & Hp) & Him & _).
  exists runtime, doc, entries, image, w3, c'. split_and!; try done.
  - by apply find_runtime_pinned.
  - rewrite Ha. cbn [wire_serving with_mounts with_args k_args]. unfold job_builder at 1. cbn [ib_model_dir ib_model_name].
    fold truthy_dir. rewrite serving_args_spec by done. f_equal. cbn.
    by destruct (mi_args (pi_model (ij_predictor job))) as [[]|].
  - rewrite Hp. assert (runtime = "kserve-sklearnserver" \/ runtime = "llamacpp-server") as [-> | ->] by set_solver;
      by eexists.
Qed.

(** ** The HTTPS route *)

Lemma build_proxy c l d f w1 w2 scs :
  b_ccr_proxy_https_http c = Some (l, d, f) -> Build be c w1 = (w2, Ok scs) ->
  exists w3 w4 sc, get_ccr_proxy_sidecar be c l d f w3 = (w4, Ok sc) /\ sc ∈ scs.
Proof.
  intros Hc (w3 & tel' & _ & H)%M_bind_ok. apply M_bind_ok in H as (w4 & gov & _ & H).
  apply M_bind_ok in H as (w5 & prx & Hp & H). apply M_bind_ok in H as (w6 & st & _ & H).
  apply M_bind_ok in H as (w7 & ids & _ & [= <- <-]). unfold proxy_sidecars in Hp. rewrite Hc in Hp.
  apply M_bind_ok in Hp as (w8 & sc & Hsc & [= <- <-]). exists w4, w8, sc. split; [done|]. set_solver.
Qed.

Lemma sidecar_builder_proxy b name c : sidecar_builder b name = Ok c ->
  b_ccr_proxy_https_http c = Some (443%Z, destination_port b, ccr_proxy_fqdn (ib_model_name b) (ib_namespace b)).
Proof. unfold sidecar_builder. intros H. py_inv. done. Qed.


(** ** Pods of the two providers *)

(** On a confidential VM the pod runs on the host's network unless the
    placement decides, gets the TPM device, and the mounted data is visible: it
    propagates out of every container whose name contains blobfuse and into all
    other sidecars and the serving container. *)
Theorem cvm_pod_mounts w w' app :
  provider = InfConfidentialVM -> to_inference_svc_spec be config tc job_id job tel w = (w', Ok app) ->
  ps_hostNetwork (pod_of app) = Some (default true (ij_placement job ≫= host_network)) /\
  {| vol_name := "tpmrm0"; vol_source := HostPath "/dev/tpmrm0" |} ∈ default [] (ps_volumes (pod_of app)) /\
  ps_initContainers (pod_of app) = Some (map fst (ia_sidecars app)) /\
  Forall (fun c => forall b, json_has "blobfuse" (k_name c) = Ok b ->
    propagates (if b then "Bidirectional" else "HostToContainer") c) (map fst (ia_sidecars app)) /\
  Forall (propagates "HostToContainer") (default [] (ps_containers (pod_of app))).
Proof.
  intros Hprov (runtime & image & w1 & w2 & c & sidecars & pcrs & pol & _ & _ & _ & _ & _ & _ & Ho & _)%job_inv.
  rewrite Hprov in Ho. cbn [override] in Ho.
  destruct (cvm_overridden _ _ (base_shared _ _ _ _ _) Ho) as [_ Hshared].
  destruct (cvm_build_mounts _ _ (base_shared _ _ _ _ _) Ho) as (H1 & H2 & H3 & H4). split_and!; try done.
  rewrite H3. unfold base_app, job_predictor, pod_of. rewrite Hprov. cbn.
  by destruct (ij_placement job ≫= host_network).
Qed.

(** On a cluster without confidential hardware the pod can run: it has no
    attestation agent and no TPM device, its governance container is the virtual
    variant, and the mounted data propagates between all containers. *)
Theorem virtual_predictor_ready w w' app :
  provider = InfVirtual -> to_inference_svc_spec be config tc job_id job tel w = (w', Ok app) ->
  ps_volumes (pod_of app) = Some pod_volumes /\
  ps_hostNetwork (pod_of app) = ij_placement job ≫= host_network /\
  Forall (fun c => named "cvm-attestation-agent" c = false /\ propagates "Bidirectional" c)
    (default [] (ps_initContainers (pod_of app))) /\
  (forall pre c post, map fst (ia_sidecars app) = pre ++ c :: post ->
     Forall (fun c => named "ccr-governance" c = false) pre -> named "ccr-governance" c = true ->
     virtualised (ics_base (ic_cleanroom config)) c).
Proof.
  intros Hprov (runtime & image & w1 & w2 & c & sidecars & pcrs & pol & _ & _ & _ & _ & _ & _ & Ho & _)%job_inv.
  rewrite Hprov in Ho. cbn [override] in Ho.
  destruct (virtual_build_ready _ _ _ (base_shared _ _ _ _ _) Ho) as (H1 & H2 & H3 & H4). split_and!; try done.
  - rewrite H2. unfold base_app, job_predictor, pod_of. by rewrite Hprov.
Qed.

(** ** Policies *)

Lemma allow_all_decodes pcrs pol : allow_all_policy pcrs = Ok pol ->
  pol_json_base64 pol = KSERVE_ALLOW_ALL_POLICY_BASE64 /\ loads (pol_json pol) = Ok (JArr [JStr "allowall"]).
Proof. intros H. vm_compute in H. injection H as <-. split; reflexivity. Qed.

Lemma job_policy w w' app : to_inference_svc_spec be config tc job_id job tel w = (w', Ok app) ->
  pol_json_base64 (ia_predictor_policy app) = KSERVE_ALLOW_ALL_POLICY_BASE64 /\
  pol_json_base64 (ia_transformer_policy app) = KSERVE_ALLOW_ALL_POLICY_BASE64 /\
  loads (pol_json (ia_predictor_policy app)) = Ok (JArr [JStr "allowall"]) /\
  pr_extension (is_predictor (ia_spec app)) = predictor_extension (ij_predictor job).
Proof.
  intros (runtime & image & w1 & w2 & c & sidecars & pcrs & pol & _ & _ & _ & _ & _ & Hpol & _ & Hov)%job_inv.
  apply allow_all_decodes in Hpol as [H1 H2]. destruct (ov_policies _ _ Hov) as [-> ->].
  rewrite (ov_extension _ _ Hov). done.
Qed.
End Job.
