(* ===== verification/KServeDeploy.v ===== *)
(** * Deploying a model

    The inference service a deployment leaves in the cluster, its companion
    service and its signed policy; that a submission is an upsert; how failures
    are answered and counted. *)

From S2P Require Import Prelude PyStr Base64 Json JsonFacts Template PyFloat SparkModels Settings Helpers CleanroomModels AppBuilder AppBuilderProps Metrics KubeClient Steps KServeModels KServeBuilder KServeClient KServeProps KServeFrontend.
From Stdlib Require Import Lia.

(** ** Interface

    What the API server keeps of an inference service, and which calls change it. *)

Record Stored := {
  stored_labels : list (string * string);
  stored_annotations : list (string * json);
  stored_spec : InferenceServiceSpec
}.

Definition stored (b : ResourceBody) : Stored :=
  {| stored_labels := rb_labels b; stored_annotations := rb_annotations b; stored_spec := rb_spec b |}.

Class KServeServer {W} (api : KServeApi W) := {
  objects : W -> gmap (string * string) Stored;
  services : W -> gmap (string * string) V1Service;
  get_frame g v ns pl n w :
    let w' := (get_object api g v ns pl n w).1 in objects w' = objects w /\ services w' = services w;
  create_effect g v ns pl b w :
    let '(w', r) := create_object api g v ns pl b w in
    services w' = services w /\
    objects w' = match r with Ok _ => <[(ns, rb_name b) := stored b]> (objects w) | Err _ => objects w end;
  replace_effect g v ns pl n b w :
    let '(w', r) := replace_object api g v ns pl n b w in
    services w' = services w /\
    objects w' = match r with Ok _ => <[(ns, n) := stored b]> (objects w) | Err _ => objects w end;
  service_effect ns svc w :
    let '(w', r) := create_namespaced_service api ns svc w in
    objects w' = objects w /\
    match r with
    | Ok _ => services w' = <[(ns, sv_name svc) := svc]> (services w)
    | Err e => services w' = services w /\ (api_409 e = true -> is_Some (services w !! (ns, sv_name svc)))
    end
}.

(** ** Submission is an upsert *)

Section Client.
Context {W : Type} {api : KServeApi W} `{!KServeServer api} (rs : InferenceServiceResourceSettings).

Lemma kserve_call_run {A} op kind name ns (m : M W A) s :
  exists es, kserve_call op kind name ns m s = (MkFE (m (world s)).1 (meters s ++ es), (m (world s)).2).
Proof. unfold kserve_call, in_world. destruct (m (world s)) as [w r]. by eexists. Qed.

(** One metered write of the body at the key. *)
Lemma write_effect op kind name ns (m : M W unit) k v s :
  (let '(w', r) := m (world s) in services w' = services (world s) /\
     objects w' = match r with Ok _ => <[k := v]> (objects (world s)) | Err _ => objects (world s) end) ->
  let '(s', r) := kserve_call op kind name ns m s in
  services (world s') = services (world s) /\
  objects (world s') = match r with Ok _ => <[k := v]> (objects (world s)) | Err _ => objects (world s) end.
Proof.
  intros H. destruct (kserve_call_run op kind name ns m s) as [es ->]. by destruct (m (world s)) as [w' r].
Qed.

Ltac settle := unfold stored in *; cbn in *; split; congruence.

(** Submitting a resource is an atomic upsert of the cluster's objects, whether
    the resource existed, was missing or vanished in between. *)
Lemma submit_effect name ns spec g v kind pl tags annotations s :
  let '(s', r) := submit_custom_resource api name ns spec g v kind pl tags annotations s in
  services (world s') = services (world s) /\
  objects (world s') =
    match r with
    | Ok _ => <[(ns, name) := {| stored_labels := default [] tags; stored_annotations := default [] annotations;
                                 stored_spec := spec |}]> (objects (world s))
    | Err _ => objects (world s)
    end.
Proof.
  unfold submit_custom_resource. cbv zeta. rewrite M_bind_run, try_except_run, M_bind_run. unfold in_world.
  pose proof (get_frame g v ns pl name (world s)) as [Ho Hs].
  destruct (get_object api g v ns pl name (world s)) as [w1 [j|e]]; cbn in Ho, Hs |- *.
  - rewrite M_bind_run. destruct (meta ← json_item j "metadata"; json_item meta "resourceVersion") as [rv|e] eqn:E;
      cbn [lift]; [|settle].
    rewrite try_except_run.
    match goal with |- context [replace_object api g v ns pl name ?x] => remember x as b eqn:Hb end.
    pose proof (write_effect "update" (lower kind) name ns (replace_object api g v ns pl name b) (ns, name) (stored b)
      (MkFE w1 (meters s)) (replace_effect _ _ _ _ _ _ _)) as H1.
    destruct (kserve_call "update" _ _ _ _ _) as [s2 [[]|e2]]; cbn in H1 |- *; destruct H1 as [H1s H1o].
    { subst b. settle. }
    destruct (api_404 e2); [|settle].
    pose proof (write_effect "create" (lower kind) name ns (create_object api g v ns pl b) (ns, rb_name b) (stored b)
      s2 (create_effect _ _ _ _ _ _)) as H2.
    destruct (kserve_call "create" _ _ _ _ _) as [s3 [[]|e3]]; destruct H2 as [H2s H2o];
      subst; settle.
  - destruct (api_404 e); cbn; [|settle].
    match goal with |- context [create_object api g v ns pl ?b] => remember b as body eqn:Hb end.
    pose proof (write_effect "create" (lower kind) name ns (create_object api g v ns pl body) (ns, rb_name body) (stored body)
      (MkFE w1 (meters s)) (create_effect _ _ _ _ _ _)) as H2.
    destruct (kserve_call "create" _ _ _ _ _) as [s3 [[]|e3]]; destruct H2 as [H2s H2o];
      subst; settle.
Qed.

Definition cluster (s : FE W) : gmap (string * string) Stored * gmap (string * string) V1Service :=
  (objects (world s), services (world s)).

Lemma owner_ref_frame name ns : steps (same cluster) (get_inference_service_owner_ref api rs name ns).
Proof.
  unfold get_inference_service_owner_ref. apply steps_bind; [typeclasses eauto | | intros; steps_go].
  intros s. unfold same, cluster, in_world.
  destruct (get_frame (ir_group rs) (ir_version rs) ns (ir_plural rs) name (world s)) as [Ho Hs].
  destruct (get_object _ _ _ _ _ _ _) as [w r]. cbn in *. by rewrite Ho, Hs.
Qed.

Lemma owner_ref_names name ns s s' o : get_inference_service_owner_ref api rs name ns s = (s', Ok o) ->
  or_name o = name /\ or_kind o = ir_kind rs.
Proof.
  unfold get_inference_service_owner_ref. intros (s1 & cr & _ & H)%M_bind_ok.
  apply M_bind_ok in H as (s2 & uid & _ & [= _ <-]). done.
Qed.

(** The companion service after a submission: the one described, or one of its
    name that was there. *)
Definition companion (name ns : string) (before after : gmap (string * string) V1Service) : Prop :=
  exists svc, after !! (ns, name +:+ "-predictor-https") = Some svc /\
    (after = before \/
     exists o, or_name o = name /\ svc = ccr_proxy_service name ns o /\
       after = <[(ns, name +:+ "-predictor-https") := svc]> before).

Lemma proxy_service_effect name ns o s : or_name o = name ->
  let '(s', r) := create_ccr_proxy_service api name ns o s in
  objects (world s') = objects (world s) /\
  match r with
  | Ok _ => companion name ns (services (world s)) (services (world s'))
  | Err _ => services (world s') = services (world s)
  end.
Proof.
  intros Ho. unfold create_ccr_proxy_service. rewrite try_except_run, in_world_run.
  pose proof (service_effect ns (ccr_proxy_service name ns o) (world s)) as H.
  destruct (create_namespaced_service _ _ _ _) as [w [[]|e]]; cbn in H |- *; destruct H as [H1 H2].
  - split; [done|]. exists (ccr_proxy_service name ns o). rewrite H2. split; [apply lookup_insert_eq|]. right. eauto.
  - destruct H2 as [H2 Hc]. destruct (api_409 e); cbn; [|done]. split; [done|].
    destruct (Hc eq_refl) as [svc Hsvc]. exists svc. rewrite H2. split; [done | by left].
Qed.

Definition submitted (spec : InferenceServiceSpec) (tags : option (list (string * string)))
    (annotations : option (list (string * json))) : Stored :=
  {| stored_labels := default [] tags; stored_annotations := default [] annotations; stored_spec := spec |}.

Lemma submit_inference_effect name ns spec tags annotations s :
  let '(s', r) := submit_inference_service api rs name ns spec tags annotations s in
  match r with
  | Ok _ => objects (world s') = <[(ns, name) := submitted spec tags annotations]> (objects (world s)) /\
            companion name ns (services (world s)) (services (world s'))
  | Err _ => (objects (world s') = objects (world s) \/
              objects (world s') = <[(ns, name) := submitted spec tags annotations]> (objects (world s))) /\
             services (world s') = services (world s)
  end.
Proof.
  unfold submit_inference_service. rewrite M_bind_run.
  pose proof (submit_effect name ns spec (ir_group rs) (ir_version rs) (ir_kind rs) (ir_plural rs) tags annotations s) as H.
  destruct (submit_custom_resource _ _ _ _ _ _ _ _ _ _ _) as [s1 [[]|e]]; destruct H as [Hs Ho]; [|eauto].
  rewrite M_bind_run. pose proof (owner_ref_frame name ns s1) as Hf. unfold same, cluster in Hf.
  destruct (get_inference_service_owner_ref api rs name ns s1) as [s2 [o|e]] eqn:Eo; cbn in Hf; injection Hf as Hf1 Hf2.
  2:{ rewrite Hf1, Hf2, Ho, Hs. eauto. }
  apply owner_ref_names in Eo as [Hn _].
  pose proof (proxy_service_effect name ns o s2 Hn) as Hp.
  destruct (create_ccr_proxy_service _ _ _ _ _) as [s3 [[]|e]]; destruct Hp as [Hp1 Hp2];
    rewrite Hp1, Hf1, Ho; rewrite Hf2, Hs in Hp2; eauto.
Qed.

(** C23. Submitting an inference service refines an upsert of the cluster's
    objects: on success the service is stored with exactly the given labels,
    annotations and specification, no other object changes, and a companion
    service of the model's name exists; on failure no service was made and the
    objects are as before or hold the submitted one, so a retry converges to the
    same state. *)
Theorem submit_upsert name ns spec tags annotations s :
  let k := (ns, name) in
  let x := submitted spec tags annotations in
  let '(s1, r1) := submit_inference_service api rs name ns spec tags annotations s in
  let '(s2, r2) := submit_inference_service api rs name ns spec tags annotations s1 in
  (is_ok r1 = true -> objects (world s1) = <[k := x]> (objects (world s)) /\
     companion name ns (services (world s)) (services (world s1))) /\
  (is_ok r1 = false -> (objects (world s1) = objects (world s) \/ objects (world s1) = <[k := x]> (objects (world s))) /\
     services (world s1) = services (world s)) /\
  (is_ok r2 = true -> objects (world s2) = <[k := x]> (objects (world s))).
Proof.
  pose proof (submit_inference_effect name ns spec tags annotations s) as H1.
  destruct (submit_inference_service _ _ _ _ _ _ _ s) as [s1 r1].
  pose proof (submit_inference_effect name ns spec tags annotations s1) as H2.
  destruct (submit_inference_service _ _ _ _ _ _ _ s1) as [s2 r2]. split_and!.
  - by destruct r1.
  - by destruct r1.
  - destruct r2; [intros _|done]. destruct H2 as [-> _].
    destruct r1; [destruct H1 as [-> _] | destruct H1 as [[-> | ->] _]]; by rewrite ?insert_insert_eq.
Qed.
End Client.

(** ** Deployment *)

Section Deploy.
Context {W : Type} (ke : KServeEnv W) `{!KServeServer (ke_api ke)} (config : InfConfiguration).

Lemma metered_run {A} ns (m : M (FE W) A) s :
  metered_submission ns m s =
  (emit (kserve_job_submission_events (is_ok (m s).2) [("namespace", JStr ns)]) (m s).1, (m s).2).
Proof. unfold metered_submission. by destruct (m s). Qed.

Lemma metered_ok {A} ns (m : M (FE W) A) s s' a : metered_submission ns m s = (s', Ok a) ->
  exists s1, m s = (s1, Ok a) /\ world s' = world s1.
Proof.
  rewrite metered_run. destruct (m s) as [s1 r]. cbn. intros [= <- ->]. by exists s1.
Qed.

(** C8. A deployment that succeeds leaves the model in the cluster: the stored
    inference service is the one built from the request, under the model's name
    and with the given tags; its pod carries the policy together with the
    signature the governance service returned for exactly that policy; and its
    HTTPS companion service exists. *)
Theorem deployed_model job_id job ns telemetry tags s s' r :
  deploy_model ke config job_id job ns telemetry tags s = (s', Ok r) ->
  exists w1 w2 app signature spec,
    to_inference_svc_spec (ke_build ke) config (ke_carrier ke) job_id job (inf_telemetry config telemetry) (world s)
      = (w1, Ok app) /\
    sign_policy ke KSERVE_ALLOW_ALL_POLICY_BASE64 w1 = (w2, Ok signature) /\
    objects (world s') = <[(ns, ij_model_name job) := submitted spec tags None]> (objects w2) /\
    companion (ij_model_name job) ns (services w2) (services (world s')) /\
    pr_pod (is_predictor spec) = pod_of app /\
    ce_annotations (pr_extension (is_predictor spec)) =
      Some [("api-server-proxy.io/policy", JStr (pol_json_base64 (ia_predictor_policy app)));
            ("api-server-proxy.io/signature", signature)] /\
    r = {| dr_status := "success"; dr_id := ij_model_name job |}.
Proof.
  unfold deploy_model. intros (s1 & H & ->)%metered_ok.
  apply M_bind_ok in H as (s2 & app & Ha & H). apply M_bind_ok in H as (s3 & signature & Hg & H).
  apply M_bind_ok in H as (s4 & [] & Hs & [= <- <-]).
  unfold in_world in Ha, Hg. destruct (to_inference_svc_spec _ _ _ _ _ _ _) as [w1 ra] eqn:Ea.
  injection Ha as <- ->. cbn in Hg. destruct (sign_policy _ _ _) as [w2 rg] eqn:Eg. injection Hg as <- ->.
  pose proof (submit_inference_effect (inf_rs config) (ij_model_name job) ns
    (annotate_predictor (ia_spec app) (policy_annotations signature)) tags None (MkFE w2 (meters s))) as He.
  cbn [meters] in Hs. rewrite Hs in He. destruct He as [Ho Hc].
  exists w1, w2, app, signature, (annotate_predictor (ia_spec app) (policy_annotations signature)).
  split_and!; try done. apply job_policy in Ea as (Hp & _). rewrite Hp. reflexivity.
Qed.

(** Without a signature nothing is deployed: when the governance service
    refuses or answers without one, the endpoint answers 500 with its error, the
    cluster is not touched and one failed submission is counted. *)
Theorem unsigned_not_deployed job_id job telemetry s w1 w2 app e :
  str_truthy job_id = true ->
  to_inference_svc_spec (ke_build ke) config (ke_carrier ke) job_id job (inf_telemetry config telemetry) (world s)
    = (w1, Ok app) ->
  sign_policy ke KSERVE_ALLOW_ALL_POLICY_BASE64 w1 = (w2, Err e) ->
  deploy_inferencing_model ke config job job_id telemetry s =
  (MkFE w2 (meters s ++ kserve_job_submission_events false [("namespace", JStr (inf_ns config))]),
   Err (HTTPException 500 ("Failed to create inferencing service: " +:+ exn_str e))).
Proof.
  intros Hj Ha Hg. unfold deploy_inferencing_model. rewrite M_bind_run, Hj. cbn [mret M_ret].
  rewrite try_except_run. unfold deploy_model. rewrite metered_run, M_bind_run, in_world_run, Ha. cbn [fst snd].
  rewrite M_bind_run, in_world_run. cbn [world meters]. rewrite Hg. reflexivity.
Qed.

(** C25. Every model is deployed with the policy that allows everything, whatever
    the configuration says: the policy in the pod's annotations is the one
    [generateSecurityPolicy] reports, and it decodes to the list of the single
    entry allowall. *)
Theorem deployed_policy job_id job ns telemetry tags s s' r t t' p :
  deploy_model ke config job_id job ns telemetry tags s = (s', Ok r) ->
  get_inferencing_service_policy ke config job telemetry t = (t', Ok p) ->
  exists x, objects (world s') !! (ns, ij_model_name job) = Some x /\
    dict_lookup "api-server-proxy.io/policy"
      (default [] (ce_annotations (pr_extension (is_predictor (stored_spec x)))))
      = Some (JStr (pv_jsonBase64 (ipr_predictor p))) /\
    (raw ← b64decode (pv_jsonBase64 (ipr_predictor p)); text ← utf8_decode raw; loads text)
      = Ok (JArr [JStr "allowall"]).
Proof.
  unfold deploy_model. intros (s1 & H & ->)%metered_ok Hp.
  apply M_bind_ok in H as (s2 & app & _ & H). apply M_bind_ok in H as (s3 & signature & _ & H).
  apply M_bind_ok in H as (s4 & [] & Hs & [= <- <-]).
  pose proof (submit_inference_effect (inf_rs config) (ij_model_name job) ns
    (annotate_predictor (ia_spec app) (policy_annotations signature)) tags None s3) as He.
  rewrite Hs in He. destruct He as [Ho _].
  unfold get_inferencing_service_policy in Hp. apply M_bind_ok in Hp as (t1 & now & _ & Hp).
  rewrite try_except_run, M_bind_run, in_world_run in Hp.
  destruct (to_inference_svc_spec _ _ _ _ _ _ (world t1)) as [w [app'|e]] eqn:Ea; cbn in Hp; [|done].
  injection Hp as _ <-. apply job_policy in Ea as (Hp & _).
  eexists. rewrite Ho. split; [apply lookup_insert_eq|]. cbn [ipr_predictor policy_view pv_jsonBase64]. rewrite Hp.
  split; reflexivity.
Qed.

(** ** Counting *)

Definition total (name : string) (s : FE W) : Z := instrument_total name (meters s).

Lemma total_world {A} name (m : M W A) : steps (same (total name)) (in_world m).
Proof. intros s. rewrite in_world_run. done. Qed.

Definition submission_instruments : list string :=
  ["kserve_job_submissions_total"; "kserve_active_jobs_total"; "kserve_job_submissions_failed_total"].

Lemma total_call {A} name op kind n ns (m : M W A) : name ∈ submission_instruments ->
  steps (same (total name)) (kserve_call op kind n ns m).
Proof.
  intros Hn s. unfold kserve_call. rewrite in_world_run. unfold same, total, emit. cbn [meters fst].
  rewrite instrument_total_app. assert (forall r l, instrument_total name (kserve_k8s_operation_events op kind r l) = 0%Z) as ->.
  { intros r l. assert (name = "kserve_job_submissions_total" \/ name = "kserve_active_jobs_total" \/
      name = "kserve_job_submissions_failed_total") as [-> |[-> | ->]] by set_solver; by destruct r. }
  lia.
Qed.
Hint Resolve total_world total_call : steps.

Lemma submit_total name n ns spec tags ann : name ∈ submission_instruments ->
  steps (same (total name)) (submit_inference_service (ke_api ke) (inf_rs config) n ns spec tags ann).
Proof.
  intros Hn. unfold submit_inference_service, submit_custom_resource, get_inference_service_owner_ref,
    create_ccr_proxy_service. steps_go.
Qed.
Hint Resolve submit_total : steps.

Lemma kserve_submission_totals ok l :
  instrument_total "kserve_job_submissions_total" (kserve_job_submission_events ok l) = 1%Z /\
  instrument_total "kserve_active_jobs_total" (kserve_job_submission_events ok l) = Z.b2z ok /\
  instrument_total "kserve_job_submissions_failed_total" (kserve_job_submission_events ok l) = Z.b2z (negb ok).
Proof. by destruct ok. Qed.

Lemma metered_counts {A} ns (m : M (FE W) A) s :
  (forall name, name ∈ submission_instruments -> steps (same (total name)) m) ->
  let '(s', r) := metered_submission ns m s in
  total "kserve_job_submissions_total" s' = (total "kserve_job_submissions_total" s + 1)%Z /\
  total "kserve_active_jobs_total" s' = (total "kserve_active_jobs_total" s + Z.b2z (is_ok r))%Z /\
  total "kserve_job_submissions_failed_total" s' =
    (total "kserve_job_submissions_failed_total" s + Z.b2z (negb (is_ok r)))%Z.
Proof.
  intros Hm. rewrite metered_run. unfold total, emit. cbn [meters]. rewrite !instrument_total_app.
  destruct (kserve_submission_totals (is_ok (m s).2) [("namespace", JStr ns)]) as (-> & -> & ->).
  unfold same, total in Hm. split_and!; rewrite Hm by set_solver; lia.
Qed.

(** Every deployment, of a model or of the test model, is counted once: as a
    submission, and as an active job or a failure by its outcome. *)
Theorem deployment_counted job_id job ns telemetry tags name node host signature s :
  let counted (s s' : FE W) (ok : bool) :=
    total "kserve_job_submissions_total" s' = (total "kserve_job_submissions_total" s + 1)%Z /\
    total "kserve_active_jobs_total" s' = (total "kserve_active_jobs_total" s + Z.b2z ok)%Z /\
    total "kserve_job_submissions_failed_total" s' =
      (total "kserve_job_submissions_failed_total" s + Z.b2z (negb ok))%Z in
  (let '(s', r) := deploy_model ke config job_id job ns telemetry tags s in counted s s' (is_ok r)) /\
  (let '(s', r) := deploy_test_model ke config name job_id ns node host signature tags s in counted s s' (is_ok r)).
Proof.
  split; apply metered_counts; intros n Hn; steps_go.
Qed.
End Deploy.
