(* ===== verification/KServeWorld.v ===== *)
(** * A concrete cluster for the KServe front end

    An API server that keeps the contract of [KServeDeploy], a registry with the
    documents the builders read, and the deployment of a model with one blob
    dataset and one S3 dataset. *)

From S2P Require Import Prelude PyStr Base64 Json JsonFacts Template PyFloat SparkModels Settings Helpers CleanroomModels AppBuilder AppBuilderProps Metrics KubeClient KServeModels KServeBuilder KServeClient KServeProps KServeFrontend KServeDeploy.

(** ** The server *)

Record Cluster := {
  cl_objects : gmap (string * string) Stored;
  cl_services : gmap (string * string) V1Service
}.

Definition cl_api : KServeApi Cluster := {|
  get_object _ _ ns _ name w :=
    (w, match cl_objects w !! (ns, name) with
        | Some _ => Ok (JObj [("metadata", JObj [("resourceVersion", JStr "1"); ("uid", JStr ("uid-" +:+ name))])])
        | None => Err (ApiException (Some 404%Z) "Not Found")
        end);
  replace_object _ _ ns _ name b w :=
    match cl_objects w !! (ns, name) with
    | Some _ => ({| cl_objects := <[(ns, name) := stored b]> (cl_objects w); cl_services := cl_services w |}, Ok ())
    | None => (w, Err (ApiException (Some 404%Z) "Not Found"))
    end;
  create_object _ _ ns _ b w :=
    match cl_objects w !! (ns, rb_name b) with
    | Some _ => (w, Err (ApiException (Some 409%Z) "Conflict"))
    | None => ({| cl_objects := <[(ns, rb_name b) := stored b]> (cl_objects w); cl_services := cl_services w |}, Ok ())
    end;
  create_namespaced_service ns svc w :=
    match cl_services w !! (ns, sv_name svc) with
    | Some _ => (w, Err (ApiException (Some 409%Z) "Conflict"))
    | None => ({| cl_objects := cl_objects w; cl_services := <[(ns, sv_name svc) := svc]> (cl_services w) |}, Ok ())
    end
|}.

#[export] Instance cl_server : KServeServer cl_api.
Proof.
  refine {| objects := cl_objects; services := cl_services |}; intros; cbn; try done.
  - by destruct (cl_objects w !! _).
  - by destruct (cl_objects w !! _).
  - destruct (cl_services w !! _) as [x|] eqn:E; cbn; [|done]. by split_and!.
Defined.

(** ** The registry *)

Definition version_entry (image : string) : json :=
  JObj [("image", JStr image); ("digest", JStr "sha256:d"); ("policyDocument", JStr image);
        ("policyDocumentDigest", JStr "sha256:p")].

Definition sidecar_doc (name : string) (args mounts : list json) (extra : list (string * json)) : json :=
  JObj [("podSpecYaml", JObj [("spec", JObj [("containers",
          JArr [JObj ([("name", JStr name); ("image", JStr ("$containerRegistryUrl/" +:+ name +:+ "@$digest"));
                       ("command", JArr args); ("volumeMounts", JArr mounts)] ++ extra)])])]);
        ("policy", JObj [("virtual_node_rego", JObj [("command", JArr args)])])].

Definition mount_of (name path : string) : json := JObj [("name", JStr name); ("mountPath", JStr path)].

Definition registry : list (string * json) :=
  [("/tmp/sidecar-digests.yaml",
     JArr (map version_entry ["blobfuse-launcher"; "s3fs-launcher"; "identity"; "ccr-proxy-https-http"]));
   ("/tmp/inf-runtime-digests.yaml",
     JArr [JObj [("runtime", JStr "llamacpp-server"); ("image", JStr "ghcr.io/llama"); ("digest", JStr "sha256:1")];
           JObj [("runtime", JStr "kserve-sklearnserver"); ("image", JStr "kserve/sklearn"); ("digest", JStr "sha256:2")]]);
   ("/tmp/cvm-measurements.yaml", JObj [("cvm-image", JObj [("pcrs", JObj [("0", JStr "aa")])])]);
   ("/tmp/blobfuse-launcher.yaml",
     sidecar_doc "$datasetName-blobfuse-container" [JStr "$readOnly"] [mount_of "remotemounts" "$mountPath"]
       [("startupProbe", JObj [("httpGet", JObj [("path", JStr "/ready"); ("port", JStr "$readinessPort")])])]);
   ("/tmp/s3fs-launcher.yaml",
     sidecar_doc "$datasetName-s3fs-container" [JStr "$readOnly"] [mount_of "remotemounts" "$mountPath"] []);
   ("/tmp/identity.yaml", sidecar_doc "identity" [JStr "$IdentitySidecarArgsBase64"] [] []);
   ("/tmp/ccr-proxy-https-http.yaml",
     sidecar_doc "ccr-proxy" [JStr "$listenerPort"; JStr "$destinationPort"; JStr "$ccrFqdn"] [mount_of "shared" "/app/service"] [])].

Definition registry_env (W : Type) : BuildEnv W := {|
  temp_dir := "/tmp";
  file_exists _ := mret true;
  make_dirs _ := mret ();
  oras_pull _ _ _ := mret ();
  yaml_load f := lift (of_option (OtherException "No such file or directory") (dict_lookup f registry));
  read_text _ := mret "" |}.

(** ** The front end *)

Definition signing (answer : json) (url : string) (body : json) : M Cluster (Z * res json) := mret (200%Z, Ok answer).

Definition cl_env (answer : json) : KServeEnv Cluster := {|
  ke_api := cl_api;
  ke_validate _ := Err (ValidationError "status");
  ke_build := registry_env Cluster;
  ke_carrier := [];
  ke_environ _ := None;
  ke_http_post := signing answer;
  ke_path_exists _ := mret false;
  ke_read_text _ := mret "";
  ke_time := mret 1700000000%Z |}.

Definition cl_config (provider : InferencingComputeProvider) : InfConfiguration := {|
  ic_cleanroom := {| ics_base := demo_settings; cvm_measurements_document := "mcr/cvm-measurements:1";
                     runtime_digests_document := "mcr/inf-runtime-digests:1" |};
  ic_kserve := {| ks_compute_provider := provider; ks_resource := default_InferenceServiceResourceSettings |};
  ic_inferencing := default_InferencingSettings (fun _ => None) "1"
    {| isk_predictor := {| prs_cores := of_int 1; prs_memory := "1Gi"; prs_service_account := "kserve-operator-kserve" |} |};
  ic_service := default_InfServiceSettings |}.

Definition s3_access_point (name : string) : AccessPoint :=
  {| ap_name := name; ap_type := Volume_ReadOnly; ap_path := "";
     store := {| resource_name := "bucket"; resource_type := RT_Aws_S3; resource_id := "";
                 provider := {| protocol := Aws_S3; endpoint_url := "https://s3.amazonaws.com";
                                endpoint_configuration := Some (b64encode (dumps (JObj [("secretId", JStr "s")]))) |} |};
     identity := None; protection := protection (demo_access_point name ""); subdirectory := None |}.

Definition cl_dataset (ap : AccessPoint) : DatasetInfo :=
  {| ds_name := ap_name ap; viewName := ap_name ap; schema_ := None; format := fmt_csv; ownerId := "alice";
     accessPoint := ap; allowedFields := [] |}.

Definition cl_job : InferenceJob := {|
  ij_contract_id := "contract"; ij_model_name := "iris";
  ij_predictor :=
    {| pi_model := {| mi_model_format := {| mfi_name := "sklearn"; mfi_version := None |}; mi_protocol_version := None;
                      mi_runtime := Some "kserve-sklearnserver"; mi_args := Some ["--workers=2"]; mi_resources := None;
                      mi_env := None |};
       pi_min_replicas := Some 1%Z; pi_max_replicas := None; pi_timeout := None;
       pi_batcher := Some {| bi_max_batch_size := Some 8%Z; bi_max_latency := None; bi_timeout := None |};
       pi_deployment_strategy := None; pi_scale_metric_type := None; pi_auto_scaling := None |};
  ij_model_dir := Some "models/iris";
  ij_datasets := [cl_dataset (demo_access_point "models" "client-1"); cl_dataset (s3_access_point "extra")];
  ij_governance := None; ij_placement := None |}.

Definition cl_start : FE Cluster := MkFE {| cl_objects := ∅; cl_services := ∅ |} [].

Abbreviation cl_convert provider :=
  (to_inference_svc_spec (registry_env Cluster) (cl_config provider) [] "job-1" cl_job None (world cl_start)).

Lemma cl_convert_ok : is_ok (cl_convert InfConfidentialVM).2 = true /\ is_ok (cl_convert InfVirtual).2 = true.
Proof. vm_compute. split; reflexivity. Qed.

(** The application converted for a provider. *)
Definition cl_app (provider : InferencingComputeProvider) : option CleanRoomInferencingApplication :=
  match (cl_convert provider).2 with Ok app => Some app | Err _ => None end.

(** Names and mount propagation of the containers, in order. *)
Definition propagation_table (app : CleanRoomInferencingApplication) : list (json * list json) :=
  map (fun c => (k_name c, map vm_mount_propagation (default [] (k_volume_mounts c))))
    (default [] (ps_initContainers (pod_of app)) ++ default [] (ps_containers (pod_of app))).

(** On a confidential VM the mount of the S3 dataset does not leave its sidecar:
    the container of the S3 launcher receives mounts but does not propagate its
    own, so the serving container never sees the data. *)
Theorem s3_mount_stays_inside :
  propagation_table <$> cl_app InfConfidentialVM = Some
    [(JStr "ccr-proxy", [JStr "None"]); (JStr "identity", []); (JStr "models-blobfuse-container", [JStr "Bidirectional"]);
     (JStr "extra-s3fs-container", [JStr "HostToContainer"]); (JStr "kserve-container", [JStr "HostToContainer"])].
Proof. vm_compute. reflexivity. Qed.

(** ** Witnesses *)

Abbreviation cl_deploy :=
  (deploy_model (cl_env (JObj [("value", JStr "signed")])) (cl_config InfConfidentialVM) "job-1" cl_job
    "kserve-inferencing" true inferencing_tags cl_start).

Lemma cl_deploy_ok : is_ok cl_deploy.2 = true.
Proof. vm_compute. reflexivity. Qed.

Lemma serving_container_pinned_witness :
  exists app c, cl_app InfConfidentialVM = Some app /\ ps_containers (pod_of app) = Some [c] /\
    k_image c = JStr "kserve/sklearn@sha256:2" /\
    default [] (k_args c) = ["--workers=2"; "--model_dir"; "/mnt/remote/models/iris"; "--model_name"; "iris"].
Proof.
  destruct (cl_convert InfConfidentialVM) as [w' [app|e]] eqn:E.
  2:{ pose proof cl_convert_ok as [H _]. rewrite E in H. discriminate H. }
  destruct (serving_container_pinned _ _ _ _ _ _ _ _ _ E)
    as (runtime & doc & entries & image & w1 & c & Hr & _ & Hd & He & Hp & Hc & _ & Hi & Ha & _).
  exists app, c. unfold cl_app. rewrite E. split; [reflexivity|]. split; [exact Hc|].
  injection Hr as <-. vm_compute in Hd. injection Hd as _ <-. injection He as <-.
  rewrite Ha. split; [|reflexivity].
  destruct Hp as (pre & entry & post & i & d & Heq & Hpre & Hrt & Hii & Hdd & ->). rewrite Hi.
  destruct pre as [|e0 [|e1 pre]]; [injection Heq as <- _; discriminate Hrt | | exfalso].
  - injection Heq as <- <- <-. injection Hii as <-. injection Hdd as <-. reflexivity.
  - injection Heq as _ _ Heq. by destruct pre.
Defined.

Definition cl_owner : V1OwnerReference :=
  {| or_api_version := "serving.kserve.io/v1beta1"; or_kind := "InferenceService"; or_name := "iris"; or_uid := JStr "uid-iris";
     or_controller := true; or_block_owner_deletion := true |}.


Lemma cvm_pod_mounts_witness : exists app, cl_app InfConfidentialVM = Some app /\
  ps_hostNetwork (pod_of app) = Some true /\
  Forall (propagates "HostToContainer") (default [] (ps_containers (pod_of app))).
Proof.
  destruct (cl_convert InfConfidentialVM) as [w' [app|e]] eqn:E.
  2:{ pose proof cl_convert_ok as [H _]. rewrite E in H. discriminate H. }
  destruct (cvm_pod_mounts (registry_env Cluster) (cl_config InfConfidentialVM) [] "job-1" cl_job None (world cl_start) w' app eq_refl E) as (H1 & _ & _ & _ & H2).
  exists app. unfold cl_app. rewrite E. split; [reflexivity|]. split; [exact H1 | exact H2].
Defined.

Lemma virtual_predictor_ready_witness : exists app, cl_app InfVirtual = Some app /\
  ps_volumes (pod_of app) = Some pod_volumes /\ ps_hostNetwork (pod_of app) = None.
Proof.
  destruct (cl_convert InfVirtual) as [w' [app|e]] eqn:E.
  2:{ pose proof cl_convert_ok as [_ H]. rewrite E in H. discriminate H. }
  destruct (virtual_predictor_ready (registry_env Cluster) (cl_config InfVirtual) [] "job-1" cl_job None (world cl_start) w' app eq_refl E) as (H1 & H2 & _).
  exists app. unfold cl_app. rewrite E. split; [reflexivity|]. split; [exact H1 | exact H2].
Defined.

(** Converting the request reads the registry and leaves the cluster as it is. *)
Abbreviation cl_deploy_convert :=
  (to_inference_svc_spec (registry_env Cluster) (cl_config InfConfidentialVM) [] "job-1" cl_job
    (inf_telemetry (cl_config InfConfidentialVM) true) (world cl_start)).

Lemma cl_deploy_pure : cl_deploy_convert.1 = world cl_start.
Proof. vm_compute. reflexivity. Qed.

Lemma deployed_model_witness : exists s' r spec, cl_deploy = (s', Ok r) /\
  cl_objects (world s') = <[("kserve-inferencing", "iris") := submitted spec inferencing_tags None]> ∅ /\
  companion "iris" "kserve-inferencing" ∅ (cl_services (world s')) /\
  ce_annotations (pr_extension (is_predictor spec)) =
    Some [("api-server-proxy.io/policy", JStr "WyJhbGxvd2FsbCJd"); ("api-server-proxy.io/signature", JStr "signed")].
Proof.
  destruct cl_deploy as [s' [r|e]] eqn:E.
  2:{ pose proof cl_deploy_ok as H. rewrite E in H. discriminate H. }
  destruct (deployed_model (cl_env (JObj [("value", JStr "signed")])) _ _ _ _ _ _ _ _ _ E)
    as (w1 & w2 & app & signature & spec & Ha & Hg & Ho & Hc & _ & Hann & _).
  exists s', r, spec. split; [reflexivity|]. injection Hg as <- <-.
  pose proof (job_policy _ _ _ _ _ _ _ _ _ Ha) as (Hp & _). rewrite Hp in Hann.
  assert (w1 = world cl_start) as -> by (rewrite <- cl_deploy_pure; cbn [ke_build ke_carrier cl_env] in Ha; by rewrite Ha).
  split_and!; [exact Ho | exact Hc | exact Hann].
Defined.

Lemma cl_deploy_convert_ok : is_ok cl_deploy_convert.2 = true.
Proof. vm_compute. reflexivity. Qed.

Lemma unsigned_not_deployed_witness :
  (deploy_inferencing_model (cl_env (JObj [])) (cl_config InfConfidentialVM) cl_job "job-1" true cl_start).2
  = Err (HTTPException 500 "Failed to create inferencing service: No 'value' field in signing response").
Proof.
  pose proof cl_deploy_convert_ok as H.
  destruct cl_deploy_convert as [w' [app|e]] eqn:E; [|discriminate H].
  rewrite (unsigned_not_deployed (cl_env (JObj [])) (cl_config InfConfidentialVM) "job-1" cl_job true cl_start w' w' app
    (ValueError "No 'value' field in signing response") eq_refl E eq_refl).
  reflexivity.
Defined.

Lemma deployed_policy_witness : exists x,
  cl_objects (world cl_deploy.1) !! ("kserve-inferencing", "iris") = Some x /\
  dict_lookup "api-server-proxy.io/policy" (default [] (ce_annotations (pr_extension (is_predictor (stored_spec x)))))
    = Some (JStr "WyJhbGxvd2FsbCJd").
Proof.
  destruct cl_deploy as [s' [r|e]] eqn:E.
  2:{ pose proof cl_deploy_ok as H. rewrite E in H. discriminate H. }
  destruct (get_inferencing_service_policy (cl_env (JObj [("value", JStr "signed")])) (cl_config InfConfidentialVM) cl_job
    true cl_start) as [t' [p|e]] eqn:Ep.
  2:{ vm_compute in Ep. discriminate Ep. }
  destruct (deployed_policy (cl_env (JObj [("value", JStr "signed")])) _ _ _ _ _ _ _ _ _ _ _ _ E Ep) as (x & Hx & Hl & _).
  exists x. split; [exact Hx|]. rewrite Hl. vm_compute in Ep. injection Ep as _ <-. reflexivity.
Defined.
