(* ===== verification/Md5.v ===== *)
(** * Name-based identifiers

    [str(uuid.uuid3(uuid.NAMESPACE_X500, name))] of the Python standard library,
    from which the command line derives short names: the MD5 digest of the
    name space and the name, with the version and variant bits set.  Words are
    32-bit values in [N], least significant byte first. *)

From S2P Require Import Prelude PyStr Base64 Json Sha256.
From Stdlib Require Import Lia Ascii.

Local Open Scope N_scope.

(** ** Constants *)

(** The integer parts of [2^32 * abs(sin(i + 1))]. *)
Definition sine_table : list N :=
  [3614090360; 3905402710; 606105819; 3250441966; 4118548399; 1200080426; 2821735955; 4249261313;
   1770035416; 2336552879; 4294925233; 2304563134; 1804603682; 4254626195; 2792965006; 1236535329;
   4129170786; 3225465664; 643717713; 3921069994; 3593408605; 38016083; 3634488961; 3889429448;
   568446438; 3275163606; 4107603335; 1163531501; 2850285829; 4243563512; 1735328473; 2368359562;
   4294588738; 2272392833; 1839030562; 4259657740; 2763975236; 1272893353; 4139469664; 3200236656;
   681279174; 3936430074; 3572445317; 76029189; 3654602809; 3873151461; 530742520; 3299628645;
   4096336452; 1126891415; 2878612391; 4237533241; 1700485571; 2399980690; 4293915773; 2240044497;
   1873313359; 4264355552; 2734768916; 1309151649; 4149444226; 3174756917; 718787259; 3951481745].

Definition shifts : list N :=
  concat (map (fun l => l ++ l ++ l ++ l) [[7; 12; 17; 22]; [5; 9; 14; 20]; [4; 11; 16; 23]; [6; 10; 15; 21]]).

Definition md5_init : list N := [1732584193; 4023233417; 2562383102; 271733878].

(** ** Padding and words *)

Definition le_bytes (k : nat) (n : N) : list N :=
  map (fun i => N.land (N.shiftr n (8 * N.of_nat i)) 255) (seq 0 k).

Definition md5_pad (bs : list N) : list N :=
  let len := N.of_nat (length bs) in
  bs ++ [128] ++ repeat 0 (N.to_nat ((119 - len mod 64) mod 64)) ++ le_bytes 8 (8 * len).

Fixpoint le_words (bs : list N) : list N :=
  match bs with
  | a :: b :: c :: d :: bs' =>
      N.lor a (N.lor (N.shiftl b 8) (N.lor (N.shiftl c 16) (N.shiftl d 24))) :: le_words bs'
  | _ => []
  end.

(** ** Compression *)

Definition rotl (n x : N) : N := rotr (32 - n) x.

(** The mixing function of a round and the word it reads. *)
Definition md5_mix (i : N) (b c d : N) : N * N :=
  if i <? 16 then (N.lor (N.land b c) (N.land (not32 b) d), i)
  else if i <? 32 then (N.lor (N.land d b) (N.land (not32 d) c), (5 * i + 1) mod 16)
  else if i <? 48 then (N.lxor b (N.lxor c d), (3 * i + 5) mod 16)
  else (N.lxor c (N.lor b (not32 d)), (7 * i) mod 16).

Definition md5_round (block : list N) (v : list N) (r : N * (N * N)) : list N :=
  match v with
  | [a; b; c; d] =>
      let '(i, (k, s)) := r in
      let '(f, g) := md5_mix i b c d in
      [d; add32 b (rotl s (add32 (add32 a f) (add32 k (nth (N.to_nat g) block 0)))); b; c]
  | _ => v
  end.

Definition md5_rounds : list (N * (N * N)) :=
  zip (map N.of_nat (seq 0 64)) (zip sine_table shifts).

Definition md5_compress (h block : list N) : list N :=
  zip_with add32 h (foldl (md5_round block) h md5_rounds).

Fixpoint md5_process (fuel : nat) (h ws : list N) : list N :=
  match fuel, ws with
  | S fuel', _ :: _ => md5_process fuel' (md5_compress h (take 16 ws)) (drop 16 ws)
  | _, _ => h
  end.

(** The sixteen bytes of [hashlib.md5(bs).digest()]. *)
Definition md5_digest (bs : list N) : list N :=
  let ws := le_words (md5_pad bs) in
  concat (map (le_bytes 4) (md5_process (length ws) md5_init ws)).

(** ** Identifiers *)

Definition hex_bytes (bs : list N) : string :=
  foldr (fun b s => String (hex_digit (N.shiftr b 4)) (String (hex_digit (N.land b 15)) s)) ""%string bs.

(** [uuid.NAMESPACE_X500.bytes] *)
Definition NAMESPACE_X500 : list N :=
  [107; 167; 184; 20; 157; 173; 17; 209; 128; 180; 0; 192; 79; 212; 48; 200].

(** Version 3 in the seventh byte, the RFC 4122 variant in the ninth. *)
Definition uuid_bits (i : nat) (b : N) : N :=
  match i with
  | 6%nat => N.lor (N.land b 15) 48
  | 8%nat => N.lor (N.land b 63) 128
  | _ => b
  end.

Definition uuid3_bytes (ns : list N) (name : string) : list N :=
  imap uuid_bits (md5_digest (ns ++ bytes_of (utf8_encode name))).

Definition uuid_str (bs : list N) : string :=
  join "-" [hex_bytes (take 4 bs); hex_bytes (take 2 (drop 4 bs)); hex_bytes (take 2 (drop 6 bs));
            hex_bytes (take 2 (drop 8 bs)); hex_bytes (drop 10 bs)].

Definition uuid3 (name : string) : string := uuid_str (uuid3_bytes NAMESPACE_X500 name).

Example md5_empty : hex_bytes (md5_digest []) = "d41d8cd98f00b204e9800998ecf8427e"%string.
Proof. vm_compute. reflexivity. Qed.

Example md5_two_blocks :
  hex_bytes (md5_digest (bytes_of "12345678901234567890123456789012345678901234567890123456789012345678901234567890"))
  = "57edf4a22be3c955ac49da2e2107b67a"%string.
Proof. vm_compute. reflexivity. Qed.

Example uuid3_config : uuid3 "config.yaml" = "938a7260-c265-3723-8b00-908709667dd6"%string.
Proof. vm_compute. reflexivity. Qed.
