(* ===== verification/SpecModels.v ===== *)
(** * The clean room specification

    The classes of [azure_cleanroom_core/models/cleanroom.py] that describe a
    whole clean room (applications, network, governance), the datasets, queries
    and Spark applications of [models/dataset.py], [models/query.py] and
    [models/spark.py], and the errors of [exceptions/exception.py].  The data
    sources and identities are those of [CleanroomModels]. *)

From S2P Require Import Prelude PyStr Json PyFloat CleanroomModels.

(** ** Errors *)

Inductive ErrorCode :=
| EC_DataStoreNotFound | EC_SecretStoreNotFound | EC_IdentityConfigurationNotFound | EC_CollaborationNotFound
| EC_UnsupportedDekSecretStore | EC_UnsupportedKekSecretStore | EC_MultipleApplicationEndpointsNotSupported
| EC_DatasinkNotFound | EC_DuplicatePort | EC_DataStoreAlreadyExists | EC_SecretStoreAlreadyExists
| EC_CollaborationAlreadyExists | EC_BackingIdentityNotFound | EC_CurrentCollaborationNotSet.

#[export] Instance ErrorCode_eq_dec : EqDecision ErrorCode.
Proof. solve_decision. Defined.

Definition code_value (c : ErrorCode) : string :=
  match c with
  | EC_DataStoreNotFound => "DataStoreNotFound"
  | EC_SecretStoreNotFound => "SecretStoreNotFound"
  | EC_IdentityConfigurationNotFound => "IdentityConfigurationNotFound"
  | EC_CollaborationNotFound => "CollaborationNotFound"
  | EC_UnsupportedDekSecretStore => "UnsupportedDekSecretStore"
  | EC_UnsupportedKekSecretStore => "UnsupportedKekSecretStore"
  | EC_MultipleApplicationEndpointsNotSupported => "MultipleApplicationEndpointsNotSupported"
  | EC_DatasinkNotFound => "DatasinkNotFound"
  | EC_DuplicatePort => "DuplicatePort"
  | EC_DataStoreAlreadyExists => "DataStoreAlreadyExists"
  | EC_SecretStoreAlreadyExists => "SecretStoreAlreadyExists"
  | EC_CollaborationAlreadyExists => "CollaborationAlreadyExists"
  | EC_BackingIdentityNotFound => "BackingIdentityNotFound"
  | EC_CurrentCollaborationNotSet => "CurrentCollaborationNotSet"
  end.

(** [CleanroomSpecificationError(code, message)] *)
Definition spec_error (c : ErrorCode) (message : string) : exn :=
  CleanroomSpecificationError (code_value c) message
    (dumps (JObj [("code", JStr (code_value c)); ("message", JStr message)])).

(** [e.code == c] for a caught error; other exceptions have no code. *)
Definition has_code (c : ErrorCode) (e : exn) : bool :=
  match e with CleanroomSpecificationError k _ _ => bool_decide (k = code_value c) | _ => false end.

Definition is_spec_error (e : exn) : bool :=
  match e with CleanroomSpecificationError _ _ _ => true | _ => false end.

Lemma code_value_inj c1 c2 : code_value c1 = code_value c2 -> c1 = c2.
Proof. by destruct c1, c2. Qed.

Lemma has_code_spec_error c1 c2 m : has_code c1 (spec_error c2 m) = bool_decide (c2 = c1).
Proof.
  unfold has_code, spec_error. apply bool_decide_ext. split; [apply code_value_inj | congruence].
Qed.

(** ** Network *)

Record DnsSettings := { dns_enabled : bool; dns_port : Z }.

Record NetworkEndpoint := { ne_address : string; ne_port : Z }.

Record TcpOutbound := { tcp_out_enabled : bool; allowedIPs : list NetworkEndpoint }.

Record TcpSettings := { tcp_outbound : option TcpOutbound }.

Record Inbound := { inbound_enabled : bool; inbound_policy : PrivacyProxySettings }.

Record Outbound := { outbound_enabled : bool; outbound_policy : PrivacyProxySettings }.

Record HttpSettings := { http_inbound : option Inbound; http_outbound : option Outbound }.

Record NetworkSettings := {
  net_http : option HttpSettings;
  net_tcp : option TcpSettings;
  net_dns : option DnsSettings
}.

(** ** Applications *)

Inductive SandBoxType := Type_0 | SandBox_None.

#[export] Instance SandBoxType_eq_dec : EqDecision SandBoxType.
Proof. solve_decision. Defined.

(** [Policy] has one optional field. *)
Record SandboxSettings := {
  sandboxType : SandBoxType;
  sandbox_privacyPolicy : option (option PrivacyPolicy);
  sandbox_configuration : option string
}.

Record Requests := { req_cpu : float; req_memoryInGB : float }.

Record RuntimeSettings := { rs_ports : list Z; rs_requests : Requests }.

Inductive StartType := Start_Auto | Start_Manual.

Record Image := {
  executable : Document;
  image_protection : option PrivacyProxySettings;
  enforcementPolicy : option PrivacyPolicy
}.

Record SpecApplication := {
  app_name : string;
  app_image : Image;
  app_startType : StartType;
  app_command : list string;
  app_environmentVariables : list (string * string);
  app_datasources : option (list (string * string));
  app_datasinks : option (list (string * string));
  runtimeSettings : RuntimeSettings
}.

(** ** Governance *)

Record GovernanceService := {
  gs_url : string;
  gs_method : string;
  gs_validResponses : list Z;
  gs_identity : Identity
}.

Record ApplicationTelemetry := { at_consent : option GovernanceService; at_logs : AccessPoint }.

Record InfrastructureTelemetry := {
  it_consent : option GovernanceService;
  it_metrics : AccessPoint;
  it_traces : AccessPoint;
  it_logs : AccessPoint
}.

Record SpecTelemetry := {
  tel_infrastructure : option InfrastructureTelemetry;
  tel_application : option ApplicationTelemetry
}.

Record SpecGovernance := {
  gov_consent : option (list GovernanceService);
  gov_audit : option (list GovernanceService);
  gov_telemetry : option SpecTelemetry
}.

Record CleanRoomSpecification := {
  sandbox : option SandboxSettings;
  identities : list Identity;
  datasources : list AccessPoint;
  datasinks : list AccessPoint;
  applications : list SpecApplication;
  network : option NetworkSettings;
  spec_governance : option SpecGovernance
}.

(** ** Datasets, queries and Spark applications *)

Inductive DataFieldType := DF_string | DF_integer | DF_number | DF_boolean | DF_date | DF_long | DF_timestamp.

Definition field_type_value (t : DataFieldType) : string :=
  match t with
  | DF_string => "string" | DF_integer => "integer" | DF_number => "number" | DF_boolean => "boolean"
  | DF_date => "date" | DF_long => "long" | DF_timestamp => "timestamp"
  end.

Definition field_types : list DataFieldType :=
  [DF_string; DF_integer; DF_number; DF_boolean; DF_date; DF_long; DF_timestamp].

Definition data_formats : list DatasetFormat := [fmt_csv; fmt_json; fmt_parquet].

Record DataField := { fieldName : string; fieldType : DataFieldType }.

Record DataSchema := { ds_format : DatasetFormat; ds_fields : list DataField }.

Inductive DataAccessMode := access_read | access_write.

Definition access_mode_value (m : DataAccessMode) : string :=
  match m with access_read => "read" | access_write => "write" end.

Definition access_modes : list DataAccessMode := [access_read; access_write].

Record DataAccessPolicy := { dap_accessMode : DataAccessMode; dap_allowedFields : list string }.

Record DatasetSpecification := {
  dsp_name : string;
  dsp_schema : DataSchema;
  dsp_access_policy : DataAccessPolicy;
  dsp_access_point : AccessPoint
}.

Record SparkDatasetDescriptor := { sd_specification : string; sd_view : string }.

Record SparkSQLApplication := {
  sq_query : string;
  sq_inputDataset : list SparkDatasetDescriptor;
  sq_outputDataset : SparkDatasetDescriptor
}.

(** [E(value)] of an [Enum] whose members are [l]. *)
Fixpoint enum_of {A} (value : A -> string) (l : list A) (s : string) : option A :=
  match l with
  | [] => None
  | x :: l' => if bool_decide (value x = s) then Some x else enum_of value l' s
  end.

Lemma enum_of_spec {A} (value : A -> string) l s x :
  enum_of value l s = Some x -> x ∈ l /\ value x = s.
Proof.
  induction l as [|y l IH]; cbn; [done|]. case_bool_decide; [intros [= <-]; split; [left|done]|].
  intros [? ?]%IH. split; [by right | done].
Qed.
