(* ===== verification/ConfigModels.v ===== *)
(** * Stores, collaborations and identities of the command line

    [models/secretstore.py], [models/datastore.py], [models/collaboration.py] and
    [utilities/identity_manager.py] of [azure_cleanroom_core]: the entries of the
    configuration files and the operations on them.  The methods that find an
    entry first replace a missing list by an empty one; they answer the
    specification so changed beside their result. *)

From S2P Require Import Prelude PyStr Base64 Json Md5 CleanroomModels SpecModels.

(** ** Entries by name *)

Section Named.
Context {A : Type} (name_of : A -> string).

(** [for index, x in enumerate(l): if x.name == name] *)
Fixpoint find_named (name : string) (l : list A) : option (nat * A) :=
  match l with
  | [] => None
  | x :: l' =>
      if bool_decide (name_of x = name) then Some (0, x)
      else (fun p => (S p.1, p.2)) <$> find_named name l'
  end.

(** [l.append(x)], or [l[index] = x] for the first entry of that name. *)
Definition upsert (x : A) (l : list A) : list A :=
  match find_named (name_of x) l with
  | None => l ++ [x]
  | Some (i, _) => <[i := x]> l
  end.
End Named.

(** ** Secret stores *)

Inductive SecretStoreType := SS_Azure_KeyVault | SS_Azure_KeyVault_Managed_HSM | SS_Local_File.

Inductive SupportedSecretType := Supports_Secret | Supports_Key.

#[export] Instance SecretStoreType_eq_dec : EqDecision SecretStoreType.
Proof. solve_decision. Defined.
#[export] Instance SupportedSecretType_eq_dec : EqDecision SupportedSecretType.
Proof. solve_decision. Defined.

Definition secret_store_type_value (t : SecretStoreType) : string :=
  match t with
  | SS_Azure_KeyVault => "Azure_KeyVault"
  | SS_Azure_KeyVault_Managed_HSM => "Azure_KeyVault_Managed_HSM"
  | SS_Local_File => "Local_File"
  end.

Record SecretStoreEntry := {
  se_name : string;
  secretStoreType : SecretStoreType;
  se_storeProviderUrl : string;
  se_configuration : string;
  supportedSecretTypes : list SupportedSecretType
}.

Definition is_key_release_supported (e : SecretStoreEntry) : bool :=
  bool_decide (Supports_Key ∈ supportedSecretTypes e).

Definition is_secret_supported (e : SecretStoreEntry) : bool :=
  bool_decide (Supports_Secret ∈ supportedSecretTypes e).

Record SecretStoreSpecification := { secretstores : option (list SecretStoreEntry) }.

Definition check_secretstore_entry (s : SecretStoreSpecification) (name : string)
  : SecretStoreSpecification * option (nat * SecretStoreEntry) :=
  let l := default [] (secretstores s) in
  ({| secretstores := Some l |}, find_named se_name name l).

Definition get_secretstore_entry (s : SecretStoreSpecification) (name : string)
  : SecretStoreSpecification * res SecretStoreEntry :=
  let '(s', found) := check_secretstore_entry s name in
  (s', of_option (spec_error EC_SecretStoreNotFound ("Secret store " +:+ name +:+ " not found.")) (snd <$> found)).

Definition add_secretstore_entry (s : SecretStoreSpecification) (e : SecretStoreEntry)
  : SecretStoreSpecification * res unit :=
  let '(s', found) := check_secretstore_entry s (se_name e) in
  match found with
  | Some _ => (s', Err (spec_error EC_SecretStoreAlreadyExists ("Secret store " +:+ se_name e +:+ " already exists.")))
  | None => ({| secretstores := Some (default [] (secretstores s') ++ [e]) |}, Ok ())
  end.

(** ** Data stores *)

Inductive StoreType := St_Azure_BlobStorage | St_Azure_BlobStorage_DataLakeGen2 | St_Azure_OneLake | St_Aws_S3.

Inductive AccessMode := Source | Sink.

Inductive EncryptionMode := CSE | SSE_CPK | SSE.

#[export] Instance StoreType_eq_dec : EqDecision StoreType.
Proof. solve_decision. Defined.
#[export] Instance AccessMode_eq_dec : EqDecision AccessMode.
Proof. solve_decision. Defined.
#[export] Instance EncryptionMode_eq_dec : EqDecision EncryptionMode.
Proof. solve_decision. Defined.

Definition encryption_mode_value (m : EncryptionMode) : string :=
  match m with CSE => "CSE" | SSE_CPK => "CPK" | SSE => "SSE" end.

Definition store_type_value (t : StoreType) : string :=
  match t with
  | St_Azure_BlobStorage => "Azure_BlobStorage"
  | St_Azure_BlobStorage_DataLakeGen2 => "Azure_BlobStorage_DataLakeGen2"
  | St_Azure_OneLake => "Azure_OneLake"
  | St_Aws_S3 => "Aws_S3"
  end.

(** [str] of an optional encryption mode. *)
Definition encryption_mode_str (m : option EncryptionMode) : string :=
  match m with Some m => encryption_mode_value m | None => "None" end.

(** [m in [CSE, SSE_CPK]] *)
Definition uses_keys (m : option EncryptionMode) : bool :=
  match m with Some CSE | Some SSE_CPK => true | _ => false end.

Record DataStoreEntry := {
  de_name : string;
  secretstore_config : option string;
  secretstore_name : option string;
  encryptionMode : option EncryptionMode;
  storeType : StoreType;
  de_storeProviderUrl : string;
  storeProviderConfiguration : option string;
  storeName : string;
  datasetSchema : option DataSchema
}.

Definition proxy_type (t : StoreType) (m : AccessMode) : ProxyType :=
  match t, m with
  | St_Azure_BlobStorage, Source => SecureVolume__ReadOnly__Azure__BlobStorage
  | St_Azure_BlobStorage, Sink => SecureVolume__ReadWrite__Azure__BlobStorage
  | St_Azure_BlobStorage_DataLakeGen2, Source => SecureVolume__ReadOnly__Azure__BlobStorage__DataLakeGen2
  | St_Azure_BlobStorage_DataLakeGen2, Sink => SecureVolume__ReadWrite__Azure__BlobStorage__DataLakeGen2
  | St_Azure_OneLake, Source => SecureVolume__ReadOnly__Azure__OneLake
  | St_Azure_OneLake, Sink => SecureVolume__ReadWrite__Azure__OneLake
  | St_Aws_S3, Source => SecureVolume__ReadOnly__Aws__S3
  | St_Aws_S3, Sink => SecureVolume__ReadWrite__Aws__S3
  end.

Definition provider_protocol (t : StoreType) : ProtocolType :=
  match t with
  | St_Azure_BlobStorage => Azure_BlobStorage
  | St_Azure_BlobStorage_DataLakeGen2 => Azure_BlobStorage_DataLakeGen2
  | St_Azure_OneLake => Azure_OneLake
  | St_Aws_S3 => Aws_S3
  end.

(** [ResourceType(str(storeType))] *)
Definition store_resource_type (t : StoreType) : ResourceType :=
  match t with
  | St_Azure_BlobStorage => RT_Azure_BlobStorage
  | St_Azure_BlobStorage_DataLakeGen2 => RT_Azure_BlobStorage_DataLakeGen2
  | St_Azure_OneLake => RT_Azure_OneLake
  | St_Aws_S3 => RT_Aws_S3
  end.

Definition access_point_type (m : AccessMode) : AccessPointType :=
  match m with Source => Volume_ReadOnly | Sink => Volume_ReadWrite end.

(** A secret of a key vault. *)
Definition vault_secret (store_id name url : string) (protocol : ProtocolType) (config : option string)
  : EncryptionSecret :=
  {| es_name := name;
     es_secret := {| secretType := ST_Key;
                     backingResource := {| resource_id := store_id; resource_name := name;
                       resource_type := RT_AzureKeyVault;
                       provider := {| protocol := protocol; endpoint_url := url; endpoint_configuration := config |} |} |} |}.

(** The wrapped key in [dek_store], released through the key of [kek_store]. *)
Definition encryption_secrets (datastore_name kek_name : string) (dek_id kek_id : string)
    (dek_store kek_store : SecretStoreEntry) : res EncryptionSecrets :=
  let wrapped_dek_name := "wrapped-" +:+ datastore_name +:+ "-dek-" +:+ kek_name in
  if negb (is_secret_supported dek_store) then
    Err (spec_error EC_UnsupportedDekSecretStore
           ("Unsupported DEK secret store " +:+ se_name dek_store +:+ ". Please use Standard or Premium Key Vault"))
  else if negb (is_key_release_supported kek_store) then
    Err (spec_error EC_UnsupportedKekSecretStore
           ("Unsupported KEK secret store " +:+ se_name kek_store +:+ ". Please use MHSM or Premium Key Vault"))
  else Ok {| dek := vault_secret dek_id wrapped_dek_name (se_storeProviderUrl dek_store) AzureKeyVault_Secret (Some "");
             kek := Some (vault_secret kek_id kek_name (se_storeProviderUrl kek_store) AzureKeyVault_SecureKey
                            (Some (se_configuration kek_store))) |}.

Definition store_resource (e : DataStoreEntry) (id : string) : Resource :=
  {| resource_name := storeName e; resource_type := store_resource_type (storeType e); resource_id := id;
     provider := {| protocol := provider_protocol (storeType e); endpoint_url := de_storeProviderUrl e;
                    endpoint_configuration := storeProviderConfiguration e |} |}.

(** [str(uuid.uuid3(uuid.NAMESPACE_X500, seed))[:8] + "-kek"] *)
Definition default_kek_name (seed : string) : string := str_take 8 (uuid3 seed) +:+ "-kek".

(** [DataStoreEntry.get_access_point] *)
Definition get_access_point (e : DataStoreEntry) (access_name : string) (mode : AccessMode)
    (access_identity : option Identity) (kek_name : option string)
    (dek_store kek_store : option SecretStoreEntry) : res AccessPoint :=
  secrets ← (if uses_keys (encryptionMode e) then
               match dek_store, kek_store with
               | Some d, Some k =>
                   let kek_name := if ostr_truthy kek_name then default "" kek_name
                                   else default_kek_name (de_name e +:+ access_name) in
                   Some <$> encryption_secrets (de_name e) kek_name (se_name d) (se_name k) d k
               | _, _ =>
                   Err (AssertionError ("Secret store information not specified when generating access point for datastore "
                          +:+ de_name e +:+ " using encryption mode " +:+ encryption_mode_str (encryptionMode e)))
               end
             else Ok None);
  Ok {| ap_name := access_name; ap_type := access_point_type mode; ap_path := "";
        store := store_resource e (de_name e); identity := access_identity;
        protection :=
          {| proxyType := proxy_type (storeType e) mode; proxyMode := PM_Secure; privacyPolicy := None;
             configuration := Some (b64encode (utf8_encode (dumps (JObj [("KeyType", JStr "KEK");
                 ("EncryptionMode", JStr (encryption_mode_str (encryptionMode e)))]))));
             encryptionSecrets := secrets; encryptionSecretAccessIdentity := access_identity |};
        subdirectory := Some "" |}.

Record DataStoreSpecification := { datastores : option (list DataStoreEntry) }.

Definition check_datastore_entry (s : DataStoreSpecification) (name : string)
  : DataStoreSpecification * option (nat * DataStoreEntry) :=
  let l := default [] (datastores s) in
  ({| datastores := Some l |}, find_named de_name name l).

Definition get_datastore_entry (s : DataStoreSpecification) (name : string)
  : DataStoreSpecification * res DataStoreEntry :=
  let '(s', found) := check_datastore_entry s name in
  (s', of_option (spec_error EC_DataStoreNotFound ("Datastore " +:+ name +:+ " not found.")) (snd <$> found)).

Definition add_datastore_entry (s : DataStoreSpecification) (e : DataStoreEntry)
  : DataStoreSpecification * res unit :=
  let '(s', found) := check_datastore_entry s (de_name e) in
  match found with
  | Some _ => (s', Err (spec_error EC_DataStoreAlreadyExists ("Datastore " +:+ de_name e +:+ " already exists.")))
  | None => ({| datastores := Some (default [] (datastores s') ++ [e]) |}, Ok ())
  end.

(** ** Collaborations *)

Record CollaborationContext := {
  cc_name : string;
  collaborator_id : string;
  governance_client_name : string;
  cc_identities : list Identity
}.

Record CollaborationSpecification := {
  collaborations : option (list CollaborationContext);
  current_context : option string
}.

Definition check_collaboration_context (s : CollaborationSpecification) (name : string)
  : CollaborationSpecification * option (nat * CollaborationContext) :=
  let l := default [] (collaborations s) in
  ({| collaborations := Some l; current_context := current_context s |}, find_named cc_name name l).

Definition get_collaboration_context (s : CollaborationSpecification) (name : string)
  : CollaborationSpecification * res CollaborationContext :=
  let '(s', found) := check_collaboration_context s name in
  (s', of_option (spec_error EC_CollaborationNotFound ("Collaboration " +:+ name +:+ " not found.")) (snd <$> found)).

Definition add_collaboration_context (s : CollaborationSpecification) (c : CollaborationContext)
    (set_current_context : bool) : CollaborationSpecification * res unit :=
  let '(s', found) := check_collaboration_context s (cc_name c) in
  match found with
  | Some _ =>
      (s', Err (spec_error EC_CollaborationAlreadyExists ("Collaboration " +:+ cc_name c +:+ " already exists.")))
  | None => ({| collaborations := Some (default [] (collaborations s') ++ [c]);
                current_context := if set_current_context then Some (cc_name c) else current_context s' |}, Ok ())
  end.

Definition get_active_collaboration_context (s : CollaborationSpecification)
  : CollaborationSpecification * res CollaborationContext :=
  match current_context s with
  | None => (s, Err (spec_error EC_CurrentCollaborationNotSet "Current collaboration context is not set."))
  | Some name => get_collaboration_context s name
  end.

Definition set_active_collaboration_context (s : CollaborationSpecification) (name : string)
  : CollaborationSpecification * res unit :=
  match get_collaboration_context s name with
  | (s', Ok c) => ({| collaborations := collaborations s'; current_context := Some (cc_name c) |}, Ok ())
  | (s', Err e) => (s', Err e)
  end.

Definition clear_active_collaboration_context (s : CollaborationSpecification) : CollaborationSpecification :=
  {| collaborations := collaborations s; current_context := None |}.

(** ** The identity manager

    The manager works on the list it is given, in place: the operations answer
    the list as it is left. *)

Definition identity_name (i : Identity) : string := match i with MkIdentity n _ _ _ => n end.

Definition upsert_identity (i : Identity) (l : list Identity) : list Identity := upsert identity_name i l.

Definition default_identity : Identity :=
  MkIdentity "cleanroom_cgs_oidc" "" ""
    (AttestationBasedTokenIssuer {| protocol := Attested_OIDC; endpoint_url := "https://cgs/oidc";
                                    endpoint_configuration := Some "" |}).

(** [IdentityManager(identities, logger)] *)
Definition identity_manager (l : list Identity) : list Identity := upsert_identity default_identity l.

Definition get_identity (l : list Identity) (name : string) : res Identity :=
  of_option (spec_error EC_IdentityConfigurationNotFound ("Identity " +:+ name +:+ " not found in the configuration."))
    (snd <$> find_named identity_name name l).

Definition backing_identity (l : list Identity) (name : string) : res Identity :=
  match get_identity l name with
  | Ok i => Ok i
  | Err e => if has_code EC_IdentityConfigurationNotFound e
             then Err (spec_error EC_BackingIdentityNotFound
                         ("The specified backing identity " +:+ name +:+ " could not be found."))
             else Err e
  end.

Definition add_identity_az_federated (l : list Identity)
    (name client_id tenant_id token_issuer_url backing_identity_name : string) : res (list Identity) :=
  backing ← backing_identity l backing_identity_name;
  Ok (upsert_identity
        (MkIdentity name client_id tenant_id
           (FederatedIdentityBasedTokenIssuer {| protocol := AzureAD_Federated; endpoint_url := token_issuer_url;
              endpoint_configuration := Some "" |} backing)) l).

Definition add_identity_az_secret (l : list Identity)
    (name client_id tenant_id secret_name secret_store_url backing_identity_name : string) : res (list Identity) :=
  backing ← backing_identity l backing_identity_name;
  Ok (upsert_identity
        (MkIdentity name client_id tenant_id
           (SecretBasedTokenIssuer
              {| protocol := AzureAD_Secret; endpoint_url := "https://AzureAD"; endpoint_configuration := Some "" |}
              {| secretType := ST_Secret;
                 backingResource := {| resource_name := secret_name; resource_type := RT_AzureKeyVault;
                   resource_id := secret_name;
                   provider := {| protocol := AzureKeyVault_Secret; endpoint_url := secret_store_url;
                                  endpoint_configuration := Some "" |} |} |}
              backing)) l).

Definition add_identity_oidc_attested (l : list Identity) (name client_id tenant_id issuer_url : string)
  : list Identity :=
  upsert_identity
    (MkIdentity name client_id tenant_id
       (AttestationBasedTokenIssuer {| protocol := Attested_OIDC; endpoint_url := issuer_url;
          endpoint_configuration := Some "" |})) l.
