(* ===== verification/ConfigHelpers.v ===== *)
(** * Configuration files

    [utilities/configuration_helpers.py] and the configuration part of
    [utilities/datastore_helpers.py].  Files and the YAML library are a parameter
    ([ConfigEnv]); so is pydantic's conversion of a model to a document and back
    ([Codec]). *)

From S2P Require Import Prelude PyStr Base64 Json Md5 CleanroomModels SpecModels ConfigModels.

(** [model.model_dump(mode="json")] and the model made of a document's fields *)
Record Codec (D A : Type) := { dump_model : A -> D; parse_model : D -> res A }.
Arguments dump_model {D A}.
Arguments parse_model {D A}.

(** [load_yaml] opens a file and parses it, [None] for an empty document;
    [dump_yaml] writes one; [no_fields] is the empty dictionary. *)
Record ConfigEnv (W : Type) := {
  document : Type;
  no_fields : document;
  load_yaml : string -> M W (option document);
  dump_yaml : string -> document -> M W unit;
  config_exists : string -> M W bool;
  spec_codec : Codec document CleanRoomSpecification;
  datastore_codec : Codec document DataStoreSpecification;
  secretstore_codec : Codec document SecretStoreSpecification;
  collaboration_codec : Codec document CollaborationSpecification
}.
Arguments document {W}.
Arguments no_fields {W}.
Arguments load_yaml {W}.
Arguments dump_yaml {W}.
Arguments config_exists {W}.
Arguments spec_codec {W}.
Arguments datastore_codec {W}.
Arguments secretstore_codec {W}.
Arguments collaboration_codec {W}.

Section Files.
Context {W : Type} (ce : ConfigEnv W).

Definition read_configuration_file (config_file : string) : M W (document ce) :=
  config ← load_yaml ce config_file;
  mret (default (no_fields ce) config).

Definition read_config {A} (c : Codec (document ce) A) (config_file : string) : M W A :=
  spec ← read_configuration_file config_file;
  lift (parse_model c spec).

Definition write_config {A} (c : Codec (document ce) A) (config_file : string) (config : A) : M W unit :=
  dump_yaml ce config_file (dump_model c config).

Definition read_cleanroom_spec : string -> M W CleanRoomSpecification := read_config (spec_codec ce).
Definition read_datastore_config : string -> M W DataStoreSpecification := read_config (datastore_codec ce).
Definition read_secretstore_config : string -> M W SecretStoreSpecification := read_config (secretstore_codec ce).
Definition read_collaboration_config : string -> M W CollaborationSpecification := read_config (collaboration_codec ce).
Definition write_cleanroom_spec : string -> CleanRoomSpecification -> M W unit := write_config (spec_codec ce).
Definition write_datastore_config : string -> DataStoreSpecification -> M W unit := write_config (datastore_codec ce).
Definition write_secretstore_config : string -> SecretStoreSpecification -> M W unit := write_config (secretstore_codec ce).
Definition write_collaboration_config : string -> CollaborationSpecification -> M W unit :=
  write_config (collaboration_codec ce).

(** ** Data sources and sinks of a clean room *)

Definition with_datasources (s : CleanRoomSpecification) (l : list AccessPoint) : CleanRoomSpecification :=
  {| sandbox := sandbox s; identities := identities s; datasources := l; datasinks := datasinks s;
     applications := applications s; network := network s; spec_governance := spec_governance s |}.
Definition with_datasinks (s : CleanRoomSpecification) (l : list AccessPoint) : CleanRoomSpecification :=
  {| sandbox := sandbox s; identities := identities s; datasources := datasources s; datasinks := l;
     applications := applications s; network := network s; spec_governance := spec_governance s |}.

(** [candidate_list] *)
Definition access_points (mode : AccessMode) (s : CleanRoomSpecification) : list AccessPoint :=
  match mode with Source => datasources s | Sink => datasinks s end.
Definition with_access_points (mode : AccessMode) (s : CleanRoomSpecification) (l : list AccessPoint)
  : CleanRoomSpecification :=
  match mode with Source => with_datasources s l | Sink => with_datasinks s l end.

(** The identity that reaches the store: none for S3. *)
Definition protection_identity (t : StoreType) (ids : list Identity) (name : string) : res (option Identity) :=
  match t with
  | St_Aws_S3 => Ok None
  | _ => Some <$> of_option (spec_error EC_IdentityConfigurationNotFound "Identity configuration not found.")
                    (snd <$> find_named identity_name name ids)
  end.

Definition proxy_config (m : option EncryptionMode) : json :=
  JObj (("EncryptionMode", JStr (encryption_mode_str m))
        :: if uses_keys m then [("KeyType", JStr "KEK")] else []).

Definition datastore_access_point (e : DataStoreEntry) (datastore_name access_name subdirectory : string)
    (mode : AccessMode) (i : option Identity) (secrets : option EncryptionSecrets) : AccessPoint :=
  {| ap_name := access_name; ap_type := access_point_type mode; ap_path := "";
     store := store_resource e datastore_name; identity := i;
     protection :=
       {| proxyType := proxy_type (storeType e) mode; proxyMode := PM_Secure; privacyPolicy := None;
          configuration := Some (b64encode (utf8_encode (dumps (proxy_config (encryptionMode e)))));
          encryptionSecrets := secrets; encryptionSecretAccessIdentity := i |};
     subdirectory := Some subdirectory |}.

(** The parameters of [config_add_datastore] after the access mode. *)
Record AddOptions := {
  o_secretstore_config_file : string;
  o_dek_secret_store : string;
  o_kek_secret_store : string;
  o_kek_name : string;
  o_access_name : string;
  o_subdirectory : string
}.

(** The keys are looked up for the modes that need them only. *)
Definition datastore_secrets (e : DataStoreEntry) (cleanroom_config_file datastore_name : string) (o : AddOptions)
  : M W (option EncryptionSecrets) :=
  if uses_keys (encryptionMode e) then
    let kek_name := if str_truthy (o_kek_name o) then o_kek_name o else default_kek_name cleanroom_config_file in
    secretstore_config ← read_secretstore_config (o_secretstore_config_file o);
    let '(secretstore_config, d) := get_secretstore_entry secretstore_config (o_dek_secret_store o) in
    dek_store ← lift d;
    kek_store ← lift (get_secretstore_entry secretstore_config (o_kek_secret_store o)).2;
    secrets ← lift (encryption_secrets datastore_name kek_name (o_dek_secret_store o) (o_kek_secret_store o)
                      dek_store kek_store);
    mret (Some secrets)
  else mret None.

Definition config_add_datastore (cleanroom_config_file datastore_name datastore_config_file identity : string)
    (access_mode : AccessMode) (o : AddOptions) : M W unit :=
  let access_name := if str_truthy (o_access_name o) then o_access_name o else datastore_name in
  cleanroom_spec ← read_cleanroom_spec cleanroom_config_file;
  datastore_config ← read_datastore_config datastore_config_file;
  e ← lift (get_datastore_entry datastore_config datastore_name).2;
  secrets ← datastore_secrets e cleanroom_config_file datastore_name o;
  i ← lift (protection_identity (storeType e) (identities cleanroom_spec) identity);
  let access_point := datastore_access_point e datastore_name access_name (o_subdirectory o) access_mode i secrets in
  write_cleanroom_spec cleanroom_config_file
    (with_access_points access_mode cleanroom_spec
       (upsert ap_name access_point (access_points access_mode cleanroom_spec))).

Definition config_get_datastore_name (cleanroom_config access_name : string) (access_mode : AccessMode) : M W string :=
  spec ← read_cleanroom_spec cleanroom_config;
  lift (of_option (spec_error EC_DataStoreNotFound ("Datastore " +:+ access_name +:+ " not found."))
          ((fun p => resource_id (store p.2)) <$> find_named ap_name access_name (access_points access_mode spec))).
End Files.

Definition generate_safe_datastore_name (prefix unique_name friendly_name : string) : string :=
  str_take 63 (prefix +:+ "-" +:+ str_take 8 (uuid3 unique_name) +:+ "-" +:+ friendly_name).
