(* ===== verification/Encryptor.v ===== *)
(** * Client-side encryption of files

    [encrypt_file] and [decrypt_file] of [utilities/datastore_helpers.py], and the
    two functions of [encryptor/aes_encryptor.go] they call through a JSON
    interface.  Files, random nonces and AES-GCM are parameters ([CryptEnv]); a
    file's content is a string of bytes, and a handle is the position it has
    reached. *)

From S2P Require Import Prelude PyStr Base64 Json.
From Stdlib Require Import Lia Ascii.

(** ** Bytes *)

Fixpoint str_drop (n : nat) (s : string) : string :=
  match n, s with
  | O, _ => s
  | S n', String _ s' => str_drop n' s'
  | S _, "" => ""
  end.

(** [bytes(n)] *)
Fixpoint zero_bytes (n : nat) : string :=
  match n with O => "" | S n' => String zero (zero_bytes n') end.

(** [n.to_bytes(k, byteorder="big")] for an [n] that fits. *)
Fixpoint be_bytes (k : nat) (n : Z) : string :=
  match k with
  | O => ""
  | S k' => String (ascii_of_N (Z.to_N ((n / 256 ^ Z.of_nat k') mod 256))) (be_bytes k' n)
  end.

Definition to_bytes_big (k : nat) (n : Z) : res string :=
  if (n <? 0)%Z || (256 ^ Z.of_nat k <=? n)%Z then Err (OtherException "int too big to convert")
  else Ok (be_bytes k n).

(** [int.from_bytes(s, byteorder="big")] *)
Fixpoint from_bytes_go (acc : Z) (s : string) : Z :=
  match s with
  | "" => acc
  | String c s' => from_bytes_go (acc * 256 + Z.of_N (code c)) s'
  end.
Definition from_bytes_big (s : string) : Z := from_bytes_go 0 s.

(** [s[:n]], where a negative [n] counts from the end. *)
Definition slice_to (s : string) (n : Z) : string :=
  if (0 <=? n)%Z then str_take (Z.to_nat n) s
  else str_take (Z.to_nat (Z.of_nat (String.length s) + n)) s.

(** ** Constants *)

Definition NonceSize : Z := 12.
Definition AuthTagSize : Z := 16.
Definition PadLengthSize : Z := 8.
Definition MetaSize : Z := NonceSize + AuthTagSize.

Record CryptEnv (W : Type) := {
  open_wb : string -> M W unit;
  open_rb : string -> M W unit;
  read_at : string -> Z -> Z -> M W string;
  append_bytes : string -> string -> M W unit;
  getsize : string -> M W Z;
  rand_nonce : M W string;
  gcm_seal : string -> string -> string -> string;
  gcm_open : string -> string -> string -> option string
}.
Arguments open_wb {W}.
Arguments open_rb {W}.
Arguments read_at {W}.
Arguments append_bytes {W}.
Arguments getsize {W}.
Arguments rand_nonce {W}.
Arguments gcm_seal {W}.
Arguments gcm_open {W}.

Section Encryptor.
Context {W : Type} (cr : CryptEnv W).

(** ** aes_encryptor.go *)

(** [aes.NewCipher] takes keys of these lengths. *)
Definition valid_key (key : string) : bool :=
  bool_decide (String.length key ∈ [16; 24; 32]).

Definition key_error (key : string) : string :=
  "crypto/aes: invalid key size " +:+ str_of_Z (Z.of_nat (String.length key)).

(** The cipher text with its nonce, or the error's message. *)
Definition EncryptChunk (data key : string) : M W (string * string + string) :=
  if negb (valid_key key) then mret (inr (key_error key))
  else nonce ← rand_nonce cr; mret (inl (gcm_seal cr key nonce data, nonce)).

Definition DecryptChunk (cipherText nonce key : string) : string + string :=
  if negb (valid_key key) then inr (key_error key)
  else match gcm_open cr key nonce cipherText with
       | Some plainText => inl plainText
       | None => inr "cipher: message authentication failed"
       end.

(** A [[]byte] field of a request; [log.Fatal] ends the process. *)
Definition fatal {A} (msg : string) : res A := Err (OtherException msg).

Definition byte_field (j : json) (k : string) : res string :=
  match j with
  | JObj d =>
      match dict_lookup k d with
      | None | Some JNull => Ok ""
      | Some (JStr s) => match b64decode s with Ok b => Ok b | Err e => fatal (exn_str e) end
      | Some _ => fatal ("json: cannot unmarshal " +:+ k)
      end
  | _ => fatal "json: cannot unmarshal document"
  end.

Definition request_json (request : string) : res json :=
  match loads request with Ok j => Ok j | Err e => fatal (exn_str e) end.

Definition go_error (msg : string) : json := JObj [("Code", JInt 1); ("Message", JStr msg)].

Definition GoEncryptChunk (request : string) : M W string :=
  args ← lift (j ← request_json request; d ← byte_field j "Data"; k ← byte_field j "Key"; Ok (d, k));
  result ← EncryptChunk args.1 args.2;
  mret (dumps_with "" (match result with
    | inl (c, n) => JObj [("CipherText", JStr (b64encode c)); ("Nonce", JStr (b64encode n)); ("Error", JNull)]
    | inr e => JObj [("CipherText", JNull); ("Nonce", JNull); ("Error", go_error e)]
    end)).

Definition GoDecryptChunk (request : string) : res string :=
  j ← request_json request;
  c ← byte_field j "CipherText";
  n ← byte_field j "Nonce";
  k ← byte_field j "Key";
  Ok (dumps_with "" (match DecryptChunk c n k with
    | inl p => JObj [("PlainText", JStr (b64encode p)); ("Error", JNull)]
    | inr e => JObj [("PlainText", JNull); ("Error", go_error e)]
    end)).

(** ** datastore_helpers.py *)

(** [base64.b64decode(j)] *)
Definition b64decode_value (j : json) : res string :=
  match j with
  | JStr s => b64decode s
  | _ => Err (TypeError ("argument should be a bytes-like object or ASCII string, not '" +:+ py_type j +:+ "'"))
  end.

Definition response_field (response k : string) : res string :=
  text ← utf8_decode response;
  j ← loads text;
  v ← json_get j k JNull;
  b64decode_value v.

(** The nonce followed by the encrypted chunk. *)
Definition encrypt_chunk (buffer key : string) : M W string :=
  response ← GoEncryptChunk (utf8_encode (dumps (JObj [("Data", JStr (b64encode buffer)); ("Key", JStr (b64encode key))])));
  encryptedChunk ← lift (response_field response "CipherText");
  nonce ← lift (response_field response "Nonce");
  mret (nonce +:+ encryptedChunk).

(** [while True]: the plain text is read block by block from position [pos];
    answers the padding of the last block. *)
Fixpoint encrypt_loop (fuel : nat) (plaintextPath ciphertextPath key : string) (blockSize pos paddingLength : Z)
  : M W Z :=
  match fuel with
  | O => raise (OtherException "encrypt_file: fuel")
  | S fuel' =>
      buffer ← read_at cr plaintextPath pos blockSize;
      let dataLen := Z.of_nat (String.length buffer) in
      if bool_decide (buffer = "") then mret paddingLength
      else
        let short := (dataLen <? blockSize)%Z in
        let paddingLength := if short then (blockSize - dataLen)%Z else paddingLength in
        let buffer := if short then buffer +:+ zero_bytes (Z.to_nat paddingLength) else buffer in
        encryptedChunk ← encrypt_chunk buffer key;
        _ ← append_bytes cr ciphertextPath encryptedChunk;
        encrypt_loop fuel' plaintextPath ciphertextPath key blockSize (pos + dataLen) paddingLength
  end.

Definition encrypt_file (fuel : nat) (plaintextPath key : string) (blockSize : Z) (ciphertextPath : string) : M W unit :=
  _ ← open_wb cr ciphertextPath;
  _ ← open_rb cr plaintextPath;
  paddingLength ← encrypt_loop fuel plaintextPath ciphertextPath key blockSize 0 0;
  paddingLengthByte ← lift (to_bytes_big 8 paddingLength);
  append_bytes cr ciphertextPath paddingLengthByte.

Definition decrypt_chunk (buffer nonce key : string) : res string :=
  response ← GoDecryptChunk (utf8_encode (dumps (JObj [("CipherText", JStr (b64encode buffer));
               ("Nonce", JStr (b64encode nonce)); ("Key", JStr (b64encode key))])));
  response_field response "PlainText".

(** [for i in range(totalBlocks)], with [remaining] blocks to go; the padding is
    read after the last block. *)
Fixpoint decrypt_loop (remaining : nat) (ciphertextPath plaintextPath key : string) (blockSize pos : Z) : M W unit :=
  match remaining with
  | O => mret ()
  | S remaining' =>
      buffer ← read_at cr ciphertextPath pos (blockSize + MetaSize);
      let next := (pos + Z.of_nat (String.length buffer))%Z in
      let nonce := str_take (Z.to_nat NonceSize) buffer in
      let body := str_drop (Z.to_nat NonceSize) buffer in
      if bool_decide (body = "") then mret ()
      else
        decryptedChunk ← lift (decrypt_chunk body nonce key);
        decryptedChunk ← (match remaining' with
          | O =>
              padding ← read_at cr ciphertextPath next PadLengthSize;
              mret (slice_to decryptedChunk (Z.of_nat (String.length decryptedChunk) - from_bytes_big padding))
          | S _ => mret decryptedChunk
          end);
        _ ← append_bytes cr plaintextPath decryptedChunk;
        decrypt_loop remaining' ciphertextPath plaintextPath key blockSize next
  end.

Definition decrypt_file (ciphertextPath key : string) (blockSize : Z) (plaintextPath : string) : M W unit :=
  _ ← open_rb cr ciphertextPath;
  _ ← open_wb cr plaintextPath;
  ciphertextFileSize ← getsize cr ciphertextPath;
  let totalBlocks := ((ciphertextFileSize - PadLengthSize) / (blockSize + MetaSize))%Z in
  decrypt_loop (Z.to_nat totalBlocks) ciphertextPath plaintextPath key blockSize 0.
End Encryptor.
