(* ===== verification/EncryptorProps.v ===== *)
(** * Encrypted files decrypt to what was encrypted

    The chunk functions invert each other, the padding survives its eight bytes,
    and so a file encrypted with [encrypt_file] comes back from [decrypt_file]. *)

From S2P Require Import Prelude PyStr Base64 Json JsonFacts Encryptor.
From Stdlib Require Import Lia Ascii.

(** ** Bytes *)

Lemma str_drop_length n s : String.length (str_drop n s) = String.length s - n.
Proof. revert s. induction n as [|n IH]; intros [|c s]; cbn; auto with lia. Qed.

Lemma str_take_drop n s : str_take n s +:+ str_drop n s = s.
Proof. revert s. induction n as [|n IH]; intros [|c s]; cbn; try done. by rewrite string_app_cons, IH. Qed.

Lemma str_drop_app n s t : n = String.length s -> str_drop n (s +:+ t) = t.
Proof. intros ->. induction s as [|c s IH]; [done | exact IH]. Qed.

Lemma str_take_app_exact n s t : n = String.length s -> str_take n (s +:+ t) = s.
Proof. intros ->. induction s as [|c s IH]; [by destruct t|]. rewrite string_app_cons. cbn. by rewrite IH. Qed.

Lemma str_drop_drop m n s : str_drop m (str_drop n s) = str_drop (n + m) s.
Proof. revert s. induction n as [|n IH]; intros [|c s]; cbn; try done. by destruct m. Qed.

Lemma str_drop_all n s : String.length s <= n -> str_drop n s = "".
Proof. revert s. induction n as [|n IH]; intros [|c s] H; cbn in *; try done || lia. apply IH. lia. Qed.

Lemma zero_bytes_length n : String.length (zero_bytes n) = n.
Proof. induction n; cbn; congruence. Qed.

Lemma string_app_inj_length (s s' t t' : string) :
  String.length s = String.length s' -> s +:+ t = s' +:+ t' -> s = s' /\ t = t'.
Proof.
  revert s'. induction s as [|c s IH]; intros [|c' s'] Hl H; try done.
  rewrite !string_app_cons in H. injection H as -> H. injection Hl as Hl. destruct (IH s' Hl H) as [-> ->]. done.
Qed.

Lemma be_bytes_length k n : String.length (be_bytes k n) = k.
Proof. induction k; cbn; congruence. Qed.

Lemma from_bytes_be k : forall acc n, (0 <= n)%Z ->
  from_bytes_go acc (be_bytes k n) = (acc * 256 ^ Z.of_nat k + n mod 256 ^ Z.of_nat k)%Z.
Proof.
  induction k as [|k IH]; intros acc n Hn; cbn [be_bytes from_bytes_go].
  - cbn. rewrite Z.mod_1_r. lia.
  - rewrite IH by done. unfold code. rewrite N_ascii_embedding by
      (apply N2Z.inj_lt; rewrite Z2N.id by (apply Z.mod_pos_bound; lia); apply Z.mod_pos_bound; lia).
    rewrite Z2N.id by (apply Z.mod_pos_bound; lia). rewrite Nat2Z.inj_succ, Z.pow_succ_r by lia.
    rewrite (Z.mul_comm 256), Z.rem_mul_r by (try apply Z.pow_pos_nonneg; lia). nia.
Qed.

Lemma to_from_bytes k n s : to_bytes_big k n = Ok s -> from_bytes_big s = n /\ String.length s = k.
Proof.
  unfold to_bytes_big, from_bytes_big.
  destruct (Z.ltb_spec n 0); [done|]. destruct (Z.leb_spec (256 ^ Z.of_nat k) n); [done|]. intros [= <-].
  rewrite from_bytes_be, Z.mod_small by lia. split; [lia | apply be_bytes_length].
Qed.

(** ** Chunks *)

(** AES-GCM: opening what was sealed gives it back, and the tag takes sixteen
    bytes.  Nonces have twelve bytes. *)
Class GcmLaws {W} (cr : CryptEnv W) := {
  open_seal k n d : gcm_open cr k n (gcm_seal cr k n d) = Some d;
  seal_length k n d : String.length (gcm_seal cr k n d) = String.length d + 16
}.

Section Chunks.
Context {W : Type} (cr : CryptEnv W) `{!GcmLaws cr}.

Lemma request_parses d : json_wf (JObj d) = true -> request_json (utf8_encode (dumps (JObj d))) = Ok (JObj d).
Proof. intros H. unfold request_json. rewrite utf8_encode_ascii by apply dumps_ascii. by rewrite loads_dumps. Qed.

Lemma response_parses d k s : json_wf (JObj d) = true -> dict_lookup k d = Some (JStr (b64encode s)) ->
  response_field (dumps_with "" (JObj d)) k = Ok s.
Proof.
  intros Hd Hk. unfold response_field. rewrite utf8_decode_ascii by by apply dumps_with_ascii.
  cbn [mbind res_bind]. rewrite (loads_dumps_with "") by done. cbn [mbind res_bind json_get]. rewrite Hk.
  apply b64_roundtrip.
Qed.

Lemma byte_field_b64 d k s : dict_lookup k d = Some (JStr (b64encode s)) -> byte_field (JObj d) k = Ok s.
Proof. intros H. cbn [byte_field]. by rewrite H, b64_roundtrip. Qed.

Definition sealed_response (c n : string) : json :=
  JObj [("CipherText", JStr (b64encode c)); ("Nonce", JStr (b64encode n)); ("Error", JNull)].

Lemma EncryptChunk_run data key w : valid_key key = true ->
  EncryptChunk cr data key w =
  (let '(w', r) := rand_nonce cr w in (w', (fun n => inl (gcm_seal cr key n data, n)) <$> r)).
Proof. intros Hk. unfold EncryptChunk. rewrite Hk. cbn [negb]. rewrite M_bind_run. by destruct (rand_nonce cr w) as [? []]. Qed.

Lemma GoEncryptChunk_run buffer key w : valid_key key = true ->
  GoEncryptChunk cr (utf8_encode (dumps (JObj [("Data", JStr (b64encode buffer)); ("Key", JStr (b64encode key))]))) w =
  (let '(w', r) := rand_nonce cr w in (w', (fun n => dumps_with "" (sealed_response (gcm_seal cr key n buffer) n)) <$> r)).
Proof.
  intros Hk. unfold GoEncryptChunk. rewrite M_bind_run. unfold lift. rewrite request_parses by done. cbn [mbind res_bind].
  rewrite (byte_field_b64 _ "Data" buffer), (byte_field_b64 _ "Key" key) by done. cbn [mbind res_bind fst snd].
  rewrite M_bind_run, EncryptChunk_run by done. by destruct (rand_nonce cr w) as [w' [n|e]].
Qed.

Lemma encrypt_chunk_run buffer key w : valid_key key = true ->
  encrypt_chunk cr buffer key w =
  (let '(w', r) := rand_nonce cr w in (w', (fun n => n +:+ gcm_seal cr key n buffer) <$> r)).
Proof.
  intros Hk. unfold encrypt_chunk. rewrite M_bind_run, GoEncryptChunk_run by done.
  destruct (rand_nonce cr w) as [w' [n|e]]; [|done]. cbn [fmap res_fmap].
  rewrite M_bind_run. unfold lift at 1. unfold sealed_response at 1.
  rewrite (response_parses _ "CipherText" (gcm_seal cr key n buffer)) by done.
  rewrite M_bind_run. unfold lift. unfold sealed_response. by rewrite (response_parses _ "Nonce" n).
Qed.

Lemma decrypt_chunk_seal buffer nonce key : valid_key key = true ->
  decrypt_chunk cr (gcm_seal cr key nonce buffer) nonce key = Ok buffer.
Proof.
  intros Hk. unfold decrypt_chunk, GoDecryptChunk. rewrite request_parses by done.
  cbn [mbind res_bind]. rewrite (byte_field_b64 _ "CipherText" (gcm_seal cr key nonce buffer)),
    (byte_field_b64 _ "Nonce" nonce), (byte_field_b64 _ "Key" key) by done. cbn [mbind res_bind].
  unfold DecryptChunk. rewrite Hk. cbn [negb]. rewrite open_seal. by apply response_parses.
Qed.
End Chunks.

(** ** Files *)

(** A disk that does not fail. *)
Class CryptFiles {W} (cr : CryptEnv W) := {
  contents : W -> gmap string string;
  open_wb_ok p w : exists w', open_wb cr p w = (w', Ok ()) /\ contents w' = <[p := ""]> (contents w);
  open_rb_ok p w t : contents w !! p = Some t -> open_rb cr p w = (w, Ok ());
  read_at_ok p w t pos n : contents w !! p = Some t -> (0 <= pos)%Z -> (0 <= n)%Z ->
    read_at cr p pos n w = (w, Ok (str_take (Z.to_nat n) (str_drop (Z.to_nat pos) t)));
  append_ok p w t s : contents w !! p = Some t ->
    exists w', append_bytes cr p s w = (w', Ok ()) /\ contents w' = <[p := t +:+ s]> (contents w);
  getsize_ok p w t : contents w !! p = Some t -> getsize cr p w = (w, Ok (Z.of_nat (String.length t)));
  nonce_ok w : exists w' n, rand_nonce cr w = (w', Ok n) /\ String.length n = 12 /\ contents w' = contents w
}.

Section RoundTrip.
Context {W : Type} (cr : CryptEnv W) `{!GcmLaws cr, !CryptFiles cr}.
Context (key : string) (Hkey : valid_key key = true) (size : nat) (Hsize : 0 < size).
Abbreviation blockSize := (Z.of_nat size).

(** Blocks with their nonces, as they are written. *)
Definition sealed (l : list (string * string)) : string :=
  foldr (fun nb s => nb.1 +:+ gcm_seal cr key nb.1 nb.2 +:+ s) "" l.
Definition plain (l : list (string * string)) : string := foldr (fun nb s => nb.2 +:+ s) "" l.
Definition block_ok (nb : string * string) : Prop := String.length nb.1 = 12 /\ String.length nb.2 = size.

Lemma sealed_cons n b l : sealed ((n, b) :: l) = n +:+ gcm_seal cr key n b +:+ sealed l.
Proof. done. Qed.
Lemma plain_cons n b l : plain ((n, b) :: l) = b +:+ plain l.
Proof. done. Qed.

Lemma sealed_length l : Forall block_ok l -> String.length (sealed l) = length l * (size + 28).
Proof.
  induction 1 as [|[n b] l [Hn Hb] _ IH]; [done|]. cbn [fst snd] in *.
  rewrite sealed_cons, !string_length_app, seal_length, IH. cbn [length]. lia.
Qed.

Lemma plain_length l : Forall block_ok l -> String.length (plain l) = length l * size.
Proof. induction 1 as [|[n b] l [Hn Hb] _ IH]; [done|]. rewrite plain_cons, string_length_app, IH. cbn in *. lia. Qed.

(** *** Encryption *)

Lemma seal_and_append p buffer w t : contents w !! p = Some t ->
  exists n w', String.length n = 12 /\
    (forall (k : unit -> M W Z),
      (chunk ← encrypt_chunk cr buffer key; u ← append_bytes cr p chunk; k u) w = k () w') /\
    contents w' = <[p := t +:+ n +:+ gcm_seal cr key n buffer]> (contents w).
Proof.
  intros Ht. destruct (nonce_ok w) as (w1 & n & Hn & Hl & Hc).
  destruct (append_ok p w1 t (n +:+ gcm_seal cr key n buffer)) as (w2 & Ha & Hc2); [by rewrite Hc|].
  exists n, w2. split; [done|]. split.
  - intros k. rewrite M_bind_run, encrypt_chunk_run, Hn by done. cbn [fmap res_fmap]. by rewrite M_bind_run, Ha.
  - by rewrite Hc2, Hc.
Qed.

Lemma encrypt_loop_end fuel p c pos padding w D : contents w !! p = Some D -> (0 <= pos)%Z ->
  str_drop (Z.to_nat pos) D = "" -> encrypt_loop cr (S fuel) p c key blockSize pos padding w = (w, Ok padding).
Proof.
  intros HD Hpos Hd. cbn [encrypt_loop]. rewrite M_bind_run, (read_at_ok _ _ D), Hd by (done || lia).
  by destruct (Z.to_nat blockSize).
Qed.

Lemma encrypt_loop_ok p c D : p <> c -> forall fuel pos w acc,
  contents w !! p = Some D -> contents w !! c = Some acc -> (0 <= pos)%Z ->
  String.length (str_drop (Z.to_nat pos) D) < fuel ->
  exists w' l pad, encrypt_loop cr fuel p c key blockSize pos 0 w = (w', Ok (Z.of_nat pad)) /\
    contents w' = <[c := acc +:+ sealed l]> (contents w) /\ Forall block_ok l /\ pad < size /\
    plain l = str_drop (Z.to_nat pos) D +:+ zero_bytes pad /\ (l = [] -> pad = 0).
Proof.
  intros Hpc. induction fuel as [|fuel IH]; intros pos w acc HD Hc Hpos Hf; [lia|].
  destruct (decide (str_drop (Z.to_nat pos) D = "")) as [He|He].
  { exists w, [], 0. rewrite (encrypt_loop_end _ _ _ _ _ _ D), He by done. split_and!; try done.
    cbn. by rewrite string_app_nil_r, insert_id. }
  set (rest := str_drop (Z.to_nat pos) D) in *. set (buffer := str_take size rest).
  assert (String.length rest <> 0) as Hr by (by destruct rest).
  assert (buffer <> "") as Hb by (unfold buffer; destruct rest, size; done || lia).
  assert (Z.to_nat (pos + Z.of_nat (String.length buffer)) = Z.to_nat pos + String.length buffer) as Hnat by lia.
  cbn [encrypt_loop]. rewrite M_bind_run, (read_at_ok _ _ D) by (done || lia).
  fold rest. rewrite Nat2Z.id. fold buffer. rewrite bool_decide_false by done.
  assert (String.length buffer = Nat.min size (String.length rest)) as Hbl by apply str_take_length.
  assert (str_drop (Z.to_nat (pos + Z.of_nat (String.length buffer))) D = str_drop (String.length buffer) rest) as Hnext
    by by rewrite Hnat, <- str_drop_drop.
  destruct (Z.ltb_spec (Z.of_nat (String.length buffer)) blockSize) as [Hs|Hs].
  - assert (buffer = rest) as Hbr by (apply str_take_all; lia).
    set (pad := size - String.length buffer).
    replace (blockSize - Z.of_nat (String.length buffer))%Z with (Z.of_nat pad) by lia.
    rewrite Nat2Z.id.
    destruct (seal_and_append c (buffer +:+ zero_bytes pad) w acc Hc) as (n & w1 & Hn & Hk & Hc1). rewrite Hk.
    assert (contents w1 !! p = Some D) as HD1 by by rewrite Hc1, lookup_insert_ne.
    destruct fuel as [|fuel]; [lia|].
    assert (str_drop (Z.to_nat (pos + Z.of_nat (String.length buffer))) D = "") as Hend by (rewrite Hnext, Hbr; by apply str_drop_all).
    rewrite (encrypt_loop_end _ _ _ _ _ _ D) by (done || lia).
    exists w1, [(n, buffer +:+ zero_bytes pad)], pad. split_and!; try done; [| |lia|].
    + by rewrite Hc1, sealed_cons, string_app_nil_r.
    + repeat constructor; [done|]. cbn. rewrite string_length_app, zero_bytes_length. lia.
    + by rewrite plain_cons, Hbr, string_app_nil_r.
  - destruct (seal_and_append c buffer w acc Hc) as (n & w1 & Hn & Hk & Hc1). rewrite Hk.
    destruct (IH (pos + Z.of_nat (String.length buffer))%Z w1 (acc +:+ n +:+ gcm_seal cr key n buffer))
      as (w2 & l & pad & Hl & Hc2 & Hok & Hp & Hpl & Hz).
    { by rewrite Hc1, lookup_insert_ne. } { by rewrite Hc1, lookup_insert_eq. } { lia. }
    { rewrite Hnext, str_drop_length. lia. }
    exists w2, ((n, buffer) :: l), pad. split_and!; try done.
    + by rewrite Hc2, Hc1, insert_insert_eq, sealed_cons, !string_app_assoc.
    + constructor; [|done]. split; [done|]. cbn. lia.
    + rewrite plain_cons, Hpl, Hnext, <- string_app_assoc. f_equal.
      rewrite Hbl, Nat.min_l by lia. apply str_take_drop.
Qed.

(** *** Decryption *)

Lemma str_take_app_more s t n : str_take (String.length s + n) (s +:+ t) = s +:+ str_take n t.
Proof. induction s as [|a s IH]; [done|]. rewrite !string_app_cons. cbn. by rewrite IH. Qed.

(** The block at a position of the cipher text, and what follows it. *)
Lemma read_block c C pos n b rest w : contents w !! c = Some C -> (0 <= pos)%Z -> block_ok (n, b) ->
  str_drop (Z.to_nat pos) C = n +:+ gcm_seal cr key n b +:+ rest ->
  exists next, next = (pos + Z.of_nat (size + 28))%Z /\ str_drop (Z.to_nat next) C = rest /\
    read_at cr c pos (blockSize + MetaSize) w = (w, Ok (n +:+ gcm_seal cr key n b)) /\
    String.length (n +:+ gcm_seal cr key n b) = size + 28.
Proof.
  intros HC Hpos [Hn Hb] Hd. eexists. split; [reflexivity|].
  assert (String.length (n +:+ gcm_seal cr key n b) = size + 28) as Hl
    by (cbn in *; rewrite string_length_app, seal_length; lia).
  rewrite <- string_app_assoc in Hd. split_and!; [| |exact Hl].
  - rewrite Z2Nat.inj_add, Nat2Z.id, <- str_drop_drop, Hd by lia. by apply str_drop_app.
  - rewrite (read_at_ok _ _ C), Hd by (done || unfold MetaSize, NonceSize, AuthTagSize; lia).
    rewrite str_take_app_exact by (rewrite Hl; unfold MetaSize, NonceSize, AuthTagSize; lia). done.
Qed.

Lemma open_block n b : block_ok (n, b) ->
  str_take (Z.to_nat NonceSize) (n +:+ gcm_seal cr key n b) = n /\
  str_drop (Z.to_nat NonceSize) (n +:+ gcm_seal cr key n b) = gcm_seal cr key n b /\
  gcm_seal cr key n b <> "" /\ decrypt_chunk cr (gcm_seal cr key n b) n key = Ok b.
Proof.
  intros [Hn Hb]. cbn in *. split_and!.
  - apply str_take_app_exact. by rewrite Hn.
  - apply str_drop_app. by rewrite Hn.
  - intros He. pose proof (seal_length key n b) as Hl. rewrite He in Hl. cbn in Hl. lia.
  - by apply decrypt_chunk_seal.
Qed.

Lemma decrypt_loop_ok c o C pads pad : o <> c -> String.length pads = 8 -> from_bytes_big pads = Z.of_nat pad ->
  pad <= size -> forall l pos w acc,
  contents w !! c = Some C -> contents w !! o = Some acc -> (0 <= pos)%Z -> Forall block_ok l ->
  str_drop (Z.to_nat pos) C = sealed l +:+ pads ->
  exists w', decrypt_loop cr (length l) c o key blockSize pos w = (w', Ok ()) /\
    contents w' = <[o := acc +:+ str_take (String.length (plain l) - pad) (plain l)]> (contents w).
Proof.
  intros Hoc Hpl Hpad Hps. induction l as [|[n b] l IH]; intros pos w acc HC Ho Hpos Hok Hd.
  { exists w. split; [done|]. cbn. by rewrite string_app_nil_r, insert_id. }
  apply Forall_cons in Hok as [Hblock Hok]. rewrite sealed_cons, !string_app_assoc in Hd.
  destruct (read_block _ _ _ _ _ _ _ HC Hpos Hblock Hd) as (next & Hnx & Hrest & Hread & Hlen).
  destruct (open_block _ _ Hblock) as (Ht & Hdr & Hne & Hdec).
  cbn [length decrypt_loop]. rewrite M_bind_run, Hread, Ht, Hdr, Hlen, <- Hnx, bool_decide_false by done.
  rewrite M_bind_run. unfold lift at 1. rewrite Hdec, M_bind_run, plain_cons.
  destruct Hblock as [Hn Hb]. cbn in Hn, Hb. destruct l as [|nb l].
  - change (sealed [] +:+ pads) with pads in Hrest.
    cbn [length]. rewrite M_bind_run, (read_at_ok _ _ C), Hrest by (done || unfold PadLengthSize; lia).
    rewrite (str_take_all (Z.to_nat PadLengthSize)) by (rewrite Hpl; unfold PadLengthSize; lia).
    rewrite Hpad, Hb. cbn [mret M_ret].
    rewrite M_bind_run. unfold slice_to. rewrite (proj2 (Z.leb_le _ _)) by lia.
    edestruct (append_ok o w acc) as (w' & -> & Hc); [done|]. exists w'. split; [done|]. rewrite Hc.
    cbn [plain foldr]. rewrite string_app_nil_r, Hb. repeat f_equal. lia.
  - cbn [length mret M_ret]. rewrite M_bind_run.
    destruct (append_ok o w acc b Ho) as (w1 & -> & Hc1).
    destruct (IH next w1 (acc +:+ b)) as (w2 & Hl & Hc2); try done; [| | lia |].
    { by rewrite Hc1, lookup_insert_ne. } { by rewrite Hc1, lookup_insert_eq. }
    exists w2. split; [exact Hl|]. rewrite Hc2, Hc1, insert_insert_eq. f_equal. rewrite string_app_assoc. f_equal.
    rewrite string_length_app. pose proof (plain_length _ Hok) as Hpll. cbn [length] in Hpll.
    rewrite <- str_take_app_more. f_equal. lia.
Qed.
End RoundTrip.

(** What [encrypt_file] leaves: the sealed blocks of the padded file, then the
    length of the padding. *)
Lemma encrypt_file_ok {W} (cr : CryptEnv W) `{!GcmLaws cr, !CryptFiles cr} key size p c data fuel w :
  valid_key key = true -> 0 < size -> (Z.of_nat size <= 2 ^ 64)%Z -> p <> c ->
  contents w !! p = Some data -> String.length data < fuel ->
  exists w' l pad pads, encrypt_file cr fuel p key (Z.of_nat size) c w = (w', Ok ()) /\
    contents w' = <[c := sealed cr key l +:+ pads]> (contents w) /\ Forall (block_ok size) l /\
    pad < size /\ plain l = data +:+ zero_bytes pad /\ from_bytes_big pads = Z.of_nat pad /\ String.length pads = 8.
Proof.
  intros Hkey Hsize Hmax Hpc Hp Hf.
  destruct (open_wb_ok c w) as (wa & Ha & Hca).
  assert (contents wa !! p = Some data) as Hpa by by rewrite Hca, lookup_insert_ne.
  destruct (encrypt_loop_ok cr key Hkey size Hsize p c data Hpc fuel 0 wa "")
    as (wb & l & pad & Hl & Hcb & Hok & Hpad & Hpl & _); [done | by rewrite Hca, lookup_insert_eq | lia | done |].
  destruct (to_bytes_big 8 (Z.of_nat pad)) as [pads|e] eqn:Hb.
  2:{ unfold to_bytes_big in Hb. destruct (Z.ltb_spec (Z.of_nat pad) 0); [lia|].
      destruct (Z.leb_spec (256 ^ Z.of_nat 8) (Z.of_nat pad)); [lia | done]. }
  destruct (to_from_bytes _ _ _ Hb) as [Hfrom Hpads].
  destruct (append_ok c wb (sealed cr key l) pads) as (w1 & Happ & Hc1); [by rewrite Hcb, lookup_insert_eq|].
  exists w1, l, pad, pads. split_and!; try done.
  - unfold encrypt_file. rewrite M_bind_run, Ha, M_bind_run, (open_rb_ok _ _ data), M_bind_run, Hl, M_bind_run by done.
    unfold lift. by rewrite Hb.
  - by rewrite Hc1, Hcb, Hca, !insert_insert_eq.
Qed.

(** C11. Encryption is lossless: on a disk that does not fail, a file encrypted
    block by block and then decrypted with the same key and block size comes back
    byte for byte, whatever its length: empty, a multiple of the block size or
    not.  Encryption ends as soon as the fuel exceeds the length of the file, and
    the stored file has 28 bytes more per block and 8 at its end. *)
Theorem encrypt_decrypt {W} (cr : CryptEnv W) `{!GcmLaws cr, !CryptFiles cr} (key : string) (size : nat)
    (p c o data : string) (fuel : nat) (w : W) :
  valid_key key = true -> 0 < size -> (Z.of_nat size <= 2 ^ 64)%Z -> p <> c -> o <> c ->
  contents w !! p = Some data -> String.length data < fuel ->
  exists w1 w2 stored,
    encrypt_file cr fuel p key (Z.of_nat size) c w = (w1, Ok ()) /\
    contents w1 = <[c := stored]> (contents w) /\
    String.length stored = (String.length data + size - 1) / size * (size + 28) + 8 /\
    decrypt_file cr c key (Z.of_nat size) o w1 = (w2, Ok ()) /\
    contents w2 = <[o := data]> (contents w1).
Proof.
  intros Hkey Hsize Hmax Hpc Hoc Hp Hf.
  destruct (encrypt_file_ok cr key size p c data fuel w) as (w1 & l & pad & pads & He & Hc1 & Hok & Hpad & Hpl & Hfrom & Hpads);
    try done.
  destruct (open_wb_ok o w1) as (w2 & Ho & Hc2).
  assert (contents w1 !! c = Some (sealed cr key l +:+ pads)) as Hs1 by by rewrite Hc1, lookup_insert_eq.
  assert (contents w2 !! c = Some (sealed cr key l +:+ pads)) as Hs2 by by rewrite Hc2, lookup_insert_ne.
  destruct (decrypt_loop_ok cr key Hkey size Hsize c o _ pads pad Hoc Hpads Hfrom (Nat.lt_le_incl _ _ Hpad) l 0 w2 "" Hs2)
    as (w3 & Hd & Hc3); [by rewrite Hc2, lookup_insert_eq | lia | done | done |].
  assert (String.length (sealed cr key l +:+ pads) = length l * (size + 28) + 8) as Hlen
    by (rewrite string_length_app, (sealed_length cr key size), Hpads by done; lia).
  assert (length l * size = String.length data + pad) as Hcount.
  { rewrite <- (plain_length size), Hpl, string_length_app, zero_bytes_length by done. lia. }
  exists w1, w3, (sealed cr key l +:+ pads). split_and!; try done.
  - rewrite Hlen. do 2 f_equal. apply (Nat.div_unique _ _ _ (size - 1 - pad)); lia.
  - unfold decrypt_file. rewrite M_bind_run, (open_rb_ok _ _ _ Hs1), M_bind_run, Ho, M_bind_run, (getsize_ok _ _ _ Hs2).
    rewrite Hlen. unfold PadLengthSize, MetaSize, NonceSize, AuthTagSize.
    replace (Z.of_nat (length l * (size + 28) + 8) - 8)%Z with (Z.of_nat (length l) * (Z.of_nat size + (12 + 16)))%Z by lia.
    by rewrite Z.div_mul, Nat2Z.id by lia.
  - rewrite Hc3, Hc2, insert_insert_eq. f_equal. cbn. rewrite Hpl, string_length_app, zero_bytes_length.
    rewrite Nat.add_sub. by rewrite str_take_app_exact.
Qed.

(** ** A disk in memory and a toy cipher

    The world is a map of files and a counter that names the nonces; the "cipher"
    appends a constant tag. *)

Definition toy_nonce (n : nat) : string := zero_bytes (11 - n mod 12) +:+ "x" +:+ zero_bytes (n mod 12).

Definition toy_crypt : CryptEnv (gmap string string * nat) := {|
  open_wb p w := ((<[p := ""]> w.1, w.2), Ok ());
  open_rb p w := (w, if w.1 !! p is Some _ then Ok () else Err (FileNotFoundError p));
  read_at p pos n w := (w, match w.1 !! p with
    | Some t => Ok (str_take (Z.to_nat n) (str_drop (Z.to_nat pos) t))
    | None => Err (FileNotFoundError p)
    end);
  append_bytes p s w := ((<[p := default "" (w.1 !! p) +:+ s]> w.1, w.2), Ok ());
  getsize p w := (w, match w.1 !! p with Some t => Ok (Z.of_nat (String.length t)) | None => Err (FileNotFoundError p) end);
  rand_nonce w := ((w.1, S w.2), Ok (toy_nonce w.2));
  gcm_seal k n d := d +:+ zero_bytes 16;
  gcm_open k n c := Some (str_take (String.length c - 16) c) |}.

#[export] Instance toy_gcm : GcmLaws toy_crypt.
Proof.
  split; intros k n d; cbn [toy_crypt gcm_open gcm_seal]; rewrite string_length_app, zero_bytes_length; [|done].
  by rewrite Nat.add_sub, str_take_app_exact.
Qed.

#[export] Instance toy_files : CryptFiles toy_crypt.
Proof.
  refine {| contents := fst |}.
  - intros p w. by eexists.
  - intros p w t H. cbn. by rewrite H.
  - intros p w t pos n H _ _. cbn. by rewrite H.
  - intros p w t s H. cbn. rewrite H. by eexists.
  - intros p w t H. cbn. by rewrite H.
  - intros w. do 2 eexists. split; [reflexivity|]. split; [|done]. unfold toy_nonce.
    rewrite !string_length_app, !zero_bytes_length. cbn [String.length].
    pose proof (Nat.mod_upper_bound (w.2) 12). lia.
Defined.

Lemma encrypt_decrypt_witness : exists w2,
  contents w2 !! "out" = Some "hello world" /\
  exists w1, decrypt_file toy_crypt "cipher" (zero_bytes 32) 4 "out" w1 = (w2, Ok ()).
Proof.
  destruct (encrypt_decrypt toy_crypt (zero_bytes 32) 4 "plain" "cipher" "out" "hello world" 12
    ({[ "plain" := "hello world" ]}, 0)) as (w1 & w2 & stored & _ & _ & _ & Hd & Hc);
    [done | lia | done | done | done | reflexivity | cbn; lia |].
  exists w2. split; [by rewrite Hc, lookup_insert_eq|]. by exists w1.
Defined.
