(* ===== verification/ConfigProps.v ===== *)
(** * What the configuration commands guarantee

    Entries have distinct names and are found under them; adding a data store to
    a clean room is an upsert of one access point, found again under its name; the
    active collaboration always exists. *)

From S2P Require Import Prelude PyStr Base64 Json JsonFacts Md5 CleanroomModels SpecModels ConfigModels ConfigHelpers.
From Stdlib Require Import Lia.

(** ** Entries by name *)

Section Named.
Context {A : Type} (name_of : A -> string).
Implicit Types (l : list A) (x : A).

Definition names l : list string := map name_of l.

Lemma find_named_Some n l i x : find_named name_of n l = Some (i, x) ->
  l !! i = Some x /\ name_of x = n /\ Forall (fun y => name_of y <> n) (take i l).
Proof.
  revert i. induction l as [|y l IH]; intros i; cbn [find_named]; [done|].
  case_bool_decide as Hy; [intros [= <- <-]; split_and!; [done | done | constructor]|].
  destruct (find_named name_of n l) as [[j z]|]; cbn; [|done]. intros [= <- <-].
  destruct (IH j) as (H1 & H2 & H3); [done|]. split_and!; [done | done | by constructor].
Qed.

Lemma find_named_None n l : find_named name_of n l = None <-> n ∉ names l.
Proof.
  induction l as [|y l IH]; cbn; [split; [intros _; apply not_elem_of_nil | done]|].
  case_bool_decide as Hy; [subst; split; [done | intros []; left]|].
  rewrite fmap_None, IH, not_elem_of_cons. naive_solver.
Qed.

Lemma find_named_app_l n l1 l2 : n ∈ names l1 -> find_named name_of n (l1 ++ l2) = find_named name_of n l1.
Proof.
  induction l1 as [|y l IH]; cbn; [by intros ?%elem_of_nil|]. case_bool_decide; [done|].
  intros [-> |Hin]%elem_of_cons; [done|]. by rewrite IH.
Qed.

Lemma find_named_app_r n l1 l2 : n ∉ names l1 ->
  find_named name_of n (l1 ++ l2) = (fun p => (length l1 + p.1, p.2)) <$> find_named name_of n l2.
Proof.
  induction l1 as [|y l IH]; cbn; [intros _; by destruct (find_named name_of n l2) as [[]|]|].
  intros [Hy Hn]%not_elem_of_cons. rewrite bool_decide_false by congruence. rewrite IH by done.
  by destruct (find_named name_of n l2) as [[]|].
Qed.

Lemma find_named_insert n l i x y : l !! i = Some x -> name_of y = name_of x ->
  find_named name_of n (<[i := y]> l) =
  (fun p => (p.1, if decide (p.1 = i) then y else p.2)) <$> find_named name_of n l.
Proof.
  intros Hi Hn. revert i Hi. induction l as [|z l IH]; intros [|i] Hi; try done.
  - injection Hi as ->. change (<[0 := y]> (x :: l)) with (y :: l). cbn [find_named]. rewrite Hn. case_bool_decide; [done|]. by destruct (find_named name_of n l) as [[]|].
  - change (<[S i := y]> (z :: l)) with (z :: <[i := y]> l). cbn [find_named].
    case_bool_decide; [done|]. rewrite (IH i Hi). destruct (find_named name_of n l) as [[j u]|]; cbn; [|done].
    do 2 f_equal. destruct (decide (j = i)), (decide (S j = S i)); congruence.
Qed.

(** An upsert makes its entry the one found under its name and keeps the others. *)
Lemma find_upsert_eq x l : snd <$> find_named name_of (name_of x) (upsert name_of x l) = Some x.
Proof.
  unfold upsert. destruct (find_named name_of (name_of x) l) as [[i y]|] eqn:E.
  - destruct (find_named_Some _ _ _ _ E) as (Hi & Hn & _).
    rewrite (find_named_insert _ _ _ y) by done. rewrite E. cbn. by rewrite decide_True.
  - apply find_named_None in E. rewrite find_named_app_r by done. cbn. by rewrite bool_decide_true.
Qed.

Lemma upsert_elem x l : x ∈ upsert name_of x l.
Proof.
  pose proof (find_upsert_eq x l) as H. destruct (find_named name_of (name_of x) (upsert name_of x l)) as [[i y]|] eqn:E; [|done].
  cbn in H. injection H as ->. apply find_named_Some in E as (E & _). by eapply list_elem_of_lookup_2.
Qed.

Lemma find_upsert_ne n x l : n <> name_of x ->
  snd <$> find_named name_of n (upsert name_of x l) = snd <$> find_named name_of n l.
Proof.
  intros Hne. unfold upsert. destruct (find_named name_of (name_of x) l) as [[i y]|] eqn:E.
  - destruct (find_named_Some _ _ _ _ E) as (Hi & Hn & _). rewrite (find_named_insert _ _ _ y) by done.
    destruct (find_named name_of n l) as [[j z]|] eqn:En; [|done]. cbn.
    destruct (decide (j = i)) as [->|]; [|done].
    destruct (find_named_Some _ _ _ _ En) as (Hj & Hz & _). congruence.
  - destruct (decide (n ∈ names l)) as [Hin|Hin]; [by rewrite find_named_app_l|].
    rewrite find_named_app_r by done. cbn. rewrite bool_decide_false by done. cbn.
    by rewrite (proj2 (find_named_None n l)).
Qed.

Lemma names_upsert x l : names (upsert name_of x l) = if decide (name_of x ∈ names l) then names l else names l ++ [name_of x].
Proof.
  unfold upsert. destruct (find_named name_of (name_of x) l) as [[i y]|] eqn:E.
  - destruct (find_named_Some _ _ _ _ E) as (Hi & Hn & _).
    assert (name_of x ∈ names l) as Hin by (rewrite <- Hn; apply list_elem_of_fmap_2, (list_elem_of_lookup_2 _ _ _ Hi)).
    rewrite decide_True by done. unfold names. change (map name_of) with (fmap (M:=list) name_of).
    rewrite list_fmap_insert. apply list_insert_id. by rewrite list_lookup_fmap, Hi, <- Hn.
  - apply find_named_None in E. rewrite decide_False by done. unfold names. by rewrite map_app.
Qed.

Lemma upsert_NoDup x l : NoDup (names l) -> NoDup (names (upsert name_of x l)).
Proof.
  intros H. rewrite names_upsert. case_decide; [done|]. apply NoDup_app. split_and!; [done | | apply NoDup_singleton].
  intros y Hy ->%list_elem_of_singleton. done.
Qed.

Lemma upsert_twice x l : upsert name_of x (upsert name_of x l) = upsert name_of x l.
Proof.
  unfold upsert at 1. pose proof (find_upsert_eq x l) as H.
  destruct (find_named name_of (name_of x) (upsert name_of x l)) as [[i y]|] eqn:E; [|done].
  cbn in H. injection H as ->. apply find_named_Some in E as (Hi & _). by apply list_insert_id.
Qed.
End Named.

(** ** Collaborations *)

Definition contexts (s : CollaborationSpecification) : list CollaborationContext := default [] (collaborations s).

(** What a command can do to the collaborations of a user. *)
Inductive collab_step : CollaborationSpecification -> CollaborationSpecification -> Prop :=
| step_check s n : collab_step s (check_collaboration_context s n).1
| step_get s n : collab_step s (get_collaboration_context s n).1
| step_add s c b : collab_step s (add_collaboration_context s c b).1
| step_active s : collab_step s (get_active_collaboration_context s).1
| step_set s n : collab_step s (set_active_collaboration_context s n).1
| step_clear s : collab_step s (clear_active_collaboration_context s).

Inductive collab_reachable : CollaborationSpecification -> Prop :=
| reach_empty : collab_reachable {| collaborations := Some []; current_context := None |}
| reach_step s s' : collab_reachable s -> collab_step s s' -> collab_reachable s'.

(** Names are distinct, and the current one is among them. *)
Definition collab_inv (s : CollaborationSpecification) : Prop :=
  NoDup (names cc_name (contexts s)) /\
  (forall n, current_context s = Some n -> n ∈ names cc_name (contexts s)).

Lemma find_context s n c : snd <$> find_named cc_name n (contexts s) = Some c ->
  cc_name c = n /\ n ∈ names cc_name (contexts s).
Proof.
  destruct (find_named cc_name n (contexts s)) as [[i x]|] eqn:E; cbn; [|done]. intros [= ->].
  apply find_named_Some in E as (Hi & Hn & _). split; [done|].
  rewrite <- Hn. by eapply list_elem_of_fmap_2, list_elem_of_lookup_2.
Qed.

Lemma add_context_inv s c b : collab_inv s -> collab_inv (add_collaboration_context s c b).1.
Proof.
  intros [Hd Hc]. unfold add_collaboration_context, check_collaboration_context. fold (contexts s).
  destruct (find_named cc_name (cc_name c) (contexts s)) as [p|] eqn:E; cbn; [done|].
  apply find_named_None in E. unfold collab_inv, contexts, names in *. cbn. rewrite map_app. split.
  - apply NoDup_app. split_and!; [done | | apply NoDup_singleton]. intros y Hy ->%list_elem_of_singleton. done.
  - intros n Hn. apply elem_of_app. destruct b; [injection Hn as <-; right; apply list_elem_of_singleton; done | left; auto].
Qed.

Lemma set_context_inv s n : collab_inv s -> collab_inv (set_active_collaboration_context s n).1.
Proof.
  intros [Hd Hc]. unfold set_active_collaboration_context, get_collaboration_context, check_collaboration_context.
  fold (contexts s). destruct (snd <$> find_named cc_name n (contexts s)) as [c|] eqn:E; cbn; [|done].
  apply find_context in E as [-> Hin]. split; [done|]. intros m [= <-]. done.
Qed.

(** C34. The active collaboration exists: whatever the commands do to the
    configuration, the names of the collaborations stay distinct, and asking for
    the active one fails exactly when none is set, and otherwise answers the
    context of that name. *)
Theorem active_collaboration_exists s : collab_reachable s ->
  NoDup (names cc_name (contexts s)) /\
  match (get_active_collaboration_context s).2, current_context s with
  | Ok c, Some n => cc_name c = n /\ c ∈ contexts s
  | Err e, None => has_code EC_CurrentCollaborationNotSet e = true
  | _, _ => False
  end.
Proof.
  intros H. assert (collab_inv s) as [Hd Hc].
  { induction H as [|s s' _ IH Hs]; [split; [constructor | done]|]. destruct Hs; try done.
    - by apply add_context_inv.
    - unfold get_active_collaboration_context. by destruct (current_context s).
    - by apply set_context_inv.
    - by destruct IH. }
  split; [done|]. unfold get_active_collaboration_context. destruct (current_context s) as [n|]; [|done].
  unfold get_collaboration_context, check_collaboration_context. fold (contexts s). cbn.
  specialize (Hc n eq_refl). destruct (find_named cc_name n (contexts s)) as [[i c]|] eqn:E; cbn.
  - apply find_named_Some in E as (Hi & Hn & _). split; [done | by eapply list_elem_of_lookup_2].
  - by apply find_named_None in E.
Qed.

Definition demo_context (n : string) : CollaborationContext :=
  {| cc_name := n; collaborator_id := "me"; governance_client_name := n; cc_identities := [] |}.

Lemma active_collaboration_exists_witness : exists c,
  (get_active_collaboration_context
     (set_active_collaboration_context
        (add_collaboration_context
           (add_collaboration_context {| collaborations := Some []; current_context := None |} (demo_context "a") true).1
           (demo_context "b") true).1 "a").1).2 = Ok c /\ cc_name c = "a".
Proof.
  match goal with |- context [get_active_collaboration_context ?s] => set (x := s) end.
  destruct (active_collaboration_exists x) as [_ H].
  { repeat (eapply reach_step; [|constructor]). apply reach_empty. }
  exists (demo_context "a"). split; [reflexivity|]. apply H.
Defined.

(** ** Adding a data store to a clean room *)

(** Models survive being written and read. *)
Definition lossless {D A} (c : Codec D A) : Prop := forall x, parse_model c (dump_model c x) = Ok x.

(** Files hold documents; only writing changes them, and only the written one. *)
Class ConfigFiles {W} (ce : ConfigEnv W) := {
  docs : W -> gmap string (option (document ce));
  load_found p w d : docs w !! p = Some d -> load_yaml ce p w = (w, Ok d);
  load_frame p w : docs (load_yaml ce p w).1 = docs w;
  load_missing p w w' r : docs w !! p = None -> load_yaml ce p w = (w', Ok r) -> False;
  dump_effect p d w :
    let '(w', r) := dump_yaml ce p d w in
    match r with
    | Ok _ => docs w' = <[p := Some d]> (docs w)
    | Err _ => delete p (docs w') = delete p (docs w)
    end;
  spec_lossless : lossless (spec_codec ce);
  datastore_lossless : lossless (datastore_codec ce);
  secretstore_lossless : lossless (secretstore_codec ce);
  collaboration_lossless : lossless (collaboration_codec ce)
}.

Section Files.
Context {W : Type} (ce : ConfigEnv W) `{!ConfigFiles ce}.

(** The model a file holds. *)
Definition holds {A} (c : Codec (document ce) A) (w : W) (f : string) (x : A) : Prop :=
  exists d, docs w !! f = Some d /\ parse_model c (default (no_fields ce) d) = Ok x.

Lemma read_config_ok {A} (c : Codec (document ce) A) f w w' x :
  read_config ce c f w = (w', Ok x) -> docs w' = docs w /\ holds c w f x.
Proof.
  unfold read_config, read_configuration_file. intros (w1 & d & H & [-> Hp]%lift_ok)%M_bind_ok.
  apply M_bind_ok in H as (w2 & o & Hl & [= <- <-]).
  pose proof (load_frame f w) as Hf. rewrite Hl in Hf. split; [exact Hf|].
  destruct (docs w !! f) as [d|] eqn:E; [|by destruct (load_missing _ _ _ _ E Hl)].
  rewrite (load_found _ _ _ E) in Hl. injection Hl as <- <-. by exists d.
Qed.

Lemma holds_read {A} (c : Codec (document ce) A) f w x : holds c w f x -> read_config ce c f w = (w, Ok x).
Proof.
  intros (d & Hd & Hp). unfold read_config, read_configuration_file. rewrite !M_bind_run, (load_found _ _ _ Hd).
  cbn. unfold lift. by rewrite Hp.
Qed.

Lemma read_config_frame {A} (c : Codec (document ce) A) f w : docs (read_config ce c f w).1 = docs w.
Proof.
  unfold read_config, read_configuration_file. rewrite !M_bind_run. pose proof (load_frame f w) as H.
  by destruct (load_yaml ce f w) as [w1 [d|e]].
Qed.

Lemma holds_functional {A} (c : Codec (document ce) A) f w x y : holds c w f x -> holds c w f y -> x = y.
Proof. intros (d & Hd & Hx) (d' & Hd' & Hy). congruence. Qed.

Lemma write_config_ok {A} (c : Codec (document ce) A) f x w w' : lossless c ->
  write_config ce c f x w = (w', Ok ()) -> docs w' = <[f := Some (dump_model c x)]> (docs w) /\ holds c w' f x.
Proof.
  intros Hc H. unfold write_config in H. pose proof (dump_effect f (dump_model c x) w) as He. rewrite H in He.
  split; [done|]. exists (Some (dump_model c x)). rewrite He. split; [apply lookup_insert_eq | apply Hc].
Qed.

(** The secrets are looked up without touching a file. *)
Lemma datastore_secrets_ok e f n o w w' s : datastore_secrets ce e f n o w = (w', Ok s) ->
  docs w' = docs w /\
  match s with
  | None => uses_keys (encryptionMode e) = false
  | Some s => uses_keys (encryptionMode e) = true /\ exists kek_name d k,
      is_secret_supported d = true /\ is_key_release_supported k = true /\
      se_name d = o_dek_secret_store o /\ se_name k = o_kek_secret_store o /\
      encryption_secrets n kek_name (o_dek_secret_store o) (o_kek_secret_store o) d k = Ok s
  end.
Proof.
  unfold datastore_secrets. destruct (uses_keys (encryptionMode e)); [|by intros [= <- <-]].
  intros (w1 & ss & Hr & H)%M_bind_ok. apply read_config_ok in Hr as [Hd _].
  unfold get_secretstore_entry, check_secretstore_entry in H. cbn in H.
  apply M_bind_ok in H as (w2 & d & [-> Hdk]%lift_ok & H). apply M_bind_ok in H as (w3 & k & [-> Hk]%lift_ok & H).
  apply M_bind_ok in H as (w4 & s' & [-> Hs]%lift_ok & [= <- <-]). split; [done|]. split; [done|].
  apply of_option_ok in Hdk, Hk.
  destruct (find_named se_name (o_dek_secret_store o) _) as [[i x]|] eqn:E1; [|done]. injection Hdk as ->.
  destruct (find_named se_name (o_kek_secret_store o) _) as [[j y]|] eqn:E2; [|done]. injection Hk as ->.
  apply find_named_Some in E1 as (_ & Hn1 & _), E2 as (_ & Hn2 & _).
  exists (if str_truthy (o_kek_name o) then o_kek_name o else default_kek_name f), d, k.
  unfold encryption_secrets in Hs |- *.
  destruct (is_secret_supported d) eqn:Esd; [|done]. destruct (is_key_release_supported k) eqn:Ekk; [|done]. done.
Qed.

Definition access_name_of (o : AddOptions) (datastore_name : string) : string :=
  if str_truthy (o_access_name o) then o_access_name o else datastore_name.

Lemma access_points_with mode s l : access_points mode (with_access_points mode s l) = l.
Proof. by destruct mode. Qed.

(** What adding a data store does. *)
Lemma add_datastore_effect f n df i mode o w w' :
  config_add_datastore ce f n df i mode o w = (w', Ok ()) ->
  exists spec e ap,
    holds (spec_codec ce) w f spec /\
    (exists stores, holds (datastore_codec ce) w df stores /\
       snd <$> find_named de_name n (default [] (datastores stores)) = Some e) /\
    holds (spec_codec ce) w' f (with_access_points mode spec (upsert ap_name ap (access_points mode spec))) /\
    delete f (docs w') = delete f (docs w) /\
    ap_name ap = access_name_of o n /\ ap_type ap = access_point_type mode /\
    store ap = store_resource e n /\
    (identity ap = None <-> storeType e = St_Aws_S3) /\
    (is_Some (encryptionSecrets (protection ap)) <-> uses_keys (encryptionMode e) = true) /\
    config_get_datastore_name ce f (access_name_of o n) mode w' = (w', Ok n).
Proof.
  unfold config_add_datastore. intros (w1 & spec & Hs & H)%M_bind_ok. apply read_config_ok in Hs as [Hd1 Hspec].
  apply M_bind_ok in H as (w2 & stores & Hst & H). apply read_config_ok in Hst as [Hd2 Hstores].
  unfold get_datastore_entry, check_datastore_entry in H. cbn in H.
  apply M_bind_ok in H as (w3 & e & [-> He]%lift_ok & H). apply of_option_ok in He.
  apply M_bind_ok in H as (w4 & secrets & Hsec & H). apply datastore_secrets_ok in Hsec as [Hd4 Hsec].
  apply M_bind_ok in H as (w5 & pid & [-> Hpid]%lift_ok & H).
  set (ap := datastore_access_point e n (access_name_of o n) (o_subdirectory o) mode pid secrets) in *.
  apply (write_config_ok _ _ _ _ _ spec_lossless) in H as [Hd5 Hnew].
  exists spec, e, ap. split_and!; try done.
  - exists stores. split; [|done]. destruct Hstores as (d & Hd & Hp). exists d. by rewrite <- Hd1.
  - rewrite Hd5, delete_insert_eq. by rewrite Hd4, Hd2, Hd1.
  - subst ap. cbn [identity datastore_access_point]. unfold protection_identity in Hpid.
    destruct (storeType e); try (by injection Hpid as <-);
      (destruct (snd <$> find_named identity_name i (identities spec)); [injection Hpid as <- | done]; done).
  - subst ap. cbn [protection encryptionSecrets datastore_access_point].
    destruct secrets as [s|]; [destruct Hsec as [-> _]; split; eauto | rewrite Hsec; by split; [intros []|]].
  - unfold config_get_datastore_name. rewrite M_bind_run. unfold read_cleanroom_spec. rewrite (holds_read _ _ _ _ Hnew).
    rewrite access_points_with. pose proof (find_upsert_eq ap_name ap (access_points mode spec)) as Hf.
    change (find_named ap_name (ap_name ap)) with (find_named ap_name (access_name_of o n)) in Hf.
    destruct (find_named ap_name (access_name_of o n) _) as [[j x]|]; [|done].
    cbn in Hf. injection Hf as ->. done.
Qed.

End Files.
