(* ===== verification/DeployTemplate.v ===== *)
(** * The deployment template of a clean room

    [utilities/helpers.py] of [azure_cleanroom_core]: from a specification to the
    ARM template of a container group, the policy document of its containers and
    the rego policy the confidential hardware enforces.  Registry, files and the
    environment are a parameter ([TemplateEnv]); so is [model_dump_json] of an
    application. *)

From S2P Require Import Prelude PyStr Base64 Json JsonFacts Template PyFloat SparkModels Settings Helpers CleanroomModels SpecModels AppBuilder SparkBuilder.
From Stdlib Require Import Ascii.

Definition DEFAULT_CLEANROOM_CONTAINER_REGISTRY_URL : string := "mcr.microsoft.com/azurecleanroom".
Definition CLEANROOM_SIDECARS_VERSIONS_DOCUMENT_NAME : string := "sidecar-digests.yaml".
Definition CLI_VOLUMESTATUS_MOUNT_PATH : string := "/mnt/volumestatus".
Definition CLI_TELEMETRY_MOUNT_PATH : string := "/mnt/telemetry".

(** ** Documents updated in place *)

Inductive step := Key (k : string) | Idx (n : nat).

Definition json_step (s : step) (j : json) : res json :=
  match s with
  | Key k => json_item j k
  | Idx n => match j with
             | JArr l => of_option (IndexError "list index out of range") (l !! n)
             | _ => Err (TypeError ("'" +:+ py_type j +:+ "' object is not subscriptable"))
             end
  end.

(** [j[s] = v] *)
Definition json_put (s : step) (v j : json) : res json :=
  match s, j with
  | Key k, JObj d => Ok (JObj (dict_set k v d))
  | Idx n, JArr l => if bool_decide (n < length l) then Ok (JArr (<[n := v]> l))
                     else Err (IndexError "list assignment index out of range")
  | _, _ => Err (TypeError ("'" +:+ py_type j +:+ "' object does not support item assignment"))
  end.

(** The value at a path, changed by [f]; the document is shared along the path. *)
Fixpoint json_modify (path : list step) (f : json -> res json) (j : json) : res json :=
  match path with
  | [] => f j
  | s :: path' => v ← json_step s j; v' ← json_modify path' f v; json_put s v' j
  end.

(** ** Sidecars *)

Record TemplateSidecar := { template_json : json; policy_json : json; policy_rego : json }.

Record TemplateEnv (W : Type) := {
  te_files : BuildEnv W;
  te_json_load : string -> M W json;
  te_environ : string -> option string;
  te_module_dir : string;
  te_version : string;
  te_model_dump_json : SpecApplication -> string
}.
Arguments te_files {W}.
Arguments te_json_load {W}.
Arguments te_environ {W}.
Arguments te_module_dir {W}.
Arguments te_version {W}.
Arguments te_model_dump_json {W}.

(** The document of a sidecar with its variables replaced. *)
Definition template_sidecar (debug_mode : bool) (doc : json) (vars : list (string * json)) : res TemplateSidecar :=
  t ← json_item doc "templateJson";
  template ← replace_vars vars (dumps t);
  policy ← json_item doc "policy";
  j ← json_item policy "json";
  pj ← replace_vars vars (dumps j);
  r ← json_item policy (if debug_mode then "rego_debug" else "rego");
  pr ← replace_vars vars (dumps r);
  Ok {| template_json := template; policy_json := pj; policy_rego := pr |}.

(** The same arguments for the container and for both of its policies, and the
    container's ports; the rego policy may have been left out of the document. *)
Definition extend_command (cmd ports : list json) (s : TemplateSidecar) : res TemplateSidecar :=
  t ← json_modify [Key "properties"; Key "command"] (fun j => json_extend j cmd) (template_json s);
  t ← match ports with [] => Ok t | _ => json_modify [Key "properties"; Key "ports"] (fun j => json_extend j ports) t end;
  p ← json_modify [Key "properties"; Key "command"] (fun j => json_extend j cmd) (policy_json s);
  has ← json_has "command" (policy_rego s);
  r ← (if (has : bool) then json_modify [Key "command"] (fun j => json_extend j cmd) (policy_rego s) else Ok (policy_rego s));
  Ok {| template_json := t; policy_json := p; policy_rego := r |}.

(** *** Variables *)

Definition skr_vars : list (string * json) := [("telemetryMountPath", JStr CLI_TELEMETRY_MOUNT_PATH)].

Definition otel_collector_vars : list (string * json) :=
  [("telemetryMountPath", JStr CLI_TELEMETRY_MOUNT_PATH); ("telemetryPath", JStr CLI_TELEMETRY_MOUNT_PATH);
   ("telemetryCollectionEnabled", JStr "true"); ("prometheusEndpoint", JStr ""); ("lokiEndpoint", JStr "");
   ("tempoEndpoint", JStr ""); ("sparkMetricsEndpoint", JStr ""); ("resourceAttributes", JStr "")].

Definition ccr_governance_vars (ccf_endpoint contract_id service_cert_base64 : string) : list (string * json) :=
  [("cgsEndpoint", JStr ccf_endpoint); ("contractId", JStr contract_id);
   ("serviceCertBase64", JStr service_cert_base64); ("telemetryMountPath", JStr CLI_TELEMETRY_MOUNT_PATH)].

Definition ccr_secrets_vars : list (string * json) :=
  [("identityPort", JStr "8290"); ("skrPort", JStr "8284"); ("telemetryMountPath", JStr CLI_TELEMETRY_MOUNT_PATH)].

Definition ext_processor_vars (name policy_bundle_url : string) (allow_all : bool) (port : Z) : list (string * json) :=
  [("name", JStr name); ("policyBundleUrl", JStr policy_bundle_url);
   ("allowAll", JStr (if allow_all then "true" else "false")); ("port", JInt port);
   ("telemetryMountPath", JStr CLI_TELEMETRY_MOUNT_PATH)].

(** [get_identity_sidecar]: managed identities and federated applications. *)
Definition managed_identity (i : Identity) : option json :=
  match tokenIssuer i with
  | AttestationBasedTokenIssuer issuer =>
      if decide (protocol issuer = AzureAD_ManagedIdentity) then Some (JObj [("ClientId", JStr (clientId i))]) else None
  | _ => None
  end.

Definition application_identity (subject audience : string) (i : Identity) : option json :=
  match tokenIssuer i with
  | FederatedIdentityBasedTokenIssuer _ _ =>
      Some (JObj [("ClientId", JStr (clientId i));
                  ("Credential", JObj [("CredentialType", JStr "FederatedCredential");
                     ("FederationConfiguration", JObj [("IdTokenEndpoint", JStr "http://localhost:8300");
                        ("Subject", JStr subject); ("Audience", JStr audience)])])])
  | _ => None
  end.

Definition cli_identity_args (ids : list Identity) (subject audience : string) : json :=
  JObj [("Identities", JObj [("ManagedIdentities", JArr (omap managed_identity ids));
                             ("ApplicationIdentities", JArr (omap (application_identity subject audience) ids))])].

Definition cli_identity_vars (ids : list Identity) (subject audience : string) : list (string * json) :=
  [("IdentitySidecarArgsBase64", JStr (b64encode (utf8_encode (dumps (cli_identity_args ids subject audience)))));
   ("OtelMetricExportInterval", JInt 5000); ("telemetryMountPath", JStr CLI_TELEMETRY_MOUNT_PATH)].

(** The keys of a store, for the modes that need them. *)
Record KeyVars := { kv_kek_kv_url : json; kv_maa_url : json; kv_kek_kid : string; kv_dek_secret_name : string;
                    kv_dek_vault_url : string }.

Definition no_keys : KeyVars :=
  {| kv_kek_kv_url := JStr ""; kv_maa_url := JStr ""; kv_kek_kid := ""; kv_dek_secret_name := ""; kv_dek_vault_url := "" |}.

(** [urlparse(u).hostname] as a template variable. *)
Definition hostname_json (text : string) : res json :=
  u ← urlparse text; Ok (match url_hostname u with Some h => JStr h | None => JNull end).

Definition key_vars (ap : AccessPoint) (encryption_mode access_name : string) : res KeyVars :=
  if bool_decide (encryption_mode ∈ ["CPK"; "CSE"]) then
    secrets ← of_option (AssertionError ("Encryption secrets is null for " +:+ access_name +:+ "."))
                (encryptionSecrets (protection ap));
    kek_entry ← of_option (AttributeError "'NoneType' object has no attribute 'secret'") (kek secrets);
    let kek_resource := backingResource (es_secret kek_entry) in
    let dek_resource := backingResource (es_secret (dek secrets)) in
    kek_kv_url ← hostname_json (endpoint_url (provider kek_resource));
    _ ← py_assert (ostr_truthy (endpoint_configuration (provider kek_resource)))
          ("KEK configuration is null for " +:+ access_name +:+ ".");
    config ← decode_configuration (endpoint_configuration (provider kek_resource));
    authority ← json_item config "authority";
    authority ← json_text authority;
    maa_url ← hostname_json authority;
    Ok {| kv_kek_kv_url := kek_kv_url; kv_maa_url := maa_url; kv_kek_kid := resource_name kek_resource;
          kv_dek_secret_name := resource_name dek_resource;
          kv_dek_vault_url := endpoint_url (provider dek_resource) |}
  else Ok no_keys.

(** The variables of a blobfuse sidecar and the subdirectory it mounts. *)
Definition cli_blobfuse_vars (ap : AccessPoint) (mount_path encryption_mode access_name : string)
  : res (list (string * json) * string) :=
  keys ← key_vars ap encryption_mode access_name;
  loc ← store_location ap;
  i ← of_option (AttributeError "'NoneType' object has no attribute 'clientId'") (identity ap);
  let '(account, endpoint, container_name, subdir) := (loc : string * json * string * string) in
  Ok ([("datasetName", JStr access_name); ("storageContainerName", JStr container_name);
       ("mountPath", JStr mount_path); ("maaUrl", kv_maa_url keys); ("storageAccountName", JStr account);
       ("storageBlobEndpoint", endpoint); ("readOnly", JStr (read_only_flag ap));
       ("kekVaultUrl", kv_kek_kv_url keys); ("kekKid", JStr (kv_kek_kid keys));
       ("dekSecretName", JStr (kv_dek_secret_name keys)); ("dekVaultUrl", JStr (kv_dek_vault_url keys));
       ("cgsDekSecretId", JStr ""); ("clientId", JStr (clientId i)); ("tenantId", JStr (tenantId i));
       ("encryptionMode", JStr encryption_mode);
       ("useAdls", JStr (if uses_adls ap then "--use-adls" else "--no-use-adls"));
       ("telemetryMountPath", JStr CLI_TELEMETRY_MOUNT_PATH);
       ("volumeStatusMountPath", JStr CLI_VOLUMESTATUS_MOUNT_PATH); ("traceContextJsonBase64", JStr "")], subdir).

(** The bundle of a proxy's policy; without one everything is allowed. *)
Definition policy_bundle (p : PrivacyProxySettings) : res (string * bool) :=
  match privacyPolicy p with
  | None => Ok ("", true)
  | Some (Some (ExternalPolicy d)) => Ok (endpoint_url (provider (doc_backingResource d)), false)
  | Some _ => Err (AssertionError "Privacy policy must be of type ExternalPolicy.")
  end.

Definition network_http (spec : CleanRoomSpecification) : option HttpSettings := network spec ≫= net_http.
Definition spec_inbound (spec : CleanRoomSpecification) : option Inbound := network_http spec ≫= http_inbound.
Definition spec_outbound (spec : CleanRoomSpecification) : option Outbound := network_http spec ≫= http_outbound.
Definition spec_tcp (spec : CleanRoomSpecification) : option TcpSettings := network spec ≫= net_tcp.

Definition flag (b : bool) : json := JStr (if b then "true" else "false").

Definition ccr_proxy_vars (spec : CleanRoomSpecification) : list (string * json) :=
  [("telemetryMountPath", JStr CLI_TELEMETRY_MOUNT_PATH);
   ("allowHttpOutboundAccess", flag (bool_decide (is_Some (spec_outbound spec))));
   ("allowHttpInboundAccess", flag (bool_decide (is_Some (spec_inbound spec))));
   ("allowTcpOutboundAccess", flag (bool_decide (is_Some (spec_tcp spec))))].

Definition allowed_ip (e : NetworkEndpoint) : json := JObj [("address", JStr (ne_address e)); ("port", JInt (ne_port e))].

(** The arguments of the init container. *)
Definition ccr_init_cmd (spec : CleanRoomSpecification) : res (list json) :=
  allowed_ips ← match spec_tcp spec with
                | None => Ok []
                | Some t => out ← of_option (AttributeError "'NoneType' object has no attribute 'allowedIPs'") (tcp_outbound t);
                            Ok (map allowed_ip (allowedIPs out))
                end;
  let dns := match network spec ≫= net_dns with
             | Some d => [JStr "--enable-dns"; JStr "--dns-port"; JStr (str_of_Z (dns_port d))]
             | None => []
             end in
  Ok (dns ++ match allowed_ips with [] => [] | _ => [JStr "--allowed-ips"; JStr (dumps (JArr allowed_ips))] end).

(** ** Reading the registry *)

Fixpoint replace_chars (l : list ascii) (by_ s : string) : string :=
  match l with [] => s | c :: l' => replace_chars l' by_ (replace_char c by_ s) end.

(** [url.replace("/", "_").replace(":", "_").replace(".", "_")] *)
Definition cache_dir_name (url : string) : string := replace_chars ["/"; ":"; "."]%char "_" url.

(** [os.path.dirname(path)] of a normal path. *)
Definition dirname (path : string) : string :=
  match rpartition_char "/" path with
  | Some (before, _) => if bool_decide (before = "") then "/" else before
  | None => ""
  end.

Section Template.
Context {W : Type} (te : TemplateEnv W).

(** [_read_release_version]: the version file of the nearest directory above. *)
Fixpoint read_release_version (fuel : nat) (current : string) : M W string :=
  match fuel with
  | O => mret "8.0.0"
  | S fuel' =>
      let candidate := path_join current "MCR_RELEASE_VERSION" in
      found ← file_exists (te_files te) candidate;
      if (found : bool) then text ← read_text (te_files te) candidate; mret (strip text)
      else read_release_version fuel' (dirname current)
  end.

Definition env_default (key dflt : string) : string := default dflt (te_environ te key).

Definition get_containers_registry_url : string :=
  env_default "AZCLI_CLEANROOM_CONTAINER_REGISTRY_URL" DEFAULT_CLEANROOM_CONTAINER_REGISTRY_URL.

Definition get_sidecars_policy_document_registry_url : string :=
  env_default "AZCLI_CLEANROOM_SIDECARS_POLICY_DOCUMENT_REGISTRY_URL" get_containers_registry_url.

Definition get_scratch_dir : string := env_default "SCRATCH_DIR" (te_module_dir te).

Definition use_insecure_http (registry_url : string) : res bool :=
  if bool_decide (lower (env_default "AZCLI_CLEANROOM_CONTAINER_REGISTRY_USE_HTTP" "false") = "true") then Ok true
  else u ← urlparse ("https://" +:+ registry_url); Ok (bool_decide (url_hostname u = Some "localhost")).

(** [bin] below the scratch directory. *)
Definition bin_folder : M W string :=
  let folder := path_join get_scratch_dir "bin" in
  found ← file_exists (te_files te) folder;
  _ ← (if (found : bool) then mret () else make_dirs (te_files te) folder);
  mret folder.

(** A document is pulled when its file is missing; the lock is local to the
    call. *)
Definition cached_document (dir_path file target : string) (insecure : res bool) : M W json :=
  let path := path_join dir_path file in
  found ← file_exists (te_files te) path;
  _ ← (if (found : bool) then mret () else
         found ← file_exists (te_files te) path;
         if (found : bool) then mret () else
           _ ← make_dirs (te_files te) dir_path;
           insecure ← lift insecure;
           oras_pull (te_files te) target dir_path insecure);
  yaml_load (te_files te) path.

Definition versions_registry_url : string :=
  env_default "AZCLI_CLEANROOM_SIDECARS_VERSIONS_DOCUMENT_URL"
    ("mcr.microsoft.com/azurecleanroom/sidecar-digests:" +:+ te_version te).

Definition cli_get_sidecars_version : M W json :=
  folder ← bin_folder;
  cached_document (path_join folder (cache_dir_name versions_registry_url)) CLEANROOM_SIDECARS_VERSIONS_DOCUMENT_NAME
    versions_registry_url (use_insecure_http versions_registry_url).

Definition cli_get_sidecar_policy_document (imageName : string) : M W json :=
  folder ← bin_folder;
  let policy_registry_url := get_sidecars_policy_document_registry_url in
  versions ← cli_get_sidecars_version;
  sidecar ← lift (find_sidecar versions imageName);
  insecure ← lift (use_insecure_http policy_registry_url);
  policy_document ← lift (json_item sidecar "policyDocument");
  digest ← lift (json_item sidecar "policyDocumentDigest");
  name ← lift (json_text policy_document);
  cached_document (path_join folder (cache_dir_name policy_registry_url)) (name +:+ ".yaml")
    (policy_registry_url +:+ "/policies/" +:+ py_str policy_document +:+ "@" +:+ py_str digest) (Ok insecure).

Definition cli_get_sidecar (sidecar_name : string) (vars : list (string * json)) (debug_mode : bool) : M W TemplateSidecar :=
  versions ← cli_get_sidecars_version;
  sidecar ← lift (find_sidecar versions sidecar_name);
  digest ← lift (json_item sidecar "digest");
  let vars := dict_set "digest" digest (dict_set "containerRegistryUrl" (JStr get_containers_registry_url) vars) in
  doc ← cli_get_sidecar_policy_document sidecar_name;
  lift (template_sidecar debug_mode doc vars).

(** ** The containers *)

Definition port_json (port : Z) : json := JObj [("port", JStr (str_of_Z port)); ("protocol", JStr "TCP")].

Definition get_code_launcher (application : SpecApplication) (debug_mode : bool) : M W TemplateSidecar :=
  let requests := rs_requests (runtimeSettings application) in
  let application_base64 := b64encode (utf8_encode (te_model_dump_json te application)) in
  s ← cli_get_sidecar "code-launcher"
        [("applicationName", JStr (app_name application)); ("cpu", JStr (float_str (req_cpu requests)));
         ("memoryInGB", JStr (float_str (req_memoryInGB requests)));
         ("telemetryMountPath", JStr CLI_TELEMETRY_MOUNT_PATH);
         ("volumeStatusMountPath", JStr CLI_VOLUMESTATUS_MOUNT_PATH)] debug_mode;
  lift (extend_command [JStr "--application-base-64"; JStr application_base64]
          (map port_json (rs_ports (runtimeSettings application))) s).

Definition cli_get_blobfuse_sidecar (ap : AccessPoint) (mount_path encryption_mode access_name : string)
    (debug_mode : bool) : M W TemplateSidecar :=
  v ← lift (cli_blobfuse_vars ap mount_path encryption_mode access_name);
  s ← cli_get_sidecar "blobfuse-launcher" v.1 debug_mode;
  lift (extend_command (if bool_decide (v.2 = "") then [] else [JStr "--sub-directory"; JStr v.2]) [] s).

Definition get_ccr_init (spec : CleanRoomSpecification) (debug_mode : bool) : M W TemplateSidecar :=
  cmd ← lift (ccr_init_cmd spec);
  s ← cli_get_sidecar "ccr-init" [("telemetryMountPath", JStr CLI_TELEMETRY_MOUNT_PATH);
        ("volumeStatusMountPath", JStr CLI_VOLUMESTATUS_MOUNT_PATH)] debug_mode;
  lift (extend_command cmd [] s).

(** The external processor of a direction, when traffic is enabled. *)
Definition ext_processor (name : string) (port : Z) (p : option PrivacyProxySettings) (debug_mode : bool)
  : M W (list TemplateSidecar) :=
  match p with
  | None => mret []
  | Some p =>
      bundle ← lift (policy_bundle p);
      s ← cli_get_sidecar "ccr-proxy-ext-processor" (ext_processor_vars name bundle.1 bundle.2 port) debug_mode;
      mret [s]
  end.

Definition get_network_sidecars (spec : CleanRoomSpecification) (debug_mode : bool)
  : M W (TemplateSidecar * list TemplateSidecar) :=
  inb ← ext_processor "inbound" 8282 (inbound_policy <$> spec_inbound spec) debug_mode;
  outb ← ext_processor "outbound" 8283 (outbound_policy <$> spec_outbound spec) debug_mode;
  proxy ← cli_get_sidecar "ccr-proxy" (ccr_proxy_vars spec) debug_mode;
  init ← get_ccr_init spec debug_mode;
  mret (init, inb ++ outb ++ [proxy]).

(** The sidecars that mount an access point: two for client-side encryption. *)
Definition access_point_sidecars (debug_mode : bool) (ap : AccessPoint) : M W (list TemplateSidecar) :=
  _ ← lift (py_assert (ostr_truthy (configuration (protection ap)))
              ("Protection configuration is null for " +:+ ap_name ap +:+ "."));
  encryption_config ← lift (decode_configuration (configuration (protection ap)));
  mode ← lift (json_item encryption_config "EncryptionMode");
  plain ← (if json_eqs mode "CSE" then
             s ← cli_get_blobfuse_sidecar ap "/mnt/remote" "SSE" (ap_name ap +:+ "-plain") debug_mode; mret [s]
           else mret []);
  s ← cli_get_blobfuse_sidecar ap "/mnt/remote" (py_str mode) (ap_name ap) debug_mode;
  mret (plain ++ [s]).

Fixpoint concat_M {A B} (f : A -> M W (list B)) (l : list A) : M W (list B) :=
  match l with
  | [] => mret []
  | a :: l' => x ← f a; y ← concat_M f l'; mret (x ++ y)
  end.

Definition one (m : M W TemplateSidecar) : M W (list TemplateSidecar) := s ← m; mret [s].

(** ** The template *)

Definition group (path : list string) : list step := Key "resources" :: Idx 0 :: map Key path.

Definition template_folder : string := te_module_dir te +:+ "/../templates/".
Definition REGO_FILE_PATH : string := template_folder +:+ "/cleanroom-policy.rego".

Definition get_rego_policy (container_policy_rego : list json) : M W string :=
  placeholder ← read_text (te_files te) REGO_FILE_PATH;
  lift (rego_policy placeholder container_policy_rego).

(** The applications, the identities and the network; with the init container. *)
Definition leading_sidecars (spec : CleanRoomSpecification) (contract_id : string) (debug_mode : bool)
  : M W (TemplateSidecar * list TemplateSidecar) :=
  apps ← concat_M (fun a => one (get_code_launcher a debug_mode)) (applications spec);
  ident ← cli_get_sidecar "identity" (cli_identity_vars (identities spec) contract_id "api://AzureADTokenExchange") debug_mode;
  net ← get_network_sidecars spec debug_mode;
  versions ← cli_get_sidecars_version;
  policy ← lift (find_sidecar versions "policies/ccr-governance-opa-policy");
  digest ← lift (json_item policy "digest");
  gov_proxy ← cli_get_sidecar "ccr-proxy-ext-processor"
    (ext_processor_vars "gov" (get_containers_registry_url +:+ "/policies/ccr-governance-opa-policy@" +:+ py_str digest)
       false 8281) debug_mode;
  mret (net.1, apps ++ [ident] ++ net.2 ++ [gov_proxy]).

(** The mounts and the services. *)
Definition trailing_sidecars (spec : CleanRoomSpecification) (contract_id ccf_endpoint cert : string) (debug_mode : bool)
  : M W (list TemplateSidecar) :=
  mounts ← concat_M (access_point_sidecars debug_mode) (datasources spec ++ datasinks spec);
  otel ← cli_get_sidecar "otel-collector" otel_collector_vars debug_mode;
  gov ← cli_get_sidecar "ccr-governance" (ccr_governance_vars ccf_endpoint contract_id cert) debug_mode;
  skr ← cli_get_sidecar "skr" skr_vars debug_mode;
  secrets ← cli_get_sidecar "ccr-secrets" ccr_secrets_vars debug_mode;
  mret (mounts ++ [otel; gov; skr; secrets]).

(** The ports of the container group: governance, and those of the applications
    when inbound traffic is enabled. *)
Definition group_ports (spec : CleanRoomSpecification) : list json :=
  port_json 8200 ::
  match spec_inbound spec with
  | Some _ => concat (map (fun a => map port_json (rs_ports (runtimeSettings a))) (applications spec))
  | None => []
  end.

(** The base template with the address and the tags of the clean room. *)
Definition addressed_template (spec : CleanRoomSpecification) (contract_id : string) (arm : json) : res json :=
  arm ← json_modify (group ["properties"; "ipAddress"]) (json_put (Key "type") (JStr "Public")) arm;
  arm ← json_modify (group ["properties"; "ipAddress"]) (json_put (Key "ports") (JArr (group_ports spec))) arm;
  arm ← json_modify (group ["tags"]) (json_put (Key "accr-contract-id") (JStr contract_id)) arm;
  json_modify (group ["tags"]) (json_put (Key "accr-version") (JStr (te_version te))) arm.

(** A container joins the template and the policy document. *)
Definition add_container (list_name : string) (docs : json * json) (s : TemplateSidecar) : res (json * json) :=
  arm ← json_modify (group ["properties"; list_name]) (fun j => json_extend j [template_json s]) docs.1;
  policy ← json_modify [Key "containers"] (fun j => json_extend j [policy_json s]) docs.2;
  Ok (arm, policy).

Definition CLI_ALLOW_ALL_BASE64 : string :=
  "cGFja2FnZSBwb2xpY3kKCmFwaV9zdm4gOj0gIjAuMTAuMCIKCm1vdW50X2RldmljZSA6PSB7ImFsbG93ZWQiOiB0cnVlfQptb3VudF9vdmVybGF5IDo9IHsiYWxsb3dlZCI6IHRydWV9CmNyZWF0ZV9jb250YWluZXIgOj0geyJhbGxvd2VkIjogdHJ1ZSwgImVudl9saXN0IjogbnVsbCwgImFsbG93X3N0ZGlvX2FjY2VzcyI6IHRydWV9CnVubW91bnRfZGV2aWNlIDo9IHsiYWxsb3dlZCI6IHRydWV9IAp1bm1vdW50X292ZXJsYXkgOj0geyJhbGxvd2VkIjogdHJ1ZX0KZXhlY19pbl9jb250YWluZXIgOj0geyJhbGxvd2VkIjogdHJ1ZSwgImVudl9saXN0IjogbnVsbH0KZXhlY19leHRlcm5hbCA6PSB7ImFsbG93ZWQiOiB0cnVlLCAiZW52X2xpc3QiOiBudWxsLCAiYWxsb3dfc3RkaW9fYWNjZXNzIjogdHJ1ZX0Kc2h1dGRvd25fY29udGFpbmVyIDo9IHsiYWxsb3dlZCI6IHRydWV9CnNpZ25hbF9jb250YWluZXJfcHJvY2VzcyA6PSB7ImFsbG93ZWQiOiB0cnVlfQpwbGFuOV9tb3VudCA6PSB7ImFsbG93ZWQiOiB0cnVlfQpwbGFuOV91bm1vdW50IDo9IHsiYWxsb3dlZCI6IHRydWV9CmdldF9wcm9wZXJ0aWVzIDo9IHsiYWxsb3dlZCI6IHRydWV9CmR1bXBfc3RhY2tzIDo9IHsiYWxsb3dlZCI6IHRydWV9CnJ1bnRpbWVfbG9nZ2luZyA6PSB7ImFsbG93ZWQiOiB0cnVlfQpsb2FkX2ZyYWdtZW50IDo9IHsiYWxsb3dlZCI6IHRydWV9CnNjcmF0Y2hfbW91bnQgOj0geyJhbGxvd2VkIjogdHJ1ZX0Kc2NyYXRjaF91bm1vdW50IDo9IHsiYWxsb3dlZCI6IHRydWV9Cg==".

Definition sandbox_supported (spec : CleanRoomSpecification) : bool :=
  match sandbox spec with None => true | Some s => negb (bool_decide (sandboxType s = SandBox_None)) end.

(** The text of the assertion leaves out the sandbox it shows. *)
Record DeploymentTemplate := { dt_arm_template : json; dt_policy_template : json; dt_rego_policy : string }.

Definition get_deployment_template (spec : CleanRoomSpecification) (contract_id ccf_endpoint sslServerCertBase64 generate_mode : string)
  : M W DeploymentTemplate :=
  let debug_mode := bool_decide (generate_mode = "cached-debug") in
  let allow_all := bool_decide (generate_mode = "allow-all") in
  arm ← te_json_load te (template_folder +:+ "aci-base-arm-template.json");
  lead ← leading_sidecars spec contract_id debug_mode;
  arm ← lift (addressed_template spec contract_id arm);
  trail ← trailing_sidecars spec contract_id ccf_endpoint sslServerCertBase64 debug_mode;
  let sidecars := lead.2 ++ trail in
  let ccr_init := lead.1 in
  policy ← te_json_load te (template_folder +:+ "cleanroom-template-policy.json");
  docs ← lift (fold_res (add_container "containers") (arm, policy) sidecars);
  _ ← lift (py_assert (sandbox_supported spec) "Unsupported sandbox type.");
  docs ← lift (add_container "initContainers" docs ccr_init);
  rego ← (if allow_all then lift (raw ← b64decode CLI_ALLOW_ALL_BASE64; utf8_decode raw)
          else get_rego_policy (map policy_rego (sidecars ++ [ccr_init])));
  mret {| dt_arm_template := docs.1; dt_policy_template := docs.2; dt_rego_policy := rego |}.
End Template.

(** ** Validation of a specification *)

Record Warning := { w_code : string; w_message : string }.

Definition missing (noun : string) (c : ErrorCode) (known : list AccessPoint) (used : option (list (string * string)))
  : list exn :=
  omap (fun kv : string * string =>
          if existsb (fun ap => bool_decide (ap_name ap = kv.1)) known then None
          else Some (spec_error c (noun +:+ " " +:+ kv.1 +:+ " not found in the cleanroom specification.")))
       (default [] used).

Definition application_issues (spec : CleanRoomSpecification) (a : SpecApplication) : list exn :=
  missing "Datasource" EC_DataStoreNotFound (datasources spec) (app_datasources a)
    ++ missing "Datasink" EC_DatasinkNotFound (datasinks spec) (app_datasinks a).

Definition allow_all_warning (code direction : string) (p : option PrivacyProxySettings) : list Warning :=
  match p with
  | Some p => match privacyPolicy p with
              | None => [{| w_code := code; w_message := direction +:+
                            " traffic is allowed. Configure a network policy to restrict traffic." |}]
              | Some _ => []
              end
  | None => []
  end.

(** [seen] and [dupes] are never filled, so that the checks of ports never apply. *)
Definition validate_config (spec : CleanRoomSpecification) : list exn * list Warning :=
  (concat (map (application_issues spec) (applications spec)),
   allow_all_warning "InboundAllowAll" "Inbound" (inbound_policy <$> spec_inbound spec)
     ++ allow_all_warning "OutboundAllowAll" "Outbound" (outbound_policy <$> spec_outbound spec)
     ++ if (1 <? Z.of_nat (length (applications spec)))%Z then
          [{| w_code := "MultipleApplications";
              w_message := "Multiple applications are defined in the specification. Please verify that the associated network policies handle expected ingress / egress." |}]
        else []).
