(* ===== verification/DeployTemplateProps.v ===== *)
(** * Every container of the template is in the policies

    Updates of documents at paths, and what the generated template, policy
    document and rego policy have in common. *)

From S2P Require Import Prelude PyStr Base64 Json JsonFacts Template PyFloat SparkModels Settings Helpers CleanroomModels SpecModels AppBuilder SparkBuilder ConfigModels ConfigHelpers DeployTemplate.
From Stdlib Require Import Lia.

(** ** Documents at paths *)

Definition json_at (path : list step) (j : json) : res json := fold_res (fun j s => json_step s j) j path.

Lemma json_at_cons s path j : json_at (s :: path) j = json_step s j ≫= json_at path.
Proof. done. Qed.

Lemma json_put_step s v j j' : json_put s v j = Ok j' -> json_step s j' = Ok v.
Proof.
  destruct s as [k|n], j; cbn; try done.
  - intros [= <-]. cbn. by rewrite dict_lookup_set_eq.
  - case_bool_decide; [|done]. intros [= <-]. cbn. by rewrite list_lookup_insert_eq.
Qed.

Lemma json_put_other k k' v j j' : k <> k' -> json_put (Key k) v j = Ok j' -> json_step (Key k') j' = json_step (Key k') j.
Proof. intros Hk. destruct j; cbn; try done. intros [= <-]. cbn. by rewrite dict_lookup_set_ne. Qed.

Lemma json_modify_at path f : forall j j', json_modify path f j = Ok j' ->
  exists v v', json_at path j = Ok v /\ f v = Ok v' /\ json_at path j' = Ok v'.
Proof.
  induction path as [|s path IH]; intros j j'; [intros H; by exists j, j'|].
  cbn [json_modify]. intros (v & Hv & H)%res_bind_ok. apply res_bind_ok in H as (v' & Hm & Hp).
  destruct (IH _ _ Hm) as (x & x' & Hx & Hf & Hx'). exists x, x'.
  by rewrite !json_at_cons, Hv, (json_put_step _ _ _ _ Hp).
Qed.

Lemma json_modify_frame path k k' rest rest' f : k <> k' -> forall j j',
  json_modify (path ++ Key k :: rest) f j = Ok j' ->
  json_at (path ++ Key k' :: rest') j' = json_at (path ++ Key k' :: rest') j.
Proof.
  intros Hk. induction path as [|s path IH]; intros j j'; cbn [app json_modify];
    intros (v & Hv & H)%res_bind_ok; apply res_bind_ok in H as (v' & Hm & Hp); rewrite !json_at_cons.
  - by rewrite (json_put_other _ _ _ _ _ Hk Hp).
  - rewrite (json_put_step _ _ _ _ Hp), Hv. cbn. by apply IH.
Qed.

Lemma json_extend_ok j xs j' : json_extend j xs = Ok j' -> exists l, j = JArr l /\ j' = JArr (l ++ xs).
Proof. destruct j; cbn; try done. intros [= <-]. eauto. Qed.

Lemma json_extend_at path xs j j' : json_modify path (fun j => json_extend j xs) j = Ok j' ->
  exists l, json_at path j = Ok (JArr l) /\ json_at path j' = Ok (JArr (l ++ xs)).
Proof.
  intros (v & v' & Hv & (l & -> & ->)%json_extend_ok & Hv')%json_modify_at. eauto.
Qed.

(** ** Containers *)

Definition arm_list (name : string) (arm : json) : res json := json_at (group ["properties"; name]) arm.

Lemma add_container_ok name other docs s docs' : name <> other -> add_container name docs s = Ok docs' ->
  (exists l, arm_list name docs.1 = Ok (JArr l) /\ arm_list name docs'.1 = Ok (JArr (l ++ [template_json s]))) /\
  arm_list other docs'.1 = arm_list other docs.1 /\
  (exists l, json_at [Key "containers"] docs.2 = Ok (JArr l) /\
     json_at [Key "containers"] docs'.2 = Ok (JArr (l ++ [policy_json s]))).
Proof.
  intros Hne (arm & Ha & H)%res_bind_ok. apply res_bind_ok in H as (policy & Hp & [= <-]). split_and!.
  - by apply json_extend_at in Ha.
  - by apply (json_modify_frame [Key "resources"; Idx 0; Key "properties"] name other [] []) in Ha.
  - by apply json_extend_at in Hp.
Qed.

Lemma add_containers_ok ss : forall docs docs', fold_res (add_container "containers") docs ss = Ok docs' ->
  ss <> [] -> 
  exists l p, arm_list "containers" docs.1 = Ok (JArr l) /\
    arm_list "containers" docs'.1 = Ok (JArr (l ++ map template_json ss)) /\
    arm_list "initContainers" docs'.1 = arm_list "initContainers" docs.1 /\
    json_at [Key "containers"] docs.2 = Ok (JArr p) /\
    json_at [Key "containers"] docs'.2 = Ok (JArr (p ++ map policy_json ss)).
Proof.
  induction ss as [|s ss IH]; intros docs docs'; [done|]. cbn [fold_res].
  intros (d1 & Hd & H)%res_bind_ok _.
  destruct (add_container_ok "containers" "initContainers" _ _ _ ltac:(done) Hd) as ((l & Hl & Hl1) & Hi & (p & Hp & Hp1)).
  destruct ss as [|s2 ss].
  { cbn in H. injection H as <-. by exists l, p. }
  destruct (IH _ _ H) as (l1 & p1 & Hl2 & Hl3 & Hi2 & Hp2 & Hp3); [done|].
  rewrite Hl1 in Hl2. injection Hl2 as <-. rewrite Hp1 in Hp2. injection Hp2 as <-.
  exists l, p. split_and!; try done.
  - by rewrite Hl3, <- app_assoc.
  - by rewrite Hi2.
  - by rewrite Hp3, <- app_assoc.
Qed.

Section Template.
Context {W : Type} (te : TemplateEnv W).

Lemma addressed_lists spec cid arm arm' name : "ipAddress" <> name -> addressed_template te spec cid arm = Ok arm' -> arm_list name arm' = arm_list name arm.
Proof.
  intros Hne (a1 & H1 & H)%res_bind_ok. apply res_bind_ok in H as (a2 & H2 & H). apply res_bind_ok in H as (a3 & H3 & H4).
  etransitivity; [exact (json_modify_frame [Key "resources"; Idx 0] "tags" "properties" [] [Key name] _ ltac:(done) _ _ H4)|].
  etransitivity; [exact (json_modify_frame [Key "resources"; Idx 0] "tags" "properties" [] [Key name] _ ltac:(done) _ _ H3)|].
  etransitivity; [exact (json_modify_frame [Key "resources"; Idx 0; Key "properties"] "ipAddress" name [] [] _ Hne _ _ H2)|].
  exact (json_modify_frame [Key "resources"; Idx 0; Key "properties"] "ipAddress" name [] [] _ Hne _ _ H1).
Qed.

(** ** Where a container comes from *)

(** The sidecar [name] of the registry, its variables replaced, and the same
    arguments added to the container and to its policies. *)
Definition built (debug : bool) (name : string) (s : TemplateSidecar) : Prop :=
  exists vars w w' s0, cli_get_sidecar te name vars debug w = (w', Ok s0) /\
    (s = s0 \/ exists cmd ports, extend_command cmd ports s0 = Ok s).

Definition mount_names (ap : AccessPoint) : list string :=
  match (c ← decode_configuration (configuration (protection ap)); json_item c "EncryptionMode") with
  | Ok mode => if json_eqs mode "CSE" then ["blobfuse-launcher"; "blobfuse-launcher"] else ["blobfuse-launcher"]
  | Err _ => []
  end.

Definition when_some {A B} (o : option A) (b : B) : list B := match o with Some _ => [b] | None => [] end.

Lemma built_plain debug name vars w w' s : cli_get_sidecar te name vars debug w = (w', Ok s) -> built debug name s.
Proof. intros H. exists vars, w, w', s. eauto. Qed.

Lemma built_extended debug name vars w w' s0 cmd ports s :
  cli_get_sidecar te name vars debug w = (w', Ok s0) -> extend_command cmd ports s0 = Ok s -> built debug name s.
Proof. intros H1 H2. exists vars, w, w', s0. eauto. Qed.

Lemma concat_M_ok {A B} (f : A -> M W (list B)) l : forall w w' bs, concat_M f l w = (w', Ok bs) ->
  exists bss, bs = concat bss /\ Forall2 (fun a b => exists w1 w2, f a w1 = (w2, Ok b)) l bss.
Proof.
  induction l as [|a l IH]; intros w w' bs; [intros [= _ <-]; exists []; by split|].
  cbn [concat_M]. intros (w1 & x & Hx & H)%M_bind_ok. apply M_bind_ok in H as (w2 & y & Hy & [= _ <-]).
  destruct (IH _ _ _ Hy) as (bss & -> & Hf). exists (x :: bss). split; [done|]. constructor; eauto.
Qed.

Lemma code_launcher_ok a debug w w' s : get_code_launcher te a debug w = (w', Ok s) ->
  exists vars w1 s0, cli_get_sidecar te "code-launcher" vars debug w = (w1, Ok s0) /\
    extend_command [JStr "--application-base-64"; JStr (b64encode (utf8_encode (te_model_dump_json te a)))]
      (map port_json (rs_ports (runtimeSettings a))) s0 = Ok s.
Proof.
  unfold get_code_launcher. intros (w1 & s0 & H & [-> Hs]%lift_ok)%M_bind_ok. eauto.
Qed.

Lemma blobfuse_ok ap path mode name debug w w' s : cli_get_blobfuse_sidecar te ap path mode name debug w = (w', Ok s) ->
  built debug "blobfuse-launcher" s /\ is_Some (identity ap).
Proof.
  intros (w1 & v & [-> Hv]%lift_ok & H)%M_bind_ok. apply M_bind_ok in H as (w2 & s0 & H & [-> Hs]%lift_ok).
  split; [by eapply built_extended|]. unfold cli_blobfuse_vars in Hv.
  apply res_bind_ok in Hv as (k & _ & Hv). apply res_bind_ok in Hv as (l & _ & Hv).
  apply res_bind_ok in Hv as (i & Hi%of_option_ok & _). eauto.
Qed.

Lemma access_point_ok debug ap w w' ss : access_point_sidecars te debug ap w = (w', Ok ss) ->
  Forall2 (built debug) (mount_names ap) ss /\ is_Some (identity ap).
Proof.
  unfold access_point_sidecars. intros (w1 & [] & [-> _]%lift_ok & H)%M_bind_ok.
  apply M_bind_ok in H as (w2 & c & [-> Hc]%lift_ok & H). apply M_bind_ok in H as (w3 & mode & [-> Hm]%lift_ok & H).
  unfold mount_names. rewrite Hc. cbn. rewrite Hm. destruct (json_eqs mode "CSE").
  - apply M_bind_ok in H as (w4 & plain & H1 & H). apply M_bind_ok in H1 as (w5 & p & [Hp _]%blobfuse_ok & [= _ <-]).
    apply M_bind_ok in H as (w6 & s & [Hs Hi]%blobfuse_ok & [= _ <-]). split; [by repeat constructor | done].
  - apply M_bind_ok in H as (w4 & plain & [= _ <-] & H).
    apply M_bind_ok in H as (w6 & s & [Hs Hi]%blobfuse_ok & [= _ <-]). split; [by repeat constructor | done].
Qed.

Lemma ext_processor_ok {A} name port (o : option A) f debug w w' ss :
  ext_processor te name port (f <$> o) debug w = (w', Ok ss) ->
  Forall2 (built debug) (when_some o "ccr-proxy-ext-processor") ss.
Proof.
  destruct o as [a|]; cbn; [|intros [= _ <-]; constructor].
  intros (w1 & b & [-> _]%lift_ok & H)%M_bind_ok. apply M_bind_ok in H as (w2 & s & H & [= _ <-]).
  constructor; [by eapply built_plain | constructor].
Qed.

Lemma network_sidecars_ok spec debug w w' init ss : get_network_sidecars te spec debug w = (w', Ok (init, ss)) ->
  built debug "ccr-init" init /\
  Forall2 (built debug) (when_some (spec_inbound spec) "ccr-proxy-ext-processor"
    ++ when_some (spec_outbound spec) "ccr-proxy-ext-processor" ++ ["ccr-proxy"]) ss.
Proof.
  intros (w1 & inb & Hi%ext_processor_ok & H)%M_bind_ok. apply M_bind_ok in H as (w2 & outb & Ho%ext_processor_ok & H).
  apply M_bind_ok in H as (w3 & proxy & Hp%built_plain & H). apply M_bind_ok in H as (w4 & i & Hn & [= _ <- <-]).
  apply M_bind_ok in Hn as (w5 & cmd & [-> _]%lift_ok & H). apply M_bind_ok in H as (w6 & s0 & H & [_ Hs]%lift_ok).
  split; [by eapply built_extended|]. repeat apply Forall2_app; [done..|]. by repeat constructor.
Qed.

Lemma launchers_built debug l bss :
  Forall2 (fun a b => exists w1 w2, one (get_code_launcher te a debug) w1 = (w2, Ok b)) l bss ->
  Forall2 (built debug) (map (fun _ => "code-launcher") l) (concat bss).
Proof.
  induction 1 as [|a b l bss (w1 & w2 & H) _ IH]; [constructor|]. cbn.
  apply M_bind_ok in H as (w3 & s & (vars & w4 & s0 & H1 & H2)%code_launcher_ok & [= _ <-]).
  constructor; [by eapply built_extended | done].
Qed.

Lemma mounts_built debug l bss :
  Forall2 (fun a b => exists w1 w2, access_point_sidecars te debug a w1 = (w2, Ok b)) l bss ->
  Forall2 (built debug) (concat (map mount_names l)) (concat bss) /\ Forall (fun ap => is_Some (identity ap)) l.
Proof.
  induction 1 as [|a b l bss (w1 & w2 & [H Hi]%access_point_ok) _ [IH IHi]]; [split; constructor|]. cbn.
  split; [by apply Forall2_app | by constructor].
Qed.

(** What building the sidecars needs and gives. *)
Definition leading_names (spec : CleanRoomSpecification) : list string :=
  map (fun _ => "code-launcher") (applications spec) ++ ["identity"]
    ++ when_some (spec_inbound spec) "ccr-proxy-ext-processor" ++ when_some (spec_outbound spec) "ccr-proxy-ext-processor"
    ++ ["ccr-proxy"; "ccr-proxy-ext-processor"].

Definition trailing_names (spec : CleanRoomSpecification) : list string :=
  concat (map mount_names (datasources spec ++ datasinks spec)) ++ ["otel-collector"; "ccr-governance"; "skr"; "ccr-secrets"].

Lemma leading_sidecars_ok spec cid debug w w' init ss : leading_sidecars te spec cid debug w = (w', Ok (init, ss)) ->
  built debug "ccr-init" init /\ Forall2 (built debug) (leading_names spec) ss /\
  Forall (fun a => exists w1 w2 s, get_code_launcher te a debug w1 = (w2, Ok s) /\ s ∈ ss) (applications spec).
Proof.
  unfold leading_sidecars.
  intros (w1 & apps & (bss & -> & Happs)%concat_M_ok & H)%M_bind_ok.
  apply M_bind_ok in H as (w2 & ident & Hid%built_plain & H).
  apply M_bind_ok in H as (w3 & [ni nss] & [Hi Hn]%network_sidecars_ok & H).
  apply M_bind_ok in H as (w4 & ? & _ & H). apply M_bind_ok in H as (w5 & ? & _ & H). apply M_bind_ok in H as (w6 & ? & _ & H).
  apply M_bind_ok in H as (w7 & gp & Hgp%built_plain & [= _ <- <-]). split_and!; [done | |].
  - unfold leading_names. apply Forall2_app; [by apply launchers_built|]. constructor; [done|]. cbn [snd].
    change ["ccr-proxy"; "ccr-proxy-ext-processor"] with (["ccr-proxy"] ++ ["ccr-proxy-ext-processor"]).
    rewrite !app_assoc. apply Forall2_app; [by rewrite <- app_assoc | by repeat constructor].
  - clear - Happs. induction Happs as [|a b l bss (wa & wb & H) _ IH]; [constructor|]. cbn.
    apply M_bind_ok in H as (w3 & s & H & [= _ <-]). constructor.
    + exists wa, w3, s. split; [done|]. set_solver.
    + eapply Forall_impl; [exact IH|]. intros x (wx & wy & s' & Hx & Hin). exists wx, wy, s'. split; [done|]. set_solver.
Qed.

Lemma trailing_sidecars_ok spec cid ep cert debug w w' ss : trailing_sidecars te spec cid ep cert debug w = (w', Ok ss) ->
  Forall2 (built debug) (trailing_names spec) ss /\
  Forall (fun ap => is_Some (identity ap)) (datasources spec ++ datasinks spec).
Proof.
  intros (w8 & mounts & (mss & -> & [Hm Hids]%mounts_built)%concat_M_ok & H)%M_bind_ok.
  apply M_bind_ok in H as (w9 & otel & Ho%built_plain & H). apply M_bind_ok in H as (w10 & gov & Hg%built_plain & H).
  apply M_bind_ok in H as (w11 & skr & Hs%built_plain & H). apply M_bind_ok in H as (w12 & sec & Hc%built_plain & [= _ <-]).
  split; [|done]. apply Forall2_app; [done | by repeat constructor].
Qed.


(** The images of the containers, in the order of the template. *)
Definition container_names (spec : CleanRoomSpecification) : list string := leading_names spec ++ trailing_names spec.

(** A template that was produced, taken apart. *)
Lemma deployment_template_ok spec cid ep cert mode w w' t :
  get_deployment_template te spec cid ep cert mode w = (w', Ok t) ->
  exists arm w1 init ss w2 w3 b i p,
    te_json_load te (template_folder te +:+ "aci-base-arm-template.json") w = (w1, Ok arm) /\
    arm_list "containers" arm = Ok (JArr b) /\ arm_list "initContainers" arm = Ok (JArr i) /\
    (exists lead trail, leading_sidecars te spec cid (bool_decide (mode = "cached-debug")) w1 = (w2, Ok (init, lead)) /\
       trailing_sidecars te spec cid ep cert (bool_decide (mode = "cached-debug")) w2 = (w3, Ok trail) /\ ss = lead ++ trail) /\
    arm_list "containers" (dt_arm_template t) = Ok (JArr (b ++ map template_json ss)) /\
    arm_list "initContainers" (dt_arm_template t) = Ok (JArr (i ++ [template_json init])) /\
    json_at [Key "containers"] (dt_policy_template t) = Ok (JArr (p ++ map policy_json (ss ++ [init]))) /\
    if bool_decide (mode = "allow-all") then (raw ← b64decode CLI_ALLOW_ALL_BASE64; utf8_decode raw) = Ok (dt_rego_policy t)
    else exists placeholder, rego_policy placeholder (map policy_rego (ss ++ [init])) = Ok (dt_rego_policy t).
Proof.
  unfold get_deployment_template. intros (w1 & arm & Harm & H)%M_bind_ok.
  apply M_bind_ok in H as (w2 & [init lead] & Hs & H). apply M_bind_ok in H as (w3 & arm' & [-> Ha]%lift_ok & H).
  apply M_bind_ok in H as (w3 & trail & Htr & H). cbn [fst snd] in *.
  apply M_bind_ok in H as (w4 & policy & _ & H). apply M_bind_ok in H as (w5 & docs & [-> Hd]%lift_ok & H).
  apply M_bind_ok in H as (w6 & [] & [-> _]%lift_ok & H). apply M_bind_ok in H as (w7 & docs' & [-> Hd']%lift_ok & H).
  apply M_bind_ok in H as (w8 & rego & Hr & [= _ <-]). cbn [fst snd] in *.
  assert (lead ++ trail <> []) as Hne.
  { apply leading_sidecars_ok in Hs as (_ & Hf & _) . intros [-> _]%app_nil. apply Forall2_length in Hf.
    unfold leading_names in Hf. rewrite !length_app in Hf. cbn in Hf. lia. }
  destruct (add_containers_ok _ _ _ Hd Hne) as (b & p & Hb & Hc & Hi0 & _ & Hp).
  destruct (add_container_ok "initContainers" "containers" _ _ _ ltac:(done) Hd') as ((i & Hi & Hi') & Hc' & (q & Hq & Hq')).
  rewrite Hq in Hp. injection Hp as ->. cbn [fst] in *.
  pose proof (addressed_lists _ _ _ _ "containers" ltac:(done) Ha) as E1.
  pose proof (addressed_lists _ _ _ _ "initContainers" ltac:(done) Ha) as E2.
  exists arm, w1, init, (lead ++ trail), w2, w3, b, i, p. split; [exact Harm|].
  split; [by rewrite <- E1|]. split; [by rewrite <- E2, <- Hi0|]. split; [by exists lead, trail|]. cbn [dt_arm_template dt_policy_template dt_rego_policy].
  split; [by rewrite Hc', Hc|]. split; [exact Hi'|]. split; [by rewrite Hq', (map_app policy_json (lead ++ trail)), <- app_assoc|].
  destruct (bool_decide (mode = "allow-all")); [by apply lift_ok in Hr as [_ Hr]|].
  apply M_bind_ok in Hr as (w9 & ph & _ & [_ Hr]%lift_ok). by exists ph.
Qed.


(** ** Applications *)

Lemma extend_command_command cmd ports s s' : extend_command cmd ports s = Ok s' ->
  (exists l, json_at [Key "properties"; Key "command"] (template_json s') = Ok (JArr (l ++ cmd))) /\
  (exists l, json_at [Key "properties"; Key "command"] (policy_json s') = Ok (JArr (l ++ cmd))).
Proof.
  intros (t & Ht & H)%res_bind_ok. apply res_bind_ok in H as (t2 & Ht2 & H). apply res_bind_ok in H as (p & Hp & H).
  apply res_bind_ok in H as (has & _ & H). apply res_bind_ok in H as (r & _ & [= <-]). cbn [template_json policy_json].
  apply json_extend_at in Ht as (l & _ & Hl). apply json_extend_at in Hp as (l' & _ & Hl'). split; [|eauto].
  exists l. rewrite <- Hl. destruct ports as [|x ports]; [by injection Ht2 as ->|].
  exact (json_modify_frame [Key "properties"] "ports" "command" [] [] _ ltac:(done) _ _ Ht2).
Qed.

(** The application's launcher is a container of the template and of the policy. *)
Lemma application_container spec cid ep cert mode w w' t a :
  get_deployment_template te spec cid ep cert mode w = (w', Ok t) -> a ∈ applications spec ->
  exists cs ps c p l l',
    arm_list "containers" (dt_arm_template t) = Ok (JArr cs) /\ c ∈ cs /\
    json_at [Key "containers"] (dt_policy_template t) = Ok (JArr ps) /\ p ∈ ps /\
    json_at [Key "properties"; Key "command"] c
      = Ok (JArr (l ++ [JStr "--application-base-64"; JStr (b64encode (utf8_encode (te_model_dump_json te a)))])) /\
    json_at [Key "properties"; Key "command"] p
      = Ok (JArr (l' ++ [JStr "--application-base-64"; JStr (b64encode (utf8_encode (te_model_dump_json te a)))])).
Proof.
  intros (arm & w1 & init & ss & w2 & w3 & b & i & q & _ & _ & _ & (lead & trail & Hs & _ & ->) & H1 & _ & H3 & _)%deployment_template_ok Ha.
  apply leading_sidecars_ok in Hs as (_ & _ & Hl).
  destruct (proj1 (Forall_forall _ _) Hl a Ha) as (wa & wb & s & Hg & Hin).
  apply code_launcher_ok in Hg as (vars & wc & s0 & _ & [(l & Hc) (l' & Hp)]%extend_command_command).
  assert (s ∈ lead ++ trail) as Hin' by (apply elem_of_app; by left).
  exists (b ++ map template_json (lead ++ trail)), (q ++ map policy_json ((lead ++ trail) ++ [init])), (template_json s), (policy_json s), l, l'.
  split; [exact H1|]. split; [apply elem_of_app; right; by apply list_elem_of_fmap_2|].
  split; [exact H3|]. split; [|done]. apply elem_of_app; right. apply list_elem_of_fmap_2.
  apply elem_of_app. by left.
Qed.

(** Every access point of a template has an identity. *)
Lemma access_points_identified spec cid ep cert mode w w' t ap :
  get_deployment_template te spec cid ep cert mode w = (w', Ok t) -> ap ∈ datasources spec ++ datasinks spec ->
  is_Some (identity ap).
Proof.
  intros (arm & w1 & init & ss & w2 & w3 & b & i & q & _ & _ & _ & (lead & trail & _ & Ht & _) & _)%deployment_template_ok Ha.
  apply trailing_sidecars_ok in Ht as [_ Hi]. exact (proj1 (Forall_forall _ _) Hi ap Ha).
Qed.
End Template.
