(* ===== verification/DeployWorld.v ===== *)
(** * From the configuration to the deployed containers

    What the deployment template makes of a specification the configuration
    commands produced, and what the code launcher makes of the template; with files
    held in memory and a registry of sidecar documents. *)

From S2P Require Import Prelude PyStr Base64 Json JsonFacts Template PyFloat SparkModels Settings Helpers CleanroomModels SpecModels AppBuilder AppBuilderProps SparkBuilder ConfigModels ConfigHelpers ConfigProps DeployTemplate DeployTemplateProps CodeLauncher.
From Stdlib Require Import Ascii.

(** ** The command line of the code launcher *)

Lemma urlsafe_char x : (if decide (b64_char x = "-"%char) then "+"%char
                        else if decide (b64_char x = "_"%char) then "/"%char else b64_char x) = b64_char x.
Proof. destruct x as [[] [] [] [] [] []]; vm_compute; reflexivity. Qed.

Lemma urlsafe_b64_roundtrip s : urlsafe_b64decode (b64encode s) = Ok s.
Proof.
  unfold urlsafe_b64decode. etransitivity; [|apply b64_roundtrip]. f_equal.
  induction s as [|a|a b|a b c s IH] using string_ind3; [done|..].
  - destruct a. cbn [b64encode str_map]. by rewrite !urlsafe_char.
  - destruct a, b. cbn [b64encode str_map]. by rewrite !urlsafe_char.
  - destruct a, b, c. cbn [b64encode str_map]. by rewrite !urlsafe_char, IH.
Qed.

Section Deploy.
Context {W : Type} (te : TemplateEnv W).

(** C13. The application reaches its launcher: every application of the
    specification has a container in the template, and one in the policy document,
    whose command ends with the option that carries the application; what the
    launcher reads from that option, when it checks its arguments and when it
    decodes the application, is the text the application was written as. *)
Theorem application_reaches_launcher (decode_application : string -> res CodeLauncher.Application)
    spec cid ep cert mode w w' t a x :
  get_deployment_template te spec cid ep cert mode w = (w', Ok t) -> a ∈ applications spec ->
  decode_application (te_model_dump_json te a) = Ok x ->
  is_ok (decode_application (utf8_encode (te_model_dump_json te a))) = true ->
  exists cs ps c p l l' encoded,
    arm_list "containers" (dt_arm_template t) = Ok (JArr cs) /\ c ∈ cs /\
    json_at [Key "containers"] (dt_policy_template t) = Ok (JArr ps) /\ p ∈ ps /\
    json_at [Key "properties"; Key "command"] c = Ok (JArr (l ++ [JStr "--application-base-64"; JStr encoded])) /\
    json_at [Key "properties"; Key "command"] p = Ok (JArr (l' ++ [JStr "--application-base-64"; JStr encoded])) /\
    validate_args decode_application (Some encoded) = Ok encoded /\
    (raw ← urlsafe_b64decode encoded; text ← utf8_decode raw; decode_application text) = Ok x.
Proof.
  intros Ht Ha Hx Hv. destruct (application_container _ _ _ _ _ _ _ _ _ _ Ht Ha)
    as (cs & ps & c & p & l & l' & H1 & H2 & H3 & H4 & H5 & H6).
  exists cs, ps, c, p, l, l', (b64encode (utf8_encode (te_model_dump_json te a))).
  do 6 (split; [assumption|]). unfold validate_args. rewrite urlsafe_b64_roundtrip. cbn [mbind res_bind].
  rewrite utf8_decode_encode. cbn [mbind res_bind]. split; [|done].
  by destruct (decode_application (utf8_encode (te_model_dump_json te a))).
Qed.

(** C37. A clean room with an S3 store can be configured but never deployed: when an
    S3 data store has been added as a data source or a data sink, no deployment
    template is produced of the specification in the file, whatever the
    environment, the contract and the mode. *)
Theorem s3_never_deploys {W2} (ce : ConfigEnv W2) `{!ConfigFiles ce} f n df i mode o v v' stores e :
  config_add_datastore ce f n df i mode o v = (v', Ok ()) ->
  holds ce (datastore_codec ce) v df stores ->
  snd <$> find_named de_name n (default [] (datastores stores)) = Some e -> storeType e = St_Aws_S3 ->
  exists spec, holds ce (spec_codec ce) v' f spec /\
    forall cid ep cert generate_mode w w' t, get_deployment_template te spec cid ep cert generate_mode w <> (w', Ok t).
Proof.
  intros H Hs He Ht.
  destruct (add_datastore_effect ce f n df i mode o v v' H)
    as (spec & e' & ap & _ & (stores' & Hs' & He') & Hnew & _ & _ & _ & _ & Hid & _).
  rewrite (holds_functional ce _ _ _ _ _ Hs' Hs) in He'. rewrite He' in He. injection He as ->.
  eexists. split; [exact Hnew|]. intros cid ep cert g w w' t Hd.
  destruct (access_points_identified te _ _ _ _ _ _ _ _ ap Hd) as [x Hx].
  - pose proof (upsert_elem ap_name ap (access_points mode spec)) as Hin.
    destruct mode; cbn [with_access_points datasources datasinks with_datasources with_datasinks];
      apply elem_of_app; [by left | by right].
  - by rewrite (proj2 Hid Ht) in Hx.
Qed.
End Deploy.

(** ** Configuration files in memory *)

Inductive MemDoc :=
  | MD_empty
  | MD_spec (s : CleanRoomSpecification)
  | MD_datastores (s : DataStoreSpecification)
  | MD_secretstores (s : SecretStoreSpecification)
  | MD_collaborations (s : CollaborationSpecification).

Definition mem_env : ConfigEnv (gmap string (option MemDoc)) := {|
  document := MemDoc;
  no_fields := MD_empty;
  load_yaml p w := (w, of_option (FileNotFoundError "No such file or directory") (w !! p));
  dump_yaml p d w := (<[p := Some d]> w, Ok ());
  config_exists p w := (w, Ok (bool_decide (is_Some (w !! p))));
  spec_codec := {| dump_model := MD_spec;
    parse_model d := match d with MD_spec s => Ok s | _ => Err (ValidationError "identities") end |};
  datastore_codec := {| dump_model := MD_datastores;
    parse_model d := match d with MD_datastores s => Ok s | MD_empty => Ok {| datastores := None |}
                     | _ => Err (ValidationError "datastores") end |};
  secretstore_codec := {| dump_model := MD_secretstores;
    parse_model d := match d with MD_secretstores s => Ok s | MD_empty => Ok {| secretstores := None |}
                     | _ => Err (ValidationError "secretstores") end |};
  collaboration_codec := {| dump_model := MD_collaborations;
    parse_model d := match d with MD_collaborations s => Ok s | _ => Err (ValidationError "collaborations") end |} |}.

#[export] Instance mem_files : ConfigFiles mem_env.
Proof.
  refine (@Build_ConfigFiles _ mem_env (fun w => w) _ _ _ _ _ _ _ _); try done.
  - intros p w d H. cbn in *. by rewrite H.
  - intros p w w' r H. cbn in *. by rewrite H.
Defined.

Definition room_application : SpecApplication := {|
  app_name := "train"; app_image := {| executable := {| documentType := "OCI"; authenticityReceipt := ""; doc_identity := None;
    doc_backingResource := store (demo_access_point "images" "client-1") |}; image_protection := None; enforcementPolicy := None |};
  app_startType := Start_Auto; app_command := ["python"]; app_environmentVariables := []; app_datasources := None;
  app_datasinks := None; runtimeSettings := {| rs_ports := [8080%Z]; rs_requests := {| req_cpu := of_int 1; req_memoryInGB := of_int 2 |} |} |}.

Definition room : CleanRoomSpecification := {|
  sandbox := None; identities := [demo_identity "client-1"]; datasources := []; datasinks := [];
  applications := [room_application]; network := None; spec_governance := None |}.

Definition room_store (n : string) (t : StoreType) (m : EncryptionMode) : DataStoreEntry := {|
  de_name := n; secretstore_config := None; secretstore_name := None; encryptionMode := Some m; storeType := t;
  de_storeProviderUrl := "https://acct.blob.core.windows.net"; storeProviderConfiguration := None; storeName := "c-" +:+ n;
  datasetSchema := None |}.

Definition room_files : gmap string (option MemDoc) :=
  <["room.yaml" := Some (MD_spec room)]> (<["stores.yaml" := Some (MD_datastores {| datastores := Some
    [room_store "orders" St_Azure_BlobStorage SSE; room_store "bucket" St_Aws_S3 SSE] |})]> ∅).

Definition no_options : AddOptions := {|
  o_secretstore_config_file := ""; o_dek_secret_store := ""; o_kek_secret_store := ""; o_kek_name := "";
  o_access_name := ""; o_subdirectory := "" |}.

Abbreviation add_store n :=
  (config_add_datastore mem_env "room.yaml" n "stores.yaml" "id" Source no_options room_files).


(** ** A registry of sidecars *)

Definition cli_doc (image : string) : json :=
  let c := JArr [JStr "/bin/launcher"] in
  JObj [("templateJson", JObj [("name", JStr image); ("properties", JObj [("image", JStr ("$containerRegistryUrl/" +:+ image +:+ "@$digest"));
                                ("command", c); ("ports", JArr [])])]);
        ("policy", JObj [("json", JObj [("name", JStr image); ("properties", JObj [("command", c)])]);
                         ("rego", JObj [("command", c)]); ("rego_debug", JObj [("command", c); ("debug", JBool true)])])].

Definition cli_entry (image : string) : json :=
  JObj [("image", JStr image); ("digest", JStr "sha256:d"); ("policyDocument", JStr image);
        ("policyDocumentDigest", JStr "sha256:p")].

Definition cli_images : list string :=
  ["code-launcher"; "identity"; "ccr-proxy"; "ccr-proxy-ext-processor"; "ccr-init"; "blobfuse-launcher"; "otel-collector";
   "ccr-governance"; "skr"; "ccr-secrets"; "policies/ccr-governance-opa-policy"].

Definition cli_documents : list (string * json) :=
  ("/ext/bin/mcr_microsoft_com_azurecleanroom_sidecar-digests_9_0_0/sidecar-digests.yaml", JArr (map cli_entry cli_images))
  :: map (fun i => ("/ext/bin/mcr_microsoft_com_azurecleanroom/" +:+ i +:+ ".yaml", cli_doc i)) cli_images.

Definition base_template : json :=
  JObj [("resources", JArr [JObj [("tags", JObj []);
          ("properties", JObj [("initContainers", JArr []); ("containers", JArr []); ("ipAddress", JObj []);
                               ("confidentialComputeProperties", JObj [("ccePolicy", JStr "")])])]])].

Definition sidecar_registry {W} : TemplateEnv W := {|
  te_files := {| temp_dir := "/tmp"; file_exists _ := mret true; make_dirs _ := mret (); oras_pull _ _ _ := mret ();
                 yaml_load f := lift (of_option (FileNotFoundError "No such file or directory") (dict_lookup f cli_documents));
                 read_text _ := mret "containers := [%s]" |};
  te_json_load f := mret (if str_contains "policy" f then JObj [("containers", JArr [])] else base_template);
  te_environ _ := None;
  te_module_dir := "/ext";
  te_version := "9.0.0";
  te_model_dump_json a := app_name a |}.

Definition cli_env : TemplateEnv () := sidecar_registry.

Definition orders_room : CleanRoomSpecification := with_datasources room [demo_access_point "orders" "client-1"].

Abbreviation deploy_orders := (get_deployment_template cli_env orders_room "contract" "https://ccf" "cert" "cached" ()).

Lemma deploy_orders_ok : is_ok deploy_orders.2 = true.
Proof. vm_compute. reflexivity. Qed.


Lemma application_reaches_launcher_witness : exists t c l encoded,
  deploy_orders = ((), Ok t) /\
  json_at [Key "properties"; Key "command"] c = Ok (JArr (l ++ [JStr "--application-base-64"; JStr encoded])) /\
  (raw ← urlsafe_b64decode encoded; utf8_decode raw) = Ok "train".
Proof.
  set (decode name := Ok {| CodeLauncher.a_name := name; CodeLauncher.a_executable := executable (app_image room_application);
    CodeLauncher.a_startType := CodeLauncher.Auto; CodeLauncher.a_command := []; CodeLauncher.a_environmentVariables := [];
    CodeLauncher.a_datasources := None; CodeLauncher.a_datasinks := None |}).
  destruct deploy_orders as [[] [t|e]] eqn:E; [|pose proof deploy_orders_ok as H; rewrite E in H; discriminate H].
  destruct (application_reaches_launcher cli_env decode _ _ _ _ _ _ _ _ room_application _ E ltac:(left) eq_refl eq_refl)
    as (cs & ps & c & p & l & l' & encoded & _ & _ & _ & _ & Hc & _ & _ & Hx).
  exists t, c, l, encoded. split; [reflexivity|]. split; [exact Hc|].
  destruct (urlsafe_b64decode encoded) as [raw|]; [|discriminate Hx]. cbn in Hx |- *.
  destruct (utf8_decode raw) as [text|]; [|discriminate Hx]. cbn in Hx. injection Hx as ->. reflexivity.
Defined.

Lemma s3_never_deploys_witness : exists w' spec, add_store "bucket" = (w', Ok ()) /\
  holds mem_env (spec_codec mem_env) w' "room.yaml" spec /\
  get_deployment_template cli_env spec "contract" "https://ccf" "cert" "cached" ()
    <> ((), Ok {| dt_arm_template := JNull; dt_policy_template := JNull; dt_rego_policy := "" |}).
Proof.
  destruct (add_store "bucket") as [w' r] eqn:E. assert (r = Ok ()) as ->.
  { change r with (w', r).2. rewrite <- E. vm_compute. reflexivity. }
  destruct (s3_never_deploys cli_env mem_env _ _ _ _ _ _ _ _
              {| datastores := Some [room_store "orders" St_Azure_BlobStorage SSE; room_store "bucket" St_Aws_S3 SSE] |}
              (room_store "bucket" St_Aws_S3 SSE) E) as (spec & Hs & H); [|reflexivity|reflexivity|].
  { eexists. split; [vm_compute; reflexivity | reflexivity]. }
  exists w', spec. split; [reflexivity|]. split; [exact Hs|]. apply H.
Defined.
