(* ===== verification/InitContainer.v ===== *)
(** * The init container of a clean room

    [src/src/init/iptables-rules]: [setup-iptables.py] and the template of the
    script it renders, [setup-iptables.sh.j2].  The Jinja library, the operating
    system and the shell are parameters. *)

From S2P Require Import Prelude PyStr Json AppBuilder.
From Stdlib Require Import Ascii.

(** ** Jinja templates

    The constructs the template uses.  A text carries the whitespace control of
    the tags around it: [before] when the tag in front of it ends with a minus
    sign, [after] when the tag behind it begins with one. *)

Inductive jnode :=
| JText (before : bool) (text : string) (after : bool)
| JVar (name : string)
| JField (name key : string)
| JFor (var items : string) (body : list jnode)
| JIf (name : string) (body : list jnode).

Definition stripped (before : bool) (s : string) (after : bool) : string :=
  let s := if before then lstrip s else s in
  if after then rstrip s else s.

(** ** The script *)

Definition nl : string := String (ascii_of_nat 10) "".
Definition dq : string := String (ascii_of_nat 34) "".

Inductive table := nat_table | filter_table.

Inductive proto := tcp | udp | other_proto.

#[export] Instance table_eq_dec : EqDecision table.
Proof. solve_decision. Defined.
#[export] Instance proto_eq_dec : EqDecision proto.
Proof. solve_decision. Defined.

(** An operand of a command: written out, or a variable of the script. *)
Inductive operand := Lit (s : string) | Ref (name : string).

Inductive cond :=
| Proto (p : proto)
| Dst (address : string)
| Dport (port : operand)
| OutIf (interface : string)
| Owner (uid gid : operand).

Inductive target := ACCEPT | DROP | RETURN | JUMP (chain : string) | REDIRECT (port : operand).

Inductive sh_line :=
| Sh (text : string)
| NewChain (t : table) (chain : string)
| Append (indent : string) (t : table) (chain : string) (conds : list cond) (tgt : target).

#[export] Instance operand_eq_dec : EqDecision operand.
Proof. solve_decision. Defined.
#[export] Instance cond_eq_dec : EqDecision cond.
Proof. solve_decision. Defined.
#[export] Instance target_eq_dec : EqDecision target.
Proof. solve_decision. Defined.
#[export] Instance sh_line_eq_dec : EqDecision sh_line.
Proof. solve_decision. Defined.

Definition table_text (t : table) : string := match t with nat_table => "nat" | filter_table => "filter" end.
Definition proto_text (p : proto) : string := match p with tcp => "tcp" | udp => "udp" | other_proto => "all" end.
Definition operand_text (o : operand) : string := match o with Lit s => s | Ref n => "${" +:+ n +:+ "}" end.

Definition cond_text (c : cond) : string :=
  match c with
  | Proto p => "-p " +:+ proto_text p
  | Dst a => "-d " +:+ a
  | Dport p => "--dport " +:+ operand_text p
  | OutIf i => "-o " +:+ i
  | Owner u g => "-m owner --uid-owner " +:+ operand_text u +:+ " -m owner --gid-owner " +:+ operand_text g
  end.

Definition target_text (t : target) : string :=
  match t with
  | ACCEPT => "ACCEPT" | DROP => "DROP" | RETURN => "RETURN" | JUMP c => c
  | REDIRECT p => "REDIRECT --to-port " +:+ operand_text p
  end.

Definition line_text (l : sh_line) : string :=
  match l with
  | Sh s => s
  | NewChain t c => "iptables -t " +:+ table_text t +:+ " -N " +:+ c
  | Append i t c conds tgt =>
      i +:+ "iptables -t " +:+ table_text t +:+ " -A " +:+ c +:+ " "
        +:+ join " " (map cond_text conds ++ ["-j " +:+ target_text tgt])
  end.

Definition owner : cond := Owner (Ref "PROXY_UID") (Ref "PROXY_GID").

(** The script up to the loop. *)
Definition script_head : list sh_line := [
  Sh "#!/bin/sh";
  Sh "";
  Sh "# Initialization script responsible for setting up port forwarding to the Envoy proxy";
  Sh "# and implementing a firewall to prevent bypassing the proxy.";
  Sh "";
  Sh "dump() {";
  Sh "  iptables-save";
  Sh "}";
  Sh "";
  Sh "trap dump EXIT";
  Sh "";
  Sh "IFS=,";
  Sh "";
  Sh "OUTBOUND_HTTP_CAPTURE_PORT=15002";
  Sh "INBOUND_HTTP_CAPTURE_PORT=15001";
  Sh "OUTBOUND_TCP_CAPTURE_PORT=15003";
  Sh "PROXY_UID=0";
  Sh "PROXY_GID=${PROXY_UID}";
  Sh "PROXY_HEALTH_PORT=15021";
  Sh "";
  Sh ("INBOUND_PORTS_EXCLUDE=" +:+ dq +:+ "${PROXY_HEALTH_PORT}" +:+ dq);
  Sh "";
  Sh "# Clear the iptables setup.";
  Sh "iptables -t nat -F";
  Sh "iptables -t nat -X";
  Sh "iptables -t filter -F";
  Sh "iptables -t filter -X";
  Sh "";
  Sh ("if [ " +:+ dq +:+ "${1:-}" +:+ dq +:+ " = " +:+ dq +:+ "clean" +:+ dq +:+ " ]; then");
  Sh ("  echo " +:+ dq +:+ "Only cleaning, no new rules added" +:+ dq);
  Sh "  exit 0";
  Sh "fi";
  Sh "";
  Sh "# Dump out variables for debugging purposes.";
  Sh ("echo " +:+ dq +:+ "Variables:" +:+ dq);
  Sh ("echo " +:+ dq +:+ "----------" +:+ dq);
  Sh ("echo " +:+ dq +:+ "INBOUND_HTTP_CAPTURE_PORT=${INBOUND_HTTP_CAPTURE_PORT}" +:+ dq);
  Sh ("echo " +:+ dq +:+ "OUTBOUND_HTTP_CAPTURE_PORT=${OUTBOUND_HTTP_CAPTURE_PORT}" +:+ dq);
  Sh ("echo " +:+ dq +:+ "OUTBOUND_TCP_CAPTURE_PORT=${OUTBOUND_TCP_CAPTURE_PORT}" +:+ dq);
  Sh ("echo " +:+ dq +:+ "PROXY_UID=${PROXY_UID}" +:+ dq);
  Sh ("echo " +:+ dq +:+ "PROXY_GID=${PROXY_GID}" +:+ dq);
  Sh ("echo " +:+ dq +:+ "PROXY_HEALTH_PORT=${PROXY_HEALTH_PORT}" +:+ dq);
  Sh ("echo " +:+ dq +:+ "INBOUND_PORTS_EXCLUDE=${INBOUND_PORTS_EXCLUDE}" +:+ dq);
  Sh "echo";
  Sh "";
  Sh "set -o errexit";
  Sh "set -o nounset";
  Sh "set -o pipefail";
  Sh "set -x # echo on";
  Sh "";
  Sh "# New chain to redirect TCP connections originating from the sandboxed business logic";
  Sh "# container to the Envoy proxy listening on OUTBOUND_CAPTURE_PORT.";
  NewChain nat_table "PROXY_OUT_REDIRECT";
  Sh "# Redirect traffic to the whitelisted endpoints to the respective outbound listener ports."].

(** Between the loop and the rules for DNS. *)
Definition script_proxy : list sh_line := [
  Sh "";
  Sh "# Redirect all other TCP traffic to the default TCP listener.";
  Append "" nat_table "PROXY_OUT_REDIRECT" [Proto tcp] (REDIRECT (Ref "OUTBOUND_HTTP_CAPTURE_PORT"));
  Sh "";
  Sh "# New chain to redirect TCP connections to the sandboxed business logic container";
  Sh "# to the Envoy proxy listening on INBOUND_CAPTURE_PORT.";
  NewChain nat_table "PROXY_IN_REDIRECT";
  Append "" nat_table "PROXY_IN_REDIRECT" [Proto tcp] (REDIRECT (Ref "INBOUND_HTTP_CAPTURE_PORT"));
  Sh "";
  Sh "# New chain to handle incoming TCP connections.";
  NewChain nat_table "PROXY_INBOUND";
  Append "" nat_table "PREROUTING" [Proto tcp] (JUMP "PROXY_INBOUND");
  Sh "";
  Sh "# Connections to these ports need not be redirected to the Envoy proxy.";
  Sh "# These ports are used to run health checks on the Envoy and OPA containers";
  Sh "# and we don't need to proxy them because they are trusted endpoints.";
  Sh ("if [ -n " +:+ dq +:+ "${INBOUND_PORTS_EXCLUDE}" +:+ dq +:+ " ]; then");
  Sh "  for port in ${INBOUND_PORTS_EXCLUDE}; do";
  Append "    " nat_table "PROXY_INBOUND" [Proto tcp; Dport (Ref "port")] RETURN;
  Sh "  done";
  Sh "fi";
  Sh "";
  Sh "# Redirect all other TCP traffic to the Envoy prxoy.";
  Append "" nat_table "PROXY_INBOUND" [Proto tcp] (JUMP "PROXY_IN_REDIRECT");
  Sh "";
  Sh "# New chain to redirect traffic connection originating from the sandboxed";
  Sh "# business logic container to the Envoy proxy port.";
  NewChain nat_table "PROXY_OUTPUT";
  Sh ""].

Definition dns_comment : string := "# Enable UDP + TCP traffic to the specified port for DNS resolution.".

Definition script_dns (port : string) : list sh_line := [
  Sh dns_comment;
  Append "" nat_table "OUTPUT" [Proto udp; Dport (Lit port)] ACCEPT;
  Append "" nat_table "OUTPUT" [Proto tcp; Dport (Lit port)] ACCEPT;
  Append "" filter_table "OUTPUT" [Proto udp; Dport (Lit port)] ACCEPT;
  Append "" filter_table "OUTPUT" [Proto tcp; Dport (Lit port)] ACCEPT].

(** The rest of the script. *)
Definition script_tail : list sh_line := [
  Sh "";
  Sh "# All other output TCP traffic is handled by the PROXY_OUTPUT chain.";
  Append "" nat_table "OUTPUT" [Proto tcp] (JUMP "PROXY_OUTPUT");
  Sh "";
  Sh "# Handle traffic created by the Envoy user.";
  Append "" nat_table "PROXY_OUTPUT" [owner] RETURN;
  Sh "";
  Sh "# Don't redirect traffic that has localhost as a destination.";
  Append "" nat_table "PROXY_OUTPUT" [Dst "127.0.0.1/32"] RETURN;
  Sh "";
  Sh "# Redirect all remaining traffic to Envoy.";
  Append "" nat_table "PROXY_OUTPUT" [] (JUMP "PROXY_OUT_REDIRECT");
  Sh "";
  Sh "# Restrict IPv6 traffic.";
  Sh "ip6tables -F || true";
  Sh "ip6tables -X || true";
  Sh "ip6tables -A INPUT -j REJECT || true";
  Sh "ip6tables -A OUTPUT -j REJECT || true";
  Sh "ip6tables -A FORWARD -j REJECT || true";
  Sh "";
  Sh "# Setup filter table rules to sandbox business logic container.";
  Sh "";
  Sh "# New chain for processing output.";
  NewChain filter_table "PROXY_OUTPUT";
  Sh "# Packets created by the proxy to any destination are accepted.";
  Append "" filter_table "OUTPUT" [owner] ACCEPT;
  Sh "# Redirect all TCP Packets to the PROXY_OUTPUT chain for processing.";
  Append "" filter_table "OUTPUT" [Proto tcp] (JUMP "PROXY_OUTPUT");
  Sh "# Drop all other packets.";
  Append "" filter_table "OUTPUT" [] DROP;
  Sh "";
  Sh "# TCP packets to localhost and to 127.0.0.6 (inbound cluster ip used by envoy) are accepted.";
  Append "" filter_table "PROXY_OUTPUT" [Proto tcp; Dst "127.0.0.6/32"; OutIf "lo"] ACCEPT;
  Append "" filter_table "PROXY_OUTPUT" [Proto tcp; Dst "127.0.0.1/32"; OutIf "lo"] ACCEPT;
  Sh "# Redirected output TCP packets that haven't had their interface updated. (Accept)";
  Append "" filter_table "PROXY_OUTPUT" [Proto tcp; Dst "127.0.0.1/32"; Dport (Ref "OUTBOUND_TCP_CAPTURE_PORT")] ACCEPT;
  Append "" filter_table "PROXY_OUTPUT" [Proto tcp; Dst "127.0.0.1/32"; Dport (Ref "OUTBOUND_HTTP_CAPTURE_PORT")] ACCEPT;
  Sh "# All other packets are dropped.";
  Append "" filter_table "PROXY_OUTPUT" [] DROP;
  Sh "";
  Sh "# No packets will be forwarded.";
  Append "" filter_table "FORWARD" [] DROP;
  Sh "";
  Sh ("echo " +:+ dq +:+ "options use-vc" +:+ dq +:+ " | tee -a /etc/resolv.conf")].

(** Lines, each with its end. *)
Definition block (ls : list sh_line) : string := foldr (fun l s => line_text l +:+ nl +:+ s) "" ls.

Definition script_text (ls : list sh_line) : string := join nl (map line_text ls).

(** [setup-iptables.sh.j2] *)
Definition setup_iptables_template : list jnode := [
  JText false (block script_head) false;
  JFor "item" "allowed_ips" [
    JText true (nl +:+ "iptables -t nat -A PROXY_OUT_REDIRECT -p tcp -d ") false;
    JField "item" "address";
    JText false " --dport " false;
    JField "item" "port";
    JText false (" -j REDIRECT --to-port ${OUTBOUND_TCP_CAPTURE_PORT}" +:+ nl) true];
  JText false (nl +:+ block script_proxy) false;
  JIf "enable_dns" [
    JText true (nl +:+ dns_comment +:+ nl +:+ "iptables -t nat -A OUTPUT -p udp --dport ") false;
    JVar "dns_port";
    JText false (" -j ACCEPT" +:+ nl +:+ "iptables -t nat -A OUTPUT -p tcp --dport ") false;
    JVar "dns_port";
    JText false (" -j ACCEPT" +:+ nl +:+ "iptables -t filter -A OUTPUT -p udp --dport ") false;
    JVar "dns_port";
    JText false (" -j ACCEPT" +:+ nl +:+ "iptables -t filter -A OUTPUT -p tcp --dport ") false;
    JVar "dns_port";
    JText false (" -j ACCEPT" +:+ nl) true];
  JText false (nl +:+ script_text script_tail) false].

(** ** The program *)

(** The arguments as parsed; [None] when an option is absent. *)
Record InitArgs := {
  clear_mount_paths : option (list string);
  create_directories : option (list string);
  allowed_ips : json;
  enable_dns : bool;
  init_dns_port : Z
}.

Definition default_InitArgs : InitArgs :=
  {| clear_mount_paths := None; create_directories := None; allowed_ips := JArr []; enable_dns := false;
     init_dns_port := 53 |}.

(** [argparse]'s error: a message on the standard error and exit status 2. *)
Definition usage_error {A} : res A := Err (OtherException "SystemExit: 2").

Definition is_option (s : string) : bool := String.prefix "-" s.

(** The values of an option with any number of them: up to the next option. *)
Fixpoint take_values (args : list string) : list string * list string :=
  match args with
  | a :: rest => if is_option a then ([], args) else let '(vs, rest') := take_values rest in (a :: vs, rest')
  | [] => ([], [])
  end.

(** [parse_args], of options written out in full with their values in separate
    arguments.  The parser knows no positional argument. *)
Fixpoint parse_init_args (fuel : nat) (args : list string) (a : InitArgs) : res InitArgs :=
  match fuel with
  | O => usage_error
  | S fuel' =>
      match args with
      | [] => Ok a
      | "--clear-mount-paths" :: rest =>
          let '(vs, rest') := take_values rest in
          parse_init_args fuel' rest'
            {| clear_mount_paths := Some vs; create_directories := create_directories a; allowed_ips := allowed_ips a;
               enable_dns := enable_dns a; init_dns_port := init_dns_port a |}
      | "--create-directories" :: rest =>
          let '(vs, rest') := take_values rest in
          parse_init_args fuel' rest'
            {| clear_mount_paths := clear_mount_paths a; create_directories := Some vs; allowed_ips := allowed_ips a;
               enable_dns := enable_dns a; init_dns_port := init_dns_port a |}
      | "--allowed-ips" :: v :: rest =>
          if is_option v then usage_error
          else match loads v with
               | Ok j => parse_init_args fuel' rest
                   {| clear_mount_paths := clear_mount_paths a; create_directories := create_directories a; allowed_ips := j;
                      enable_dns := enable_dns a; init_dns_port := init_dns_port a |}
               | Err _ => usage_error
               end
      | "--enable-dns" :: rest =>
          parse_init_args fuel' rest
            {| clear_mount_paths := clear_mount_paths a; create_directories := create_directories a;
               allowed_ips := allowed_ips a; enable_dns := true; init_dns_port := init_dns_port a |}
      | "--dns-port" :: v :: rest =>
          if is_option v then usage_error
          else match py_int v with
               | Ok p => parse_init_args fuel' rest
                   {| clear_mount_paths := clear_mount_paths a; create_directories := create_directories a;
                      allowed_ips := allowed_ips a; enable_dns := enable_dns a; init_dns_port := p |}
               | Err _ => usage_error
               end
      | _ => usage_error
      end
  end.

Definition parse_args (args : list string) : res InitArgs :=
  parse_init_args (S (length args)) args default_InitArgs.

(** [run_bash] answers the exit status of the script. *)
Record InitEnv (W : Type) := {
  render : list jnode -> list (string * json) -> res string;
  os_remove : string -> M W unit;
  os_makedirs : string -> M W unit;
  os_chmod : string -> Z -> M W unit;
  write_file : string -> string -> M W unit;
  run_bash : string -> M W Z
}.
Arguments render {W}.
Arguments os_remove {W}.
Arguments os_makedirs {W}.
Arguments os_chmod {W}.
Arguments write_file {W}.
Arguments run_bash {W}.

Section Init.
Context {W : Type} (env : InitEnv W).

Definition generate_config (template : list jnode) (output_path : string) (context : list (string * json)) : M W unit :=
  rendered_template ← lift (render env template context);
  write_file env output_path rendered_template.

Fixpoint for_each {A} (f : A -> M W unit) (l : list A) : M W unit :=
  match l with [] => mret () | a :: l' => _ ← f a; for_each f l' end.

(** [os.remove] of the path with a literal star. *)
Definition clear_mount_path (mount_path : string) : M W unit :=
  try_except (os_remove env (mount_path +:+ "/*"))
    (fun e => match e with FileNotFoundError _ => mret () | _ => raise e end).

(** A [FileExistsError] is an [OtherException] whose text names it. *)
Definition create_directory (directory : string) : M W unit :=
  try_except (_ ← os_makedirs env directory; os_chmod env directory 511)
    (fun e => match e with
              | OtherException t => if String.prefix "FileExistsError" t then mret () else raise e
              | _ => raise e
              end).

Definition iptables_context (a : InitArgs) : list (string * json) :=
  [("allowed_ips", allowed_ips a); ("enable_dns", JBool (enable_dns a)); ("dns_port", JInt (init_dns_port a))].

Definition iptables_config_file : string := "setup-iptables.sh".

Definition init_main (args : list string) : M W unit :=
  a ← lift (parse_args args);
  _ ← for_each clear_mount_path (default [] (clear_mount_paths a));
  _ ← for_each create_directory (default [] (create_directories a));
  _ ← generate_config setup_iptables_template iptables_config_file (iptables_context a);
  _ ← os_chmod env iptables_config_file 493;
  returncode ← run_bash env iptables_config_file;
  if (returncode =? 0)%Z then mret () else raise (OtherException "CalledProcessError").
End Init.
