(* ===== verification/Firewall.v ===== *)
(** * The network sandbox of a clean room

    What the init container's script is when it is rendered, what its rules do to
    the packets of the pod, and how the specification's network settings reach
    them.  The rules are read as [iptables] documents them: the chains of a table
    are walked in order, a jump into a chain comes back when the chain ends or
    returns, [REDIRECT] of a local packet changes its destination to the local
    host, and packets of the host pass the [nat] table before the [filter] table. *)

From S2P Require Import Prelude PyStr Json JsonFacts PyFloat SparkModels Settings Helpers CleanroomModels SpecModels AppBuilder DeployTemplate InitContainer.
From Stdlib Require Import Ascii Lia DecimalString.

(** ** Numbers as text *)

Lemma int_digits_acc d : forall acc,
  int_digits (NilEmpty.string_of_uint d) (Zpos acc) true = Some (Zpos (Pos.of_uint_acc d acc)).
Proof.
  induction d as [|d IH|d IH|d IH|d IH|d IH|d IH|d IH|d IH|d IH|d IH]; intros acc; [done|..];
    cbn [NilEmpty.string_of_uint int_digits Pos.of_uint_acc];
    match goal with |- context [is_digit ?c] => change (is_digit c) with true end; cbv iota; rewrite <- IH; f_equal;
    match goal with |- context [digit_val ?c] => let v := eval vm_compute in (digit_val c) in change (digit_val c) with v end; lia.
Qed.

Lemma int_digits_pos p : int_digits (NilEmpty.string_of_uint (Pos.to_uint p)) 0 false = Some (Zpos p).
Proof.
  pose proof (to_uint_lead p) as Hl. pose proof (DecimalPos.Unsigned.of_to p) as Hp.
  destruct (Pos.to_uint p) as [|d|d|d|d|d|d|d|d|d|d]; try done; cbn [Pos.of_uint] in Hp; injection Hp as <-;
    cbn [NilEmpty.string_of_uint int_digits];
    match goal with |- context [is_digit ?c] => change (is_digit c) with true end; cbv iota; rewrite <- int_digits_acc; f_equal.
Qed.

Lemma rstrip_id s : str_forall (fun c => negb (is_space c)) s = true -> rstrip s = s.
Proof.
  induction s as [|c s IH]; [done|]. cbn [str_forall rstrip]. intros [Hc Hs]%andb_true_iff. rewrite (IH Hs).
  destruct s; [|done]. by destruct (is_space c).
Qed.

Lemma strip_id s : str_forall (fun c => negb (is_space c)) s = true -> strip s = s.
Proof.
  intros Hs. unfold strip. enough (lstrip s = s) as -> by by apply rstrip_id.
  destruct s as [|c s]; [done|]. cbn in *. by destruct (is_space c).
Qed.

Lemma uint_no_space d : str_forall (fun c => negb (is_space c)) (NilEmpty.string_of_uint d) = true.
Proof. induction d; cbn [NilEmpty.string_of_uint str_forall]; done. Qed.

Lemma str_of_pos p : str_of_Z (Zpos p) = NilEmpty.string_of_uint (Pos.to_uint p).
Proof. apply string_of_uint_lead, to_uint_lead. Qed.

Lemma py_int_str_of_Z z : (0 <= z)%Z -> py_int (str_of_Z z) = Ok z.
Proof.
  intros Hz. destruct z as [|p|p]; [done| |lia]. unfold py_int. rewrite str_of_pos, strip_id by apply uint_no_space.
  pose proof (int_digits_pos p) as H. pose proof (to_uint_lead p) as Hl.
  destruct (Pos.to_uint p); try done; cbn [NilEmpty.string_of_uint] in *; by rewrite H.
Qed.

(** ** Rendering the script *)

Class JinjaLaws {W} (env : InitEnv W) := {
  render_nil c : render env [] c = Ok "";
  render_text b s a t c : render env (JText b s a :: t) c = (fun r => stripped b s a +:+ r) <$> render env t c;
  render_var x v t c : dict_lookup x c = Some v ->
    render env (JVar x :: t) c = (fun r => py_str v +:+ r) <$> render env t c;
  render_field x k d v t c : dict_lookup x c = Some (JObj d) -> dict_lookup k d = Some v ->
    render env (JField x k :: t) c = (fun r => py_str v +:+ r) <$> render env t c;
  render_for x l items body t c : dict_lookup l c = Some (JArr items) ->
    render env (JFor x l body :: t) c
    = (parts ← mapM_res (fun i => render env body (dict_set x i c)) items; (fun r => join "" parts +:+ r) <$> render env t c);
  render_if x v body t c : dict_lookup x c = Some v ->
    render env (JIf x body :: t) c
    = (s ← (if json_truthy v then render env body c else Ok ""); (fun r => s +:+ r) <$> render env t c)
}.

Definition endpoint : Type := string * Z.

Definition endpoint_json (e : endpoint) : json := JObj [("address", JStr e.1); ("port", JInt e.2)].

(** The rule of an endpoint. *)
Definition redirect (e : endpoint) : sh_line :=
  Append "" nat_table "PROXY_OUT_REDIRECT" [Proto tcp; Dst e.1; Dport (Lit (str_of_Z e.2))]
    (REDIRECT (Ref "OUTBOUND_TCP_CAPTURE_PORT")).

Definition dns_lines (dns : option Z) : list sh_line :=
  match dns with Some p => script_dns (str_of_Z p) | None => [Sh ""] end.

(** The script with the lines [loop] in the place of the loop. *)
Definition script_with (loop : list sh_line) (dns : option Z) : list sh_line :=
  script_head ++ loop ++ script_proxy ++ dns_lines dns ++ script_tail.

(** The script the template means: a rule per endpoint. *)
Definition script (endpoints : list endpoint) (dns : option Z) : list sh_line :=
  script_with (match endpoints with [] => [Sh ""] | _ => map redirect endpoints end) dns.

Definition joined (endpoints : list endpoint) : string := join "" (map (fun e => line_text (redirect e)) endpoints).

Definition init_context (endpoints : list endpoint) (dns : option Z) (port : Z) : list (string * json) :=
  [("allowed_ips", JArr (map endpoint_json endpoints)); ("enable_dns", JBool (bool_decide (is_Some dns)));
   ("dns_port", JInt (default port dns))].

Lemma script_text_cons l ms : ms <> [] -> script_text (l :: ms) = line_text l +:+ nl +:+ script_text ms.
Proof. destruct ms; [done|]. reflexivity. Qed.

Lemma block_app ls ms : ms <> [] -> block ls +:+ script_text ms = script_text (ls ++ ms).
Proof.
  intros Hm. induction ls as [|l ls IH]; [done|]. cbn [app].
  assert (ls ++ ms <> []) as Hne by (destruct ls, ms; done). rewrite (script_text_cons _ _ Hne), <- IH.
  change (block (l :: ls)) with (line_text l +:+ nl +:+ block ls). by rewrite !string_app_assoc.
Qed.

Section Rendering.
Context {W : Type} (env : InitEnv W) `{!JinjaLaws env}.

(** The body of the template's loop. *)
Definition loop_body : list jnode :=
  match setup_iptables_template with _ :: JFor _ _ body :: _ => body | _ => [] end.

Definition dns_body : list jnode :=
  match setup_iptables_template with _ :: _ :: _ :: JIf _ body :: _ => body | _ => [] end.

Lemma render_endpoint e c : render env loop_body (dict_set "item" (endpoint_json e) c) = Ok (line_text (redirect e)).
Proof.
  unfold loop_body. cbn [setup_iptables_template]. rewrite render_text.
  rewrite (render_field _ _ [("address", JStr e.1); ("port", JInt e.2)] (JStr e.1)) by (try apply dict_lookup_set_eq; done).
  rewrite render_text.
  rewrite (render_field _ _ [("address", JStr e.1); ("port", JInt e.2)] (JInt e.2)) by (try apply dict_lookup_set_eq; done).
  rewrite render_text, render_nil. reflexivity.
Qed.

Lemma render_endpoints es c :
  mapM_res (fun i => render env loop_body (dict_set "item" i c)) (map endpoint_json es)
  = Ok (map (fun e => line_text (redirect e)) es).
Proof. induction es as [|e es IH]; [done|]. cbn [map mapM_res]. rewrite render_endpoint, IH. done. Qed.

Lemma render_dns p c : dict_lookup "dns_port" c = Some (JInt p) ->
  render env dns_body c = Ok (script_text (script_dns (str_of_Z p))).
Proof.
  intros Hp. unfold dns_body. cbn [setup_iptables_template].
  rewrite !render_text, (render_var "dns_port" (JInt p)) by done.
  rewrite !render_text, (render_var "dns_port" (JInt p)) by done.
  rewrite !render_text, (render_var "dns_port" (JInt p)) by done.
  rewrite !render_text, (render_var "dns_port" (JInt p)) by done.
  rewrite render_text, render_nil. cbn [fmap res_fmap]. f_equal.
  unfold script_text, script_dns. cbn [map line_text app join cond_text target_text table_text proto_text operand_text py_str].
  rewrite !string_app_assoc. reflexivity.
Qed.

(** The rendered script: the rules of all endpoints are on one line. *)
Lemma rendered es dns port :
  render env setup_iptables_template (init_context es dns port) = Ok (script_text (script_with [Sh (joined es)] dns)).
Proof.
  change setup_iptables_template with
    [JText false (block script_head) false; JFor "item" "allowed_ips" loop_body;
     JText false (nl +:+ block script_proxy) false; JIf "enable_dns" dns_body;
     JText false (nl +:+ script_text script_tail) false].
  rewrite render_text, (render_for _ _ (map endpoint_json es)) by done. rewrite render_endpoints. cbn [mbind res_bind].
  rewrite render_text, (render_if _ (JBool (bool_decide (is_Some dns)))) by done.
  rewrite render_text, render_nil.
  assert (forall s, (if json_truthy (JBool (bool_decide (is_Some dns))) then render env dns_body (init_context es dns port) else Ok "")
    = Ok s -> script_text (dns_lines dns) = s) as Hdns.
  { intros s. destruct dns as [p|]; cbn [json_truthy dns_lines].
    - rewrite bool_decide_eq_true_2 by done. rewrite (render_dns p) by done. by intros [= <-].
    - rewrite bool_decide_eq_false_2 by (by intros []). by intros [= <-]. }
  destruct (if json_truthy _ then _ else _) as [s|e] eqn:E.
  2:{ destruct dns as [p|]; cbn [json_truthy] in E.
      - rewrite bool_decide_eq_true_2 in E by done. by rewrite (render_dns p) in E.
      - by rewrite bool_decide_eq_false_2 in E by (by intros []). }
  rewrite <- (Hdns s) by done. cbn [mbind res_bind fmap res_fmap stripped]. f_equal. unfold script_with, joined.
  rewrite <- block_app by done. f_equal. cbn [app]. rewrite script_text_cons by done. cbn [line_text]. f_equal.
  rewrite <- block_app by (destruct dns; done). rewrite !string_app_assoc. do 2 f_equal.
  assert (forall ls, ls <> [] -> script_text ls +:+ nl +:+ script_text script_tail = script_text (ls ++ script_tail)) as H.
  { clear. intros ls. induction ls as [|l ls IH]; [done|]. intros _. destruct ls as [|l2 ls]; [done|].
    cbn [app] in *. rewrite !(script_text_cons l) by done. rewrite <- IH by done. by rewrite !string_app_assoc. }
  rewrite string_app_nil_r. apply H. by destruct dns.
Qed.
End Rendering.

(** ** Packets and rules *)

Record packet := {
  pk_proto : proto;
  pk_dst : string;
  pk_dport : Z;
  pk_oif : string;
  pk_uid : Z;
  pk_gid : Z
}.

Inductive verdict := Accepted | Dropped | Redirected (port : string) | Stuck.

(** The variables of the script where the rules are added; [port] runs over the
    one excluded port. *)
Definition shell_vars : list (string * string) :=
  [("OUTBOUND_HTTP_CAPTURE_PORT", "15002"); ("INBOUND_HTTP_CAPTURE_PORT", "15001"); ("OUTBOUND_TCP_CAPTURE_PORT", "15003");
   ("PROXY_UID", "0"); ("PROXY_GID", "0"); ("port", "15021")].

Definition operand_value (o : operand) : string :=
  match o with Lit s => s | Ref n => default "" (dict_lookup n shell_vars) end.

Definition is_number (s : string) (z : Z) : bool := bool_decide (py_int s = Ok z).

Definition rule : Type := list cond * target.

Definition rule_of (t : table) (chain : string) (l : sh_line) : option rule :=
  match l with
  | Append _ t' chain' conds tgt => if bool_decide (t = t' /\ chain = chain') then Some (conds, tgt) else None
  | _ => None
  end.

(** The rules of a chain, in the order they were appended. *)
Definition rules (t : table) (chain : string) (ls : list sh_line) : list rule := omap (rule_of t chain) ls.

Section Netfilter.
(** Whether an address is in a network written as an address with a mask. *)
Variable in_network : string -> string -> bool.

Definition cond_holds (p : packet) (c : cond) : bool :=
  match c with
  | Proto q => bool_decide (pk_proto p = q)
  | Dst a => in_network a (pk_dst p)
  | Dport o => is_number (operand_value o) (pk_dport p)
  | OutIf i => bool_decide (pk_oif p = i)
  | Owner u g => is_number (operand_value u) (pk_uid p) && is_number (operand_value g) (pk_gid p)
  end.

(** The verdict of a list of rules, [None] at its end or on return; [jump] walks
    another chain. *)
Fixpoint walk (jump : string -> option verdict) (p : packet) (rs : list rule) : option verdict :=
  match rs with
  | [] => None
  | (conds, tgt) :: rs' =>
      if forallb (cond_holds p) conds then
        match tgt with
        | ACCEPT => Some Accepted
        | DROP => Some Dropped
        | RETURN => None
        | REDIRECT o => Some (Redirected (operand_value o))
        | JUMP chain => match jump chain with Some v => Some v | None => walk jump p rs' end
        end
      else walk jump p rs'
  end.

(** A chain of a table; jumps are followed to the given depth. *)
Fixpoint chain_verdict (depth : nat) (t : table) (ls : list sh_line) (p : packet) (chain : string) : option verdict :=
  match depth with
  | O => Some Stuck
  | S depth' => walk (chain_verdict depth' t ls p) p (rules t chain ls)
  end.

Definition LOCALHOST : string := "127.0.0.1".

(** A packet of the host: through the [nat] table, then the [filter] table; the
    packet that leaves, if any. *)
Definition send (depth : nat) (ls : list sh_line) (p : packet) : option packet :=
  p' ← match chain_verdict depth nat_table ls p "OUTPUT" with
       | None | Some Accepted => Some p
       | Some (Redirected port) =>
           match py_int port with
           | Ok n => Some {| pk_proto := pk_proto p; pk_dst := LOCALHOST; pk_dport := n; pk_oif := pk_oif p;
                             pk_uid := pk_uid p; pk_gid := pk_gid p |}
           | Err _ => None
           end
       | Some _ => None
       end;
  match chain_verdict depth filter_table ls p' "OUTPUT" with
  | None | Some Accepted => Some p'
  | Some _ => None
  end.

(** ** The policy *)

Definition to_proxy (p : packet) (port : Z) : packet :=
  {| pk_proto := pk_proto p; pk_dst := LOCALHOST; pk_dport := port; pk_oif := pk_oif p;
     pk_uid := pk_uid p; pk_gid := pk_gid p |}.

Definition is_dns (dns : option Z) (p : packet) : bool :=
  match dns with
  | Some n => (bool_decide (pk_proto p = udp) || bool_decide (pk_proto p = tcp)) && (pk_dport p =? n)%Z
  | None => false
  end.

Definition is_allowed (endpoints : list endpoint) (p : packet) : bool :=
  existsb (fun e => in_network e.1 (pk_dst p) && (pk_dport p =? e.2)%Z) endpoints.

(** DNS traffic and the proxy's own pass; TCP to the local host passes on the
    loopback interface or to the proxy's ports; all other TCP goes to the proxy, to
    the listener for the allowed endpoints or to the one for HTTP; nothing else
    leaves. *)
Definition sandbox_policy (endpoints : list endpoint) (dns : option Z) (p : packet) : option packet :=
  if is_dns dns p then Some p
  else if (pk_uid p =? 0)%Z && (pk_gid p =? 0)%Z then Some p
  else if bool_decide (pk_proto p = tcp) then
    if bool_decide (pk_dst p = LOCALHOST) then
      if bool_decide (pk_oif p = "lo") || (pk_dport p =? 15002)%Z || (pk_dport p =? 15003)%Z then Some p else None
    else Some (to_proxy p (if is_allowed endpoints p then 15003 else 15002))
  else None.

(** ** The rules implement the policy *)

Hypothesis in_localhost : forall d, in_network "127.0.0.1/32" d = bool_decide (d = LOCALHOST).
Hypothesis in_envoy : forall d, in_network "127.0.0.6/32" d = bool_decide (d = "127.0.0.6").

Variables (es : list endpoint) (dns : option Z).
Hypothesis ports_natural : Forall (fun e => (0 <= e.2)%Z) es.
Hypothesis dns_natural : forall n, dns = Some n -> (0 <= n)%Z.

Lemma is_number_eq s n z : py_int s = Ok n -> is_number s z = (z =? n)%Z.
Proof.
  intros H. unfold is_number. rewrite H. destruct (z =? n)%Z eqn:E.
  - apply Z.eqb_eq in E as ->. by rewrite bool_decide_eq_true_2.
  - apply Z.eqb_neq in E. rewrite bool_decide_eq_false_2; [done|]. congruence.
Qed.

Lemma is_number_str n z : (0 <= n)%Z -> is_number (str_of_Z n) z = (z =? n)%Z.
Proof. intros H. by apply is_number_eq, py_int_str_of_Z. Qed.

Definition dns_rules (t : table) : list rule :=
  match dns with
  | Some n => [([Proto udp; Dport (Lit (str_of_Z n))], ACCEPT); ([Proto tcp; Dport (Lit (str_of_Z n))], ACCEPT)]
  | None => []
  end.

Definition redirect_rule (e : endpoint) : rule :=
  ([Proto tcp; Dst e.1; Dport (Lit (str_of_Z e.2))], REDIRECT (Ref "OUTBOUND_TCP_CAPTURE_PORT")).

Lemma loop_rules t chain : 
  rules t chain (match es with [] => [Sh ""] | _ => map redirect es end)
  = if bool_decide (t = nat_table /\ chain = "PROXY_OUT_REDIRECT") then map redirect_rule es else [].
Proof.
  transitivity (rules t chain (map redirect es)); [by destruct es|]. clear ports_natural.
  induction es as [|e l IH]; [by case_bool_decide|]. unfold rules in *. cbn [map omap list_omap rule_of redirect].
  case_bool_decide; cbn [map]; by rewrite IH.
Qed.

Lemma script_rules t chain : rules t chain (script es dns)
  = rules t chain script_head
    ++ (if bool_decide (t = nat_table /\ chain = "PROXY_OUT_REDIRECT") then map redirect_rule es else [])
    ++ rules t chain script_proxy ++ rules t chain (dns_lines dns) ++ rules t chain script_tail.
Proof. unfold script, script_with. rewrite <- loop_rules. unfold rules. by rewrite !omap_app. Qed.

Lemma dns_lines_rules t : rules t "OUTPUT" (dns_lines dns) = dns_rules t.
Proof. unfold dns_rules. destruct dns, t; reflexivity. Qed.

Lemma dns_lines_other t chain : chain <> "OUTPUT" -> rules t chain (dns_lines dns) = [].
Proof.
  intros Hc. unfold rules. destruct dns; cbn [dns_lines script_dns omap list_omap rule_of]; [|done].
  by rewrite !bool_decide_eq_false_2 by (by intros []).
Qed.

Lemma walk_dns t jump p rs : walk jump p (dns_rules t ++ rs) = if is_dns dns p then Some Accepted else walk jump p rs.
Proof.
  unfold dns_rules, is_dns. destruct dns as [n|]; [|done].
  cbn [app walk forallb cond_holds operand_value]. rewrite (is_number_str n) by by apply dns_natural.
  destruct (bool_decide (pk_proto p = udp)) eqn:E1, (bool_decide (pk_proto p = tcp)) eqn:E2, (pk_dport p =? n)%Z; done.
Qed.

Lemma walk_redirects jump p rs : pk_proto p = tcp ->
  walk jump p (map redirect_rule es ++ rs) = if is_allowed es p then Some (Redirected "15003") else walk jump p rs.
Proof.
  intros Hp. unfold is_allowed. induction ports_natural as [|e l He Hl IH]; [done|].
  cbn [map app walk redirect_rule forallb cond_holds operand_value existsb].
  rewrite bool_decide_eq_true_2 by done. rewrite (is_number_str e.2) by done.
  destruct (in_network e.1 (pk_dst p)), (pk_dport p =? e.2)%Z; cbn [andb orb]; [done | exact (IH Hl) ..].
Qed.

Definition from_proxy (p : packet) : bool := (pk_uid p =? 0)%Z && (pk_gid p =? 0)%Z.

Lemma owner_holds p : cond_holds p owner = from_proxy p.
Proof. cbn. by rewrite !(is_number_eq "0" 0) by done. Qed.

(** The chains of the script. *)
Lemma nat_output_rules : rules nat_table "OUTPUT" (script es dns) = dns_rules nat_table ++ [([Proto tcp], JUMP "PROXY_OUTPUT")].
Proof. rewrite script_rules, dns_lines_rules. reflexivity. Qed.

Lemma nat_proxy_output_rules : rules nat_table "PROXY_OUTPUT" (script es dns)
  = [([owner], RETURN); ([Dst "127.0.0.1/32"], RETURN); ([], JUMP "PROXY_OUT_REDIRECT")].
Proof. rewrite script_rules, dns_lines_other by done. reflexivity. Qed.

Lemma nat_redirect_rules : rules nat_table "PROXY_OUT_REDIRECT" (script es dns)
  = map redirect_rule es ++ [([Proto tcp], REDIRECT (Ref "OUTBOUND_HTTP_CAPTURE_PORT"))].
Proof. rewrite script_rules, dns_lines_other by done. reflexivity. Qed.

Lemma filter_output_rules : rules filter_table "OUTPUT" (script es dns)
  = dns_rules filter_table ++ [([owner], ACCEPT); ([Proto tcp], JUMP "PROXY_OUTPUT"); ([], DROP)].
Proof. rewrite script_rules, dns_lines_rules. reflexivity. Qed.

Lemma filter_proxy_output_rules : rules filter_table "PROXY_OUTPUT" (script es dns)
  = [([Proto tcp; Dst "127.0.0.6/32"; OutIf "lo"], ACCEPT); ([Proto tcp; Dst "127.0.0.1/32"; OutIf "lo"], ACCEPT);
     ([Proto tcp; Dst "127.0.0.1/32"; Dport (Ref "OUTBOUND_TCP_CAPTURE_PORT")], ACCEPT);
     ([Proto tcp; Dst "127.0.0.1/32"; Dport (Ref "OUTBOUND_HTTP_CAPTURE_PORT")], ACCEPT); ([], DROP)].
Proof. rewrite script_rules, dns_lines_other by done. reflexivity. Qed.

Lemma nat_verdict d p : chain_verdict (S (S (S d))) nat_table (script es dns) p "OUTPUT"
  = if is_dns dns p then Some Accepted
    else if bool_decide (pk_proto p = tcp) && negb (from_proxy p) && negb (bool_decide (pk_dst p = LOCALHOST))
    then Some (Redirected (if is_allowed es p then "15003" else "15002")) else None.
Proof.
  cbn [chain_verdict]. rewrite nat_output_rules, walk_dns. destruct (is_dns dns p); [done|].
  cbn [walk forallb]. change (cond_holds p (Proto tcp)) with (bool_decide (pk_proto p = tcp)).
  destruct (bool_decide (pk_proto p = tcp)) eqn:Ht; [|done]. apply bool_decide_eq_true in Ht. cbn [andb].
  rewrite nat_proxy_output_rules. cbn [walk forallb]. rewrite owner_holds. destruct (from_proxy p); [done|].
  cbn [andb negb]. change (cond_holds p (Dst "127.0.0.1/32")) with (in_network "127.0.0.1/32" (pk_dst p)).
  rewrite in_localhost. destruct (bool_decide (pk_dst p = LOCALHOST)); [done|]. cbn [andb negb].
  rewrite nat_redirect_rules, walk_redirects by done. destruct (is_allowed es p); [done|].
  cbn [walk forallb cond_holds]. by rewrite bool_decide_eq_true_2.
Qed.

Lemma filter_verdict d p : chain_verdict (S (S d)) filter_table (script es dns) p "OUTPUT"
  = if is_dns dns p || from_proxy p then Some Accepted
    else if bool_decide (pk_proto p = tcp)
      && (bool_decide (pk_dst p = "127.0.0.6") && bool_decide (pk_oif p = "lo")
          || bool_decide (pk_dst p = LOCALHOST)
             && (bool_decide (pk_oif p = "lo") || (pk_dport p =? 15003)%Z || (pk_dport p =? 15002)%Z))
    then Some Accepted else Some Dropped.
Proof.
  cbn [chain_verdict]. rewrite filter_output_rules, walk_dns. destruct (is_dns dns p); [done|].
  cbn [walk forallb orb]. rewrite owner_holds. destruct (from_proxy p); [done|]. cbn [andb].
  rewrite filter_proxy_output_rules. cbn [walk forallb cond_holds]. rewrite in_localhost, in_envoy.
  rewrite (is_number_eq _ 15003), (is_number_eq _ 15002) by done.
  destruct (bool_decide (pk_proto p = tcp)), (bool_decide (pk_dst p = "127.0.0.6")), (bool_decide (pk_dst p = LOCALHOST)),
    (bool_decide (pk_oif p = "lo")), (pk_dport p =? 15003)%Z, (pk_dport p =? 15002)%Z; reflexivity.
Qed.

(** What becomes of every packet of the pod. *)
Lemma send_policy d p : send (S (S (S d))) (script es dns) p = sandbox_policy es dns p.
Proof.
  unfold send. rewrite nat_verdict. unfold sandbox_policy. fold (from_proxy p).
  destruct (is_dns dns p) eqn:Ed; [cbn [mbind option_bind]; by rewrite filter_verdict, Ed|].
  destruct (from_proxy p) eqn:Ef; [rewrite andb_false_r; cbn [mbind option_bind andb]; by rewrite filter_verdict, Ef, orb_true_r|].
  destruct (bool_decide (pk_proto p = tcp)) eqn:Et; [|cbn [mbind option_bind andb]; by rewrite filter_verdict, Ed, Ef, Et].
  destruct (bool_decide (pk_dst p = LOCALHOST)) eqn:El; cbn [andb negb].
  - cbn [mbind option_bind]. rewrite filter_verdict, Ed, Ef, Et, El. apply bool_decide_eq_true in El. rewrite El.
    change (bool_decide (LOCALHOST = "127.0.0.6")) with false. cbn [orb andb].
    destruct (bool_decide (pk_oif p = "lo")), (pk_dport p =? 15003)%Z, (pk_dport p =? 15002)%Z; reflexivity.
  - set (port := if is_allowed es p then 15003%Z else 15002%Z).
    replace (py_int (if is_allowed es p then "15003" else "15002")) with (@Ok Z port) by (unfold port; by destruct (is_allowed es p)).
    cbn [mbind option_bind]. fold (to_proxy p port). rewrite filter_verdict.
    destruct (is_dns dns (to_proxy p port)); [done|]. change (from_proxy (to_proxy p port)) with (from_proxy p). rewrite Ef.
    change (pk_proto (to_proxy p port)) with (pk_proto p). rewrite Et. change (pk_dst (to_proxy p port)) with LOCALHOST.
    change (pk_dport (to_proxy p port)) with port. change (pk_oif (to_proxy p port)) with (pk_oif p).
    unfold port. by destruct (is_allowed es p), (bool_decide (pk_oif p = "lo")).
Qed.
End Netfilter.
