(* ===== verification/FirewallProps.v ===== *)
(** * The specification's network settings and the packets of the pod

    From the settings through the init container's command line and script to the
    packets; a renderer for the templates and the witnesses. *)

From S2P Require Import Prelude PyStr Json JsonFacts PyFloat SparkModels Settings Helpers CleanroomModels SpecModels AppBuilder AppBuilderProps DeployTemplate InitContainer Firewall.
From Stdlib Require Import Ascii Lia DecimalString.

(** ** Lines of a text *)

Definition is_nl (c : ascii) : bool := bool_decide (c = ascii_of_nat 10).
Definition no_nl (s : string) : bool := str_forall (fun c => negb (is_nl c)) s.

Lemma no_nl_app s t : no_nl s = true -> no_nl t = true -> no_nl (s +:+ t) = true.
Proof.
  unfold no_nl. induction s as [|c s IH]; [done|]. rewrite string_app_cons. cbn [str_forall].
  intros [-> Hs]%andb_true_iff Ht. by rewrite IH.
Qed.

Lemma no_nl_uint d : no_nl (NilEmpty.string_of_uint d) = true.
Proof. induction d; cbn [NilEmpty.string_of_uint no_nl str_forall]; done. Qed.

Lemma no_nl_Z z : no_nl (str_of_Z z) = true.
Proof.
  destruct z as [|p|p]; [done|rewrite str_of_pos; apply no_nl_uint|].
  unfold str_of_Z. cbn [Z.to_int NilZero.string_of_int]. rewrite (string_of_uint_lead _ (to_uint_lead p)).
  change (no_nl (String "-" (NilEmpty.string_of_uint (Pos.to_uint p))))
    with (no_nl (NilEmpty.string_of_uint (Pos.to_uint p))). apply no_nl_uint.
Qed.

Lemma split_on_app s t : no_nl s = true -> split_on (ascii_of_nat 10) (s +:+ nl +:+ t) = s :: split_on (ascii_of_nat 10) t.
Proof.
  induction s as [|c s IH]; intros Hs.
  - change ("" +:+ nl +:+ t) with (String (ascii_of_nat 10) t). cbn [split_on]. by rewrite decide_True.
  - unfold no_nl in Hs. cbn [str_forall] in Hs. apply andb_true_iff in Hs as [Hc Hs]. rewrite string_app_cons.
    cbn [split_on]. rewrite decide_False.
    + by rewrite (IH Hs).
    + intros ->. discriminate Hc.
Qed.

Lemma split_on_line s : no_nl s = true -> split_on (ascii_of_nat 10) s = [s].
Proof.
  induction s as [|c s IH]; [done|]. intros [Hc Hs]%andb_true_iff. cbn [split_on]. rewrite (IH Hs).
  rewrite decide_False; [done|]. intros ->. discriminate Hc.
Qed.

(** The lines of a script's text are its lines. *)
Lemma script_text_lines ls : ls <> [] -> Forall (fun l => no_nl (line_text l) = true) ls ->
  split_on (ascii_of_nat 10) (script_text ls) = map line_text ls.
Proof.
  induction ls as [|l ls IH]; [done|]. intros _ [Hl Hls]%Forall_cons_1. destruct ls as [|l2 ls].
  - by apply split_on_line.
  - rewrite script_text_cons by done. by rewrite split_on_app, IH.
Qed.

(** ** Lost endpoints *)

Definition redirect_prefix : string := "iptables -t nat -A PROXY_OUT_REDIRECT -p tcp -d ".

Lemma redirect_text e : line_text (redirect e)
  = redirect_prefix +:+ e.1 +:+ " --dport " +:+ str_of_Z e.2 +:+ " -j REDIRECT --to-port ${OUTBOUND_TCP_CAPTURE_PORT}".
Proof. unfold redirect. cbn [line_text map app join cond_text operand_text proto_text target_text table_text]. by rewrite !string_app_assoc. Qed.

Lemma redirect_no_nl e : no_nl e.1 = true -> no_nl (line_text (redirect e)) = true.
Proof. intros He. rewrite redirect_text. repeat apply no_nl_app; try done. apply no_nl_Z. Qed.

Lemma redirect_prefix_app p s : String.prefix p (p +:+ s) = true.
Proof. induction p as [|c p IH]; [by destruct s|]. rewrite string_app_cons. cbn [String.prefix]. by destruct (ascii_dec c c). Qed.

(** The lines that do not depend on the endpoints. *)
Definition static_lines (dns : option Z) : list sh_line := script_head ++ script_proxy ++ dns_lines dns ++ script_tail.

Lemma script_with_elem l loop dns : l ∈ script_with loop dns <-> l ∈ loop \/ l ∈ static_lines dns.
Proof. unfold script_with, static_lines. rewrite !elem_of_app. tauto. Qed.

Definition not_a_redirect (l : sh_line) : bool := negb (String.prefix redirect_prefix (line_text l)).

Lemma static_not_redirect dns : forallb not_a_redirect (static_lines dns) = true.
Proof. unfold static_lines. rewrite !forallb_app. destruct dns; vm_compute; reflexivity. Qed.

Lemma static_no_nl dns : forallb (fun l => no_nl (line_text l)) (static_lines dns) = true.
Proof.
  unfold static_lines. rewrite !forallb_app. replace (forallb _ (dns_lines dns)) with true; [vm_compute; reflexivity|].
  destruct dns as [n|]; [|done]. cbn [dns_lines script_dns forallb line_text map app join cond_text operand_text proto_text target_text table_text].
  symmetry. rewrite !andb_true_iff. split_and!; try done; rewrite ?string_app_assoc; repeat apply no_nl_app; try done; apply no_nl_Z.
Qed.

Lemma join_empty (l : list string) : join "" l = foldr String.append "" l.
Proof. induction l as [|x [|y l] IH]; [done | cbn; by rewrite string_app_nil_r|]. cbn [join foldr] in *. by rewrite IH. Qed.

Lemma joined_cons e es : joined (e :: es) = line_text (redirect e) +:+ joined es.
Proof. unfold joined. by rewrite !join_empty. Qed.

Lemma joined_length es e : e ∈ es -> String.length (line_text (redirect e)) <= String.length (joined es) /\
  (2 <= length es -> String.length (line_text (redirect e)) < String.length (joined es)).
Proof.
  assert (forall x, 0 < String.length (line_text (redirect x))) as Hpos.
  { intros x. rewrite redirect_text, string_length_app. assert (0 < String.length redirect_prefix) by (vm_compute; lia). lia. }
  induction es as [|x es IH]; [by intros ?%not_elem_of_nil|]. intros Hin. rewrite joined_cons, string_length_app.
  apply elem_of_cons in Hin as [->|Hin].
  - split; [lia|]. intros Hl. destruct es as [|y es]; [cbn in Hl; lia|]. rewrite joined_cons, string_length_app.
    pose proof (Hpos y). lia.
  - pose proof (Hpos x). destruct (IH Hin) as [H1 _]. lia.
Qed.

Section Lost.
Context {W : Type} (env : InitEnv W) `{!JinjaLaws env}.

(** C35. With two or more allowed endpoints the script has no rule for any of them:
    the template drops the line breaks of its loop, so that the rules share one
    line, and no line of the rendered script is the rule of an endpoint. *)
Theorem endpoints_lost es dns port :
  2 <= length es -> Forall (fun e => no_nl e.1 = true) es ->
  exists text, render env setup_iptables_template (init_context es dns port) = Ok text /\
    joined es ∈ split_on (ascii_of_nat 10) text /\
    Forall (fun e => line_text (redirect e) ∉ split_on (ascii_of_nat 10) text) es.
Proof.
  intros Hl Hes. eexists. split; [apply (rendered env)|].
  assert (no_nl (joined es) = true) as Hj.
  { clear Hl. induction Hes as [|e es He Hes IH]; [done|]. rewrite joined_cons. by apply no_nl_app; [apply redirect_no_nl|]. }
  pose proof (proj1 (forallb_forall _ _) (static_no_nl dns)) as Hnl.
  pose proof (proj1 (forallb_forall _ _) (static_not_redirect dns)) as Hnr.
  rewrite script_text_lines; [|done|].
  2:{ apply Forall_forall. intros l [->%list_elem_of_singleton|Hin]%script_with_elem; [exact Hj|].
      by apply Hnl, list_elem_of_In. }
  split.
  { apply list_elem_of_fmap. exists (Sh (joined es)). split; [done|]. apply script_with_elem. left. by apply list_elem_of_singleton. }
  apply Forall_forall. intros e He (l & Htext & [->%list_elem_of_singleton|Hin]%script_with_elem)%list_elem_of_fmap.
  - destruct (joined_length es e He) as [_ H]. cbn [line_text] in Htext. rewrite Htext in H. specialize (H Hl). lia.
  - assert (not_a_redirect l = true) as Hn by (by apply Hnr, list_elem_of_In).
    unfold not_a_redirect in Hn. rewrite <- Htext, redirect_text, redirect_prefix_app in Hn. discriminate Hn.
Qed.
End Lost.

(** ** From the specification to the packets *)

Definition spec_endpoints (spec : CleanRoomSpecification) : list endpoint :=
  match spec_tcp spec ≫= tcp_outbound with
  | Some o => map (fun e => (ne_address e, ne_port e)) (allowedIPs o)
  | None => []
  end.

Definition spec_dns (spec : CleanRoomSpecification) : option Z := dns_port <$> (network spec ≫= net_dns).

Definition endpoint_args (es : list endpoint) : list string :=
  match es with [] => [] | _ => ["--allowed-ips"; dumps (JArr (map endpoint_json es))] end.

Definition dns_args (dns : option Z) : list string :=
  match dns with Some p => ["--enable-dns"; "--dns-port"; str_of_Z p] | None => [] end.

Lemma ccr_init_cmd_args spec cmd : ccr_init_cmd spec = Ok cmd ->
  cmd = map JStr (dns_args (spec_dns spec) ++ endpoint_args (spec_endpoints spec)).
Proof.
  unfold ccr_init_cmd, spec_endpoints, spec_dns. intros (ips & Hips & [= <-])%res_bind_ok. rewrite map_app. f_equal.
  - by destruct (network spec ≫= net_dns).
  - destruct (spec_tcp spec) as [t|]; [|injection Hips as <-; done].
    apply res_bind_ok in Hips as (o & Ho%of_option_ok & [= <-]). cbn. rewrite Ho. cbn.
    replace (map allowed_ip (allowedIPs o)) with (map endpoint_json (map (fun e => (ne_address e, ne_port e)) (allowedIPs o)))
      by apply map_map. by destruct (allowedIPs o).
Qed.

Lemma str_of_Z_not_option z : (0 <= z)%Z -> is_option (str_of_Z z) = false.
Proof.
  intros Hz. destruct z as [|p|p]; [done| |lia]. rewrite str_of_pos. pose proof (to_uint_lead p) as Hl.
  by destruct (Pos.to_uint p).
Qed.

Lemma endpoints_wf es : json_wf (JArr (map endpoint_json es)) = true.
Proof. cbn. induction es as [|e es IH]; [done|]. cbn in *. by rewrite IH. Qed.

Definition network_args (es : list endpoint) (dns : option Z) : InitArgs :=
  {| clear_mount_paths := None; create_directories := None; allowed_ips := JArr (map endpoint_json es);
     enable_dns := bool_decide (is_Some dns); init_dns_port := default 53%Z dns |}.

Lemma parse_endpoint_args n es a : length (endpoint_args es) < n -> allowed_ips a = JArr [] ->
  parse_init_args n (endpoint_args es) a
  = Ok {| clear_mount_paths := clear_mount_paths a; create_directories := create_directories a;
          allowed_ips := JArr (map endpoint_json es); enable_dns := enable_dns a; init_dns_port := init_dns_port a |}.
Proof.
  intros Hn Ha. destruct n as [|n]; [lia|]. destruct es as [|e es]; [destruct a; cbn in *; by subst|].
  set (j := JArr (map endpoint_json (e :: es))). cbn [endpoint_args]. fold j.
  cbn [parse_init_args]. change (is_option (dumps j)) with false. cbv iota. unfold j at 1.
  rewrite (loads_dumps _ (endpoints_wf (e :: es))). destruct n as [|n]; [cbn in Hn; lia|]. done.
Qed.

Lemma parse_dns_args n p rest a : (0 <= p)%Z ->
  parse_init_args (S (S n)) (dns_args (Some p) ++ rest) a
  = parse_init_args n rest
      {| clear_mount_paths := clear_mount_paths a; create_directories := create_directories a;
         allowed_ips := allowed_ips a; enable_dns := true; init_dns_port := p |}.
Proof. intros Hp. cbn [dns_args app parse_init_args]. by rewrite (str_of_Z_not_option p), (py_int_str_of_Z p). Qed.

Lemma parse_network_args es dns : (forall p, dns = Some p -> (0 <= p)%Z) ->
  parse_args (dns_args dns ++ endpoint_args es) = Ok (network_args es dns).
Proof.
  intros Hd. unfold parse_args. destruct dns as [p|].
  - change (S (length (dns_args (Some p) ++ endpoint_args es))) with (S (S (S (S (length (endpoint_args es)))))).
    rewrite (parse_dns_args (S (S (length (endpoint_args es))))) by by apply Hd.
    rewrite parse_endpoint_args by (try done; lia). reflexivity.
  - cbn [dns_args app]. rewrite parse_endpoint_args by (cbn; try done; lia). reflexivity.
Qed.

Section Enforced.
Context {W : Type} (env : InitEnv W) `{!JinjaLaws env}.
Context (in_network : string -> string -> bool).

(** C15. The network settings of the specification are what the pod's packets meet,
    when at most one endpoint is allowed: the init container reads the arguments the
    deployment template gives it, renders the script whose rules send every packet
    the way the sandbox allows (DNS to its port if enabled, the proxy's own traffic,
    the local host, and all other TCP to the proxy, marked when the endpoint is
    allowed), and drop everything else. *)
Theorem network_enforced spec cmd :
  (forall d, in_network "127.0.0.1/32" d = bool_decide (d = LOCALHOST)) ->
  (forall d, in_network "127.0.0.6/32" d = bool_decide (d = "127.0.0.6")) ->
  ccr_init_cmd spec = Ok cmd ->
  length (spec_endpoints spec) <= 1 ->
  Forall (fun e => (0 <= e.2)%Z) (spec_endpoints spec) -> (forall p, spec_dns spec = Some p -> (0 <= p)%Z) ->
  exists args a, cmd = map JStr args /\ parse_args args = Ok a /\
    render env setup_iptables_template (iptables_context a)
      = Ok (script_text (script (spec_endpoints spec) (spec_dns spec))) /\
    forall depth p, 3 <= depth ->
      send in_network depth (script (spec_endpoints spec) (spec_dns spec)) p
      = sandbox_policy in_network (spec_endpoints spec) (spec_dns spec) p.
Proof.
  intros Hl He Hcmd Hlen Hports Hdns.
  exists (dns_args (spec_dns spec) ++ endpoint_args (spec_endpoints spec)), (network_args (spec_endpoints spec) (spec_dns spec)).
  split; [by apply ccr_init_cmd_args|]. split; [by apply parse_network_args|]. split.
  - change (iptables_context (network_args (spec_endpoints spec) (spec_dns spec)))
      with (init_context (spec_endpoints spec) (spec_dns spec) 53).
    rewrite (rendered env). f_equal. unfold script.
    destruct (spec_endpoints spec) as [|e [|e2 es]]; [done | | cbn in Hlen; lia]. reflexivity.
  - intros depth p Hd. destruct depth as [|[|[|d]]]; try lia. by apply send_policy.
Qed.
End Enforced.

(** ** A renderer *)

Definition seq_nodes (f : list (string * json) -> jnode -> res string) (c : list (string * json)) :=
  fix go (ns : list jnode) : res string :=
    match ns with [] => Ok "" | n :: ns' => s ← f c n; (fun r => s +:+ r) <$> go ns' end.

Fixpoint render_node (c : list (string * json)) (n : jnode) : res string :=
  match n with
  | JText b s a => Ok (stripped b s a)
  | JVar x => v ← of_option (OtherException "UndefinedError") (dict_lookup x c); Ok (py_str v)
  | JField x k => v ← of_option (OtherException "UndefinedError") (dict_lookup x c); w ← json_item v k; Ok (py_str w)
  | JFor x l body =>
      v ← of_option (OtherException "UndefinedError") (dict_lookup l c);
      items ← json_items v;
      parts ← mapM_res (fun i => seq_nodes render_node (dict_set x i c) body) items;
      Ok (join "" parts)
  | JIf x body =>
      v ← of_option (OtherException "UndefinedError") (dict_lookup x c);
      if json_truthy v then seq_nodes render_node c body else Ok ""
  end.

Definition render_nodes (c : list (string * json)) (ns : list jnode) : res string := seq_nodes render_node c ns.

(** The files written and the exit status of the script. *)
Definition init_env : InitEnv (list (string * string)) := {|
  render ns c := render_nodes c ns;
  os_remove _ := raise (FileNotFoundError "No such file or directory");
  os_makedirs _ := mret ();
  os_chmod _ _ := mret ();
  write_file p t w := (dict_set p t w, Ok ());
  run_bash _ := mret 0%Z |}.

#[export] Instance init_env_laws : JinjaLaws init_env.
Proof.
  split; cbn [render init_env]; intros; try done.
  - cbn. by rewrite H.
  - cbn. rewrite H. cbn. by rewrite H0.
  - cbn [render_nodes seq_nodes render_node]. rewrite H. cbn. unfold render_nodes. by destruct (mapM_res _ items).
  - cbn [render_nodes seq_nodes render_node]. by rewrite H.
Qed.

(** ** Witnesses *)

Definition in_network_32 (net d : string) : bool := bool_decide (hd "" (split_on "/" net) = d).

Definition network_room : CleanRoomSpecification := {|
  sandbox := None; identities := []; datasources := []; datasinks := []; applications := [];
  network := Some {| net_http := None;
    net_tcp := Some {| tcp_outbound := Some {| tcp_out_enabled := true; allowedIPs := [{| ne_address := "10.0.0.7"; ne_port := 5432 |}] |} |};
    net_dns := Some {| dns_enabled := true; dns_port := 53 |} |};
  spec_governance := None |}.

Definition sql_packet : packet :=
  {| pk_proto := tcp; pk_dst := "10.0.0.7"; pk_dport := 5432; pk_oif := "eth0"; pk_uid := 1000; pk_gid := 1000 |}.
Definition udp_packet : packet :=
  {| pk_proto := udp; pk_dst := "10.0.0.7"; pk_dport := 123; pk_oif := "eth0"; pk_uid := 1000; pk_gid := 1000 |}.

Lemma network_enforced_witness : exists args a, parse_args args = Ok a /\
  render init_env setup_iptables_template (iptables_context a) = Ok (script_text (script [("10.0.0.7", 5432%Z)] (Some 53%Z))) /\
  send in_network_32 3 (script [("10.0.0.7", 5432%Z)] (Some 53%Z)) sql_packet = Some (to_proxy sql_packet 15003) /\
  send in_network_32 3 (script [("10.0.0.7", 5432%Z)] (Some 53%Z)) udp_packet = None.
Proof.
  destruct (network_enforced init_env in_network_32 network_room
    (map JStr (dns_args (Some 53%Z) ++ endpoint_args [("10.0.0.7", 5432%Z)]))) as (args & a & _ & Ha & Hr & Hs).
  - intros d. change (in_network_32 "127.0.0.1/32" d) with (bool_decide ("127.0.0.1" = d)).
    apply bool_decide_ext. split; intros E; symmetry; exact E.
  - intros d. change (in_network_32 "127.0.0.6/32" d) with (bool_decide ("127.0.0.6" = d)).
    apply bool_decide_ext. split; intros E; symmetry; exact E.
  - reflexivity.
  - cbn. lia.
  - apply Forall_singleton. vm_compute. discriminate.
  - intros p [= <-]. lia.
  - exists args, a. split; [exact Ha|]. split; [exact Hr|].
    split; rewrite (Hs 3 _ (le_n 3)); vm_compute; reflexivity.
Defined.

Lemma endpoints_lost_witness : exists text,
  render init_env setup_iptables_template (init_context [("10.0.0.7", 5432%Z); ("10.0.0.8", 443%Z)] None 53) = Ok text /\
  Forall (fun e => line_text (redirect e) ∉ split_on (ascii_of_nat 10) text) [("10.0.0.7", 5432%Z); ("10.0.0.8", 443%Z)].
Proof.
  destruct (endpoints_lost init_env [("10.0.0.7", 5432%Z); ("10.0.0.8", 443%Z)] None 53 ltac:(cbn; lia))
    as (text & H1 & _ & H2); [by repeat constructor|].
  exists text. split; [exact H1 | exact H2].
Defined.
