(* ===== verification/SidecarConfig.v ===== *)
(** * Configuration of the proxy and of the telemetry collector

    [src/src/proxy/render-config/render_config.py] and
    [src/src/otel-collector/otel-collector-launcher.py]: from arguments and the
    environment to the rendered configuration.  Rendering a template by its name,
    files and processes are parameters; so is pydantic's reading of a boolean. *)

From S2P Require Import Prelude PyStr Base64 Json JsonFacts Helpers AppBuilder InitContainer.

Record ConfigRenderer (W : Type) := {
  (** [env.get_template(template).render(context)] with templates of a folder *)
  render_file : string -> string -> list (string * json) -> M W string;
  cr_write : string -> string -> M W unit;
  cr_mkdir : string -> M W unit;
  (** the return code of a process *)
  cr_run : list string -> M W Z;
  cr_environ : string -> option string;
  (** [TypeAdapter(bool).validate_python] of a text *)
  validate_bool : string -> res bool
}.
Arguments render_file {W}.
Arguments cr_write {W}.
Arguments cr_mkdir {W}.
Arguments cr_run {W}.
Arguments cr_environ {W}.
Arguments validate_bool {W}.

(** ** The proxy *)

Record ProxyArgs := {
  allow_http_outbound_access : bool;
  allow_http_inbound_access : bool;
  allow_tcp_outbound_access : bool;
  pa_template_path : option string;
  pa_output_path : option string
}.

Section Renderer.
Context {W : Type} (cr : ConfigRenderer W).

(** An option of type [bool]: a given value counts as true unless it is empty. *)
Definition flag_value (given : option string) (variable : string) : res bool :=
  dflt ← validate_bool cr (default "False" (cr_environ cr variable));
  Ok (match given with Some s => str_truthy s | None => dflt end).

(** [parse_args] of the values given on the command line. *)
Definition proxy_args (http_out http_in tcp_out template_path output_path : option string) : res ProxyArgs :=
  o ← flag_value http_out "ALLOW_HTTP_OUTBOUND_ACCESS";
  i ← flag_value http_in "ALLOW_HTTP_INBOUND_ACCESS";
  t ← flag_value tcp_out "ALLOW_TCP_OUTBOUND_ACCESS";
  Ok {| allow_http_outbound_access := o; allow_http_inbound_access := i; allow_tcp_outbound_access := t;
        pa_template_path := template_path; pa_output_path := output_path |}.

Definition proxy_context (a : ProxyArgs) : list (string * json) :=
  [("allow_http_outbound_access", JBool (allow_http_outbound_access a));
   ("allow_http_inbound_access", JBool (allow_http_inbound_access a));
   ("allow_tcp_outbound_access", JBool (allow_tcp_outbound_access a))].

Definition proxy_generate_config (template_path template output_path : string) (context : list (string * json)) : M W unit :=
  rendered_template ← render_file cr template_path template context;
  cr_write cr output_path rendered_template.

(** [os.path.join] of a missing path. *)
Definition given_path (p : option string) : res string :=
  of_option (TypeError "expected str, bytes or os.PathLike object, not NoneType") p.

Definition proxy_main (a : ProxyArgs) : M W unit :=
  templates ← lift (given_path (pa_template_path a));
  output ← lift (given_path (pa_output_path a));
  _ ← proxy_generate_config (path_join templates "lds") "lds.template.yaml.jinja" (path_join output "lds.yaml") (proxy_context a);
  proxy_generate_config (path_join templates "cds") "cds.template.yaml.jinja" (path_join output "cds.yaml") (proxy_context a).

(** ** The collector *)

Record OtelConfig := {
  telemetry_path : string;
  prometheus_endpoint : string;
  loki_endpoint : string;
  tempo_endpoint : string;
  spark_metrics_endpoint : string;
  resource_attributes_base64 : string
}.

Definition env_or_empty (name : string) : string := default "" (cr_environ cr name).

Definition default_OtelConfig : OtelConfig := {|
  telemetry_path := env_or_empty "TELEMETRY_PATH"; prometheus_endpoint := env_or_empty "PROMETHEUS_ENDPOINT";
  loki_endpoint := env_or_empty "LOKI_ENDPOINT"; tempo_endpoint := env_or_empty "TEMPO_ENDPOINT";
  spark_metrics_endpoint := env_or_empty "SPARK_METRICS_ENDPOINT";
  resource_attributes_base64 := env_or_empty "RESOURCE_ATTRIBUTES" |}.

Definition otel_enabled (endpoint : string) : json := JBool (str_truthy endpoint).
Definition otel_insecure (endpoint : string) : json := JBool (String.prefix "http://" endpoint).

(** [{}] when there are none. *)
Definition resource_attributes (c : OtelConfig) : res json :=
  if str_truthy (resource_attributes_base64 c) then
    raw ← b64decode (resource_attributes_base64 c); text ← utf8_decode raw; loads text
  else Ok (JObj []).

(** [config.model_dump()], updated. *)
Definition otel_context (c : OtelConfig) : res (list (string * json)) :=
  attributes ← resource_attributes c;
  Ok [("telemetry_path", JStr (telemetry_path c)); ("prometheus_endpoint", JStr (prometheus_endpoint c));
      ("loki_endpoint", JStr (loki_endpoint c)); ("tempo_endpoint", JStr (tempo_endpoint c));
      ("spark_metrics_endpoint", JStr (spark_metrics_endpoint c));
      ("resource_attributes_base64", JStr (resource_attributes_base64 c));
      ("prometheus_insecure", otel_insecure (prometheus_endpoint c)); ("loki_insecure", otel_insecure (loki_endpoint c));
      ("tempo_insecure", otel_insecure (tempo_endpoint c)); ("prometheus_enabled", otel_enabled (prometheus_endpoint c));
      ("loki_enabled", otel_enabled (loki_endpoint c)); ("tempo_enabled", otel_enabled (tempo_endpoint c));
      ("file_exporters_enabled", otel_enabled (telemetry_path c));
      ("apache_spark_enabled", otel_enabled (spark_metrics_endpoint c));
      ("resource_processor_enabled", otel_enabled (resource_attributes_base64 c)); ("resource_attributes", attributes)].

(** How the launcher ends: with an exit status, or idle behind the collector. *)
Inductive OtelOutcome := Exit (status : Z) | Idle.

Definition generate_otel_config (script_dir out_dir : string) (c : OtelConfig) : M W unit :=
  context ← lift (otel_context c);
  rendered ← render_file cr script_dir "otel-config.yaml.j2" context;
  cr_write cr (out_dir +:+ "/config.yaml") rendered.

Definition start_collector (out_dir : string) (c : OtelConfig) : M W OtelOutcome :=
  _ ← (if str_truthy (telemetry_path c) then cr_mkdir cr (telemetry_path c) else mret ());
  returncode ← cr_run cr ["/usr/local/bin/otelcol-custom"; "--config"; out_dir +:+ "/config.yaml"];
  mret (if (returncode =? 0)%Z then Idle else Exit returncode).

Definition otel_main (script_dir out_dir : string) : M W OtelOutcome :=
  if negb (bool_decide (lower (default "false" (cr_environ cr "TELEMETRY_COLLECTION_ENABLED")) = "true")) then mret (Exit 1)
  else
    let config := default_OtelConfig in
    generated ← try_except (_ ← generate_otel_config script_dir out_dir config; mret true) (fun _ => mret false);
    if (generated : bool) then start_collector out_dir config else mret (Exit 1).

(** ** What is configured *)

(** A value on the command line enables access whatever it says. *)
Lemma flag_false_enables variable dflt : validate_bool cr (default "False" (cr_environ cr variable)) = Ok dflt ->
  flag_value (Some "False") variable = Ok true.
Proof. intros H. unfold flag_value. by rewrite H. Qed.

(** The collector is not run without a configuration. *)
Lemma otel_needs_config script_dir out_dir w w' :
  otel_main script_dir out_dir w = (w', Ok Idle) ->
  exists c context, c = default_OtelConfig /\ otel_context c = Ok context /\
    exists w1 text w2, render_file cr script_dir "otel-config.yaml.j2" context w1 = (w2, Ok text).
Proof.
  unfold otel_main. destruct (negb _); [done|]. intros (w1 & g & Hg & H)%M_bind_ok. destruct g; [|done].
  rewrite try_except_run in Hg. destruct (generate_otel_config script_dir out_dir default_OtelConfig w) as [w2 [u|e]] eqn:E;
    rewrite M_bind_run, E in Hg; [|done].
  apply M_bind_ok in E as (w3 & context & [-> Hc]%lift_ok & E). apply M_bind_ok in E as (w4 & text & Ht & _).
  exists default_OtelConfig, context. split_and!; eauto.
Qed.
End Renderer.
