(* ===== verification/JsonIndent.v ===== *)
(** * Indented JSON

    [json.dumps(j, indent=2)], which the command line writes its files with, and
    that reading such a text gives the value back: the parser skips the line
    breaks and the indentation. *)

From S2P Require Import Prelude PyStr Json JsonFacts.
From Stdlib Require Import Lia Ascii.

Definition newline : string := String (ascii_of_nat 10) "".

Fixpoint spaces (n : nat) : string := match n with O => "" | S n' => "  " +:+ spaces n' end.

Fixpoint dumps_indent (depth : nat) (j : json) : string :=
  match j with
  | JArr ((_ :: _) as l) =>
      "[" +:+ newline +:+ join ("," +:+ newline) (map (fun x => spaces (S depth) +:+ dumps_indent (S depth) x) l)
        +:+ newline +:+ spaces depth +:+ "]"
  | JObj ((_ :: _) as d) =>
      "{" +:+ newline +:+ join ("," +:+ newline)
        (map (fun kv => spaces (S depth) +:+ dumps (JStr kv.1) +:+ ": " +:+ dumps_indent (S depth) kv.2) d)
        +:+ newline +:+ spaces depth +:+ "}"
  | _ => dumps j
  end.

(** A text of a value, whatever its layout. *)
Definition text_of (j : json) (t : string) : Prop :=
  value_head t /\ forall n r, 2 * String.length t <= n -> num_end r = true -> parse_value n (t +:+ r) = Ok (j, r).

Definition member_text (k t : string) : string := quote k +:+ ": " +:+ t.

Lemma join_prefix {A} (f : A -> string) p sep x l :
  join sep (map (fun a => p +:+ f a) (x :: l)) = p +:+ join (sep +:+ p) (map f (x :: l)).
Proof.
  revert x. induction l as [|y l IH]; intros x; [done|].
  specialize (IH y). cbn [map] in IH |- *. by rewrite !join_cons, IH, !string_app_assoc.
Qed.

Lemma spaces_ws n : str_forall is_ws (spaces n) = true.
Proof. by induction n. Qed.

Lemma text_length j t : text_of j t -> 1 <= String.length t.
Proof. intros [H _]. destruct t; cbn in *; [done|lia]. Qed.

Section Layout.
Context (w w2 : string) (w_ws : str_forall is_ws w = true) (w2_ws : str_forall is_ws w2 = true).

Lemma num_end_ws c s : num_end (String c s) = true -> num_end (w2 +:+ String c s) = true.
Proof. destruct w2 as [|d w2']; [done|]. intros _. cbn [str_forall] in w2_ws. apply andb_true_iff in w2_ws as [H _]. by destruct d as [[] [] [] [] [] [] [] []]. Qed.

Lemma parse_elems_layout l ts : Forall2 text_of l ts -> l <> [] -> forall n r,
  2 * String.length (join ("," +:+ w) ts) < n ->
  parse_elems n (join ("," +:+ w) ts +:+ (w2 +:+ String "]" r)) = Ok (l, r).
Proof.
  intros Hl Hne. induction Hl as [|j t l ts [Hh Hj] Hl IH]; [done|]. intros n r Hn.
  destruct n as [|n]; [lia|]. cbn [parse_elems]. destruct Hl as [|j' t' l ts Hj' Hl].
  - cbn [join] in *. rewrite Hj by (by apply num_end_ws || lia). cbn [mbind res_bind fst snd]. by rewrite skip_ws_app.
  - rewrite join_cons in *. rewrite !string_length_app in Hn. cbn [String.length] in Hn.
    rewrite !string_app_assoc, comma_app. rewrite Hj by (done || lia).
    cbn [mbind res_bind snd fst]. rewrite skip_comma. cbv iota beta.
    rewrite (skip_ws_app w), value_head_skip by (done || apply join_head, Hj').
    rewrite IH; [done..|]. lia.
Qed.

Lemma parse_member_layout n k j t rest : text_of j t -> num_end rest = true -> 2 * String.length t <= n ->
  parse_members (S n) (member_text k t +:+ rest)
  = match skip_ws rest with
    | String "," r' => lr ← parse_members n (skip_ws r'); Ok ((k, j) :: lr.1, lr.2)
    | String "}" r' => Ok ([(k, j)], r')
    | _ => json_error "Expecting ',' delimiter"
    end.
Proof.
  intros [Hh Hj] Ht Hlen. unfold member_text. rewrite string_app_assoc, quote_app. cbn [parse_members].
  rewrite decide_True by done. rewrite scan_str_escape. cbn [mbind res_bind snd fst].
  rewrite string_app_assoc. rewrite (string_app_cons ":" " "), skip_colon. cbv iota beta.
  rewrite (skip_ws_app " "), value_head_skip by done. rewrite Hj by done. done.
Qed.

Lemma member_text_head k t : value_head (member_text k t).
Proof. done. Qed.

Lemma parse_members_layout kvs ts : Forall2 (fun kv t => text_of kv.2 t) kvs ts -> kvs <> [] -> forall n r,
  2 * String.length (join ("," +:+ w) (zip_with member_text kvs.*1 ts)) < n ->
  parse_members n (join ("," +:+ w) (zip_with member_text kvs.*1 ts) +:+ (w2 +:+ String "}" r)) = Ok (kvs, r).
Proof.
  intros Hl Hne. induction Hl as [|[k j] t kvs ts Hj Hl IH]; [done|]. intros n r Hn. cbn [snd] in Hj.
  assert (String.length t <= String.length (member_text k t)) as Hm.
  { unfold member_text. rewrite !string_length_app. lia. }
  destruct n as [|n]; [lia|]. destruct Hl as [|[k' j'] t' kvs ts Hj' Hl]; cbn [fmap list_fmap fst zip_with] in *.
  - cbn [join] in *. rewrite parse_member_layout with (j := j) by (done || by apply num_end_ws || lia). by rewrite skip_ws_app.
  - rewrite join_cons in *. rewrite !string_length_app in Hn. cbn [String.length] in Hn.
    rewrite !string_app_assoc, comma_app. rewrite parse_member_layout with (j := j) by (done || lia).
    rewrite skip_comma. cbv iota beta. rewrite (skip_ws_app w), value_head_skip by (done || apply join_head, member_text_head).
    rewrite IH; [done..|]. lia.
Qed.

(** An array and an object in a layout. *)
Lemma text_arr l ts : Forall2 text_of l ts -> l <> [] -> text_of (JArr l) ("[" +:+ w +:+ join ("," +:+ w) ts +:+ w2 +:+ "]").
Proof.
  intros Hl Hne. split; [done|]. intros n r Hn Hr. rewrite !string_length_app in Hn. cbn [String.length] in Hn.
  destruct n as [|n]; [lia|]. rewrite !string_app_assoc. change ("[" +:+ ?s) with (String "[" s). cbn [parse_value].
  rewrite decide_False, decide_True by done. rewrite skip_ws_app by done.
  destruct Hl as [|j t l ts Hj Hl]; [done|]. assert (value_head (join ("," +:+ w) (t :: ts))) as Hh by apply join_head, Hj.
  rewrite value_head_skip by done.
  pose proof (parse_elems_layout (j :: l) (t :: ts) ltac:(by constructor) Hne n r ltac:(lia)) as E.
  change ("]" +:+ r) with (String "]" r). destruct (join ("," +:+ w) (t :: ts)) as [|c s]; [done|]. destruct Hh as (_ & Hc & _).
  rewrite string_app_cons in E |- *. destruct c as [[] [] [] [] [] [] [] []]; by rewrite ?E.
Qed.

Lemma text_obj kvs ts : Forall2 (fun kv t => text_of kv.2 t) kvs ts -> kvs <> [] -> NoDup kvs.*1 ->
  text_of (JObj kvs) ("{" +:+ w +:+ join ("," +:+ w) (zip_with member_text kvs.*1 ts) +:+ w2 +:+ "}").
Proof.
  intros Hl Hne Hnd. split; [done|]. intros n r Hn Hr. rewrite !string_length_app in Hn. cbn [String.length] in Hn.
  destruct n as [|n]; [lia|]. rewrite !string_app_assoc. change ("{" +:+ ?s) with (String "{" s). cbn [parse_value].
  rewrite !decide_False, decide_True by done. rewrite skip_ws_app by done.
  pose proof (parse_members_layout kvs ts Hl Hne n r ltac:(lia)) as E.
  assert (value_head (join ("," +:+ w) (zip_with member_text kvs.*1 ts))) as Hh.
  { destruct Hl as [|[k j] t kvs ts Hj Hl]; [done|]. cbn. apply join_head, member_text_head. }
  rewrite value_head_skip by done. change ("}" +:+ r) with (String "}" r).
  destruct (join ("," +:+ w) (zip_with member_text kvs.*1 ts)) as [|c s]; [done|]. destruct Hh as (_ & _ & Hc).
  rewrite string_app_cons in E |- *.
  destruct c as [[] [] [] [] [] [] [] []]; rewrite ?E; cbn [mbind res_bind fst snd]; by rewrite ?dict_of_pairs_id.
Qed.
End Layout.

Lemma text_dumps j : json_wf j = true -> text_of j (dumps j).
Proof. intros H. split; [apply dumps_head | by apply dumps_parses]. Qed.

Lemma text_indent j : json_wf j = true -> forall depth, text_of j (dumps_indent depth j).
Proof.
  induction j as [|b|z|s|l IH|kvs IH] using json_nested_ind; intros Hwf depth; try (by apply text_dumps).
  - destruct l as [|x l]; [by apply text_dumps|]. cbn [dumps_indent].
    rewrite (join_prefix (dumps_indent (S depth)) (spaces (S depth))).
    rewrite !string_app_assoc. rewrite <- (string_app_assoc newline (spaces (S depth))), <- (string_app_assoc newline (spaces depth)).
    apply (text_arr (newline +:+ spaces (S depth)) (newline +:+ spaces depth)); [apply spaces_ws.. | | done].
    cbn in Hwf. change (forallb json_wf (x :: l) = true) in Hwf. rewrite forallb_forall in Hwf. rewrite Forall_forall in IH.
    apply Forall2_fmap_r, Forall2_same_length_lookup_2; [done|]. intros i y z Hy Hz. assert (y = z) as -> by congruence.
    apply IH; [by eapply list_elem_of_lookup_2|]. apply Hwf, list_elem_of_In. by eapply list_elem_of_lookup_2.
  - destruct kvs as [|kv kvs]; [by apply text_dumps|]. cbn [dumps_indent].
    set (f := fun kv => member_text kv.1 (dumps_indent (S depth) kv.2)).
    rewrite (join_prefix f (spaces (S depth)) _ kv).
    rewrite !string_app_assoc. rewrite <- (string_app_assoc newline (spaces (S depth))), <- (string_app_assoc newline (spaces depth)).
    assert (map f (kv :: kvs) = zip_with member_text (kv :: kvs).*1 (map (fun kv => dumps_indent (S depth) kv.2) (kv :: kvs))) as ->.
    { clear. induction (kv :: kvs) as [|a l Hl]; [done|]. cbn. by rewrite Hl. }
    cbn in Hwf. apply andb_true_iff in Hwf as [Hnd Hwf]. apply bool_decide_eq_true in Hnd.
    change (forallb (fun kv => json_wf kv.2) (kv :: kvs) = true) in Hwf. rewrite forallb_forall in Hwf. rewrite Forall_forall in IH.
    apply (text_obj (newline +:+ spaces (S depth)) (newline +:+ spaces depth)); [apply spaces_ws.. | | done | done].
    apply Forall2_fmap_r, Forall2_same_length_lookup_2; [done|]. intros i y z Hy Hz. assert (y = z) as -> by congruence.
    apply (IH z); [by eapply list_elem_of_lookup_2|]. apply Hwf, list_elem_of_In. by eapply list_elem_of_lookup_2.
Qed.

Lemma loads_dumps_indent j : json_wf j = true -> loads (dumps_indent 0 j) = Ok j.
Proof.
  intros [Hh Hp]%(fun H => text_indent j H 0). unfold loads.
  pose proof (value_head_skip _ "" Hh) as Hs. specialize (Hp (2 * String.length (dumps_indent 0 j) + 2) "").
  rewrite string_app_nil_r in Hs, Hp. rewrite Hs, Hp by (done || lia). done.
Qed.

Example dumps_indent_nested :
  dumps_indent 0 (JObj [("a", JArr [JInt 1; JInt 2]); ("b", JObj [])])
  = join newline ["{"; "  " +:+ quote "a" +:+ ": ["; "    1,"; "    2"; "  ],"; "  " +:+ quote "b" +:+ ": {}"; "}"].
Proof. reflexivity. Qed.
