(* ===== verification/CliStores.v ===== *)
(** * Secret stores and data stores of the command line

    [azext_cleanroom/utilities/_azcli_helpers.py], [_secretstore_helpers.py],
    [_datastore_helpers.py], [secretstore_cmd.py] and [datastore_cmd.py].  The
    Azure command line, processes, files, randomness and RSA are a parameter
    ([CliEnv]); so is pydantic's validation of a schema. *)

From S2P Require Import Prelude PyStr Base64 Json JsonFacts Sha256 SparkModels Settings Helpers CleanroomModels SpecModels AppBuilder ConfigModels ConfigHelpers Encryptor DeployTemplate InitContainer JsonIndent.
From Stdlib Require Import Ascii.

(** ** The environment *)

(** The error of an invocation: the process' exit, or an exception. *)
Inductive InvokeError := IE_SystemExit (code : Z) | IE_Exception (e : exn).

(** [cli.result] when it is a [CommandResultItem]. *)
Record CommandResultItem := { ir_result : json; ir_error : option InvokeError }.

Record CliEnv (W : Type) := {
  ce_config : ConfigEnv W;
  (** [cli.invoke(args)]; the result it leaves *)
  cli_invoke : list string -> M W (option CommandResultItem);
  (** a process: its return code, standard output and standard error *)
  cli_run : list string -> M W (Z * string * string);
  cli_setenv : string -> string -> M W unit;
  cli_getenv : string -> M W (option string);
  cli_sleep : Z -> M W unit;
  cli_random : Z -> M W string;
  cli_uuid4 : M W string;
  cli_tempdir : string;
  (** [get_config_dir() / "cleanroom"], resolved *)
  cli_config_dir : string;
  cli_abspath : string -> string;
  cli_relpath : string -> string -> string;
  cli_exists : string -> M W bool;
  cli_makedirs : string -> M W unit;
  cli_remove : string -> M W unit;
  cli_read : string -> M W string;
  cli_write : string -> string -> M W unit;
  (** the files below a folder *)
  cli_files_below : string -> M W (list string);
  (** [yaml.safe_load] or [json.load] of a file *)
  cli_load_document : bool -> string -> M W json;
  cli_parse_schema : json -> res DataSchema;
  rsa_generate : M W string;
  rsa_public_key : string -> string;
  load_pem_public_key : string -> res string;
  rsa_oaep_encrypt : string -> string -> M W string
}.
Arguments ce_config {W}.
Arguments cli_invoke {W}.
Arguments cli_run {W}.
Arguments cli_setenv {W}.
Arguments cli_getenv {W}.
Arguments cli_sleep {W}.
Arguments cli_random {W}.
Arguments cli_uuid4 {W}.
Arguments cli_tempdir {W}.
Arguments cli_config_dir {W}.
Arguments cli_abspath {W}.
Arguments cli_relpath {W}.
Arguments cli_exists {W}.
Arguments cli_makedirs {W}.
Arguments cli_remove {W}.
Arguments cli_read {W}.
Arguments cli_write {W}.
Arguments cli_files_below {W}.
Arguments cli_load_document {W}.
Arguments cli_parse_schema {W}.
Arguments rsa_generate {W}.
Arguments rsa_public_key {W}.
Arguments load_pem_public_key {W}.
Arguments rsa_oaep_encrypt {W}.

(** [s.split()] *)
Fixpoint split_words_from (word s : string) : list string :=
  match s with
  | "" => if bool_decide (word = "") then [] else [word]
  | String c s' =>
      if is_space c then (if bool_decide (word = "") then [] else [word]) ++ split_words_from "" s'
      else split_words_from (word +:+ String c "") s'
  end.
Definition split_words (s : string) : list string := split_words_from "" s.

(** [s.split(c, 1)] of a text that has [c]. *)
Fixpoint split_first (c : ascii) (s : string) : option (string * string) :=
  match s with
  | "" => None
  | String d s' => if decide (d = c) then Some ("", s') else (fun p => (String d p.1, p.2)) <$> split_first c s'
  end.

(** [try: m finally: f]: an error of [f] takes the place of the outcome of [m]. *)
Definition try_finally {W A} (m : M W A) (f : M W unit) : M W A := fun w =>
  let '(w1, r) := m w in
  match f w1 with (w2, Ok _) => (w2, r) | (w2, Err e) => (w2, Err e) end.

Section Stores.
Context {W : Type} (ce : CliEnv W).

Definition az_cli (args_str : string) : M W json :=
  result ← cli_invoke ce (split_words args_str);
  match result with
  | None => mret JNull
  | Some r =>
      if json_truthy (ir_result r) then mret (ir_result r)
      else match ir_error r with
           | None => mret JNull
           | Some (IE_SystemExit code) => if (code =? 0)%Z then mret JNull else raise (OtherException "SystemExit")
           | Some (IE_Exception e) => raise e
           end
  end.

(** [get_default_config_file], and the override by an environment variable. *)
Definition get_default_config_file (config_file_name : string) : string := path_join (cli_config_dir ce) config_file_name.

Definition default_config_file (variable config_file_name : string) : M W string :=
  v ← cli_getenv ce variable;
  mret (if ostr_truthy v then default "" v else get_default_config_file config_file_name).

Definition default_secretstore_config_file : M W string := default_config_file "CLEANROOM_SECRETSTORE_CONFIG_FILE" "secretstores.yaml".
Definition default_datastore_config_file : M W string := default_config_file "CLEANROOM_DATASTORE_CONFIG_FILE" "datastores.yaml".
Definition default_collaboration_config_file : M W string :=
  default_config_file "CLEANROOM_COLLABORATION_CONFIG_FILE" "collaborations.yaml".

(** Reading a configuration file, a new one when it is missing and may be created. *)
Definition load_config {A} (c : Codec (document (ce_config ce)) A) (empty : A) (config_file : string)
    (create_if_not_existing : bool) : M W A :=
  try_except (read_config (ce_config ce) c config_file)
    (fun e => match e with
              | FileNotFoundError _ =>
                  found ← config_exists (ce_config ce) config_file;
                  if negb found && create_if_not_existing then mret empty
                  else raise (CLIError ("Cannot find file " +:+ config_file +:+ ". Check the --*-config parameter value."))
              | _ => raise e
              end).

(** ** Secret stores *)

(** What a store holds or a generator makes: bytes, text, or an RSA key by its
    PEM text. *)
Inductive Secret := SBytes (b : string) | SText (s : string) | SPrivateKey (pem : string) | SPublicKey (pem : string).

(** [ISecretStore] *)
Record ISecretStore := {
  ss_entry : SecretStoreEntry;
  add_secret : string -> M W Secret -> option string -> M W Secret;
  get_secret : string -> M W (option Secret)
}.

Definition local_key_path (e : SecretStoreEntry) (secret_name : string) : string :=
  cli_abspath ce (path_join (se_storeProviderUrl e) (secret_name +:+ ".bin")).

Definition not_bytes {A} (what : string) : res A := Err (TypeError ("a bytes-like object is required, not '" +:+ what +:+ "'")).

Definition secret_bytes (s : Secret) : res string :=
  match s with SBytes b => Ok b | SText _ => not_bytes "str" | SPrivateKey _ | SPublicKey _ => not_bytes "_RSAPrivateKey" end.

Definition LocalSecretStore (e : SecretStoreEntry) : ISecretStore := {|
  ss_entry := e;
  add_secret secret_name generate_secret _ :=
    secret ← generate_secret;
    b ← lift (secret_bytes secret);
    _ ← cli_write ce (local_key_path e secret_name) b;
    mret secret;
  get_secret secret_name :=
    found ← cli_exists ce (local_key_path e secret_name);
    if negb found then mret None
    else b ← cli_read ce (local_key_path e secret_name); mret (Some (SBytes b)) |}.

(** [urlparse(url).hostname.split(".")[0]] *)
Definition vault_name (url : string) : res string :=
  u ← urlparse url;
  host ← of_option (AttributeError "'NoneType' object has no attribute 'split'") (url_hostname u);
  Ok (hd "" (split_on "." host)).

Definition vault_param (url : string) : string :=
  if str_contains ".managedhsm.azure.net" (lower url) then "--hsm-name" else "--vault-name".

Definition skr_policy (security_policy : string) (maa_url : json) : json :=
  JObj [("anyOf", JArr [JObj [
           ("allOf", JArr [JObj [("claim", JStr "x-ms-sevsnpvm-hostdata"); ("equals", JStr security_policy)];
                           JObj [("claim", JStr "x-ms-compliance-status"); ("equals", JStr "azure-compliant-uvm")];
                           JObj [("claim", JStr "x-ms-attestation-type"); ("equals", JStr "sevsnpvm")]]);
           ("authority", maa_url)]]);
        ("version", JStr "1.0.0")].

Definition store_authority (e : SecretStoreEntry) : res json :=
  raw ← b64decode (se_configuration e); text ← utf8_decode raw; j ← loads text; json_item j "authority".

Definition AzureSecureSecretStore (e : SecretStoreEntry) : ISecretStore := {|
  ss_entry := e;
  add_secret secret_name generate_secret security_policy :=
    policy ← lift (of_option (AssertionError "Security policy is required for secure store.") security_policy);
    let pem_file_path := path_join (cli_tempdir ce) (secret_name +:+ ".pem") in
    let skr_file_path := path_join (cli_tempdir ce) (secret_name +:+ "-skr-policy.json") in
    try_finally
      (private_key ← generate_secret;
       match private_key with
       | SPrivateKey pem =>
           _ ← cli_write ce pem_file_path pem;
           maa_url ← lift (store_authority e);
           _ ← cli_write ce skr_file_path (dumps_indent 0 (skr_policy policy maa_url));
           kv_name ← lift (vault_name (se_storeProviderUrl e));
           _ ← az_cli ("keyvault key import --name " +:+ secret_name +:+ " --pem-file " +:+ pem_file_path
                       +:+ " --policy " +:+ skr_file_path +:+ " " +:+ vault_param (se_storeProviderUrl e) +:+ " " +:+ kv_name
                       +:+ " --exportable true --protection hsm --ops encrypt wrapKey --immutable false");
           mret (SPublicKey (rsa_public_key ce pem))
       | _ => raise (AssertionError "Invalid private key type")
       end)
      (_ ← cli_remove ce pem_file_path; cli_remove ce skr_file_path);
  get_secret secret_name :=
    suffix ← cli_uuid4 ce;
    let pem_file_path := path_join (cli_tempdir ce) (secret_name +:+ "-" +:+ str_take 8 suffix +:+ "-public-key.pem") in
    kv_name ← lift (vault_name (se_storeProviderUrl e));
    key ← az_cli ("keyvault key list " +:+ vault_param (se_storeProviderUrl e) +:+ " " +:+ kv_name
                  +:+ " --query [?name=='" +:+ secret_name +:+ "']");
    match key with
    | JNull => mret None
    | _ =>
        try_finally
          (_ ← az_cli ("keyvault key download --file " +:+ pem_file_path +:+ " --encoding PEM --name " +:+ secret_name
                       +:+ " " +:+ vault_param (se_storeProviderUrl e) +:+ " " +:+ kv_name);
           text ← cli_read ce pem_file_path;
           pem ← lift (load_pem_public_key ce text);
           mret (Some (SPublicKey pem)))
          (cli_remove ce pem_file_path)
    end |}.

(** The text of a secret in a command line: bytes are shown with their Python
    notation, which the model leaves out. *)
Definition secret_text (s : Secret) : string :=
  match s with SText t => t | SBytes b => "b'" +:+ b +:+ "'" | SPrivateKey p | SPublicKey p => p end.

Definition AzureSecretStore (e : SecretStoreEntry) : ISecretStore := {|
  ss_entry := e;
  add_secret secret_name generate_secret _ :=
    secret ← generate_secret;
    name ← lift (vault_name (se_storeProviderUrl e));
    _ ← az_cli ("keyvault secret set --name " +:+ secret_name +:+ " --vault-name " +:+ name +:+ " --value " +:+ secret_text secret);
    mret secret;
  get_secret secret_name :=
    suffix ← cli_uuid4 ce;
    let secret_file_path := path_join (cli_tempdir ce) (secret_name +:+ "-" +:+ str_take 8 suffix +:+ ".bin") in
    kv_name ← lift (vault_name (se_storeProviderUrl e));
    secret ← az_cli ("keyvault secret list --vault-name " +:+ kv_name +:+ " --query [?name=='" +:+ secret_name +:+ "']");
    match secret with
    | JNull => mret None
    | _ =>
        try_finally
          (_ ← az_cli ("keyvault secret download --file " +:+ secret_file_path +:+ " --encoding base64 --name " +:+ secret_name
                       +:+ " --vault-name " +:+ kv_name);
           b ← cli_read ce secret_file_path;
           mret (Some (SBytes b)))
          (cli_remove ce secret_file_path)
    end |}.

Definition make_secretstore (e : SecretStoreEntry) : ISecretStore :=
  match secretStoreType e with
  | SS_Local_File => LocalSecretStore e
  | SS_Azure_KeyVault_Managed_HSM => AzureSecureSecretStore e
  | SS_Azure_KeyVault => AzureSecretStore e
  end.

Definition load_secretstore_config (config_file : string) (create_if_not_existing : bool) : M W SecretStoreSpecification :=
  load_config (secretstore_codec (ce_config ce)) {| secretstores := Some [] |} config_file create_if_not_existing.

(** A specification error with another code would leave the result unset. *)
Definition get_secretstore (name config_file : string) : M W ISecretStore :=
  try_except
    (config ← load_secretstore_config config_file false;
     e ← lift (get_secretstore_entry config name).2;
     mret (make_secretstore e))
    (fun e => if has_code EC_SecretStoreNotFound e
              then raise (CLIError ("Secret store " +:+ name +:+ " not found. Run az cleanroom secretstore add first."))
              else if is_spec_error e then raise (UnboundLocalError "secretstore") else raise e).

(** *** [secretstore_add_cmd] *)

Definition kv_property (kv : json) (name : string) : res string :=
  p ← json_item kv "properties"; v ← json_item p name; json_text v.

(** The address, the configuration and the supported secrets of a key vault. *)
Definition vault_entry (t : SecretStoreType) (kv : json) (attestation_endpoint : string)
  : res (string * string * list SupportedSecretType) :=
  kind ← json_item kv "type";
  match t with
  | SS_Azure_KeyVault_Managed_HSM =>
      url ← (if json_eqs kind "Microsoft.KeyVault/managedHSMs" then kv_property kv "hsmUri"
             else
               _ ← py_assert (json_eqs kind "Microsoft.KeyVault/vaults") ("Unknown KeyVault type: " +:+ py_str kind);
               p ← json_item kv "properties"; sku ← json_item p "sku"; n ← json_item sku "name"; n ← json_text n;
               _ ← py_assert (bool_decide (lower n = "premium")) ("Unsupported SKU for Managed HSM: " +:+ n);
               kv_property kv "vaultUri");
      _ ← py_assert (str_truthy attestation_endpoint) "attestation_endpoint is required.";
      Ok (url, b64encode (utf8_encode (dumps (JObj [("authority", JStr attestation_endpoint)]))), [Supports_Key])
  | _ =>
      _ ← py_assert (json_eqs kind "Microsoft.KeyVault/vaults") ("Unknown KeyVault type: " +:+ py_str kind);
      url ← kv_property kv "vaultUri";
      Ok (url, "", [Supports_Secret])
  end.

Definition secretstore_add_cmd (secretstore_name : string) (backingstore_type : SecretStoreType)
    (secretstore_config_file backingstore_id backingstore_path attestation_endpoint : string) : M W unit :=
  config ← load_secretstore_config secretstore_config_file true;
  let '(config, found) := check_secretstore_entry config secretstore_name in
  match found with
  | Some _ => mret ()
  | None =>
      d ← (match backingstore_type with
           | SS_Local_File =>
               _ ← lift (py_assert (str_truthy backingstore_path) "backingstore_path is required for Local_File secret store.");
               present ← cli_exists ce backingstore_path;
               _ ← (if (present : bool) then mret () else cli_makedirs ce backingstore_path);
               mret (backingstore_path, "", [Supports_Secret])
           | _ =>
               _ ← lift (py_assert (str_truthy backingstore_id) "backingstore_id is required for KeyVault.");
               kv ← az_cli ("resource show --id " +:+ backingstore_id);
               lift (vault_entry backingstore_type kv attestation_endpoint)
           end);
      let '(url, configuration, supported) := (d : string * string * list SupportedSecretType) in
      let '(config, added) := add_secretstore_entry config
        {| se_name := secretstore_name; secretStoreType := backingstore_type; se_storeProviderUrl := url;
           se_configuration := configuration; supportedSecretTypes := supported |} in
      _ ← lift added;
      write_secretstore_config (ce_config ce) secretstore_config_file config
  end.
End Stores.
