(* ===== verification/CliData.v ===== *)
(** * Data stores of the command line

    [azext_cleanroom/utilities/_datastore_helpers.py] and [datastore_cmd.py]:
    declaring a data store with its key, copying data in and out, encrypting and
    decrypting it. *)

From S2P Require Import Prelude PyStr Base64 Json JsonFacts Sha256 SparkModels Settings Helpers CleanroomModels SpecModels AppBuilder ConfigModels ConfigHelpers Encryptor DeployTemplate InitContainer CliStores.
From Stdlib Require Import Ascii.

(** ** Schemas *)

Definition fmt_value (f : DatasetFormat) : string :=
  match f with fmt_csv => "csv" | fmt_json => "json" | fmt_parquet => "parquet" end.

Definition parse_field (field_def : string) : res DataField :=
  match split_first ":" field_def with
  | None => Err (ValueError "Field definition must be in format 'fieldName:fieldType'")
  | Some (n, t) =>
      let field_name := strip n in
      let field_type := lower (strip t) in
      if bool_decide (field_name = "") then Err (ValueError "Field name cannot be empty")
      else t ← of_option (ValueError ("Invalid field type '" +:+ field_type +:+ "'. Valid types are: "
                                      +:+ join ", " (map field_type_value field_types)))
                 (enum_of field_type_value field_types field_type);
           Ok {| fieldName := field_name; fieldType := t |}
  end.

(** A [ValueError] becomes an error of the command line. *)
Definition parse_field_def (field_def : string) : res DataField :=
  match parse_field field_def with
  | Err (ValueError m) => Err (CLIError ("Invalid field definition '" +:+ field_def +:+ "': " +:+ m))
  | r => r
  end.

Definition generate_schema_from_fields (schema_format : string) (schema_fields : list string) : res DataSchema :=
  if bool_decide (schema_format = "") then Err (CLIError "Schema format must be specified when generating schema from fields.")
  else match schema_fields with
       | [] => Err (CLIError "Schema fields must be specified when generating schema from fields.")
       | _ =>
           data_format ← of_option (CLIError ("Invalid schema format '" +:+ schema_format +:+ "'. Valid formats are: "
                                              +:+ join ", " (map fmt_value data_formats)))
                           (enum_of fmt_value data_formats (lower (strip schema_format)));
           fields ← mapM_res parse_field_def schema_fields;
           Ok {| ds_format := data_format; ds_fields := fields |}
       end.

(** A document that holds the fields itself or below a key. *)
Definition wrapped_document {A} (fields : list string) (wrapper : string) (parse : json -> res A) (bad_format not_object : string)
    (data : json) : res A :=
  match data with
  | JObj d =>
      if forallb (fun f => bool_decide (is_Some (dict_lookup f d))) fields then parse data
      else match dict_lookup wrapper d with
           | Some j => parse j
           | None => Err (CLIError bad_format)
           end
  | _ => Err (CLIError not_object)
  end.

Definition str_ends_with (suffix s : string) : bool :=
  bool_decide (str_drop (String.length s - String.length suffix) s = suffix).

Definition is_yaml_file (f : string) : bool := str_ends_with ".yaml" f || str_ends_with ".yml" f.

(** The errors of a document's file. *)
Definition document_error {A} (yaml_prefix json_prefix other_prefix : string) (e : exn) : res A :=
  match e with
  | YAMLError t => Err (CLIError (yaml_prefix +:+ t))
  | JSONDecodeError t => Err (CLIError (json_prefix +:+ t))
  | _ => Err (CLIError (other_prefix +:+ exn_str e))
  end.

Section Data.
Context {W : Type} (ce : CliEnv W) (cr : CryptEnv W).

Definition load_document {A} (file not_found : string) (convert : json -> res A) (on_error : exn -> res A) : M W A :=
  found ← cli_exists ce file;
  if negb found then raise (CLIError not_found)
  else try_except (data ← cli_load_document ce (is_yaml_file file) file; lift (convert data)) (fun e => lift (on_error e)).

Definition load_schema_from_file (schema_file : string) : M W DataSchema :=
  load_document schema_file ("Schema file '" +:+ schema_file +:+ "' not found.")
    (wrapped_document ["format"; "fields"] "datasetSchema" (cli_parse_schema ce)
       "Invalid schema file format. Expected 'format' and 'fields' properties." "Schema file must contain a JSON object.")
    (document_error "Failed to parse YAML schema file: " "Failed to parse JSON schema file: " "Failed to load schema from file: ").

(** ** Configuration *)

Definition load_datastore_config (config_file : string) (create_if_not_existing : bool) : M W DataStoreSpecification :=
  load_config ce (datastore_codec (ce_config ce)) {| datastores := Some [] |} config_file create_if_not_existing.

Definition get_datastore (name config_file : string) : M W DataStoreEntry :=
  try_except
    (config ← load_datastore_config config_file false;
     lift (get_datastore_entry config name).2)
    (fun e => if has_code EC_DataStoreNotFound e
              then raise (CLIError ("Datastore " +:+ name +:+ " not found. Run az cleanroom datastore add first."))
              else if is_spec_error e then raise (UnboundLocalError "datastore") else raise e).

Definition add_datastore_error (e : exn) : exn :=
  if has_code EC_IdentityConfigurationNotFound e then CLIError "Run az cleanroom config add-identity first."
  else if has_code EC_UnsupportedDekSecretStore e
  then CLIError "Unsupported secret store for DEK. Please use Standard or Premium Key Vault"
  else if has_code EC_UnsupportedKekSecretStore e
  then CLIError "Unsupported secret store for KEK. Please use MHSM or Premium Key Vault"
  else if is_spec_error e then CLIError ("Error adding datastore: " +:+ exn_str e)
  else e.

Definition config_add_datastore_internal (cleanroom_config_file datastore_name datastore_config_file identity : string)
    (access_mode : AccessMode) (o : AddOptions) : M W unit :=
  try_except
    (config_add_datastore (ce_config ce) cleanroom_config_file datastore_name datastore_config_file identity access_mode o)
    (fun e => raise (add_datastore_error e)).

(** A specification error with another code is swallowed; the command then goes on
    without a name. *)
Definition config_get_datastore_name_internal (cleanroom_config access_name : string) (access_mode : AccessMode)
  : M W (option string) :=
  try_except (n ← config_get_datastore_name (ce_config ce) cleanroom_config access_name access_mode; mret (Some n))
    (fun e => if has_code EC_DataStoreNotFound e
              then raise (CLIError (access_name +:+ " not found in cleanroom configuration."))
              else if is_spec_error e then mret None else raise e).

(** ** Copying *)

(** The text is the same on every line it can be on. *)
Definition is_retryable (stdout stderr : string) : bool :=
  str_contains "ERROR CODE: AuthorizationPermissionMismatch" stdout
  || str_contains "ERROR CODE: AuthorizationPermissionMismatch" stderr.

Definition run_azcopy (azcopy_cmd : list string) : M W (Z * string * string) :=
  try_except (cli_run ce azcopy_cmd)
    (fun e => match e with
              | FileNotFoundError _ => raise (CLIError "azcopy not installed. Install from https://github.com/Azure/azure-storage-azcopy?tab=readme-ov-file#download-azcopy and try again.")
              | _ => raise e
              end).

(** [while True], with [retries] = [max_retries] - [attempt]. *)
Fixpoint azcopy_loop (azcopy_cmd : list string) (retries : nat) (attempt : Z) : M W unit :=
  result ← run_azcopy azcopy_cmd;
  let '(returncode, stdout, stderr) := (result : Z * string * string) in
  if (returncode =? 0)%Z then mret ()
  else match retries with
       | S retries' =>
           if is_retryable stdout stderr then
             _ ← cli_sleep ce 10;
             azcopy_loop azcopy_cmd retries' (attempt + 1)
           else raise (CLIError ("Failed to copy data. Total attempts: " +:+ str_of_Z (attempt + 1) +:+ ". See error details above."))
       | O => raise (CLIError ("Failed to copy data. Total attempts: " +:+ str_of_Z (attempt + 1) +:+ ". See error details above."))
       end.

Definition MAX_RETRIES : nat := 5.

Definition login_type (account_details : json) : res string :=
  has ← json_has "user" account_details;
  if (has : bool) then
    user ← json_item account_details "user";
    name ← json_item user "name";
    Ok (if json_eqs name "userAssignedIdentity" || json_eqs name "systemAssignedIdentity" then "MSI" else "AZCLI")
  else Ok "AZCLI".

Definition azcopy (source_location target_location : string) (use_cpk : bool) (encryption_key : option string) : M W unit :=
  tenant_id ← az_cli ce "account show --query tenantId -o tsv";
  _ ← match tenant_id with JStr t => cli_setenv ce "AZCOPY_TENANT_ID" t | _ => mret () end;
  account_details ← az_cli ce "account show";
  login ← lift (login_type account_details);
  _ ← cli_setenv ce "AZCOPY_AUTO_LOGIN_TYPE" login;
  let azcopy_cmd := ["azcopy"; "copy"; source_location; target_location; "--recursive"] in
  cmd ← (if use_cpk then
           key ← lift (of_option (AssertionError "Encryption key must not be None when encryption mode is CPK") encryption_key);
           _ ← cli_setenv ce "CPK_ENCRYPTION_KEY" (b64encode key);
           _ ← cli_setenv ce "CPK_ENCRYPTION_KEY_SHA256" (b64encode (sha256_digest key));
           mret (azcopy_cmd ++ ["--cpk-by-value"])
         else mret azcopy_cmd);
  azcopy_loop cmd MAX_RETRIES 0.

(** ** Commands *)

(** The parameters of [datastore_add_cmd] after the name. *)
Record DataStoreAdd := {
  da_type : StoreType;
  da_mode : EncryptionMode;
  da_secret_store : string;
  da_backingstore_id : string;
  da_aws_config_cgs_secret_id : string;
  da_schema_file : string;
  da_schema_format : string;
  da_schema_fields : string;
  da_config_file : string;
  da_secretstore_config_file : string;
  da_container_name : string
}.

Definition is_azure_blob (t : StoreType) : bool :=
  match t with St_Azure_BlobStorage | St_Azure_BlobStorage_DataLakeGen2 => true | _ => false end.

Definition check_add (a : DataStoreAdd) : res unit :=
  _ ← (if decide (da_type a = St_Aws_S3) then
         _ ← py_assert (bool_decide (da_mode a = SSE)) ("Only SSE is supported for AWS S3. Got: " +:+ encryption_mode_value (da_mode a));
         if negb (str_truthy (da_aws_config_cgs_secret_id a))
         then Err (CLIError ("AWS Config CGS secret ID must be specified for encryption mode '" +:+ encryption_mode_value (da_mode a) +:+ "'."))
         else Ok ()
       else Ok ());
  if uses_keys (Some (da_mode a)) && negb (str_truthy (da_secret_store a))
  then Err (CLIError ("Datastore secret store must be specified for encryption mode '" +:+ encryption_mode_value (da_mode a) +:+ "'."))
  else Ok ().

(** The key of a data store, for the modes that need one; answers the file of the
    secret stores. *)
Definition generate_datastore_key (datastore_name : string) (a : DataStoreAdd) : M W string :=
  if negb (bool_decide (da_type a = St_Aws_S3)) && uses_keys (Some (da_mode a)) then
    file ← (if str_truthy (da_secretstore_config_file a) then mret (da_secretstore_config_file a)
            else default_secretstore_config_file ce);
    secret_store ← get_secretstore ce (da_secret_store a) file;
    _ ← lift (py_assert (bool_decide (secretStoreType (ss_entry secret_store) = SS_Local_File))
                ("Unsupported secret store type passed "
                 +:+ secret_store_type_value (secretStoreType (ss_entry secret_store)) +:+ "."));
    _ ← add_secret secret_store datastore_name (k ← cli_random ce 32; mret (SBytes k)) None;
    mret file
  else mret (da_secretstore_config_file a).

(** The provider's address, its configuration and the name of the store. *)
Definition backing_store (a : DataStoreAdd) (container_name : string) : M W (json * string * string) :=
  match da_type a with
  | St_Azure_BlobStorage | St_Azure_BlobStorage_DataLakeGen2 =>
      _ ← lift (py_assert (str_truthy (da_backingstore_id a)) "backingstore_id is required.");
      storage_account_name ← az_cli ce ("storage account show --ids " +:+ da_backingstore_id a +:+ " --query name");
      storage_account_url ← az_cli ce ("storage account show --ids " +:+ da_backingstore_id a +:+ " --query primaryEndpoints.blob");
      _ ← az_cli ce ("storage container create --name " +:+ container_name +:+ " --account-name " +:+ py_str storage_account_name
                     +:+ " --auth-mode login");
      mret (storage_account_url, "", container_name)
  | St_Azure_OneLake =>
      _ ← lift (py_assert (str_truthy (da_backingstore_id a)) "backingstore_id is required.");
      mret (JStr (da_backingstore_id a), "", "")
  | St_Aws_S3 =>
      _ ← lift (py_assert (str_truthy (da_aws_config_cgs_secret_id a)) "aws_config_cgs_secret_id is required.");
      mret (JStr (if str_truthy (da_backingstore_id a) then da_backingstore_id a else "https://s3.amazonaws.com"),
            b64encode (utf8_encode (dumps (JObj [("secretId", JStr (da_aws_config_cgs_secret_id a))]))), container_name)
  end.

Definition datastore_schema (a : DataStoreAdd) : M W (option DataSchema) :=
  if str_truthy (da_schema_file a) then s ← load_schema_from_file (da_schema_file a); mret (Some s)
  else if str_truthy (da_schema_format a)
  then s ← lift (generate_schema_from_fields (da_schema_format a) (split_on "," (da_schema_fields a))); mret (Some s)
  else mret None.

Definition datastore_add_cmd (datastore_name : string) (a : DataStoreAdd) : M W unit :=
  _ ← lift (check_add a);
  let container_name := if str_truthy (da_container_name a) then da_container_name a else datastore_name in
  config ← load_datastore_config (da_config_file a) true;
  let '(config, found) := check_datastore_entry config datastore_name in
  match found with
  | Some _ => mret ()
  | None =>
      secretstore_file ← generate_datastore_key datastore_name a;
      b ← backing_store a container_name;
      let '(url, provider_config, store_name) := (b : json * string * string) in
      _ ← lift (py_assert (match url with JNull => false | _ => true end) "Store provider URL cannot be None.");
      schema ← datastore_schema a;
      url ← lift (match url with JStr u => Ok u | _ => Err (ValidationError "storeProviderUrl") end);
      let '(config, added) := add_datastore_entry config
        {| de_name := datastore_name; secretstore_config := Some secretstore_file;
           secretstore_name := Some (da_secret_store a); encryptionMode := Some (da_mode a); storeType := da_type a;
           de_storeProviderUrl := url; storeProviderConfiguration := Some provider_config; storeName := store_name;
           datasetSchema := schema |} in
      _ ← lift added;
      write_datastore_config (ce_config ce) (da_config_file a) config
  end.

(** The key of a data store as bytes; the secret must exist. *)
Definition datastore_key (datastore_name : string) (d : DataStoreEntry) : M W string :=
  s ← get_secretstore ce (default "None" (secretstore_name d)) (default "None" (secretstore_config d));
  key ← get_secret s datastore_name;
  k ← lift (of_option (AssertionError ("Encryption key for datastore " +:+ datastore_name +:+ " is None.")) key);
  lift (secret_bytes k).

Definition is_cpk (d : DataStoreEntry) : bool := bool_decide (encryptionMode d = Some SSE_CPK).

Definition cpk_key (datastore_name : string) (d : DataStoreEntry) : M W (option string) :=
  if is_cpk d then k ← datastore_key datastore_name d; mret (Some k) else mret None.

(** Nothing is copied for the other types of stores. *)
Definition datastore_upload_cmd (datastore_name source_path datastore_config_file subdirectory : string) : M W unit :=
  d ← get_datastore datastore_name datastore_config_file;
  let container_url := de_storeProviderUrl d +:+ storeName d in
  let container_url := if str_truthy subdirectory then container_url +:+ "/" +:+ subdirectory else container_url in
  let source_path := source_path +:+ "/*" in
  if is_azure_blob (storeType d) then
    encryption_key ← cpk_key datastore_name d;
    azcopy source_path container_url (is_cpk d) encryption_key
  else mret ().

(** [re.match("https://(.*?).blob.core.windows.net", url).group(1)]: the dots stand
    for any character. *)
Fixpoint matches_any (pattern s : string) : bool :=
  match pattern, s with
  | "", _ => true
  | String p pattern', String c s' =>
      (if decide (p = "."%char) then negb (bool_decide (c = ascii_of_nat 10)) else bool_decide (p = c)) && matches_any pattern' s'
  | _, "" => false
  end.

Fixpoint account_from (acc s : string) : option string :=
  if matches_any ".blob.core.windows.net" s then Some acc
  else match s with
       | "" => None
       | String c s' => if bool_decide (c = ascii_of_nat 10) then None else account_from (acc +:+ String c "") s'
       end.

Definition storage_account_of (url : string) : res string :=
  of_option (AttributeError "'NoneType' object has no attribute 'group'")
    (if String.prefix "https://" url then account_from "" (str_drop 8 url) else None).

(** The local folder of a blob. *)
Definition blob_folder (datastore_path subdirectory name : string) : option string :=
  let prefix := subdirectory +:+ "/" in
  let local_name := if str_truthy subdirectory && String.prefix prefix name then str_drop (String.length prefix) name else name in
  match split_first "/" local_name with
  | Some (folder, _) => Some (datastore_path +:+ "/" +:+ folder)
  | None => None
  end.

Definition download_blob (datastore_path container_url subdirectory : string) (use_cpk : bool) (key : option string) (entry : json)
  : M W unit :=
  name ← lift (json_get entry "name" (JStr ""));
  properties ← lift (json_get entry "properties" (JObj []));
  content_length ← lift (json_get properties "contentLength" (JInt 0));
  length ← lift (match content_length with JInt n => Ok n | j => Err (TypeError ("'<=' not supported between instances of '" +:+ py_type j +:+ "' and 'int'")) end);
  if (length <=? 0)%Z then mret ()
  else
    name ← lift (json_text name);
    folder_path ← match blob_folder datastore_path subdirectory name with
                  | Some f => _ ← cli_makedirs ce f; mret f
                  | None => mret datastore_path
                  end;
    azcopy (container_url +:+ "/" +:+ name) folder_path use_cpk key.

Definition datastore_download_cmd (destination_path datastore_name datastore_config_file subdirectory : string) : M W unit :=
  d ← get_datastore datastore_name datastore_config_file;
  let datastore_path := path_join destination_path datastore_name in
  _ ← cli_makedirs ce datastore_path;
  let container_url := de_storeProviderUrl d +:+ storeName d in
  _ ← lift (py_assert (negb (bool_decide (storeType d = St_Aws_S3)))
              ("Download is only supported for Azure Blob, Azure Blob Storage DataLakeGen2, or Azure Onelake Storage datastores. Datastore '"
               +:+ datastore_name +:+ "' has type '" +:+ store_type_value (storeType d) +:+ "'."));
  encryption_key ← cpk_key datastore_name d;
  if negb (is_azure_blob (storeType d)) then
    azcopy (if str_truthy subdirectory then container_url +:+ "/" +:+ subdirectory else container_url) datastore_path
      (is_cpk d) encryption_key
  else
    account ← lift (storage_account_of (de_storeProviderUrl d));
    result ← az_cli ce ("storage blob list --container-name " +:+ storeName d +:+ " --account-name " +:+ account
                        +:+ " --auth-mode login "
                        +:+ (if str_truthy subdirectory then "--prefix " +:+ subdirectory +:+ "/ " else "--delimiter / ")
                        +:+ "--output json");
    entries ← lift (json_items result);
    for_each (download_blob datastore_path container_url subdirectory (is_cpk d) encryption_key) entries.

Inductive Operation := Encrypt | Decrypt.

(** The key as the encryption functions take it: a missing one is not bytes. *)
Definition raw_key (key : option Secret) : res string :=
  match key with Some s => secret_bytes s | None => not_bytes "NoneType" end.

(** [fuel] bounds the blocks of a file. *)
Definition crypt_one (fuel : nat) (operation : Operation) (source_path destination_path : string) (key : res string)
    (blockSize : Z) (source_file : string) : M W unit :=
  let destination_file := path_join destination_path (cli_relpath ce source_file source_path) in
  _ ← cli_makedirs ce (dirname destination_file);
  match operation with
  | Encrypt => k ← lift key; encrypt_file cr fuel source_file k blockSize destination_file
  | Decrypt => k ← lift key; decrypt_file cr source_file k blockSize destination_file
  end.

Definition cryptocopy (fuel : nat) (operation : Operation) (datastore_name datastore_config_file source_path destination_path : string)
    (blockSize : Z) : M W unit :=
  d ← get_datastore datastore_name datastore_config_file;
  let destination_path := match operation with
                          | Decrypt => path_join (path_join destination_path (de_name d)) (storeName d)
                          | Encrypt => destination_path
                          end in
  _ ← cli_makedirs ce destination_path;
  s ← get_secretstore ce (default "None" (secretstore_name d)) (default "None" (secretstore_config d));
  encryption_key ← get_secret s datastore_name;
  files ← cli_files_below ce source_path;
  for_each (crypt_one fuel operation source_path destination_path (raw_key encryption_key) (blockSize * 1048576)) files.

Definition crypt_cmd (fuel : nat) (operation : Operation) (verb : string) (datastore_name source_path destination_path datastore_config_file : string)
    (blockSize : Z) : M W unit :=
  d ← get_datastore datastore_name datastore_config_file;
  if negb (bool_decide (encryptionMode d = Some CSE)) then
    raise (CLIError (verb +:+ " is only supported for datastores with encryption mode 'CSE'. Datastore '" +:+ datastore_name
                     +:+ "' has mode '" +:+ encryption_mode_str (encryptionMode d) +:+ "'."))
  else cryptocopy fuel operation datastore_name datastore_config_file source_path destination_path blockSize.

Definition datastore_encrypt_cmd (fuel : nat) := crypt_cmd fuel Encrypt "Encryption".
Definition datastore_decrypt_cmd (fuel : nat) := crypt_cmd fuel Decrypt "Decryption".

(** [public_key.encrypt] is looked up before its arguments are evaluated. *)
Definition public_pem (s : option Secret) : res string :=
  match s with Some (SPublicKey p) => Ok p | _ => Err (AttributeError "object has no attribute 'encrypt'") end.

Definition generate_wrapped_dek (datastore_name datastore_config_file : string) (public_key : option Secret) : M W string :=
  d ← get_datastore datastore_name datastore_config_file;
  s ← get_secretstore ce (default "None" (secretstore_name d)) (default "None" (secretstore_config d));
  dek_bytes ← get_secret s datastore_name;
  pem ← lift (public_pem public_key);
  k ← lift (raw_key dek_bytes);
  c ← rsa_oaep_encrypt ce pem k;
  mret (b64encode c).

Definition crypt_file_internal (what : string) (m : M W unit) : M W unit :=
  try_except m (fun e => raise (CLIError ("Error during " +:+ what +:+ ": " +:+ exn_str e))).

Definition encrypt_file_internal (fuel : nat) (plaintextPath key : string) (blockSize : Z) (ciphertextPath : string) : M W unit :=
  crypt_file_internal "encryption" (encrypt_file cr fuel plaintextPath key blockSize ciphertextPath).

Definition decrypt_file_internal (ciphertextPath key : string) (blockSize : Z) (plaintextPath : string) : M W unit :=
  crypt_file_internal "decryption" (decrypt_file cr ciphertextPath key blockSize plaintextPath).
End Data.
