(* ===== verification/CliConfig.v ===== *)
(** * Clean room configuration commands

    [azext_cleanroom/config_cmd.py] and the configuration commands of [custom.py]:
    identities, data sources and sinks, telemetry, applications, the network, and
    the keys that wrap the data keys. *)

From S2P Require Import Prelude PyStr Base64 Json JsonFacts PyFloat Sha256 SparkModels Settings Helpers CleanroomModels SpecModels AppBuilder ConfigModels ConfigHelpers Encryptor DeployTemplate InitContainer CliStores CliData.
From Stdlib Require Import Ascii.

(** ** Updates of a specification *)

Definition with_identities (s : CleanRoomSpecification) (l : list Identity) : CleanRoomSpecification :=
  {| sandbox := sandbox s; identities := l; datasources := datasources s; datasinks := datasinks s;
     applications := applications s; network := network s; spec_governance := spec_governance s |}.
Definition with_applications (s : CleanRoomSpecification) (l : list SpecApplication) : CleanRoomSpecification :=
  {| sandbox := sandbox s; identities := identities s; datasources := datasources s; datasinks := datasinks s;
     applications := l; network := network s; spec_governance := spec_governance s |}.
Definition with_network (s : CleanRoomSpecification) (n : NetworkSettings) : CleanRoomSpecification :=
  {| sandbox := sandbox s; identities := identities s; datasources := datasources s; datasinks := datasinks s;
     applications := applications s; network := Some n; spec_governance := spec_governance s |}.
Definition with_governance (s : CleanRoomSpecification) (g : SpecGovernance) : CleanRoomSpecification :=
  {| sandbox := sandbox s; identities := identities s; datasources := datasources s; datasinks := datasinks s;
     applications := applications s; network := network s; spec_governance := Some g |}.

Definition with_http (n : NetworkSettings) (h : option HttpSettings) : NetworkSettings :=
  {| net_http := h; net_tcp := net_tcp n; net_dns := net_dns n |}.
Definition with_tcp (n : NetworkSettings) (t : option TcpSettings) : NetworkSettings :=
  {| net_http := net_http n; net_tcp := t; net_dns := net_dns n |}.
Definition with_dns (n : NetworkSettings) (d : option DnsSettings) : NetworkSettings :=
  {| net_http := net_http n; net_tcp := net_tcp n; net_dns := d |}.

Definition no_network : NetworkSettings := {| net_http := None; net_tcp := None; net_dns := None |}.
Definition no_http : HttpSettings := {| http_inbound := None; http_outbound := None |}.
Definition no_governance : SpecGovernance := {| gov_consent := None; gov_audit := None; gov_telemetry := None |}.
Definition no_telemetry : SpecTelemetry := {| tel_infrastructure := None; tel_application := None |}.

Definition empty_spec : CleanRoomSpecification :=
  {| sandbox := None; identities := [default_identity]; datasources := []; datasinks := []; applications := [];
     network := None; spec_governance := None |}.

(** ** Command lines

    [shlex.split]: words, quotes and escapes. *)

Inductive shlex_state := SBlank | SWord | SSingle | SDouble.

(** [word] is the word read so far, [escaped] after a backslash. *)
Fixpoint shlex_go (st : shlex_state) (escaped : bool) (word s : string) : res (list string) :=
  match s with
  | "" =>
      if escaped then Err (ValueError "No escaped character")
      else match st with
           | SBlank => Ok []
           | SWord => Ok [word]
           | SSingle | SDouble => Err (ValueError "No closing quotation")
           end
  | String c s' =>
      let put := word +:+ String c "" in
      if escaped then
        match st with
        | SDouble =>
            shlex_go SDouble false
              (if bool_decide (c = ascii_of_nat 34 \/ c = "\"%char) then put else word +:+ "\" +:+ String c "") s'
        | _ => shlex_go SWord false put s'
        end
      else match st with
           | SSingle => if bool_decide (c = "'"%char) then shlex_go SWord false word s' else shlex_go SSingle false put s'
           | SDouble =>
               if bool_decide (c = ascii_of_nat 34) then shlex_go SWord false word s'
               else if bool_decide (c = "\"%char) then shlex_go SDouble true word s'
               else shlex_go SDouble false put s'
           | SBlank | SWord =>
               if is_space c then match st with SWord => cons word <$> shlex_go SBlank false "" s' | _ => shlex_go SBlank false "" s' end
               else if bool_decide (c = "'"%char) then shlex_go SSingle false word s'
               else if bool_decide (c = ascii_of_nat 34) then shlex_go SDouble false word s'
               else if bool_decide (c = "\"%char) then shlex_go SWord true word s'
               else shlex_go SWord false put s'
           end
  end.

Definition shlex_split (s : string) : res (list string) := shlex_go SBlank false "" s.

Definition is_alnum (c : ascii) : bool :=
  is_digit c || in_range 65 90 c || in_range 97 122 c.

Fixpoint str_filter (p : ascii -> bool) (s : string) : string :=
  match s with "" => "" | String c s' => if p c then String c (str_filter p s') else str_filter p s' end.

(** [os.path.basename] *)
Definition basename (path : string) : string :=
  match rpartition_char "/" path with Some (_, b) => b | None => path end.

Inductive TrafficDirection := Dir_Inbound | Dir_Outbound.

(** The policy of a proxy: an external bundle, or none. *)
Definition proxy_policy (policy_bundle_url : string) : PrivacyProxySettings :=
  {| proxyType := PT_API; proxyMode := PM_Open;
     privacyPolicy :=
       if str_truthy policy_bundle_url then
         Some (Some (ExternalPolicy
           {| documentType := "OCI"; authenticityReceipt := ""; doc_identity := None;
              doc_backingResource :=
                {| resource_name := policy_bundle_url; resource_type := RT_AzureContainerRegistry;
                   resource_id := policy_bundle_url;
                   provider := {| protocol := AzureContainerRegistry; endpoint_url := policy_bundle_url;
                                  endpoint_configuration := Some "" |} |} |}))
       else None;
     configuration := Some ""; encryptionSecrets := None; encryptionSecretAccessIdentity := None |}.

Section Config.
Context {W : Type} (ce : CliEnv W) (cr : CryptEnv W).

Definition read_cleanroom_spec_internal (config_file : string) : M W CleanRoomSpecification :=
  try_except (read_cleanroom_spec (ce_config ce) config_file)
    (fun e => match e with
              | FileNotFoundError _ =>
                  raise (CLIError ("Cannot find file " +:+ config_file +:+ ". Check the --*-config parameter value."))
              | _ => raise e
              end).

Definition write_cleanroom_spec_internal (config_file : string) (config : CleanRoomSpecification) : M W unit :=
  write_cleanroom_spec (ce_config ce) config_file config.

(** ** Identities *)

(** The errors of adding an identity. *)
Definition identity_error (backing_identity kind : string) (e : exn) : exn :=
  if has_code EC_BackingIdentityNotFound e
  then CLIError ("Identity " +:+ backing_identity +:+ " could not be found in the config file. First add the "
                 +:+ backing_identity +:+ " before adding a " +:+ kind +:+ " identity.")
  else if is_spec_error e then CLIError ("Error adding identity: " +:+ exn_str e)
  else e.

Definition or_identity_error {A} (backing_identity kind : string) (r : res A) : res A :=
  match r with Ok a => Ok a | Err e => Err (identity_error backing_identity kind e) end.

Definition config_add_identity_az_federated_cmd
    (cleanroom_config_file name client_id tenant_id backing_identity issuer_url : string) : M W unit :=
  spec ← read_cleanroom_spec_internal cleanroom_config_file;
  l ← lift (or_identity_error backing_identity "federated"
              (add_identity_az_federated (identity_manager (identities spec)) name client_id tenant_id issuer_url backing_identity));
  write_cleanroom_spec_internal cleanroom_config_file (with_identities spec l).

Definition config_add_identity_az_secret_cmd
    (cleanroom_config_file name client_id tenant_id secret_name secret_store_url backing_identity : string) : M W unit :=
  spec ← read_cleanroom_spec_internal cleanroom_config_file;
  l ← lift (or_identity_error backing_identity "secret based"
              (add_identity_az_secret (identity_manager (identities spec)) name client_id tenant_id secret_name secret_store_url
                 backing_identity));
  write_cleanroom_spec_internal cleanroom_config_file (with_identities spec l).

Definition config_add_identity_oidc_attested_cmd (cleanroom_config_file name client_id tenant_id issuer_url : string) : M W unit :=
  spec ← read_cleanroom_spec_internal cleanroom_config_file;
  write_cleanroom_spec_internal cleanroom_config_file
    (with_identities spec (add_identity_oidc_attested (identity_manager (identities spec)) name client_id tenant_id issuer_url)).

(** ** Data sources, data sinks and telemetry *)

Definition config_add_datasource_cmd (cleanroom_config_file datastore_name identity datastore_config_file : string) (o : AddOptions)
  : M W unit :=
  config_add_datastore_internal ce cleanroom_config_file datastore_name datastore_config_file identity Source o.

Definition config_add_datasink_cmd (cleanroom_config_file datastore_name identity datastore_config_file : string) (o : AddOptions)
  : M W unit :=
  config_add_datastore_internal ce cleanroom_config_file datastore_name datastore_config_file identity Sink o.

(** The parameters of the telemetry commands after the file. *)
Record TelemetryOptions := {
  to_mode : EncryptionMode;
  to_storage_account : string;
  to_identity : string;
  to_datastore_secret_store : string;
  to_dek_secret_store : string;
  to_kek_secret_store : string;
  to_datastore_config_file : string;
  to_secretstore_config_file : string;
  to_kek_name : string;
  to_container_suffix : string
}.

(** Some of the four is enough. *)
Definition check_telemetry_keys (o : TelemetryOptions) : res unit :=
  if uses_keys (Some (to_mode o))
     && negb (str_truthy (to_dek_secret_store o) || str_truthy (to_kek_secret_store o)
              || str_truthy (to_datastore_secret_store o) || str_truthy (to_kek_name o))
  then Err (CLIError ("For encryption mode '" +:+ encryption_mode_value (to_mode o)
         +:+ "', dek_secret_store, kek_secret_store, datastore_secret_store, and kek_name must all be specified."))
  else Ok ().

Definition telemetry_datastore_name (access_name cleanroom_config_file : string) : string :=
  generate_safe_datastore_name access_name cleanroom_config_file (str_filter is_alnum (basename cleanroom_config_file)).

(** A data store for telemetry and the data sink of the clean room on it; answers
    the specification and the sink. *)
Definition add_telemetry_sink (access_name cleanroom_config_file : string) (o : TelemetryOptions)
  : M W (CleanRoomSpecification * AccessPoint) :=
  _ ← lift (check_telemetry_keys o);
  let datastore_name := telemetry_datastore_name access_name cleanroom_config_file in
  let container_name := if str_truthy (to_container_suffix o)
                        then str_take 63 (access_name +:+ "-" +:+ to_container_suffix o) else "" in
  _ ← datastore_add_cmd ce datastore_name
        {| da_type := St_Azure_BlobStorage; da_mode := to_mode o; da_secret_store := to_datastore_secret_store o;
           da_backingstore_id := to_storage_account o; da_aws_config_cgs_secret_id := ""; da_schema_file := "";
           da_schema_format := ""; da_schema_fields := ""; da_config_file := to_datastore_config_file o;
           da_secretstore_config_file := to_secretstore_config_file o; da_container_name := container_name |};
  _ ← config_add_datastore_internal ce cleanroom_config_file datastore_name (to_datastore_config_file o) (to_identity o) Sink
        {| o_secretstore_config_file := to_secretstore_config_file o; o_dek_secret_store := to_dek_secret_store o;
           o_kek_secret_store := to_kek_secret_store o; o_kek_name := to_kek_name o; o_access_name := access_name;
           o_subdirectory := "" |};
  spec ← read_cleanroom_spec_internal cleanroom_config_file;
  sink ← lift (of_option (IndexError "list index out of range") (snd <$> find_named ap_name access_name (datasinks spec)));
  mret (spec, sink).

Definition with_telemetry (spec : CleanRoomSpecification) (f : SpecTelemetry -> SpecTelemetry) : CleanRoomSpecification :=
  let g := default no_governance (spec_governance spec) in
  with_governance spec {| gov_consent := gov_consent g; gov_audit := gov_audit g;
                          gov_telemetry := Some (f (default no_telemetry (gov_telemetry g))) |}.

Definition config_set_telemetry_cmd (cleanroom_config_file : string) (o : TelemetryOptions) : M W unit :=
  r ← add_telemetry_sink "infrastructure-telemetry" cleanroom_config_file o;
  write_cleanroom_spec_internal cleanroom_config_file
    (with_telemetry r.1 (fun t =>
       {| tel_infrastructure := Some {| it_consent := None; it_metrics := r.2; it_traces := r.2; it_logs := r.2 |};
          tel_application := tel_application t |})).

Definition config_set_logging_cmd (cleanroom_config_file : string) (o : TelemetryOptions) : M W unit :=
  r ← add_telemetry_sink "application-telemetry" cleanroom_config_file o;
  write_cleanroom_spec_internal cleanroom_config_file
    (with_telemetry r.1 (fun t =>
       {| tel_infrastructure := tel_infrastructure t;
          tel_application := Some {| at_consent := None; at_logs := r.2 |} |})).

Definition datasink_download (cleanroom_config_file datasink_name datastore_config_file target_folder : string) : M W unit :=
  n ← config_get_datastore_name_internal ce cleanroom_config_file datasink_name Sink;
  datastore_download_cmd ce target_folder (default "None" n) datastore_config_file "".

Definition telemetry_download_cmd (cleanroom_config_file target_folder datastore_config_file : string) : M W unit :=
  datasink_download cleanroom_config_file "infrastructure-telemetry" datastore_config_file target_folder.
Definition logs_download_cmd (cleanroom_config_file target_folder datastore_config_file : string) : M W unit :=
  datasink_download cleanroom_config_file "application-telemetry" datastore_config_file target_folder.

Definition sink_decrypt (fuel : nat) (access_name cleanroom_config_file source_path destination_path datastore_config_file : string)
  : M W unit :=
  n ← config_get_datastore_name_internal ce cleanroom_config_file access_name Sink;
  datastore_decrypt_cmd ce cr fuel (default "None" n) source_path destination_path datastore_config_file 16.

Definition telemetry_decrypt_cmd (fuel : nat) := sink_decrypt fuel "infrastructure-telemetry".
Definition logs_decrypt_cmd (fuel : nat) := sink_decrypt fuel "application-telemetry".

(** ** The specification *)

Definition config_init_cmd (cleanroom_config_file : string) : M W unit :=
  found ← config_exists (ce_config ce) cleanroom_config_file;
  if (found : bool) then mret () else write_cleanroom_spec_internal cleanroom_config_file empty_spec.

(** The parameters of [config_add_application_cmd] after the file. *)
Record AppOptions := {
  ao_name : string;
  ao_auto_start : bool;
  ao_image : string;
  ao_cpu : float;
  ao_memory : float;
  ao_ports : list Z;
  ao_command_line : option string;
  ao_datasources : list (string * string);
  ao_datasinks : list (string * string);
  ao_env_vars : list (string * string);
  ao_acr_access_identity : option string
}.

Definition https_trust : string := b64encode (utf8_encode (dumps (JObj [("trustType", JStr "https")]))).

Definition make_application (o : AppOptions) (acr_identity : option Identity) (command : list string) : SpecApplication := {|
  app_name := ao_name o;
  app_image :=
    {| executable :=
         {| documentType := "OCI"; authenticityReceipt := ""; doc_identity := acr_identity;
            doc_backingResource :=
              {| resource_name := ao_name o; resource_type := RT_AzureContainerRegistry; resource_id := ao_image o;
                 provider := {| protocol := AzureContainerRegistry; endpoint_url := hd "" (split_on "/" (ao_image o));
                                endpoint_configuration := Some "" |} |} |};
       image_protection := None; enforcementPolicy := Some (InlinePolicy (Some https_trust)) |};
  app_startType := if ao_auto_start o then Start_Auto else Start_Manual;
  app_command := command; app_environmentVariables := ao_env_vars o; app_datasources := Some (ao_datasources o);
  app_datasinks := Some (ao_datasinks o);
  runtimeSettings := {| rs_ports := ao_ports o; rs_requests := {| req_cpu := ao_cpu o; req_memoryInGB := ao_memory o |} |} |}.

Definition config_add_application_cmd (cleanroom_config_file : string) (o : AppOptions) : M W unit :=
  spec ← read_cleanroom_spec_internal cleanroom_config_file;
  acr_identity ← lift (match ao_acr_access_identity o with
                       | None => Ok None
                       | Some n => Some <$> of_option (CLIError "Run az cleanroom config add-identity first.")
                                             (snd <$> find_named identity_name n (identities spec))
                       end);
  command ← lift (if ostr_truthy (ao_command_line o) then shlex_split (default "" (ao_command_line o)) else Ok []);
  write_cleanroom_spec_internal cleanroom_config_file
    (with_applications spec (upsert app_name (make_application o acr_identity command) (applications spec))).

(** ** The network *)

Definition enable_http (d : TrafficDirection) (p : PrivacyProxySettings) (h : HttpSettings) : HttpSettings :=
  match d with
  | Dir_Inbound => {| http_inbound := Some {| inbound_enabled := true; inbound_policy := p |}; http_outbound := http_outbound h |}
  | Dir_Outbound => {| http_inbound := http_inbound h; http_outbound := Some {| outbound_enabled := true; outbound_policy := p |} |}
  end.

Definition disable_http (d : TrafficDirection) (h : HttpSettings) : HttpSettings :=
  match d with
  | Dir_Inbound => {| http_inbound := None; http_outbound := http_outbound h |}
  | Dir_Outbound => {| http_inbound := http_inbound h; http_outbound := None |}
  end.

Definition config_network_http_enable_cmd (cleanroom_config_file : string) (direction : TrafficDirection) (policy_bundle_url : string)
  : M W unit :=
  spec ← read_cleanroom_spec_internal cleanroom_config_file;
  let n := default no_network (network spec) in
  let h := default no_http (net_http n) in
  write_cleanroom_spec_internal cleanroom_config_file
    (with_network spec (with_http n (Some (enable_http direction (proxy_policy policy_bundle_url) h)))).

Definition config_network_http_disable_cmd (cleanroom_config_file : string) (direction : TrafficDirection) : M W unit :=
  spec ← read_cleanroom_spec_internal cleanroom_config_file;
  match network spec with
  | Some n => match net_http n with
              | Some h => write_cleanroom_spec_internal cleanroom_config_file
                            (with_network spec (with_http n (Some (disable_http direction h))))
              | None => mret ()
              end
  | None => mret ()
  end.

(** [ip_address_ok]: whether [ipaddress.ip_address] takes a text. *)
Fixpoint append_endpoints (ip_address_ok : string -> bool) (allowed_ips : list (string * string)) (o : TcpOutbound) : res TcpOutbound :=
  match allowed_ips with
  | [] => Ok o
  | (address, port) :: rest =>
      if negb (ip_address_ok address)
      then Err (CLIError ("Invalid IP address: " +:+ address +:+ ". Only IP address allow listing is supported currently."))
      else p ← py_int port;
           append_endpoints ip_address_ok rest
             {| tcp_out_enabled := tcp_out_enabled o; allowedIPs := allowedIPs o ++ [{| ne_address := address; ne_port := p |}] |}
  end.

(** TCP settings without outbound settings have nothing to append to. *)
Definition config_network_tcp_enable_cmd (ip_address_ok : string -> bool) (cleanroom_config_file : string)
    (allowed_ips : list (string * string)) : M W unit :=
  spec ← read_cleanroom_spec_internal cleanroom_config_file;
  match allowed_ips with
  | [] => raise (CLIError "No IP addresses provided for allow listing.")
  | (first, _) :: _ =>
      let n := default no_network (network spec) in
      let t := default {| tcp_outbound := Some {| tcp_out_enabled := true; allowedIPs := [] |} |} (net_tcp n) in
      o ← lift (match tcp_outbound t with
                | Some o => append_endpoints ip_address_ok allowed_ips o
                | None => if ip_address_ok first then Err (AttributeError "'NoneType' object has no attribute 'allowedIPs'")
                          else Err (CLIError ("Invalid IP address: " +:+ first +:+ ". Only IP address allow listing is supported currently."))
                end);
      write_cleanroom_spec_internal cleanroom_config_file
        (with_network spec (with_tcp n (Some {| tcp_outbound := Some o |})))
  end.

(** The outbound settings are removed; the TCP settings stay. *)
Definition config_network_tcp_disable_cmd (cleanroom_config_file : string) : M W unit :=
  spec ← read_cleanroom_spec_internal cleanroom_config_file;
  match network spec with
  | Some n => match net_tcp n with
              | Some _ => write_cleanroom_spec_internal cleanroom_config_file
                            (with_network spec (with_tcp n (Some {| tcp_outbound := None |})))
              | None => mret ()
              end
  | None => mret ()
  end.

Definition config_network_dns_enable_cmd (cleanroom_config_file : string) (port : Z) : M W unit :=
  spec ← read_cleanroom_spec_internal cleanroom_config_file;
  write_cleanroom_spec_internal cleanroom_config_file
    (with_network spec (with_dns (default no_network (network spec)) (Some {| dns_enabled := true; dns_port := port |}))).

Definition config_network_dns_disable_cmd (cleanroom_config_file : string) : M W unit :=
  spec ← read_cleanroom_spec_internal cleanroom_config_file;
  match network spec with
  | Some n => write_cleanroom_spec_internal cleanroom_config_file (with_network spec (with_dns n None))
  | None => mret ()
  end.

(** The texts of the issues, as Python shows a list of them. *)
Definition config_validate_cmd (cleanroom_config_file : string) : M W unit :=
  spec ← read_cleanroom_spec_internal cleanroom_config_file;
  match (validate_config spec).1 with
  | [] => mret ()
  | issues => raise (CLIError (py_str (JArr (map (fun e => JStr (exn_str e)) issues))))
  end.

(** ** Keys *)

Definition create_kek (secretstore_config_file kek_secret_store_name kek_name key_release_policy : string) : M W unit :=
  s ← get_secretstore ce kek_secret_store_name secretstore_config_file;
  _ ← add_secret s kek_name (pem ← rsa_generate ce; mret (SPrivateKey pem)) (Some key_release_policy);
  mret ().

(** The key of an access point with encryption secrets. *)
Definition access_point_kek (ap : AccessPoint) : res (option (EncryptionSecrets * EncryptionSecret)) :=
  match encryptionSecrets (protection ap) with
  | None => Ok None
  | Some s => k ← of_option (AttributeError "'NoneType' object has no attribute 'secret'") (kek s); Ok (Some (s, k))
  end.

Definition create_access_point_kek (secretstore_config_file key_release_policy : string) (ap : AccessPoint) : M W unit :=
  k ← lift (access_point_kek ap);
  match k with
  | None => mret ()
  | Some (_, k) =>
      create_kek secretstore_config_file (resource_id (backingResource (es_secret k)))
        (resource_name (backingResource (es_secret k))) key_release_policy
  end.

Definition config_create_kek (cleanroom_config_file secretstore_config_file key_release_policy : string) : M W unit :=
  spec ← read_cleanroom_spec_internal cleanroom_config_file;
  for_each (create_access_point_kek secretstore_config_file key_release_policy) (datasources spec ++ datasinks spec).

(** The host data of the policy of a contract. *)
Definition host_data (contract_id : string) (cl_policy : json) : res string :=
  let missing := Err (CLIError ("No clean room policy found under contract '" +:+ contract_id
    +:+ "'. Check --contract-id parameter is correct and that a policy proposal for the contract has been accepted.")) in
  has ← json_has "policy" cl_policy;
  if negb has then missing
  else
    policy ← json_item cl_policy "policy";
    has ← json_has "x-ms-sevsnpvm-hostdata" policy;
    if negb has then missing
    else data ← json_item policy "x-ms-sevsnpvm-hostdata"; first ← json_step (Idx 0) data; json_text first.

Definition config_create_kek_policy_cmd (cleanroom_config_file contract_id b64_cl_policy secretstore_config_file : string) : M W unit :=
  h ← lift (raw ← b64decode b64_cl_policy; text ← utf8_decode raw; cl_policy ← loads text; host_data contract_id cl_policy);
  config_create_kek cleanroom_config_file secretstore_config_file h.

(** Wrapping the data key of an access point. *)
Definition wrap_access_point_dek (datastore_config_file secretstore_config_file : string) (ap : AccessPoint) : M W unit :=
  k ← lift (access_point_kek ap);
  match k with
  | None => mret ()
  | Some (secrets, k) =>
      kek_store ← get_secretstore ce (resource_id (backingResource (es_secret k))) secretstore_config_file;
      public_key ← get_secret kek_store (es_name k);
      let dek_resource := backingResource (es_secret (dek secrets)) in
      dek_store ← get_secretstore ce (resource_id dek_resource) secretstore_config_file;
      _ ← add_secret dek_store (resource_name dek_resource)
            (t ← generate_wrapped_dek ce (resource_id (store ap)) datastore_config_file public_key; mret (SText t)) None;
      mret ()
  end.

Definition config_wrap_deks (cleanroom_config_file datastore_config_file secretstore_config_file : string) : M W unit :=
  config ← read_cleanroom_spec_internal cleanroom_config_file;
  for_each (wrap_access_point_dek datastore_config_file secretstore_config_file) (datasources config ++ datasinks config).
End Config.
