(* ===== verification/CliGov.v ===== *)
(** * Governance commands

    The commands of [azext_cleanroom/custom.py] that talk to the consortium's
    governance client: contracts, proposals, users, members, documents, the
    deployment of a clean room and the keys that are released to it.  The client's
    container, HTTP and the JSON arguments of the command line are a parameter
    ([GovEnv]). *)

From S2P Require Import Prelude PyStr Base64 Json JsonFacts PyFloat Sha256 SparkModels Settings Helpers CleanroomModels SpecModels AppBuilder Md5 ConfigModels ConfigHelpers Encryptor DeployTemplate InitContainer JsonIndent CliStores CliData CliConfig.
From Stdlib Require Import Ascii.

(** ** The environment *)

(** A [requests.Response]: its headers, the method and the address of the request as
    sent, and the outcome of [r.json()]. *)
Record GovResponse := {
  gr_status : Z;
  gr_headers : list (string * string);
  gr_text : string;
  gr_method : string;
  gr_url : string;
  gr_json : res json
}.

Record GovEnv (W : Type) := {
  ge_cli : CliEnv W;
  ge_template : TemplateEnv W;
  (** [cli_ctx.config.get("cleanroom", "governance.client_name", "")] *)
  ge_default_client : M W string;
  docker_from_env : M W unit;
  (** [client.containers.get(name).ports] *)
  container_ports : string -> M W json;
  (** a request: method, address, headers and JSON body *)
  ge_request : string -> string -> list (string * string) -> option json -> M W GovResponse;
  get_file_json : string -> M W json;
  shell_safe_json_parse : string -> res json;
  (** [yaml.safe_load] of a text *)
  ge_yaml : string -> res (document (ce_config ge_cli))
}.
Arguments ge_cli {W}.
Arguments ge_template {W}.
Arguments ge_default_client {W}.
Arguments docker_from_env {W}.
Arguments container_ports {W}.
Arguments ge_request {W}.
Arguments get_file_json {W}.
Arguments shell_safe_json_parse {W}.
Arguments ge_yaml {W}.

(** A proposal with one action. *)
Definition proposal (name : string) (args : list (string * json)) : json :=
  JObj [("actions", JArr [JObj [("name", JStr name); ("args", JObj args)]])].

(** A parameter that may be left out. *)
Definition opt_json (s : option string) : json := match s with Some t => JStr t | None => JNull end.

Definition response_error_message (r : GovResponse) : string :=
  gr_method r +:+ " " +:+ gr_url r +:+ " failed with status: " +:+ str_of_Z (gr_status r) +:+ " response: " +:+ gr_text r.

(** [uuid.uuid4().hex] *)
Definition hex_of (uuid : string) : string := str_filter (fun c => negb (bool_decide (c = "-"%char))) uuid.

(** Reading in text mode makes every line end a line feed. *)
Fixpoint universal_newlines (s : string) : string :=
  match s with
  | "" => ""
  | String c s' =>
      if decide (c = ascii_of_nat 13) then
        match s' with
        | String d s'' =>
            if decide (d = ascii_of_nat 10) then String (ascii_of_nat 10) (universal_newlines s'')
            else String (ascii_of_nat 10) (universal_newlines s')
        | "" => newline
        end
      else String c (universal_newlines s')
  end.

Definition vote_method (action : string) : string := if bool_decide (action = "accept") then "vote_accept" else "vote_reject".

Section Gov.
Context {W : Type} (ge : GovEnv W).

Definition get_gov_client_name (gov_client_name : string) : M W string :=
  if str_truthy gov_client_name then mret gov_client_name
  else
    n ← ge_default_client ge;
    if str_truthy n then mret n
    else raise (CLIError "--governance-client=<value> parameter must be specified or set a default value via `az config set cleanroom governance.client_name=<value>`").

Definition host_port (container_name : string) : M W json :=
  ports ← container_ports ge container_name;
  lift (p ← json_item ports "8080/tcp"; first ← json_step (Idx 0) p; json_item first "HostPort").

Definition get_cgs_client_port (gov_client_name : string) : M W json :=
  name ← get_gov_client_name gov_client_name;
  _ ← docker_from_env ge;
  try_except (host_port (name +:+ "-cgs-client-1"))
    (fun _ => try_except (host_port name)
       (fun _ => raise (CLIError ("Not finding a client instance running with name '" +:+ name
                                  +:+ "'. Check the --governance-client parameter value.")))).

Definition get_cgs_client_endpoint (gov_client_name : string) : M W string :=
  port ← get_cgs_client_port gov_client_name;
  mret ("http://localhost:" +:+ py_str port).

(** *** One request

    Every status but 200 is an error. *)

Definition checked_response (r : GovResponse) : res unit :=
  if (gr_status r =? 200)%Z then Ok () else Err (CLIError (response_error_message r)).

Definition send (method endpoint path : string) (body : option json) : M W GovResponse :=
  r ← ge_request ge method (endpoint +:+ path) [] body;
  _ ← lift (checked_response r);
  mret r.

(** A command that answers nothing, and one that answers the response's JSON. *)
Definition cgs_do (gov_client_name method path : string) (body : option json) : M W unit :=
  cgs_endpoint ← get_cgs_client_endpoint gov_client_name;
  _ ← send method cgs_endpoint path body;
  mret ().

Definition cgs_ask (gov_client_name method path : string) (body : option json) : M W json :=
  cgs_endpoint ← get_cgs_client_endpoint gov_client_name;
  r ← send method cgs_endpoint path body;
  lift (gr_json r).

Definition propose (gov_client_name name : string) (args : list (string * json)) : M W json :=
  cgs_ask gov_client_name "POST" "/proposals/create" (Some (proposal name args)).

(** A JSON argument: the name of a file or the text itself. *)
Definition json_argument (text : string) : M W json :=
  found ← cli_exists (ge_cli ge) text;
  if (found : bool) then get_file_json ge text else lift (shell_safe_json_parse ge text).

(** ** The client *)

Definition governance_client_show_cmd (gov_client_name : string) : M W json :=
  cgs_endpoint ← get_cgs_client_endpoint gov_client_name;
  r ← ge_request ge "GET" (cgs_endpoint +:+ "/show") [] None;
  if (gr_status r =? 204)%Z then mret (JStr "{}")
  else _ ← lift (checked_response r); lift (gr_json r).

Definition governance_client_get_access_token_cmd (gov_client_name : string) : M W json :=
  cgs_ask gov_client_name "GET" "/identity/accessToken" None.

Definition governance_service_upgrade_status_cmd (gov_client_name : string) : M W json :=
  cgs_ask gov_client_name "GET" "/checkUpdates" None.

(** ** Contracts *)

Definition contract_path (contract_id path : string) : string := "/contracts/" +:+ contract_id +:+ path.

Definition governance_contract_create_cmd (contract_id data gov_client_name version : string) : M W unit :=
  cgs_do gov_client_name "PUT" (contract_path contract_id "") (Some (JObj [("version", JStr version); ("data", JStr data)])).

Definition governance_contract_show_cmd (gov_client_name contract_id : string) : M W json :=
  cgs_ask gov_client_name "GET" (contract_path contract_id "") None.

Definition governance_contract_propose_cmd (contract_id : string) (version : json) (gov_client_name : string) : M W json :=
  cgs_ask gov_client_name "POST" (contract_path contract_id "/propose") (Some (JObj [("version", version)])).

Definition governance_contract_vote_cmd (contract_id : string) (proposal_id : json) (action gov_client_name : string) : M W json :=
  cgs_ask gov_client_name "POST" (contract_path contract_id ("/" +:+ vote_method action)) (Some (JObj [("proposalId", proposal_id)])).

Definition governance_contract_runtime_option_get_cmd (contract_id option_name gov_client_name : string) : M W json :=
  cgs_ask gov_client_name "POST" (contract_path contract_id ("/checkstatus/" +:+ option_name)) None.

Definition governance_contract_runtime_option_set_cmd (contract_id option_name action gov_client_name : string) : M W unit :=
  cgs_do gov_client_name "POST" (contract_path contract_id ("/" +:+ option_name +:+ "/" +:+ action)) None.

Definition governance_contract_runtime_option_propose_cmd (contract_id option_name action gov_client_name : string) : M W json :=
  cgs_ask gov_client_name "POST" (contract_path contract_id ("/" +:+ option_name +:+ "/propose-" +:+ action)) None.

Definition governance_contract_secret_set_cmd (contract_id secret_name value gov_client_name : string) : M W json :=
  cgs_ask gov_client_name "PUT" (contract_path contract_id ("/secrets/" +:+ secret_name)) (Some (JObj [("value", JStr value)])).

Definition governance_contract_secret_list_cmd (contract_id gov_client_name : string) : M W json :=
  cgs_ask gov_client_name "GET" (contract_path contract_id "/secrets") None.

Definition governance_contract_secret_get_cleanroom_policy_cmd (contract_id secret_name gov_client_name : string) : M W json :=
  cgs_ask gov_client_name "GET" (contract_path contract_id ("/secrets/" +:+ secret_name +:+ "/cleanroompolicy")) None.

(** The filters of a list of events. *)
Definition event_query (all : bool) (event_id scope : string) : string :=
  (if str_truthy event_id then "&id=all" +:+ event_id else "")
    +:+ (if str_truthy scope then "&scope=" +:+ scope else "")
    +:+ (if all then "&from_seqno=1" else "").

Definition governance_contract_event_list_cmd (contract_id : string) (all : bool) (event_id scope gov_client_name : string) : M W json :=
  let query := event_query all event_id scope in
  cgs_ask gov_client_name "GET"
    (contract_path contract_id ("/events" +:+ if str_truthy query then "?" +:+ query else "")) None.

(** ** Users *)

(** What is said of a user: an object identifier with its tenant, or an accepted
    invitation. *)
Definition user_identity (object_id tenant_id identifier account_type accepted_invitation_id : option string) : res json :=
  if ostr_truthy object_id && ostr_truthy accepted_invitation_id
  then Err (CLIError "Both object_id and accepted_invitation_id cannot be specified together.")
  else if ostr_truthy object_id then
    if negb (ostr_truthy tenant_id) then Err (CLIError "Tenant Id must be specified with object id.")
    else if negb (ostr_truthy identifier) then Err (CLIError "Identifier must be specified with object id.")
    else if negb (ostr_truthy account_type) then Err (CLIError "Account type must be specified with object id.")
    else if bool_decide (account_type = Some "microsoft")
    then Ok (JObj [("objectId", opt_json object_id); ("tenantId", opt_json tenant_id); ("identifier", opt_json identifier);
                   ("accountType", JStr "microsoft")])
    else Err (CLIError "--account-type value not handled.")
  else if ostr_truthy accepted_invitation_id then
    if ostr_truthy tenant_id then Err (CLIError "Tenant Id cannot be specified with accepted invitation id.")
    else if ostr_truthy identifier then Err (CLIError "Identifier cannot be specified with accepted invitation id.")
    else if ostr_truthy account_type then Err (CLIError "Account type cannot be specified with accepted invitation id.")
    else Ok (JObj [("acceptedInvitationId", opt_json accepted_invitation_id)])
  else Err (CLIError "Either object_id or accepted_invitation_id must be specified.").

Definition governance_user_identity_add_cmd (object_id tenant_id identifier account_type accepted_invitation_id : option string)
    (gov_client_name : string) : M W json :=
  content ← lift (user_identity object_id tenant_id identifier account_type accepted_invitation_id);
  cgs_ask gov_client_name "POST" "/users/identities/add" (Some content).

Definition governance_user_identity_remove_cmd (object_id gov_client_name : string) : M W json :=
  propose gov_client_name "remove_user_identity" [("id", JStr object_id)].

Definition governance_user_identity_show_cmd (identity_id gov_client_name : string) : M W json :=
  cgs_ask gov_client_name "GET" ("/users/identities/" +:+ identity_id) None.

Definition invitation (invitation_id account_type username identity_type : string) (tenant_id : option string) : res json :=
  if bool_decide (identity_type = "service-principal") && negb (ostr_truthy tenant_id)
  then Err (CLIError "Tenant Id must be specified with service principal type.")
  else if bool_decide (account_type = "microsoft")
  then Ok (JObj [("invitationId", JStr invitation_id); ("userName", JStr username);
                 ("identityType", JStr (if bool_decide (identity_type = "service-principal") then "ServicePrincipal" else "User"));
                 ("tenantId", opt_json tenant_id); ("accountType", JStr "microsoft")])
  else Err (CLIError "--account-type value not handled.").

Definition governance_user_identity_invitation_create_cmd (invitation_id account_type username identity_type : string)
    (tenant_id : option string) (gov_client_name : string) : M W json :=
  content ← lift (invitation invitation_id account_type username identity_type tenant_id);
  cgs_ask gov_client_name "POST" "/users/invitations/propose" (Some content).

Definition governance_user_identity_invitation_accept_cmd (invitation_id gov_client_name : string) : M W unit :=
  cgs_do gov_client_name "POST" ("/users/invitations/" +:+ invitation_id +:+ "/accept") None.

Definition governance_user_identity_invitation_show_cmd (invitation_id gov_client_name : string) : M W json :=
  cgs_ask gov_client_name "GET" ("/users/invitations/" +:+ invitation_id) None.

(** ** Proposals *)

Definition governance_proposal_create_cmd (content gov_client_name : string) : M W json :=
  content ← json_argument content;
  cgs_ask gov_client_name "POST" "/proposals/create" (Some content).

Definition governance_proposal_list_cmd (gov_client_name : string) : M W json := cgs_ask gov_client_name "GET" "/proposals" None.

Definition proposal_path (proposal_id path : string) : string := "/proposals/" +:+ proposal_id +:+ path.

Definition governance_proposal_show_cmd (proposal_id gov_client_name : string) : M W json :=
  cgs_ask gov_client_name "GET" (proposal_path proposal_id "") None.
Definition governance_proposal_show_actions_cmd (proposal_id gov_client_name : string) : M W json :=
  cgs_ask gov_client_name "GET" (proposal_path proposal_id "/actions") None.
Definition governance_proposal_vote_cmd (proposal_id action gov_client_name : string) : M W json :=
  cgs_ask gov_client_name "POST" (proposal_path proposal_id ("/ballots/" +:+ vote_method action)) None.
Definition governance_proposal_withdraw_cmd (proposal_id gov_client_name : string) : M W json :=
  cgs_ask gov_client_name "POST" (proposal_path proposal_id "/withdraw") None.

(** ** Keys of the service *)

Definition propose_with_kid (gov_client_name name : string) : M W json :=
  id ← cli_uuid4 (ge_cli ge);
  propose gov_client_name name [("kid", JStr (hex_of id))].

Definition governance_oidc_issuer_propose_enable_cmd (gov_client_name : string) : M W json :=
  propose_with_kid gov_client_name "enable_oidc_issuer".
Definition governance_oidc_issuer_generate_signing_key_cmd (gov_client_name : string) : M W json :=
  cgs_ask gov_client_name "POST" "/oidc/generateSigningKey" None.
Definition governance_oidc_issuer_propose_rotate_signing_key_cmd (gov_client_name : string) : M W json :=
  propose gov_client_name "oidc_issuer_enable_rotate_signing_key" [].
Definition governance_oidc_issuer_set_issuer_url_cmd (url gov_client_name : string) : M W unit :=
  cgs_do gov_client_name "POST" "/oidc/setIssuerUrl" (Some (JObj [("url", JStr url)])).
Definition governance_oidc_issuer_propose_set_issuer_url_cmd (url gov_client_name : string) : M W json :=
  propose gov_client_name "set_oidc_issuer_url" [("issuer_url", JStr url)].
Definition governance_oidc_issuer_show_cmd (gov_client_name : string) : M W json :=
  cgs_ask gov_client_name "GET" "/oidc/issuerInfo" None.

Definition governance_signing_propose_enable_cmd (gov_client_name : string) : M W json :=
  propose_with_kid gov_client_name "enable_signing".
Definition governance_signing_generate_signing_key_cmd (gov_client_name : string) : M W json :=
  cgs_ask gov_client_name "POST" "/signing/generateSigningKey" None.
Definition governance_signing_propose_rotate_signing_key_cmd (gov_client_name : string) : M W json :=
  propose gov_client_name "signing_enable_rotate_signing_key" [].
Definition governance_signing_show_cmd (gov_client_name : string) : M W json :=
  cgs_ask gov_client_name "POST" "/signing/info" None.

Definition governance_ca_propose_enable_cmd (contract_id gov_client_name : string) : M W json :=
  propose gov_client_name "enable_ca" [("contractId", JStr contract_id)].
Definition governance_ca_generate_key_cmd (contract_id gov_client_name : string) : M W json :=
  cgs_ask gov_client_name "POST" (contract_path contract_id "/ca/generateSigningKey") None.
Definition governance_ca_propose_rotate_key_cmd (contract_id gov_client_name : string) : M W json :=
  propose gov_client_name "ca_enable_rotate_signing_key" [("contractId", JStr contract_id)].
Definition governance_ca_show_cmd (contract_id gov_client_name : string) : M W json :=
  cgs_ask gov_client_name "GET" (contract_path contract_id "/ca/info") None.

(** ** Documents *)

Definition member_path (document_id path : string) : string := "/memberdocuments/" +:+ document_id +:+ path.
Definition user_path (document_id path : string) : string := "/userdocuments/" +:+ document_id +:+ path.

Definition governance_member_document_create_cmd (document_id contract_id data gov_client_name version : string) : M W unit :=
  cgs_do gov_client_name "PUT" (member_path document_id "")
    (Some (JObj [("version", JStr version); ("contractId", JStr contract_id); ("data", JStr data)])).
Definition governance_member_document_show_cmd (gov_client_name document_id : string) : M W json :=
  cgs_ask gov_client_name "GET" (member_path document_id "") None.
Definition governance_member_document_propose_cmd (document_id : string) (version : json) (gov_client_name : string) : M W json :=
  cgs_ask gov_client_name "POST" (member_path document_id "/propose") (Some (JObj [("version", version)])).
Definition governance_member_document_vote_cmd (document_id : string) (proposal_id : json) (action gov_client_name : string) : M W json :=
  cgs_ask gov_client_name "POST" (member_path document_id ("/" +:+ vote_method action)) (Some (JObj [("proposalId", proposal_id)])).

(** An approver of a user document. *)
Definition approver_json (approver : json) : res json :=
  approverId ← json_item approver "id";
  approverType ← json_item approver "type";
  if negb (json_eqs approverType "user" || json_eqs approverType "member")
  then Err (CLIError ("Invalid approver type " +:+ py_str approverType +:+ " for approver " +:+ py_str approverId
                      +:+ ". Valid types are 'user' or 'member'."))
  else Ok (JObj [("approverId", approverId); ("approverIdType", approverType)]).

Definition user_document (version contract_id data : string) (labels : json) (approvers : list json) : json :=
  JObj [("version", JStr version); ("contractId", JStr contract_id); ("data", JStr data); ("labels", labels);
        ("approvers", JArr approvers)].

Definition governance_user_document_create_cmd (document_id contract_id data approvers labels gov_client_name version : string) : M W unit :=
  cgs_endpoint ← get_cgs_client_endpoint gov_client_name;
  labels ← (if str_truthy labels then json_argument labels else mret JNull);
  approvers ← (if str_truthy approvers then json_argument approvers else mret (JArr []));
  l ← lift (json_items approvers);
  l ← lift (mapM_res approver_json l);
  _ ← send "PUT" cgs_endpoint (user_path document_id "") (Some (user_document version contract_id data labels l));
  mret ().

Definition governance_user_document_show_cmd (gov_client_name document_id : string) : M W json :=
  cgs_ask gov_client_name "GET" (user_path document_id "") None.
Definition governance_user_document_propose_cmd (document_id : string) (version : json) (gov_client_name : string) : M W json :=
  cgs_ask gov_client_name "POST" (user_path document_id "/propose") (Some (JObj [("version", version)])).
Definition governance_user_document_vote_cmd (document_id : string) (proposal_id : json) (action gov_client_name : string) : M W json :=
  cgs_ask gov_client_name "POST" (user_path document_id ("/" +:+ vote_method action)) (Some (JObj [("proposalId", proposal_id)])).
Definition governance_user_document_runtime_option_get_cmd (document_id option_name gov_client_name : string) : M W json :=
  cgs_ask gov_client_name "POST" (user_path document_id ("/checkstatus/" +:+ option_name)) None.
Definition governance_user_document_runtime_option_set_cmd (document_id option_name action gov_client_name : string) : M W unit :=
  cgs_do gov_client_name "POST" (user_path document_id ("/runtimeoptions/" +:+ option_name +:+ "/" +:+ action)) None.
Definition governance_user_document_list_cmd (label_selector gov_client_name : string) : M W json :=
  cgs_ask gov_client_name "GET"
    ("/userdocuments" +:+ if str_truthy label_selector then "?labelSelector=" +:+ label_selector else "") None.

(** ** Members *)

Definition governance_network_set_recovery_threshold_cmd (recovery_threshold gov_client_name : string) : M W json :=
  n ← lift (py_int recovery_threshold);
  propose gov_client_name "set_recovery_threshold" [("recovery_threshold", JInt n)].
Definition governance_network_show_cmd (gov_client_name : string) : M W json := cgs_ask gov_client_name "GET" "/network/show" None.
Definition governance_member_activate_cmd (gov_client_name : string) : M W unit :=
  cgs_do gov_client_name "POST" "/members/statedigests/ack" None.
Definition governance_member_show_cmd (gov_client_name : string) : M W json := cgs_ask gov_client_name "GET" "/members" None.

(** The parameters of [governance_member_add_cmd]. *)
Record MemberAdd := {
  ma_identifier : option string;
  ma_certificate : string;
  ma_encryption_public_key : option string;
  ma_recovery_role : option string;
  ma_tenant_id : option string;
  ma_member_data : option string
}.

Definition member_data (a : MemberAdd) : M W json :=
  if ostr_truthy (ma_member_data a) then
    if ostr_truthy (ma_identifier a)
    then raise (CLIError "Both --identifier and --member-data cannot be specified together. Specify identifier property within the member data JSON.")
    else if ostr_truthy (ma_tenant_id a)
    then raise (CLIError "Both --tenant-id and --member-data cannot be specified together. Specify tenant_id property within the member data JSON.")
    else json_argument (default "" (ma_member_data a))
  else if negb (ostr_truthy (ma_identifier a)) then raise (CLIError "--identifier must be specified.")
  else mret (JObj (("identifier", opt_json (ma_identifier a))
                   :: if bool_decide (ma_tenant_id a = Some "") then [] else [("tenantId", opt_json (ma_tenant_id a))])).

Definition member_args (a : MemberAdd) (cert_pem : string) (data : json) (encryption_public_key_pem : string) : list (string * json) :=
  [("cert", JStr cert_pem); ("member_data", data)]
    ++ if str_truthy encryption_public_key_pem
       then ("encryption_pub_key", JStr encryption_public_key_pem)
            :: if ostr_truthy (ma_recovery_role a)
               then [("recovery_role", JStr (if bool_decide (ma_recovery_role a = Some "owner") then "Owner" else "Participant"))]
               else []
       else [].

Definition read_text (path : string) : M W string :=
  b ← cli_read (ge_cli ge) path; lift (t ← utf8_decode b; Ok (universal_newlines t)).

Definition governance_member_add_cmd (a : MemberAdd) (gov_client_name : string) : M W json :=
  found ← cli_exists (ge_cli ge) (ma_certificate a);
  if negb found then raise (CLIError ("File " +:+ ma_certificate a +:+ " does not exist."))
  else if ostr_truthy (ma_recovery_role a) && negb (ostr_truthy (ma_encryption_public_key a))
  then raise (CLIError "--recovery-role can only be specified along with --encryption-public-key.")
  else
    data ← member_data a;
    _ ← get_cgs_client_endpoint gov_client_name;
    cert_pem ← read_text (ma_certificate a);
    key ← (if ostr_truthy (ma_encryption_public_key a) then read_text (default "" (ma_encryption_public_key a)) else mret "");
    propose gov_client_name "set_member" (member_args a cert_pem data key).

(** The members with an identifier. *)
Definition has_identifier (identifier : string) (x : json) : res bool :=
  d ← json_item x "memberData";
  has ← json_has "identifier" d;
  if (has : bool) then i ← json_item d "identifier"; Ok (json_eqs i identifier) else Ok false.

Definition members_named (identifier : string) (members : json) : res (list json) :=
  v ← json_item members "value";
  l ← json_items v;
  flags ← mapM_res (has_identifier identifier) l;
  Ok (map fst (filter (fun p => p.2 = true) (zip l flags))).

Definition governance_member_set_tenant_id_cmd (identifier tenant_id gov_client_name : string) : M W json :=
  cgs_endpoint ← get_cgs_client_endpoint gov_client_name;
  members ← governance_member_show_cmd gov_client_name;
  l ← lift (members_named identifier members);
  match l with
  | [] => raise (CLIError ("Member with identifier " +:+ identifier +:+ " was not found."))
  | m :: _ =>
      id ← lift (json_item m "memberId");
      r ← send "POST" cgs_endpoint "/proposals/create"
            (Some (proposal "set_member_data"
                     [("member_id", id); ("member_data", JObj [("identifier", JStr identifier); ("tenantId", JStr tenant_id)])]));
      lift (gr_json r)
  end.
End Gov.
