(* ===== verification/CliDeploy.v ===== *)
(** * Deployment commands

    The commands of [azext_cleanroom/custom.py] that turn an accepted contract into
    a deployment: generating the template and its policy, proposing them to
    governance, and creating and wrapping the keys that are released to a clean
    room which runs that policy. *)

From S2P Require Import Prelude PyStr Base64 Json JsonFacts PyFloat Sha256 SparkModels Settings Helpers CleanroomModels SpecModels AppBuilder Md5 ConfigModels ConfigHelpers Encryptor DeployTemplate InitContainer JsonIndent CliStores CliData CliConfig CliGov.
From Stdlib Require Import Ascii.

Definition host_data_claim : string := "x-ms-sevsnpvm-hostdata".

(** The policy that admits a clean room with given host data. *)
Definition governance_policy (host_data : string) : json :=
  JObj [("type", JStr "add"); ("policyType", JStr "snp-caci");
        ("claims", JObj [("x-ms-sevsnpvm-is-debuggable", JBool false); (host_data_claim, JStr host_data)])].

Definition ALLOW_ALL_HOST_DATA : string := "73973b78d70cc68353426de188db5dfc57e5b766e399935fb73a61127ea26d20".

(** [template["resources"][0]["properties"]["confidentialComputeProperties"]["ccePolicy"] = policy] *)
Definition set_cce_policy (policy : string) : json -> res json :=
  json_modify [Key "resources"; Idx 0; Key "properties"; Key "confidentialComputeProperties"]
    (json_put (Key "ccePolicy") (JStr policy)).

Definition is_generated (option : string) : bool := bool_decide (option = "generate" \/ option = "generate-debug").

Section Deploy.
Context {W : Type} (ge : GovEnv W).
Abbreviation ce := (ge_cli ge).

Definition write_text (path text : string) : M W unit := cli_write ce path (utf8_encode text).

Definition get_deployment_template_internal (spec : CleanRoomSpecification)
    (contract_id ccf_endpoint sslServerCertBase64 generate_mode : string) : M W DeploymentTemplate :=
  try_except (get_deployment_template (ge_template ge) spec contract_id ccf_endpoint sslServerCertBase64 generate_mode)
    (fun e => if is_spec_error e then raise (CLIError ("Error generating deployment template: " +:+ exn_str e)) else raise e).

(** [_validate_config] *)
Definition validate_spec (spec : CleanRoomSpecification) : res unit :=
  match (validate_config spec).1 with
  | [] => Ok ()
  | issues => Err (CLIError (py_str (JArr (map (fun e => JStr (exn_str e)) issues))))
  end.

(** The specification of a contract. *)
Definition contract_spec (contract : json) : res CleanRoomSpecification :=
  data ← json_item contract "data";
  text ← json_text data;
  doc ← ge_yaml ge text;
  parse_model (spec_codec (ce_config ce)) doc.

(** The policy's file: made by the confidential computing extension, or written as
    the template's. *)
Definition write_policy (output_dir option rego : string) : M W unit :=
  if is_generated option then
    _ ← az_cli ce ("confcom acipolicygen -i " +:+ output_dir +:+ "/cleanroom-policy-in.json --outraw-pretty-print -s "
                   +:+ output_dir +:+ "/cleanroom-policy.rego"
                   +:+ if bool_decide (option = "generate-debug") then " --debug-mode" else "");
    mret ()
  else
    _ ← lift (py_assert (bool_decide (option = "allow-all" \/ option = "cached" \/ option = "cached-debug"))
                ("Invalid security policy creation option passed: " +:+ option));
    write_text (output_dir +:+ "/cleanroom-policy.rego") rego.

(** The files of a deployment. *)
Definition write_deployment (output_dir option : string) (t : DeploymentTemplate) : M W unit :=
  _ ← write_text (output_dir +:+ "/cleanroom-policy-in.json") (dumps_indent 0 (dt_policy_template t));
  _ ← write_policy output_dir option (dt_rego_policy t);
  cce_policy ← read_text ge (output_dir +:+ "/cleanroom-policy.rego");
  let cce_policy_base64 := b64encode (utf8_encode cce_policy) in
  let cce_policy_hash := sha256_hex (utf8_encode cce_policy) in
  arm_template ← lift (set_cce_policy cce_policy_base64 (dt_arm_template t));
  _ ← write_text (output_dir +:+ "/cleanroom-arm-template.json") (dumps_indent 0 arm_template);
  write_text (output_dir +:+ "/cleanroom-governance-policy.json") (dumps_indent 0 (governance_policy cce_policy_hash)).

Definition governance_deployment_generate_cmd (contract_id output_dir security_policy_creation_option gov_client_name : string) : M W unit :=
  found ← cli_exists ce output_dir;
  if negb found then raise (CLIError ("Output folder location " +:+ output_dir +:+ " does not exist."))
  else
    contract ← governance_contract_show_cmd ge gov_client_name contract_id;
    spec ← lift (contract_spec contract);
    _ ← lift (validate_spec spec);
    ccf_details ← governance_client_show_cmd ge gov_client_name;
    ssl_cert ← lift (c ← json_item ccf_details "serviceCert"; json_text c);
    ccf_endpoint ← lift (e ← json_item ccf_details "ccfEndpoint"; json_text e);
    t ← get_deployment_template_internal spec contract_id ccf_endpoint (b64encode (utf8_encode ssl_cert))
          security_policy_creation_option;
    write_deployment output_dir security_policy_creation_option t.

(** A JSON file given to a command. *)
Definition json_file (file : string) : M W json :=
  found ← cli_exists ce file;
  if negb found then raise (CLIError ("File " +:+ file +:+ " not found. Check the input parameter value."))
  else text ← read_text ge file; lift (loads text).

Definition governance_deployment_template_propose_cmd (contract_id template_file gov_client_name : string) : M W json :=
  template_json ← json_file template_file;
  cgs_ask ge gov_client_name "POST" (contract_path contract_id "/deploymentspec/propose") (Some template_json).

Definition governance_deployment_template_show_cmd (contract_id gov_client_name : string) : M W json :=
  cgs_ask ge gov_client_name "GET" (contract_path contract_id "/deploymentspec") None.

Definition governance_deployment_policy_propose_cmd (contract_id : string) (allow_all : bool) (policy_file gov_client_name : string) : M W json :=
  if negb allow_all && negb (str_truthy policy_file)
  then raise (CLIError "Either --policy-file or --allow-all flag must be specified")
  else if allow_all && str_truthy policy_file
  then raise (CLIError "Both --policy-file and --allow-all cannot be specified together")
  else
    policy_json ← (if allow_all then mret (governance_policy ALLOW_ALL_HOST_DATA) else json_file policy_file);
    cgs_ask ge gov_client_name "POST" (contract_path contract_id "/cleanroompolicy/propose") (Some policy_json).

Definition governance_deployment_policy_show_cmd (contract_id gov_client_name : string) : M W json :=
  cgs_ask ge gov_client_name "GET" (contract_path contract_id "/cleanroompolicy") None.

Definition governance_deployment_information_propose_cmd (contract_id deployment_information gov_client_name : string) : M W json :=
  info ← json_argument ge deployment_information;
  cgs_ask ge gov_client_name "POST" (contract_path contract_id "/deploymentinfo/propose") (Some info).

Definition governance_deployment_information_show_cmd (contract_id gov_client_name : string) : M W json :=
  cgs_ask ge gov_client_name "GET" (contract_path contract_id "/deploymentinfo") None.

(** ** Keys *)

(** The host data of the policy governance holds for a contract. *)
Definition contract_host_data (contract_id gov_client_name : string) : M W string :=
  cl_policy ← governance_deployment_policy_show_cmd contract_id gov_client_name;
  lift (host_data contract_id cl_policy).

Definition create_kek_via_governance (cleanroom_config_file secretstore_config_file contract_id gov_client_name : string) : M W unit :=
  h ← contract_host_data contract_id gov_client_name;
  config_create_kek ce cleanroom_config_file secretstore_config_file h.

Definition config_wrap_deks_cmd
    (cleanroom_config_file contract_id gov_client_name datastore_config_file secretstore_config_file : string) : M W unit :=
  _ ← (if str_truthy gov_client_name
       then create_kek_via_governance cleanroom_config_file secretstore_config_file contract_id gov_client_name
       else mret ());
  config_wrap_deks ce cleanroom_config_file datastore_config_file secretstore_config_file.

(** The parameters of [config_wrap_secret_cmd] after the configuration file. *)
Record WrapSecret := {
  ws_kek_secretstore_name : string;
  ws_contract_id : string;
  ws_name : string;
  ws_value : string;
  ws_secret_key_vault : string;
  ws_secretstore_config_file : string;
  ws_kek_name : string;
  ws_gov_client_name : string
}.

(** The key's name, created first when a governance client is given. *)
Definition wrap_kek_name (cleanroom_config_file : string) (a : WrapSecret) : M W string :=
  if str_truthy (ws_gov_client_name a) then
    h ← contract_host_data (ws_contract_id a) (ws_gov_client_name a);
    let kek_name := if str_truthy (ws_kek_name a) then ws_kek_name a
                    else default_kek_name (cleanroom_config_file +:+ "-1") in
    _ ← create_kek ce (ws_secretstore_config_file a) (ws_kek_secretstore_name a) kek_name h;
    mret kek_name
  else mret (ws_kek_name a).

Definition config_wrap_secret_cmd (cleanroom_config_file : string) (a : WrapSecret) : M W json :=
  kek_name ← wrap_kek_name cleanroom_config_file a;
  kek_secret_store ← get_secretstore ce (ws_kek_secretstore_name a) (ws_secretstore_config_file a);
  public_key ← get_secret kek_secret_store kek_name;
  match public_key with
  | None => raise (CLIError ("KEK with name " +:+ kek_name +:+ " not found. Please run az cleanroom config create-kek first."))
  | Some _ =>
      pem ← lift (public_pem public_key);
      c ← rsa_oaep_encrypt ce pem (utf8_encode (ws_value a));
      vault_url ← az_cli ce ("resource show --id " +:+ ws_secret_key_vault a +:+ " --query properties.vaultUri");
      vault ← lift (u ← json_text vault_url; vault_name u);
      _ ← az_cli ce ("keyvault secret set --name " +:+ ws_name a +:+ " --vault-name " +:+ vault +:+ " --value " +:+ b64encode c);
      maa_endpoint ← lift (store_authority (ss_entry kek_secret_store));
      mret (JObj [("kid", JStr (ws_name a)); ("akvEndpoint", vault_url);
                  ("kek", JObj [("kid", JStr kek_name); ("akvEndpoint", JStr (se_storeProviderUrl (ss_entry kek_secret_store)));
                                ("maaEndpoint", maa_endpoint)])])
  end.
End Deploy.
