(* ===== verification/CliCollab.v ===== *)
(** * Collaboration commands

    [azext_cleanroom/collaboration_cmd.py] with [utilities/collaboration_helper.py],
    [_querysegment_helpers.py], [_spark_helpers.py] and [_dataset_helpers.py]:
    contexts and identities, publishing datasets and Spark SQL applications as user
    documents, and running an application.  pydantic's conversions of the documents
    are a parameter ([CollabEnv]). *)

From S2P Require Import Prelude PyStr Base64 Json JsonFacts PyFloat Sha256 SparkModels Settings Helpers CleanroomModels SpecModels AppBuilder Md5 ConfigModels ConfigHelpers Encryptor DeployTemplate InitContainer CliStores CliData CliConfig CliGov CliDeploy.
From Stdlib Require Import Ascii.

(** ** Queries: [azure_cleanroom_core/models/query.py] *)

Record CliPreCondition := { cp_viewName : string; cp_minRowCount : Z }.
Record CliPostFilter := { cf_columnName : string; cf_value : Z }.
Record CliSegment := {
  sg_executionSequence : Z;
  sg_data : string;
  sg_preConditions : option (list CliPreCondition);
  sg_postFilters : option (list CliPostFilter)
}.
Record CliQuery := { cq_segments : list CliSegment }.

(** [model_dump] *)
Definition precondition_json (c : CliPreCondition) : json :=
  JObj [("viewName", JStr (cp_viewName c)); ("minRowCount", JInt (cp_minRowCount c))].
Definition postfilter_json (f : CliPostFilter) : json :=
  JObj [("columnName", JStr (cf_columnName f)); ("value", JInt (cf_value f))].
Definition optional_json {A} (f : A -> json) (o : option (list A)) : json :=
  match o with Some l => JArr (map f l) | None => JNull end.
Definition segment_json (s : CliSegment) : json :=
  JObj [("executionSequence", JInt (sg_executionSequence s)); ("data", JStr (sg_data s));
        ("preConditions", optional_json precondition_json (sg_preConditions s));
        ("postFilters", optional_json postfilter_json (sg_postFilters s))].
Definition query_json (q : CliQuery) : json := JObj [("segments", JArr (map segment_json (cq_segments q)))].

(** ** Spark applications: [azure_cleanroom_core/models/spark.py] *)

Record SparkMLApplication := {
  ml_payload : string;
  ml_inputDataset : list SparkDatasetDescriptor;
  ml_outputDataset : SparkDatasetDescriptor
}.

Inductive SparkApplicationUnion := Spark_SQL (a : SparkSQLApplication) | Spark_ML (a : SparkMLApplication).

Record SparkApplicationSpecification := { sas_name : string; sas_application : SparkApplicationUnion }.

Definition application_inputs (a : SparkApplicationUnion) : list SparkDatasetDescriptor :=
  match a with Spark_SQL a => sq_inputDataset a | Spark_ML a => ml_inputDataset a end.
Definition application_output (a : SparkApplicationUnion) : SparkDatasetDescriptor :=
  match a with Spark_SQL a => sq_outputDataset a | Spark_ML a => ml_outputDataset a end.
Definition applicationType (a : SparkApplicationUnion) : string :=
  match a with Spark_SQL _ => "Spark-SQL" | Spark_ML _ => "Spark-ML" end.

(** ** Arguments *)

(** A list of [name:number] pairs between commas; empty entries are skipped. *)
Definition parse_pair (what format cond : string) : res (string * Z) :=
  match split_first ":" cond with
  | None => Err (CLIError ("Invalid " +:+ what +:+ " format: '" +:+ cond +:+ "'. Expected format '" +:+ format +:+ "'."))
  | Some (n, v) => z ← py_int (strip v); Ok (strip n, z)
  end.

Definition parse_pairs (what format text : string) : res (list (string * Z)) :=
  if bool_decide (strip text = "") then Ok []
  else mapM_res (parse_pair what format) (List.filter str_truthy (map strip (split_on "," text))).

Definition generate_segment_from_fields (executionsequence : Z) (query_content pre_conditions post_filters : string) : res CliSegment :=
  pre ← parse_pairs "pre-segment condition" "viewName:minRowCount" pre_conditions;
  post ← parse_pairs "post-segment filtering" "columnName:value" post_filters;
  Ok {| sg_executionSequence := executionsequence; sg_data := query_content;
        sg_preConditions := Some (map (fun p => {| cp_viewName := p.1; cp_minRowCount := p.2 |}) pre);
        sg_postFilters := Some (map (fun p => {| cf_columnName := p.1; cf_value := p.2 |}) post) |}.

Definition extract_dataset_specification (dataset_def : string) : res SparkDatasetDescriptor :=
  let invalid m := Err (CLIError ("Invalid input dataset definition '" +:+ dataset_def +:+ "': " +:+ m)) in
  match split_first ":" dataset_def with
  | None => invalid "Dataset definition must be in format 'viewName:datasetName'"
  | Some (v, d) =>
      let view_name := strip v in
      let dataset_name := lower (strip d) in
      if negb (str_truthy view_name) || negb (str_truthy dataset_name)
      then invalid "View name and dataset name cannot be empty"
      else Ok {| sd_specification := dataset_name; sd_view := view_name |}
  end.

Definition generate_access_policy_from_fields (access_mode : string) (allowed_fields : list string) : res DataAccessPolicy :=
  if negb (str_truthy access_mode) then Err (CLIError "Access mode must be specified when generating access policy from fields.")
  else match allowed_fields with
       | [] => Err (CLIError "Allowed fields must be specified when generating access policy from fields.")
       | _ =>
           mode ← of_option (CLIError ("Invalid access mode '" +:+ access_mode +:+ "'. Valid modes are: "
                                       +:+ join ", " (map access_mode_value access_modes)))
                    (enum_of access_mode_value access_modes (lower (strip access_mode)));
           Ok {| dap_accessMode := mode; dap_allowedFields := allowed_fields |}
       end.

(** [Workload], an [Enum] with one member: [f"{member}"] is its qualified name. *)
Inductive Workload := analytics_sparksql.
Definition workload_value (w : Workload) : string := "analytics-sparksql".
Definition workload_str (w : Workload) : string := "Workload.analytics_sparksql".

(** The contract of a publication: given, or made of the workload. *)
Definition publication_contract (workload contract_id : string) : res string :=
  if Bool.eqb (str_truthy workload) (str_truthy contract_id)
  then Err (CLIError "One of workload or contract_id must be provided to publish a dataset.")
  else if str_truthy workload then
    w ← of_option (CLIError ("Invalid workload '" +:+ workload +:+ "'. Valid workloads are: " +:+ "analytics-sparksql"))
          (enum_of workload_value [analytics_sparksql] (lower (strip workload)));
    Ok (workload_str w +:+ "-42")
  else Ok contract_id.

(** [d[owner] = ...] for an owner as a key. *)
Definition hashable (j : json) : res json :=
  match j with
  | JArr _ => Err (TypeError "unhashable type: 'list'")
  | JObj _ => Err (TypeError "unhashable type: 'dict'")
  | _ => Ok j
  end.

(** Equality of keys: a boolean is the integer 0 or 1. *)
Definition number_of (j : json) : option Z :=
  match j with JInt z => Some z | JBool b => Some (if b then 1 else 0)%Z | _ => None end.
Definition same_key (a b : json) : bool :=
  match a, b with
  | JNull, JNull => true
  | JStr s, JStr t => bool_decide (s = t)
  | _, _ => match number_of a, number_of b with Some x, Some y => (x =? y)%Z | _, _ => false end
  end.

Definition add_owner (owners : list json) (owner : json) : list json :=
  if existsb (same_key owner) owners then owners else owners ++ [owner].

Definition approver (id : json) : json := JObj [("id", id); ("type", JStr "user")].

(** ** The application the front end takes *)

Definition pair_text (name value : string) (j : json) : res string :=
  n ← json_item j name; v ← json_item j value; Ok (py_str n +:+ ":" +:+ py_str v).

Definition pairs_text (name value : string) (segment : json) (key : string) : res string :=
  l ← json_get segment key (JArr []); l ← json_items l; texts ← mapM_res (pair_text name value) l; Ok (join "," texts).

Definition frontend_segment (segment : json) : res json :=
  executionSequence ← json_item segment "executionSequence";
  data ← json_item segment "data";
  pre ← pairs_text "viewName" "minRowCount" segment "preConditions";
  post ← pairs_text "columnName" "value" segment "postFilters";
  Ok (JObj [("executionSequence", executionSequence); ("data", data); ("preConditions", JStr pre); ("postFilters", JStr post)]).

Definition dataset_text (d : SparkDatasetDescriptor) : string := sd_specification d +:+ ":" +:+ sd_view d.

Definition get_frontend_compatible_spark_sql_application (a : SparkSQLApplication) : res json :=
  q ← loads (sq_query a);
  segments ← json_item q "segments";
  l ← json_items segments;
  queryData ← mapM_res frontend_segment l;
  Ok (JObj [("inputDatasets", JStr (join "," (map dataset_text (sq_inputDataset a))));
            ("outputDataset", JStr (dataset_text (sq_outputDataset a))); ("queryData", JArr queryData)]).

(** ** The environment *)

Record CollabEnv (W : Type) := {
  co_gov : GovEnv W;
  query_codec : Codec (document (ce_config (ge_cli co_gov))) CliQuery;
  co_parse_policy : json -> res DataAccessPolicy;
  co_parse_application : json -> res SparkSQLApplication;
  (** [model_dump_json], and [model_validate_json] *)
  dump_dataset : DatasetSpecification -> string;
  dump_application : SparkApplicationSpecification -> string;
  validate_application : string -> res SparkApplicationSpecification
}.
Arguments co_gov {W}.
Arguments query_codec {W}.
Arguments co_parse_policy {W}.
Arguments co_parse_application {W}.
Arguments dump_dataset {W}.
Arguments dump_application {W}.
Arguments validate_application {W}.

Section Collab.
Context {W : Type} (co : CollabEnv W).
Abbreviation ge := (co_gov co).
Abbreviation ce := (ge_cli (co_gov co)).

(** ** Contexts *)

Definition load_collaborations (config_file : string) (create_if_not_existing require_current_context : bool)
  : M W CollaborationSpecification :=
  spec ← load_config ce (collaboration_codec (ce_config ce)) {| collaborations := Some []; current_context := None |}
           config_file create_if_not_existing;
  if require_current_context && bool_decide (current_context spec = None)
  then raise (CLIError "Current collaboration context is not set. Run 'az cleanroom collaboration context set' first.")
  else mret spec.

Definition store_collaborations (config_file : string) (spec : CollaborationSpecification) : M W unit :=
  write_collaboration_config (ce_config ce) config_file spec.

Definition context_error (spec : CollaborationSpecification) (e : exn) : exn :=
  if has_code EC_CollaborationNotFound e
  then CLIError ("Collaboration " +:+ default "None" (current_context spec)
                 +:+ " not found. Run 'az cleanroom collaboration context add' first.")
  else if has_code EC_CurrentCollaborationNotSet e
  then CLIError "Current collaboration context is not set. Run 'az cleanroom collaboration context set' first."
  else if is_spec_error e then UnboundLocalError "collaboration" else e.

Definition get_default_collaboration_context (config_file : string) : M W CollaborationContext :=
  spec ← load_collaborations config_file false true;
  try_except (lift (get_active_collaboration_context spec).2) (fun e => raise (context_error spec e)).

Definition set_default_collaboration_context (config_file collaboration_name : string) : M W unit :=
  spec ← load_collaborations config_file false false;
  let '(spec, r) := set_active_collaboration_context spec collaboration_name in
  _ ← lift (match r with
            | Ok _ => Ok ()
            | Err e => if has_code EC_CollaborationNotFound e
                       then Err (CLIError ("Collaboration " +:+ collaboration_name
                                           +:+ " not found. Run 'az cleanroom collaboration context add' first."))
                       else if is_spec_error e then Ok () else Err e
            end);
  store_collaborations config_file spec.

Definition collaboration_context_set_cmd (collaboration_name config_file : string) : M W unit :=
  set_default_collaboration_context config_file collaboration_name.

Definition collaboration_context_show_cmd (config_file : string) : M W CollaborationContext :=
  get_default_collaboration_context config_file.

Definition collaboration_context_list_cmd (config_file : string) : M W (list CollaborationContext) :=
  spec ← load_collaborations config_file true false;
  match default [] (collaborations spec) with
  | [] => raise (CLIError "No collaborations found in the configuration.")
  | l => mret l
  end.

Definition collaboration_context_add_cmd (collaboration_name collaborator_id governance_client_name config_file : string) : M W unit :=
  let client := if str_truthy governance_client_name then governance_client_name else collaboration_name in
  spec ← load_collaborations config_file true false;
  let '(spec, found) := check_collaboration_context spec collaboration_name in
  c ← (match found with
       | Some (_, c) => mret c
       | None =>
           let c := {| cc_name := collaboration_name; collaborator_id := collaborator_id;
                       governance_client_name := client; cc_identities := [] |} in
           let '(spec, added) := add_collaboration_context spec c true in
           _ ← lift added;
           _ ← store_collaborations config_file spec;
           mret c
       end);
  _ ← governance_user_identity_show_cmd ge (ConfigModels.collaborator_id c) (ConfigModels.governance_client_name c);
  mret ().

(** ** Identities

    The list of the active context is changed in place. *)

Definition with_cc_identities (l : list Identity) (c : CollaborationContext) : CollaborationContext :=
  {| cc_name := cc_name c; collaborator_id := collaborator_id c; governance_client_name := governance_client_name c;
     cc_identities := l |}.

Definition with_active_identities (spec : CollaborationSpecification) (l : list Identity) : CollaborationSpecification :=
  match find_named cc_name (default "" (current_context spec)) (default [] (collaborations spec)) with
  | Some (i, _) => {| collaborations := Some (alter (with_cc_identities l) i (default [] (collaborations spec)));
                      current_context := current_context spec |}
  | None => spec
  end.

Definition change_identities (config_file : string) (f : list Identity -> res (list Identity)) : M W unit :=
  spec ← load_collaborations config_file false true;
  let '(spec, r) := get_active_collaboration_context spec in
  c ← lift r;
  l ← lift (f (identity_manager (cc_identities c)));
  store_collaborations config_file (with_active_identities spec l).

Definition collaboration_identity_add_az_federated_cmd
    (identity_name client_id tenant_id backing_identity_name token_issuer_url config_file : string) : M W unit :=
  change_identities config_file (fun l =>
    or_identity_error backing_identity_name "federated"
      (add_identity_az_federated l identity_name client_id tenant_id token_issuer_url backing_identity_name)).

Definition collaboration_identity_add_az_secret_cmd
    (identity_name client_id tenant_id secret_name secret_store_url secret_access_identity_name config_file : string) : M W unit :=
  change_identities config_file (fun l =>
    or_identity_error secret_access_identity_name "secret based"
      (add_identity_az_secret l identity_name client_id tenant_id secret_name secret_store_url secret_access_identity_name)).

Definition collaboration_identity_add_oidc_attested_cmd
    (identity_name client_id tenant_id issuer_url config_file : string) : M W unit :=
  change_identities config_file (fun l => Ok (add_identity_oidc_attested l identity_name client_id tenant_id issuer_url)).

Definition collaboration_identity_list_cmd (config_file : string) : M W (list Identity) :=
  c ← get_default_collaboration_context config_file;
  mret (identity_manager (cc_identities c)).

(** ** Query segments *)

Definition load_query (config_file : string) (create_if_not_existing : bool) : M W CliQuery :=
  load_config ce (query_codec co) {| cq_segments := [] |} config_file create_if_not_existing.

Definition positive_int (text : string) : res Z :=
  let bad := Err (CLIError "Execution sequence must be a positive integer.") in
  match py_int text with
  | Ok n => if (n <? 1)%Z then bad else Ok n
  | Err (ValueError _) => bad
  | Err e => Err e
  end.

(** The text of the segments is compared, not their place in the sequence. *)
Definition collaboration_spark_sql_application_querysegment_add_cmd
    (execution_sequence query_content config_file pre_conditions post_filters : string) : M W unit :=
  executionsequence ← lift (positive_int execution_sequence);
  if negb (str_truthy query_content) then raise (CLIError "Query content is required.")
  else
    q ← load_query config_file true;
    s ← lift (generate_segment_from_fields executionsequence query_content pre_conditions post_filters);
    if existsb (fun x => bool_decide (sg_data x = sg_data s)) (cq_segments q)
    then raise (CLIError "Query segment with the same data already exists.")
    else write_config (ce_config ce) (query_codec co) config_file {| cq_segments := cq_segments q ++ [s] |}.

Definition collaboration_spark_sql_application_querysegment_list_cmd (config_file : string) : M W (list CliSegment) :=
  q ← load_query config_file false;
  mret (cq_segments q).

(** ** Applications *)

Definition load_spark_sql_application_specification_from_file (specification_file : string) : M W SparkSQLApplication :=
  load_document ce specification_file ("Spark SQL application specification file '" +:+ specification_file +:+ "' not found.")
    (wrapped_document ["query"; "inputDataset"; "outputDataset"] "sparkSQLApplication" (co_parse_application co)
       "Invalid Spark SQL application specification file format. Expected 'query', 'inputDataset', and 'outputDataset' properties."
       "Spark SQL application specification file must contain a JSON object.")
    (document_error "Failed to parse YAML Spark-SQL application specification file: "
       "Failed to parse JSON Spark-SQL application specification file: "
       "Failed to load Spark-SQL application specification from file: ").

Definition generate_spark_sql_application_specification_from_fields
    (querysegment_config_file : string) (input_dataset : list string) (output_dataset : string) : M W SparkSQLApplication :=
  if negb (str_truthy querysegment_config_file)
  then raise (CLIError "QuerySegment-Config-File must be specified when generating Spark-SQL application specification from fields.")
  else if bool_decide (input_dataset = []) || negb (str_truthy output_dataset)
  then raise (CLIError "Input and output datasets must be specified when generating Spark-SQL application specification from fields.")
  else
    input_map ← lift (mapM_res extract_dataset_specification input_dataset);
    output_map ← lift (extract_dataset_specification output_dataset);
    q ← load_query querysegment_config_file false;
    mret {| sq_query := dumps (query_json q); sq_inputDataset := input_map; sq_outputDataset := output_map |}.

(** The owners of datasets, each once. *)
Fixpoint dataset_owners (client : string) (owners : list json) (l : list SparkDatasetDescriptor) : M W (list json) :=
  match l with
  | [] => mret owners
  | d :: l' =>
      document ← governance_user_document_show_cmd ge client (sd_specification d);
      owner ← lift (o ← json_item document "proposerId"; hashable o);
      dataset_owners client (add_owner owners owner) l'
  end.

(** The parameters of [collaboration_spark_sql_application_publish_cmd]. *)
Record ApplicationPublish := {
  xp_workload : string;
  xp_contract_id : string;
  xp_specification_file : string;
  xp_query : string;
  xp_input_dataset : string;
  xp_output_dataset : string
}.

Definition prepare_application (a : ApplicationPublish) : M W SparkSQLApplication :=
  if str_truthy (xp_specification_file a) then load_spark_sql_application_specification_from_file (xp_specification_file a)
  else if negb (str_truthy (xp_query a)) || negb (str_truthy (xp_input_dataset a)) || negb (str_truthy (xp_output_dataset a))
  then raise (CLIError "Query JSON and datasets are required for inline specification.")
  else generate_spark_sql_application_specification_from_fields (xp_query a) (split_on "," (xp_input_dataset a))
         (xp_output_dataset a).

Definition encoded_application (a : SparkSQLApplication) : SparkSQLApplication :=
  {| sq_query := b64encode (utf8_encode (sq_query a)); sq_inputDataset := sq_inputDataset a;
     sq_outputDataset := sq_outputDataset a |}.

(** Creating a user document and proposing the version governance gave it. *)
Definition propose_document (document_id contract_id data label : string) (approvers : list json) (client : string) : M W json :=
  _ ← governance_user_document_create_cmd ge document_id contract_id data (dumps (JArr approvers))
        (dumps (JObj [("type", JStr label)])) client "";
  document ← governance_user_document_show_cmd ge client document_id;
  version ← lift (json_item document "version");
  governance_user_document_propose_cmd ge document_id version client.

Definition publish_application (application_name contract_id client : string) (a : SparkSQLApplication) : M W unit :=
  owners ← dataset_owners client [] (sq_inputDataset a ++ [sq_outputDataset a]);
  _ ← propose_document application_name contract_id
        (dump_application co {| sas_name := application_name; sas_application := Spark_SQL a |})
        "spark-application" (map approver owners) client;
  mret ().

(** Answers what the front end takes when the application is only prepared. *)
Definition collaboration_spark_sql_application_publish_cmd
    (application_name : string) (a : ApplicationPublish) (config_file : string) (prepare_only : bool) : M W (option json) :=
  c ← get_default_collaboration_context config_file;
  contract_id ← lift (publication_contract (xp_workload a) (xp_contract_id a));
  sqlApplication ← prepare_application a;
  if prepare_only then j ← lift (get_frontend_compatible_spark_sql_application sqlApplication); mret (Some j)
  else
    _ ← publish_application application_name contract_id (governance_client_name c) (encoded_application sqlApplication);
    mret None.

Definition collaboration_dataset_list_cmd (config_file : string) : M W json :=
  c ← get_default_collaboration_context config_file;
  governance_user_document_list_cmd ge "type:dataset" (governance_client_name c).

Definition collaboration_spark_sql_application_list_cmd (config_file : string) : M W json :=
  c ← get_default_collaboration_context config_file;
  governance_user_document_list_cmd ge "type:spark-application" (governance_client_name c).

(** *** [collaboration_spark_sql_application_show_cmd]

    With [raw_output] the specification and the deployment's data. *)

Definition show_application (application_name config_file : string) : M W (SparkApplicationSpecification * json) :=
  c ← get_default_collaboration_context config_file;
  document ← governance_user_document_show_cmd ge (governance_client_name c) application_name;
  contract ← lift (json_item document "contractId");
  information ← governance_deployment_information_show_cmd ge (py_str contract) (governance_client_name c);
  spec ← lift (d ← json_item document "data"; t ← json_text d; validate_application co t);
  mret (spec, information).

Definition collaboration_spark_sql_application_show_raw (application_name config_file : string)
  : M W (SparkApplicationSpecification * json) :=
  r ← show_application application_name config_file;
  data ← lift (json_item r.2 "data");
  mret (r.1, data).

Definition view_json (d : SparkDatasetDescriptor) : json := JObj [(sd_view d, JStr (sd_specification d))].

Definition shown_query (a : SparkApplicationUnion) : res json :=
  match a with
  | Spark_SQL a => raw ← b64decode (sq_query a); text ← utf8_decode raw; loads text
  | Spark_ML _ => Ok JNull
  end.

Definition collaboration_spark_sql_application_show_cmd (application_name config_file : string) : M W json :=
  r ← show_application application_name config_file;
  let a := sas_application r.1 in
  sql_query ← lift (shown_query a);
  url ← lift (data ← json_item r.2 "data"; json_item data "url");
  mret (JObj [("name", JStr (sas_name r.1)); ("type", JStr (applicationType a));
              ("input", JArr (map view_json (application_inputs a))); ("output", view_json (application_output a));
              ("query", sql_query); ("endpoint", url)]).

(** *** Running an application *)

Definition call_headers (token : json) (correlation_id client_request_id : string) : list (string * string) :=
  [("x-ms-cleanroom-authorization", "Bearer " +:+ py_str token); ("x-ms-correlation-id", correlation_id);
   ("x-ms-client-request-id", client_request_id)].

Definition with_ids (correlation_id client_request_id : string) (j : json) : res json :=
  j ← json_set j "x-ms-correlation-id" (JStr correlation_id);
  json_set j "x-ms-client-request-id" (JStr client_request_id).

(** The fields of the parameters replace those of the body. *)
Definition run_body (run_id application_parameters : string) : res json :=
  let body := [("runId", JStr run_id)] in
  if str_truthy application_parameters then
    params ← shell_safe_json_parse ge application_parameters;
    match params with
    | JObj d => Ok (JObj (foldl (fun b kv => dict_set kv.1 kv.2 b) body d))
    | j => Err (AttributeError ("'" +:+ py_type j +:+ "' object has no attribute 'items'"))
    end
  else Ok (JObj body).

Definition access_token (client : string) : M W json :=
  t ← governance_client_get_access_token_cmd ge client; lift (json_item t "accessToken").

Definition collaboration_spark_sql_application_execute_cmd
    (application_name application_parameters config_file : string) : M W json :=
  c ← get_default_collaboration_context config_file;
  r ← collaboration_spark_sql_application_show_raw application_name config_file;
  endpoint ← lift (json_item r.2 "url");
  run_id ← cli_uuid4 ce;
  correlation_id ← cli_uuid4 ce;
  client_request_id ← cli_uuid4 ce;
  token ← access_token (governance_client_name c);
  body ← lift (run_body (str_take 8 run_id) application_parameters);
  r ← ge_request ge "POST" (py_str endpoint +:+ "/queries/" +:+ application_name +:+ "/run")
        (("content-type", "application/json") :: call_headers token correlation_id client_request_id) (Some body);
  _ ← lift (checked_response r);
  job_details ← lift (j ← gr_json r; with_ids correlation_id client_request_id j);
  _ ← lift (json_item job_details "id");
  mret job_details.

Definition collaboration_spark_sql_application_get_execution_status_cmd
    (application_name job_id config_file : string) : M W json :=
  c ← get_default_collaboration_context config_file;
  r ← collaboration_spark_sql_application_show_raw application_name config_file;
  endpoint ← lift (json_item r.2 "url");
  correlation_id ← cli_uuid4 ce;
  client_request_id ← cli_uuid4 ce;
  token ← access_token (governance_client_name c);
  r ← ge_request ge "GET" (py_str endpoint +:+ "/status/" +:+ job_id) (call_headers token correlation_id client_request_id) None;
  _ ← lift (checked_response r);
  lift (j ← gr_json r; with_ids correlation_id client_request_id j).

(** ** Datasets *)

Definition load_access_policy_from_file (policy_file : string) : M W DataAccessPolicy :=
  load_document ce policy_file ("Access policy file '" +:+ policy_file +:+ "' not found.")
    (wrapped_document ["accessMode"; "allowedFields"] "datasetAccessPolicy" (co_parse_policy co)
       "Invalid access policy file format. Expected 'accessMode' and 'allowedFields' properties."
       "Access policy file must contain a JSON object.")
    (document_error "Failed to parse YAML access policy file: " "Failed to parse JSON access policy file: "
       "Failed to load access policy from file: ").

(** The parameters of [collaboration_dataset_publish_cmd] after the names. *)
Record DatasetPublish := {
  dp_dek_secret_store_name : string;
  dp_kek_secret_store_name : string;
  dp_workload : string;
  dp_contract_id : string;
  dp_policy_file : string;
  dp_policy_access_mode : string;
  dp_policy_allowed_fields : string;
  dp_datastore_config_file : string;
  dp_secretstore_config_file : string;
  dp_kek_name : string;
  dp_subdirectory : string
}.

Definition named_secretstore (name config_file : string) : M W (option ISecretStore) :=
  if str_truthy name then s ← get_secretstore ce name config_file; mret (Some s) else mret None.

Definition dataset_policy (a : DatasetPublish) : M W DataAccessPolicy :=
  if str_truthy (dp_policy_file a) then load_access_policy_from_file (dp_policy_file a)
  else if negb (str_truthy (dp_policy_access_mode a)) || negb (str_truthy (dp_policy_allowed_fields a))
  then raise (CLIError "Access mode and allowed fields must be provided when not using a policy file.")
  else lift (generate_access_policy_from_fields (dp_policy_access_mode a) (split_on "," (dp_policy_allowed_fields a))).

Definition store_mode (m : DataAccessMode) : AccessMode := match m with access_read => Source | access_write => Sink end.

Definition with_subdirectory (ap : AccessPoint) (s : string) : AccessPoint :=
  if str_truthy s then
    {| ap_name := ap_name ap; ap_type := ap_type ap; ap_path := ap_path ap; store := store ap; identity := identity ap;
       protection := protection ap; subdirectory := Some s |}
  else ap.

(** The key that wraps the data key, created for the contract's policy, and the
    wrapped data key. *)
Definition publish_keys (datastore_name contract_id client : string) (a : DatasetPublish) (d : DataStoreEntry)
    (secrets : EncryptionSecrets) (dek_store kek_store : option ISecretStore) : M W unit :=
  let both := match dek_store, kek_store with Some x, Some y => Some (x, y) | _, _ => None end in
  stores ← lift (of_option (AssertionError ("Secret stores not specified for publishing dataset " +:+ de_name d)) both);
  h ← contract_host_data ge contract_id client;
  k ← lift (of_option (AssertionError ("KEK not specified for datastore " +:+ de_name d)) (kek secrets));
  let kek_name := resource_name (backingResource (es_secret k)) in
  _ ← create_kek ce (dp_secretstore_config_file a) (dp_kek_secret_store_name a) kek_name h;
  public_key ← get_secret stores.2 kek_name;
  _ ← add_secret stores.1 (resource_name (backingResource (es_secret (dek secrets))))
        (t ← generate_wrapped_dek ce datastore_name (dp_datastore_config_file a) public_key; mret (SText t)) None;
  mret ().

Definition collaboration_dataset_publish_cmd (dataset_name datastore_name identity_name : string) (a : DatasetPublish)
    (config_file : string) : M W unit :=
  c ← get_default_collaboration_context config_file;
  d ← get_datastore ce datastore_name (dp_datastore_config_file a);
  dek_store ← named_secretstore (dp_dek_secret_store_name a) (dp_secretstore_config_file a);
  kek_store ← named_secretstore (dp_kek_secret_store_name a) (dp_secretstore_config_file a);
  contract_id ← lift (publication_contract (dp_workload a) (dp_contract_id a));
  schema ← lift (of_option (CLIError ("Datastore " +:+ datastore_name
              +:+ " does not have a schema defined. Please define a schema before publishing the dataset.")) (datasetSchema d));
  i ← lift (get_identity (identity_manager (cc_identities c)) identity_name);
  policy ← dataset_policy a;
  ap ← lift (get_access_point d dataset_name (store_mode (dap_accessMode policy)) (Some i) (Some (dp_kek_name a))
               (ss_entry <$> dek_store) (ss_entry <$> kek_store));
  let ap := with_subdirectory ap (dp_subdirectory a) in
  _ ← (match encryptionSecrets (protection ap) with
       | Some s => publish_keys datastore_name contract_id (governance_client_name c) a d s dek_store kek_store
       | None => mret ()
       end);
  p ← propose_document dataset_name contract_id
        (dump_dataset co {| dsp_name := dataset_name; dsp_schema := schema; dsp_access_policy := policy; dsp_access_point := ap |})
        "dataset" [approver (JStr (collaborator_id c))] (governance_client_name c);
  id ← lift (json_item p "proposalId");
  _ ← governance_user_document_vote_cmd ge dataset_name id "accept" (governance_client_name c);
  mret ().
End Collab.
