(* ===== verification/CliCcf.v ===== *)
(** * CCF networks of the command line

    [azext_cleanroom/custom_ccf.py], [custom_ccf_recovery_service.py] and
    [custom_ccf_consortium_manager.py]: the client of the provider, the networks
    that run governance, their recovery and their join policies.  Docker compose,
    form uploads and requests without verification are a parameter ([CcfEnv]). *)

From S2P Require Import Prelude PyStr Base64 Json JsonFacts PyFloat Sha256 SparkModels Settings Helpers CleanroomModels SpecModels AppBuilder Md5 ConfigModels ConfigHelpers Encryptor DeployTemplate InitContainer JsonIndent CliStores CliData CliConfig CliGov CliDeploy.
From Stdlib Require Import Ascii.

(** ** The environment *)

Record CcfEnv (W : Type) := {
  cf_gov : GovEnv W;
  (** [cli_ctx.config.get("cleanroom", key, "")] *)
  cf_config : string -> M W string;
  (** a form with files: address, fields and contents *)
  cf_post_form : string -> list (string * string) -> list (string * string) -> M W GovResponse;
  (** [requests.get(url, verify=False)] *)
  cf_unverified_get : string -> M W GovResponse;
  (** compose file and project *)
  compose_up : string -> string -> M W unit;
  compose_down : string -> string -> M W unit;
  compose_port : string -> string -> M W Z;
  cf_uid : Z;
  cf_gid : Z;
  cf_home : string;
  (** the folder of the module *)
  cf_module_dir : string
}.
Arguments cf_gov {W}.
Arguments cf_config {W}.
Arguments cf_post_form {W}.
Arguments cf_unverified_get {W}.
Arguments compose_up {W}.
Arguments compose_down {W}.
Arguments compose_port {W}.
Arguments cf_uid {W}.
Arguments cf_gid {W}.
Arguments cf_home {W}.
Arguments cf_module_dir {W}.

(** [response.headers[name]], whose keys have no case. *)
Definition response_header (name : string) (r : GovResponse) : res string :=
  of_option (KeyError (lower name)) (snd <$> find (fun h => bool_decide (lower h.1 = lower name)) (gr_headers r)).

(** [item in container], of which only the errors matter here. *)
Definition check_in (item container : json) : res unit :=
  match container, item with
  | JArr _, _ | JStr _, JStr _ => Ok ()
  | JStr _, _ => Err (TypeError ("'in <string>' requires string as left operand, not " +:+ py_type item))
  | JObj _, (JArr _ | JObj _) => Err (TypeError ("unhashable type: '" +:+ py_type item +:+ "'"))
  | JObj _, _ => Ok ()
  | _, _ => Err (TypeError ("argument of type '" +:+ py_type container +:+ "' is not iterable"))
  end.

(** Without progress the variable of the messages is not set. *)
Definition display_progress (progress_till_now operation : json) : res json :=
  progress ← json_item operation "progress";
  match progress with
  | JNull => Err (UnboundLocalError "to_display")
  | _ =>
      items ← json_items progress;
      _ ← mapM_res (fun item => check_in item progress_till_now) items;
      Ok progress
  end.

Definition to_security_policy_option (option : string) : res string :=
  if bool_decide (option = "cached") then Ok "cached"
  else if bool_decide (option = "cached-debug") then Ok "cachedDebug"
  else if bool_decide (option = "allow-all") then Ok "allowAll"
  else if bool_decide (option = "user-supplied") then Ok "userSupplied"
  else Err (CLIError ("Option " +:+ option +:+ " not handled. Fix this.")).

Definition requires_provider_config (infra_type : string) : bool := bool_decide (infra_type = "caci").

Definition starts_with (c : ascii) (s : string) : bool :=
  match s with String d _ => bool_decide (d = c) | "" => false end.

Section Ccf.
Context {W : Type} (cf : CcfEnv W).
Abbreviation ge := (cf_gov cf).
Abbreviation ce := (ge_cli (cf_gov cf)).

(** [open(file, "r").read()], of a parameter that may be left out. *)
Definition open_text (file : option string) : M W string :=
  match file with
  | Some p => read_text ge p
  | None => raise (TypeError "expected str, bytes or os.PathLike object, not NoneType")
  end.

Definition open_bytes (file : option string) : M W string :=
  match file with
  | Some p => cli_read ce p
  | None => raise (TypeError "expected str, bytes or os.PathLike object, not NoneType")
  end.

Definition must_exist (file : string) : M W unit :=
  found ← cli_exists ce file;
  if (found : bool) then mret () else raise (CLIError ("File " +:+ file +:+ " does not exist.")).

(** A text given itself or by the name of its file. *)
Definition text_or_file (text : string) : M W string :=
  found ← cli_exists ce text;
  if (found : bool) then read_text ge text else mret text.

(** ** The provider's client *)

Definition get_provider_client_name_for (key provider_client_name : string) : M W string :=
  if str_truthy provider_client_name then mret provider_client_name
  else
    n ← cf_config cf key;
    if str_truthy n then mret n
    else raise (CLIError ("--provider-client=<value> parameter must be specified or set a default value via `az config set cleanroom "
                          +:+ key +:+ "=<value>`")).

Definition get_provider_client_port_for (key provider_client_name : string) : M W json :=
  name ← get_provider_client_name_for key provider_client_name;
  _ ← docker_from_env ge;
  try_except (host_port ge (name +:+ "-client-1"))
    (fun _ => try_except (host_port ge name)
       (fun _ => raise (CLIError ("Not finding a client instance running with name '" +:+ name
                                  +:+ "'. Check the --provider-client parameter value.")))).

Definition get_provider_client_name : string -> M W string := get_provider_client_name_for "ccf.provider.client_name".
Definition get_provider_client_port : string -> M W json := get_provider_client_port_for "ccf.provider.client_name".

Definition get_provider_client_endpoint (provider_client_name : string) : M W string :=
  port ← get_provider_client_port provider_client_name;
  mret ("http://localhost:" +:+ py_str port).

(** *** Deploying it *)

(** The lines of an environment file that assign a variable. *)
Definition env_line (line : string) : option (string * string) :=
  let line := strip line in
  if negb (str_truthy line) || starts_with "#" line then None else split_first "=" line.

Fixpoint set_env_lines (trim : string -> string) (lines : list string) : M W unit :=
  match lines with
  | [] => mret ()
  | line :: rest =>
      _ ← match env_line line with Some (k, v) => cli_setenv ce (trim k) (trim v) | None => mret () end;
      set_env_lines trim rest
  end.

Definition load_env_file (trim : string -> string) (env_file : option string) : M W unit :=
  if ostr_truthy env_file then
    let file := default "" env_file in
    found ← cli_exists ce file;
    if negb found then raise (CLIError ("Environment file not found: " +:+ file))
    else text ← read_text ge file; set_env_lines trim (split_on (ascii_of_nat 10) text)
  else mret ().

Fixpoint set_env_defaults (l : list (string * string)) : M W unit :=
  match l with
  | [] => mret ()
  | (k, v) :: rest =>
      o ← cli_getenv ce k;
      _ ← match o with None => cli_setenv ce k v | Some _ => mret () end;
      set_env_defaults rest
  end.

Definition ccf_env_defaults : list (string * string) :=
  [("GITHUB_ACTIONS", "false"); ("CODESPACES", "false");
   ("AZCLI_CCF_PROVIDER_RUN_JS_APP_VIRTUAL_IMAGE", ""); ("AZCLI_CCF_PROVIDER_RUN_JS_APP_SNP_IMAGE", "");
   ("AZCLI_CCF_PROVIDER_RECOVERY_AGENT_IMAGE", ""); ("AZCLI_CCF_PROVIDER_CVM_ATTESTATION_VERIFIER_IMAGE", "");
   ("AZCLI_CCF_PROVIDER_RECOVERY_SERVICE_IMAGE", ""); ("AZCLI_CCF_PROVIDER_CONSORTIUM_MANAGER_IMAGE", "");
   ("AZCLI_CCF_PROVIDER_PROXY_IMAGE", ""); ("AZCLI_CCF_PROVIDER_SKR_IMAGE", "");
   ("AZCLI_CCF_PROVIDER_LOCAL_SKR_IMAGE", ""); ("AZCLI_CCF_PROVIDER_NETWORK_SECURITY_POLICY_DOCUMENT_URL", "");
   ("AZCLI_CCF_PROVIDER_RECOVERY_SERVICE_SECURITY_POLICY_DOCUMENT_URL", "");
   ("AZCLI_CCF_PROVIDER_CONSORTIUM_MANAGER_SECURITY_POLICY_DOCUMENT_URL", "");
   ("AZCLI_CCF_PROVIDER_CONTAINER_REGISTRY_URL", "")].

Definition ccf_provider_compose_file : string := cf_module_dir cf +:+ "/data/ccf-provider/docker-compose.yaml".
Definition ccf_provider_workspace_dir : string := cli_tempdir ce +:+ "/ccf-provider".

Definition set_docker_compose_env_params : M W unit :=
  _ ← cli_setenv ce "AZCLI_CCF_PROVIDER_CLIENT_WORKSPACE_DIR" ccf_provider_workspace_dir;
  _ ← cli_setenv ce "AZCLI_CCF_PROVIDER_UID" (str_of_Z (cf_uid cf));
  _ ← cli_setenv ce "AZCLI_CCF_PROVIDER_GID" (str_of_Z (cf_gid cf));
  set_env_defaults ccf_env_defaults.

(** [while True]; every error of a request counts as not ready. *)
Fixpoint wait_ready (fuel : nat) (endpoint : string) : M W unit :=
  match fuel with
  | O => raise (OtherException "wait_ready: fuel")
  | S fuel' =>
      ready ← try_except (r ← ge_request ge "GET" (endpoint +:+ "/ready") [] None; mret (gr_status r =? 200)%Z) (fun _ => mret false);
      if (ready : bool) then mret ()
      else _ ← cli_sleep ce 5; wait_ready fuel' endpoint
  end.

Definition ccf_provider_deploy (fuel : nat) (provider_client_name : string) (env_file : option string) : M W unit :=
  _ ← load_env_file id env_file;
  found ← cli_exists ce ccf_provider_workspace_dir;
  _ ← (if (found : bool) then mret () else cli_makedirs ce ccf_provider_workspace_dir);
  _ ← set_docker_compose_env_params;
  _ ← compose_up cf ccf_provider_compose_file provider_client_name;
  port ← compose_port cf ccf_provider_compose_file provider_client_name;
  wait_ready fuel ("http://localhost:" +:+ str_of_Z port).

Definition ccf_provider_remove (provider_client_name : string) : M W unit :=
  name ← get_provider_client_name provider_client_name;
  _ ← set_docker_compose_env_params;
  compose_down cf ccf_provider_compose_file name.

Definition ccf_provider_show (provider_client_name : string) : M W json :=
  endpoint ← get_provider_client_endpoint provider_client_name;
  r ← send ge "GET" endpoint "/show" None;
  lift (gr_json r).

(** The identity of the key that signs, with its file read. *)
Definition signing_identity (signing_cert_id signing_cert signing_key : option string) : M W (option string) :=
  if negb (ostr_truthy signing_cert) && negb (ostr_truthy signing_key) && negb (ostr_truthy signing_cert_id)
  then raise (CLIError "Either (signing-cert,signing-key) or signing-cert-id must be specified.")
  else if ostr_truthy signing_cert_id then
    if ostr_truthy signing_cert || ostr_truthy signing_key
    then raise (CLIError "signing-cert/signing-key cannot be specified along with signing-cert-id.")
    else t ← text_or_file (default "" signing_cert_id); mret (Some t)
  else if negb (ostr_truthy signing_cert) || negb (ostr_truthy signing_key)
  then raise (CLIError "Both signing-cert and signing-key must be specified.")
  else
    _ ← must_exist (default "" signing_cert);
    _ ← must_exist (default "" signing_key);
    mret signing_cert_id.

Definition ccf_provider_configure (signing_cert_id signing_cert signing_key : option string) (provider_client_name : string) : M W unit :=
  id ← signing_identity signing_cert_id signing_cert signing_key;
  endpoint ← get_provider_client_endpoint provider_client_name;
  form ← (if ostr_truthy id then mret ([("signingCertId", default "" id)], [])
          else
            cert ← open_bytes signing_cert;
            key ← open_bytes signing_key;
            mret ([], [("SigningCertPemFile", cert); ("SigningKeyPemFile", key)]));
  r ← cf_post_form cf (endpoint +:+ "/configure") form.1 form.2;
  lift (checked_response r).

(** ** Operations that take time *)

Definition operation_failed (method url : string) (operation : json) : res json :=
  status_code ← json_item operation "statusCode";
  Err (CLIError (method +:+ " " +:+ url +:+ " failed with status: " +:+ py_str status_code +:+ " response: "
                 +:+ dumps_indent 0 operation)).

(** [while True]: the place of the operation is read from the last answer. *)
Fixpoint track_loop (fuel : nat) (provider_endpoint method url : string) (progress_till_now : json) (response : GovResponse)
  : M W json :=
  match fuel with
  | O => raise (OtherException "track_operation: fuel")
  | S fuel' =>
      operation_location ← lift (response_header "Operation-Location" response);
      if negb (str_truthy operation_location)
      then raise (CLIError ("Operation-Location header not found in response for " +:+ method +:+ " " +:+ url +:+ "."))
      else
        response ← send ge "GET" provider_endpoint operation_location None;
        operation ← lift (gr_json response);
        progress ← lift (display_progress progress_till_now operation);
        status ← lift (json_item operation "status");
        if json_eqs status "Succeeded" then lift (json_item operation "resource")
        else if json_eqs status "Failed" then lift (operation_failed method url operation)
        else _ ← cli_sleep ce 2; track_loop fuel' provider_endpoint method url progress response
  end.

Definition track_operation (fuel : nat) (provider_endpoint : string) (response : GovResponse) : M W json :=
  track_loop fuel provider_endpoint (gr_method response) (gr_url response) (JArr []) response.

(** A request that starts an operation is answered with 202. *)
Definition start_operation (fuel : nat) (endpoint path : string) (content : json) : M W json :=
  r ← ge_request ge "POST" (endpoint +:+ path) [] (Some content);
  if negb (gr_status r =? 202)%Z then raise (CLIError (response_error_message r)) else track_operation fuel endpoint r.

(** ** Arguments *)

(** An argument that is left out stays as it is. *)
Definition json_option (arg : option string) : M W json :=
  if ostr_truthy arg then json_argument ge (default "" arg) else mret (opt_json arg).

Definition parse_provider_config (provider_config : option string) (infra_type : string) : M W json :=
  j ← json_option provider_config;
  if negb (json_truthy j) && requires_provider_config infra_type
  then raise (CLIError ("--provider-config parameter must be specified for infra type " +:+ infra_type))
  else mret j.

Definition parse_agent_config (agent_config : option string) : M W json :=
  j ← json_option agent_config;
  if negb (json_truthy j) then raise (CLIError "--agent-config parameter must be specified") else mret j.

Definition to_security_policy_config (security_policy_creation_option : string) (security_policy : option string) : M W json :=
  policy_option ← lift (to_security_policy_option security_policy_creation_option);
  let supplied := bool_decide (policy_option = "userSupplied") in
  if supplied && negb (ostr_truthy security_policy)
  then raise (CLIError "No --security-policy specified with user-supplied creation option.")
  else if negb supplied && ostr_truthy security_policy
  then raise (CLIError "--security-policy-creation-option must be user-supplied when passing --security-policy.")
  else if ostr_truthy security_policy then
    let p := default "" security_policy in
    found ← cli_exists ce p;
    policy ← (if (found : bool) then content ← read_text ge p; mret (b64encode (utf8_encode content)) else mret p);
    mret (JObj [("policy", JStr policy); ("policyCreationOption", JStr "userSupplied")])
  else mret (JObj [("policyCreationOption", JStr policy_option)]).

(** ** Networks *)

Definition network_path (network_name path : string) : string := "/networks/" +:+ network_name +:+ path.

Definition provider_ask (endpoint path : string) (content : json) : M W json :=
  r ← send ge "POST" endpoint path (Some content);
  lift (gr_json r).

Definition provider_do (endpoint path : string) (content : json) : M W unit :=
  _ ← send ge "POST" endpoint path (Some content);
  mret ().

(** Files in place of a member's certificate and key. *)
Definition expand_pem (field : string) (member : json) : M W json :=
  value ← lift (v ← json_item member field; json_text v);
  found ← cli_exists ce value;
  if (found : bool) then text ← read_text ge value; lift (json_set member field (JStr text)) else mret member.

Definition expand_member (member : json) : M W json :=
  member ← expand_pem "certificate" member;
  has ← lift (json_has "encryptionPublicKey" member);
  if (has : bool) then expand_pem "encryptionPublicKey" member else mret member.

Definition expand_members (members : json) : M W json :=
  l ← lift (json_items members);
  l ← mapM expand_member l;
  mret (match members with JArr _ => JArr l | _ => members end).

Definition ccf_network_create (fuel : nat) (network_name infra_type : string) (node_count node_log_level : json)
    (security_policy_creation_option : string) (security_policy : option string) (members : string)
    (provider_config : option string) (provider_client_name : string) : M W json :=
  endpoint ← get_provider_client_endpoint provider_client_name;
  policy ← to_security_policy_config security_policy_creation_option security_policy;
  members ← json_argument ge members;
  members ← expand_members members;
  config ← parse_provider_config provider_config infra_type;
  start_operation fuel endpoint (network_path network_name "/create?async=true")
    (JObj [("infraType", JStr infra_type); ("nodeCount", node_count); ("nodeLogLevel", node_log_level);
           ("securityPolicy", policy); ("members", members); ("providerConfig", config)]).

Definition delete_option_json (delete_option : option string) : res (list (string * json)) :=
  if ostr_truthy delete_option then
    let o := default "" delete_option in
    if bool_decide (o = "delete-storage") then Ok [("deleteOption", JStr "DeleteStorage")]
    else if bool_decide (o = "retain-storage") then Ok [("deleteOption", JStr "RetainStorage")]
    else Err (CLIError ("Unmapped option value " +:+ o +:+ ". Fix this."))
  else Ok [].

(** The endpoint and the parsed configuration, which most commands begin with. *)
Definition provider_setup (infra_type : string) (provider_config : option string) (provider_client_name : string)
  : M W (string * list (string * json)) :=
  endpoint ← get_provider_client_endpoint provider_client_name;
  config ← parse_provider_config provider_config infra_type;
  mret (endpoint, [("infraType", JStr infra_type); ("providerConfig", config)]).

Definition ccf_network_delete (network_name infra_type : string) (delete_option provider_config : option string)
    (provider_client_name : string) : M W unit :=
  s ← provider_setup infra_type provider_config provider_client_name;
  o ← lift (delete_option_json delete_option);
  provider_do s.1 (network_path network_name "/delete") (JObj (s.2 ++ o)).

Definition ccf_network_update (network_name infra_type : string) (node_count node_log_level : json)
    (security_policy_creation_option : string) (security_policy provider_config : option string)
    (provider_client_name : string) : M W json :=
  endpoint ← get_provider_client_endpoint provider_client_name;
  policy ← to_security_policy_config security_policy_creation_option security_policy;
  config ← parse_provider_config provider_config infra_type;
  provider_ask endpoint (network_path network_name "/update")
    (JObj [("infraType", JStr infra_type); ("nodeCount", node_count); ("nodeLogLevel", node_log_level);
           ("securityPolicy", policy); ("providerConfig", config)]).

Definition ccf_network_recover_public_network (network_name : string) (target_network_name : json)
    (previous_service_cert infra_type : string) (node_count node_log_level : json)
    (security_policy_creation_option : string) (security_policy provider_config : option string)
    (provider_client_name : string) : M W json :=
  _ ← must_exist previous_service_cert;
  endpoint ← get_provider_client_endpoint provider_client_name;
  policy ← to_security_policy_config security_policy_creation_option security_policy;
  config ← parse_provider_config provider_config infra_type;
  cert ← read_text ge previous_service_cert;
  provider_ask endpoint (network_path network_name "/recoverPublicNetwork")
    (JObj [("infraType", JStr infra_type); ("targetNetworkName", target_network_name);
           ("previousServiceCertificate", JStr cert); ("nodeCount", node_count); ("nodeLogLevel", node_log_level);
           ("securityPolicy", policy); ("providerConfig", config)]).

Definition ccf_network_submit_recovery_share (network_name infra_type : string)
    (encryption_private_key encryption_key_id provider_config : option string) (provider_client_name : string) : M W json :=
  if negb (ostr_truthy encryption_private_key) && negb (ostr_truthy encryption_key_id)
  then raise (CLIError "Either encryption-private-key or encryption-key-id must be specified.")
  else if ostr_truthy encryption_private_key && ostr_truthy encryption_key_id
  then raise (CLIError "Both encryption-private-key and encryption-key-id cannot be specified.")
  else
    key ← (if ostr_truthy encryption_private_key
           then _ ← must_exist (default "" encryption_private_key); t ← open_text encryption_private_key; mret (Some t)
           else mret encryption_private_key);
    id ← (if ostr_truthy encryption_key_id then t ← text_or_file (default "" encryption_key_id); mret (Some t)
          else mret encryption_key_id);
    s ← provider_setup infra_type provider_config provider_client_name;
    provider_ask s.1 (network_path network_name "/submitRecoveryShare")
      (JObj (s.2 ++ [if ostr_truthy key then ("encryptionPrivateKey", opt_json key) else ("encryptionKeyId", opt_json id)])).

(** The keys of a recovery by the operator.  The private key's file is opened
    whether it was given or not. *)
Definition recovery_keys (encryption_private_key encryption_key_id : option string)
    (recovery_service_name member_name : option string) : M W (option string * option string) :=
  let one_of := "Either (--operator-recovery-encryption-private-key/operator-recovery-encryption-key-id) or (--confidential-recovery-member-name and --confidential-recovery-service-name) must be specified." in
  if ostr_truthy encryption_private_key || ostr_truthy encryption_key_id then
    if ostr_truthy encryption_private_key && ostr_truthy encryption_key_id
    then raise (CLIError "Both operator-recovery-encryption-private-key and operator-recovery-encryption-key-id cannot be specified.")
    else if ostr_truthy recovery_service_name || ostr_truthy member_name then raise (CLIError one_of)
    else
      _ ← (if ostr_truthy encryption_private_key then must_exist (default "" encryption_private_key) else mret ());
      key ← open_text encryption_private_key;
      id ← (if ostr_truthy encryption_key_id then t ← text_or_file (default "" encryption_key_id); mret (Some t)
            else mret encryption_key_id);
      mret (Some key, id)
  else if negb (ostr_truthy recovery_service_name) || negb (ostr_truthy member_name) then raise (CLIError one_of)
  else mret (encryption_private_key, encryption_key_id).

Definition recovery_json (key id recovery_service_name member_name : option string) : string * json :=
  if ostr_truthy key then ("operatorRecovery", JObj [("encryptionPrivateKey", opt_json key)])
  else if ostr_truthy id then ("operatorRecovery", JObj [("encryptionKeyId", opt_json id)])
  else ("confidentialRecovery", JObj [("memberName", opt_json member_name); ("recoveryServiceName", opt_json recovery_service_name)]).

(** The parameters of [ccf_network_recover] after the name. *)
Record NetworkRecover := {
  nr_previous_service_cert : string;
  nr_encryption_private_key : option string;
  nr_encryption_key_id : option string;
  nr_recovery_service_name : option string;
  nr_member_name : option string;
  nr_infra_type : string;
  nr_node_log_level : json;
  nr_security_policy_creation_option : string;
  nr_security_policy : option string;
  nr_provider_config : option string;
  nr_provider_client_name : string
}.

Definition ccf_network_recover (fuel : nat) (network_name : string) (a : NetworkRecover) : M W json :=
  _ ← must_exist (nr_previous_service_cert a);
  keys ← recovery_keys (nr_encryption_private_key a) (nr_encryption_key_id a) (nr_recovery_service_name a) (nr_member_name a);
  endpoint ← get_provider_client_endpoint (nr_provider_client_name a);
  policy ← to_security_policy_config (nr_security_policy_creation_option a) (nr_security_policy a);
  config ← parse_provider_config (nr_provider_config a) (nr_infra_type a);
  cert ← read_text ge (nr_previous_service_cert a);
  start_operation fuel endpoint (network_path network_name "/recover?async=true")
    (JObj [("infraType", JStr (nr_infra_type a)); ("previousServiceCertificate", JStr cert);
           ("nodeLogLevel", nr_node_log_level a); ("securityPolicy", policy); ("providerConfig", config);
           recovery_json keys.1 keys.2 (nr_recovery_service_name a) (nr_member_name a)]).

(** A question about a network that takes no more than the configuration. *)
Definition network_ask (path : string) (network_name infra_type : string) (provider_config : option string)
    (provider_client_name : string) : M W json :=
  s ← provider_setup infra_type provider_config provider_client_name;
  provider_ask s.1 (network_path network_name path) (JObj s.2).

Definition ccf_network_show := network_ask "/get".
Definition ccf_network_recovery_agent_show := network_ask "/recoveryagents/get".
Definition ccf_network_recovery_agent_show_report := network_ask "/recoveryagents/report".
Definition ccf_network_recovery_agent_show_network_report := network_ask "/recoveryagents/network/report".
Definition ccf_network_show_health := network_ask "/health".
Definition ccf_network_show_report := network_ask "/report".
Definition ccf_network_trigger_snapshot := network_ask "/snapshots/trigger".
Definition ccf_network_security_policy_generate_join_policy_from_network := network_ask "/generateJoinPolicy".
Definition ccf_network_join_policy_show := network_ask "/getJoinPolicy".

(** The content of a request to the recovery agent for a member. *)
Definition agent_content (member : list (string * json)) (infra_type : string) (agent_config provider_config : option string)
    (provider_client_name : string) : M W (string * json) :=
  endpoint ← get_provider_client_endpoint provider_client_name;
  config ← parse_provider_config provider_config infra_type;
  agent ← parse_agent_config agent_config;
  mret (endpoint, JObj ([("infraType", JStr infra_type)] ++ member ++ [("providerConfig", config); ("agentConfig", agent)])).

Definition ccf_network_recovery_agent_generate_member (network_name member_name infra_type : string)
    (agent_config provider_config : option string) (provider_client_name : string) : M W json :=
  c ← agent_content [("memberName", JStr member_name)] infra_type agent_config provider_config provider_client_name;
  provider_ask c.1 (network_path network_name "/recoveryagents/recoverymembers/generate") c.2.

Definition ccf_network_recovery_agent_activate_member (network_name member_name infra_type : string)
    (agent_config provider_config : option string) (provider_client_name : string) : M W unit :=
  c ← agent_content [("memberName", JStr member_name)] infra_type agent_config provider_config provider_client_name;
  provider_do c.1 (network_path network_name "/recoveryagents/recoverymembers/activate") c.2.

Definition ccf_network_recovery_agent_submit_recovery_share (network_name member_name infra_type : string)
    (agent_config provider_config : option string) (provider_client_name : string) : M W json :=
  c ← agent_content [("memberName", JStr member_name)] infra_type agent_config provider_config provider_client_name;
  provider_ask c.1 (network_path network_name "/recoveryagents/recoverymembers/submitrecoveryshare") c.2.

Definition ccf_network_recovery_agent_set_network_join_policy (network_name infra_type : string)
    (agent_config provider_config : option string) (provider_client_name : string) : M W unit :=
  c ← agent_content [] infra_type agent_config provider_config provider_client_name;
  provider_do c.1 (network_path network_name "/recoveryagents/network/joinpolicy/set") c.2.

Definition ccf_network_transition_to_open (network_name infra_type : string) (previous_service_cert provider_config : option string)
    (provider_client_name : string) : M W json :=
  s ← provider_setup infra_type provider_config provider_client_name;
  cert ← (if ostr_truthy previous_service_cert then t ← text_or_file (default "" previous_service_cert); mret (Some t)
          else mret previous_service_cert);
  provider_ask s.1 (network_path network_name "/transitionToOpen")
    (JObj (s.2 ++ if ostr_truthy cert then [("previousServiceCertificate", opt_json cert)] else [])).

Definition generate_policy (path infra_type security_policy_creation_option provider_client_name : string) : M W json :=
  endpoint ← get_provider_client_endpoint provider_client_name;
  policy_option ← lift (to_security_policy_option security_policy_creation_option);
  provider_ask endpoint path (JObj [("infraType", JStr infra_type); ("securityPolicyCreationOption", JStr policy_option)]).

Definition ccf_network_security_policy_generate := generate_policy "/networks/generateSecurityPolicy".
Definition ccf_network_security_policy_generate_join_policy := generate_policy "/networks/generateJoinPolicy".

(** *** Join policies *)

(** The policy in base64, when its digest is the host data. *)
Definition checked_policy (host_data : string) (security_policy : option string) : M W string :=
  if ostr_truthy security_policy then
    _ ← must_exist (default "" security_policy);
    policy ← open_text security_policy;
    let hash := sha256_hex (utf8_encode policy) in
    if bool_decide (hash <> host_data)
    then raise (CLIError ("Security policy hash " +:+ hash +:+ " does not match supplied host data " +:+ host_data +:+ "."))
    else mret (b64encode (utf8_encode policy))
  else mret "".

Definition ccf_network_join_policy_add_snp_host_data (network_name infra_type host_data : string)
    (security_policy provider_config : option string) (provider_client_name : string) : M W json :=
  s ← provider_setup infra_type provider_config provider_client_name;
  policy ← checked_policy host_data security_policy;
  provider_ask s.1 (network_path network_name "/addSnpHostData")
    (JObj (s.2 ++ [("hostData", JStr host_data); ("securityPolicy", JStr policy)])).

(** The commands that send the configuration and some fields. *)
Definition network_change (path : string) (fields : list (string * json)) (network_name infra_type : string)
    (provider_config : option string) (provider_client_name : string) : M W json :=
  s ← provider_setup infra_type provider_config provider_client_name;
  provider_ask s.1 (network_path network_name path) (JObj (s.2 ++ fields)).

Definition ccf_network_join_policy_remove_snp_host_data (network_name infra_type host_data : string)
    (provider_config : option string) (provider_client_name : string) : M W json :=
  network_change "/removeSnpHostData" [("hostData", JStr host_data)] network_name infra_type provider_config provider_client_name.

Definition ccf_network_join_policy_set_snp_minimum_tcb_version (network_name infra_type cpuid tcb_version : string)
    (provider_config : option string) (provider_client_name : string) : M W json :=
  network_change "/setSnpMinimumTcbVersion" [("cpuid", JStr cpuid); ("tcbVersion", JStr tcb_version)]
    network_name infra_type provider_config provider_client_name.

Definition ccf_network_join_policy_remove_snp_minimum_tcb_version (network_name infra_type cpuid : string)
    (provider_config : option string) (provider_client_name : string) : M W json :=
  network_change "/removeSnpMinimumTcbVersion" [("cpuid", JStr cpuid)] network_name infra_type provider_config provider_client_name.

Definition ccf_network_join_policy_add_snp_uvm_endorsement (network_name infra_type did feed svn : string)
    (provider_config : option string) (provider_client_name : string) : M W json :=
  network_change "/addSnpUvmEndorsement" [("did", JStr did); ("feed", JStr feed); ("svn", JStr svn)]
    network_name infra_type provider_config provider_client_name.

Definition ccf_network_join_policy_remove_snp_uvm_endorsement (network_name infra_type did feed : string)
    (provider_config : option string) (provider_client_name : string) : M W json :=
  network_change "/removeSnpUvmEndorsement" [("did", JStr did); ("feed", JStr feed)]
    network_name infra_type provider_config provider_client_name.

Definition ccf_network_set_recovery_threshold (network_name infra_type : string) (recovery_threshold : json)
    (provider_config : option string) (provider_client_name : string) : M W json :=
  network_change "/setRecoveryThreshold" [("recoveryThreshold", recovery_threshold)]
    network_name infra_type provider_config provider_client_name.

Definition ccf_network_configure_confidential_recovery
    (network_name recovery_service_name recovery_member_name infra_type : string)
    (provider_config : option string) (provider_client_name : string) : M W unit :=
  s ← provider_setup infra_type provider_config provider_client_name;
  provider_do s.1 (network_path network_name "/configureConfidentialRecovery")
    (JObj (s.2 ++ [("recoveryServiceName", JStr recovery_service_name); ("recoveryMemberName", JStr recovery_member_name)])).
End Ccf.

(** * Bringing a CCF network up, recovery services and consortium managers

    [ccf_network_up] of [custom_ccf.py], which runs the other commands through the
    command line, and the services around a network
    ([custom_ccf_recovery_service.py], [custom_ccf_consortium_manager.py]). *)
(** The names and the identifiers of the roles. *)
Definition recovery_roles : list (string * string) :=
  [("Key Vault Crypto Officer", "14b46e9e-c2b7-41b4-b07b-48a6ebf60603");
   ("Key Vault Secrets Officer", "b86a8fe4-44ce-4948-aee5-eccb2c155cd7")].

Definition ROLE_RETRIES : nat := 10.

(** The platforms whose firmware versions are set. *)
Definition snp_platforms : list (string * string) :=
  [("00a00f11", "0300000000000003"); ("00a10f11", "0300000000000003"); ("00b00f21", "0300000000000003")].

(** The parameters of [ccf_network_up]. *)
Record NetworkUp := {
  up_network_name : string;
  up_infra_type : string;
  up_resource_group : string;
  up_ws_folder : string;
  up_location : string;
  up_option : string;
  up_recovery_mode : string;
  up_client : string
}.

Section Up.
Context {W : Type} (cf : CcfEnv W).
Abbreviation ge := (cf_gov cf).
Abbreviation ce := (ge_cli (cf_gov cf)).
Abbreviation az := (az_cli (ge_cli (cf_gov cf))).

(** ** Services around a network *)

Definition parse_network_join_policy (ccf_network_join_policy : option string) : M W json :=
  if negb (ostr_truthy ccf_network_join_policy)
  then raise (CLIError "--ccf-network-join-policy parameter must be specified")
  else json_argument ge (default "" ccf_network_join_policy).

Definition parse_svc_config (svc_config : option string) : M W json :=
  j ← json_option cf svc_config;
  if negb (json_truthy j) then raise (CLIError "--service-config parameter must be specified") else mret j.

Definition service_path (service_name path : string) : string := "/recoveryservices/" +:+ service_name +:+ path.

Definition key_vault_url (key_vault : string) : M W json :=
  az ("resource show --id " +:+ key_vault +:+ " --query properties.vaultUri").

Definition ccf_recovery_service_create (service_name infra_type key_vault maa_endpoint : string) (identity : option string)
    (ccf_network_join_policy : option string) (security_policy_creation_option : string)
    (security_policy provider_config : option string) (provider_client_name : string) : M W json :=
  endpoint ← get_provider_client_endpoint cf provider_client_name;
  policy ← to_security_policy_config cf security_policy_creation_option security_policy;
  config ← parse_provider_config cf provider_config infra_type;
  join_policy ← parse_network_join_policy ccf_network_join_policy;
  if bool_decide (infra_type = "caci") && negb (ostr_truthy identity)
  then raise (CLIError ("--identity input is required for infra type " +:+ infra_type))
  else
    url ← key_vault_url key_vault;
    provider_ask cf endpoint (service_path service_name "/create")
      (JObj [("infraType", JStr infra_type); ("akvEndpoint", url); ("maaEndpoint", JStr maa_endpoint);
             ("managedIdentityId", opt_json identity); ("ccfNetworkJoinPolicy", join_policy);
             ("securityPolicy", policy); ("providerConfig", config)]).

Definition ccf_recovery_service_delete (service_name infra_type : string) (provider_config : option string)
    (provider_client_name : string) : M W unit :=
  s ← provider_setup cf infra_type provider_config provider_client_name;
  provider_do cf s.1 (service_path service_name "/delete") (JObj s.2).

Definition ccf_recovery_service_show (service_name infra_type : string) (provider_config : option string)
    (provider_client_name : string) : M W json :=
  s ← provider_setup cf infra_type provider_config provider_client_name;
  provider_ask cf s.1 (service_path service_name "/get") (JObj s.2).

(** A question to the service itself, by GET with a body. *)
Definition service_api (path : string) (service_config : option string) (provider_client_name : string) : M W json :=
  endpoint ← get_provider_client_endpoint cf provider_client_name;
  config ← parse_svc_config service_config;
  service ← lift (json_item config "recoveryService");
  r ← send ge "GET" endpoint ("/recoveryservices/api" +:+ path) (Some (JObj [("recoveryService", service)]));
  lift (gr_json r).

Definition ccf_recovery_service_api_network_show_join_policy := service_api "/network/joinpolicy".
Definition ccf_recovery_service_api_show_report := service_api "/report".
Definition ccf_recovery_service_api_member_show (member_name : string) : option string -> string -> M W json :=
  service_api ("/members" +:+ if str_truthy member_name then "/" +:+ member_name else "").
Definition ccf_recovery_service_api_member_show_report (member_name : string) : option string -> string -> M W json :=
  service_api ("/" +:+ member_name +:+ "/report").

Definition ccf_recovery_service_security_policy_generate (infra_type security_policy_creation_option : string)
    (ccf_network_join_policy : option string) (provider_client_name : string) : M W json :=
  endpoint ← get_provider_client_endpoint cf provider_client_name;
  policy_option ← lift (to_security_policy_option security_policy_creation_option);
  join_policy ← parse_network_join_policy ccf_network_join_policy;
  provider_ask cf endpoint "/recoveryservices/generateSecurityPolicy"
    (JObj [("infraType", JStr infra_type); ("ccfNetworkJoinPolicy", join_policy);
           ("securityPolicyCreationOption", JStr policy_option)]).

Definition ccf_consortium_manager_create (consortium_manager_name infra_type key_vault maa_endpoint : string)
    (identity provider_config : option string) (provider_client_name : string) : M W json :=
  endpoint ← get_provider_client_endpoint cf provider_client_name;
  config ← parse_provider_config cf provider_config infra_type;
  url ← key_vault_url key_vault;
  provider_ask cf endpoint ("/consortiummanagers/" +:+ consortium_manager_name +:+ "/create")
    (JObj [("infraType", JStr infra_type); ("akvEndpoint", url); ("maaEndpoint", JStr maa_endpoint);
           ("managedIdentityId", opt_json identity); ("providerConfig", config)]).

Definition ccf_consortium_manager_show (consortium_manager_name infra_type : string) (provider_config : option string)
    (provider_client_name : string) : M W json :=
  s ← provider_setup cf infra_type provider_config provider_client_name;
  provider_ask cf s.1 ("/consortiummanagers/" +:+ consortium_manager_name +:+ "/get") (JObj s.2).

(** ** Resources of a confidential recovery *)

(** Assigning a role is tried ten times. *)
Fixpoint assign_role (retries : nat) (command failed : string) : M W unit :=
  match retries with
  | O => raise (CLIError failed)
  | S retries' =>
      done ← try_except (_ ← az command; mret true) (fun _ => mret false);
      if (done : bool) then mret ()
      else _ ← cli_sleep ce 5; assign_role retries' command failed
  end.

Fixpoint assign_roles (kv_name mi_name : string) (kv_id mi_app_id : json) (roles : list (string * string)) : M W unit :=
  match roles with
  | [] => mret ()
  | (role, role_id) :: rest =>
      _ ← assign_role ROLE_RETRIES
            ("role assignment create --role " +:+ role_id +:+ " --scope " +:+ py_str kv_id +:+ " --assignee-object-id "
             +:+ py_str mi_app_id +:+ " --assignee-principal-type ServicePrincipal")
            ("Failed setting " +:+ role +:+ " permissions on key vualt " +:+ kv_name +:+ " for managed identity " +:+ mi_name +:+ ".");
      assign_roles kv_name mi_name kv_id mi_app_id rest
  end.

Definition prepare_confidential_recovery_resources (unique_string resource_group ws_folder : string) : M W unit :=
  let kv_name := "ccf" +:+ unique_string +:+ "akv" in
  let mi_name := "ccf" +:+ unique_string +:+ "mi" in
  names ← az ("keyvault list --resource-group " +:+ resource_group +:+ " --query [].name");
  present ← (if json_truthy names then lift (json_has kv_name names) else mret false);
  _ ← (if (present : bool) then mret JNull
       else az ("keyvault create --resource-group " +:+ resource_group +:+ " --name " +:+ kv_name
                +:+ " --sku premium --enable-rbac-authorization true --enable-purge-protection true"));
  kv_id ← az ("keyvault show --resource-group " +:+ resource_group +:+ " --name " +:+ kv_name +:+ " --query id --output tsv");
  _ ← az ("identity create --name " +:+ mi_name +:+ " --resource-group " +:+ resource_group);
  mi_id ← az ("identity show --name " +:+ mi_name +:+ " --resource-group " +:+ resource_group +:+ " --query id --output tsv");
  mi_app_id ← az ("identity show --name " +:+ mi_name +:+ " --resource-group " +:+ resource_group
                  +:+ " --query principalId --output tsv");
  _ ← assign_roles kv_name mi_name kv_id mi_app_id recovery_roles;
  write_text ge (path_join ws_folder "recoveryResources.json")
    (dumps_indent 0 (JObj [("kvId", kv_id); ("confidentialRecovererMemberName", JStr ("conf-recoverer-" +:+ unique_string));
                           ("miId", mi_id); ("maaEndpoint", JStr "sharedneu.neu.attest.azure.net")])).

(** ** [ccf_network_up] *)

(** The folder of the workspace, made when none is given. *)
Definition workspace_folder (ws_folder name suffix : string) : M W string :=
  if str_truthy ws_folder then
    found ← cli_exists ce ws_folder;
    if (found : bool) then mret ws_folder else raise (CLIError (ws_folder +:+ " does not exist"))
  else
    let folder := path_join (cf_home cf) (name +:+ suffix) in
    found ← cli_exists ce folder;
    _ ← (if (found : bool) then mret () else cli_makedirs ce folder);
    mret folder.

(** A file that is written once; its content. *)
Definition write_once (file : string) (value : M W string) : M W string :=
  found ← cli_exists ce file;
  _ ← (if (found : bool) then mret () else v ← value; write_text ge file v);
  read_text ge file.

Definition workspace_id (ws_folder : string) : M W string :=
  write_once (path_join ws_folder "unique_string.txt") (u ← cli_uuid4 ce; mret (str_take 8 u)).

Definition check_recovery_mode (ws_folder recovery_mode : string) : M W unit :=
  value ← write_once (path_join ws_folder "recovery_mode.txt") (mret recovery_mode);
  if bool_decide (recovery_mode <> value)
  then raise (CLIError ("Cannot change recovery mode to " +:+ recovery_mode +:+ " once set."))
  else mret ().

Definition resource_location (location resource_group : string) : M W json :=
  if str_truthy location then mret (JStr location)
  else az ("group show --name " +:+ resource_group +:+ " --query location --output tsv").

(** The operator's certificate, made by a script when there is none. *)
Definition operator_certificate (keygenerator_sh ws_folder recovery_mode : string) : M W unit :=
  let cert := path_join ws_folder "ccf-operator_cert.pem" in
  found ← cli_exists ce cert;
  if (found : bool) then mret ()
  else
    _ ← cli_run ce (["bash"; keygenerator_sh; "--name"; "ccf-operator"; "--out"; ws_folder]
                    ++ if bool_decide (recovery_mode = "operator-recovery") then ["--gen-enc-key"] else []);
    found ← cli_exists ce cert;
    if (found : bool) then mret () else raise (CLIError ("Failed to generate " +:+ cert +:+ ".")).

Definition operator_member (ws_folder recovery_mode : string) : json :=
  JObj ([("certificate", JStr (path_join ws_folder "ccf-operator_cert.pem"));
         ("memberData", JObj [("identifier", JStr "ccf-operator"); ("isOperator", JBool true)])]
        ++ if bool_decide (recovery_mode = "operator-recovery")
           then [("encryptionPublicKey", JStr (path_join ws_folder "ccf-operator_enc_pubk.pem"))] else []).

(** The recovery service of a network that recovers confidentially; its resources
    and its name. *)
Definition recovery_service (a : NetworkUp) (unique_string ws_folder provider_config_file : string) : M W (json * string) :=
  if bool_decide (up_recovery_mode a = "confidential-recovery") then
    _ ← prepare_confidential_recovery_resources unique_string (up_resource_group a) ws_folder;
    resources ← get_file_json ge (path_join ws_folder "recoveryResources.json");
    join_policy ← az ("cleanroom ccf network security-policy generate-join-policy --security-policy-creation-option " +:+ up_option a +:+ " ");
    let join_policy_file := path_join ws_folder "networkJoinPolicy.json" in
    _ ← write_text ge join_policy_file (dumps_indent 0 join_policy);
    let name := up_network_name a +:+ "-recovery" in
    kv ← lift (v ← json_item resources "kvId"; json_text v);
    maa ← lift (v ← json_item resources "maaEndpoint"; json_text v);
    mi ← lift (v ← json_item resources "miId"; json_text v);
    _ ← az ("cleanroom ccf recovery-service create --name " +:+ name +:+ " --key-vault " +:+ kv +:+ " --maa-endpoint " +:+ maa
            +:+ " --identity " +:+ mi +:+ " --ccf-network-join-policy " +:+ join_policy_file
            +:+ " --provider-config " +:+ provider_config_file);
    mret (resources, name)
  else mret (JNull, "").

(** Errors of the join policy's settings are only logged. *)
Definition ignore_errors (m : M W json) : M W unit := try_except (_ ← m; mret ()) (fun _ => mret ()).

Fixpoint set_tcb_versions (a : NetworkUp) (provider_config_file : string) (platforms : list (string * string)) : M W unit :=
  match platforms with
  | [] => mret ()
  | (cpuid, tcb_version) :: rest =>
      _ ← ignore_errors (az ("cleanroom ccf network join-policy set-snp-minimum-tcb-version --name " +:+ up_network_name a
            +:+ " --infra-type " +:+ up_infra_type a +:+ " --cpuid " +:+ cpuid +:+ " --tcb-version " +:+ tcb_version
            +:+ " --provider-config " +:+ provider_config_file +:+ " --provider-client " +:+ up_client a));
      set_tcb_versions a provider_config_file rest
  end.

Definition configure_join_policy (a : NetworkUp) (provider_config_file : string) : M W unit :=
  if bool_decide (up_infra_type a = "caci") then
    _ ← set_tcb_versions a provider_config_file snp_platforms;
    ignore_errors (az ("cleanroom ccf network join-policy add-snp-uvm-endorsement --name " +:+ up_network_name a
      +:+ " --infra-type " +:+ up_infra_type a
      +:+ " --did 'did:x509:0:sha256:I__iuL25oXEVFdTP_aBLx_eT1RPHbCQ_ECBQfYZpt9s::eku:1.3.6.1.4.1.311.76.59.1.2' --feed ContainerPlat-AMD-UVM --svn 0 --provider-config "
      +:+ provider_config_file +:+ " --provider-client " +:+ up_client a))
  else mret ().

Definition configure_recovery (a : NetworkUp) (provider_config_file : string) (service : json * string) : M W unit :=
  if bool_decide (up_recovery_mode a = "confidential-recovery") then
    cm_name ← lift (json_item service.1 "confidentialRecovererMemberName");
    _ ← az ("cleanroom ccf network configure-confidential-recovery --name " +:+ up_network_name a +:+ " --recovery-service-name "
            +:+ service.2 +:+ " --recovery-member-name " +:+ py_str cm_name +:+ " --provider-config " +:+ provider_config_file +:+ " ");
    _ ← az ("cleanroom ccf network set-recovery-threshold --name " +:+ up_network_name a
            +:+ " --recovery-threshold 1 --provider-config " +:+ provider_config_file +:+ " --provider-client " +:+ up_client a);
    mret ()
  else mret ().

(** The operator's governance client of the new network. *)
Definition join_operator (a : NetworkUp) (ws_folder : string) (ccf_endpoint : json) : M W unit :=
  r ← cf_unverified_get cf (py_str ccf_endpoint +:+ "/node/network");
  _ ← lift (checked_response r);
  service_cert ← lift (j ← gr_json r; c ← json_item j "service_certificate"; json_text c);
  let service_cert_file := path_join ws_folder "service_cert.pem" in
  _ ← write_text ge service_cert_file service_cert;
  let key_file := path_join ws_folder "ccf-operator_privk.pem" in
  let cert_file := path_join ws_folder "ccf-operator_cert.pem" in
  let client := up_network_name a +:+ "-operator-governance" in
  _ ← az ("cleanroom governance client deploy --ccf-endpoint " +:+ py_str ccf_endpoint +:+ " --signing-key " +:+ key_file
          +:+ " --signing-cert " +:+ cert_file +:+ " --service-cert " +:+ service_cert_file +:+ " --name " +:+ client);
  _ ← az ("cleanroom governance member activate --governance-client " +:+ client);
  _ ← az ("cleanroom ccf provider configure --signing-key " +:+ key_file +:+ " --signing-cert " +:+ cert_file
          +:+ " --name " +:+ up_client a);
  mret ().

(** The files of the workspace: the provider's configuration and the members. *)
Definition network_config (location subscription_id tenant_id : json) (resource_group : string) (sa_id : json) : json :=
  JObj [("location", location); ("subscriptionId", subscription_id); ("tenantId", tenant_id);
        ("resourceGroupName", JStr resource_group); ("azureFiles", JObj [("storageAccountId", sa_id)])].

Definition ccf_network_up (keygenerator_sh : string) (a : NetworkUp) : M W unit :=
  location ← resource_location (up_location a) (up_resource_group a);
  ws_folder ← workspace_folder (up_ws_folder a) (up_network_name a) ".ccfworkspace";
  unique_string ← workspace_id ws_folder;
  _ ← check_recovery_mode ws_folder (up_recovery_mode a);
  let sa_name := "ccf" +:+ unique_string +:+ "sa" in
  _ ← az ("storage account create --name " +:+ sa_name +:+ " --resource-group " +:+ up_resource_group a
          +:+ " --allow-shared-key-access true --allow-blob-public-access false");
  sa_id ← az ("storage account show --name " +:+ sa_name +:+ " --resource-group " +:+ up_resource_group a +:+ " --query id --output tsv");
  subscription_id ← az "account show --query id -o tsv";
  tenant_id ← az "account show --query tenantId -o tsv";
  _ ← operator_certificate keygenerator_sh ws_folder (up_recovery_mode a);
  let members_file := path_join ws_folder "members.json" in
  _ ← write_text ge members_file (dumps_indent 0 (JArr [operator_member ws_folder (up_recovery_mode a)]));
  let provider_config_file := path_join ws_folder "providerConfig.json" in
  _ ← write_text ge provider_config_file
        (dumps_indent 0 (network_config location subscription_id tenant_id (up_resource_group a) sa_id));
  _ ← az ("cleanroom ccf provider deploy --name " +:+ up_client a);
  service ← recovery_service a unique_string ws_folder provider_config_file;
  ccf_endpoint ← az ("cleanroom ccf network create --name " +:+ up_network_name a +:+ " --members " +:+ members_file
                     +:+ " --provider-config " +:+ provider_config_file +:+ " --security-policy-creation-option " +:+ up_option a
                     +:+ " --query endpoint --output tsv --provider-client " +:+ up_client a);
  _ ← join_operator a ws_folder ccf_endpoint;
  _ ← configure_recovery a provider_config_file service;
  _ ← configure_join_policy a provider_config_file;
  _ ← az ("cleanroom ccf network transition-to-open --name " +:+ up_network_name a +:+ " --provider-config " +:+ provider_config_file
          +:+ " --provider-client " +:+ up_client a);
  mret ().
End Up.
