(* ===== verification/CliCluster.v ===== *)
(** * Clusters of the command line

    [azext_cleanroom/custom_cleanroom_cluster.py]: the client of the cluster
    provider, clusters with their workloads, and the deployments generated for
    the workloads of a contract. *)

From S2P Require Import Prelude PyStr Base64 Json JsonFacts PyFloat Sha256 SparkModels Settings Helpers CleanroomModels SpecModels AppBuilder Md5 ConfigModels ConfigHelpers Encryptor DeployTemplate InitContainer JsonIndent CliStores CliData CliConfig CliGov CliDeploy CliCcf.
From Stdlib Require Import Ascii.

(** The options of a workload. *)
Record WorkloadOptions := {
  wo_enabled : bool;
  wo_config_url : option string;
  wo_config_url_ca_cert : option string;
  wo_disable_telemetry : bool;
  wo_policy_option : string;
  wo_policy : option string
}.

(** The options of flex nodes. *)
Record FlexNode := {
  fn_enabled : bool;
  fn_ssh_private_key : option string;
  fn_ssh_public_key : option string;
  fn_policy_signing_cert : option string;
  fn_vm_size : json;
  fn_count : json
}.

(** The parameters of [cluster_create] and [cluster_update] after the name. *)
Record ClusterOptions := {
  cl_infra_type : string;
  cl_provider_config : option string;
  cl_observability : bool;
  cl_monitoring : bool;
  cl_analytics : WorkloadOptions;
  cl_pool_node_count : json;
  cl_kserve : WorkloadOptions;
  cl_flex : FlexNode;
  cl_client : string
}.

Definition cluster_requires_provider_config (infra_type : string) : bool := bool_decide (infra_type = "aks").

Definition cluster_env_defaults : list (string * string) :=
  [("GITHUB_ACTIONS", "false"); ("CODESPACES", "false")]
  ++ map (fun k => (k, ""))
  ["AZCLI_CLEANROOM_CLUSTER_PROVIDER_PROXY_IMAGE"; "AZCLI_CLEANROOM_CLUSTER_PROVIDER_OTEL_COLLECTOR_IMAGE";
   "AZCLI_CLEANROOM_CLUSTER_PROVIDER_GOVERNANCE_IMAGE"; "AZCLI_CLEANROOM_CLUSTER_PROVIDER_GOVERNANCE_VIRTUAL_IMAGE";
   "AZCLI_CLEANROOM_CLUSTER_PROVIDER_SKR_IMAGE"; "AZCLI_CLEANROOM_CLUSTER_PROVIDER_LOCAL_SKR_IMAGE";
   "AZCLI_CLEANROOM_CLUSTER_PROVIDER_CONTAINER_REGISTRY_URL"; "AZCLI_CLEANROOM_SIDECARS_POLICY_DOCUMENT_REGISTRY_URL";
   "AZCLI_CLEANROOM_CLUSTER_PROVIDER_CONTAINER_REGISTRY_USE_HTTP"; "AZCLI_CLEANROOM_CLUSTER_PROVIDER_SPARK_ANALYTICS_AGENT_IMAGE";
   "AZCLI_CLEANROOM_CLUSTER_PROVIDER_SPARK_ANALYTICS_AGENT_SECURITY_POLICY_DOCUMENT_URL";
   "AZCLI_CLEANROOM_CLUSTER_PROVIDER_SPARK_ANALYTICS_AGENT_CHART_URL"; "AZCLI_CLEANROOM_CLUSTER_PROVIDER_SPARK_FRONTEND_IMAGE";
   "AZCLI_CLEANROOM_CLUSTER_PROVIDER_SPARK_FRONTEND_SECURITY_POLICY_DOCUMENT_URL";
   "AZCLI_CLEANROOM_CLUSTER_PROVIDER_SPARK_FRONTEND_CHART_URL";
   "AZCLI_CLEANROOM_CLUSTER_PROVIDER_KSERVE_INFERENCING_AGENT_IMAGE";
   "AZCLI_CLEANROOM_CLUSTER_PROVIDER_KSERVE_INFERENCING_AGENT_SECURITY_POLICY_DOCUMENT_URL";
   "AZCLI_CLEANROOM_CLUSTER_PROVIDER_KSERVE_INFERENCING_AGENT_CHART_URL";
   "AZCLI_CLEANROOM_CLUSTER_PROVIDER_KSERVE_INFERENCING_FRONTEND_IMAGE";
   "AZCLI_CLEANROOM_CLUSTER_PROVIDER_KSERVE_INFERENCING_FRONTEND_SECURITY_POLICY_DOCUMENT_URL";
   "AZCLI_CLEANROOM_CLUSTER_PROVIDER_KSERVE_INFERENCING_FRONTEND_CHART_URL";
   "AZCLI_CLEANROOM_CLUSTER_PROVIDER_API_SERVER_PROXY_PACKAGE_URL"].

(** [base64.b64decode(v).decode()] *)
Definition decoded_text (v : json) : res string := v ← json_text v; raw ← b64decode v; utf8_decode raw.

Section Cluster.
Context {W : Type} (cf : CcfEnv W).
Abbreviation ge := (cf_gov cf).
Abbreviation ce := (ge_cli (cf_gov cf)).
Abbreviation az := (az_cli (ge_cli (cf_gov cf))).

(** ** The provider's client *)

Definition get_cluster_client_name : string -> M W string := get_provider_client_name_for cf "cluster.provider.client_name".

Definition get_cluster_client_endpoint (provider_client_name : string) : M W string :=
  port ← get_provider_client_port_for cf "cluster.provider.client_name" provider_client_name;
  mret ("http://localhost:" +:+ py_str port).

Definition cluster_provider_compose_file : string := cf_module_dir cf +:+ "/data/cluster-provider/docker-compose.yaml".

Definition set_cluster_env_params : M W unit :=
  _ ← cli_setenv ce "AZCLI_CLEANROOM_CLUSTER_UID" (str_of_Z (cf_uid cf));
  _ ← cli_setenv ce "AZCLI_CLEANROOM_CLUSTER_GID" (str_of_Z (cf_gid cf));
  set_env_defaults cf cluster_env_defaults.

Definition cluster_provider_deploy (fuel : nat) (provider_client_name : string) (env_file : option string) : M W unit :=
  _ ← load_env_file cf strip env_file;
  _ ← set_cluster_env_params;
  _ ← compose_up cf cluster_provider_compose_file provider_client_name;
  port ← compose_port cf cluster_provider_compose_file provider_client_name;
  wait_ready cf fuel ("http://localhost:" +:+ str_of_Z port).

Definition cluster_provider_remove (provider_client_name : string) : M W unit :=
  name ← get_cluster_client_name provider_client_name;
  _ ← set_cluster_env_params;
  compose_down cf cluster_provider_compose_file name.

Definition parse_cluster_config (provider_config : option string) (infra_type : string) : M W json :=
  j ← json_option cf provider_config;
  if negb (json_truthy j) && cluster_requires_provider_config infra_type
  then raise (CLIError ("--provider-config parameter must be specified for infra type " +:+ infra_type))
  else mret j.

(** [with open(file, "w") as f: f.write(text)]: the file is emptied before the text is
    computed. *)
Definition with_open_w (file : string) (text : res string) : M W unit :=
  _ ← write_text ge file "";
  t ← lift text;
  write_text ge file t.

(** ** Clusters *)

Definition cluster_path (cluster_name path : string) : string := "/clusters/" +:+ cluster_name +:+ path.

Definition profile (fields : list (string * json)) : json := JObj (("enabled", JBool true) :: fields).

Definition workload_fields (w : WorkloadOptions) (policy : json) : list (string * json) :=
  [("telemetryProfile", JObj [("collectionEnabled", JBool (negb (wo_disable_telemetry w)))]);
   ("configurationUrl", opt_json (wo_config_url w)); ("configurationUrlCaCert", opt_json (wo_config_url_ca_cert w));
   ("securityPolicy", policy)].

(** The file of an option, which must exist when it is given. *)
Definition option_file (what : string) (file : option string) : M W (option string) :=
  if ostr_truthy file then
    found ← cli_exists ce (default "" file);
    if (found : bool) then t ← read_text ge (default "" file); mret (Some t)
    else raise (CLIError (what +:+ " file not found: " +:+ default "" file))
  else mret None.

Definition flex_node_json (f : FlexNode) : M W (list (string * json)) :=
  if fn_enabled f then
    private_key ← option_file "SSH private key" (fn_ssh_private_key f);
    public_key ← option_file "SSH public key" (fn_ssh_public_key f);
    cert ← option_file "Policy signing cert" (fn_policy_signing_cert f);
    mret [("flexNodeProfile", profile [("sshPrivateKeyPem", opt_json private_key); ("sshPublicKey", opt_json (strip <$> public_key));
             ("policySigningCertPem", opt_json cert); ("vmSize", fn_vm_size f); ("nodeCount", fn_count f)])]
  else mret [].

(** The profiles of a cluster; the pool of an update is sent whatever its count. *)
Definition cluster_profiles (o : ClusterOptions) (pool : list (string * json)) (analytics_policy kserve_policy : json)
  : list (string * json) :=
  (if cl_observability o then [("observabilityProfile", profile [])] else [])
  ++ (if cl_monitoring o then [("monitoringProfile", profile [])] else [])
  ++ (if wo_enabled (cl_analytics o)
      then [("analyticsWorkloadProfile", profile (workload_fields (cl_analytics o) analytics_policy ++ pool))] else [])
  ++ (if wo_enabled (cl_kserve o)
      then [("inferencingWorkloadProfile", JObj [("kserveProfile", profile (workload_fields (cl_kserve o) kserve_policy))])]
      else []).

Definition pool_profile (count : json) : list (string * json) := [("poolProfile", JObj [("nodeCount", count)])].

(** The endpoint, the policies of the workloads and the configuration. *)
Definition cluster_setup (o : ClusterOptions) : M W (string * (json * json) * json) :=
  endpoint ← get_cluster_client_endpoint (cl_client o);
  analytics ← to_security_policy_config cf (wo_policy_option (cl_analytics o)) (wo_policy (cl_analytics o));
  kserve ← to_security_policy_config cf (wo_policy_option (cl_kserve o)) (wo_policy (cl_kserve o));
  config ← parse_cluster_config (cl_provider_config o) (cl_infra_type o);
  mret (endpoint, (analytics, kserve), config).

Definition cluster_content (o : ClusterOptions) (config : json) (pool : list (string * json)) (policies : json * json) : M W json :=
  flex ← flex_node_json (cl_flex o);
  mret (JObj ([("infraType", JStr (cl_infra_type o)); ("providerConfig", config)]
              ++ cluster_profiles o pool policies.1 policies.2 ++ flex)).

Definition cluster_create (fuel : nat) (cluster_name : string) (node_vm_size : option string) (o : ClusterOptions) : M W json :=
  s ← cluster_setup o;
  config ← (if ostr_truthy node_vm_size then lift (json_set s.2 "nodeVmSize" (opt_json node_vm_size)) else mret s.2);
  content ← cluster_content o config (if json_truthy (cl_pool_node_count o) then pool_profile (cl_pool_node_count o) else []) s.1.2;
  start_operation cf fuel s.1.1 (cluster_path cluster_name "/create?async=true") content.

Definition cluster_update (fuel : nat) (cluster_name : string) (o : ClusterOptions) : M W json :=
  s ← cluster_setup o;
  content ← cluster_content o s.2 (pool_profile (cl_pool_node_count o)) s.1.2;
  start_operation cf fuel s.1.1 (cluster_path cluster_name "/update?async=true") content.

(** The endpoint and the content most commands begin with. *)
Definition cluster_request (infra_type : string) (provider_config : option string) (provider_client_name : string)
  : M W (string * list (string * json)) :=
  endpoint ← get_cluster_client_endpoint provider_client_name;
  config ← parse_cluster_config provider_config infra_type;
  mret (endpoint, [("infraType", JStr infra_type); ("providerConfig", config)]).

Definition cluster_ask (path cluster_name infra_type : string) (provider_config : option string) (provider_client_name : string)
  : M W json :=
  s ← cluster_request infra_type provider_config provider_client_name;
  provider_ask cf s.1 (cluster_path cluster_name path) (JObj s.2).

Definition cluster_show := cluster_ask "/get".
Definition cluster_show_health := cluster_ask "/health".

Definition cluster_delete (cluster_name infra_type : string) (provider_config : option string) (provider_client_name : string) : M W unit :=
  s ← cluster_request infra_type provider_config provider_client_name;
  provider_do cf s.1 (cluster_path cluster_name "/delete") (JObj s.2).

Definition cluster_get_kubeconfig (cluster_name infra_type file : string) (provider_config : option string)
    (provider_client_name access_role : string) : M W unit :=
  s ← cluster_request infra_type provider_config provider_client_name;
  j ← provider_ask cf s.1 (cluster_path cluster_name "/getkubeconfig") (JObj (s.2 ++ [("accessRole", JStr access_role)]));
  kubeconfig ← lift (json_item j "kubeconfig");
  with_open_w file (decoded_text kubeconfig).

(** ** Deployments of workloads *)

(** The four files of a generated deployment. *)
Definition write_workload (output_dir prefix : string) (j : json) : M W unit :=
  let file name := output_dir +:+ "/" +:+ prefix +:+ name in
  _ ← with_open_w (file ".deployment-template.json") (t ← json_item j "deploymentTemplate"; Ok (dumps_indent 0 t));
  _ ← with_open_w (file ".governance-policy.json") (p ← json_item j "governancePolicy"; Ok (dumps_indent 0 p));
  _ ← with_open_w (file ".cce-policy.rego") (c ← json_item j "ccePolicy"; v ← json_item c "value"; decoded_text v);
  with_open_w (file ".cce-policy.json") (c ← json_item j "ccePolicy"; Ok (dumps_indent 0 c)).

Definition generate_workload (path prefix infra_type : string) (provider_config : option string) (disable_telemetry : bool)
    (contract_id gov_client_name security_policy_creation_option output_dir provider_client_name : string) : M W unit :=
  found ← cli_exists ce output_dir;
  if negb found then raise (CLIError ("Output folder location " +:+ output_dir +:+ " does not exist."))
  else
    endpoint ← get_cluster_client_endpoint provider_client_name;
    cgs_port ← get_cgs_client_port ge gov_client_name;
    policy ← to_security_policy_config cf security_policy_creation_option None;
    config ← parse_cluster_config provider_config infra_type;
    j ← provider_ask cf endpoint ("/clusters/" +:+ path +:+ "/generateDeployment")
          (JObj [("infraType", JStr infra_type); ("providerConfig", config);
                 ("contractUrl", JStr ("http://host.docker.internal:" +:+ py_str cgs_port +:+ "/contracts/" +:+ contract_id));
                 ("telemetryProfile", JObj [("collectionEnabled", JBool (negb disable_telemetry))]);
                 ("contractUrlCaCert", JNull); ("securityPolicy", policy)]);
    write_workload output_dir prefix j.

Definition cluster_analytics_workload_deployment_generate := generate_workload "analyticsWorkload" "analytics-workload".
Definition cluster_kserve_inferencing_workload_deployment_generate :=
  generate_workload "kserveInferencingWorkload" "kserve-inferencing-workload".

(** ** [cluster_up] *)

Definition cluster_up (cluster_name resource_group ws_folder location : string) (node_vm_size : option string)
    (provider_client_name : string) (env_file : option string) : M W unit :=
  location ← resource_location cf location resource_group;
  ws_folder ← workspace_folder cf ws_folder cluster_name ".crcworkspace";
  _ ← workspace_id cf ws_folder;
  subscription_id ← az "account show --query id -o tsv";
  tenant_id ← az "account show --query tenantId -o tsv";
  let provider_config_file := path_join ws_folder "providerConfig.json" in
  _ ← write_text ge provider_config_file
        (dumps_indent 0 (JObj ([("location", location); ("subscriptionId", subscription_id);
                                ("resourceGroupName", JStr resource_group); ("tenantId", tenant_id)]
                               ++ if ostr_truthy node_vm_size then [("nodeVmSize", opt_json node_vm_size)] else [])));
  env ← (if ostr_truthy env_file then
           found ← cli_exists ce (default "" env_file);
           if (found : bool) then mret (" --env-file " +:+ default "" env_file)
           else raise (CLIError ("Environment file not found: " +:+ default "" env_file))
         else mret "");
  _ ← az ("cleanroom cluster provider deploy --name " +:+ provider_client_name +:+ env);
  _ ← az ("cleanroom cluster create --name " +:+ cluster_name +:+ " --enable-observability --provider-config "
          +:+ provider_config_file +:+ " --provider-client " +:+ provider_client_name);
  mret ().
End Cluster.
