(* ===== verification/AciToK8s.v ===== *)
(** * From a deployment template to a pod

    [src/tools/aci-to-k8s/app.py]: the template of a clean room as a pod for a local
    cluster.  The files are read and written by the caller; what the script prints
    is the pod, as JSON. *)

From S2P Require Import Prelude PyStr Base64 Json JsonFacts PyFloat Sha256 SparkModels Settings Helpers CleanroomModels SpecModels AppBuilder Md5 ConfigModels ConfigHelpers Encryptor DeployTemplate DeployTemplateProps InitContainer JsonIndent CliStores CliData CliConfig CliGov.
From Stdlib Require Import Ascii.

(** ** Addresses *)

(** [re.sub("https?://", "", s)]; [fuel] bounds the characters left. *)
Fixpoint remove_http (fuel : nat) (s : string) : string :=
  match fuel, s with
  | S fuel', String c s' =>
      if String.prefix "http://" s then remove_http fuel' (str_drop 7 s)
      else if String.prefix "https://" s then remove_http fuel' (str_drop 8 s)
      else String c (remove_http fuel' s')
  | _, _ => s
  end.

(** [urlunparse(urlparse(url)._replace(netloc=netloc))] for a [netloc] that is not
    empty. *)
Definition replace_netloc (netloc url : string) : res string :=
  let '(scheme, rest) := split_scheme (drop_newlines (strip_control url)) in
  let '(old, rest) := match rest with String "/" (String "/" rest') => split_netloc rest' | _ => ("", rest) end in
  if xorb (has_char "[" old) (has_char "]" old) then Err (ValueError "Invalid IPv6 URL")
  else
    let '(rest, fragment) := match partition_char "#" rest with Some p => p | None => (rest, "") end in
    let '(rest, query) := match partition_char "?" rest with Some p => p | None => (rest, "") end in
    let path := drop_params scheme rest in
    let params := str_drop (S (String.length path)) rest in
    let text := path +:+ if str_truthy params then ";" +:+ params else "" in
    let text := match text with "" | String "/" _ => text | _ => "/" +:+ text end in
    Ok ((if str_truthy scheme then scheme +:+ ":" else "") +:+ "//" +:+ netloc +:+ text
        +:+ (if str_truthy query then "?" +:+ query else "") +:+ (if str_truthy fragment then "#" +:+ fragment else "")).

Definition replace_registry_url (url registry_url : string) : res string :=
  let url := if String.prefix "http" url then url else "http://" +:+ url in
  u ← replace_netloc registry_url url;
  Ok (remove_http (String.length u) u).

(** ** Containers *)

(** The value of [privileged], which init containers state as a text. *)
Definition is_privileged (init : bool) (v : json) : bool :=
  json_eqs v "true" || negb init && match v with JBool true | JInt 1 => true | _ => false end.

(** [if key in d: ...], the field made of the value. *)
Definition optional_field (key : string) (d : json) (f : json -> res (list (string * json))) : res (list (string * json)) :=
  has ← json_has key d;
  if (has : bool) then v ← json_item d key; f v else Ok [].

Definition env_entry (item : json) : res json :=
  n ← json_item item "name"; v ← json_item item "value"; Ok (JObj [("name", n); ("value", v)]).

Definition mount_entry (privileged : bool) (item : json) : res json :=
  n ← json_item item "name"; p ← json_item item "mountPath";
  Ok (JObj [("name", n); ("mountPath", p); ("mountPropagation", JStr (if privileged then "Bidirectional" else "HostToContainer"))]).

Definition security_field (init : bool) (props : json) : res (list (string * json)) :=
  optional_field "securityContext" props (fun c =>
    optional_field "privileged" c (fun v =>
      Ok [("securityContext", JObj [("privileged", JBool (is_privileged init v))])])).

(** The flag as it was converted. *)
Definition privileged_of (security : list (string * json)) : bool :=
  match security with [(_, JObj [(_, JBool b)])] => b | _ => false end.

Definition list_field (key target : string) (f : json -> res json) (props : json) : res (list (string * json)) :=
  optional_field key props (fun v => items ← json_items v; l ← mapM_res f items; Ok [(target, JArr l)]).

Definition pod_container (init : bool) (container : json) : res json :=
  n ← json_item container "name";
  props ← json_item container "properties";
  image ← json_item props "image";
  command ← optional_field "command" props (fun v => Ok [("command", v)]);
  security ← security_field init props;
  env ← list_field "environmentVariables" "env" env_entry props;
  mounts ← list_field "volumeMounts" "volumeMounts" (mount_entry (privileged_of security)) props;
  Ok (JObj ([("name", n); ("image", image)] ++ command ++ security ++ env ++ mounts)).

(** ** Local testing *)

Record K8sArgs := {
  ka_registry_local_endpoint : option string;
  ka_repo : string;
  ka_tag : string;
  ka_pod_name : string
}.

Definition local_image (a : K8sArgs) (name : string) : json := JStr (ka_repo a +:+ "/" +:+ name +:+ ":" +:+ ka_tag a).

(** The first entry that satisfies a test, changed. *)
Fixpoint change_first {A} (test : A -> bool) (f : A -> res A) (l : list A) : res (list A) :=
  match l with
  | [] => Err (IndexError "list index out of range")
  | x :: l' => if test x then y ← f x; Ok (y :: l') else r ← change_first test f l'; Ok (x :: r)
  end.

Definition is_bundle_path (e : json) : bool := match json_item e "name" with Ok n => json_eqs n "BUNDLE_RESOURCE_PATH" | Err _ => false end.

(** The bundle of the proxy's processor in the local registry. *)
Definition localise_processor (a : K8sArgs) (item : json) : res json :=
  env ← (e ← json_item item "env"; json_items e);
  e ← of_option (IndexError "list index out of range") (find is_bundle_path env);
  value ← json_item e "value";
  local ← json_has "localhost" value;
  if (local : bool) && ostr_truthy (ka_registry_local_endpoint a) then
    path ← (t ← json_text value; replace_registry_url t (default "" (ka_registry_local_endpoint a)));
    env ← change_first is_bundle_path (fun e => json_set e "value" (JStr path))
            (env ++ [JObj [("name", JStr "USE_HTTP"); ("value", JStr "true")]]);
    json_set item "env" (JArr env)
  else Ok item.

(** The application in the local registry. *)
Definition localise_application (endpoint : string) (application : json) : res json :=
  json_modify [Key "image"; Key "executable"; Key "backingResource"]
    (fun r =>
       p ← json_item r "provider"; p ← json_set p "url" (JStr endpoint); r ← json_set r "provider" p;
       id ← (i ← json_item r "id"; json_text i);
       id ← replace_registry_url id endpoint;
       json_set r "id" (JStr id)) application.

(** The option's value, the argument after it. *)
Fixpoint change_argument (option : string) (f : json -> res json) (command : list json) : res (list json) :=
  match command with
  | [] => Err (IndexError "list index out of range")
  | x :: l =>
      if json_eqs x option then
        match l with [] => Err (IndexError "list index out of range") | y :: l' => z ← f y; Ok (x :: z :: l') end
      else r ← change_argument option f l; Ok (x :: r)
  end.

Definition localise_argument (a : K8sArgs) (encoded : json) : res json :=
  text ← (t ← json_text encoded; raw ← b64decode t; utf8_decode raw);
  application ← loads text;
  url ← json_at [Key "image"; Key "executable"; Key "backingResource"; Key "provider"; Key "url"] application;
  local ← json_has "localhost" url;
  if (local : bool) && ostr_truthy (ka_registry_local_endpoint a) then
    application ← localise_application (default "" (ka_registry_local_endpoint a)) application;
    Ok (JStr (b64encode (utf8_encode (dumps application))))
  else Ok encoded.

Definition registry_mount : json :=
  JObj [("name", JStr "registry-conf"); ("mountPath", JStr "/etc/containers/registries.conf.d")].

Definition registry_volume : json :=
  JObj [("name", JStr "registry-conf");
        ("configMap", JObj [("name", JStr "ccr-registry-conf");
                            ("items", JArr [JObj [("key", JStr "ccr-registry.conf"); ("path", JStr "ccr-registry.conf")]])])].

Definition localise_launcher (a : K8sArgs) (item : json) : res json :=
  command ← (c ← json_item item "command"; json_items c);
  command ← change_argument "--application-base-64" (localise_argument a) command;
  item ← json_set item "command" (JArr command);
  mounts ← json_item item "volumeMounts";
  mounts ← json_extend mounts [registry_mount];
  json_set item "volumeMounts" mounts.

Definition drop_fqdn (item : json) : res json :=
  env ← (e ← json_item item "env"; json_items e);
  names ← mapM_res (fun e => n ← json_item e "name"; Ok (e, n)) env;
  json_set item "env" (JArr (map fst (List.filter (fun en => negb (json_eqs en.2 "CCR_FQDN")) names))).

(** A container for local testing, and the volumes after it. *)
Definition localise (a : K8sArgs) (item volumes : json) : res (json * json) :=
  n ← json_item item "name";
  if json_eqs n "ccr-governance" then item ← json_set item "image" (local_image a "ccr-governance-virtual"); Ok (item, volumes)
  else
    processor ← json_has "ccr-proxy-ext-processor" n;
    if (processor : bool) then item ← localise_processor a item; Ok (item, volumes)
    else
      launcher ← json_has "code-launcher" n;
      if (launcher : bool) then
        item ← localise_launcher a item;
        volumes ← json_extend volumes [registry_volume];
        Ok (item, volumes)
      else if json_eqs n "ccr-proxy" then item ← drop_fqdn item; Ok (item, volumes)
      else Ok (item, volumes).

Fixpoint localise_all (a : K8sArgs) (items : list json) (volumes : json) : res (list json * json) :=
  match items with
  | [] => Ok ([], volumes)
  | item :: rest =>
      r ← localise a item volumes;
      r' ← localise_all a rest r.2;
      Ok (r.1 :: r'.1, r'.2)
  end.

(** [[pc for pc in pod_containers if pc["name"] != "skr"]] *)
Definition without_skr (containers : list json) : res (list json) :=
  names ← mapM_res (fun c => n ← json_item c "name"; Ok (c, n)) containers;
  Ok (map fst (List.filter (fun cn => negb (json_eqs cn.2 "skr")) names)).

Definition local_skr (a : K8sArgs) : json := JObj [("name", JStr "local-skr"); ("image", local_image a "local-skr")].

(** The script from the parsed template to the pod. *)
Definition aci_to_k8s (a : K8sArgs) (template : json) : res json :=
  props ← json_at [Key "resources"; Idx 0; Key "properties"] template;
  inits ← (j ← json_item props "initContainers"; l ← json_items j; mapM_res (pod_container true) l);
  containers ← (j ← json_item props "containers"; l ← json_items j; mapM_res (pod_container false) l);
  has ← json_has "volumes" props;
  volumes ← (if (has : bool) then json_item props "volumes" else Ok (JArr []));
  containers ← without_skr containers;
  r ← localise_all a (containers ++ [local_skr a]) volumes;
  Ok (JObj [("apiVersion", JStr "v1"); ("kind", JStr "Pod");
            ("metadata", JObj [("name", JStr (ka_pod_name a)); ("labels", JObj [("app", JStr (ka_pod_name a))])]);
            ("spec", JObj [("initContainers", JArr inits); ("containers", JArr r.1); ("volumes", r.2); ("restartPolicy", JStr "Never")])]).

(** ** The pod *)

(** The names for which an application is launched. *)
Definition is_launcher (n : json) : bool :=
  negb (json_eqs n "ccr-governance") &&
  match json_has "ccr-proxy-ext-processor" n, json_has "code-launcher" n with Ok false, Ok true => true | _, _ => false end.

Lemma json_set_name k v j j' : k <> "name" -> json_set j k v = Ok j' -> json_item j' "name" = json_item j "name".
Proof. intros Hk. destruct j; try done. intros [= <-]. cbn. by rewrite dict_lookup_set_ne. Qed.

Lemma localise_processor_name a item item' : localise_processor a item = Ok item' -> json_item item' "name" = json_item item "name".
Proof.
  intros (env & _ & H)%res_bind_ok. apply res_bind_ok in H as (e & _ & H). apply res_bind_ok in H as (v & _ & H).
  apply res_bind_ok in H as (b & _ & H). destruct (b && _); [|by injection H as <-].
  apply res_bind_ok in H as (p & _ & H). apply res_bind_ok in H as (env' & _ & H). by apply json_set_name in H.
Qed.

Lemma localise_launcher_name a item item' : localise_launcher a item = Ok item' -> json_item item' "name" = json_item item "name".
Proof.
  intros (c & _ & H)%res_bind_ok. apply res_bind_ok in H as (c' & _ & H). apply res_bind_ok in H as (i1 & H1 & H).
  apply res_bind_ok in H as (m & _ & H). apply res_bind_ok in H as (m' & _ & H).
  apply json_set_name in H as ->; [|done]. by apply json_set_name in H1.
Qed.

Lemma drop_fqdn_name item item' : drop_fqdn item = Ok item' -> json_item item' "name" = json_item item "name".
Proof. intros (e & _ & H)%res_bind_ok. apply res_bind_ok in H as (ns & _ & H). by apply json_set_name in H. Qed.

(** A container keeps its name, and a launcher brings one volume. *)
Lemma localise_ok a item vs r : localise a item (JArr vs) = Ok r ->
  exists n, json_item item "name" = Ok n /\ json_item r.1 "name" = Ok n /\
    r.2 = JArr (vs ++ if is_launcher n then [registry_volume] else []).
Proof.
  intros (n & Hn & H)%res_bind_ok. exists n. split; [done|]. destruct (json_eqs n "ccr-governance") eqn:Eg.
  { apply res_bind_ok in H as (i & Hi & [= <-]). unfold is_launcher. rewrite Eg, app_nil_r.
    apply json_set_name in Hi; [|done]. by rewrite <- Hn. }
  apply res_bind_ok in H as ([] & Hp & H).
  { apply res_bind_ok in H as (i & Hi%localise_processor_name & [= <-]). unfold is_launcher. by rewrite Eg, Hp, app_nil_r, <- Hn. }
  apply res_bind_ok in H as (l & Hl & H). unfold is_launcher. rewrite Eg, Hp, Hl. destruct l.
  { apply res_bind_ok in H as (i & Hi%localise_launcher_name & H). apply res_bind_ok in H as (v & [= <-] & [= <-]). by rewrite <- Hn. }
  rewrite app_nil_r. destruct (json_eqs n "ccr-proxy"); [|by injection H as <-].
  apply res_bind_ok in H as (i & Hi%drop_fqdn_name & [= <-]). by rewrite <- Hn.
Qed.

Definition named (n item : json) : Prop := json_item item "name" = Ok n.

Lemma localise_all_ok a items : forall vs r, localise_all a items (JArr vs) = Ok r ->
  exists names, Forall2 named names items /\ Forall2 named names r.1 /\
    r.2 = JArr (vs ++ repeat registry_volume (length (List.filter is_launcher names))).
Proof.
  induction items as [|item items IH]; intros vs r H.
  { injection H as <-. exists []. rewrite app_nil_r. repeat constructor. }
  apply res_bind_ok in H as (x & (n & Hn & Hx & Hv)%localise_ok & H). rewrite Hv in H.
  apply res_bind_ok in H as (y & (names & H1 & H2 & Hy)%IH & [= <-]). exists (n :: names).
  split; [by constructor|]. split; [by constructor|]. cbn [snd]. rewrite Hy, <- app_assoc. cbn [List.filter].
  by destruct (is_launcher n).
Qed.

Lemma pod_container_name init c c' : pod_container init c = Ok c' -> exists n, named n c /\ named n c'.
Proof.
  intros (n & Hn & H)%res_bind_ok. exists n. do 6 apply res_bind_ok in H as (? & _ & H). by injection H as <-.
Qed.

Lemma pod_containers_names init l : forall l', mapM_res (pod_container init) l = Ok l' ->
  exists names, Forall2 named names l /\ Forall2 named names l'.
Proof.
  intros l' H%mapM_res_Forall2. induction H as [|c c' l l' (n & H1 & H2)%pod_container_name _ (names & IH1 & IH2)].
  - exists []. by split.
  - exists (n :: names). split; by constructor.
Qed.

Lemma named_once names names' l : Forall2 named names l -> Forall2 named names' l -> names = names'.
Proof.
  intros H. revert names'. induction H as [|n c names l Hc _ IH]; intros names' H'; inversion H' as [|n' ? ns ? Hn Hns]; subst; [done|].
  unfold named in *. rewrite Hc in Hn. injection Hn as ->. f_equal. by apply IH.
Qed.

Definition not_skr (n : json) : bool := negb (json_eqs n "skr").

Lemma without_skr_names names l l' : Forall2 named names l -> without_skr l = Ok l' ->
  Forall2 named (List.filter not_skr names) l'.
Proof.
  intros Hn (ps & Hp%mapM_res_Forall2 & [= <-])%res_bind_ok. revert ps Hp.
  induction Hn as [|n c names l Hc Hn IH]; intros ps H; inversion H as [|? p ? ps' Hx Hps]; subst; [constructor|].
  rewrite Hc in Hx. injection Hx as <-. cbn. unfold not_skr at 1. destruct (json_eqs n "skr"); cbn; [|constructor; [done|]]; by apply IH.
Qed.

(** The pod has the template's containers with the key release sidecar replaced
    by the local one: the names are kept and in order, [skr] left out and
    [local-skr] last.  Its volumes are the template's with the registry's
    configuration once for every code launcher, so that a template with more than
    one application gives a pod with several volumes of the same name. *)
Theorem pod_of_template a template pod containers vs :
  aci_to_k8s a template = Ok pod ->
  json_at [Key "resources"; Idx 0; Key "properties"; Key "containers"] template = Ok (JArr containers) ->
  json_at [Key "resources"; Idx 0; Key "properties"; Key "volumes"] template = Ok (JArr vs) ->
  exists names pod_containers,
    Forall2 named names containers /\
    json_at [Key "spec"; Key "containers"] pod = Ok (JArr pod_containers) /\
    Forall2 named (List.filter not_skr names ++ [JStr "local-skr"]) pod_containers /\
    json_at [Key "spec"; Key "volumes"] pod
    = Ok (JArr (vs ++ repeat registry_volume (length (List.filter is_launcher (List.filter not_skr names))))).
Proof.
  intros (props & Hp & H)%res_bind_ok Hc Hv.
  assert (forall k, json_at [Key "resources"; Idx 0; Key "properties"; Key k] template = json_item props k) as Hprops.
  { intros k. revert Hp. unfold json_at, fold_res. cbn. destruct (json_item template "resources") as [x|]; [cbn | discriminate].
    destruct x as [| | | |[|x]|]; try discriminate. cbn. destruct (json_item x "properties"); [|discriminate]. intros [= ->]. cbn.
    by destruct (json_item props k). }
  rewrite Hprops in Hc, Hv. apply res_bind_ok in H as (inits & _ & H). rewrite Hc in H.
  apply res_bind_ok in H as (cs & (names & Hn & Hcs)%pod_containers_names & H). apply res_bind_ok in H as (has & Hhas & H).
  assert (has = true) as ->.
  { destruct props; try discriminate Hv. cbn in Hhas, Hv. injection Hhas as <-. destruct (dict_lookup "volumes" kvs); [|discriminate Hv].
    by rewrite bool_decide_true. }
  rewrite Hv in H. apply res_bind_ok in H as (v & [= <-] & H). apply res_bind_ok in H as (cs' & Hcs'%(without_skr_names _ _ _ Hcs) & H).
  apply res_bind_ok in H as (r & (names' & H1 & H2 & Hr)%localise_all_ok & [= <-]).
  assert (names' = List.filter not_skr names ++ [JStr "local-skr"]) as ->.
  { eapply named_once; [exact H1|]. apply Forall2_app; [exact Hcs' | by constructor]. }
  exists names, r.1. rewrite Hr. split_and!; [done | done | done |]. by rewrite List.filter_app, app_nil_r.
Qed.

(** A template with two applications. *)
Definition launcher (name : string) : json :=
  JObj [("name", JStr name);
        ("properties", JObj [("image", JStr "mcr/code-launcher");
           ("command", JArr [JStr "--application-base-64";
              JStr (b64encode (utf8_encode (dumps (JObj [("image", JObj [("executable", JObj [("backingResource",
                JObj [("id", JStr "localhost:5000/app:1"); ("provider", JObj [("url", JStr "localhost:5000")])])])])]))))]);
           ("securityContext", JObj [("privileged", JBool true)]);
           ("volumeMounts", JArr [JObj [("name", JStr "shared"); ("mountPath", JStr "/mnt")]])])].

Definition two_applications : list json :=
  [JObj [("name", JStr "skr"); ("properties", JObj [("image", JStr "mcr/skr")])]; launcher "a-code-launcher"; launcher "b-code-launcher"].

Definition two_applications_template : json :=
  JObj [("resources", JArr [JObj [("properties", JObj [("initContainers", JArr []); ("containers", JArr two_applications);
    ("volumes", JArr [])])]])].

Definition local_args : K8sArgs :=
  {| ka_registry_local_endpoint := Some "ccr-registry:5000"; ka_repo := "localhost:5000"; ka_tag := "latest"; ka_pod_name := "room" |}.

Example replaced_url : replace_registry_url "localhost:5000/app:1" "ccr-registry:5000" = Ok "ccr-registry:5000/app:1".
Proof. reflexivity. Qed.

Lemma pod_of_template_witness : exists pod, aci_to_k8s local_args two_applications_template = Ok pod /\
  json_at [Key "spec"; Key "volumes"] pod = Ok (JArr [registry_volume; registry_volume]) /\
  exists cs, json_at [Key "spec"; Key "containers"] pod = Ok (JArr cs) /\
    Forall2 named [JStr "a-code-launcher"; JStr "b-code-launcher"; JStr "local-skr"] cs.
Proof.
  destruct (aci_to_k8s local_args two_applications_template) as [pod|e] eqn:E; [|vm_compute in E; discriminate E].
  exists pod. split; [reflexivity|].
  destruct (pod_of_template local_args two_applications_template pod two_applications [] E eq_refl eq_refl)
    as (names & cs & Hn & Hc & Hcs & Hv).
  assert (names = [JStr "skr"; JStr "a-code-launcher"; JStr "b-code-launcher"]) as ->.
  { eapply named_once; [exact Hn|]. repeat constructor. }
  split; [exact Hv|]. exists cs. split; [exact Hc | exact Hcs].
Defined.
