(* ===== verification/CliProps.v ===== *)
(** * What the data and configuration commands guarantee

    The key made for a data store is the one its data is uploaded with; a clean
    room whose TCP access was disabled is never deployed. *)

From S2P Require Import Prelude PyStr Base64 Json JsonFacts PyFloat Sha256 SparkModels Settings Helpers CleanroomModels SpecModels AppBuilder Md5 ConfigModels ConfigHelpers ConfigProps Encryptor DeployTemplate DeployTemplateProps DeployWorld InitContainer CliStores CliData CliConfig.

(** ** The network *)

Section Network.
Context {W : Type} (te : TemplateEnv W).

(** Every template has an init container, made with its arguments. *)
Lemma deployed_init_cmd spec cid ep cert mode w w' t :
  get_deployment_template te spec cid ep cert mode w = (w', Ok t) -> exists cmd, ccr_init_cmd spec = Ok cmd.
Proof.
  intros (arm & w1 & init & ss & w2 & w3 & b & i & p & _ & _ & _ & (lead & trail & H & _) & _)%deployment_template_ok.
  apply M_bind_ok in H as (w4 & apps & _ & H). apply M_bind_ok in H as (w5 & ident & _ & H).
  apply M_bind_ok in H as (w6 & net & H & _). apply M_bind_ok in H as (w7 & inb & _ & H).
  apply M_bind_ok in H as (w8 & outb & _ & H). apply M_bind_ok in H as (w9 & proxy & _ & H).
  apply M_bind_ok in H as (w10 & ci & H & _). apply M_bind_ok in H as (w11 & cmd & [_ H]%lift_ok & _). by exists cmd.
Qed.
End Network.

Section Files.
Context {W : Type} (ce : CliEnv W) `{!ConfigFiles (ce_config ce)}.
Abbreviation env := (ce_config ce).

Lemma read_spec_ok f w w' s : read_cleanroom_spec_internal ce f w = (w', Ok s) ->
  docs w' = docs w /\ holds env (spec_codec env) w f s.
Proof.
  unfold read_cleanroom_spec_internal. rewrite try_except_run.
  destruct (read_cleanroom_spec env f w) as [w1 [x|e]] eqn:E; [intros [= <- <-]; by apply read_config_ok | by destruct e].
Qed.

Lemma holds_read_spec f w s : holds env (spec_codec env) w f s -> read_cleanroom_spec_internal ce f w = (w, Ok s).
Proof. intros H%holds_read. unfold read_cleanroom_spec_internal, read_cleanroom_spec. by rewrite try_except_run, H. Qed.

Lemma write_spec_ok f s w w' : write_cleanroom_spec_internal ce f s w = (w', Ok ()) ->
  docs w' = <[f := Some (dump_model (spec_codec env) s)]> (docs w) /\ holds env (spec_codec env) w' f s.
Proof. apply write_config_ok, spec_lossless. Qed.

(** C36. Disabling TCP access is not the reverse of enabling it: the specification
    keeps TCP settings without outbound settings, after which no deployment
    template is produced of it, whatever the environment and the mode, and TCP
    access cannot be enabled again for any address. *)
Theorem tcp_disabled_never_deploys f n t w w' spec :
  holds env (spec_codec env) w f spec -> network spec = Some n -> net_tcp n = Some t ->
  config_network_tcp_disable_cmd ce f w = (w', Ok ()) ->
  exists spec', holds env (spec_codec env) w' f spec' /\
    (forall W2 (te : TemplateEnv W2) cid ep cert mode v v' d, get_deployment_template te spec' cid ep cert mode v <> (v', Ok d)) /\
    (forall ip_address_ok ips w2, docs w2 = docs w' ->
       exists e, config_network_tcp_enable_cmd ce ip_address_ok f ips w2 = (w2, Err e)).
Proof.
  intros Hs Hn Ht. unfold config_network_tcp_disable_cmd. rewrite M_bind_run, (holds_read_spec _ _ _ Hs), Hn, Ht.
  intros [_ Hw]%write_spec_ok. eexists. split; [exact Hw|]. split.
  - intros W2 te cid ep cert mode v v' d (cmd & Hc)%deployed_init_cmd. discriminate Hc.
  - intros ok ips w2 Hd. unfold config_network_tcp_enable_cmd. destruct Hw as (doc & Hdoc & Hp).
    rewrite M_bind_run, (holds_read_spec f w2 (with_network spec (with_tcp n (Some {| tcp_outbound := None |}))))
      by (exists doc; by rewrite Hd).
    destruct ips as [|[ip port] ips]; [by eexists|]. cbn. destruct (ok ip); by eexists.
Qed.
End Files.

(** ** Data stores and their keys *)

(** Configuration files and other files: only writing changes them, and only the
    written one; the commands on storage accounts and containers leave them alone. *)
Class CliFiles {W} (ce : CliEnv W) := {
  cli_configs :: ConfigFiles (ce_config ce);
  bins : W -> gmap string string;
  same_files (w w' : W) := docs w' = docs w /\ bins w' = bins w;
  load_same p w : same_files w (load_yaml (ce_config ce) p w).1;
  config_exists_same p w : same_files w (config_exists (ce_config ce) p w).1;
  dump_bins p d q w : q <> p -> bins (dump_yaml (ce_config ce) p d w).1 !! q = bins w !! q;
  write_ok p b w w' : cli_write ce p b w = (w', Ok ()) ->
    bins w' = <[p := b]> (bins w) /\ forall q, q <> p -> docs w' !! q = docs w !! q;
  read_found p b w : bins w !! p = Some b -> cli_read ce p w = (w, Ok b);
  exists_found p b w : bins w !! p = Some b -> cli_exists ce p w = (w, Ok true);
  exists_same p w : same_files w (cli_exists ce p w).1;
  load_document_same y p w : same_files w (cli_load_document ce y p w).1;
  random_same n w : same_files w (cli_random ce n w).1;
  storage_same args w : take 2 args = ["storage"; "account"] \/ take 2 args = ["storage"; "container"] ->
    same_files w (cli_invoke ce args w).1
}.

Section Keys.
Context {W : Type} (ce : CliEnv W) `{!CliFiles ce}.
Abbreviation env := (ce_config ce).

(** Computations that leave every file as it is. *)
Definition keeps {A} (m : M W A) : Prop := forall w, same_files w (m w).1.

Lemma same_files_refl w : same_files w w.
Proof. by split. Qed.

Lemma same_files_trans w1 w2 w3 : same_files w1 w2 -> same_files w2 w3 -> same_files w1 w3.
Proof. intros [H1 H2] [H3 H4]. split; congruence. Qed.

Lemma keeps_bind {A B} (m : M W A) (k : A -> M W B) : keeps m -> (forall a, keeps (k a)) -> keeps (m ≫= k).
Proof.
  intros Hm Hk w. rewrite M_bind_run. specialize (Hm w). destruct (m w) as [w1 [a|e]]; [|done].
  eapply same_files_trans; [exact Hm | apply Hk].
Qed.

Lemma keeps_try {A} (m : M W A) (h : exn -> M W A) : keeps m -> (forall e, keeps (h e)) -> keeps (try_except m h).
Proof.
  intros Hm Hh w. rewrite try_except_run. specialize (Hm w). destruct (m w) as [w1 [a|e]]; [done|].
  eapply same_files_trans; [exact Hm | apply Hh].
Qed.

Lemma keeps_lift {A} (r : res A) : keeps (lift r).
Proof. intros w. apply same_files_refl. Qed.

Lemma keeps_ret {A} (a : A) : keeps (mret a).
Proof. intros w. apply same_files_refl. Qed.

Lemma keeps_raise {A} e : keeps (raise e : M W A).
Proof. intros w. apply same_files_refl. Qed.

Lemma keeps_read_config {A} (c : Codec (document env) A) f : keeps (read_config env c f).
Proof. repeat first [apply keeps_bind; intros | exact (load_same f) | apply keeps_ret | apply keeps_lift]. Qed.

Lemma keeps_az_cli args :
  take 2 (split_words args) = ["storage"; "account"] \/ take 2 (split_words args) = ["storage"; "container"] -> keeps (az_cli ce args).
Proof.
  intros H. apply keeps_bind; [intros w; by apply storage_same|]. intros [r|]; [|apply keeps_ret].
  destruct (json_truthy _); [apply keeps_ret|]. destruct (ir_error r) as [[c|e]|]; [|apply keeps_raise | apply keeps_ret].
  destruct (c =? 0)%Z; [apply keeps_ret | apply keeps_raise].
Qed.

Lemma keeps_load_config {A} (c : Codec (document env) A) x f b : keeps (load_config ce c x f b).
Proof.
  apply keeps_try; [apply keeps_read_config|]. intros []; try apply keeps_raise. apply keeps_bind; [exact (config_exists_same f)|].
  intros found. destruct (negb found && b); [apply keeps_ret | apply keeps_raise].
Qed.

Lemma keeps_schema a : keeps (datastore_schema ce a).
Proof.
  unfold datastore_schema. destruct (str_truthy (da_schema_file a)).
  - apply keeps_bind; [|intros; apply keeps_ret]. apply keeps_bind; [exact (exists_same _)|]. intros found.
    destruct (negb found); [apply keeps_raise|]. apply keeps_try; [|intros; apply keeps_lift].
    apply keeps_bind; [exact (load_document_same _ _) | intros; apply keeps_lift].
  - destruct (str_truthy (da_schema_format a)); [|apply keeps_ret]. apply keeps_bind; [apply keeps_lift | intros; apply keeps_ret].
Qed.

Lemma keeps_backing a n : is_azure_blob (da_type a) = true -> keeps (backing_store ce a n).
Proof.
  intros H. unfold backing_store. destruct (da_type a); try done;
    (apply keeps_bind; [apply keeps_lift | intros _]; repeat (apply keeps_bind; [apply keeps_az_cli; vm_compute; auto | intros ?]); apply keeps_ret).
Qed.

(** What is loaded is what the file holds, or new. *)
Lemma load_config_ok {A} (c : Codec (document env) A) x f b w w' y : load_config ce c x f b w = (w', Ok y) ->
  same_files w w' /\ (holds env c w f y \/ y = x /\ b = true).
Proof.
  intros H. pose proof (keeps_load_config c x f b w) as Hk. rewrite H in Hk. split; [exact Hk|].
  unfold load_config in H. rewrite try_except_run in H.
  destruct (read_config env c f w) as [w1 [z|e]] eqn:E.
  - injection H as <- <-. left. apply (read_config_ok env c f w w1 z E).
  - destruct e; try discriminate H. apply M_bind_ok in H as (w2 & found & _ & H).
    destruct b; [|by rewrite andb_false_r in H]. destruct found; [discriminate H|]. injection H as _ <-. by right.
Qed.

Lemma holds_load_config {A} (c : Codec (document env) A) x f b w y : holds env c w f y -> load_config ce c x f b w = (w, Ok y).
Proof. intros H%holds_read. unfold load_config. by rewrite try_except_run, H. Qed.

Lemma get_secretstore_ok n f w w' s : get_secretstore ce n f w = (w', Ok s) ->
  same_files w w' /\ exists config e, holds env (secretstore_codec env) w f config /\
    (get_secretstore_entry config n).2 = Ok e /\ s = make_secretstore ce e.
Proof.
  unfold get_secretstore. rewrite try_except_run.
  match goal with |- context [match ?m w with _ => _ end] => destruct (m w) as [w1 [x|e]] eqn:E end.
  - intros [= <- <-]. apply M_bind_ok in E as (w2 & config & [Hs Hc]%load_config_ok & E).
    apply M_bind_ok in E as (w3 & e & [-> He]%lift_ok & [= <- <-]). destruct Hc as [Hc|[_ Hb]]; [|done]. eauto 10.
  - destruct (has_code _ _); [done|]. by destruct (is_spec_error e).
Qed.

Lemma holds_get_secretstore n f w config e : holds env (secretstore_codec env) w f config ->
  (get_secretstore_entry config n).2 = Ok e -> get_secretstore ce n f w = (w, Ok (make_secretstore ce e)).
Proof.
  intros Hc He. unfold get_secretstore, load_secretstore_config. rewrite try_except_run, M_bind_run, (holds_load_config _ _ _ _ _ _ Hc), He.
  done.
Qed.

(** Other files keep their content. *)
Lemma holds_other {A} (c : Codec (document env) A) f w w' x : docs w' !! f = docs w !! f -> holds env c w f x -> holds env c w' f x.
Proof. intros H (d & Hd & Hp). exists d. by rewrite H. Qed.

(** The key of a new data store is a fresh one in a local secret store. *)
Lemma generate_key_ok name a w w' file :
  generate_datastore_key ce name a w = (w', Ok file) -> is_azure_blob (da_type a) = true -> uses_keys (Some (da_mode a)) = true ->
  da_secretstore_config_file a <> "" ->
  exists config e key wa wb, file = da_secretstore_config_file a /\ holds env (secretstore_codec env) w file config /\
    (get_secretstore_entry config (da_secret_store a)).2 = Ok e /\ secretStoreType e = SS_Local_File /\
    cli_random ce 32 wa = (wb, Ok key) /\ bins w' !! local_key_path ce e name = Some key /\
    forall q, q <> local_key_path ce e name -> docs w' !! q = docs w !! q.
Proof.
  intros H Ht Hm Hf. unfold generate_datastore_key in H. rewrite Hm, bool_decide_false in H by (by intros E; rewrite E in Ht).
  cbn [negb andb] in H. unfold str_truthy in H at 1.
  rewrite bool_decide_false in H by done. cbn [negb] in H. apply M_bind_ok in H as (w1 & f & [= <- <-] & H).
  apply M_bind_ok in H as (w2 & s & (Hs & config & e & Hc & He & ->)%get_secretstore_ok & H).
  apply M_bind_ok in H as (w3 & [] & [-> Hl]%lift_ok & H). apply M_bind_ok in H as (w4 & sec & H & [= <- <-]).
  assert (secretStoreType e = SS_Local_File) as Hloc.
  { destruct (secretStoreType e) eqn:E; try done; unfold make_secretstore in Hl; rewrite E in Hl; cbn in Hl; by rewrite E in Hl. }
  unfold make_secretstore in H. rewrite Hloc in H. cbn [add_secret LocalSecretStore] in H.
  apply M_bind_ok in H as (w5 & k & H1 & H). apply M_bind_ok in H1 as (w6 & key & Hr & [= <- <-]).
  apply M_bind_ok in H as (w7 & b & [-> [= <-]]%lift_ok & H). apply M_bind_ok in H as (w8 & [] & Hw & [= <- _]).
  apply write_ok in Hw as [Hb Hd]. pose proof (random_same 32 w2) as Hk. rewrite Hr in Hk. cbn [fst] in Hk.
  destruct (same_files_trans _ _ _ Hs Hk) as [Hdocs _].
  exists config, e, key, w2, w6. split_and!; [done | done | done | done | done | |].
  - by rewrite Hb, lookup_insert_eq.
  - intros q Hq. by rewrite (Hd q Hq), Hdocs.
Qed.

(** A data store is declared under a new name. *)
Definition new_store (name file : string) (w : W) : Prop :=
  forall config, holds env (datastore_codec env) w file config -> find_named de_name name (default [] (datastores config)) = None.

(** The key file and the configuration files are different files. *)
Definition key_files_apart (name : string) (files : list string) : Prop :=
  forall e, local_key_path ce e name ∉ files.

(** The entry a declaration writes, and the files it leaves. *)
Definition declared (name : string) (a : DataStoreAdd) (file url : string) (schema : option DataSchema) : DataStoreEntry := {|
  de_name := name; secretstore_config := Some file; secretstore_name := Some (da_secret_store a);
  encryptionMode := Some (da_mode a); storeType := da_type a; de_storeProviderUrl := url;
  storeProviderConfiguration := Some ""; storeName := if str_truthy (da_container_name a) then da_container_name a else name;
  datasetSchema := schema |}.

Lemma backing_blob_ok a n w w' url config store : is_azure_blob (da_type a) = true ->
  backing_store ce a n w = (w', Ok (url, config, store)) -> config = "" /\ store = n /\ same_files w w'.
Proof.
  intros Ht H. pose proof (keeps_backing a n Ht w) as Hk. rewrite H in Hk. revert H. unfold backing_store.
  destruct (da_type a); try done; intros (? & ? & _ & H)%M_bind_ok;
    do 3 (apply M_bind_ok in H as (? & ? & _ & H)); by injection H as <- _ <- <-.
Qed.

Lemma datastore_add_ok name a w w1 :
  datastore_add_cmd ce name a w = (w1, Ok ()) -> is_azure_blob (da_type a) = true -> new_store name (da_config_file a) w ->
  exists config wa wb file url schema, same_files w wa /\ generate_datastore_key ce name a wa = (wb, Ok file) /\
    find_named de_name name (default [] (datastores config)) = None /\
    holds env (datastore_codec env) w1 (da_config_file a)
      {| datastores := Some (default [] (datastores config) ++ [declared name a file url schema]) |} /\
    forall q, q <> da_config_file a -> docs w1 !! q = docs wb !! q /\ bins w1 !! q = bins wb !! q.
Proof.
  intros H Ht Hnew. unfold datastore_add_cmd in H. apply M_bind_ok in H as (w2 & [] & [-> _]%lift_ok & H).
  apply M_bind_ok in H as (wa & config & [Hs Hc]%load_config_ok & H). cbn [check_datastore_entry] in H.
  assert (find_named de_name name (default [] (datastores config)) = None) as Hn.
  { destruct Hc as [Hc|[-> _]]; [by apply Hnew | done]. }
  rewrite Hn in H. apply M_bind_ok in H as (wb & file & Hk & H).
  apply M_bind_ok in H as (w3 & [[url pc] sn] & (-> & -> & Hb)%backing_blob_ok & H); [|done].
  apply M_bind_ok in H as (w4 & [] & [-> _]%lift_ok & H). apply M_bind_ok in H as (w4 & schema & Hsc & H).
  pose proof (keeps_schema a w3) as Hsk. rewrite Hsc in Hsk. cbn [fst] in Hsk.
  apply M_bind_ok in H as (w5 & u & [-> Hu]%lift_ok & H).
  unfold add_datastore_entry, check_datastore_entry in H. cbn [de_name datastores default from_option id] in H. rewrite Hn in H.
  apply M_bind_ok in H as (w6 & [] & [-> _]%lift_ok & H).
  pose proof (write_config_ok env _ _ _ _ _ datastore_lossless H) as [Hd Hh].
  exists config, wa, wb, file, u, schema. split_and!; [done | done | done | exact Hh |].
  destruct (same_files_trans _ _ _ Hb Hsk) as [Hdocs Hbins]. intros q Hq. split.
  - by rewrite Hd, lookup_insert_ne, Hdocs.
  - unfold write_datastore_config, write_config in H.
    match type of H with dump_yaml _ _ ?d _ = _ => pose proof (dump_bins (da_config_file a) d q w4 Hq) as Hx end.
    rewrite H in Hx. cbn [fst] in Hx. by rewrite Hx, Hbins.
Qed.

(** C17. The key a data store is given is the one its data is encrypted with: when a
    store with customer-provided keys has been declared, a fresh key of 32 bytes
    has been drawn, and an upload, as long as no file is changed, is exactly a copy
    to the store's container with that key. *)
Theorem upload_uses_new_key name a w w1 :
  datastore_add_cmd ce name a w = (w1, Ok ()) ->
  is_azure_blob (da_type a) = true -> da_mode a = SSE_CPK ->
  new_store name (da_config_file a) w ->
  da_secretstore_config_file a <> "" -> da_secretstore_config_file a <> da_config_file a ->
  key_files_apart name [da_config_file a; da_secretstore_config_file a] ->
  exists key url wa wb, cli_random ce 32 wa = (wb, Ok key) /\
    forall source subdirectory w2, same_files w1 w2 ->
      datastore_upload_cmd ce name source (da_config_file a) subdirectory w2 =
      azcopy ce (source +:+ "/*")
        (url +:+ (if str_truthy (da_container_name a) then da_container_name a else name)
             +:+ (if str_truthy subdirectory then "/" +:+ subdirectory else "")) true (Some key) w2.
Proof.
  intros Hadd Ht Hm Hnew Hf Hne Hap. destruct (datastore_add_ok _ _ _ _ Hadd Ht Hnew)
    as (config & wa & wb & file & url & schema & [Hwa _] & Hk & Hn & Hh & Hfr).
  destruct (generate_key_ok _ _ _ _ _ Hk Ht ltac:(by rewrite Hm) Hf)
    as (secrets & e & key & wr & wr' & -> & Hs & He & Hl & Hr & Hb & Hd).
  specialize (Hap e). apply not_elem_of_cons in Hap as [Ha1 Ha2%not_elem_of_cons]. destruct Ha2 as [Ha2 _].
  exists key, url, wr, wr'. split; [done|]. intros source sub w2 [Hd2 Hb2].
  assert (holds env (secretstore_codec env) w2 (da_secretstore_config_file a) secrets) as Hs2.
  { apply (holds_other _ _ wa); [|done]. rewrite Hd2. destruct (Hfr _ Hne) as [-> _]. by apply Hd, not_eq_sym. }
  assert (bins w2 !! local_key_path ce e name = Some key) as Hkey.
  { rewrite Hb2. by destruct (Hfr _ Ha1) as [_ ->]. }
  assert (get_datastore ce name (da_config_file a) w2 = (w2, Ok (declared name a (da_secretstore_config_file a) url schema))) as Hg.
  { unfold get_datastore, load_datastore_config. rewrite try_except_run, M_bind_run, (holds_load_config _ _ _ _ _ _ (holds_other _ _ w1 w2 _ ltac:(by rewrite Hd2) Hh)).
    unfold get_datastore_entry, check_datastore_entry. cbn [datastores default from_option id].
    rewrite find_named_app_r by (by apply find_named_None). cbn. by rewrite bool_decide_true. }
  unfold datastore_upload_cmd. rewrite M_bind_run, Hg. cbn [storeType declared]. rewrite Ht.
  unfold cpk_key, is_cpk. cbn [encryptionMode declared]. rewrite Hm, bool_decide_true by done.
  rewrite !M_bind_run. unfold datastore_key. cbn [secretstore_name secretstore_config declared default from_option id].
  rewrite !M_bind_run, (holds_get_secretstore _ _ _ _ _ Hs2 He). unfold make_secretstore. rewrite Hl.
  cbn [get_secret LocalSecretStore]. rewrite !M_bind_run, (exists_found _ _ _ Hkey). cbn [negb].
  rewrite !M_bind_run, (read_found _ _ _ Hkey). cbn. destruct (str_truthy sub); [by rewrite !string_app_assoc | by rewrite !string_app_nil_r].
Qed.
End Keys.
