(* ===== verification/CliGovProps.v ===== *)
(** * What the governance commands guarantee

    The policy proposed to governance admits exactly the deployment that was
    generated; an application published to a collaboration is the one the analytics
    application runs, with the owners of its datasets as approvers. *)

From S2P Require Import Prelude PyStr Base64 Json JsonFacts PyFloat Sha256 SparkModels Settings Helpers CleanroomModels SpecModels AppBuilder Md5 ConfigModels ConfigHelpers ConfigProps Encryptor EncryptorProps DeployTemplate DeployTemplateProps InitContainer JsonIndent CliStores CliData CliConfig CliGov CliDeploy CliProps.
From Stdlib Require Import Lia Ascii.

(** ** Line ends *)

Definition no_cr (c : ascii) : bool := negb (bool_decide (c = ascii_of_nat 13)).

Lemma universal_newlines_id s : str_forall no_cr s = true -> universal_newlines s = s.
Proof.
  induction s as [|c s IH]; [done|]. cbn [str_forall]. intros [Hc Hs]%andb_true_iff. cbn [universal_newlines].
  unfold no_cr in Hc. apply negb_true_iff, bool_decide_eq_false in Hc. rewrite decide_False by done. by rewrite IH.
Qed.

Lemma escape_no_cr s : str_forall no_cr (escape s) = true.
Proof.
  induction s as [|c s IH]; [done|]. cbn [escape]. rewrite str_forall_app, IH, andb_true_r.
  by destruct c as [[] [] [] [] [] [] [] []].
Qed.

(** ** Deployments *)

Section Deployment.
Context {W : Type} (ge : GovEnv W) `{!CliFiles (ge_cli ge)}.

Lemma write_text_ok path text w w' : write_text ge path text w = (w', Ok ()) -> bins w' = <[path := utf8_encode text]> (bins w).
Proof. by intros [H _]%write_ok. Qed.

Lemma read_written path text w : bins w !! path = Some (utf8_encode text) -> read_text ge path w = (w, Ok (universal_newlines text)).
Proof. intros H. unfold read_text. rewrite M_bind_run, (read_found _ _ _ H). unfold lift. by rewrite utf8_decode_encode. Qed.

Lemma path_ne dir (a b : string) : a <> b -> dir +:+ a <> dir +:+ b.
Proof. intros H E. apply H. by apply string_app_inj_length in E as [_ ?]. Qed.

(** Where a template has its policy. *)
Definition cce_policy_path : list step :=
  [Key "resources"; Idx 0; Key "properties"; Key "confidentialComputeProperties"; Key "ccePolicy"].

Lemma json_at_app p q : forall j, json_at (p ++ q) j = json_at p j ≫= json_at q.
Proof.
  induction p as [|s p IH]; intros j; [done|]. cbn [app]. rewrite !json_at_cons. destruct (json_step s j); [apply IH | done].
Qed.

Lemma set_cce_policy_at p arm arm' : set_cce_policy p arm = Ok arm' -> json_at cce_policy_path arm' = Ok (JStr p).
Proof.
  intros (v & v' & _ & Hp & Hv)%json_modify_at. change cce_policy_path with
    ([Key "resources"; Idx 0; Key "properties"; Key "confidentialComputeProperties"] ++ [Key "ccePolicy"]).
  rewrite json_at_app, Hv. cbn [mbind res_bind]. apply json_put_step in Hp. by rewrite json_at_cons, Hp.
Qed.

(** The policy's text is the template's unless the extension makes it. *)
Lemma write_policy_text dir option rego w w' :
  write_policy ge dir option rego w = (w', Ok ()) -> is_generated option = false ->
  bins w' !! (dir +:+ "/cleanroom-policy.rego") = Some (utf8_encode rego).
Proof.
  intros H Hg. unfold write_policy in H. rewrite Hg in H. apply M_bind_ok in H as (w1 & [] & _ & H).
  by rewrite (write_text_ok _ _ _ _ H), lookup_insert_eq.
Qed.

Lemma write_deployment_ok dir option t w w' :
  write_deployment ge dir option t w = (w', Ok ()) ->
  exists policy arm, (is_generated option = false -> policy = universal_newlines (dt_rego_policy t)) /\
    set_cce_policy (b64encode (utf8_encode policy)) (dt_arm_template t) = Ok arm /\
    bins w' !! (dir +:+ "/cleanroom-arm-template.json") = Some (utf8_encode (dumps_indent 0 arm)) /\
    bins w' !! (dir +:+ "/cleanroom-governance-policy.json")
      = Some (utf8_encode (dumps_indent 0 (governance_policy (sha256_hex (utf8_encode policy))))).
Proof.
  intros (w1 & [] & _ & H)%M_bind_ok. apply M_bind_ok in H as (w2 & [] & Hp & H).
  apply M_bind_ok in H as (w3 & policy & Hr & H). apply M_bind_ok in H as (w4 & arm & [-> Ha]%lift_ok & H).
  apply M_bind_ok in H as (w5 & [] & H5%write_text_ok & H%write_text_ok). exists policy, arm. split_and!; [|done|..].
  - intros Hg. rewrite (read_written _ _ _ (write_policy_text _ _ _ _ _ Hp Hg)) in Hr. by injection Hr as _ <-.
  - by rewrite H, lookup_insert_ne, H5, lookup_insert_eq by by apply path_ne.
  - by rewrite H, lookup_insert_eq.
Qed.

(** A generated policy is read back from its file as it was written. *)
Lemma policy_no_cr h : str_forall no_cr (dumps_indent 0 (governance_policy h)) = true.
Proof.
  assert (str_forall no_cr (dumps (JStr h)) = true) as H by (cbn; by rewrite str_forall_app, escape_no_cr).
  unfold governance_policy, host_data_claim. cbn [dumps_indent map join fst snd].
  by rewrite !str_forall_app, H.
Qed.

Lemma proposed_file cid file client w h : file <> "" -> bins w !! file = Some (utf8_encode (dumps_indent 0 (governance_policy h))) ->
  governance_deployment_policy_propose_cmd ge cid false file client w
  = cgs_ask ge client "POST" (contract_path cid "/cleanroompolicy/propose") (Some (governance_policy h)) w.
Proof.
  intros Hne Hf. unfold governance_deployment_policy_propose_cmd. unfold str_truthy. rewrite bool_decide_false by done.
  cbn [negb andb]. unfold json_file. rewrite !M_bind_run, (exists_found _ _ _ Hf). cbn [negb].
  rewrite !M_bind_run, (read_written _ _ _ Hf). unfold lift. by rewrite (universal_newlines_id _ (policy_no_cr h)), loads_dumps_indent.
Qed.

(** The constant proposed for the allow-all policy is the digest of the policy. *)
Lemma allow_all_digest rego : (raw ← b64decode CLI_ALLOW_ALL_BASE64; utf8_decode raw) = Ok rego ->
  sha256_hex (utf8_encode (universal_newlines rego)) = ALLOW_ALL_HOST_DATA.
Proof. intros H. vm_compute in H. injection H as <-. vm_compute. reflexivity. Qed.

(** C14. The policy governance is asked to accept admits exactly the deployment that
    was generated: for a contract with a valid specification the template's policy
    is the text the governance policy's host data is the digest of, the text is the
    template's own, its line ends normalised, in the modes that do not generate it, proposing the written file
    proposes that policy, and for the allow-all policy the [--allow-all] flag
    proposes the same one. *)
Theorem deployment_policy_bound cid dir option client w w' :
  governance_deployment_generate_cmd ge cid dir option client w = (w', Ok ()) ->
  exists contract spec t policy arm,
    (exists wa wb, governance_contract_show_cmd ge client cid wa = (wb, Ok contract)) /\
    contract_spec ge contract = Ok spec /\ (validate_config spec).1 = [] /\
    (exists ep cert wa wb, get_deployment_template (ge_template ge) spec cid ep cert option wa = (wb, Ok t)) /\
    (is_generated option = false -> policy = universal_newlines (dt_rego_policy t)) /\
    bins w' !! (dir +:+ "/cleanroom-arm-template.json") = Some (utf8_encode (dumps_indent 0 arm)) /\
    json_at cce_policy_path arm = Ok (JStr (b64encode (utf8_encode policy))) /\
    (forall w2, bins w2 = bins w' ->
       governance_deployment_policy_propose_cmd ge cid false (dir +:+ "/cleanroom-governance-policy.json") client w2
       = cgs_ask ge client "POST" (contract_path cid "/cleanroompolicy/propose")
           (Some (governance_policy (sha256_hex (utf8_encode policy)))) w2) /\
    (option = "allow-all" -> forall w2,
       governance_deployment_policy_propose_cmd ge cid true "" client w2
       = cgs_ask ge client "POST" (contract_path cid "/cleanroompolicy/propose")
           (Some (governance_policy (sha256_hex (utf8_encode policy)))) w2).
Proof.
  unfold governance_deployment_generate_cmd. intros (w1 & found & _ & H)%M_bind_ok. destruct found; [|discriminate H]. cbn [negb] in H.
  apply M_bind_ok in H as (w2 & contract & Hc & H). apply M_bind_ok in H as (w3 & spec & [-> Hs]%lift_ok & H).
  apply M_bind_ok in H as (w4 & [] & [-> Hv]%lift_ok & H). apply M_bind_ok in H as (w5 & details & _ & H).
  apply M_bind_ok in H as (w6 & cert & [-> _]%lift_ok & H). apply M_bind_ok in H as (w7 & ep & [-> _]%lift_ok & H).
  apply M_bind_ok in H as (w8 & t & Ht & (policy & arm & Hg & Ha & Hf & Hp)%write_deployment_ok).
  unfold get_deployment_template_internal in Ht. rewrite try_except_run in Ht.
  destruct (get_deployment_template _ _ _ _ _ _ _) as [w9 [t'|e]] eqn:Et; [|by destruct (is_spec_error e)].
  injection Ht as <- <-. exists contract, spec, t', policy, arm.
  split; [eauto|]. split; [done|]. split; [unfold validate_spec in Hv; by destruct (validate_config spec).1|].
  split; [eauto 10|]. split; [done|]. split; [done|]. split; [by eapply set_cce_policy_at|]. split.
  - intros w2' Hb. apply proposed_file; [by destruct dir | by rewrite Hb].
  - intros -> w2'. apply deployment_template_ok in Et as (? & ? & ? & ? & ? & ? & ? & ? & ? & _ & _ & _ & _ & _ & _ & _ & Hr).
    rewrite bool_decide_true in Hr by done. rewrite Hg, (allow_all_digest _ Hr) by done. done.
Qed.
End Deployment.
