(* ===== verification/CliCollabProps.v ===== *)
(** * What publishing an application guarantees

    The query of a published Spark SQL application is read by the analytics
    application as the segments that were declared, and the owners of its datasets
    are its approvers. *)

From S2P Require Import Prelude PyStr Base64 Json JsonFacts Analytics AnalyticsEntry PyFloat Sha256 SparkModels Settings Helpers CleanroomModels SpecModels AppBuilder Md5 ConfigModels ConfigHelpers ConfigProps Encryptor DeployTemplate InitContainer JsonIndent CliStores CliData CliConfig CliGov CliDeploy CliCollab CliProps.
From Stdlib Require Import Ascii.

(** ** Queries *)

Definition app_segment (s : CliSegment) : QuerySegment := {|
  executionSequence := sg_executionSequence s; data := sg_data s;
  preConditions := map (fun c => {| pre_viewName := cp_viewName c; minRowCount := cp_minRowCount c |}) <$> sg_preConditions s;
  postFilters := map (fun f => {| columnName := cf_columnName f; pf_value := cf_value f |}) <$> sg_postFilters s |}.

(** The query the analytics application makes of one of the command line. *)
Definition app_query (q : CliQuery) : Query := {| segments := map app_segment (cq_segments q) |}.

Lemma json_map_map {A B} (f : B -> json) (g : A -> B) (h : A -> json) l : (forall a, f (g a) = h a) -> map f (map g l) = map h l.
Proof. intros H. rewrite map_map. by apply map_ext. Qed.

Lemma optional_json_map {A B} (f : B -> json) (g : A -> B) (h : A -> json) o : (forall a, f (g a) = h a) ->
  AnalyticsEntry.opt_list_json f (map g <$> o) = optional_json h o.
Proof. intros H. destruct o as [l|]; [|done]. cbn. by rewrite (json_map_map f g h). Qed.

(** The text a query is published as is the text the analytics application decodes. *)
Lemma published_query q : b64encode (utf8_encode (dumps (query_json q))) = AnalyticsEntry.query_text (app_query q).
Proof.
  unfold AnalyticsEntry.query_text, AnalyticsEntry.query_json, app_query. cbn [segments].
  rewrite (json_map_map _ _ segment_json); [done|]. intros s. unfold AnalyticsEntry.segment_json, app_segment.
  cbn [preConditions postFilters]. by rewrite (optional_json_map _ _ precondition_json), (optional_json_map _ _ postfilter_json).
Qed.

(** ** Publishing *)

Definition is_container (j : json) : bool := match j with JObj _ | JArr _ => true | _ => false end.

(** A JSON text on the command line is read as JSON; the text of an object or of a
    list is not the name of a file. *)
Class JsonArguments {W} (ge : GovEnv W) := {
  parse_dumps j : json_wf j = true -> shell_safe_json_parse ge (dumps j) = Ok j;
  no_such_file j w : is_container j = true -> cli_exists (ge_cli ge) (dumps j) w = (w, Ok false)
}.

Section Publish.
Context {W : Type} (co : CollabEnv W) `{!JsonArguments (co_gov co)} `{!CliFiles (ge_cli (co_gov co))}.
Abbreviation ge := (co_gov co).

Lemma json_argument_dumps j w : json_wf j = true -> is_container j = true -> json_argument ge (dumps j) w = (w, Ok j).
Proof. intros H Hc. unfold json_argument. rewrite M_bind_run, no_such_file by done. cbv iota. unfold lift. by rewrite parse_dumps. Qed.

(** A request that the governance service of a client accepted. *)
Definition accepted (client method path : string) (body : option json) : Prop :=
  exists endpoint wa wb wc wd r, get_cgs_client_endpoint ge client wa = (wb, Ok endpoint) /\
    ge_request ge method (endpoint +:+ path) [] body wc = (wd, Ok r) /\ gr_status r = 200%Z.

Lemma send_ok client method endpoint path body wa wb w w' r :
  get_cgs_client_endpoint ge client wa = (wb, Ok endpoint) -> send ge method endpoint path body w = (w', Ok r) ->
  accepted client method path body.
Proof.
  intros He (w1 & r1 & H & H1)%M_bind_ok. apply M_bind_ok in H1 as (w2 & [] & [-> Hc]%lift_ok & [= <- <-]).
  unfold checked_response in Hc. destruct (gr_status r1 =? 200)%Z eqn:E; [|discriminate Hc]. apply Z.eqb_eq in E.
  by eexists endpoint, _, _, _, _, _.
Qed.

(** The owner of a dataset is the proposer of its document. *)
Definition owned (client : string) (d : SparkDatasetDescriptor) (owner : json) : Prop :=
  exists wa wb document, governance_user_document_show_cmd ge client (sd_specification d) wa = (wb, Ok document) /\
    json_item document "proposerId" = Ok owner.

Lemma hashable_ok j k : hashable j = Ok k -> k = j /\ json_wf j = true.
Proof. by destruct j; intros [= <-]. Qed.

Lemma dataset_owners_ok client l : forall acc w w' owners, dataset_owners co client acc l w = (w', Ok owners) ->
  exists os, Forall2 (owned client) l os /\ Forall (fun o => json_wf o = true) os /\ owners = foldl add_owner acc os.
Proof.
  induction l as [|d l IH]; intros acc w w' owners; cbn [dataset_owners]; [intros [= _ <-]; exists []; by split_and!|].
  intros (w1 & document & Hd & H)%M_bind_ok. apply M_bind_ok in H as (w2 & o & [-> Ho]%lift_ok & H).
  apply res_bind_ok in Ho as (o' & Ho & [-> Hwf]%hashable_ok). apply IH in H as (os & H1 & H2 & ->).
  exists (o' :: os). split_and!; [constructor; [|done] | by constructor | done]. by exists w, w1, document.
Qed.

Lemma add_owner_elem os : forall acc o, o ∈ foldl add_owner acc os -> o ∈ acc \/ o ∈ os.
Proof.
  induction os as [|x os IH]; intros acc o; cbn; [by left|]. intros [H|H]%IH; [|right; by right].
  unfold add_owner in H. destruct (existsb _ _); [by left|]. apply elem_of_app in H as [H|H]; [by left|].
  apply list_elem_of_singleton in H as ->. right. left.
Qed.

Lemma add_owner_mono os : forall acc o, o ∈ acc -> o ∈ foldl add_owner acc os.
Proof.
  induction os as [|x os IH]; intros acc o H; cbn; [done|]. apply IH. unfold add_owner.
  destruct (existsb _ _); [done|]. apply elem_of_app. by left.
Qed.

(** Owners given by name are approvers once each. *)
Definition texts (l : list json) : Prop := Forall (fun j => exists s, j = JStr s) l.

Lemma add_owner_texts os : forall acc, texts acc -> texts os -> NoDup acc ->
  texts (foldl add_owner acc os) /\ NoDup (foldl add_owner acc os) /\ forall o, o ∈ os -> o ∈ foldl add_owner acc os.
Proof.
  induction os as [|x os IH]; intros acc Ha Ho Hn; cbn; [split_and!; [done..|by intros ? ?%elem_of_nil]|].
  inversion Ho as [|? ? [s ->] Ho']; subst.
  assert (existsb (same_key (JStr s)) acc = true <-> JStr s ∈ acc) as Hx.
  { rewrite existsb_exists. split.
    - intros (y & Hy & Hk). destruct (proj1 (Forall_forall _ _) Ha y (proj2 (list_elem_of_In _ _) Hy)) as [t ->].
      cbn in Hk. apply bool_decide_eq_true in Hk as ->. by apply list_elem_of_In.
    - intros H%list_elem_of_In. exists (JStr s). split; [done|]. cbn. by apply bool_decide_eq_true. }
  assert (texts (add_owner acc (JStr s)) /\ NoDup (add_owner acc (JStr s)) /\ JStr s ∈ add_owner acc (JStr s)) as (H1 & H2 & H3).
  { unfold add_owner. destruct (existsb _ _).
    - split_and!; [done | done | by apply Hx].
    - split_and!.
      + apply Forall_app. split; [done|]. constructor; [eauto | constructor].
      + apply NoDup_app. split_and!; [done | intros y Hy ->%list_elem_of_singleton; apply Hx in Hy; discriminate Hy | apply NoDup_singleton].
      + apply elem_of_app. right. by apply list_elem_of_singleton. }
  destruct (IH _ H1 Ho' H2) as (H4 & H5 & H6). split_and!; [done | done|].
  intros o [-> |Hin]%elem_of_cons; [by apply add_owner_mono | by apply H6].
Qed.

(** An approver as governance takes it. *)
Definition user_approver (id : json) : json := JObj [("approverId", id); ("approverIdType", JStr "user")].

Lemma approvers_wf owners : Forall (fun o => json_wf o = true) owners -> json_wf (JArr (map approver owners)) = true.
Proof.
  intros H. change (forallb json_wf (map approver owners) = true). apply forallb_forall. intros j (o & <- & Ho)%in_map_iff.
  change (json_wf o && true = true). rewrite andb_true_r. apply (proj1 (Forall_forall _ _) H). by apply list_elem_of_In.
Qed.

Lemma propose_document_ok id cid data label owners client w w' p :
  propose_document co id cid data label (map approver owners) client w = (w', Ok p) -> Forall (fun o => json_wf o = true) owners ->
  accepted client "PUT" (user_path id "") (Some (user_document "" cid data (JObj [("type", JStr label)]) (map user_approver owners))).
Proof.
  intros (w1 & [] & H & _)%M_bind_ok Hwf. unfold governance_user_document_create_cmd in H.
  apply M_bind_ok in H as (w2 & endpoint & He & H). cbn [str_truthy] in H.
  apply M_bind_ok in H as (w3 & labels & Hl & H). change (str_truthy (dumps (JObj [("type", JStr label)]))) with true in Hl.
  cbv iota in Hl. rewrite json_argument_dumps in Hl by done. injection Hl as <- <-.
  apply M_bind_ok in H as (w4 & approvers & Ha & H). change (str_truthy (dumps (JArr (map approver owners)))) with true in Ha.
  cbv iota in Ha. rewrite json_argument_dumps in Ha by first [by apply approvers_wf | done]. injection Ha as <- <-.
  apply M_bind_ok in H as (w5 & l & [-> [= <-]]%lift_ok & H). apply M_bind_ok in H as (w6 & l' & [-> Hl']%lift_ok & H).
  rewrite (mapM_res_map approver_json approver user_approver) in Hl' by done. injection Hl' as <-.
  apply M_bind_ok in H as (w7 & r & H & _). exact (send_ok _ _ _ _ _ _ _ _ _ _ He H).
Qed.

(** The parts of the application the arguments name: the query that the file holds,
    and the datasets. *)
Definition published (w : W) (a : ApplicationPublish) (q : CliQuery) (inputs : list SparkDatasetDescriptor) (output : SparkDatasetDescriptor)
  : Prop :=
  holds (ce_config (ge_cli ge)) (query_codec co) w (xp_query a) q /\
  Forall2 (fun t d => extract_dataset_specification t = Ok d) (split_on ","%char (xp_input_dataset a)) inputs /\
  extract_dataset_specification (xp_output_dataset a) = Ok output.

Lemma prepare_application_ok a w w' app : prepare_application co a w = (w', Ok app) -> xp_specification_file a = "" ->
  exists q inputs output, published w a q inputs output /\
    app = {| sq_query := dumps (query_json q); sq_inputDataset := inputs; sq_outputDataset := output |}.
Proof.
  intros H Hs. unfold prepare_application in H. rewrite Hs in H. cbn [str_truthy] in H. destruct (_ || _); [discriminate H|].
  unfold generate_spark_sql_application_specification_from_fields in H. destruct (negb _); [discriminate H|].
  destruct (_ || _); [discriminate H|]. apply M_bind_ok in H as (w1 & inputs & [-> Hi]%lift_ok & H).
  apply M_bind_ok in H as (w2 & output & [-> Ho]%lift_ok & H). apply M_bind_ok in H as (w3 & q & Hq & [= _ <-]).
  destruct (load_config_ok _ _ _ _ _ _ _ _ Hq) as [_ Hh].
  exists q, inputs, output. split; [|done]. split_and!; [by destruct Hh as [Hh|[_ Hh]] | by apply mapM_res_Forall2 | done].
Qed.

(** The collaboration is looked up without a change to a file. *)
Lemma context_same f w w' c : get_default_collaboration_context co f w = (w', Ok c) -> same_files w w'.
Proof.
  intros (w1 & spec & H & Hc)%M_bind_ok. apply M_bind_ok in H as (w2 & spec' & Hl & H).
  destruct (load_config_ok _ _ _ _ _ _ _ _ Hl) as [Hs _].
  assert (w1 = w2) as -> by (revert H; destruct (_ && _); [discriminate | by intros [= -> _]]).
  rewrite try_except_run in Hc. unfold lift in Hc. destruct (get_active_collaboration_context spec).2; [|discriminate Hc].
  by injection Hc as <- _.
Qed.

(** C16. What is published is what is run: when an application given by its query
    file and datasets has been published, the collaboration's governance has accepted a
    document for its contract that holds the application, from whose query the analytics
    application reads exactly the declared segments; each approver of the document
    owns one of the datasets and, when owners are given by name, every owner is an
    approver once. *)
Theorem published_application_runs name a config_file w w' r lax_int :
  collaboration_spark_sql_application_publish_cmd co name a config_file false w = (w', Ok r) -> xp_specification_file a = "" ->
  exists q inputs output contract_id client owners approvers,
    published w a q inputs output /\ publication_contract (xp_workload a) (xp_contract_id a) = Ok contract_id /\
    (let app := {| sq_query := AnalyticsEntry.query_text (app_query q); sq_inputDataset := inputs; sq_outputDataset := output |} in
     accepted client "PUT" (user_path name "")
       (Some (user_document "" contract_id (dump_application co {| sas_name := name; sas_application := Spark_SQL app |})
                (JObj [("type", JStr "spark-application")]) (map user_approver approvers)))) /\
    (forall config, qc_query config = AnalyticsEntry.query_text (app_query q) -> decode_query_text lax_int config = Ok (app_query q)) /\
    Forall2 (owned client) (inputs ++ [output]) owners /\ (forall o, o ∈ approvers -> o ∈ owners) /\
    (texts owners -> NoDup approvers /\ forall o, o ∈ owners -> o ∈ approvers).
Proof.
  intros H Hs. unfold collaboration_spark_sql_application_publish_cmd in H. apply M_bind_ok in H as (w1 & c & [Hd _]%context_same & H).
  apply M_bind_ok in H as (w2 & contract_id & [-> Hc]%lift_ok & H).
  apply M_bind_ok in H as (w3 & app & (q & inputs & output & Hp & ->)%prepare_application_ok & H); [|done].
  apply M_bind_ok in H as (w4 & [] & H & _). unfold publish_application in H.
  apply M_bind_ok in H as (w5 & approvers & (owners & Ho & Hwf & ->)%dataset_owners_ok & H).
  apply M_bind_ok in H as (w6 & p & H%propose_document_ok & _).
  2: { apply Forall_forall. intros o [Hin%elem_of_nil|Hin]%add_owner_elem; [done | by apply (proj1 (Forall_forall _ _) Hwf)]. }
  exists q, inputs, output, contract_id, (governance_client_name c), owners, (foldl add_owner [] owners).
  split_and!; [destruct Hp as [Hq Hp]; split; [eapply holds_other; [symmetry; by rewrite Hd | exact Hq] | exact Hp] | done | unfold encoded_application in H; cbn [sq_query] in H; by rewrite published_query in H | intros config; apply query_text_decodes | exact Ho | |].
  - by intros o [Hin%elem_of_nil|Hin]%add_owner_elem.
  - intros Ht. destruct (add_owner_texts owners [] (Forall_nil_2 _) Ht (NoDup_nil_2)) as (_ & H1 & H2). by split.
Qed.
End Publish.
