(* ===== verification/CliWorld.v ===== *)
(** * The command line in memory

    Configuration files, other files and a governance service that accepts every
    request, as one state: an environment in which the commands run, and the
    instances of the classes their theorems assume. *)

From S2P Require Import Prelude PyStr Base64 Json JsonFacts Analytics AnalyticsEntry PyFloat Sha256 SparkModels Settings Helpers CleanroomModels SpecModels AppBuilder Md5 ConfigModels ConfigHelpers ConfigProps Encryptor DeployTemplate DeployTemplateProps DeployWorld InitContainer JsonIndent CliStores CliData CliConfig CliGov CliDeploy CliCollab CliProps CliGovProps CliCollabProps.
From Stdlib Require Import Ascii.

(** ** The state *)

Inductive CliDoc := CD_config (d : MemDoc) | CD_query (q : CliQuery).

Record CliWorld := {
  cw_docs : gmap string (option CliDoc);
  cw_files : gmap string string;
  cw_requests : list (string * string * option json)
}.

Definition with_docs (w : CliWorld) (d : gmap string (option CliDoc)) : CliWorld :=
  {| cw_docs := d; cw_files := cw_files w; cw_requests := cw_requests w |}.
Definition with_files (w : CliWorld) (f : gmap string string) : CliWorld :=
  {| cw_docs := cw_docs w; cw_files := f; cw_requests := cw_requests w |}.
Definition with_request (w : CliWorld) (r : string * string * option json) : CliWorld :=
  {| cw_docs := cw_docs w; cw_files := cw_files w; cw_requests := cw_requests w ++ [r] |}.

(** Names of files do not begin as objects and lists do. *)
Definition file_name (p : string) : bool :=
  match p with String c _ => negb (bool_decide (c = "{"%char \/ c = "["%char)) | "" => false end.

Definition config_codec {A} (c : Codec MemDoc A) : Codec CliDoc A := {|
  dump_model x := CD_config (dump_model c x);
  parse_model d := match d with CD_config m => parse_model c m | CD_query _ => Err (ValidationError "fields") end |}.

Definition no_file : exn := FileNotFoundError "No such file or directory".

Definition world_config : ConfigEnv CliWorld := {|
  document := CliDoc;
  no_fields := CD_config MD_empty;
  load_yaml p w := (w, of_option no_file (cw_docs w !! p));
  dump_yaml p d w := (with_docs w (<[p := Some d]> (cw_docs w)), Ok ());
  config_exists p w := (w, Ok (bool_decide (is_Some (cw_docs w !! p))));
  spec_codec := config_codec (spec_codec mem_env);
  datastore_codec := config_codec (datastore_codec mem_env);
  secretstore_codec := config_codec (secretstore_codec mem_env);
  collaboration_codec := config_codec (collaboration_codec mem_env) |}.

#[export] Instance world_configs : ConfigFiles world_config.
Proof.
  refine (@Build_ConfigFiles _ world_config cw_docs _ _ _ _ _ _ _ _); try done.
  - intros p w d H. cbn in *. by rewrite H.
  - intros p w w' r H. cbn in *. by rewrite H.
Defined.

Definition result (j : json) : option CommandResultItem := Some {| ir_result := j; ir_error := None |}.

Definition world_cli : CliEnv CliWorld := {|
  ce_config := world_config;
  cli_invoke args := mret (if bool_decide ("primaryEndpoints.blob" ∈ args) then result (JStr "https://acct.blob.core.windows.net/")
                           else result (JStr "acct"));
  cli_run _ := mret (0%Z, "", "");
  cli_setenv _ _ := mret ();
  cli_getenv _ := mret None;
  cli_sleep _ := mret ();
  cli_random n := mret "k0123456789abcdef0123456789abcde";
  cli_uuid4 := mret "0b3f";
  cli_tempdir := "/tmp";
  cli_config_dir := "/home/.azure/cleanroom";
  cli_abspath p := "/work/" +:+ p;
  cli_relpath p _ := p;
  cli_exists p w := (w, Ok (file_name p && bool_decide (is_Some (cw_files w !! p))));
  cli_makedirs _ := mret ();
  cli_remove p w := (with_files w (delete p (cw_files w)), Ok ());
  cli_read p w := (w, if file_name p then of_option no_file (cw_files w !! p) else Err no_file);
  cli_write p b w := if file_name p then (with_files w (<[p := b]> (cw_files w)), Ok ()) else (w, Err no_file);
  cli_files_below _ := mret [];
  cli_load_document _ _ := raise no_file;
  cli_parse_schema _ := Err (ValidationError "format");
  rsa_generate := mret "pem";
  rsa_public_key pem := pem;
  load_pem_public_key pem := Ok pem;
  rsa_oaep_encrypt _ text := mret text |}.

(** The files with proper names. *)
Definition named_files (w : CliWorld) : gmap string string := filter (fun kv => file_name kv.1 = true) (cw_files w).

Lemma named_file w p b : named_files w !! p = Some b -> cw_files w !! p = Some b /\ file_name p = true.
Proof. by intros H%map_lookup_filter_Some. Qed.

#[export] Instance world_files : CliFiles world_cli.
Proof.
  refine (@Build_CliFiles _ world_cli world_configs named_files _ _ _ _ _ _ _ _ _ _); try (intros; by split).
  - intros p b w w' H. cbn in H. destruct (file_name p) eqn:E; [|discriminate H]. injection H as <-. split; [|done].
    unfold named_files. cbn. by rewrite map_filter_insert_True.
  - intros p b w [H1 H2]%named_file. cbn. by rewrite H1, H2.
  - intros p b w [H1 H2]%named_file. cbn. by rewrite H1, H2.
Defined.

(** ** Governance *)

Definition room_text : string := "room".

Definition reply (method url : string) : GovResponse := {|
  gr_status := 200; gr_headers := []; gr_text := ""; gr_method := method; gr_url := url;
  gr_json := Ok (JObj [("data", JStr room_text); ("serviceCert", JStr "cert"); ("ccfEndpoint", JStr "https://ccf");
                       ("version", JStr "1"); ("proposerId", JStr ("owner of " +:+ url))]) |}.

Definition world_gov : GovEnv CliWorld := {|
  ge_cli := world_cli;
  ge_template := sidecar_registry;
  ge_default_client := mret "";
  docker_from_env := mret ();
  container_ports _ := mret (JObj [("8080/tcp", JArr [JObj [("HostPort", JStr "32100")]])]);
  ge_request method url _ body w := (with_request w (method, url, body), Ok (reply method url));
  get_file_json _ := raise no_file;
  shell_safe_json_parse := loads;
  ge_yaml text := if bool_decide (text = room_text) then Ok (CD_config (MD_spec orders_room)) else Err (YAMLError text) |}.

Definition world_collab : CollabEnv CliWorld := {|
  co_gov := world_gov;
  query_codec := {| dump_model := CD_query;
    parse_model d := match d with CD_query q => Ok q | _ => Err (ValidationError "segments") end |};
  co_parse_policy _ := Err (ValidationError "accessMode");
  co_parse_application _ := Err (ValidationError "query");
  dump_dataset _ := "dataset";
  dump_application a := sas_name a +:+ match sas_application a with Spark_SQL s => sq_query s | Spark_ML _ => "" end;
  validate_application _ := Err (ValidationError "name") |}.

#[export] Instance world_arguments : JsonArguments (co_gov world_collab).
Proof. split; [intros j H; by apply loads_dumps | intros [] w H; by try discriminate H]. Defined.

(** ** Runs *)

Definition tcp_room : CleanRoomSpecification :=
  with_network room {| net_http := None; net_tcp := Some {| tcp_outbound := Some {| tcp_out_enabled := true; allowedIPs := [] |} |}; net_dns := None |}.

Definition local_keys : SecretStoreEntry := {|
  se_name := "keys"; secretStoreType := SS_Local_File; se_storeProviderUrl := "keys"; se_configuration := "";
  supportedSecretTypes := [Supports_Secret] |}.

Definition union_query : CliQuery := {| cq_segments :=
  [{| sg_executionSequence := 1; sg_data := "SELECT 1"; sg_preConditions := None; sg_postFilters := None |};
   {| sg_executionSequence := 2; sg_data := "SELECT 2"; sg_preConditions := Some [{| cp_viewName := "v"; cp_minRowCount := 10 |}];
      sg_postFilters := None |}] |}.

Definition partner : CollaborationContext :=
  {| cc_name := "fabrikam"; collaborator_id := "me"; governance_client_name := "gov"; cc_identities := [] |}.

Definition start : CliWorld := {|
  cw_docs := <["tcp.yaml" := Some (CD_config (MD_spec tcp_room))]>
    (<["secrets.yaml" := Some (CD_config (MD_secretstores {| secretstores := Some [local_keys] |}))]>
    (<["query.yaml" := Some (CD_query union_query)]>
    (<["collab.yaml" := Some (CD_config (MD_collaborations {| collaborations := Some [partner]; current_context := Some "fabrikam" |}))]> ∅)));
  cw_files := <["out" := ""]> ∅;
  cw_requests := [] |}.

Definition new_orders : DataStoreAdd := {|
  da_type := St_Azure_BlobStorage; da_mode := SSE_CPK; da_secret_store := "keys"; da_backingstore_id := "/sub/acct";
  da_aws_config_cgs_secret_id := ""; da_schema_file := ""; da_schema_format := "csv"; da_schema_fields := "id:integer,name:string";
  da_config_file := "stores.yaml"; da_secretstore_config_file := "secrets.yaml"; da_container_name := "" |}.

Definition union_application : ApplicationPublish := {|
  xp_workload := ""; xp_contract_id := "c1"; xp_specification_file := ""; xp_query := "query.yaml";
  xp_input_dataset := "orders:v1,items:v2"; xp_output_dataset := "result:v3" |}.

Abbreviation disable_tcp := (config_network_tcp_disable_cmd world_cli "tcp.yaml" start).
Abbreviation add_orders := (datastore_add_cmd world_cli "orders" new_orders start).
Abbreviation generate_room := (governance_deployment_generate_cmd world_gov "c1" "out" "allow-all" "gov" start).
Abbreviation publish_union := (collaboration_spark_sql_application_publish_cmd world_collab "app" union_application "collab.yaml" false start).

(** A run that succeeds ends in some state. *)
Lemma run_ok {W A} (m : M W A) w a : (m w).2 = Ok a -> exists w', m w = (w', Ok a).
Proof. destruct (m w) as [w' r]. cbn. intros ->. by exists w'. Qed.

Lemma disable_tcp_ok : disable_tcp.2 = Ok ().
Proof. vm_compute. reflexivity. Qed.

Lemma add_orders_ok : add_orders.2 = Ok ().
Proof. vm_compute. reflexivity. Qed.

Lemma generate_room_ok : generate_room.2 = Ok ().
Proof. vm_compute. reflexivity. Qed.

Lemma publish_union_ok : publish_union.2 = Ok None.
Proof. vm_compute. reflexivity. Qed.

Lemma tcp_disabled_never_deploys_witness : exists w' spec', disable_tcp = (w', Ok ()) /\
  holds world_config (spec_codec world_config) w' "tcp.yaml" spec' /\
  (forall d, get_deployment_template cli_env spec' "c1" "https://ccf" "cert" "cached" () <> ((), Ok d)) /\
  exists e, config_network_tcp_enable_cmd world_cli (fun _ => true) "tcp.yaml" [("10.0.0.1", "443")] w' = (w', Err e).
Proof.
  destruct (run_ok _ _ _ disable_tcp_ok) as [w' E]. destruct (tcp_disabled_never_deploys world_cli "tcp.yaml"
    {| net_http := None; net_tcp := Some {| tcp_outbound := Some {| tcp_out_enabled := true; allowedIPs := [] |} |}; net_dns := None |}
    {| tcp_outbound := Some {| tcp_out_enabled := true; allowedIPs := [] |} |} start w' tcp_room) as (spec' & H1 & H2 & H3).
  - eexists. split; [vm_compute; reflexivity | reflexivity].
  - reflexivity.
  - reflexivity.
  - exact E.
  - exists w', spec'. split; [exact E|]. split; [exact H1|]. split; [intros d; apply H2 | apply H3; reflexivity].
Defined.

Lemma upload_uses_new_key_witness : exists w1 key url, add_orders = (w1, Ok ()) /\ String.length key = 32%nat /\
  datastore_upload_cmd world_cli "orders" "data" "stores.yaml" "2024" w1
  = azcopy world_cli "data/*" (url +:+ "orders/2024") true (Some key) w1.
Proof.
  destruct (run_ok _ _ _ add_orders_ok) as [w1 E].
  destruct (upload_uses_new_key world_cli "orders" new_orders start w1 E) as (key & url & wa & wb & Hk & H);
    [reflexivity | reflexivity | | discriminate | discriminate | | ].
  - intros config (d & Hd & _). vm_compute in Hd. discriminate Hd.
  - intros e. cbn. intros [H|[H|H%elem_of_nil]%elem_of_cons]%elem_of_cons; [discriminate H | discriminate H | exact H].
  - exists w1, key, url. split; [exact E|]. split; [injection Hk as _ <-; reflexivity|].
    exact (H "data" "2024" w1 (same_files_refl world_cli w1)).
Defined.

Lemma deployment_policy_bound_witness : exists w' arm policy, generate_room = (w', Ok ()) /\
  bins w' !! "out/cleanroom-arm-template.json" = Some (utf8_encode (dumps_indent 0 arm)) /\
  json_at cce_policy_path arm = Ok (JStr (b64encode (utf8_encode policy))) /\
  sha256_hex (utf8_encode policy) = ALLOW_ALL_HOST_DATA.
Proof.
  destruct (run_ok _ _ _ generate_room_ok) as [w' E].
  destruct (deployment_policy_bound world_gov "c1" "out" "allow-all" "gov" start w' E)
    as (contract & spec & t & policy & arm & _ & _ & _ & (ep & cert & wa & wb & Ht) & Hg & Hf & Hp & _ & Ha).
  exists w', arm, policy. split; [exact E|]. split; [exact Hf|]. split; [exact Hp|].
  specialize (Ha eq_refl start). apply (f_equal (fun p => cw_requests p.1)) in Ha. cbn in Ha. by injection Ha as <-.
Defined.

Lemma published_application_runs_witness : exists w' client document (owners : list json), publish_union = (w', Ok None) /\
  accepted world_collab client "PUT" (user_path "app" "") (Some document) /\ length owners = 3%nat /\
  (forall config, qc_query config = AnalyticsEntry.query_text (app_query union_query) ->
     decode_query_text (fun _ => Err (TypeError "int")) config = Ok (app_query union_query)).
Proof.
  destruct (run_ok _ _ _ publish_union_ok) as [w' E].
  destruct (published_application_runs world_collab "app" union_application "collab.yaml" start w' None
              (fun _ => Err (TypeError "int")) E eq_refl)
    as (q & inputs & output & cid & client & owners & approvers & (Hq & Hi & _) & _ & Ha & Hr & Ho & _).
  assert (q = union_query) as ->.
  { destruct Hq as (d & Hd & Hq). vm_compute in Hd. injection Hd as <-. cbn in Hq. by injection Hq as <-. }
  eexists w', client, _, owners. split; [exact E|]. split; [exact Ha|]. split; [|exact Hr].
  apply Forall2_length in Ho, Hi. rewrite length_app in Ho. rewrite <- Ho, <- Hi. reflexivity.
Defined.
