(* ===== verification/CliCcfProps.v ===== *)
(** * What the CCF commands guarantee

    A tracked operation ends with its outcome; host data is only admitted with the
    policy it is the digest of; a recovery with a key's identifier never starts. *)

From S2P Require Import Prelude PyStr Base64 Json JsonFacts PyFloat Sha256 SparkModels Settings Helpers CleanroomModels SpecModels AppBuilder Md5 ConfigModels ConfigHelpers Encryptor DeployTemplate InitContainer JsonIndent CliStores CliData CliConfig CliGov CliDeploy CliCcf CliWorld.
From Stdlib Require Import Ascii Lia.

(** ** Operations *)

(** The provider's operations: a poll of a running operation answers its place
    again and brings it nearer its end; a poll of an ended one answers its final
    document; progress is a list. *)
Class OperationServer {W} (cf : CcfEnv W) (endpoint location : string) := {
  pending : W -> nat;
  outcome : W -> json;
  poll w : exists w' r operation progress,
    ge_request (cf_gov cf) "GET" (endpoint +:+ location) [] None w = (w', Ok r) /\ gr_status r = 200%Z /\ gr_json r = Ok operation /\
    json_item operation "progress" = Ok (JArr progress) /\
    match pending w with
    | O => operation = outcome w
    | S n => pending w' = n /\ outcome w' = outcome w /\ response_header "Operation-Location" r = Ok location /\
        exists status, json_item operation "status" = Ok status /\ json_eqs status "Succeeded" = false /\ json_eqs status "Failed" = false
    end;
  sleeps n w : exists w', cli_sleep (ge_cli (cf_gov cf)) n w = (w', Ok ()) /\ pending w' = pending w /\ outcome w' = outcome w
}.

Lemma display_progress_ok till operation l : json_item operation "progress" = Ok (JArr l) ->
  display_progress (JArr till) operation = Ok (JArr l).
Proof.
  intros H. unfold display_progress. rewrite H. cbn [mbind res_bind json_items].
  by rewrite (proj2 (mapM_res_Forall2 _ l (map (fun _ => ()) l))) by (clear H; induction l; by constructor).
Qed.

Section Track.
Context {W : Type} (cf : CcfEnv W) (endpoint location : string) `{!OperationServer cf endpoint location}.

(** The end of an operation. *)
Definition operation_end (method url : string) (operation : json) : res json :=
  status ← json_item operation "status";
  if json_eqs status "Succeeded" then json_item operation "resource" else operation_failed method url operation.

Definition ended (operation : json) : Prop :=
  exists status, json_item operation "status" = Ok (JStr status) /\ (status = "Succeeded" \/ status = "Failed").

Lemma send_200 method path body w w' r :
  ge_request (cf_gov cf) method (endpoint +:+ path) [] body w = (w', Ok r) -> gr_status r = 200%Z ->
  send (cf_gov cf) method endpoint path body w = (w', Ok r).
Proof. intros H Hs. unfold send. rewrite M_bind_run, H, M_bind_run. unfold checked_response. by rewrite Hs. Qed.

(** One round of the loop, after a poll that was answered. *)
Lemma track_round fuel method url till r w w1 r1 op l :
  response_header "Operation-Location" r = Ok location -> location <> "" ->
  ge_request (cf_gov cf) "GET" (endpoint +:+ location) [] None w = (w1, Ok r1) -> gr_status r1 = 200%Z -> gr_json r1 = Ok op ->
  json_item op "progress" = Ok (JArr l) ->
  track_loop cf (S fuel) endpoint method url (JArr till) r w =
  (status ← lift (json_item op "status");
   if json_eqs status "Succeeded" then lift (json_item op "resource")
   else if json_eqs status "Failed" then lift (operation_failed method url op)
   else _ ← cli_sleep (ge_cli (cf_gov cf)) 2; track_loop cf fuel endpoint method url (JArr l) r1) w1.
Proof.
  intros Hr Hl Hreq Hst Hj Hp. cbn [track_loop]. rewrite M_bind_run, Hr. unfold lift at 1, str_truthy.
  rewrite bool_decide_false by done. cbn [negb]. rewrite M_bind_run, (send_200 _ _ _ _ _ _ Hreq Hst), M_bind_run, Hj.
  unfold lift at 1. by rewrite M_bind_run, (display_progress_ok _ _ _ Hp).
Qed.

Lemma track_loop_end method url fuel : forall till r w, pending w < fuel -> ended (outcome w) ->
  response_header "Operation-Location" r = Ok location -> location <> "" ->
  exists w', track_loop cf fuel endpoint method url (JArr till) r w = (w', operation_end method url (outcome w)).
Proof.
  induction fuel as [|fuel IH]; intros till r w Hf Hend Hr Hl; [lia|].
  destruct (poll w) as (w1 & r1 & op & l & Hreq & Hst & Hj & Hp & Hn).
  rewrite (track_round _ _ _ _ _ _ _ _ _ _ Hr Hl Hreq Hst Hj Hp), M_bind_run. destruct (pending w) as [|n] eqn:En.
  - subst op. destruct Hend as (status & Hs & Hcase). unfold operation_end. rewrite Hs. unfold lift at 1. cbv iota beta.
    cbn [mbind res_bind]. destruct Hcase as [-> | ->]; eexists; reflexivity.
  - destruct Hn as (Hn & Ho & Hh & status & Hs & H1 & H2). rewrite Hs. unfold lift at 1. cbv iota beta. rewrite H1, H2, M_bind_run.
    destruct (sleeps 2 w1) as (w2 & -> & Hp2 & Ho2). rewrite <- Ho, <- Ho2 in *. apply IH; [lia | done..].
Qed.

(** C38. A tracked operation ends with its outcome: however many polls the provider
    needs, with more rounds than that the command answers the resource of an
    operation that succeeded and an error with the final document of one that
    failed. *)
Theorem operation_tracked fuel r w :
  response_header "Operation-Location" r = Ok location -> location <> "" -> pending w < fuel ->
  (forall v, json_item (outcome w) "status" = Ok (JStr "Succeeded") -> json_item (outcome w) "resource" = Ok v ->
     exists w', track_operation cf fuel endpoint r w = (w', Ok v)) /\
  (forall code, json_item (outcome w) "status" = Ok (JStr "Failed") -> json_item (outcome w) "statusCode" = Ok code ->
     exists w', track_operation cf fuel endpoint r w
       = (w', Err (CLIError (gr_method r +:+ " " +:+ gr_url r +:+ " failed with status: " +:+ py_str code +:+ " response: "
                             +:+ dumps_indent 0 (outcome w))))).
Proof.
  intros Hr Hl Hf. split; intros x Hs Hx;
    destruct (track_loop_end (gr_method r) (gr_url r) fuel [] r w Hf ltac:(eexists; eauto) Hr Hl) as [w' H]; exists w';
    unfold track_operation; rewrite H; unfold operation_end, operation_failed; rewrite Hs; cbn [mbind res_bind json_eqs];
    [by rewrite bool_decide_true, Hx by done | by rewrite bool_decide_false, Hx by done].
Qed.
End Track.

(** ** Recovery and join policies *)

Section Network.
Context {W : Type} (cf : CcfEnv W).

(** C40. A network cannot be recovered with the identifier of a key: when it is given
    in place of the private key's file, the command fails before anything is asked
    of the provider, whatever the other arguments and the network. *)
Theorem recover_by_key_id_fails fuel name a w :
  nr_encryption_private_key a = None -> ostr_truthy (nr_encryption_key_id a) = true ->
  exists e, ccf_network_recover cf fuel name a w
            = ((cli_exists (ge_cli (cf_gov cf)) (nr_previous_service_cert a) w).1, Err e).
Proof.
  intros Hk Hid. unfold ccf_network_recover, must_exist. rewrite !M_bind_run.
  destruct (cli_exists (ge_cli (cf_gov cf)) (nr_previous_service_cert a) w) as [w1 [[]|e]]; cbn [fst]; [|by eexists..].
  cbv iota. unfold mret at 1, M_ret. cbv iota beta. rewrite M_bind_run. unfold recovery_keys. rewrite Hk, Hid. cbn [ostr_truthy orb andb].
  destruct (ostr_truthy (nr_recovery_service_name a) || ostr_truthy (nr_member_name a)); by eexists.
Qed.

(** The content of a request that was answered with 200. *)
Definition provider_accepted (endpoint path : string) (content : json) : Prop :=
  exists wa wb r, ge_request (cf_gov cf) "POST" (endpoint +:+ path) [] (Some content) wa = (wb, Ok r) /\ gr_status r = 200%Z.

Lemma provider_ask_ok endpoint path content w w' j :
  provider_ask cf endpoint path content w = (w', Ok j) -> provider_accepted endpoint path content.
Proof.
  intros (w1 & r & H & _)%M_bind_ok. apply M_bind_ok in H as (w2 & r1 & H & H1).
  apply M_bind_ok in H1 as (w3 & [] & [-> Hc]%lift_ok & [= <- <-]). unfold checked_response in Hc.
  destruct (gr_status r1 =? 200)%Z eqn:E; [|discriminate Hc]. apply Z.eqb_eq in E. by eexists _, _, _.
Qed.

End Network.

(** * A provider in memory

    A provider whose operations end at the third poll, over the state of
    [CliWorld]: the instance of [OperationServer], and runs of the commands. *)
Definition running : json := JObj [("status", JStr "Running"); ("progress", JArr [JStr "creating"])].
Definition finished : json :=
  JObj [("status", JStr "Succeeded"); ("progress", JArr [JStr "creating"; JStr "created"]); ("resource", JStr "network")].

Definition left_over (w : CliWorld) : nat := 2 - length (cw_requests w).

Definition operation_reply (w : CliWorld) (method url : string) : GovResponse := {|
  gr_status := 200; gr_headers := [("operation-location", "/operations/1")]; gr_text := ""; gr_method := method; gr_url := url;
  gr_json := Ok match left_over w with O => finished | S _ => running end |}.

Definition provider_gov : GovEnv CliWorld := {|
  ge_cli := world_cli;
  ge_template := ge_template world_gov;
  ge_default_client := mret "";
  docker_from_env := mret ();
  container_ports := container_ports world_gov;
  ge_request method url _ body w := (with_request w (method, url, body), Ok (operation_reply w method url));
  get_file_json := get_file_json world_gov;
  shell_safe_json_parse := loads;
  ge_yaml := ge_yaml world_gov |}.

Definition provider_world : CcfEnv CliWorld := {|
  cf_gov := provider_gov;
  cf_config _ := mret "";
  cf_post_form url _ _ w := (w, Ok (operation_reply w "POST" url));
  cf_unverified_get url w := (w, Ok (operation_reply w "GET" url));
  compose_up _ _ := mret ();
  compose_down _ _ := mret ();
  compose_port _ _ := mret 32100%Z;
  cf_uid := 1000%Z; cf_gid := 1000%Z; cf_home := "/home"; cf_module_dir := "/azext" |}.

#[export] Instance provider_operations : OperationServer provider_world "http://localhost:32100" "/operations/1".
Proof.
  refine (@Build_OperationServer _ provider_world _ _ left_over (fun _ => finished) _ _).
  - intros w. destruct (left_over w) eqn:E.
    + eexists _, _, finished, _. split; [reflexivity|]. split; [reflexivity|]. split; [cbn; by rewrite E|]. by split.
    + eexists _, _, running, _. split; [reflexivity|]. split; [reflexivity|]. split; [cbn; by rewrite E|]. split; [reflexivity|].
      split; [unfold left_over in *; cbn; rewrite length_app; cbn; lia|]. split; [reflexivity|]. split; [reflexivity|].
      eexists. by split.
  - intros n w. by eexists.
Defined.

Lemma operation_tracked_witness : exists w',
  track_operation provider_world 3 "http://localhost:32100" (operation_reply start "POST" "http://localhost:32100/networks/n/create") start
  = (w', Ok (JStr "network")).
Proof.
  refine (proj1 (operation_tracked provider_world "http://localhost:32100" "/operations/1" 3 _ start _ _ _) (JStr "network") _ _).
  - reflexivity.
  - discriminate.
  - vm_compute. repeat constructor.
  - reflexivity.
  - reflexivity.
Defined.

Definition by_key_id : NetworkRecover := {|
  nr_previous_service_cert := "out"; nr_encryption_private_key := None; nr_encryption_key_id := Some "https://kv/keys/k";
  nr_recovery_service_name := None; nr_member_name := None; nr_infra_type := "virtual"; nr_node_log_level := JNull;
  nr_security_policy_creation_option := "cached"; nr_security_policy := None; nr_provider_config := None;
  nr_provider_client_name := "ccf-provider" |}.

Lemma recover_by_key_id_fails_witness : exists e, ccf_network_recover provider_world 3 "n" by_key_id start = (start, Err e).
Proof. exact (recover_by_key_id_fails provider_world 3 "n" by_key_id start eq_refl eq_refl). Defined.

Definition with_policy : CliWorld := with_files start (<["policy.rego" := "package policy"]> (cw_files start)).
Definition policy_digest : string := Eval vm_compute in sha256_hex (utf8_encode "package policy").

Abbreviation admit_policy := (ccf_network_join_policy_add_snp_host_data provider_world "n" "virtual" policy_digest
  (Some "policy.rego") None "ccf-provider" with_policy).

Lemma admit_policy_ok : admit_policy.2 = Ok running.
Proof. vm_compute. reflexivity. Qed.

